(* ===== verification/_CoqProject ===== *)
-Q . S2P
Prelude.v
Config.v
Memory.v
CString.v
Heap.v
KHeap.v
Paging.v
Terminal.v
Gdt.v
Disk.v
PathParser.v
Fat16.v
Fat16Facts.v
Lookup.v
File.v
Open.v
Mount.v
Elf.v
Load.v
Kernel.v
Task.v
Schedule.v
Process.v
ProcessMem.v
ProcessArgs.v
ProcessLoad.v
Spawn.v
ProcessEnd.v
Idt.v
Keyboard.v
Isr80h.v
Exit.v
Lifecycle.v
Syscalls.v
Main.v
UserLib.v
UserParse.v
