(* ===== verification/Prelude.v ===== *)
(** * LiebeOS: a verification library

    LiebeOS is a small 32-bit x86 kernel in C with a user library and three
    sample programs.  This library models the C code function by function and
    proves what makes each part correct.

    ** How the program fits together

    [kernel_main] clears the screen, builds the segment table, sets up the
    kernel heap, the file systems, the disk, the interrupt table, the kernel's
    page directory, the system calls and the keyboard, then loads the shell.
    A program is an ELF or flat image read through the file layer (path
    parser, FAT16, disk stream, ATA driver); a process owns its image, a stack,
    a table of 1024 allocations and a keyboard buffer; its task owns a page
    directory and the saved registers.  Interrupts and [int 0x80] enter the
    kernel with the registers in a frame on the stack, switch to the kernel's
    pages, save the frame in the task, run a callback or a command, and go
    back through the task's pages.  Programs reach the kernel only by those
    calls.

    ** State

    Memory is one map from addresses to bytes ([Memory.mem]); everything C
    keeps in memory (heap table, page tables, FAT structures, tasks,
    processes, argument lists, descriptors, gates) is at its address and at the
    offset the compiler gives it, so aliasing is that of the code.  Globals
    that hold a few words are record fields: [Terminal.terminal] (the cursor),
    [Fat16.fs] (the disk object, its device and memory), [File.vfs] (the two
    tables of [file.c] over it), [Kernel.kernel] (paging registers, task and
    process globals, the callback and command tables), [UserLib.user] (a
    program's memory and [strtok]'s globals).  Stateful code is in the monad
    [M] of this file: it returns ([Ret]), enters one of the kernel's endless
    loops ([Hang]), does something C leaves undefined ([Fault]) or exhausts
    the fuel of an unbounded loop ([NoFuel]).

    ** Files

    Under src/src:
    - [Memory] is memory/memory.c; [CString] is string/string.c; [Config] is
      config.h, status.h and macros.h.
    - [Heap] is memory/heap/heap.c, [KHeap] is kheap.c.  An abstract heap is a
      list of cells, free or an allocation; malloc and free refine first fit
      and release on it.  [KHeap.KAllocator] is the interface through which
      everything else allocates; [KHeap.kernel_allocator] discharges it.
    - [Paging] is memory/paging/paging.c: directories and tables against the
      function from pages to entries.
    - [Terminal] is the screen half of kernel/kernel.c, refined to a linear
      screen; [Gdt] is gdt/gdt.c against the processor's reading of a
      descriptor.
    - [Disk] is disk/disk.c and disk/streamer.c over a device parameter;
      [PathParser] is fs/pparser.c; [Fat16] is fs/fat/fat16.c with its
      theorems in [Fat16Facts] (reading, seeking, counting) and [Lookup]
      (finding a path in the directories); [File] is fs/file.c (and
      [disk_search_and_init], which needs the file systems), with theorems in
      [Open] (a file from [fopen] to [fclose]) and [Mount] (attaching the
      volume of the disk).
    - [Elf] is loader/formats/elf.c and elfloader.c; [Load] takes [elf_load]
      and the flat loader through the file layer.
    - [Kernel] has the state the upper half shares, the address translation
      and [kernel_page]; [Task] is task/task.c and task.asm; [Process] is
      task/process.c.  The theorems on tasks are in [Task] (the list, strings
      out of a task) and [Schedule] (taking turns); those on processes in
      [ProcessMem] (the allocation table), [ProcessArgs] (program arguments),
      [ProcessLoad] (what mapping an image shows), [Spawn] ([process_load]
      from the path to a process that can run), [ProcessEnd] (slots, the
      allocations), [Exit] (the end of a program and what runs next) and
      [Lifecycle] (loading and then terminating).
    - [Idt] is idt/idt.c, [Keyboard] is keyboard/keyboard.c and classic.c,
      [Isr80h] is the directory isr80h; [Syscalls] follows whole calls from the
      trap to the return.
    - [Main] is [kernel_main].

    Under src/programs:
    - [UserLib] is stdlib/src and the programs shell, echo and blank;
      [UserParse] proves what the command parser builds.  [UserLib.SysCalls]
      states what a system call promises a program; [console_calls] is a
      machine that satisfies it.

    ** What the theorems show

    - Allocation: live blocks never overlap under any sequence of calls;
      malloc is first fit, free gives back exactly the block; when no free run
      is long enough the answer is null if the pool ends in a taken block, and
      otherwise, a defect of the code, a block that reaches past the pool.
    - Address spaces: mapping changes exactly the pages asked for; making and
      freeing a directory balances; a loaded ELF process sees its segments'
      bytes, with the write permission its headers ask for; [maps] and
      [mmu_ok] connect page entries to the processor.
    - Processes and tasks: the invariant of the allocation table is kept by
      [process_malloc] and [process_free]; registers saved on entry are those
      resumed; strings and arguments cross address spaces unharmed; the task
      list is a doubly linked list that [task_new] extends and [task_free]
      restores; [task_next] gives every task its turn.
    - The life of a program: for an ELF or flat file on the volume
      [process_load] makes a process that sees the bytes of its file where the
      headers put them, with a task that starts at the file's entry point
      ([Spawn.started]); booting ends in user mode at the entry point of the
      shell; exit, a fault and termination give back its allocations, image,
      stack, task and pages, and another task goes on.
    - Files: a path parses to the components the grammar gives; [fat16_open]
      finds what an abstract lookup in the directory tree finds; the disk's
      boot sector mounts; [fopen], [fread] and [fclose] deliver the file's
      bytes and leave the descriptor table as it was; a FAT16 read delivers
      the bytes of the file's clusters; a stream read is a slice of the disk.
    - Interaction: print, malloc and key calls from the trap to the return; the
      keyboard buffer is a queue; booting establishes the states the other
      theorems start from ([init_early_ready], [init_late_ready]).
    - User land: numerals, formatted output, the line editor and the command
      parser against list functions.
    Theorems named [_stale], [_short], [_overrun], [_eight], [_null] and the
    like state what the code does where that is not what it means to do.

    ** Fuel and bounds

    A loop with a counter runs on that counter.  Scans for a terminator,
    cluster chains, directory scans, the wait for a key and the command loop
    take a fuel argument; each theorem says how much is enough in terms of its
    input (the string's length, the number of clusters, the keys that arrive)
    and then proves that the code returns, so [NoFuel] never hides a case.
    Messages of the kernel have fewer than 60 bytes, the fuel of [kpanic].
    Integers are [Z]; each conversion and each wrap-around is written with the
    functions below.  Signed overflow, which C leaves undefined, wraps as it
    does on the machine (the sum call).  Addresses are 32 bits, sizes of
    allocations up to 0xFFFFF000.

    ** Assumptions

    - The kernel's code runs on its own directory, which maps every address
      to itself ([init_late_ready] proves it does); code that runs on a task's
      directory goes through [mmu], described by [mmu_ok] and instantiated by
      [Kernel.walk].
    - The disk is a parameter: what a sector read puts on the port.  Port
      reads of the keyboard are arguments.
    - A file system is a record of operations ([File.filesystem_ops]); FAT16
      is the one the code has.
    - A volume can be walked ([boot_ok], [volume_ok], [path_good], [chain_ok]):
      clusters are not empty, the directories looked into end within their
      first sector (the scan does not end otherwise, [directory_scan_diverges])
      and in a cluster below 2 GB, and so do the clusters of the files read up
      to the last byte read, since a stream's position is an [int].  These are
      conditions on what is looked at, not on the size of the volume: the
      witnesses mount the header that boot.asm assembles (128 sectors per
      cluster, 512 reserved sectors, two tables of 256) and read from that
      geometry.
    - Globals and literals are at addresses outside the heap; where two of
      them must not overlap the theorem says so.
    - The stubs of liebeos.asm satisfy [SysCalls].

    ** Not modelled

    The boot sector, the entry stubs and register loads written in assembly
    (gdt_load, tss_load, idt_load, enable_paging, enable_interrupts) have no
    effect on the modelled state; port instructions are arguments or traces.
    task_return and the stubs of liebeos.asm are modelled where C depends on
    them.  Interrupts do not arrive inside the kernel: the entry code runs
    with interrupts off.  Timing, the scripts and the build are left out.

    The class [SysCalls] is what the programs' theorems assume of the kernel;
    [Syscalls] proves print, malloc and getkey over the kernel model one call
    at a time.  No instance of the class is built from the kernel, since a
    program would then share one memory with the kernel that runs it, seen
    through its own page tables.  What the kernel does is what the class says
    when it has a free block for the copy that print makes
    ([Syscalls.print_call]; the failure of that copy is ignored), a free entry
    and enough blocks for malloc ([malloc_call]; null otherwise), and fewer
    than 1024 pending keys ([key_press_and_getkey]). *)
From Stdlib Require Export ZArith Lia.
From stdpp Require Export base gmap list strings numbers.

#[export] Set Default Goal Selector "!".
#[global] Open Scope Z_scope.

(** ** Machine integers

    A C integer of width [w] is a [Z]; every conversion the source performs is
    written out with one of these functions.  [u8], [u16], [u32] are the
    conversions to the unsigned types, [i8] and [i32] the (implementation
    defined, two's complement) conversions to [char] and [int]. *)

Definition u8 (x : Z) : Z := x mod 256.
Definition u16 (x : Z) : Z := x mod 65536.
Definition u32 (x : Z) : Z := x mod 4294967296.

Definition i8 (x : Z) : Z :=
  let y := x mod 256 in if y <? 128 then y else y - 256.
Definition i32 (x : Z) : Z :=
  let y := x mod 4294967296 in if y <? 2147483648 then y else y - 4294967296.

(** C's [/] and [%] on [int]: division truncates towards zero. *)
Definition cdiv (x y : Z) : Z := Z.quot x y.
Definition cmod (x y : Z) : Z := Z.rem x y.

(** ** Outcomes of stateful code

    A function of the kernel that may not return an ordinary result yields one
    of four outcomes: it returns a value and the new state; it enters one of
    the kernel's [while (1)] loops (a panic); it performs an access the C
    standard leaves undefined (a wild pointer, a type confusion); or the fuel
    the model gave to an unbounded loop is exhausted. *)

Inductive outcome (S A : Type) : Type :=
| Ret (a : A) (s : S)
| Hang (s : S)
| Fault
| NoFuel.
Arguments Ret {S A} a s.
Arguments Hang {S A} s.
Arguments Fault {S A}.
Arguments NoFuel {S A}.

Definition M (S A : Type) : Type := S -> outcome S A.

Definition ret {S A} (a : A) : M S A := fun s => Ret a s.
Definition bind {S A B} (c : M S A) (k : A -> M S B) : M S B :=
  fun s => match c s with
           | Ret a s' => k a s'
           | Hang s' => Hang s'
           | Fault => Fault
           | NoFuel => NoFuel
           end.
Definition get {S} : M S S := fun s => Ret s s.
Definition put {S} (s : S) : M S unit := fun _ => Ret tt s.
Definition modify {S} (f : S -> S) : M S unit := fun s => Ret tt (f s).
Definition gets {S A} (f : S -> A) : M S A := fun s => Ret (f s) s.
Definition hang {S A} : M S A := fun s => Hang s.
Definition fault {S A} : M S A := fun _ => Fault.
Definition nofuel {S A} : M S A := fun _ => NoFuel.
(** [opt o] reads through a pointer: [None] is a wild access. *)
Definition opt {S A} (o : option A) : M S A :=
  match o with Some a => ret a | None => fault end.

Declare Scope kernel_scope.
Delimit Scope kernel_scope with kernel.
Notation "'let!' x ':=' c 'in' k" := (bind c (fun x => k))
  (at level 10, x pattern, c at level 100, k at level 200)
  : kernel_scope.
Notation "c ';;;' k" := (bind c (fun _ => k))
  (at level 100, k at level 200, right associativity) : kernel_scope.
#[global] Open Scope kernel_scope.

(** Loops [for (i = from; i < from + n; i++)] over a pure state. *)
Fixpoint for_loop {S} (n : nat) (i : Z) (body : Z -> S -> S) (s : S) : S :=
  match n with
  | O => s
  | Datatypes.S n' => for_loop n' (i + 1) body (body i s)
  end.

(** ** Automation *)

(** Linear arithmetic with division and remainder. *)
Ltac dlia := Z.to_euclidean_division_equations; lia.

(** Case analysis on the boolean tests of the code, with their meaning. *)
Ltac case_bool :=
  match goal with
  | |- context [ if ?a <? ?b then _ else _ ] => destruct (Z.ltb_spec a b)
  | |- context [ if ?a <=? ?b then _ else _ ] => destruct (Z.leb_spec a b)
  | |- context [ if ?a =? ?b then _ else _ ] => destruct (Z.eqb_spec a b)
  | _ : context [ if ?a <? ?b then _ else _ ] |- _ => destruct (Z.ltb_spec a b)
  | _ : context [ if ?a <=? ?b then _ else _ ] |- _ => destruct (Z.leb_spec a b)
  | _ : context [ if ?a =? ?b then _ else _ ] |- _ => destruct (Z.eqb_spec a b)
  end.
Ltac case_bools := repeat (case_bool; try lia).

(** Decide every integer comparison in the goal, closing the impossible and
    the trivial cases. *)
Ltac zcases_step :=
  match goal with
  | |- context [ ?a <? ?b ] => destruct (Z.ltb_spec a b)
  | |- context [ ?a <=? ?b ] => destruct (Z.leb_spec a b)
  | |- context [ ?a =? ?b ] => destruct (Z.eqb_spec a b)
  end.
Ltac zcases :=
  repeat (zcases_step; cbn [negb andb orb]; try lia); cbn [negb andb orb];
  try done; try (exfalso; lia).

(** Unfold the machine-integer conversions and decide the goal. *)
Ltac wordlia :=
  unfold u8, u16, u32, i8, i32, cdiv, cmod in *; case_bools; dlia.

(** ** Generic lemmas *)

Lemma u8_range x : 0 <= u8 x < 256.
Proof. unfold u8; dlia. Qed.
Lemma u16_range x : 0 <= u16 x < 65536.
Proof. unfold u16; dlia. Qed.
Lemma u32_range x : 0 <= u32 x < 4294967296.
Proof. unfold u32; dlia. Qed.
Lemma i8_range x : -128 <= i8 x < 128.
Proof. wordlia. Qed.
Lemma i32_range x : -2147483648 <= i32 x < 2147483648.
Proof. wordlia. Qed.

Lemma u8_id x : 0 <= x < 256 -> u8 x = x.
Proof. intros; unfold u8; dlia. Qed.
Lemma u16_id x : 0 <= x < 65536 -> u16 x = x.
Proof. intros; unfold u16; dlia. Qed.
Lemma u32_id x : 0 <= x < 4294967296 -> u32 x = x.
Proof. intros; unfold u32; dlia. Qed.
Lemma i32_id x : -2147483648 <= x < 2147483648 -> i32 x = x.
Proof. intros; wordlia. Qed.
Lemma u8_u8 x : u8 (u8 x) = u8 x.
Proof. apply u8_id, u8_range. Qed.
Lemma u32_u32 x : u32 (u32 x) = u32 x.
Proof. apply u32_id, u32_range. Qed.
Lemma u32_i32 x : u32 (i32 x) = u32 x.
Proof. wordlia. Qed.
Lemma i32_u32 x : i32 (u32 x) = i32 x.
Proof. wordlia. Qed.

Lemma i8_inj a b : 0 <= a < 256 -> 0 <= b < 256 -> i8 a = i8 b -> a = b.
Proof. intros; wordlia. Qed.

Lemma cdiv_pos x y : 0 <= x -> 0 < y -> cdiv x y = x / y.
Proof. intros; unfold cdiv; apply Z.quot_div_nonneg; lia. Qed.
Lemma cmod_pos x y : 0 <= x -> 0 < y -> cmod x y = x mod y.
Proof. intros; unfold cmod; apply Z.rem_mod_nonneg; lia. Qed.

Create HintDb word.
Create Rewrite HintDb word.
#[export] Hint Rewrite u8_u8 u32_u32 u32_i32 i32_u32 : word.
#[export] Hint Resolve u8_range u16_range u32_range i8_range i32_range : word.

(** Monad equations, to be used by rewriting. *)
Lemma bind_Ret {S A B} (c : M S A) (k : A -> M S B) s a s' :
  c s = Ret a s' -> bind c k s = k a s'.
Proof. intros E; unfold bind; by rewrite E. Qed.

Lemma bind_Ret_inv {S A B} (c : M S A) (k : A -> M S B) s b s'' :
  bind c k s = Ret b s'' -> exists a s', c s = Ret a s' /\ k a s' = Ret b s''.
Proof. unfold bind; destruct (c s); intros E; try discriminate; eauto. Qed.

Lemma for_loop_succ_r {S} n i body (s : S) :
  for_loop (Datatypes.S n) i body s = body (i + Z.of_nat n) (for_loop n i body s).
Proof.
  revert i s; induction n as [|n IH]; intros i s.
  - cbn. f_equal; lia.
  - cbn [for_loop] in *. rewrite IH. f_equal; lia.
Qed.

(** An invariant indexed by the loop counter. *)
Lemma for_loop_ind {S} (P : Z -> S -> Prop) n i body s :
  P i s ->
  (forall j t, i <= j < i + Z.of_nat n -> P j t -> P (j + 1) (body j t)) ->
  P (i + Z.of_nat n) (for_loop n i body s).
Proof.
  revert i s; induction n as [|n IH]; intros i s H0 Hstep; cbn [for_loop].
  - rewrite Z.add_0_r. exact H0.
  - replace (i + Z.of_nat (Datatypes.S n)) with ((i + 1) + Z.of_nat n) by lia.
    apply IH.
    + apply Hstep; [lia | exact H0].
    + intros j t Hj; apply Hstep; lia.
Qed.

(** ** Pages and flag bits *)

(** Clearing the low 12 bits of a 32-bit value. *)
Lemma land_page x : 0 <= x < 4294967296 -> Z.land x 0xfffff000 = x - x mod 4096.
Proof.
  intros Hx. change 0xfffff000 with (Z.ldiff (Z.ones 32) (Z.ones 12)).
  assert (E : Z.land x (Z.ldiff (Z.ones 32) (Z.ones 12)) = Z.ldiff x (Z.ones 12)).
  { apply Z.bits_inj'. intros n Hn. rewrite Z.land_spec, !Z.ldiff_spec.
    destruct (Z.ltb_spec n 32).
    - rewrite (Z.ones_spec_low 32) by lia. cbn. done.
    - rewrite <- (Z.mod_small x (2 ^ 32)) by (cbn; lia).
      rewrite Z.mod_pow2_bits_high by lia. done. }
  rewrite E, Z.ldiff_ones_r, Z.shiftl_mul_pow2, Z.shiftr_div_pow2 by lia.
  change (2 ^ 12) with 4096. dlia.
Qed.

(** Or-ing two values whose bits do not meet adds them. *)
Lemma lor_disjoint n x f : 0 <= n -> x mod 2 ^ n = 0 -> 0 <= f < 2 ^ n -> Z.lor x f = x + f.
Proof.
  intros Hn Hx Hf. rewrite <- Z.lxor_lor, <- Z.add_nocarry_lxor; [done| |].
  all: apply Z.bits_inj'; intros k Hk; rewrite Z.land_spec, Z.bits_0;
    destruct (Z.ltb_spec k n);
    [ rewrite (Z.div_mod x (2 ^ n)), Hx, Z.add_0_r, Z.mul_comm, Z.mul_pow2_bits_low by lia; done
    | rewrite <- (Z.mod_small f (2 ^ n)), Z.mod_pow2_bits_high by lia; apply andb_false_r ].
Qed.

(** Or-ing flags into an aligned address adds them. *)
Lemma lor_page x f : x mod 4096 = 0 -> 0 <= f < 4096 -> Z.lor x f = x + f.
Proof. intros. by apply (lor_disjoint 12). Qed.

Lemma u32_lor x y : u32 (Z.lor x y) = Z.lor (u32 x) (u32 y).
Proof.
  unfold u32. change 4294967296 with (2 ^ 32). rewrite <- !Z.land_ones by lia.
  apply Z.land_lor_distr_l.
Qed.

(** Small flag sets combine within their width. *)
Lemma lor_small n x y : 0 <= n -> 0 <= x < 2 ^ n -> 0 <= y < 2 ^ n -> 0 <= Z.lor x y < 2 ^ n.
Proof.
  intros Hn Hx Hy. split; [by apply Z.lor_nonneg; lia|].
  replace (Z.lor x y) with (Z.lor x y mod 2 ^ n); [apply Z.mod_pos_bound; lia|].
  rewrite <- Z.land_ones, Z.land_lor_distr_l, !Z.land_ones, !Z.mod_small by lia. done.
Qed.
