(* ===== verification/Config.v ===== *)
(** * Configuration and status codes

    The constants of [config.h] and [status.h] the model uses. *)
From S2P Require Import Prelude.

Definition KERNEL_CODE_SELECTOR : Z := 0x08.
Definition KERNEL_DATA_SELECTOR : Z := 0x10.
Definition LIEBE_OS_TOTAL_INTERRUPTS : Z := 512.

Definition LIEBE_OS_HEAP_SIZE_BYTES : Z := 104857600.
Definition LIEBE_OS_HEAP_BLOCK_SIZE : Z := 4096.
Definition LIEBE_OS_HEAP_ADDRESS : Z := 0x01000000.
Definition LIEBE_OS_HEAP_TABLE_ADDRESS : Z := 0x00007E00.

Definition LIEBE_OS_SECTOR_SIZE : Z := 512.
Definition LIEBE_OS_MAX_PATH_LEN : Z := 108.
Definition LIEBE_OS_MAX_FILESYSTEMS : Z := 12.
Definition LIEBE_OS_MAX_FILE_DESCRIPTORS : Z := 512.
Definition LIEBE_OS_TOTAL_GDT_SEGMENTS : Z := 6.

Definition LIEBE_OS_PROGRAM_VIRTUAL_ADDRESS : Z := 0x400000.
Definition LIEBE_OS_USER_PROGRAM_STACK_SIZE : Z := 1024 * 16.
Definition LIEBE_OS_PROGRAM_VIRTUAL_STACK_ADDRESS_START : Z := 0x3FF000.
Definition LIEBE_OS_PROGRAM_VIRTUAL_STACK_ADDRESS_END : Z :=
  LIEBE_OS_PROGRAM_VIRTUAL_STACK_ADDRESS_START - LIEBE_OS_USER_PROGRAM_STACK_SIZE.

Definition USER_DATA_SEGMENT : Z := 0x23.
Definition USER_CODE_SEGMENT : Z := 0x1b.

Definition LIEBE_OS_MAX_PROGRAM_ALLOCATIONS : Z := 1024.
Definition LIEBE_OS_MAX_PROCESSES : Z := 12.
Definition LIEBE_OS_ISR80H_MAX_COMMANDS : Z := 1024.
Definition LIEBE_OS_KEYBOARD_BUFFER_SIZE : Z := 1024.

(** [status.h]: functions return [0] or the negation of one of these. *)
Definition OK : Z := 0.
Definition EIO : Z := 1.
Definition EINVARG : Z := 2.
Definition ENOMEM : Z := 3.
Definition EBADPATH : Z := 4.
Definition EFSNOTUS : Z := 5.
Definition ERDONLY : Z := 6.
Definition EUNIMP : Z := 7.
Definition EISTKN : Z := 8.
Definition EINFORMAT : Z := 9.

(** [macros.h]: [ISERR] casts its argument to [int] first. *)
Definition ISERR (val : Z) : bool := i32 val <? 0.
Definition ISERR_I (val : Z) : bool := val <? 0.
(** [ERROR] turns a status into a pointer, [ERROR_I] a pointer into a status. *)
Definition ERROR (val : Z) : Z := u32 val.
Definition ERROR_I (val : Z) : Z := u32 val.
