(* ===== verification/Memory.v ===== *)
(** * Flat memory and [memory.c]

    The machine's memory as the kernel sees it: a map from 32-bit addresses to
    bytes (an absent address reads as zero, so every memory is some value of
    the type).  On top of it: 32-bit little-endian words, byte strings, and
    the three functions of [src/memory/memory.c] ([programs/stdlib] carries
    the same file). *)
From S2P Require Import Prelude.

Abbreviation mem := (gmap Z Z).

Implicit Types (m : mem) (a b : Z).

(** One byte. *)
Definition rd (m : mem) (a : Z) : Z := u8 (default 0 (m !! a)).
Definition wr (m : mem) (a v : Z) : mem := <[a := u8 v]> m.

(** A 32-bit word, least significant byte first (i686). *)
Definition ld32 (m : mem) (a : Z) : Z :=
  rd m a + 256 * rd m (a + 1) + 65536 * rd m (a + 2) + 16777216 * rd m (a + 3).
Definition st32 (m : mem) (a v : Z) : mem :=
  wr (wr (wr (wr m a v) (a + 1) (v / 256)) (a + 2) (v / 65536)) (a + 3) (v / 16777216).

(** A 16-bit word. *)
Definition ld16 (m : mem) (a : Z) : Z := rd m a + 256 * rd m (a + 1).
Definition st16 (m : mem) (a v : Z) : mem := wr (wr m a v) (a + 1) (v / 256).

(** The [n] bytes at [a], and writing a byte string at [a]. *)
Fixpoint bytes (m : mem) (a : Z) (n : nat) : list Z :=
  match n with
  | O => []
  | S n' => rd m a :: bytes m (a + 1) n'
  end.
Fixpoint store_bytes (m : mem) (a : Z) (l : list Z) : mem :=
  match l with
  | [] => m
  | x :: l' => store_bytes (wr m a x) (a + 1) l'
  end.

(** [for (int i = 0; i < size; i++) c_ptr[i] = (char)c;] *)
Definition memset (ptr c size : Z) (m : mem) : mem :=
  for_loop (Z.to_nat (u32 size)) 0 (fun i m => wr m (ptr + i) c) m.

(** A [const char *] or [void *] that is only read is a [cbuf]: the function
    from an offset to the byte found there.  [at_mem m p] is the pointer [p]
    into the memory [m], [at_list l] a local array or a literal. *)
Definition cbuf : Type := Z -> Z.
Definition at_mem (m : mem) (p : Z) : cbuf := fun i => rd m (p + i).
Definition at_list (l : list Z) : cbuf := fun i => default 0 (l !! Z.to_nat i).

(** [while (count-- > 0)]; the bytes that differ are compared as (signed)
    [char]. *)
Fixpoint memcmp_loop (count : nat) (c1 c2 : cbuf) (i : Z) : Z :=
  match count with
  | O => 0
  | S n =>
    if i8 (c1 i) =? i8 (c2 i) then memcmp_loop n c1 c2 (i + 1)
    else if i8 (c1 i) <? i8 (c2 i) then -1 else 1
  end.
Definition memcmp (s1 s2 : cbuf) (count : Z) : Z := memcmp_loop (Z.to_nat count) s1 s2 0.

(** [while (len--)]: the test is [len != 0], so a negative length runs through
    all [2^32] values. *)
Fixpoint memcpy_loop (len : nat) (d s : Z) (m : mem) : mem :=
  match len with
  | O => m
  | S n => memcpy_loop n (d + 1) (s + 1) (wr m d (rd m s))
  end.
Definition memcpy (dest src len : Z) (m : mem) : mem :=
  memcpy_loop (Z.to_nat (u32 len)) dest src m.

(** Reference semantics of [memcmp]: lexicographic order of the two byte
    strings, each byte read as a signed [char]. *)
Fixpoint lex_cmp (l1 l2 : list Z) : Z :=
  match l1, l2 with
  | x :: l1', y :: l2' =>
    match i8 x ?= i8 y with Eq => lex_cmp l1' l2' | Lt => -1 | Gt => 1 end
  | _, _ => 0
  end.

(** The first [n] bytes of a buffer. *)
Definition prefix (c : cbuf) (n : Z) : list Z := map c (seqZ 0 n).

(** ** Bytes and words *)

Create HintDb mem.
Create Rewrite HintDb mem.

Lemma rd_range m a : 0 <= rd m a < 256.
Proof. apply u8_range. Qed.
#[export] Hint Resolve rd_range : word mem.

Lemma rd_wr m a v b : rd (wr m a v) b = if b =? a then u8 v else rd m b.
Proof.
  unfold rd, wr. destruct (Z.eqb_spec b a) as [->|Hne].
  - rewrite lookup_insert_eq. apply u8_u8.
  - by rewrite lookup_insert_ne by congruence.
Qed.
Lemma rd_wr_eq m a v : rd (wr m a v) a = u8 v.
Proof. by rewrite rd_wr, Z.eqb_refl. Qed.
Lemma rd_wr_ne m a v b : b <> a -> rd (wr m a v) b = rd m b.
Proof. intros; rewrite rd_wr. by destruct (Z.eqb_spec b a). Qed.
#[export] Hint Rewrite rd_wr_eq : mem.
#[export] Hint Rewrite rd_wr_ne using lia : mem.

Lemma ld32_range m a : 0 <= ld32 m a < 4294967296.
Proof.
  unfold ld32.
  pose proof (rd_range m a); pose proof (rd_range m (a + 1));
  pose proof (rd_range m (a + 2)); pose proof (rd_range m (a + 3)); lia.
Qed.
#[export] Hint Resolve ld32_range : word mem.

Lemma ld32_ext m m' a b :
  (forall i, 0 <= i < 4 -> rd m' (b + i) = rd m (a + i)) -> ld32 m' b = ld32 m a.
Proof.
  intros H. unfold ld32.
  pose proof (H 0) as H0; rewrite !Z.add_0_r in H0.
  by rewrite H0, !H by lia.
Qed.

Lemma rd_st32_ne m a v b : b < a \/ a + 4 <= b -> rd (st32 m a v) b = rd m b.
Proof. intros. unfold st32. by rewrite !rd_wr_ne by lia. Qed.

Lemma ld32_st32_eq m a v : ld32 (st32 m a v) a = u32 v.
Proof.
  unfold ld32, st32. autorewrite with mem. unfold u8, u32. dlia.
Qed.
Lemma ld32_st32_ne m a v b :
  b + 4 <= a \/ a + 4 <= b -> ld32 (st32 m a v) b = ld32 m b.
Proof. intros. apply ld32_ext; intros. apply rd_st32_ne; lia. Qed.
#[export] Hint Rewrite ld32_st32_eq : mem.
#[export] Hint Rewrite rd_st32_ne ld32_st32_ne using lia : mem.

Lemma ld16_range m a : 0 <= ld16 m a < 65536.
Proof. unfold ld16. pose proof (rd_range m a); pose proof (rd_range m (a + 1)); lia. Qed.
Lemma rd_st16_ne m a v b : b < a \/ a + 2 <= b -> rd (st16 m a v) b = rd m b.
Proof. intros. unfold st16. by rewrite !rd_wr_ne by lia. Qed.
Lemma ld16_st16_eq m a v : ld16 (st16 m a v) a = u16 v.
Proof. unfold ld16, st16. autorewrite with mem. unfold u8, u16. dlia. Qed.
Lemma ld16_st16_ne m a v b : b + 2 <= a \/ a + 2 <= b -> ld16 (st16 m a v) b = ld16 m b.
Proof. intros. unfold ld16. by rewrite !rd_st16_ne by lia. Qed.

(** ** Byte strings *)

Lemma length_bytes m a n : length (bytes m a n) = n.
Proof. revert a; induction n as [|n IH]; intros; cbn; [done | by rewrite IH]. Qed.

Lemma bytes_lookup m a n i :
  (i < n)%nat -> bytes m a n !! i = Some (rd m (a + Z.of_nat i)).
Proof.
  revert a i; induction n as [|n IH]; intros a i Hi; [lia|].
  destruct i as [|i]; cbn [bytes lookup list_lookup].
  - by rewrite Z.add_0_r.
  - rewrite IH by lia. do 2 f_equal; lia.
Qed.

Lemma bytes_ext m m' a a' n :
  (forall i, 0 <= i < Z.of_nat n -> rd m (a + i) = rd m' (a' + i)) ->
  bytes m a n = bytes m' a' n.
Proof.
  revert a a'; induction n as [|n IH]; intros a a' H; cbn [bytes]; [done|].
  f_equal.
  - specialize (H 0). rewrite !Z.add_0_r in H. apply H; lia.
  - apply IH; intros i Hi. rewrite <- !Z.add_assoc. apply H; lia.
Qed.

Lemma bytes_app m a n k :
  bytes m a (n + k) = bytes m a n ++ bytes m (a + Z.of_nat n) k.
Proof.
  revert a; induction n as [|n IH]; intros a; cbn [Nat.add bytes app].
  - f_equal; lia.
  - rewrite IH. do 3 f_equal; lia.
Qed.

Lemma Forall_bytes m a n : Forall (fun x => 0 <= x < 256) (bytes m a n).
Proof. revert a; induction n; intros; cbn; constructor; auto with mem. Qed.

Lemma rd_store_bytes_out m a l b :
  b < a \/ a + Z.of_nat (length l) <= b -> rd (store_bytes m a l) b = rd m b.
Proof.
  revert m a; induction l as [|x l IH]; intros m a H; cbn [store_bytes length] in *;
    [done|].
  rewrite IH by lia. apply rd_wr_ne; lia.
Qed.

Lemma bytes_store_bytes m a l :
  Forall (fun x => 0 <= x < 256) l -> bytes (store_bytes m a l) a (length l) = l.
Proof.
  revert m a; induction l as [|x l IH]; intros m a H; cbn; [done|].
  inversion_clear H. f_equal.
  - rewrite rd_store_bytes_out by lia. rewrite rd_wr_eq. by apply u8_id.
  - by apply IH.
Qed.

Lemma store_bytes_app m a l1 l2 :
  store_bytes m a (l1 ++ l2) = store_bytes (store_bytes m a l1) (a + Z.of_nat (length l1)) l2.
Proof.
  revert m a; induction l1 as [|x l1 IH]; intros m a; cbn [app store_bytes length].
  - by rewrite Z.add_0_r.
  - rewrite IH. f_equal. lia.
Qed.

(** ** The functions of memory.c *)

Lemma rd_memset m ptr c size a :
  0 <= size < 4294967296 ->
  rd (memset ptr c size m) a =
    if (ptr <=? a) && (a <? ptr + size) then u8 c else rd m a.
Proof.
  intros Hs. unfold memset. rewrite u32_id by done.
  pose (P := fun i m' => rd m' a =
    if (ptr <=? a) && (a <? ptr + i) then u8 c else rd m a).
  assert (H : P (0 + Z.of_nat (Z.to_nat size))
                (for_loop (Z.to_nat size) 0 (fun i m => wr m (ptr + i) c) m)).
  - apply for_loop_ind; unfold P.
    + destruct (Z.leb_spec ptr a), (Z.ltb_spec a (ptr + 0)); cbn; try done; lia.
    + intros j t Hj Ht. rewrite rd_wr, Ht.
      destruct (Z.eqb_spec a (ptr + j)), (Z.leb_spec ptr a),
        (Z.ltb_spec a (ptr + j)), (Z.ltb_spec a (ptr + (j + 1))); cbn; try done; lia.
  - unfold P in H. by replace (0 + Z.of_nat (Z.to_nat size)) with size in H by lia.
Qed.

Lemma rd_memset_in m ptr c size a :
  0 <= size < 4294967296 -> ptr <= a < ptr + size -> rd (memset ptr c size m) a = u8 c.
Proof.
  intros; rewrite rd_memset by done.
  by destruct (Z.leb_spec ptr a), (Z.ltb_spec a (ptr + size)); cbn; try lia.
Qed.
Lemma rd_memset_out m ptr c size a :
  0 <= size < 4294967296 -> a < ptr \/ ptr + size <= a ->
  rd (memset ptr c size m) a = rd m a.
Proof.
  intros; rewrite rd_memset by done.
  by destruct (Z.leb_spec ptr a), (Z.ltb_spec a (ptr + size)); cbn; try lia.
Qed.

Lemma memcmp_loop_lex n c1 c2 i :
  memcmp_loop n c1 c2 i = lex_cmp (map c1 (seqZ i (Z.of_nat n))) (map c2 (seqZ i (Z.of_nat n))).
Proof.
  revert i; induction n as [|n IH]; intros i; cbn [memcmp_loop]; [done|].
  rewrite Nat2Z.inj_succ, seqZ_cons by lia. cbn [map lex_cmp]. rewrite IH, Z.add_1_r.
  replace (Z.pred (Z.succ (Z.of_nat n))) with (Z.of_nat n) by lia.
  destruct (Z.compare_spec (i8 (c1 i)) (i8 (c2 i))), (Z.eqb_spec (i8 (c1 i)) (i8 (c2 i))),
    (Z.ltb_spec (i8 (c1 i)) (i8 (c2 i))); done || lia.
Qed.

Lemma lex_cmp_eq0 l1 l2 :
  length l1 = length l2 ->
  Forall (fun x => 0 <= x < 256) l1 -> Forall (fun x => 0 <= x < 256) l2 ->
  lex_cmp l1 l2 = 0 <-> l1 = l2.
Proof.
  revert l2; induction l1 as [|x l1 IH]; intros [|y l2] Hl H1 H2; try done.
  inversion_clear H1; inversion_clear H2. cbn in *.
  destruct (Z.compare_spec (i8 x) (i8 y)) as [E|E|E].
  - apply i8_inj in E; try done. subst y. rewrite IH by (try done; lia).
    split; [by intros ->|congruence].
  - split; [done|]. intros [= -> ->]; lia.
  - split; [done|]. intros [= -> ->]; lia.
Qed.

Lemma memcpy_loop_spec n d s m a :
  d <= s \/ s + Z.of_nat n <= d ->
  rd (memcpy_loop n d s m) a =
    if (d <=? a) && (a <? d + Z.of_nat n) then rd m (s + (a - d)) else rd m a.
Proof.
  revert d s m; induction n as [|n IH]; intros d s m H; cbn [memcpy_loop].
  - by destruct (Z.leb_spec d a), (Z.ltb_spec a (d + Z.of_nat 0)); cbn; try lia.
  - rewrite IH by lia.
    destruct (Z.leb_spec d a), (Z.leb_spec (d + 1) a),
      (Z.ltb_spec a (d + Z.of_nat (S n))), (Z.ltb_spec a (d + 1 + Z.of_nat n));
      cbn; try lia.
    + rewrite rd_wr_ne by lia. f_equal; lia.
    + by rewrite rd_wr_ne by lia.
    + replace a with d by lia. rewrite rd_wr_eq, u8_id by auto with mem. f_equal; lia.
    + by rewrite rd_wr_ne by lia.
Qed.

(** [memcmp] is the three-way lexicographic comparison of the two blocks
    with bytes taken as signed chars; in particular on bytes it returns 0
    exactly when the blocks are equal. *)
Theorem memcmp_correct s1 s2 count :
  memcmp s1 s2 count = lex_cmp (prefix s1 count) (prefix s2 count) /\
  ((forall i, 0 <= s1 i < 256) -> (forall i, 0 <= s2 i < 256) ->
   (memcmp s1 s2 count = 0 <-> prefix s1 count = prefix s2 count)).
Proof.
  assert (E : memcmp s1 s2 count = lex_cmp (prefix s1 count) (prefix s2 count)).
  { unfold memcmp, prefix. rewrite memcmp_loop_lex.
    destruct (Z.le_ge_cases count 0).
    - by rewrite !(seqZ_nil _ count), !(seqZ_nil _ (Z.of_nat (Z.to_nat count))) by lia.
    - by rewrite Z2Nat.id by lia. }
  split; [done|]. intros H1 H2. rewrite E. unfold prefix. apply lex_cmp_eq0.
  - by rewrite !length_map.
  - apply Forall_map, list.Forall_forall. intros; apply H1.
  - apply Forall_map, list.Forall_forall. intros; apply H2.
Qed.

Lemma bytes_empty a n : bytes ∅ a n = replicate n 0.
Proof. revert a; induction n as [|n IH]; intros a; cbn [bytes replicate]; [done|by rewrite IH]. Qed.

(** Replacing the middle of a byte string. *)
Lemma bytes_splice m m' a l1 old new l2 :
  bytes m a (length (l1 ++ old ++ l2)) = l1 ++ old ++ l2 ->
  length new = length old ->
  bytes m' (a + Z.of_nat (length l1)) (length new) = new ->
  (forall b, a <= b < a + Z.of_nat (length (l1 ++ old ++ l2)) ->
     b < a + Z.of_nat (length l1) \/ a + Z.of_nat (length l1 + length old) <= b ->
     rd m' b = rd m b) ->
  bytes m' a (length (l1 ++ new ++ l2)) = l1 ++ new ++ l2.
Proof.
  rewrite !length_app. intros Hm Hlen Hnew Hout.
  rewrite Hlen, !bytes_app in *.
  assert (E1 : bytes m' a (length l1) = bytes m a (length l1))
    by (apply bytes_ext; intros; apply Hout; lia).
  assert (E2 : bytes m' (a + Z.of_nat (length l1) + Z.of_nat (length old)) (length l2) =
               bytes m (a + Z.of_nat (length l1) + Z.of_nat (length old)) (length l2))
    by (apply bytes_ext; intros; apply Hout; lia).
  apply app_inj_1 in Hm as [H1 Hm]; [|by rewrite length_bytes].
  apply app_inj_1 in Hm as [H2 H3]; [|by rewrite length_bytes].
  congruence.
Qed.

(** ** Witness *)

Lemma memcmp_correct_witness :
  memcmp (at_list [1; 2; 3]) (at_list [1; 2; 3]) 3 = 0 <->
  prefix (at_list [1; 2; 3]) 3 = prefix (at_list [1; 2; 3]) 3.
Proof.
  apply (memcmp_correct (at_list [1; 2; 3]) (at_list [1; 2; 3]) 3);
    intros i; unfold at_list; destruct (Z.to_nat i) as [|[|[|[|n]]]]; cbn; lia.
Defined.
