(* ===== verification/CString.v ===== *)
(** * [string.c]

    The string routines of [src/string/string.c] ([programs/stdlib] carries
    the same file, plus [strtok], which [UserLib] models).

    A [const char *] argument is a [cbuf] (see [Memory]); routines that write
    take the memory. *)
From S2P Require Import Prelude Memory.

(** ** Definitions *)

(** [while ( *ptr != 0)]: the loop has no bound of its own. *)
Fixpoint strlen_loop (fuel : nat) (s : cbuf) (len : Z) : option Z :=
  match fuel with
  | O => None
  | S f => if s len =? 0 then Some len else strlen_loop f s (len + 1)
  end.
Definition strlen (fuel : nat) (s : cbuf) : option Z := strlen_loop fuel s 0.

Fixpoint strnlen_loop (n : nat) (s : cbuf) (len : Z) : Z :=
  match n with
  | O => len
  | S n' => if s len =? 0 then len else strnlen_loop n' s (len + 1)
  end.
Definition strnlen (s : cbuf) (max : Z) : Z := strnlen_loop (Z.to_nat max) s 0.

(** The argument of the character functions is a (signed) [char]. *)
Definition is_digit (c : Z) : bool := (48 <=? c) && (c <=? 57).
Definition atoi (c : Z) : Z := c - 48.
Definition to_lower (c : Z) : Z := if (65 <=? c) && (c <=? 90) then c + 32 else c.

(** [strcpy] stops in front of the terminator and does not copy it. *)
Fixpoint strcpy (fuel : nat) (dest src : Z) (m : mem) : option mem :=
  match fuel with
  | O => None
  | S f =>
    if rd m src =? 0 then Some m
    else strcpy f (dest + 1) (src + 1) (wr m dest (rd m src))
  end.

(** The loop of [strncpy] returns the final [i]; the terminator goes there. *)
Fixpoint strncpy_loop (n : nat) (i dest src : Z) (m : mem) : Z * mem :=
  match n with
  | O => (i, m)
  | S n' =>
    if rd m (src + i) =? 0 then (i, m)
    else strncpy_loop n' (i + 1) dest src (wr m (dest + i) (rd m (src + i)))
  end.
Definition strncpy (dest src count : Z) (m : mem) : mem :=
  let '(i, m') := strncpy_loop (Z.to_nat (count - 1)) 0 dest src m in
  wr m' (dest + i) 0.

Fixpoint strncmp_loop (n : nat) (s1 s2 : cbuf) (i : Z) : Z :=
  match n with
  | O => 0
  | S n' =>
    if negb (s1 i =? s2 i) then s1 i - s2 i
    else if s1 i =? 0 then 0
    else strncmp_loop n' s1 s2 (i + 1)
  end.
Definition strncmp (s1 s2 : cbuf) (n : Z) : Z := strncmp_loop (Z.to_nat n) s1 s2 0.

Fixpoint istrncmp_loop (n : nat) (s1 s2 : cbuf) (i : Z) : Z :=
  match n with
  | O => 0
  | S n' =>
    if negb (s1 i =? s2 i) && negb (to_lower (i8 (s1 i)) =? to_lower (i8 (s2 i)))
    then s1 i - s2 i
    else if s1 i =? 0 then 0
    else istrncmp_loop n' s1 s2 (i + 1)
  end.
Definition istrncmp (s1 s2 : cbuf) (n : Z) : Z := istrncmp_loop (Z.to_nat n) s1 s2 0.

(** [for (i = 0; i <= max; i++)]: [max + 1] positions are inspected.  The
    bytes are compared with [terminator] as [char]s. *)
Fixpoint strnlen_terminator_loop (n : nat) (s : cbuf) (terminator i : Z) : Z :=
  match n with
  | O => i
  | S n' =>
    if (s i =? 0) || (i8 (s i) =? terminator) then i
    else strnlen_terminator_loop n' s terminator (i + 1)
  end.
Definition strnlen_terminator (s : cbuf) (max terminator : Z) : Z :=
  strnlen_terminator_loop (Z.to_nat (max + 1)) s terminator 0.

(** ** Specifications *)

(** The C string [l] is stored at [s]: its bytes, none of them zero, followed
    by the terminator. *)
Definition char_ok (x : Z) : Prop := 0 < x < 256.
Record cstr (s : cbuf) (l : list Z) : Prop := {
  cstr_chars : forall i x, l !! i = Some x -> s (Z.of_nat i) = x;
  cstr_nul : s (Z.of_nat (length l)) = 0;
  cstr_ok : Forall char_ok l }.

(** Case folding of a byte, and equality of strings up to case. *)
Definition fold_case (x : Z) : Z := if (65 <=? x) && (x <=? 90) then x + 32 else x.

(** ** Lemmas *)

Lemma cstr_lookup s l i x : cstr s l -> l !! i = Some x -> s (Z.of_nat i) = x /\ 0 < x < 256.
Proof.
  intros Hc Hi; split; [by apply (cstr_chars _ _ Hc)|].
  pose proof (cstr_ok _ _ Hc) as Hf. rewrite Forall_lookup in Hf. by apply (Hf i).
Qed.

(** At every offset up to the terminator a stored string is its own
    lookup, with 0 at the end. *)
Lemma cstr_at s l i :
  cstr s l -> (i <= length l)%nat -> s (Z.of_nat i) = default 0 (l !! i).
Proof.
  intros Hc Hi. destruct (l !! i) as [x|] eqn:E; cbn.
  - by apply (cstr_chars _ _ Hc).
  - apply lookup_ge_None in E. replace i with (length l) by lia. apply (cstr_nul _ _ Hc).
Qed.

Lemma cstr_nonzero s l i : cstr s l -> (i < length l)%nat -> s (Z.of_nat i) <> 0.
Proof.
  intros Hc Hi. destruct (lookup_lt_is_Some_2 l i Hi) as [x E].
  destruct (cstr_lookup s l i x Hc E). lia.
Qed.

Lemma cstr_byte s l i : cstr s l -> (i <= length l)%nat -> 0 <= s (Z.of_nat i) < 256.
Proof.
  intros Hc Hi. rewrite (cstr_at s l i) by done.
  destruct (l !! i) as [x|] eqn:E; cbn; [|lia].
  destruct (cstr_lookup s l i x Hc E); lia.
Qed.

Lemma strlen_loop_cstr s l i fuel :
  cstr s l -> (i <= length l)%nat -> (length l - i < fuel)%nat ->
  strlen_loop fuel s (Z.of_nat i) = Some (Z.of_nat (length l)).
Proof.
  intros Hc. revert i; induction fuel as [|f IH]; intros i Hi Hf; [lia|]. cbn.
  destruct (decide (i = length l)) as [->|Hne].
  - by rewrite (cstr_nul _ _ Hc).
  - destruct (Z.eqb_spec (s (Z.of_nat i)) 0) as [E|E].
    + by apply cstr_nonzero with (l := l) in E; [|done|lia].
    + replace (Z.of_nat i + 1) with (Z.of_nat (S i)) by lia. apply IH; lia.
Qed.

Lemma strlen_cstr s l fuel :
  cstr s l -> (length l < fuel)%nat -> strlen fuel s = Some (Z.of_nat (length l)).
Proof. intros; unfold strlen. apply (strlen_loop_cstr s l 0); [done|lia|lia]. Qed.

Lemma strnlen_loop_cstr s l i n :
  cstr s l -> (i <= length l)%nat ->
  strnlen_loop n s (Z.of_nat i) = Z.of_nat (Nat.min (length l) (i + n)).
Proof.
  intros Hc. revert i; induction n as [|n IH]; intros i Hi; cbn [strnlen_loop]; [lia|].
  destruct (decide (i = length l)) as [->|Hne].
  - rewrite (cstr_nul _ _ Hc). cbn. lia.
  - destruct (Z.eqb_spec (s (Z.of_nat i)) 0) as [E|E].
    + by apply cstr_nonzero with (l := l) in E; [|done|lia].
    + replace (Z.of_nat i + 1) with (Z.of_nat (S i)) by lia. rewrite IH by lia. lia.
Qed.

(** [strnlen] is the minimum of the length and [max]. *)
Lemma strnlen_cstr s l max :
  cstr s l -> 0 <= max -> strnlen s max = Z.min (Z.of_nat (length l)) max.
Proof. intros Hc Hm. unfold strnlen. rewrite (strnlen_loop_cstr s l 0); [lia|done|lia]. Qed.

Lemma strnlen_loop_bounds n s i : i <= strnlen_loop n s i <= i + Z.of_nat n.
Proof.
  revert i; induction n as [|n IH]; intros i; cbn [strnlen_loop]; [lia|].
  destruct (s i =? 0); [lia|]. pose proof (IH (i + 1)). lia.
Qed.

(** A stored string seen [i] characters further on. *)
Lemma cstr_drop s l i :
  cstr s l -> (i <= length l)%nat -> cstr (fun j => s (Z.of_nat i + j)) (drop i l).
Proof.
  intros Hc Hi; split.
  - intros j x. rewrite lookup_drop. intros E.
    apply (cstr_chars _ _ Hc) in E. rewrite <- E. f_equal; lia.
  - rewrite length_drop. replace (Z.of_nat i + Z.of_nat (length l - i))
      with (Z.of_nat (length l)) by lia. apply (cstr_nul _ _ Hc).
  - apply Forall_drop, (cstr_ok _ _ Hc).
Qed.

Lemma cstr_unique s l1 l2 : cstr s l1 -> cstr s l2 -> l1 = l2.
Proof.
  intros H1 H2.
  pose proof (strlen_cstr s l1 (S (length l1 + length l2)) H1 ltac:(lia)) as E1.
  pose proof (strlen_cstr s l2 (S (length l1 + length l2)) H2 ltac:(lia)) as E2.
  rewrite E1 in E2. injection E2 as E2. apply list_eq_same_length with (n := length l1);
    [lia|done|].
  intros i x y Hi Hx Hy.
  destruct (cstr_lookup s l1 i x H1 Hx), (cstr_lookup s l2 i y H2 Hy). congruence.
Qed.

(** Storing a string and its terminator makes a C string. *)
Lemma store_bytes_cstr m p l :
  Forall char_ok l -> cstr (at_mem (store_bytes m p (l ++ [0])) p) l.
Proof.
  intros Hl.
  assert (Hb : bytes (store_bytes m p (l ++ [0])) p (length (l ++ [0])) = l ++ [0]).
  { apply bytes_store_bytes, Forall_app; split.
    - eapply List.Forall_impl; [|exact Hl]. unfold char_ok; intros; lia.
    - constructor; [lia|done]. }
  rewrite length_app in Hb; cbn in Hb.
  assert (Hat : forall i, (i <= length l)%nat ->
    Some (at_mem (store_bytes m p (l ++ [0])) p (Z.of_nat i)) = (l ++ [0]) !! i).
  { intros i Hi. transitivity (bytes (store_bytes m p (l ++ [0])) p (length l + 1) !! i).
    - by rewrite bytes_lookup by lia.
    - by rewrite Hb. }
  split; [| |done].
  - intros i x Hx. pose proof (lookup_lt_Some _ _ _ Hx) as Hi.
    specialize (Hat i ltac:(lia)). rewrite lookup_app_l, Hx in Hat by done. congruence.
  - specialize (Hat (length l) ltac:(lia)).
    rewrite lookup_app_r, Nat.sub_diag in Hat by done. cbn in Hat. congruence.
Qed.

(** A string is a matter of its own bytes and the terminator. *)
Lemma cstr_ext s s' l :
  (forall i, 0 <= i <= Z.of_nat (length l) -> s' i = s i) -> cstr s l -> cstr s' l.
Proof.
  intros H [H1 H2 H3]. split; [| |done].
  - intros i x Hx. apply lookup_lt_Some in Hx as Hi. rewrite H by lia. by apply H1.
  - by rewrite H by lia.
Qed.

(** Storing the characters in front of a zero byte makes a C string. *)
Lemma store_bytes_nul m p l :
  Forall char_ok l -> rd m (p + Z.of_nat (length l)) = 0 -> cstr (at_mem (store_bytes m p l) p) l.
Proof.
  intros Hl H0.
  assert (Hb : bytes (store_bytes m p l) p (length l) = l).
  { apply bytes_store_bytes. eapply List.Forall_impl; [|exact Hl]. unfold char_ok; intros; lia. }
  split; [| |done].
  - intros i x Hx. apply lookup_lt_Some in Hx as Hi.
    rewrite <- Hb, bytes_lookup in Hx by done. by injection Hx.
  - unfold at_mem. by rewrite rd_store_bytes_out by lia.
Qed.

(** ** strncpy *)

Lemma strncpy_loop_cstr l dest src m0 m n i :
  cstr (at_mem m0 src) l -> (i <= length l)%nat ->
  dest + Z.of_nat (i + n) <= src \/ src + Z.of_nat (length l) < dest ->
  (forall a, a < dest \/ dest + Z.of_nat i <= a -> rd m a = rd m0 a) ->
  exists k m', strncpy_loop n (Z.of_nat i) dest src m = (Z.of_nat k, m') /\
    k = Nat.min (length l) (i + n) /\
    (forall a, dest + Z.of_nat i <= a < dest + Z.of_nat k ->
       rd m' a = rd m0 (src + (a - dest))) /\
    (forall a, a < dest + Z.of_nat i \/ dest + Z.of_nat k <= a -> rd m' a = rd m a).
Proof.
  intros Hc. revert m i. induction n as [|n IH]; intros m i Hi Hd Hm; cbn [strncpy_loop].
  - exists i, m. repeat split; try done; lia.
  - assert (Esrc : rd m (src + Z.of_nat i) = rd m0 (src + Z.of_nat i)) by (apply Hm; lia).
    rewrite Esrc.
    pose proof (cstr_at _ _ i Hc Hi) as Eat. unfold at_mem in Eat.
    destruct (Z.eqb_spec (rd m0 (src + Z.of_nat i)) 0) as [E|E].
    + assert (i = length l) as ->.
      { destruct (decide (i < length l)%nat) as [H|H]; [|lia].
        by apply (cstr_nonzero _ _ _ Hc) in H. }
      exists (length l), m. repeat split; try done; lia.
    + assert (Hlt : (i < length l)%nat).
      { destruct (decide (i = length l)) as [->|]; [|lia].
        by rewrite (lookup_ge_None_2 l) in Eat by lia. }
      destruct (IH (wr m (dest + Z.of_nat i) (rd m0 (src + Z.of_nat i))) (S i))
        as (k & m' & Ek & Hk & Hin & Hout); [lia|lia| |].
      { intros a Ha. rewrite rd_wr_ne by lia. apply Hm; lia. }
      exists k, m'. replace (Z.of_nat i + 1) with (Z.of_nat (S i)) by lia.
      repeat split; [done|lia| |].
      * intros a Ha. destruct (decide (a = dest + Z.of_nat i)) as [->|Hne].
        -- rewrite Hout by lia. rewrite rd_wr_eq, u8_id by auto with mem. f_equal; lia.
        -- apply Hin; lia.
      * intros a Ha. rewrite Hout by lia. apply rd_wr_ne; lia.
Qed.

Lemma strncpy_mem l dest src count m :
  cstr (at_mem m src) l ->
  dest + Z.max 1 count <= src \/ src + Z.of_nat (length l) < dest ->
  let k := Z.min (Z.of_nat (length l)) (Z.max 0 (count - 1)) in
  (forall i, 0 <= i < k -> rd (strncpy dest src count m) (dest + i) = rd m (src + i)) /\
  rd (strncpy dest src count m) (dest + k) = 0 /\
  (forall a, a < dest \/ dest + k < a -> rd (strncpy dest src count m) a = rd m a).
Proof.
  intros Hc Hd k. unfold strncpy.
  destruct (strncpy_loop_cstr l dest src m m (Z.to_nat (count - 1)) 0 Hc)
    as (k' & m' & E & Hk & Hin & Hout); [lia|lia|done|].
  change (Z.of_nat 0) with 0 in E. rewrite E. replace k with (Z.of_nat k') by lia.
  repeat split.
  - intros i Hi. rewrite rd_wr_ne by lia. rewrite Hin by lia. f_equal; lia.
  - by rewrite rd_wr_eq.
  - intros a Ha. rewrite rd_wr_ne by lia. apply Hout; lia.
Qed.

(** The copy is the C string of the truncated source. *)
Lemma strncpy_cstr l dest src count m :
  cstr (at_mem m src) l ->
  dest + Z.max 1 count <= src \/ src + Z.of_nat (length l) < dest ->
  cstr (at_mem (strncpy dest src count m) dest) (take (Z.to_nat (count - 1)) l).
Proof.
  intros Hc Hd. destruct (strncpy_mem l dest src count m Hc Hd) as (Hin & Hz & _).
  split.
  - intros i x Hx. apply lookup_take_Some in Hx as [Hx Hi].
    pose proof (lookup_lt_Some _ _ _ Hx). unfold at_mem. rewrite Hin by lia.
    by apply (cstr_chars _ _ Hc).
  - rewrite length_take. unfold at_mem. rewrite <- Hz. do 2 f_equal; lia.
  - apply Forall_take, (cstr_ok _ _ Hc).
Qed.

(** ** strncmp and istrncmp *)

(** The comparison loops stop at the first position the test [ne] tells
    apart; on C strings the rest of the loop compares the tails. *)
Lemma istrncmp_loop_fold s1 s2 l1 l2 n i :
  cstr s1 l1 -> cstr s2 l2 -> (i <= length l1)%nat -> (i <= length l2)%nat ->
  istrncmp_loop n s1 s2 (Z.of_nat i) = 0 <->
  take n (map fold_case (drop i l1)) = take n (map fold_case (drop i l2)).
Proof.
  intros H1 H2. revert i; induction n as [|n IH]; intros i L1 L2; cbn [istrncmp_loop].
  { by rewrite !take_0. }
  pose proof (cstr_at _ _ i H1 L1) as A1; pose proof (cstr_at _ _ i H2 L2) as A2.
  pose proof (cstr_byte _ _ i H1 L1); pose proof (cstr_byte _ _ i H2 L2).
  assert (Fold : forall x y, 0 <= x < 256 -> 0 <= y < 256 ->
    (to_lower (i8 x) = to_lower (i8 y) <-> fold_case x = fold_case y)).
  { intros x y Hx Hy. unfold to_lower, fold_case, i8. 
    rewrite !Z.mod_small by lia.
    destruct (Z.ltb_spec x 128), (Z.ltb_spec y 128);
    repeat match goal with |- context [?p <=? ?q] => destruct (Z.leb_spec p q) end;
    cbn; lia. }
  assert (Fz : forall x, 0 < x < 256 -> fold_case x <> fold_case 0).
  { intros x Hx. unfold fold_case. cbn.
    repeat match goal with |- context [?p <=? ?q] => destruct (Z.leb_spec p q) end;
    cbn; lia. }
  assert (Step : forall x y, fold_case x = fold_case y -> 0 <= x < 256 -> 0 <= y < 256 ->
    negb (x =? y) && negb (to_lower (i8 x) =? to_lower (i8 y)) = false).
  { intros x y E Hx Hy. apply Fold in E; [|done|done].
    apply Z.eqb_eq in E. rewrite E. apply andb_false_r. }
  assert (Stop : forall x y, fold_case x <> fold_case y -> 0 <= x < 256 -> 0 <= y < 256 ->
    negb (x =? y) && negb (to_lower (i8 x) =? to_lower (i8 y)) = true).
  { intros x y E Hx Hy. apply andb_true_intro; split; apply negb_true_iff, Z.eqb_neq.
    - congruence.
    - by rewrite Fold. }
  destruct (l1 !! i) as [x|] eqn:E1; destruct (l2 !! i) as [y|] eqn:E2; cbn in A1, A2.
  - rewrite (drop_S l1 x i E1), (drop_S l2 y i E2). cbn [map firstn].
    pose proof (cstr_lookup _ _ _ _ H1 E1); pose proof (cstr_lookup _ _ _ _ H2 E2).
    rewrite A1, A2. destruct (decide (fold_case x = fold_case y)) as [Efold|Nfold].
    + rewrite Step by (done || lia). destruct (Z.eqb_spec x 0); [lia|].
      replace (Z.of_nat i + 1) with (Z.of_nat (S i)) by lia.
      rewrite (IH (S i)) by (apply lookup_lt_Some in E1, E2; lia).
      rewrite Efold. split; [by intros ->|congruence].
    + rewrite Stop by (done || lia). split; [|congruence].
      intros Hz. assert (x = y) by lia. congruence.
  - pose proof (cstr_lookup _ _ _ _ H1 E1). apply lookup_ge_None in E2.
    rewrite (drop_S l1 x i E1), (drop_ge l2) by lia. cbn [map firstn].
    rewrite A1, A2, Stop by (try lia; apply Fz; lia). split; [lia|done].
  - pose proof (cstr_lookup _ _ _ _ H2 E2). apply lookup_ge_None in E1.
    rewrite (drop_S l2 y i E2), (drop_ge l1) by lia. cbn [map firstn].
    rewrite A1, A2, Stop by (try lia; apply not_eq_sym, Fz; lia). split; [lia|done].
  - apply lookup_ge_None in E1, E2. rewrite A1, A2. rewrite !drop_ge by lia. by cbn.
Qed.

Lemma istrncmp_fold s1 s2 l1 l2 n :
  cstr s1 l1 -> cstr s2 l2 ->
  istrncmp s1 s2 n = 0 <->
  take (Z.to_nat n) (map fold_case l1) = take (Z.to_nat n) (map fold_case l2).
Proof.
  intros H1 H2. unfold istrncmp.
  by apply (istrncmp_loop_fold s1 s2 l1 l2 _ 0); [..|lia|lia].
Qed.

Lemma strncmp_loop_eq s1 s2 l1 l2 n i :
  cstr s1 l1 -> cstr s2 l2 -> (i <= length l1)%nat -> (i <= length l2)%nat ->
  strncmp_loop n s1 s2 (Z.of_nat i) = 0 <-> take n (drop i l1) = take n (drop i l2).
Proof.
  intros H1 H2. revert i; induction n as [|n IH]; intros i L1 L2; cbn [strncmp_loop].
  { by rewrite !take_0. }
  pose proof (cstr_at _ _ i H1 L1) as A1; pose proof (cstr_at _ _ i H2 L2) as A2.
  rewrite A1, A2.
  destruct (l1 !! i) as [x|] eqn:E1; destruct (l2 !! i) as [y|] eqn:E2;
    cbn [default from_option id].
  - pose proof (cstr_lookup _ _ _ _ H1 E1); pose proof (cstr_lookup _ _ _ _ H2 E2).
    rewrite (drop_S l1 x i E1), (drop_S l2 y i E2). cbn [firstn].
    destruct (Z.eqb_spec x y) as [->|Hne]; cbn [negb].
    + destruct (Z.eqb_spec y 0); [lia|].
      replace (Z.of_nat i + 1) with (Z.of_nat (S i)) by lia.
      rewrite (IH (S i)) by (apply lookup_lt_Some in E1, E2; lia).
      split; [by intros ->|congruence].
    + split; [lia|congruence].
  - pose proof (cstr_lookup _ _ _ _ H1 E1). apply lookup_ge_None in E2.
    rewrite (drop_S l1 x i E1), (drop_ge l2) by lia. cbn.
    destruct (Z.eqb_spec x 0); [lia|]. cbn. split; [lia|done].
  - pose proof (cstr_lookup _ _ _ _ H2 E2). apply lookup_ge_None in E1.
    rewrite (drop_S l2 y i E2), (drop_ge l1) by lia.
    cbn [firstn]. destruct (Z.eqb_spec 0 y); [lia|]. cbn [negb]. split; [lia|done].
  - apply lookup_ge_None in E1, E2. rewrite !drop_ge by lia. by cbn.
Qed.

(** ** strcpy *)

Lemma strcpy_mem l dest src fuel m :
  cstr (at_mem m src) l -> (length l < fuel)%nat ->
  dest + Z.of_nat (length l) <= src \/ src + Z.of_nat (length l) < dest ->
  exists m', strcpy fuel dest src m = Some m' /\
    bytes m' dest (length l) = l /\
    (forall a, a < dest \/ dest + Z.of_nat (length l) <= a -> rd m' a = rd m a).
Proof.
  revert dest src fuel m. induction l as [|x l IH]; intros dest src [|f] m Hc Hf Hd;
    cbn [length] in *; try lia; cbn [strcpy].
  - pose proof (cstr_nul _ _ Hc) as E. unfold at_mem in E. cbn in E.
    rewrite Z.add_0_r in E. rewrite E. exists m. by repeat split.
  - destruct (cstr_lookup _ _ 0 x Hc eq_refl) as [E Hx]. unfold at_mem in E.
    cbn in E. rewrite Z.add_0_r in E. rewrite E.
    destruct (Z.eqb_spec x 0); [lia|].
    destruct (IH (dest + 1) (src + 1) f (wr m dest x)) as (m' & Em & Hb & Hout); [|lia|lia|].
    + pose proof (cstr_drop _ _ 1 Hc ltac:(cbn; lia)) as Hd1. cbn [skipn] in Hd1.
      assert (Eqb : forall i, 0 <= i <= Z.of_nat (length l) ->
        at_mem (wr m dest x) (src + 1) i = at_mem m src (Z.of_nat 1 + i)).
      { intros i Hi. unfold at_mem. rewrite rd_wr_ne by lia. f_equal; lia. }
      split.
      * intros i y Hy. pose proof (lookup_lt_Some _ _ _ Hy). rewrite Eqb by lia.
        by apply (cstr_chars _ _ Hd1).
      * rewrite Eqb by lia. apply (cstr_nul _ _ Hd1).
      * apply (cstr_ok _ _ Hd1).
    + exists m'. repeat split; [done| |].
      * cbn [bytes]. rewrite Hb, Hout by lia. by rewrite rd_wr_eq, u8_id by lia.
      * intros a Ha. rewrite Hout by lia. apply rd_wr_ne; lia.
Qed.

Create HintDb cstring.
#[export] Hint Resolve strlen_cstr strncpy_cstr cstr_nonzero cstr_byte : cstring.

(** ** Properties *)

(** C37. [strncpy(dest, src, count)] with [count >= 1] leaves at [dest] a
    terminated C string, the first [count - 1] characters of the source (all of
    it when it is shorter), and changes no byte outside
    [dest .. dest + count - 1]. *)
Theorem strncpy_bounded l dest src count m :
  cstr (at_mem m src) l -> 1 <= count ->
  dest + count <= src \/ src + Z.of_nat (length l) < dest ->
  cstr (at_mem (strncpy dest src count m) dest) (take (Z.to_nat (count - 1)) l) /\
  (forall a, a < dest \/ dest + count <= a ->
     rd (strncpy dest src count m) a = rd m a).
Proof.
  intros Hc H1 Hd. split; [apply strncpy_cstr; [done|lia]|].
  intros a Ha. destruct (strncpy_mem l dest src count m Hc ltac:(lia)) as (_ & _ & Hout).
  apply Hout; lia.
Qed.

(** C38. [istrncmp] returns 0 on two C strings exactly when their first [n]
    characters are equal up to the case of ASCII letters, and [strncmp]
    exactly when their first [n] characters are equal. *)
Theorem strncmp_decides_equality s1 s2 l1 l2 n :
  cstr s1 l1 -> cstr s2 l2 ->
  (istrncmp s1 s2 n = 0 <->
   take (Z.to_nat n) (map fold_case l1) = take (Z.to_nat n) (map fold_case l2)) /\
  (strncmp s1 s2 n = 0 <-> take (Z.to_nat n) l1 = take (Z.to_nat n) l2).
Proof.
  intros H1 H2. split; [by apply istrncmp_fold|].
  unfold strncmp. by apply (strncmp_loop_eq s1 s2 l1 l2 _ 0); [..|lia|lia].
Qed.

(** [strcpy] copies the characters of the source but not its terminator:
    the byte behind the copy keeps its old value, so a destination that is not
    already zero there does not hold the C string afterwards. *)
Theorem strcpy_leaves_terminator l dest src fuel m :
  cstr (at_mem m src) l -> (length l < fuel)%nat ->
  dest + Z.of_nat (length l) <= src \/ src + Z.of_nat (length l) < dest ->
  exists m', strcpy fuel dest src m = Some m' /\
    bytes m' dest (length l) = l /\
    rd m' (dest + Z.of_nat (length l)) = rd m (dest + Z.of_nat (length l)) /\
    (cstr (at_mem m' dest) l <-> rd m (dest + Z.of_nat (length l)) = 0).
Proof.
  intros Hc Hf Hd. destruct (strcpy_mem l dest src fuel m Hc Hf Hd) as (m' & E & Hb & Ho).
  exists m'. assert (Hlast : rd m' (dest + Z.of_nat (length l)) =
    rd m (dest + Z.of_nat (length l))) by (apply Ho; lia).
  repeat split; try done.
  - intros Hs. rewrite <- Hlast. apply (cstr_nul _ _ Hs).
  - intros i x Hx. pose proof (lookup_lt_Some _ _ _ Hx). rewrite <- Hb in Hx.
    rewrite bytes_lookup in Hx by done. by injection Hx.
  - unfold at_mem. congruence.
  - apply (cstr_ok _ _ Hc).
Qed.

(** ** Witnesses *)

(** "hi" at address 100. *)
Definition hi_mem : mem := store_bytes ∅ 100 ([104; 105] ++ [0]).

Lemma strncpy_bounded_witness :
  cstr (at_mem (strncpy 200 100 2 hi_mem) 200) [104] /\
  (forall a, a < 200 \/ 200 + 2 <= a -> rd (strncpy 200 100 2 hi_mem) a = rd hi_mem a).
Proof.
  apply (strncpy_bounded [104; 105] 200 100 2 hi_mem); [|lia|cbn; lia].
  apply store_bytes_cstr. repeat constructor; lia.
Defined.

Lemma strncmp_decides_equality_witness :
  istrncmp (at_mem hi_mem 100) (at_mem (store_bytes ∅ 7 ([72; 73] ++ [0])) 7) 108 = 0.
Proof.
  apply (proj1 (strncmp_decides_equality _ _ [104; 105] [72; 73] 108
    (store_bytes_cstr ∅ 100 [104; 105] ltac:(repeat constructor; lia))
    (store_bytes_cstr ∅ 7 [72; 73] ltac:(repeat constructor; lia)))).
  reflexivity.
Defined.

Lemma strcpy_leaves_terminator_witness :
  exists m', strcpy 10 200 100 (wr hi_mem 202 77) = Some m' /\
    bytes m' 200 2 = [104; 105] /\ rd m' 202 = rd (wr hi_mem 202 77) 202 /\
    (cstr (at_mem m' 200) [104; 105] <-> rd (wr hi_mem 202 77) 202 = 0).
Proof.
  apply (strcpy_leaves_terminator [104; 105] 200 100 10 (wr hi_mem 202 77));
    [|cbn; lia|cbn; lia].
  change (wr hi_mem 202 77) with (store_bytes (wr ∅ 202 77) 100 ([104; 105] ++ [0])).
  apply store_bytes_cstr. repeat constructor; lia.
Defined.
