(* ===== verification/Heap.v ===== *)
(** * The block heap: [src/memory/heap/heap.c]

    A heap is a pool of 4096-byte blocks described by a table of one byte per
    block that lives in memory ([entries]), so every operation below is a
    function of the flat memory.  The abstract view is a list of [cell]s (a
    free block, or an allocation of one or more blocks); [heap_repr] says
    that the table in memory encodes such a list, and the refinement lemmas
    show that [heap_malloc] and [heap_free] implement first-fit allocation
    and release on it. *)
From S2P Require Import Prelude Config Memory.

(** ** Definitions *)

Definition HEAP_BLOCK_TABLE_ENTRY_TAKEN : Z := 0x01.
Definition HEAP_BLOCK_TABLE_ENTRY_FREE : Z := 0x00.
Definition HEAP_BLOCK_IS_FIRST : Z := 0x80.
Definition HEAP_BLOCK_HAS_NEXT : Z := 0x40.

Record heap_table : Type := { entries : Z; total : Z }.
Record heap : Type := { table : heap_table; saddr : Z }.

Definition heap_validate_table (ptr end_ : Z) (t : heap_table) : Z :=
  let table_size := u32 (end_ - ptr) in
  let total_blocks := table_size / LIEBE_OS_HEAP_BLOCK_SIZE in
  if negb (total t =? total_blocks) then - EINVARG else 0.

Definition heap_validate_alignment (ptr : Z) : bool :=
  u32 ptr mod LIEBE_OS_HEAP_BLOCK_SIZE =? 0.

(** The caller's heap object is overwritten once the alignment is checked. *)
Definition heap_create (h : heap) (ptr end_ : Z) (t : heap_table) (m : mem)
  : Z * heap * mem :=
  if negb (heap_validate_alignment ptr) || negb (heap_validate_alignment end_)
  then (- EINVARG, h, m)
  else
    let h' := {| table := t; saddr := ptr |} in
    let res := heap_validate_table ptr end_ t in
    if res <? 0 then (res, h', m)
    else (res, h', memset (entries t) HEAP_BLOCK_TABLE_ENTRY_FREE (total t) m).

Definition heap_align_value_to_upper (val : Z) : Z :=
  if val mod LIEBE_OS_HEAP_BLOCK_SIZE =? 0 then val
  else
    let val := u32 (val - val mod LIEBE_OS_HEAP_BLOCK_SIZE) in
    u32 (val + LIEBE_OS_HEAP_BLOCK_SIZE).

(** The scan of [heap_get_start_block]: [n] entries remain from index [i]. *)
Fixpoint get_start_block_loop (n : nat) (ents total_blocks i block_count block_start : Z)
  (m : mem) : Z :=
  match n with
  | O => block_start
  | S n' =>
    if negb (Z.land (rd m (ents + i)) HEAP_BLOCK_TABLE_ENTRY_TAKEN =? 0) then
      get_start_block_loop n' ents total_blocks (i + 1) 0 (-1) m
    else
      let block_start := if block_start =? -1 then i32 i else block_start in
      let block_count := block_count + 1 in
      if u32 block_count =? total_blocks then block_start
      else get_start_block_loop n' ents total_blocks (i + 1) block_count block_start m
  end.

Definition heap_get_start_block (h : heap) (total_blocks : Z) (m : mem) : Z :=
  let t := table h in
  let block_start :=
    get_start_block_loop (Z.to_nat (total t)) (entries t) total_blocks 0 0 (-1) m in
  if block_start =? -1 then - ENOMEM else block_start.

Definition heap_block_to_address (h : heap) (block : Z) : Z :=
  u32 (saddr h + block * LIEBE_OS_HEAP_BLOCK_SIZE).

Definition heap_address_to_block (h : heap) (address : Z) : Z :=
  cdiv (i32 (address - saddr h)) LIEBE_OS_HEAP_BLOCK_SIZE.

Fixpoint mark_blocks_taken_loop (n : nat) (ents end_block i entry : Z) (m : mem) : mem :=
  match n with
  | O => m
  | S n' =>
    let m := wr m (ents + i) entry in
    let entry := HEAP_BLOCK_TABLE_ENTRY_TAKEN in
    let entry :=
      if negb (i =? end_block - 1) then Z.lor entry HEAP_BLOCK_HAS_NEXT else entry in
    mark_blocks_taken_loop n' ents end_block (i + 1) entry m
  end.

Definition heap_mark_blocks_taken (h : heap) (start_block total_blocks : Z) (m : mem) : mem :=
  let end_block := start_block + total_blocks - 1 in
  let entry := Z.lor HEAP_BLOCK_TABLE_ENTRY_TAKEN HEAP_BLOCK_IS_FIRST in
  let entry := if 1 <? total_blocks then Z.lor entry HEAP_BLOCK_HAS_NEXT else entry in
  mark_blocks_taken_loop (Z.to_nat (end_block - start_block + 1))
    (entries (table h)) end_block start_block entry m.

Definition heap_malloc_blocks (h : heap) (total_blocks : Z) (m : mem) : Z * mem :=
  let start_block := heap_get_start_block h total_blocks m in
  if start_block <? 0 then (0, m)
  else (heap_block_to_address h start_block,
        heap_mark_blocks_taken h start_block (i32 total_blocks) m).

(** [for (i = starting_block; i < (int)total; i++)], left at the first entry
    without [HAS_NEXT]. *)
Fixpoint mark_blocks_free_loop (n : nat) (ents i : Z) (m : mem) : mem :=
  match n with
  | O => m
  | S n' =>
    let entry := rd m (ents + i) in
    let m := wr m (ents + i) HEAP_BLOCK_TABLE_ENTRY_FREE in
    if Z.land entry HEAP_BLOCK_HAS_NEXT =? 0 then m
    else mark_blocks_free_loop n' ents (i + 1) m
  end.

Definition heap_mark_blocks_free (h : heap) (starting_block : Z) (m : mem) : mem :=
  let t := table h in
  mark_blocks_free_loop (Z.to_nat (i32 (total t) - starting_block))
    (entries t) starting_block m.

Definition heap_malloc (h : heap) (size : Z) (m : mem) : Z * mem :=
  let aligned_size := heap_align_value_to_upper (u32 size) in
  let total_blocks := aligned_size / LIEBE_OS_HEAP_BLOCK_SIZE in
  heap_malloc_blocks h total_blocks m.

Definition heap_free (h : heap) (ptr : Z) (m : mem) : mem :=
  heap_mark_blocks_free h (heap_address_to_block h ptr) m.

(** ** The abstract heap *)

(** One free block, or an allocation of [S extra] blocks. *)
Inductive cell : Type :=
| CFree
| CUsed (extra : nat).

#[export] Instance cell_eq_dec : EqDecision cell.
Proof. solve_decision. Defined.

Definition cell_blocks (c : cell) : nat :=
  match c with CFree => 1 | CUsed k => S k end.
Definition blocks (cs : list cell) : nat := sum_list_with cell_blocks cs.

(** The table entries of a cell. *)
Definition encode (c : cell) : list Z :=
  match c with
  | CFree => [0x00]
  | CUsed O => [0x81]
  | CUsed (S k) => 0xC1 :: replicate k 0x41 ++ [0x01]
  end.
Definition encode_all (cs : list cell) : list Z := concat (map encode cs).

(** The table in memory encodes [cs], and the pool's geometry is sane: block
    indices are [int]s and block addresses do not wrap. *)
Record heap_repr (h : heap) (m : mem) (cs : list cell) : Prop := {
  repr_table : bytes m (entries (table h)) (Z.to_nat (total (table h))) = encode_all cs;
  repr_total : 0 <= total (table h) < 524288;
  repr_saddr : 0 < saddr h /\
               saddr h + total (table h) * LIEBE_OS_HEAP_BLOCK_SIZE < 4294967296 }.

(** Addresses of the table itself. *)
Definition in_table (h : heap) (a : Z) : Prop :=
  entries (table h) <= a < entries (table h) + total (table h).

(** Blocks needed for [size] bytes. *)
Definition blocks_for (size : Z) : Z := (size + 4095) / 4096.

(** First fit on the abstract heap: [cs] is [pre], then [n] free blocks, then
    [post], and no run of [n] free blocks starts earlier. *)
Definition free_block (h : heap) (m : mem) (i : Z) : bool :=
  Z.land (rd m (entries (table h) + i)) HEAP_BLOCK_TABLE_ENTRY_TAKEN =? 0.
Definition free_run (h : heap) (m : mem) (b n : Z) : Prop :=
  forall i, b <= i < b + n -> free_block h m i = true.

Definition run_of_free (n : nat) : list cell := replicate n CFree.
(** A list of cells that does not end in a free block. *)
Definition ends_taken (cs : list cell) : Prop := forall cs', cs <> cs' ++ [CFree].
Definition first_fit (n : nat) (cs pre post : list cell) : Prop :=
  cs = pre ++ run_of_free n ++ post /\
  forall pre' post', cs = pre' ++ run_of_free n ++ post' -> (blocks pre <= blocks pre')%nat.

(** The allocations of an abstract heap: first block and number of blocks. *)
Fixpoint live_from (off : nat) (cs : list cell) : list (nat * nat) :=
  match cs with
  | [] => []
  | CFree :: cs' => live_from (off + 1) cs'
  | CUsed k :: cs' => (off, S k) :: live_from (off + S k) cs'
  end.
Definition block_addr (h : heap) (b : nat) : Z :=
  saddr h + Z.of_nat b * LIEBE_OS_HEAP_BLOCK_SIZE.
Definition live_of (h : heap) (cs : list cell) : list (Z * Z) :=
  map (fun '(b, n) => (block_addr h b, Z.of_nat n)) (live_from 0 cs).

(** Two allocations (address, number of blocks) share no byte. *)
Definition disjoint_alloc (x y : Z * Z) : Prop :=
  fst x + snd x * LIEBE_OS_HEAP_BLOCK_SIZE <= fst y \/
  fst y + snd y * LIEBE_OS_HEAP_BLOCK_SIZE <= fst x.
Definition pairwise_disjoint (live : list (Z * Z)) : Prop :=
  forall l1 x l2, live = l1 ++ x :: l2 -> Forall (disjoint_alloc x) (l1 ++ l2).
Definition in_pool (h : heap) (x : Z * Z) : Prop :=
  saddr h <= fst x /\
  fst x + snd x * LIEBE_OS_HEAP_BLOCK_SIZE <=
    saddr h + total (table h) * LIEBE_OS_HEAP_BLOCK_SIZE.

(** [n] free blocks in a row, somewhere in the table. *)
Definition fits (h : heap) (m : mem) (n : Z) : Prop :=
  exists b, 0 <= b /\ b + n <= total (table h) /\ free_run h m b n.

(** A run of the allocator together with its clients: the memory and the list
    of blocks handed out and not yet returned.  Clients may write anywhere
    outside the table.  A request is one the table has a free run for, or one
    that is answered with null; the others, which are given a block too short,
    are the subject of [heap_malloc_exhausted] below. *)
Inductive heap_run (h : heap) (m0 : mem) : mem -> list (Z * Z) -> Prop :=
| run_start : heap_run h m0 m0 []
| run_malloc m live size p m' :
    heap_run h m0 m live ->
    0 < size <= 0xFFFFF000 ->
    fits h m (blocks_for size) ->
    heap_malloc h size m = (p, m') ->
    heap_run h m0 m' ((p, blocks_for size) :: live)
| run_null m live size m' :
    heap_run h m0 m live ->
    0 < size <= 0xFFFFF000 ->
    heap_malloc h size m = (0, m') ->
    heap_run h m0 m' live
| run_free m l1 p n l2 :
    heap_run h m0 m (l1 ++ (p, n) :: l2) ->
    heap_run h m0 (heap_free h p m) (l1 ++ l2)
| run_write m live a v :
    heap_run h m0 m live -> ~ in_table h a -> heap_run h m0 (wr m a v) live.

(** ** Lemmas on the encoding *)

Lemma length_encode c : length (encode c) = cell_blocks c.
Proof. destruct c as [|[|k]]; cbn; try done. rewrite length_app, length_replicate. cbn; lia. Qed.

Lemma encode_all_app c1 c2 : encode_all (c1 ++ c2) = encode_all c1 ++ encode_all c2.
Proof. unfold encode_all. by rewrite map_app, concat_app. Qed.

Lemma length_encode_all cs : length (encode_all cs) = blocks cs.
Proof.
  induction cs as [|c cs IH]; [done|].
  unfold encode_all in *; cbn. by rewrite length_app, length_encode, IH.
Qed.

Lemma blocks_app c1 c2 : blocks (c1 ++ c2) = (blocks c1 + blocks c2)%nat.
Proof. unfold blocks. by rewrite sum_list_with_app. Qed.

Lemma blocks_run n : blocks (run_of_free n) = n.
Proof. induction n; cbn in *; [done|]. unfold blocks, run_of_free in *. by rewrite IHn. Qed.

Lemma encode_run n : encode_all (run_of_free n) = replicate n 0.
Proof. induction n as [|n IH]; [done|]. cbn. by f_equal. Qed.

(** Every entry of an allocation has the [TAKEN] bit. *)
Lemma encode_used_taken k i x :
  encode (CUsed k) !! i = Some x -> Z.land x HEAP_BLOCK_TABLE_ENTRY_TAKEN <> 0.
Proof.
  destruct k as [|k]; cbn.
  - destruct i; cbn; [by intros [= <-]|done].
  - destruct i as [|i]; cbn; [by intros [= <-]|]. intros Hi.
    apply lookup_app_Some in Hi as [Hi | [_ Hi]].
    + by apply lookup_replicate in Hi as [-> _].
    + apply list_lookup_singleton_Some in Hi as [_ <-]. done.
Qed.

(** A window of free entries is a run of free cells. *)
Lemma free_window_split cs b n :
  (b + n <= blocks cs)%nat -> (0 < n)%nat ->
  (forall i, (b <= i < b + n)%nat ->
     exists x, encode_all cs !! i = Some x /\ Z.land x HEAP_BLOCK_TABLE_ENTRY_TAKEN = 0) ->
  exists pre post, cs = pre ++ run_of_free n ++ post /\ blocks pre = b.
Proof.
  revert b n. induction cs as [|c cs IH]; intros b n Hb Hn Hw; [cbn in Hb; lia|].
  assert (Hsk : forall i x, encode_all (c :: cs) !! (cell_blocks c + i)%nat = Some x <->
    encode_all cs !! i = Some x).
  { intros i x. unfold encode_all; cbn [map concat].
    rewrite lookup_app_r by (rewrite length_encode; lia). rewrite length_encode.
    by replace (cell_blocks c + i - cell_blocks c)%nat with i by lia. }
  change (blocks (c :: cs)) with (cell_blocks c + blocks cs)%nat in Hb.
  destruct (decide (cell_blocks c <= b)%nat) as [Hge|Hlt].
  - destruct (IH (b - cell_blocks c)%nat n) as (pre & post & -> & Hpre); [lia|done| |].
    + intros i Hi. destruct (Hw (cell_blocks c + i)%nat ltac:(lia)) as (x & Hx & Ht).
      exists x. split; [by apply Hsk|done].
    + exists (c :: pre), post. split; [done|].
      change (blocks (c :: pre)) with (cell_blocks c + blocks pre)%nat. lia.
  - destruct c as [|k].
    + cbn in Hlt. assert (b = 0%nat) as -> by lia.
      destruct n as [|[|n]]; [lia| |].
      * exists [], cs. done.
      * destruct (IH 0%nat (S n)) as (pre & post & -> & Hpre); [cbn in Hb; lia|lia| |].
        -- intros i Hi. destruct (Hw (S i) ltac:(lia)) as (x & Hx & Ht).
           exists x. split; [by apply (Hsk i x)|done].
        -- destruct pre as [|c' pre]; [|destruct c'; cbn in Hpre; lia].
           exists [], post. done.
    + exfalso. destruct (Hw b ltac:(lia)) as (x & Hx & Ht).
      unfold encode_all in Hx; cbn [map concat] in Hx.
      rewrite lookup_app_l in Hx by (rewrite length_encode; lia).
      by apply encode_used_taken in Hx.
Qed.

(** The encoding determines the cells. *)
Lemma encode_used_head k k' (r r' : list Z) :
  replicate k 0x41 ++ 0x01 :: r = replicate k' 0x41 ++ 0x01 :: r' -> k = k' /\ r = r'.
Proof.
  revert k'; induction k as [|k IH]; intros [|k'] E; cbn in E; try discriminate.
  - by injection E as ->.
  - injection E as E. apply IH in E as [-> ->]. done.
Qed.

Lemma encode_all_inj c1 c2 : encode_all c1 = encode_all c2 -> c1 = c2.
Proof.
  unfold encode_all. revert c2; induction c1 as [|c1 cs1 IH]; intros [|c2 cs2] E; [done| | |].
  - destruct c2 as [|[|k]]; discriminate E.
  - destruct c1 as [|[|k]]; discriminate E.
  - cbn [map concat] in E.
    destruct c1 as [|[|k]], c2 as [|[|k']]; cbn in E; try discriminate E;
      try (injection E as E; f_equal; by apply IH).
    injection E as E. rewrite <- !app_assoc in E. cbn [app] in E.
    apply encode_used_head in E as [-> E]. f_equal. by apply IH.
Qed.

(** ** The first-fit scan *)

Lemma free_run_split h m b n :
  0 <= n -> free_run h m b (n + 1) <-> free_run h m b n /\ free_block h m (b + n) = true.
Proof.
  intros Hn. unfold free_run. split.
  - intros H; split; [intros; apply H; lia | apply H; lia].
  - intros [H1 H2] i Hi. destruct (decide (i = b + n)) as [->|]; [done|apply H1; lia].
Qed.

(** What a scan that has reached index [i] with a run of [c] free entries
    behind it returns: the start of the first run of [need] free entries, or,
    when there is none, the start of the free run at the end of the table. *)
Definition scan_result (h : heap) (m : mem) (need r : Z) : Prop :=
  (0 <= r /\ r + need <= total (table h) /\ free_run h m r need /\
   forall b, 0 <= b < r -> ~ free_run h m b need) \/
  ((forall b, 0 <= b -> b + need <= total (table h) -> ~ free_run h m b need) /\
   exists k, 0 <= k < need /\ k <= total (table h) /\
     free_run h m (total (table h) - k) k /\
     (k < total (table h) -> free_block h m (total (table h) - k - 1) = false) /\
     r = if k =? 0 then -1 else total (table h) - k).

Lemma get_start_block_loop_spec h m need n i c :
  0 < need < 4294967296 -> 0 <= c < need -> c <= i ->
  i + Z.of_nat n = total (table h) -> total (table h) < 2147483648 ->
  free_run h m (i - c) c ->
  (c < i -> free_block h m (i - c - 1) = false) ->
  (forall b, 0 <= b < i - c -> ~ free_run h m b need) ->
  scan_result h m need
    (get_start_block_loop n (entries (table h)) need i c (if c =? 0 then -1 else i - c) m).
Proof.
  intros Hneed. revert i c. induction n as [|n IH]; intros i c Hc Hci Hi Ht Hrun Hmax Hno;
    cbn [get_start_block_loop].
  - right. replace i with (total (table h)) in * by lia. split.
    + intros b Hb0 Hb Hf. destruct (decide (b < total (table h) - c)); [by apply (Hno b)|lia].
    + exists c. repeat split; try done; lia.
  - fold (free_block h m i). unfold free_block in Hmax. 
    change (Z.land (rd m (entries (table h) + i)) HEAP_BLOCK_TABLE_ENTRY_TAKEN =? 0)
      with (free_block h m i).
    destruct (free_block h m i) eqn:Ef; cbn [negb].
    + assert (Hstart : (if (if c =? 0 then -1 else i - c) =? -1 then i32 i
                        else if c =? 0 then -1 else i - c) = i - c).
      { destruct (Z.eqb_spec c 0) as [->|]; cbn; [rewrite i32_id; lia|].
        destruct (Z.eqb_spec (i - c) (-1)); lia. }
      rewrite Hstart, u32_id by lia.
      assert (Hrun' : free_run h m (i - c) (c + 1)).
      { apply free_run_split; [lia|]. by replace (i - c + c) with i by lia. }
      destruct (Z.eqb_spec (c + 1) need) as [<-|Hne].
      * left. repeat split; try done; lia.
      * replace (i - c) with (if c + 1 =? 0 then -1 else (i + 1) - (c + 1))
          by (destruct (Z.eqb_spec (c + 1) 0); lia).
        apply IH; try lia.
        -- by replace (i + 1 - (c + 1)) with (i - c) by lia.
        -- intros Hlt. replace (i + 1 - (c + 1) - 1) with (i - c - 1) by lia.
           apply Hmax; lia.
        -- intros b Hb. apply Hno; lia.
    + apply (IH (i + 1) 0); try lia.
      * intros j Hj; lia.
      * intros _. by replace (i + 1 - 0 - 1) with i by lia.
      * intros b Hb Hf. destruct (decide (b < i - c)); [apply (Hno b); [lia|done]|].
        rewrite (Hf i) in Ef by lia. done.
Qed.

(** ** Marking *)

Lemma encode_lookup k j :
  (j <= k)%nat ->
  encode (CUsed k) !! j =
    Some (if decide (j = 0%nat) then (if decide (k = 0%nat) then 0x81 else 0xC1)
          else if decide (j = k) then 0x01 else 0x41).
Proof.
  intros Hj. destruct k as [|k]; cbn [encode].
  - by assert (j = 0%nat) as -> by lia.
  - destruct j as [|j]; [done|].
    transitivity ((replicate k 0x41 ++ [0x01]) !! j); [done|].
    destruct (decide (S j = 0%nat)); [lia|].
    destruct (decide (S j = S k)).
    + rewrite lookup_app_r by (rewrite length_replicate; lia).
      rewrite length_replicate. by replace (j - k)%nat with 0%nat by lia.
    + rewrite lookup_app_l by (rewrite length_replicate; lia).
      rewrite lookup_replicate_2 by lia. done.
Qed.

Lemma rd_mark_taken_loop n ents end_ i entry m a :
  i + Z.of_nat n = end_ ->
  rd (mark_blocks_taken_loop (S n) ents end_ i entry m) a =
    if a =? ents + i then u8 entry
    else if (ents + i <? a) && (a <? ents + end_) then 0x41
    else if a =? ents + end_ then 0x01 else rd m a.
Proof.
  revert i entry m; induction n as [|n IH]; intros i entry m Hi.
  - cbn. rewrite rd_wr.
    zcases.
  - cbn [mark_blocks_taken_loop]. cbn [mark_blocks_taken_loop] in IH.
    rewrite IH by lia. rewrite rd_wr.
    zcases.
Qed.

(** Marking [S k] blocks from [b] writes the encoding of an allocation. *)
Lemma mark_taken_spec h b k m :
  bytes (heap_mark_blocks_taken h b (Z.of_nat (S k)) m) (entries (table h) + b) (S k)
    = encode (CUsed k) /\
  (forall a, a < entries (table h) + b \/ entries (table h) + b + Z.of_nat (S k) <= a ->
     rd (heap_mark_blocks_taken h b (Z.of_nat (S k)) m) a = rd m a).
Proof.
  assert (E : forall a, rd (heap_mark_blocks_taken h b (Z.of_nat (S k)) m) a =
    if a =? entries (table h) + b then (if decide (k = 0%nat) then 0x81 else 0xC1)
    else if (entries (table h) + b <? a) && (a <? entries (table h) + (b + Z.of_nat k)) then 0x41
    else if a =? entries (table h) + (b + Z.of_nat k) then 0x01 else rd m a).
  { intros a. unfold heap_mark_blocks_taken.
    replace (Z.to_nat (b + Z.of_nat (S k) - 1 - b + 1)) with (S k) by lia.
    replace (b + Z.of_nat (S k) - 1) with (b + Z.of_nat k) by lia.
    rewrite rd_mark_taken_loop by lia.
    replace (u8 _) with (if decide (k = 0%nat) then 0x81 else 0xC1); [done|].
    destruct (decide (k = 0%nat)), (Z.ltb_spec 1 (Z.of_nat (S k))); cbn; lia || done. }
  split.
  - apply list_eq_same_length with (n := S k);
      [by rewrite length_encode | by rewrite length_bytes |].
    intros i x y Hi Hx Hy. rewrite bytes_lookup in Hx by done.
    rewrite encode_lookup in Hy by lia.
    injection Hx as <-. injection Hy as <-. rewrite E.
    repeat case_decide; zcases.
  - intros a Ha. rewrite E.
    zcases.
Qed.

(** The free loop clears the chain that starts at [i] and ends at the first
    entry without [HAS_NEXT]. *)
Lemma rd_mark_free_loop k n ents i m a :
  (k < n)%nat ->
  (forall j, 0 <= j < Z.of_nat k -> Z.land (rd m (ents + (i + j))) HEAP_BLOCK_HAS_NEXT <> 0) ->
  Z.land (rd m (ents + (i + Z.of_nat k))) HEAP_BLOCK_HAS_NEXT = 0 ->
  rd (mark_blocks_free_loop n ents i m) a =
    if (ents + i <=? a) && (a <=? ents + (i + Z.of_nat k)) then 0 else rd m a.
Proof.
  revert n i m; induction k as [|k IH]; intros n i m Hn Hnext Hlast;
    (destruct n as [|n]; [lia|]); cbn [mark_blocks_free_loop].
  - change (Z.of_nat 0) with 0 in *. rewrite Z.add_0_r in *. rewrite Hlast, Z.eqb_refl, rd_wr.
    zcases.
  - pose proof (Hnext 0 ltac:(lia)) as H0. rewrite Z.add_0_r in H0.
    apply Z.eqb_neq in H0. rewrite H0.
    rewrite IH; [|lia| |].
    + rewrite rd_wr. unfold HEAP_BLOCK_TABLE_ENTRY_FREE.
      zcases.
    + intros j Hj. rewrite rd_wr_ne by lia. replace (i + 1 + j) with (i + (j + 1)) by lia.
      apply Hnext; lia.
    + rewrite rd_wr_ne by lia. by replace (i + 1 + Z.of_nat k) with (i + Z.of_nat (S k)) by lia.
Qed.

(** The free loop never stores anything but free entries, so the first entry
    it visits ends up free. *)
Lemma mark_free_loop_keeps n ents i m a :
  rd m a = 0 -> rd (mark_blocks_free_loop n ents i m) a = 0.
Proof.
  revert i m; induction n as [|n IH]; intros i m H; cbn [mark_blocks_free_loop]; [done|].
  assert (rd (wr m (ents + i) HEAP_BLOCK_TABLE_ENTRY_FREE) a = 0)
    by (rewrite rd_wr; zcases).
  case_match; [done|by apply IH].
Qed.
Lemma mark_free_loop_first n ents i m :
  rd (mark_blocks_free_loop (S n) ents i m) (ents + i) = 0.
Proof.
  cbn [mark_blocks_free_loop]. case_match; [by rewrite rd_wr_eq|].
  apply mark_free_loop_keeps. by rewrite rd_wr_eq.
Qed.

(** ** Refinement of the abstract heap *)

Section Refinement.
Context (h : heap).
Implicit Types (cs pre post : list cell).

Lemma repr_blocks m cs : heap_repr h m cs -> Z.of_nat (blocks cs) = total (table h).
Proof.
  intros [Ht Hr _]. apply (f_equal length) in Ht.
  rewrite length_bytes, length_encode_all in Ht. lia.
Qed.

Lemma repr_lookup m cs i :
  heap_repr h m cs -> (i < blocks cs)%nat ->
  encode_all cs !! i = Some (rd m (entries (table h) + Z.of_nat i)).
Proof.
  intros Hr Hi. pose proof (repr_blocks _ _ Hr) as Hb. destruct Hr as [<- Hr _].
  apply bytes_lookup. lia.
Qed.

Lemma run_free_run m pre n post :
  heap_repr h m (pre ++ run_of_free n ++ post) ->
  free_run h m (Z.of_nat (blocks pre)) (Z.of_nat n).
Proof.
  intros Hr i Hi. pose proof (repr_lookup _ _ (Z.to_nat i) Hr) as Hl.
  rewrite !blocks_app, blocks_run in Hl. specialize (Hl ltac:(lia)).
  rewrite !encode_all_app, encode_run in Hl.
  rewrite lookup_app_r in Hl by (rewrite length_encode_all; lia).
  rewrite lookup_app_l in Hl by (rewrite length_replicate, length_encode_all; lia).
  apply lookup_replicate in Hl as [Hl _]. unfold free_block.
  replace i with (Z.of_nat (Z.to_nat i)) by lia. by rewrite Hl.
Qed.

Lemma free_run_cells m cs b n :
  heap_repr h m cs -> (0 < n)%nat -> (b + n <= blocks cs)%nat ->
  free_run h m (Z.of_nat b) (Z.of_nat n) ->
  exists pre post, cs = pre ++ run_of_free n ++ post /\ blocks pre = b.
Proof.
  intros Hr Hn Hb Hf. apply free_window_split; [lia|done|].
  intros i Hi. eexists. split; [apply (repr_lookup _ _ _ Hr); lia|].
  specialize (Hf (Z.of_nat i) ltac:(lia)). unfold free_block in Hf. by apply Z.eqb_eq in Hf.
Qed.

Lemma scan_spec m cs n :
  heap_repr h m cs -> (0 < n)%nat -> Z.of_nat n < 4294967296 ->
  scan_result h m (Z.of_nat n)
    (get_start_block_loop (Z.to_nat (total (table h))) (entries (table h))
       (Z.of_nat n) 0 0 (-1) m).
Proof.
  intros Hr Hn Hn2. destruct Hr as [_ Ht _].
  apply (get_start_block_loop_spec h m (Z.of_nat n) _ 0 0); try lia.
  intros i Hi; lia.
Qed.

(** When some run of [n] free blocks exists the scan finds the first. *)
Lemma get_start_block_fit m cs pre post n :
  heap_repr h m cs -> first_fit n cs pre post -> (0 < n)%nat -> Z.of_nat n < 4294967296 ->
  heap_get_start_block h (Z.of_nat n) m = Z.of_nat (blocks pre).
Proof.
  intros Hr [-> Hmin] Hn Hn2. pose proof (scan_spec _ _ _ Hr Hn Hn2) as Hs.
  pose proof (run_free_run _ _ _ _ Hr) as Hrun.
  pose proof (repr_blocks _ _ Hr) as Hb. rewrite !blocks_app, blocks_run in Hb.
  unfold heap_get_start_block. set (r := get_start_block_loop _ _ _ _ _ _ _) in *.
  destruct Hs as [(H0 & Ht & Hf & Hno) | (Hno & _)].
  - destruct (free_run_cells _ _ (Z.to_nat r) n Hr Hn) as (pre' & post' & E & Epre).
    + rewrite !blocks_app, blocks_run. lia.
    + by replace (Z.of_nat (Z.to_nat r)) with r by lia.
    + apply Hmin in E. destruct (Z.eqb_spec r (-1)); [lia|].
      destruct (decide (Z.of_nat (blocks pre) < r)); [|lia].
      exfalso; apply (Hno (Z.of_nat (blocks pre))); [lia|done].
  - exfalso; apply (Hno (Z.of_nat (blocks pre))); [lia|lia|done].
Qed.

Lemma heap_repr_frame m m' cs :
  heap_repr h m cs -> (forall a, in_table h a -> rd m' a = rd m a) -> heap_repr h m' cs.
Proof.
  intros [Ht Hr Hs] Hf. split; [|done|done]. rewrite <- Ht.
  apply bytes_ext. intros i Hi. apply Hf. unfold in_table. lia.
Qed.

(** Replacing a segment of cells by one of the same size. *)
Lemma heap_repr_splice m m' pre old new post :
  heap_repr h m (pre ++ old ++ post) -> blocks new = blocks old ->
  bytes m' (entries (table h) + Z.of_nat (blocks pre)) (blocks new) = encode_all new ->
  (forall a, a < entries (table h) + Z.of_nat (blocks pre) \/
     entries (table h) + Z.of_nat (blocks pre + blocks old) <= a -> rd m' a = rd m a) ->
  heap_repr h m' (pre ++ new ++ post).
Proof.
  intros Hr Hlen Hnew Hout. pose proof (repr_blocks _ _ Hr) as Hb.
  destruct Hr as [Ht Hr Hs]. split; [|done|done].
  assert (Hlen' : Z.to_nat (total (table h)) =
    length (encode_all pre ++ encode_all old ++ encode_all post)).
  { rewrite !length_app, !length_encode_all. rewrite !blocks_app in Hb. lia. }
  rewrite Hlen', !encode_all_app in *.
  replace (length (encode_all pre ++ encode_all old ++ encode_all post))
    with (length (encode_all pre ++ encode_all new ++ encode_all post))
    by (rewrite !length_app, !length_encode_all; lia).
  apply (bytes_splice m m' _ _ (encode_all old)); rewrite ?length_encode_all; try done.
  intros b _ Hb'. by apply Hout.
Qed.

Lemma heap_malloc_blocks_fit m cs pre post k :
  heap_repr h m cs -> first_fit (S k) cs pre post ->
  exists m', heap_malloc_blocks h (Z.of_nat (S k)) m =
      (saddr h + Z.of_nat (blocks pre) * LIEBE_OS_HEAP_BLOCK_SIZE, m') /\
    heap_repr h m' (pre ++ CUsed k :: post) /\
    (forall a, ~ in_table h a -> rd m' a = rd m a).
Proof.
  intros Hr Hfit. pose proof Hfit as [E _].
  pose proof (repr_blocks _ _ Hr) as Hb. pose proof (repr_total _ _ _ Hr) as Htot.
  pose proof (repr_saddr _ _ _ Hr) as Hsa.
  rewrite E, !blocks_app, blocks_run in Hb. unfold LIEBE_OS_HEAP_BLOCK_SIZE in *.
  destruct (mark_taken_spec h (Z.of_nat (blocks pre)) k m) as [Hin Hout].
  eexists. split; [|split].
  - unfold heap_malloc_blocks. rewrite (get_start_block_fit m cs pre post) by (done || lia).
    destruct (Z.ltb_spec (Z.of_nat (blocks pre)) 0); [lia|]. rewrite (i32_id (Z.of_nat (S k))) by lia.
    unfold heap_block_to_address, LIEBE_OS_HEAP_BLOCK_SIZE. rewrite u32_id by nia. reflexivity.
  - rewrite E in Hr. apply (heap_repr_splice m _ pre (run_of_free (S k)) [CUsed k] post); try done.
    + rewrite blocks_run. cbn. lia.
    + change (blocks [CUsed k]) with (S k + 0)%nat. rewrite Nat.add_0_r, Hin.
      unfold encode_all. cbn [map concat]. by rewrite app_nil_r.
    + intros a Ha. apply Hout. rewrite blocks_run in Ha. lia.
  - intros a Ha. apply Hout. unfold in_table in Ha. lia.
Qed.

Lemma address_to_block_inv m cs b :
  heap_repr h m cs -> 0 <= b <= total (table h) ->
  heap_address_to_block h (saddr h + b * LIEBE_OS_HEAP_BLOCK_SIZE) = b.
Proof.
  intros [_ Ht Hs] Hb. unfold heap_address_to_block, LIEBE_OS_HEAP_BLOCK_SIZE in *.
  replace (saddr h + b * 4096 - saddr h) with (b * 4096) by lia.
  rewrite i32_id by lia. rewrite cdiv_pos by lia. by apply Z.div_mul.
Qed.

Lemma heap_free_used m pre k post :
  heap_repr h m (pre ++ CUsed k :: post) ->
  let m' := heap_free h (saddr h + Z.of_nat (blocks pre) * LIEBE_OS_HEAP_BLOCK_SIZE) m in
  heap_repr h m' (pre ++ run_of_free (S k) ++ post) /\
  (forall a, ~ in_table h a -> rd m' a = rd m a).
Proof.
  intros Hr. pose proof (repr_blocks _ _ Hr) as Hb.
  rewrite blocks_app in Hb. change (blocks (CUsed k :: post)) with (S k + blocks post)%nat in Hb.
  pose proof (repr_total _ _ _ Hr) as Htot.
  assert (Hent : forall j, (j <= k)%nat -> 
    rd m (entries (table h) + (Z.of_nat (blocks pre) + Z.of_nat j)) =
    (if decide (j = 0%nat) then (if decide (k = 0%nat) then 0x81 else 0xC1)
     else if decide (j = k) then 0x01 else 0x41)).
  { intros j Hj. pose proof (repr_lookup _ _ (blocks pre + j) Hr) as Hl.
    rewrite blocks_app in Hl. change (blocks (CUsed k :: post)) with (S k + blocks post)%nat in Hl.
    specialize (Hl ltac:(lia)). rewrite encode_all_app in Hl.
    rewrite lookup_app_r in Hl by (rewrite length_encode_all; lia).
    rewrite length_encode_all in Hl.
    replace (blocks pre + j - blocks pre)%nat with j in Hl by lia.
    unfold encode_all in Hl. cbn [map concat] in Hl.
    rewrite lookup_app_l, encode_lookup in Hl by (rewrite ?length_encode; cbn; lia).
    injection Hl as ->. f_equal; lia. }
  assert (E : forall a,
    rd (heap_free h (saddr h + Z.of_nat (blocks pre) * LIEBE_OS_HEAP_BLOCK_SIZE) m) a =
    if (entries (table h) + Z.of_nat (blocks pre) <=? a) &&
       (a <=? entries (table h) + (Z.of_nat (blocks pre) + Z.of_nat k)) then 0 else rd m a).
  { intros a. unfold heap_free. rewrite (address_to_block_inv m _ _ Hr) by lia.
    unfold heap_mark_blocks_free. rewrite i32_id by lia.
    apply rd_mark_free_loop; [lia| |].
    - intros j Hj. replace j with (Z.of_nat (Z.to_nat j)) by lia. rewrite Hent by lia.
      repeat case_decide; try done; lia.
    - rewrite Hent by lia. repeat case_decide; try done; lia. }
  split.
  - apply (heap_repr_splice m _ pre [CUsed k] (run_of_free (S k)) post); try done.
    + rewrite blocks_run. cbn. lia.
    + rewrite blocks_run, encode_run.
      apply list_eq_same_length with (n := S k);
        [by rewrite length_replicate | by rewrite length_bytes |].
      intros i x y Hi Hx Hy. apply lookup_replicate in Hy as [-> _].
      rewrite bytes_lookup in Hx by done. injection Hx as <-. rewrite E.
      zcases.
    + intros a Ha. rewrite E.
      change (blocks [CUsed k]) with (S k + 0)%nat in Ha.
      zcases.
  - intros a Ha. rewrite E. unfold in_table in Ha.
    zcases.
Qed.

End Refinement.

(** ** Sizes *)

Lemma align_value_spec val :
  0 <= val <= 0xFFFFF000 ->
  heap_align_value_to_upper val = blocks_for val * LIEBE_OS_HEAP_BLOCK_SIZE.
Proof.
  intros Hv. unfold heap_align_value_to_upper, blocks_for, LIEBE_OS_HEAP_BLOCK_SIZE, u32.
  zcases_step; dlia.
Qed.

Lemma heap_malloc_unfold h size m :
  0 <= size <= 0xFFFFF000 -> heap_malloc h size m = heap_malloc_blocks h (blocks_for size) m.
Proof.
  intros Hs. unfold heap_malloc. rewrite u32_id by lia. rewrite align_value_spec by lia.
  by rewrite Z.div_mul.
Qed.

Lemma blocks_for_bounds size :
  0 < size <= 0xFFFFF000 ->
  0 < blocks_for size < 4294967296 /\
  size <= blocks_for size * LIEBE_OS_HEAP_BLOCK_SIZE < size + LIEBE_OS_HEAP_BLOCK_SIZE.
Proof. intros. unfold blocks_for, LIEBE_OS_HEAP_BLOCK_SIZE. dlia. Qed.

(** ** Allocations of the abstract heap *)

Lemma live_from_app off c1 c2 :
  live_from off (c1 ++ c2) = live_from off c1 ++ live_from (off + blocks c1) c2.
Proof.
  revert off; induction c1 as [|[|k] c1 IH]; intros off; cbn [live_from app].
  - f_equal; cbn; lia.
  - rewrite IH. do 2 f_equal. change (blocks (CFree :: c1)) with (1 + blocks c1)%nat. lia.
  - rewrite IH. cbn [app]. do 3 f_equal. change (blocks (CUsed k :: c1)) with (S k + blocks c1)%nat. lia.
Qed.

Lemma live_from_run off n : live_from off (run_of_free n) = [].
Proof. revert off; induction n as [|n IH]; intros; [done|]. apply (IH (off + 1)%nat). Qed.

Lemma live_from_bounds off cs b n :
  (b, n) ∈ live_from off cs -> (off <= b /\ b + n <= off + blocks cs)%nat.
Proof.
  revert off; induction cs as [|[|k] cs IH]; intros off H; cbn [live_from] in H.
  - by apply not_elem_of_nil in H.
  - apply IH in H. change (blocks (CFree :: cs)) with (1 + blocks cs)%nat. lia.
  - change (blocks (CUsed k :: cs)) with (S k + blocks cs)%nat.
    apply elem_of_cons in H as [[= -> ->]|H]; [lia|]. apply IH in H. lia.
Qed.

Lemma live_from_split off cs b n :
  (b, n) ∈ live_from off cs ->
  exists pre k post, cs = pre ++ CUsed k :: post /\ n = S k /\ (b = off + blocks pre)%nat.
Proof.
  revert off; induction cs as [|[|k] cs IH]; intros off H; cbn [live_from] in H.
  - by apply not_elem_of_nil in H.
  - apply IH in H as (pre & k' & post & -> & -> & ->).
    exists (CFree :: pre), k', post. repeat split; try done.
    change (blocks (CFree :: pre)) with (1 + blocks pre)%nat. lia.
  - apply elem_of_cons in H as [[= -> ->]|H].
    + exists [], k, cs. repeat split; try done; cbn; lia.
    + apply IH in H as (pre & k' & post & -> & -> & ->).
      exists (CUsed k :: pre), k', post. repeat split; try done.
      change (blocks (CUsed k :: pre)) with (S k + blocks pre)%nat. lia.
Qed.

Definition disjoint_blocks (x y : nat * nat) : Prop :=
  (fst x + snd x <= fst y \/ fst y + snd y <= fst x)%nat.

Lemma live_from_disjoint off cs : ForallOrdPairs disjoint_blocks (live_from off cs).
Proof.
  revert off; induction cs as [|[|k] cs IH]; intros off; cbn [live_from]; [constructor|apply IH|].
  constructor; [|apply IH].
  apply list.Forall_forall. intros [b n] H. apply live_from_bounds in H.
  unfold disjoint_blocks; cbn. lia.
Qed.

#[export] Instance pairwise_disjoint_proper :
  Proper (Permutation ==> iff) pairwise_disjoint.
Proof.
  assert (Hone : forall l l', l ≡ₚ l' -> pairwise_disjoint l -> pairwise_disjoint l').
  { intros l l' Hp Hl l1' x l2' ->.
    assert (Hx : x ∈ l) by (rewrite Hp; apply elem_of_app; right; by left).
    apply list_elem_of_split in Hx as (l1 & l2 & ->).
    apply Permutation_app_inv in Hp. rewrite <- Hp. by apply Hl. }
  intros l l' Hp; split; apply Hone; done.
Qed.

Lemma live_of_pairwise h off cs :
  pairwise_disjoint (map (fun '(b, n) => (block_addr h b, Z.of_nat n)) (live_from off cs)).
Proof.
  intros l1 x l2 E. apply map_eq_app in E as (l1' & r & E & <- & E2).
  apply map_eq_cons in E2 as ([b n] & l2' & -> & <- & <-).
  pose proof (live_from_disjoint off cs) as Hd. rewrite E in Hd.
  rewrite <- map_app. apply Forall_map, list.Forall_forall. intros [b' n'] Hin.
  enough (disjoint_blocks (b, n) (b', n')) as Hdb.
  { unfold disjoint_blocks, disjoint_alloc, block_addr, LIEBE_OS_HEAP_BLOCK_SIZE in *.
    cbn in *. lia. }
  clear E. apply elem_of_app in Hin as [Hin|Hin].
  - induction l1' as [|y l1' IH]; [by apply not_elem_of_nil in Hin|].
    cbn in Hd. inversion_clear Hd as [|? ? Hf Ho]. apply elem_of_cons in Hin as [<-|Hin].
    + rewrite list.Forall_forall in Hf. specialize (Hf (b, n)). unfold disjoint_blocks in *.
      cbn in *. destruct Hf; [apply elem_of_app; right; by left|lia|lia].
    + by apply IH.
  - induction l1' as [|y l1' IH].
    + inversion_clear Hd as [|? ? Hf _]. rewrite list.Forall_forall in Hf. by apply Hf.
    + cbn in Hd. inversion_clear Hd. by apply IH.
Qed.

Lemma live_of_in_pool h m cs x :
  heap_repr h m cs -> x ∈ live_of h cs -> in_pool h x.
Proof.
  intros Hr Hx. apply list_elem_of_fmap in Hx as ([b n] & -> & Hx).
  apply live_from_bounds in Hx. apply repr_blocks in Hr.
  unfold in_pool, block_addr, LIEBE_OS_HEAP_BLOCK_SIZE. cbn. lia.
Qed.

Lemma live_of_split h cs p n :
  (p, n) ∈ live_of h cs ->
  exists pre k post, cs = pre ++ CUsed k :: post /\ n = Z.of_nat (S k) /\
    p = block_addr h (blocks pre).
Proof.
  intros Hx. apply list_elem_of_fmap in Hx as ([b n'] & [= -> ->] & Hx).
  apply live_from_split in Hx as (pre & k & post & -> & -> & ->).
  by exists pre, k, post.
Qed.

Lemma live_of_used h pre k post :
  live_of h (pre ++ CUsed k :: post) ≡ₚ
  (block_addr h (blocks pre), Z.of_nat (S k)) :: live_of h (pre ++ run_of_free (S k) ++ post).
Proof.
  unfold live_of. rewrite !live_from_app, live_from_run, blocks_run, !map_app.
  cbn [live_from map app]. by rewrite <- Permutation_middle.
Qed.

(** The free run at the end of a heap is determined. *)
Lemma last_run_inv pre n pre' n' :
  pre ++ run_of_free n = pre' ++ run_of_free n' -> ends_taken pre -> ends_taken pre' ->
  pre = pre' /\ n = n'.
Proof.
  assert (Hs : forall k, run_of_free (S k) = run_of_free k ++ [CFree])
    by (intros k; unfold run_of_free; by rewrite <- replicate_cons_app).
  revert n'. induction n as [|n IH]; intros [|n'] E H1 H2; rewrite ?Hs, ?app_assoc, ?app_nil_r in E.
  - done.
  - cbn in E. by destruct (H1 _ E).
  - cbn in E. by destruct (H2 _ (eq_sym E)).
  - apply app_inj_tail in E as [E _]. destruct (IH n' E H1 H2) as [-> ->]. done.
Qed.

(** ** What [heap_malloc] does, case by case *)

(** Whether a run of [n] free blocks exists can be read off the scan. *)
Lemma first_fit_or_not h m cs n :
  heap_repr h m cs -> (0 < n)%nat -> Z.of_nat n < 4294967296 ->
  (exists pre post, first_fit n cs pre post) \/
  (exists k, (k < n)%nat /\
     (exists pre, cs = pre ++ run_of_free k /\ ends_taken pre) /\
     (forall pre post, cs <> pre ++ run_of_free n ++ post) /\
     heap_get_start_block h (Z.of_nat n) m =
       if decide (k = 0%nat) then - ENOMEM else total (table h) - Z.of_nat k).
Proof.
  intros Hr Hn Hn2. pose proof (scan_spec h m cs n Hr Hn Hn2) as Hs.
  pose proof (repr_blocks _ _ _ Hr) as Hb.
  assert (Eg : heap_get_start_block h (Z.of_nat n) m =
    let r := get_start_block_loop (Z.to_nat (total (table h))) (entries (table h))
               (Z.of_nat n) 0 0 (-1) m in if r =? -1 then - ENOMEM else r) by done.
  rewrite Eg. clear Eg. cbv zeta. set (r := get_start_block_loop _ _ _ _ _ _ _) in *.
  destruct Hs as [(H0 & Ht & Hf & Hno) | (Hno & k & Hk & Hkt & Hkr & Hmax & Er)].
  - left. destruct (free_run_cells _ _ _ (Z.to_nat r) n Hr Hn) as (pre & post & E & Epre);
      [lia|by replace (Z.of_nat (Z.to_nat r)) with r by lia|].
    exists pre, post. split; [done|]. intros pre' post' E'.
    destruct (decide (blocks pre <= blocks pre')%nat); [done|].
    exfalso. apply (Hno (Z.of_nat (blocks pre'))); [lia|]. rewrite E' in Hr.
    by apply (run_free_run _ _ _ _ _ Hr).
  - right. exists (Z.to_nat k). repeat split; [lia| | |].
    + assert (Hl : forall pre, cs = pre ++ run_of_free (Z.to_nat k) -> ends_taken pre).
      { intros pre E pre0 ->. rewrite E in Hb. rewrite !blocks_app, blocks_run in Hb.
        change (blocks [CFree]) with 1%nat in Hb.
        assert (Hf : free_run h m (Z.of_nat (blocks pre0)) 1).
        { apply (run_free_run h m pre0 1 (run_of_free (Z.to_nat k))). change (run_of_free 1) with [CFree].
          rewrite <- app_assoc in E. by rewrite <- E. }
        specialize (Hf (Z.of_nat (blocks pre0)) ltac:(lia)).
        specialize (Hmax ltac:(lia)).
        replace (total (table h) - k - 1) with (Z.of_nat (blocks pre0)) in Hmax by lia. congruence. }
      destruct (decide (k = 0)) as [->|].
      { exists cs. assert (E : cs = cs ++ run_of_free (Z.to_nat 0)) by (cbn; by rewrite app_nil_r). split; [done|by apply Hl]. }
      destruct (free_run_cells _ _ _ (Z.to_nat (total (table h) - k)) (Z.to_nat k) Hr)
        as (pre & post & E & Epre); [lia|lia| |].
      { by rewrite !Z2Nat.id by lia. }
      exists pre. cut (cs = pre ++ run_of_free (Z.to_nat k)); [by intros Ec; split; [|apply Hl]|].
      rewrite E in Hb. rewrite !blocks_app, blocks_run in Hb.
      assert (post = []) as ->.
      { destruct post as [|c post]; [done|]. destruct c; cbn in Hb; lia. }
      by rewrite app_nil_r in E.
    + intros pre post E. pose proof Hr as Hr'. rewrite E in Hr'.
      pose proof (repr_blocks _ _ _ Hr') as Hb'. rewrite !blocks_app, blocks_run in Hb'.
      apply (Hno (Z.of_nat (blocks pre))); [lia|lia|]. by apply (run_free_run _ _ _ _ _ Hr').
    + rewrite Er. destruct (Z.eqb_spec k 0) as [->|]; cbn [Z.to_nat].
      * by case_decide.
      * case_decide; [lia|]. destruct (Z.eqb_spec (total (table h) - k) (-1)); lia.
Qed.

(** A successful [heap_malloc] is exactly a first-fit allocation; otherwise it
    returns null or the start of a free run that is too short. *)
Lemma heap_malloc_cases h m cs size :
  heap_repr h m cs -> 0 < size <= 0xFFFFF000 ->
  let n := Z.to_nat (blocks_for size) in
  (exists pre post m', first_fit n cs pre post /\
     heap_malloc h size m = (block_addr h (blocks pre), m') /\
     heap_repr h m' (pre ++ CUsed (n - 1) :: post) /\
     (forall a, ~ in_table h a -> rd m' a = rd m a)) \/
  (exists k, (k < n)%nat /\ (exists pre, cs = pre ++ run_of_free k /\ ends_taken pre) /\
     (forall pre post, cs <> pre ++ run_of_free n ++ post) /\
     fst (heap_malloc h size m) =
       if decide (k = 0%nat) then 0
       else block_addr h (Z.to_nat (total (table h)) - k)).
Proof.
  intros Hr Hs n. destruct (blocks_for_bounds size Hs) as [Hn _].
  pose proof (repr_saddr _ _ _ Hr) as Hsa. pose proof (repr_total _ _ _ Hr) as Ht.
  rewrite heap_malloc_unfold by lia.
  assert (En : blocks_for size = Z.of_nat n) by lia. rewrite En.
  destruct (first_fit_or_not h m cs n Hr ltac:(lia) ltac:(lia))
    as [(pre & post & Hf) | (k & Hk & Hpre & Hno & Eg)].
  - left. replace n with (S (n - 1)) in * by lia.
    destruct (heap_malloc_blocks_fit h m cs pre post (n - 1) Hr Hf) as (m' & E & Hr' & Ho).
    exists pre, post, m'. rewrite E. cbn. rewrite Nat.sub_0_r. done.
  - right. exists k. repeat split; try done. unfold heap_malloc_blocks. rewrite Eg.
    destruct Hpre as (pre & -> & _). pose proof (repr_blocks _ _ _ Hr) as Hb.
    rewrite blocks_app, blocks_run in Hb.
    case_decide; [done|]. destruct (Z.ltb_spec (total (table h) - Z.of_nat k) 0); [lia|].
    cbn [fst]. unfold heap_block_to_address, block_addr, LIEBE_OS_HEAP_BLOCK_SIZE in *.
    rewrite u32_id by lia. lia.
Qed.

(** A null answer changes nothing, and a request that fits is met. *)
Lemma heap_malloc_null h m cs size m' :
  heap_repr h m cs -> 0 < size <= 0xFFFFF000 -> heap_malloc h size m = (0, m') -> m' = m.
Proof.
  intros Hr Hs. rewrite heap_malloc_unfold by lia. destruct (blocks_for_bounds size Hs) as [Hn _].
  assert (En : blocks_for size = Z.of_nat (Z.to_nat (blocks_for size))) by lia. rewrite En.
  pose proof (repr_saddr _ _ _ Hr) as Hsa. pose proof (repr_blocks _ _ _ Hr) as Hb.
  unfold LIEBE_OS_HEAP_BLOCK_SIZE in *.
  destruct (first_fit_or_not h m cs (Z.to_nat (blocks_for size)) Hr ltac:(lia) ltac:(lia))
    as [(pre & post & Hf) | (k & Hk & (pre & -> & _) & _ & Eg)].
  - destruct (Z.to_nat (blocks_for size)) as [|n] eqn:Ez; [lia|].
    destruct (heap_malloc_blocks_fit h m cs pre post n Hr Hf) as (m1 & E & _). rewrite E.
    intros [= E0 _]. unfold LIEBE_OS_HEAP_BLOCK_SIZE in *. lia.
  - rewrite blocks_app, blocks_run in Hb. unfold heap_malloc_blocks. rewrite Eg.
    case_decide; [by intros [= ->]|]. destruct (Z.ltb_spec (total (table h) - Z.of_nat k) 0); [lia|].
    intros [= E0 _]. unfold heap_block_to_address, LIEBE_OS_HEAP_BLOCK_SIZE in E0.
    rewrite u32_id in E0 by lia. lia.
Qed.

Lemma fits_cells h m cs n :
  heap_repr h m cs -> 0 < n -> fits h m n ->
  exists pre post, cs = pre ++ run_of_free (Z.to_nat n) ++ post.
Proof.
  intros Hr Hn (b & Hb & Ht & Hf). pose proof (repr_blocks _ _ _ Hr).
  destruct (free_run_cells h m cs (Z.to_nat b) (Z.to_nat n) Hr) as (pre & post & E & _);
    [lia|lia|by rewrite !Z2Nat.id by lia|]. by exists pre, post.
Qed.

Lemma heap_run_repr h m0 m live n :
  heap_repr h m0 (run_of_free n) -> heap_run h m0 m live ->
  exists cs, heap_repr h m cs /\ live_of h cs ≡ₚ live.
Proof.
  intros H0. induction 1 as [|m live size p m' _ (cs & Hr & Hl) Hs Hfit E
                            |m live size m' _ (cs & Hr & Hl) Hs E
                            |m l1 p k l2 _ (cs & Hr & Hl)
                            |m live a v _ (cs & Hr & Hl) Ha].
  - exists (run_of_free n). split; [done|]. unfold live_of. by rewrite live_from_run.
  - destruct (blocks_for_bounds size Hs) as [Hn _].
    destruct (heap_malloc_cases h m cs size Hr Hs)
      as [(pre & post & m'' & [Ecs _] & E' & Hr' & _) | (k & _ & _ & Hno & _)].
    + rewrite E in E'. injection E' as -> ->.
      exists (pre ++ CUsed (Z.to_nat (blocks_for size) - 1) :: post). split; [done|].
      rewrite live_of_used, <- Hl, Ecs.
      replace (S (Z.to_nat (blocks_for size) - 1)) with (Z.to_nat (blocks_for size)) by lia.
      by rewrite Z2Nat.id by lia.
    + exfalso. destruct (fits_cells h m cs (blocks_for size) Hr ltac:(lia) Hfit) as (pre & post & Ec).
      by apply (Hno pre post).
  - exists cs. split; [|done]. by rewrite (heap_malloc_null h m cs size m' Hr Hs E).
  - assert (Hx : (p, k) ∈ live_of h cs) by (rewrite Hl; apply elem_of_app; right; by left).
    destruct (live_of_split _ _ _ _ Hx) as (pre & j & post & -> & -> & ->).
    destruct (heap_free_used h m pre j post Hr) as [Hr' _].
    eexists. split; [exact Hr'|]. rewrite live_of_used in Hl.
    by apply (Permutation_app_inv [] _ l1 l2) in Hl.
  - exists cs. split; [|done]. apply (heap_repr_frame h m); [done|].
    intros b Hb. rewrite rd_wr_ne; [done|]. by intros ->.
Qed.

(** [heap_create] accepts a pool exactly when both ends are block aligned
    and the table has one entry per block; it then leaves a heap whose blocks
    are all free and touches only the table.  On misalignment the heap object
    is left alone; on a size mismatch it is overwritten but the table is not
    cleared. *)
Lemma heap_create_spec h ptr end_ t m :
  0 < ptr <= end_ -> end_ < 2147483648 -> 0 <= total t < 524288 ->
  let '(res, h', m') := heap_create h ptr end_ t m in
  if (ptr mod 4096 =? 0) && (end_ mod 4096 =? 0) then
    h' = {| table := t; saddr := ptr |} /\
    if total t =? (end_ - ptr) / 4096 then
      res = 0 /\ heap_repr h' m' (run_of_free (Z.to_nat (total t))) /\
      (forall a, ~ in_table h' a -> rd m' a = rd m a)
    else res = - EINVARG /\ m' = m
  else res = - EINVARG /\ h' = h /\ m' = m.
Proof.
  intros Hp He Ht. unfold heap_create, heap_validate_alignment, heap_validate_table,
    LIEBE_OS_HEAP_BLOCK_SIZE.
  rewrite !u32_id by lia.
  destruct (Z.eqb_spec (ptr mod 4096) 0) as [E1|], (Z.eqb_spec (end_ mod 4096) 0) as [E2|];
    cbn [negb orb andb]; try done.
  destruct (Z.eqb_spec (total t) ((end_ - ptr) / 4096)) as [E|E]; cbn [negb Z.ltb];
    (split; [done|]); [|done].
  split; [done|]. split; [split; cbn [table saddr] |].
  - rewrite encode_run. apply list_eq_same_length with (n := Z.to_nat (total t));
      [by rewrite length_replicate | by rewrite length_bytes |].
    intros i x y Hi Hx Hy. apply lookup_replicate in Hy as [-> _].
    rewrite bytes_lookup in Hx by done. injection Hx as <-.
    rewrite rd_memset_in by lia. done.
  - lia.
  - unfold LIEBE_OS_HEAP_BLOCK_SIZE. dlia.
  - intros a Ha. unfold in_table in Ha. cbn in Ha. apply rd_memset_out; lia.
Qed.

(** ** Properties *)

(** C4. Safety of the allocator over whole runs: starting from an empty heap,
    after any sequence of [heap_malloc]s for which the table has a long enough
    run of free blocks, [heap_malloc]s answered with null, [heap_free]s of live
    blocks and client writes outside the table, the live blocks lie inside the
    pool and no two of them overlap.  (A request that no free run is long
    enough for can be given a block that reaches past the pool: that case is
    C36.) *)
Theorem heap_live_blocks_disjoint h m0 n m live :
  heap_repr h m0 (run_of_free n) -> heap_run h m0 m live ->
  pairwise_disjoint live /\ Forall (in_pool h) live.
Proof.
  intros H0 Hrun. destruct (heap_run_repr h m0 m live n H0 Hrun) as (cs & Hr & Hl).
  split.
  - rewrite <- Hl. apply live_of_pairwise.
  - rewrite <- Hl. apply list.Forall_forall. intros x. by apply (live_of_in_pool h m).
Qed.

(** C23. Refinement of [heap_malloc]: when the abstract heap has a first run of
    [blocks_for size] free blocks after [pre], the call returns the address
    of that run, turns it into one allocation, and changes no byte outside the
    table; the allocation holds at least [size] bytes and wastes less than one
    block. *)
Theorem heap_malloc_first_fit h m cs size pre post :
  heap_repr h m cs -> 0 < size <= 0xFFFFF000 ->
  first_fit (Z.to_nat (blocks_for size)) cs pre post ->
  exists m', heap_malloc h size m = (block_addr h (blocks pre), m') /\
    heap_repr h m' (pre ++ CUsed (Z.to_nat (blocks_for size) - 1) :: post) /\
    (forall a, ~ in_table h a -> rd m' a = rd m a) /\
    size <= blocks_for size * 4096 < size + 4096.
Proof.
  intros Hr Hs Hf. destruct (blocks_for_bounds size Hs) as [Hn Hsz].
  assert (En : Z.to_nat (blocks_for size) = S (Nat.pred (Z.to_nat (blocks_for size)))) by lia.
  rewrite En in Hf.
  destruct (heap_malloc_blocks_fit h m cs pre post _ Hr Hf) as (m' & E & Hr' & Ho).
  exists m'. rewrite heap_malloc_unfold by lia. rewrite <- En, Z2Nat.id in E by lia.
  rewrite <- Nat.sub_1_r in Hr'. done.
Qed.

(** C24. Refinement of [heap_free]: freeing the address of an allocation of the
    abstract heap turns exactly its blocks into free blocks and changes no
    byte outside the table. *)
Theorem heap_free_releases h m pre k post :
  heap_repr h m (pre ++ CUsed k :: post) ->
  heap_repr h (heap_free h (block_addr h (blocks pre)) m) (pre ++ run_of_free (S k) ++ post) /\
  (forall a, ~ in_table h a -> rd (heap_free h (block_addr h (blocks pre)) m) a = rd m a).
Proof. apply heap_free_used. Qed.

(** Round trip: a successful [heap_malloc] followed by [heap_free] of the
    result leaves every byte of memory, the table included, as it was. *)
Theorem heap_malloc_free_roundtrip h m cs size p m' :
  heap_repr h m cs -> 0 < size <= 0xFFFFF000 ->
  heap_malloc h size m = (p, m') -> in_pool h (p, blocks_for size) ->
  forall a, rd (heap_free h p m') a = rd m a.
Proof.
  intros Hr Hs E Hp. destruct (blocks_for_bounds size Hs) as [Hn _].
  destruct (heap_malloc_cases h m cs size Hr Hs)
    as [(pre & post & m'' & [Ecs _] & E' & Hr' & Ho) | (k & Hk & (pre & -> & _) & _ & E')].
  - rewrite E in E'. injection E' as -> ->.
    destruct (heap_free_used h m'' pre _ post Hr') as [Hr2 Ho2].
    replace (S (Z.to_nat (blocks_for size) - 1)) with (Z.to_nat (blocks_for size)) in Hr2 by lia.
    rewrite <- Ecs in Hr2. intros a.
    destruct (decide (entries (table h) <= a < entries (table h) + total (table h))) as [Ha|Ha].
    + pose proof (repr_blocks _ _ _ Hr) as Hb.
      pose proof (repr_lookup h _ cs (Z.to_nat (a - entries (table h))) Hr ltac:(lia)) as L1.
      pose proof (repr_lookup h _ cs (Z.to_nat (a - entries (table h))) Hr2 ltac:(lia)) as L2.
      rewrite L1 in L2. injection L2 as L2.
      replace (entries (table h) + Z.of_nat (Z.to_nat (a - entries (table h)))) with a in L2
        by lia. done.
    + by rewrite Ho2, Ho.
  - exfalso. rewrite E in E'. cbn [fst] in E'. destruct Hp as [Hp1 Hp2]. cbn in Hp1, Hp2.
    pose proof (repr_saddr _ _ _ Hr). pose proof (repr_blocks _ _ _ Hr) as Hb.
    rewrite blocks_app, blocks_run in Hb.
    unfold block_addr, LIEBE_OS_HEAP_BLOCK_SIZE in *. case_decide; lia.
Qed.

(** C36. What [heap_malloc] does when no run of free blocks is long enough: the
    pool ends in [k] free blocks behind a block that is taken.  If [k] is 0 the
    answer is null and nothing changes.  If not, it is the address of those
    [k] blocks, which is not null: the block handed out reaches past the end of
    the pool, and its table entries, written past the end of the table, are
    those of a block that is allocated. *)
Theorem heap_malloc_exhausted h m pre k size :
  heap_repr h m (pre ++ run_of_free k) -> ends_taken pre -> 0 < size <= 0xFFFFF000 ->
  (forall pre' post, pre ++ run_of_free k <> pre' ++ run_of_free (Z.to_nat (blocks_for size)) ++ post) ->
  if decide (k = 0%nat) then heap_malloc h size m = (0, m)
  else exists p m', heap_malloc h size m = (p, m') /\ p = block_addr h (blocks pre) /\ 0 < p /\
    saddr h + total (table h) * 4096 < p + blocks_for size * 4096 /\
    bytes m' (entries (table h) + Z.of_nat (blocks pre)) (Z.to_nat (blocks_for size)) =
      encode (CUsed (Z.to_nat (blocks_for size) - 1)).
Proof.
  intros Hr Hlast Hs Hno. destruct (blocks_for_bounds size Hs) as [Hn Hsz].
  rewrite heap_malloc_unfold by lia.
  set (n := Z.to_nat (blocks_for size)) in *. assert (En : blocks_for size = Z.of_nat n) by lia. rewrite En.
  pose proof (repr_blocks _ _ _ Hr) as Hb. rewrite blocks_app, blocks_run in Hb.
  pose proof (repr_saddr _ _ _ Hr) as Hsa. pose proof (repr_total _ _ _ Hr) as Ht.
  unfold LIEBE_OS_HEAP_BLOCK_SIZE in *.
  destruct (first_fit_or_not h m _ n Hr ltac:(lia) ltac:(lia))
    as [(pre' & post & [Ecs _]) | (k' & Hk & (pre' & E & Hlast') & _ & Eg)]; [by apply Hno in Ecs|].
  destruct (last_run_inv _ _ _ _ E Hlast Hlast') as [<- <-]. clear E.
  unfold heap_malloc_blocks. rewrite Eg. case_decide; [done|].
  replace (total (table h) - Z.of_nat k) with (Z.of_nat (blocks pre)) by lia.
  destruct (Z.ltb_spec (Z.of_nat (blocks pre)) 0); [lia|]. rewrite (i32_id (Z.of_nat n)) by lia.
  eexists _, _. split; [reflexivity|].
  unfold heap_block_to_address, block_addr, LIEBE_OS_HEAP_BLOCK_SIZE. rewrite u32_id by lia.
  split; [done|]. split; [lia|]. split; [lia|].
  replace n with (S (n - 1)) by lia. rewrite Nat.sub_succ, Nat.sub_0_r.
  apply (mark_taken_spec h (Z.of_nat (blocks pre)) (n - 1) m).
Qed.

(** ** Witnesses: a pool of four blocks at 0x10000, its table at 100 *)

Definition small_table : heap_table := {| entries := 100; total := 4 |}.
Definition small_heap : heap := {| table := small_table; saddr := 0x10000 |}.
(** One block, then two blocks, allocated in the empty pool. *)
Definition small_mem1 : mem := snd (heap_malloc small_heap 1 ∅).
Definition small_mem2 : mem := snd (heap_malloc small_heap 5000 small_mem1).

Ltac heap_repr_compute :=
  split; [vm_compute; reflexivity | cbn; lia | cbn; unfold LIEBE_OS_HEAP_BLOCK_SIZE; lia].

Lemma small_repr0 : heap_repr small_heap ∅ (run_of_free 4).
Proof. heap_repr_compute. Qed.
Lemma small_repr1 : heap_repr small_heap small_mem1 [CUsed 0; CFree; CFree; CFree].
Proof. heap_repr_compute. Qed.
Lemma small_repr2 : heap_repr small_heap small_mem2 [CUsed 0; CUsed 1; CFree].
Proof. heap_repr_compute. Qed.

Lemma heap_live_blocks_disjoint_witness :
  pairwise_disjoint [(0x11000, 2)] /\ Forall (in_pool small_heap) [(0x11000, 2)].
Proof.
  apply (heap_live_blocks_disjoint small_heap ∅ 4 (heap_free small_heap 0x10000 small_mem2)).
  - exact small_repr0.
  - apply (run_free _ _ small_mem2 [(0x11000, 2)] 0x10000 1 []).
    apply (run_malloc _ _ small_mem1 [(0x10000, 1)] 5000); [|lia| |vm_compute; reflexivity].
    + apply (run_malloc _ _ ∅ [] 1); [constructor|lia| |vm_compute; reflexivity].
      exists 0. split; [lia|]. split; [vm_compute; discriminate|].
      intros i Hi. change (blocks_for 1) with 1 in Hi. by replace i with 0 by lia.
    + exists 1. split; [lia|]. split; [vm_compute; discriminate|].
      intros i Hi. change (blocks_for 5000) with 2 in Hi.
      assert (i = 1 \/ i = 2) as [-> | ->] by lia; vm_compute; reflexivity.
Defined.

Lemma heap_malloc_first_fit_witness :
  exists m', heap_malloc small_heap 5000 small_mem1 = (0x11000, m') /\
    heap_repr small_heap m' [CUsed 0; CUsed 1; CFree] /\
    (forall a, ~ in_table small_heap a -> rd m' a = rd small_mem1 a) /\
    5000 <= 2 * 4096 < 5000 + 4096.
Proof.
  apply (heap_malloc_first_fit small_heap small_mem1 _ 5000 [CUsed 0] [CFree] small_repr1);
    [lia|].
  split; [reflexivity|]. intros [|c pre'] post' E; [by discriminate E|].
  cbn. destruct c; cbn; lia.
Defined.

Lemma heap_free_releases_witness :
  heap_repr small_heap (heap_free small_heap 0x11000 small_mem2)
    [CUsed 0; CFree; CFree; CFree].
Proof. apply (heap_free_releases small_heap small_mem2 [CUsed 0] 1 [CFree] small_repr2). Defined.

Lemma heap_malloc_free_roundtrip_witness :
  rd (heap_free small_heap 0x11000 small_mem2) 101 = rd small_mem1 101.
Proof.
  apply (heap_malloc_free_roundtrip small_heap small_mem1 _ 5000 0x11000 small_mem2 small_repr1);
    [lia|vm_compute; reflexivity|vm_compute; split; discriminate].
Defined.

(** One free block is left, two are asked for: the last block is returned. *)
Lemma heap_malloc_exhausted_witness :
  if decide (1%nat = 0%nat) then heap_malloc small_heap 5000 small_mem2 = (0, small_mem2)
  else exists p m', heap_malloc small_heap 5000 small_mem2 = (p, m') /\ p = 0x13000 /\ 0 < p /\
    0x14000 < p + 2 * 4096 /\ bytes m' 103 2 = encode (CUsed 1).
Proof.
  apply (heap_malloc_exhausted small_heap small_mem2 [CUsed 0; CUsed 1] 1 5000 small_repr2);
    [intros [|c1 [|c2 [|c3 cs]]]; discriminate|lia|].
  intros [|c1 [|c2 [|c3 [|c4 pre]]]] post; discriminate.
Defined.
