(* ===== verification/KHeap.v ===== *)
(** * The kernel heap: [src/memory/heap/kheap.c]

    The kernel's one heap and its wrappers [kmalloc], [kzalloc], [kfree], and
    the interface [KAllocator] through which the other components use it: what
    an allocation and a release promise about liveness, freshness, the bytes
    of the block and the rest of memory.  [kernel_allocator] discharges the
    interface from the refinement lemmas of [Heap]. *)
From S2P Require Import Prelude Config Memory Heap.

(** ** Definitions *)

Definition total_table_entries : Z :=
  cdiv LIEBE_OS_HEAP_SIZE_BYTES LIEBE_OS_HEAP_BLOCK_SIZE.
Definition kernel_heap_table : heap_table :=
  {| entries := LIEBE_OS_HEAP_TABLE_ADDRESS; total := total_table_entries |}.
(** [kernel_heap] as [kheap_init] leaves it. *)
Definition kernel_heap : heap :=
  {| table := kernel_heap_table; saddr := LIEBE_OS_HEAP_ADDRESS |}.

(** [heap0] is the global before the call.  The result says whether the
    failure message is printed. *)
Definition kheap_init (heap0 : heap) (m : mem) : bool * heap * mem :=
  let end_ := LIEBE_OS_HEAP_ADDRESS + LIEBE_OS_HEAP_SIZE_BYTES in
  let '(res, h, m') := heap_create heap0 LIEBE_OS_HEAP_ADDRESS end_ kernel_heap_table m in
  (res <? 0, h, m').

Definition kmalloc (size : Z) (m : mem) : Z * mem := heap_malloc kernel_heap size m.

Definition kzalloc (size : Z) (m : mem) : Z * mem :=
  let '(ptr, m') := kmalloc size m in
  if ptr =? 0 then (0, m') else (ptr, memset ptr 0x00 size m').

Definition kfree (ptr : Z) (m : mem) : mem := heap_free kernel_heap ptr m.

(** ** The interface *)

(** What the rest of the kernel may assume of the allocator.  [live m p s]:
    the block of [s] bytes at [p] is allocated; [room m n]: the pool holds a
    run of [n] free blocks; [meta]: the addresses of the allocator's own
    table; [pool]: those it hands out. *)
Class KAllocator : Type := {
  ka_alloc : Z -> mem -> Z * mem;
  ka_free : Z -> mem -> mem;
  meta : Z -> Prop;
  pool : Z -> Prop;
  heap_ok : mem -> Prop;
  live : mem -> Z -> Z -> Prop;
  room : mem -> nat -> Prop;

  ka_alloc_spec m size n :
    heap_ok m -> 0 < size <= 0xFFFFF000 -> room m n -> blocks_for size <= Z.of_nat n ->
    exists p m', ka_alloc size m = (p, m') /\
      0 < p /\ p mod 4096 = 0 /\ p + blocks_for size * 4096 < 4294967296 /\
      heap_ok m' /\ live m' p (blocks_for size * 4096) /\
      room m' (n - Z.to_nat (blocks_for size)) /\
      (forall q s, live m' q s <-> live m q s \/ q = p /\ s = blocks_for size * 4096) /\
      (forall q s, live m q s -> q + s <= p \/ p + blocks_for size * 4096 <= q) /\
      (forall a, p <= a < p + blocks_for size * 4096 -> pool a /\ ~ meta a) /\
      (forall a, p <= a < p + size -> rd m' a = 0) /\
      (forall a, ~ meta a -> a < p \/ p + size <= a -> rd m' a = rd m a);
  ka_free_spec m p s :
    heap_ok m -> live m p s ->
    heap_ok (ka_free p m) /\
    (forall q t, live (ka_free p m) q t <-> live m q t /\ q <> p) /\
    (forall n, room m n -> room (ka_free p m) n) /\
    (forall a, ~ meta a -> rd (ka_free p m) a = rd m a);
  ka_frame m m' :
    (forall a, meta a -> rd m' a = rd m a) -> heap_ok m ->
    heap_ok m' /\ (forall p s, live m p s -> live m' p s) /\ (forall n, room m n -> room m' n);
  live_block m p s : live m p s -> 0 < p /\ 4096 <= s /\ forall a, p <= a < p + s -> ~ meta a;
  live_pool m p s a : live m p s -> p <= a < p + s -> pool a;
  live_disjoint m p s q t :
    live m p s -> live m q t -> p = q /\ s = t \/ p + s <= q \/ q + t <= p;
  (* allocations lie below the addresses that read as error statuses *)
  live_low m p s : live m p s -> p + s <= 2147483648;
  room_weaken m n k : room m n -> (k <= n)%nat -> room m k }.

(** A page address of the 4 GB space: what an allocation returns. *)
Definition page (v : Z) : Prop := 0 <= v < 4294967296 /\ v mod 4096 = 0.

(** A byte that no allocation can change: outside the allocator's table, and
    either outside the pool or inside a live block. *)
Definition owned `{KAllocator} (m : mem) (a : Z) : Prop :=
  ~ meta a /\ (pool a -> exists p s, live m p s /\ p <= a < p + s).

(** ** Using the interface *)

(** The bytes of the blocks of an allocation of [s] bytes. *)
Definition span (s : Z) : Z := blocks_for s * 4096.

Lemma page_top p : page p -> p + 4096 <= 4294967296.
Proof. intros [? ?]. dlia. Qed.

(** Two distinct pages do not overlap. *)
Lemma pages_disjoint p q : page p -> page q -> p <> q -> p + 4096 <= q \/ q + 4096 <= p.
Proof. intros [? ?] [? ?] ?. dlia. Qed.

(** Requests of up to a page take one block. *)
Lemma one_block size : 0 < size <= 4096 -> blocks_for size = 1.
Proof.
  intros Hs. destruct (blocks_for_bounds size ltac:(lia)) as [H1 H2].
  unfold LIEBE_OS_HEAP_BLOCK_SIZE in H2. unfold blocks_for in *. lia.
Qed.

Lemma span_blocks s : 0 < s <= 0xFFFFF000 -> s <= span s /\ span s mod 4096 = 0 /\ 0 < span s < s + 4096.
Proof.
  intros Hs. destruct (blocks_for_bounds s Hs) as [H1 H2].
  unfold span, LIEBE_OS_HEAP_BLOCK_SIZE in *. dlia.
Qed.

Section client.
Context `{KAllocator}.

(** Writes outside the table are invisible to the allocator. *)
Lemma meta_frame m m' :
  heap_ok m -> (forall a, meta a -> rd m' a = rd m a) ->
  heap_ok m' /\ (forall q t, live m' q t <-> live m q t) /\ (forall n, room m n -> room m' n).
Proof.
  intros Hok Hmeta. destruct (ka_frame m m' Hmeta Hok) as (Hok' & Hl' & Hr).
  repeat split; try done; [|by apply Hl'].
  destruct (ka_frame m' m) as (_ & Hb & _); [|done|by apply Hb].
  intros a Ha. symmetry. by apply Hmeta.
Qed.

(** In particular those inside a live block. *)
Lemma client_frame m m' p s :
  heap_ok m -> live m p s ->
  (forall a, a < p \/ p + s <= a -> rd m' a = rd m a) ->
  heap_ok m' /\ (forall q t, live m' q t <-> live m q t) /\ (forall n, room m n -> room m' n).
Proof.
  intros Hok Hl Hf. apply meta_frame; [done|]. intros a Ha. apply Hf.
  destruct (live_block _ _ _ Hl) as (_ & _ & Hm).
  destruct (decide (p <= a < p + s)); [|lia]. exfalso. by apply (Hm a).
Qed.

(** [kzalloc] of at most one page. *)
Lemma alloc_page m size n :
  blocks_for size = 1 -> 0 < size <= 4096 -> heap_ok m -> room m (S n) ->
  exists p m', ka_alloc size m = (p, m') /\ page p /\ heap_ok m' /\ room m' n /\
    (forall q s, live m' q s <-> live m q s \/ q = p /\ s = 4096) /\
    (forall q s, live m q s -> q + s <= p \/ p + 4096 <= q) /\
    (forall q s, live m q s -> q <> p) /\
    (forall a, p <= a < p + size -> rd m' a = 0) /\
    (forall a, owned m a -> (a < p \/ p + 4096 <= a) /\ owned m' a /\ rd m' a = rd m a) /\
    (forall a, ~ meta a -> a < p \/ p + 4096 <= a -> rd m' a = rd m a).
Proof.
  intros Hb Hs Hok Hr.
  destruct (ka_alloc_spec m size (S n)) as (p & m' & E & Hp & Ha & Ht & Hok' & _ & Hr' & Hlv &
    Hd & Hm & Hz & Ho); [done|lia|done|lia|]. rewrite Hb in *.
  change (1 * 4096) with 4096 in *.
  assert (Hout : forall a, owned m a -> a < p \/ p + 4096 <= a).
  { intros a [Hna Hown]. destruct (decide (p <= a < p + 4096)) as [Hin|]; [|lia].
    destruct (Hm a Hin) as [Hpool _]. destruct (Hown Hpool) as (q & s & Hq & Haq).
    specialize (Hd _ _ Hq). lia. }
  exists p, m'. repeat (split; [done|]). split; [split; [lia|done]|]. split; [done|].
  split; [|split; [done|split; [done|split; [|split; [done|split]]]]].
  - replace n with (S n - Z.to_nat 1)%nat by lia. done.
  - intros q s Hq ->. pose proof (live_block _ _ _ Hq). specialize (Hd _ _ Hq). lia.
  - intros a Hown. specialize (Hout a Hown). destruct Hown as [Hna Hown].
    split; [done|]. split; [|apply Ho; [done|lia]]. split; [done|].
    intros (q & s & Hq & Haq)%Hown. exists q, s. split; [apply Hlv; by left|done].
  - intros a Hna Hout'. apply Ho; [done|lia].
Qed.

(** The interface's allocation, for what a client owns. *)
Lemma alloc_span m size n :
  heap_ok m -> 0 < size <= 0xFFFFF000 -> room m n -> blocks_for size <= Z.of_nat n ->
  exists p m1, ka_alloc size m = (p, m1) /\ 0 < p /\ page p /\ p + span size < 4294967296 /\
    heap_ok m1 /\ room m1 (n - Z.to_nat (blocks_for size)) /\
    (forall q s, live m1 q s <-> live m q s \/ q = p /\ s = span size) /\
    (forall q s, live m q s -> q + s <= p \/ p + span size <= q) /\
    (forall a, p <= a < p + size -> rd m1 a = 0) /\
    (forall a, owned m a -> (a < p \/ p + span size <= a) /\ rd m1 a = rd m a).
Proof.
  intros Hok Hs Hr Hb. destruct (span_blocks size Hs) as (Hs1 & _ & _).
  destruct (ka_alloc_spec m size n Hok Hs Hr Hb)
    as (p & m1 & E & Hp & Ha & Ht & Hok1 & _ & Hr1 & Hlv & Hd & Hm & Hz & Ho).
  fold (span size) in *. exists p, m1. repeat (split; [done|]).
  split; [split; [lia|done]|]. repeat (split; [done|]).
  intros a [Hna Hown]. assert (Hout : a < p \/ p + span size <= a).
  { destruct (decide (p <= a < p + span size)) as [Hin|]; [|lia].
    destruct (Hm a Hin) as [Hpool _]. destruct (Hown Hpool) as (q & s & Hq & Haq).
    specialize (Hd _ _ Hq). lia. }
  split; [done|]. apply Ho; [done|lia].
Qed.

(** Blocks that were live stay apart from what a client owns. *)
Lemma owned_live m p s a : live m p s -> p <= a < p + s -> owned m a.
Proof.
  intros Hl Ha. destruct (live_block _ _ _ Hl) as (_ & _ & Hm).
  split; [by apply Hm|]. intros _. by exists p, s.
Qed.

Lemma owned_ext m m' a : (forall q s, live m q s -> live m' q s) -> owned m a -> owned m' a.
Proof.
  intros Hl [Hm Ho]. split; [done|]. intros (p & s & Hp & Ha)%Ho. exists p, s.
  split; [by apply Hl|done].
Qed.

(** A block that was not live before holds nothing a client owned. *)
Lemma owned_fresh m m' p s a :
  (forall q t, live m q t -> live m' q t) -> live m' p s -> (forall q t, live m q t -> q <> p) ->
  owned m a -> a < p \/ p + s <= a.
Proof.
  intros Hsub Hl Hfr [_ Ho]. destruct (decide (p <= a < p + s)) as [Ha|]; [|lia].
  destruct (Ho (live_pool _ _ _ _ Hl Ha)) as (q & t & Hq & Haq).
  destruct (live_disjoint _ _ _ _ _ Hl (Hsub _ _ Hq)) as [[-> _]|?]; [|lia].
  by destruct (Hfr _ _ Hq).
Qed.

End client.

(** ** The kernel heap implements the interface *)

Definition kheap_ok (m : mem) : Prop := exists cs, heap_repr kernel_heap m cs.
Definition kheap_live (m : mem) (p s : Z) : Prop :=
  exists cs n, heap_repr kernel_heap m cs /\ (p, n) ∈ live_of kernel_heap cs /\ s = n * 4096.
Definition kheap_room (m : mem) (n : nat) : Prop :=
  exists pre post, heap_repr kernel_heap m (pre ++ run_of_free n ++ post).

Lemma heap_repr_inj h m c1 c2 : heap_repr h m c1 -> heap_repr h m c2 -> c1 = c2.
Proof. intros [H1 _ _] [H2 _ _]. apply encode_all_inj. congruence. Qed.

(** First-fit allocation of [k] blocks takes at most [k] blocks of any run. *)
Lemma room_after h m m' cs pre1 k post1 pre n post :
  heap_repr h m cs -> first_fit (S k) cs pre1 post1 -> cs = pre ++ run_of_free n ++ post ->
  heap_repr h m' (pre1 ++ CUsed k :: post1) ->
  exists pre' post', heap_repr h m' (pre' ++ run_of_free (n - S k) ++ post').
Proof.
  intros Hr [E1 Hmin] E2 Hr'.
  destruct (decide (n - S k = 0)%nat) as [->|Hnz].
  { exists (pre1 ++ CUsed k :: post1), []. cbn. by rewrite app_nil_r. }
  assert (E3 : cs = pre ++ run_of_free (S k) ++ (run_of_free (n - S k) ++ post)).
  { rewrite E2, (app_assoc (run_of_free _)). unfold run_of_free at 2 3.
    rewrite <- replicate_add. do 3 f_equal. unfold run_of_free. f_equal. lia. }
  pose proof (Hmin _ _ E3) as Hle.
  destruct (free_run_cells h m' _ (blocks pre + S k) (n - S k) Hr') as (pre' & post' & E & _).
  - lia.
  - apply (f_equal blocks) in E1. rewrite E3, !blocks_app, !blocks_run in E1.
    rewrite blocks_app. change (blocks (CUsed k :: post1)) with (S k + blocks post1)%nat. lia.
  - intros i Hi. unfold free_block.
    rewrite E2 in Hr. rewrite E1 in E2.
    pose proof (run_free_run _ _ _ _ _ Hr i ltac:(lia)) as Hf. unfold free_block in Hf.
    rewrite <- E2 in Hr.
    pose proof (repr_lookup _ _ _ (Z.to_nat i) Hr) as L.
    pose proof (repr_lookup _ _ _ (Z.to_nat i) Hr') as L'.
    rewrite !blocks_app, blocks_run in L. rewrite blocks_app in L'.
    change (blocks (CUsed k :: post1)) with (S k + blocks post1)%nat in L'.
    assert (Hi2 : (Z.to_nat i < blocks pre1 + (S k + blocks post1))%nat).
    { apply (f_equal blocks) in E2. rewrite !blocks_app, !blocks_run in E2. lia. }
    specialize (L Hi2). specialize (L' Hi2).
    rewrite Z2Nat.id in L, L' by lia.
    rewrite !encode_all_app in L. rewrite encode_all_app in L'.
    change (encode_all (CUsed k :: post1)) with (encode (CUsed k) ++ encode_all post1) in L'.
    rewrite app_assoc in L, L'.
    rewrite lookup_app_r in L by (rewrite length_app, !length_encode_all, blocks_run; lia).
    rewrite lookup_app_r in L'
      by (rewrite length_app, length_encode_all, length_encode; cbn; lia).
    rewrite length_app, !length_encode_all, blocks_run in L.
    rewrite length_app, length_encode_all, length_encode in L'.
    cbn [cell_blocks] in L'. rewrite L in L'. injection L' as <-. done.
  - exists pre', post'. by rewrite <- E.
Qed.

(** Releasing an allocation keeps every run of free blocks. *)
Lemma room_after_free pre k post pre' n post' :
  pre ++ CUsed k :: post = pre' ++ run_of_free n ++ post' ->
  exists p1 p2, pre ++ run_of_free (S k) ++ post = p1 ++ run_of_free n ++ p2.
Proof.
  assert (Hfree : forall c, c ∈ run_of_free n -> c = CFree).
  { intros c Hc. by apply elem_of_replicate in Hc as [-> _]. }
  intros E. apply app_eq_inv in E as [(z & -> & E) | (z & -> & E)].
  - apply app_eq_inv in E as [(w & E1 & E2) | (w & -> & ->)].
    + destruct w as [|c w].
      * rewrite app_nil_r in E1. subst z. exists pre', (run_of_free (S k) ++ post).
        by rewrite <- app_assoc.
      * injection E2 as <- _. exfalso. enough (CUsed k = CFree) by done.
        apply Hfree. rewrite E1. apply elem_of_app; right; by left.
    + exists pre', (w ++ run_of_free (S k) ++ post). by rewrite <- !app_assoc.
  - destruct z as [|c z].
    + destruct n as [|n]; [|discriminate].
      exists (pre ++ run_of_free (S k) ++ post), []. cbn. by rewrite app_nil_r.
    + injection E as <- ->. exists (pre ++ run_of_free (S k) ++ z), post'.
      by rewrite <- !app_assoc.
Qed.

Lemma kernel_total : total (table kernel_heap) = 25600.
Proof. reflexivity. Qed.

Lemma kernel_meta_pool a : in_table kernel_heap a -> a < saddr kernel_heap.
Proof.
  unfold in_table. rewrite kernel_total.
  change (entries (table kernel_heap)) with 0x7E00.
  change (saddr kernel_heap) with 0x01000000. lia.
Qed.

Lemma kheap_live_iff m cs p s :
  heap_repr kernel_heap m cs ->
  kheap_live m p s <-> exists n, (p, n) ∈ live_of kernel_heap cs /\ s = n * 4096.
Proof.
  intros Hr. split.
  - intros (cs' & n & Hr' & Hin & ->). rewrite (heap_repr_inj _ _ _ _ Hr Hr'). eauto.
  - intros (n & Hin & ->). by exists cs, n.
Qed.

Lemma kzalloc_spec m size n :
  kheap_ok m -> 0 < size <= 0xFFFFF000 -> kheap_room m n -> blocks_for size <= Z.of_nat n ->
  exists p m', kzalloc size m = (p, m') /\
    0 < p /\ p mod 4096 = 0 /\ p + blocks_for size * 4096 < 4294967296 /\
    kheap_ok m' /\ kheap_live m' p (blocks_for size * 4096) /\
    kheap_room m' (n - Z.to_nat (blocks_for size)) /\
    (forall q s, kheap_live m' q s <-> kheap_live m q s \/ q = p /\ s = blocks_for size * 4096) /\
    (forall q s, kheap_live m q s -> q + s <= p \/ p + blocks_for size * 4096 <= q) /\
    (forall a, p <= a < p + blocks_for size * 4096 ->
       saddr kernel_heap <= a /\ ~ in_table kernel_heap a) /\
    (forall a, p <= a < p + size -> rd m' a = 0) /\
    (forall a, ~ in_table kernel_heap a -> a < p \/ p + size <= a -> rd m' a = rd m a).
Proof.
  intros _ Hs (pre & post & Hr) Hn. destruct (blocks_for_bounds size Hs) as [Hb Hsz].
  unfold LIEBE_OS_HEAP_BLOCK_SIZE in Hsz.
  destruct (heap_malloc_cases kernel_heap m _ size Hr Hs)
    as [(pre1 & post1 & m1 & Hf & E & Hr1 & Hout) | (k & Hk & _ & Hno & _)].
  2:{ exfalso. apply (Hno pre (run_of_free (n - Z.to_nat (blocks_for size)) ++ post)).
      rewrite (app_assoc (run_of_free _)). unfold run_of_free. rewrite <- replicate_add.
      do 3 f_equal. lia. }
  assert (Ek : S (Z.to_nat (blocks_for size) - 1) = Z.to_nat (blocks_for size)) by lia.
  pose proof (room_after kernel_heap m m1 _ pre1 _ post1 pre n post Hr
    ltac:(rewrite Ek; exact Hf) eq_refl Hr1) as Hroom. rewrite Ek in Hroom.
  set (k := (Z.to_nat (blocks_for size) - 1)%nat) in *.
  pose proof (repr_blocks _ _ _ Hr1) as Hb1. rewrite kernel_total, blocks_app in Hb1.
  change (blocks (CUsed k :: post1)) with (S k + blocks post1)%nat in Hb1.
  set (p := block_addr kernel_heap (blocks pre1)) in *.
  assert (Hp : p = 0x01000000 + Z.of_nat (blocks pre1) * 4096) by reflexivity.
  assert (Hlow : forall a, p <= a -> ~ in_table kernel_heap a).
  { intros a Ha Hin. apply kernel_meta_pool in Hin.
    change (saddr kernel_heap) with 0x01000000 in Hin. lia. }
  assert (Hframe : forall a, in_table kernel_heap a ->
    rd (memset p 0 size m1) a = rd m1 a).
  { intros a Ha. apply rd_memset_out; [lia|]. left.
    destruct (decide (a < p)); [done|]. exfalso. by apply (Hlow a); [lia|]. }
  assert (Hr2 : heap_repr kernel_heap (memset p 0 size m1) (pre1 ++ CUsed k :: post1))
    by (by apply (heap_repr_frame _ m1)).
  exists p, (memset p 0 size m1). unfold kzalloc, kmalloc. rewrite E.
  destruct (Z.eqb_spec p 0); [lia|].
  assert (Hlv : forall q s, kheap_live m q s -> q + s <= p \/ p + blocks_for size * 4096 <= q).
  { intros q s (cs & j & Hrq & Hin & ->).
    rewrite <- (heap_repr_inj _ _ _ _ Hr Hrq) in Hin. destruct Hf as [Ef _]. rewrite Ef in Hin.
    assert (Hp2 : pairwise_disjoint (live_of kernel_heap (pre1 ++ CUsed k :: post1)))
      by (apply live_of_pairwise).
    rewrite live_of_used, Ek in Hp2. fold p in Hp2.
    specialize (Hp2 [] _ _ eq_refl). cbn [app] in Hp2. rewrite list.Forall_forall in Hp2.
    specialize (Hp2 _ Hin). unfold disjoint_alloc, LIEBE_OS_HEAP_BLOCK_SIZE in Hp2.
    cbn [fst snd] in Hp2. lia. }
  repeat split; try done; try lia.
  - rewrite Hp. dlia.
  - by exists (pre1 ++ CUsed k :: post1).
  - apply (kheap_live_iff _ _ _ _ Hr2). exists (blocks_for size). split; [|done].
    rewrite live_of_used, Ek. fold p. rewrite Z2Nat.id by lia. by left.
  - destruct Hroom as (pre' & post' & Hroom). exists pre', post'.
    by apply (heap_repr_frame _ m1).
  - intros (j & Hin & ->)%(kheap_live_iff _ _ _ _ Hr2).
    rewrite live_of_used, Ek in Hin. fold p in Hin. rewrite Z2Nat.id in Hin by lia.
    apply elem_of_cons in Hin as [[= -> ->]|Hin]; [by right|left].
    destruct Hf as [Ef _]. rewrite <- Ef in Hin. apply (kheap_live_iff _ _ _ _ Hr). eauto.
  - intros [(j & Hin & ->)%(kheap_live_iff _ _ _ _ Hr) | [-> ->]].
    + apply (kheap_live_iff _ _ _ _ Hr2). exists j. split; [|done].
      destruct Hf as [Ef _]. rewrite Ef in Hin. rewrite live_of_used, Ek. right. exact Hin.
    + apply (kheap_live_iff _ _ _ _ Hr2). exists (blocks_for size). split; [|done].
      rewrite live_of_used, Ek. fold p. rewrite Z2Nat.id by lia. by left.
  - change (saddr kernel_heap) with 0x01000000. lia.
  - apply Hlow; lia.
  - intros a Ha. rewrite rd_memset_in by lia. done.
  - intros a Ha Hr'. rewrite rd_memset_out by lia. by apply Hout.
Qed.

Lemma kfree_spec m p s :
  kheap_ok m -> kheap_live m p s ->
  kheap_ok (kfree p m) /\
  (forall q t, kheap_live (kfree p m) q t <-> kheap_live m q t /\ q <> p) /\
  (forall n, kheap_room m n -> kheap_room (kfree p m) n) /\
  (forall a, ~ in_table kernel_heap a -> rd (kfree p m) a = rd m a).
Proof.
  intros _ (cs & n & Hr & Hin & ->).
  destruct (live_of_split _ _ _ _ Hin) as (pre & k & post & -> & -> & ->).
  destruct (heap_free_used kernel_heap m pre k post Hr) as [Hr' Ho].
  change (heap_free _ _ m) with (kfree (block_addr kernel_heap (blocks pre)) m) in Hr', Ho.
  set (m' := kfree (block_addr kernel_heap (blocks pre)) m) in *. clearbody m'.
  repeat split.
  - by eexists.
  - apply (kheap_live_iff _ _ _ _ Hr') in H as (j & Hj & ->).
    apply (kheap_live_iff _ _ _ _ Hr). exists j. split; [|done].
    rewrite live_of_used. by right.
  - intros ->. apply (kheap_live_iff _ _ _ _ Hr') in H as (j & Hj & ->).
    pose proof (live_of_pairwise kernel_heap 0 (pre ++ CUsed k :: post)) as Hp.
    fold (live_of kernel_heap (pre ++ CUsed k :: post)) in Hp.
    rewrite live_of_used in Hp. specialize (Hp [] _ _ eq_refl). cbn [app] in Hp.
    rewrite list.Forall_forall in Hp. specialize (Hp _ Hj).
    apply live_of_split in Hj as (? & k' & ? & _ & -> & _).
    unfold disjoint_alloc, LIEBE_OS_HEAP_BLOCK_SIZE in Hp. cbn [fst snd] in Hp. lia.
  - intros [Hl Hne]. apply (kheap_live_iff _ _ _ _ Hr) in Hl as (j & Hj & ->).
    apply (kheap_live_iff _ _ _ _ Hr'). exists j. split; [|done].
    rewrite live_of_used in Hj. apply elem_of_cons in Hj as [[= -> _]|Hj]; done.
  - intros j (pre' & post' & Hroom). pose proof (heap_repr_inj _ _ _ _ Hr Hroom) as E.
    apply room_after_free in E as (p1 & p2 & E). exists p1, p2. by rewrite <- E.
  - exact Ho.
Qed.

Lemma kheap_frame m m' :
  (forall a, in_table kernel_heap a -> rd m' a = rd m a) -> kheap_ok m ->
  kheap_ok m' /\ (forall p s, kheap_live m p s -> kheap_live m' p s) /\
  (forall n, kheap_room m n -> kheap_room m' n).
Proof.
  intros Hf (cs & Hr).
  assert (Hall : forall cs', heap_repr kernel_heap m cs' -> heap_repr kernel_heap m' cs')
    by (intros; by apply (heap_repr_frame _ m)).
  repeat split.
  - exists cs. by apply Hall.
  - intros p s (cs' & n & Hr' & Hin & ->). exists cs', n. split; [by apply Hall|done].
  - intros n (pre & post & Hr'). exists pre, post. by apply Hall.
Qed.

Lemma kheap_live_block m p s :
  kheap_live m p s -> 0 < p /\ 4096 <= s /\ forall a, p <= a < p + s -> ~ in_table kernel_heap a.
Proof.
  intros (cs & n & Hr & Hin & ->).
  destruct (live_of_split _ _ _ _ Hin) as (pre & k & post & _ & -> & ->).
  unfold block_addr, LIEBE_OS_HEAP_BLOCK_SIZE.
  change (saddr kernel_heap) with 0x01000000. repeat split; try lia.
  intros a Ha Hin'. apply kernel_meta_pool in Hin'.
  change (saddr kernel_heap) with 0x01000000 in Hin'. lia.
Qed.

Lemma kheap_live_disjoint m p s q t :
  kheap_live m p s -> kheap_live m q t -> p = q /\ s = t \/ p + s <= q \/ q + t <= p.
Proof.
  intros (cs & n & Hr & Hin & ->) (cs' & n' & Hr' & Hin' & ->).
  rewrite <- (heap_repr_inj _ _ _ _ Hr Hr') in Hin'.
  pose proof (live_of_pairwise kernel_heap 0 cs) as Hp. fold (live_of kernel_heap cs) in Hp.
  apply list_elem_of_split in Hin as (l1 & l2 & E).
  specialize (Hp _ _ _ E). rewrite E in Hin'.
  apply elem_of_app in Hin' as [Hin'|Hin']; [|apply elem_of_cons in Hin' as [[= -> ->]|Hin']];
    [right|by left|right]; rewrite list.Forall_forall in Hp;
    (specialize (Hp (q, n')); unfold disjoint_alloc, LIEBE_OS_HEAP_BLOCK_SIZE in Hp;
     cbn [fst snd] in Hp; apply Hp; apply elem_of_app; tauto).
Qed.

Lemma kheap_live_pool m p s a : kheap_live m p s -> p <= a < p + s -> saddr kernel_heap <= a.
Proof.
  intros (cs & n & Hr & Hin & ->) Ha.
  destruct (live_of_split _ _ _ _ Hin) as (pre & k & post & _ & -> & ->).
  unfold block_addr, LIEBE_OS_HEAP_BLOCK_SIZE in Ha. lia.
Qed.

Lemma kheap_live_low m p s : kheap_live m p s -> p + s <= 2147483648.
Proof.
  intros (cs & n & Hr & Hin & ->).
  destruct (live_of_split _ _ _ _ Hin) as (pre & k & post & -> & -> & ->).
  pose proof (repr_blocks _ _ _ Hr) as Hb. rewrite kernel_total, blocks_app in Hb.
  change (blocks (CUsed k :: post)) with (S k + blocks post)%nat in Hb.
  unfold block_addr, LIEBE_OS_HEAP_BLOCK_SIZE. change (saddr kernel_heap) with 0x01000000. lia.
Qed.

Lemma kheap_room_weaken m n k : kheap_room m n -> (k <= n)%nat -> kheap_room m k.
Proof.
  intros (pre & post & Hr) Hk. exists pre, (run_of_free (n - k) ++ post).
  rewrite (app_assoc (run_of_free k)). unfold run_of_free in *. rewrite <- replicate_add.
  by replace (k + (n - k))%nat with n by lia.
Qed.

#[export] Instance kernel_allocator : KAllocator := {|
  ka_alloc := kzalloc;
  ka_free := kfree;
  meta := in_table kernel_heap;
  pool := fun a => saddr kernel_heap <= a;
  heap_ok := kheap_ok;
  live := kheap_live;
  room := kheap_room;
  ka_alloc_spec := kzalloc_spec;
  ka_free_spec := kfree_spec;
  ka_frame := kheap_frame;
  live_block := kheap_live_block;
  live_pool := kheap_live_pool;
  live_disjoint := kheap_live_disjoint;
  live_low := kheap_live_low;
  room_weaken := kheap_room_weaken |}.

(** What [kfree(0)] does. *)
Lemma kfree_null m :
  rd (kfree 0 m) 0x6E00 = 0 /\ ~ in_table kernel_heap 0x6E00 /\
  (Z.land (rd m 0x6E00) HEAP_BLOCK_HAS_NEXT = 0 ->
   forall a, a <> 0x6E00 -> rd (kfree 0 m) a = rd m a).
Proof.
  assert (Hblk : heap_address_to_block kernel_heap 0 = -4096) by reflexivity.
  assert (E : exists n, kfree 0 m = mark_blocks_free_loop (S n) 0x7E00 (-4096) m).
  { unfold kfree, heap_free. rewrite Hblk. unfold heap_mark_blocks_free.
    change (i32 (total (table kernel_heap))) with 25600.
    replace (Z.to_nat (25600 - -4096)) with (S (Z.to_nat 29695)) by lia. by eexists. }
  destruct E as [n ->]. split; [|split].
  - by apply mark_free_loop_first.
  - intros H. unfold in_table in H. change (entries (table kernel_heap)) with 0x7E00 in H. lia.
  - intros Hbit a Ha. cbn [mark_blocks_free_loop].
    replace (0x7E00 + -4096) with 0x6E00 by lia. rewrite Hbit. cbn.
    by rewrite rd_wr_ne.
Qed.

(** ** Properties *)

(** [kheap_init] succeeds (prints nothing) whatever the memory holds: it
    sets up the kernel heap with all 25600 blocks free, so that every later
    allocation of up to 100 MB starts from a well-formed table. *)
Theorem kheap_init_ok heap0 m :
  let '(failed, h, m') := kheap_init heap0 m in
  failed = false /\ h = kernel_heap /\ heap_repr kernel_heap m' (run_of_free (Z.to_nat 25600)) /\
  (forall a, ~ in_table kernel_heap a -> rd m' a = rd m a).
Proof.
  pose proof (heap_create_spec heap0 LIEBE_OS_HEAP_ADDRESS
    (LIEBE_OS_HEAP_ADDRESS + LIEBE_OS_HEAP_SIZE_BYTES) kernel_heap_table m) as H.
  unfold kheap_init. destruct (heap_create heap0 _ _ _ m) as [[res h] m'].
  unfold LIEBE_OS_HEAP_ADDRESS, LIEBE_OS_HEAP_SIZE_BYTES in H.
  change (total kernel_heap_table) with 25600 in H.
  destruct H as [-> (-> & Hr & Ho)]; [lia|lia|lia|]. done.
Qed.

(** [kzalloc] returns null-free memory as promised: with [n] consecutive
    free blocks available for a request of at most [n] blocks, the result is a
    block-aligned non-null address whose [size] bytes are all zero, disjoint
    from every live block and from the table, all other client memory is
    unchanged and every live block stays live. *)
Theorem kzalloc_fresh_zeroed m size n :
  kheap_room m n -> 0 < size <= 0xFFFFF000 -> blocks_for size <= Z.of_nat n ->
  let '(p, m') := kzalloc size m in
  0 < p /\ p mod 4096 = 0 /\ kheap_live m' p (blocks_for size * 4096) /\
  (forall a, p <= a < p + size -> rd m' a = 0) /\
  (forall q s, kheap_live m q s -> kheap_live m' q s /\
     (q + s <= p \/ p + size <= q) /\ bytes m' q (Z.to_nat s) = bytes m q (Z.to_nat s)).
Proof.
  intros Hroom Hs Hn. assert (Hok : kheap_ok m) by (destruct Hroom as (? & ? & ?); by eexists).
  destruct (blocks_for_bounds size Hs) as [_ Hb]. unfold LIEBE_OS_HEAP_BLOCK_SIZE in Hb.
  destruct (kzalloc_spec m size n Hok Hs Hroom Hn)
    as (p & m' & -> & Hp & Ha & _ & _ & Hl & _ & Hkeep & Hdis & _ & Hz & Hout).
  repeat split; try done.
  - apply Hkeep. by left.
  - destruct (Hdis q s H); lia.
  - apply bytes_ext. intros i Hi. apply kheap_live_block in H as Hlb.
    apply Hout; [apply Hlb; lia|]. destruct (Hdis q s H); lia.
Qed.

(** [kfree(0)] is not a no-op: it computes block -4096 and clears the
    byte at 0x6E00, below the heap table (and goes on upwards while the bytes
    it finds have bit 6 set). *)
Theorem kfree_null_writes_below_table m :
  rd (kfree 0 m) 0x6E00 = 0 /\ ~ in_table kernel_heap 0x6E00 /\
  (Z.land (rd m 0x6E00) HEAP_BLOCK_HAS_NEXT = 0 ->
   forall a, a <> 0x6E00 -> rd (kfree 0 m) a = rd m a).
Proof. exact (kfree_null m). Qed.

(** ** Witnesses *)

Lemma kernel_empty_repr : heap_repr kernel_heap ∅ (run_of_free (Z.to_nat 25600)).
Proof.
  split; [|rewrite kernel_total; lia | split; [reflexivity|]].
  - rewrite encode_run, kernel_total, bytes_empty. reflexivity.
  - rewrite kernel_total. change (saddr kernel_heap) with 0x01000000.
    unfold LIEBE_OS_HEAP_BLOCK_SIZE. lia.
Qed.

Lemma kernel_empty_ok : kheap_ok ∅.
Proof. eexists. exact kernel_empty_repr. Qed.

Lemma kernel_empty_room n : (n <= Z.to_nat 25600)%nat -> kheap_room ∅ n.
Proof.
  intros Hn. exists [], (run_of_free (Z.to_nat 25600 - n)). cbn [app].
  unfold run_of_free. rewrite <- replicate_add, Nat.add_comm, Nat.sub_add by done.
  exact kernel_empty_repr.
Qed.

Lemma kzalloc_fresh_zeroed_witness :
  let '(p, m') := kzalloc 100 (wr ∅ 0x01000005 7) in
  0 < p /\ p mod 4096 = 0 /\ kheap_live m' p (1 * 4096) /\
  (forall a, p <= a < p + 100 -> rd m' a = 0) /\
  (forall q s, kheap_live (wr ∅ 0x01000005 7) q s -> kheap_live m' q s /\
     (q + s <= p \/ p + 100 <= q) /\
     bytes m' q (Z.to_nat s) = bytes (wr ∅ 0x01000005 7) q (Z.to_nat s)).
Proof.
  apply (kzalloc_fresh_zeroed (wr ∅ 0x01000005 7) 100 1); [|lia|reflexivity].
  apply (kheap_frame ∅); [|exact kernel_empty_ok|apply kernel_empty_room; lia].
  intros a Ha. apply rd_wr_ne. intros ->. apply kernel_meta_pool in Ha. cbv in Ha. discriminate.
Defined.

Lemma kfree_null_writes_below_table_witness :
  rd (kfree 0 (wr ∅ 0x6E00 5)) 0x6E00 = 0.
Proof. apply (kfree_null_writes_below_table (wr ∅ 0x6E00 5)). Defined.
