(* ===== verification/Paging.v ===== *)
(** * Paging: [src/memory/paging/paging.c]

    Page directories and page tables live in the flat memory: a directory is
    1024 words, each the page-aligned address of a table or-ed with flag bits,
    and a table is 1024 words, each a page's physical address or-ed with
    flags.  The component is written against the allocator interface
    [KAllocator].  [pte] is the abstract view, a map from page addresses to
    entries; [dir_wf] says that a directory's tables do not overlap, which is
    what makes the view behave as a map; [dir_owned] that its memory is live
    heap. *)
From S2P Require Import Prelude Config Memory Heap KHeap.

(** ** Constants and data *)

Definition PAGING_IS_PRESENT : Z := Z.shiftl 1 0.
Definition PAGING_IS_WRITEABLE : Z := Z.shiftl 1 1.
Definition PAGING_ACCESS_FROM_ALL : Z := Z.shiftl 1 2.
Definition PAGING_WRITE_THROUGHT : Z := Z.shiftl 1 3.
Definition PAGING_CACHE_DISABLED : Z := Z.shiftl 1 4.
Definition TABLE_ENTRIES_COUNT : Z := 1024.
Definition PAGE_SIZE : Z := 4096.

(** [struct page_directory] is one word in memory, at offset 0. *)
Definition directory_entry_offset : Z := 0.

Record page_location : Type := {
  directory_index : Z;
  table_index : Z }.

(** The component's global and the register [paging_load_directory] loads. *)
Record paging_state : Type := {
  cr3 : Z;
  current_directory : Z }.

(** The address of [p[i]] for a [uintptr_t *p]. *)
Definition word_at (p i : Z) : Z := u32 (p + 4 * i).

(** ** Operations *)

Section operations.
Context `{KAllocator}.

(** [for (b = 0; b < 1024; b++) table[b] = (offset + b * PAGE_SIZE) | flags;] *)
Definition fill_table (table offset flags : Z) (m : mem) : mem :=
  for_loop (Z.to_nat TABLE_ENTRIES_COUNT) 0
    (fun b m => st32 m (word_at table b) (Z.lor (i32 (offset + b * PAGE_SIZE)) flags)) m.

(** One turn of the outer loop. *)
Definition new_table (directory flags i : Z) (s : mem * Z) : mem * Z :=
  let '(m, offset) := s in
  let '(table, m1) := ka_alloc (4 * TABLE_ENTRIES_COUNT) m in
  let m2 := fill_table table offset flags m1 in
  let offset' := i32 (offset + TABLE_ENTRIES_COUNT * PAGE_SIZE) in
  (st32 m2 (word_at directory i) (Z.lor (Z.lor table flags) PAGING_IS_WRITEABLE), offset').

Definition create_new_page_directory (flags : Z) (m : mem) : Z * mem :=
  let '(directory, m1) := ka_alloc (4 * TABLE_ENTRIES_COUNT) m in
  let '(m2, _) := for_loop (Z.to_nat TABLE_ENTRIES_COUNT) 0 (new_table directory flags) (m1, 0) in
  let '(page_directory_obj, m3) := ka_alloc 4 m2 in
  (page_directory_obj, st32 m3 (page_directory_obj + directory_entry_offset) directory).

Definition page_switch (directory : Z) (s : paging_state) : paging_state :=
  {| cr3 := directory; current_directory := directory |}.

Definition get_page_directory_entry (chunk : Z) (m : mem) : Z :=
  ld32 m (chunk + directory_entry_offset).

Definition is_page_aligned (addr : Z) : bool := addr mod PAGE_SIZE =? 0.

Definition get_page_indexs (virt_addr : Z) : page_location :=
  if negb (is_page_aligned virt_addr)
  then {| directory_index := -1; table_index := -1 |}
  else {| directory_index := i32 (virt_addr / (TABLE_ENTRIES_COUNT * PAGE_SIZE));
          table_index := i32 (virt_addr mod (TABLE_ENTRIES_COUNT * PAGE_SIZE) / PAGE_SIZE) |}.

Definition paging_set (directory virt val : Z) (m : mem) : Z * mem :=
  if negb (is_page_aligned virt) then (- EINVARG, m)
  else
    let l := get_page_indexs virt in
    if (table_index l =? -1) || (directory_index l =? -1) then (- EINVARG, m)
    else
      let entry := ld32 m (word_at directory (directory_index l)) in
      let table := Z.land entry 0xfffff000 in
      (0, st32 m (word_at table (table_index l)) val).

(** [chunk->directory_entry] is read anew in every turn. *)
Definition paging_free_4gb (chunk : Z) (m : mem) : mem :=
  let m1 := for_loop (Z.to_nat 1024) 0
    (fun i m =>
       let entry := ld32 m (word_at (ld32 m (chunk + directory_entry_offset)) i) in
       ka_free (Z.land entry 0xfffff000) m) m in
  let m2 := ka_free (ld32 m1 (chunk + directory_entry_offset)) m1 in
  ka_free chunk m2.

Definition paging_align_address (ptr : Z) : Z :=
  if negb (ptr mod PAGE_SIZE =? 0) then u32 (ptr + PAGE_SIZE - ptr mod PAGE_SIZE) else ptr.

Definition paging_map (directory virt phys flags : Z) (m : mem) : Z * mem :=
  if negb (virt mod PAGE_SIZE =? 0) || negb (phys mod PAGE_SIZE =? 0) then (- EINVARG, m)
  else paging_set directory virt (u32 (Z.lor phys flags)) m.

Fixpoint paging_map_range_loop (n : nat) (directory virt phys flags res : Z) (m : mem)
  : Z * mem :=
  match n with
  | O => (res, m)
  | S n' =>
    let '(res', m') := paging_map directory virt phys flags m in
    if res' <? 0 then (res', m')
    else paging_map_range_loop n' directory (u32 (virt + PAGE_SIZE)) (u32 (phys + PAGE_SIZE))
           flags res' m'
  end.

Definition paging_map_range (directory virt phys count flags : Z) (m : mem) : Z * mem :=
  paging_map_range_loop (Z.to_nat count) directory virt phys flags 0 m.

Definition paging_map_to (directory virt phys phys_end flags : Z) (m : mem) : Z * mem :=
  if negb (virt mod PAGE_SIZE =? 0) then (- EINVARG, m)
  else if negb (phys mod PAGE_SIZE =? 0) then (- EINVARG, m)
  else if negb (phys_end mod PAGE_SIZE =? 0) then (- EINVARG, m)
  else if phys_end <? phys then (- EINVARG, m)
  else
    let total_bytes := u32 (phys_end - phys) in
    let total_pages := i32 (total_bytes / PAGE_SIZE) in
    paging_map_range directory virt phys total_pages flags m.

Definition paging_get (directory virtual : Z) (m : mem) : Z :=
  let l := get_page_indexs virtual in
  let entry := ld32 m (word_at directory (u32 (directory_index l))) in
  let table := Z.land entry 0xfffff000 in
  ld32 m (word_at table (u32 (table_index l))).

Definition paging_align_to_lower_page (addr : Z) : Z := u32 (u32 addr - u32 addr mod PAGE_SIZE).

Definition paging_get_physical_address (directory virt : Z) (m : mem) : Z :=
  let virt_addr_new := paging_align_to_lower_page virt in
  let diff := u32 (virt - virt_addr_new) in
  u32 (Z.land (paging_get directory virt_addr_new m) 0xfffff000 + diff).

End operations.

(** ** The abstract view *)

Definition page_size_bytes : Z := 4096.

(** Entry [i] of the directory, and the table it points to. *)
Definition dir_entry (m : mem) (dir i : Z) : Z := ld32 m (dir + 4 * i).
Definition dir_table (m : mem) (dir i : Z) : Z := Z.land (dir_entry m dir i) 0xfffff000.

(** The entry of the page at the (aligned) address [v]. *)
Definition pte (m : mem) (dir v : Z) : Z :=
  ld32 m (dir_table m dir (v / 4194304) + 4 * (v mod 4194304 / 4096)).

(** A directory whose 1024 tables are distinct pages, none of them its own. *)
Record dir_wf (m : mem) (dir : Z) : Prop := {
  dw_range : 0 <= dir < 4294967296;
  dw_align : dir mod 4096 = 0;
  dw_self : forall i, 0 <= i < 1024 -> dir_table m dir i <> dir;
  dw_distinct : forall i j, 0 <= i < 1024 -> 0 <= j < 1024 ->
    dir_table m dir i = dir_table m dir j -> i = j }.

(** The directory [dir], its tables [ts] and the object [obj] pointing to it
    are live heap blocks, and the object's word is the directory. *)
Record dir_owned `{KAllocator} (m : mem) (obj dir : Z) (ts : list Z) : Prop := {
  do_len : length ts = 1024%nat;
  do_nodup : NoDup (obj :: dir :: ts);
  do_live : forall p, p ∈ obj :: dir :: ts -> live m p 4096;
  do_page : forall p, p ∈ obj :: dir :: ts -> page p;
  do_obj : ld32 m obj = dir;
  do_tables : forall i t, ts !! i = Some t -> dir_table m dir (Z.of_nat i) = t }.

(** ** Lemmas *)

Lemma word_at_id p i : 0 <= p -> p + 4096 <= 4294967296 -> 0 <= i < 1024 -> word_at p i = p + 4 * i.
Proof. intros. unfold word_at. apply u32_id; lia. Qed.

Lemma dir_table_page m dir i : page (dir_table m dir i).
Proof.
  unfold dir_table, dir_entry. rewrite land_page by auto with mem.
  pose proof (ld32_range m (dir + 4 * i)). split; dlia.
Qed.

Lemma dir_wf_page m dir : dir_wf m dir -> page dir.
Proof. intros [? ? _ _]. by split. Qed.

Lemma page_indexs v : page v ->
  get_page_indexs v =
    {| directory_index := v / 4194304; table_index := v mod 4194304 / 4096 |} /\
  0 <= v / 4194304 < 1024 /\ 0 <= v mod 4194304 / 4096 < 1024.
Proof.
  intros [Hr Ha]. unfold get_page_indexs, is_page_aligned, PAGE_SIZE, TABLE_ENTRIES_COUNT.
  rewrite Ha. cbn [negb Z.eqb]. change (1024 * 4096) with 4194304.
  split; [|split; dlia]. rewrite !i32_id by dlia. done.
Qed.

(** A page is determined by its two indices. *)
Lemma page_index_inj v w :
  page v -> page w -> v / 4194304 = w / 4194304 ->
  v mod 4194304 / 4096 = w mod 4194304 / 4096 -> v = w.
Proof. intros [? ?] [? ?] ? ?. dlia. Qed.

Lemma page_aligned v : page v -> is_page_aligned v = true.
Proof. intros [_ E]. unfold is_page_aligned, PAGE_SIZE. by rewrite E. Qed.

Lemma paging_get_pte m dir v : dir_wf m dir -> page v -> paging_get dir v m = pte m dir v.
Proof.
  intros Hw Hv. destruct (page_indexs v Hv) as (E & H1 & H2).
  unfold paging_get. rewrite E. cbn [directory_index table_index].
  rewrite !(u32_id (_ / _)) by lia.
  pose proof (page_top _ (dir_wf_page _ _ Hw)). destruct (dir_wf_page _ _ Hw).
  rewrite (word_at_id dir) by lia.
  pose proof (dir_table_page m dir (v / 4194304)) as Hp. pose proof (page_top _ Hp).
  destruct Hp. unfold dir_table, dir_entry in *. rewrite word_at_id by lia. done.
Qed.

(** What survives a store into one of the tables. *)
Lemma dir_table_frame m m' dir i :
  (forall a, dir <= a < dir + 4096 -> rd m' a = rd m a) -> 0 <= i < 1024 ->
  dir_entry m' dir i = dir_entry m dir i.
Proof. intros Hf Hi. apply ld32_ext. intros. apply Hf. lia. Qed.

Lemma dir_wf_frame m m' dir :
  (forall i, 0 <= i < 1024 -> dir_table m' dir i = dir_table m dir i) ->
  dir_wf m dir -> dir_wf m' dir.
Proof.
  intros Hf [? ? Hs Hd]. split; try done.
  - intros i Hi. rewrite Hf by done. by apply Hs.
  - intros i j Hi Hj. rewrite !Hf by done. by apply Hd.
Qed.

(** [paging_set] on an aligned address updates exactly that page's entry. *)
Lemma paging_set_spec m dir v val :
  dir_wf m dir -> page v ->
  exists m', paging_set dir v val m = (0, m') /\ dir_wf m' dir /\
    (forall i, 0 <= i < 1024 -> dir_entry m' dir i = dir_entry m dir i) /\
    (forall w, page w -> pte m' dir w = if w =? v then u32 val else pte m dir w) /\
    (forall a, (forall i, 0 <= i < 1024 ->
        a < dir_table m dir i \/ dir_table m dir i + 4096 <= a) -> rd m' a = rd m a).
Proof.
  intros Hw Hv. destruct (page_indexs v Hv) as (E & H1 & H2).
  pose proof (dir_wf_page _ _ Hw) as Hdp. pose proof (page_top _ Hdp).
  pose proof (dir_table_page m dir (v / 4194304)) as Hp. pose proof (page_top _ Hp).
  assert (Hslot : paging_set dir v val m =
    (0, st32 m (dir_table m dir (v / 4194304) + 4 * (v mod 4194304 / 4096)) val)).
  { unfold paging_set. rewrite page_aligned by done. rewrite E.
    cbn [directory_index table_index negb].
    destruct (Z.eqb_spec (v mod 4194304 / 4096) (-1)); [lia|].
    destruct (Z.eqb_spec (v / 4194304) (-1)); [lia|]. cbn [orb].
    destruct Hdp, Hp. rewrite (word_at_id dir) by lia.
    unfold dir_table, dir_entry in *. rewrite word_at_id by lia. done. }
  set (t := dir_table m dir (v / 4194304)) in *. set (k := v mod 4194304 / 4096) in *.
  set (m' := st32 m (t + 4 * k) val) in *.
  assert (Hent : forall i, 0 <= i < 1024 -> dir_entry m' dir i = dir_entry m dir i).
  { intros i Hi. apply dir_table_frame; [|done]. intros a Ha. apply rd_st32_ne.
    destruct (pages_disjoint dir t Hdp Hp); [|lia|lia].
    intros Ed. by apply (dw_self _ _ Hw _ H1). }
  assert (Htab : forall i, 0 <= i < 1024 -> dir_table m' dir i = dir_table m dir i)
    by (intros i Hi; unfold dir_table; by rewrite Hent).
  exists m'. split; [done|split; [by apply (dir_wf_frame m)|split; [done|split]]].
  - intros w Hwp. destruct (page_indexs w Hwp) as (_ & H3 & H4).
    unfold pte. rewrite Htab by done.
    destruct (Z.eqb_spec w v) as [->|Hne]; [apply ld32_st32_eq|].
    apply ld32_st32_ne. pose proof (dir_table_page m dir (w / 4194304)) as Hq.
    destruct (decide (w / 4194304 = v / 4194304)) as [Ed|Ed].
    + rewrite Ed. fold t. assert (w mod 4194304 / 4096 <> k); [|lia].
      intros Ek. by apply Hne, page_index_inj.
    + destruct (pages_disjoint _ _ Hq Hp); [|lia|lia].
      intros Et. apply Ed. by apply (dw_distinct _ _ Hw).
  - intros a Ha. apply rd_st32_ne. specialize (Ha _ H1). fold t in Ha. lia.
Qed.

Lemma page_next v : page v -> page (u32 (v + 4096)).
Proof. intros [? ?]. unfold page, u32. dlia. Qed.

Lemma page_mod v : page v -> v mod PAGE_SIZE = 0.
Proof. by intros [_ E]. Qed.

(** The page map after mapping [n] pages from [virt] to [phys]. *)
Definition mapped (m : mem) (dir virt phys n flags w : Z) : Z :=
  if (virt <=? w) && (w <? virt + n * 4096)
  then u32 (Z.lor (phys + (w - virt)) flags) else pte m dir w.

Lemma map_range_loop_spec n : forall m dir virt phys flags,
  dir_wf m dir -> page virt -> page phys ->
  virt + Z.of_nat n * 4096 <= 4294967296 -> phys + Z.of_nat n * 4096 <= 4294967296 ->
  exists m', paging_map_range_loop n dir virt phys flags 0 m = (0, m') /\ dir_wf m' dir /\
    (forall i, 0 <= i < 1024 -> dir_entry m' dir i = dir_entry m dir i) /\
    (forall w, page w -> pte m' dir w = mapped m dir virt phys (Z.of_nat n) flags w) /\
    (forall a, (forall i, 0 <= i < 1024 ->
        a < dir_table m dir i \/ dir_table m dir i + 4096 <= a) -> rd m' a = rd m a).
Proof.
  induction n as [|n IH]; intros m dir virt phys flags Hw Hv Hp Hvb Hpb;
    cbn [paging_map_range_loop].
  - exists m. repeat (split; [done|]). split; [|done].
    intros w _. unfold mapped. zcases.
  - unfold paging_map. rewrite !page_mod by done. cbn [Z.eqb negb orb].
    destruct (paging_set_spec m dir virt (u32 (Z.lor phys flags)) Hw Hv)
      as (m1 & -> & Hw1 & He1 & Hp1 & Ho1).
    cbn [Z.ltb Z.compare]. unfold PAGE_SIZE.
    assert (Hnext : n = O \/ u32 (virt + 4096) = virt + 4096 /\ u32 (phys + 4096) = phys + 4096).
    { destruct n; [by left|right]. destruct Hv, Hp. rewrite !u32_id by lia. done. }
    pose proof (page_next _ Hv) as [Hv2 Hv3]. pose proof (page_next _ Hp) as [Hp2 Hp3].
    destruct (IH m1 dir (u32 (virt + 4096)) (u32 (phys + 4096)) flags)
      as (m2 & E & Hw2 & He2 & Hpt & Ho2); [done|by split|by split|lia|lia|].
    exists m2. split; [done|]. split; [done|]. split; [|split].
    + intros i Hi. by rewrite He2, He1.
    + intros w Hwp. rewrite Hpt by done. unfold mapped. rewrite Hp1 by done.
      rewrite u32_u32. destruct Hnext as [->|[-> ->]].
      * cbn [Z.of_nat]. assert (~ virt < w < virt + 4096) by (destruct Hwp, Hv; dlia).
        zcases. all: f_equal; f_equal; lia.
      * assert (~ virt < w < virt + 4096) by (destruct Hwp, Hv; dlia).
        zcases. all: f_equal; f_equal; lia.
    + intros a Ha. rewrite Ho2; [by apply Ho1|]. intros i Hi.
      unfold dir_table. rewrite He1 by done. by apply Ha.
Qed.

Lemma paging_map_to_pages m dir virt phys phys_end flags :
  dir_wf m dir -> page virt -> page phys -> page phys_end -> phys <= phys_end ->
  virt + (phys_end - phys) <= 4294967296 ->
  exists m', paging_map_to dir virt phys phys_end flags m = (0, m') /\ dir_wf m' dir /\
    (forall i, 0 <= i < 1024 -> dir_entry m' dir i = dir_entry m dir i) /\
    (forall w, page w -> pte m' dir w = mapped m dir virt phys ((phys_end - phys) / 4096) flags w) /\
    (forall a, (forall i, 0 <= i < 1024 ->
        a < dir_table m dir i \/ dir_table m dir i + 4096 <= a) -> rd m' a = rd m a).
Proof.
  intros Hw Hv Hp He Hle Hb. unfold paging_map_to. rewrite !page_mod by done. cbn [Z.eqb negb].
  destruct (Z.ltb_spec phys_end phys); [lia|]. unfold paging_map_range, PAGE_SIZE.
  pose proof Hp as [Hp1 Hp2]. pose proof He as [He1 He2].
  rewrite u32_id by lia. rewrite i32_id by dlia.
  destruct (map_range_loop_spec (Z.to_nat ((phys_end - phys) / 4096)) m dir virt phys flags)
    as (m' & E & H1 & H2 & H3 & H4); [done|done|done|dlia|dlia|].
  exists m'. repeat (split; [done|]). split; [|done].
  intros w Hwp. rewrite H3, Z2Nat.id by (try done; dlia). done.
Qed.

(** ** Translation *)

Lemma lower_page v : 0 <= v < 4294967296 ->
  paging_align_to_lower_page v = v - v mod 4096 /\ page (v - v mod 4096).
Proof.
  intros Hv. unfold paging_align_to_lower_page, PAGE_SIZE. rewrite (u32_id v) by done.
  rewrite u32_id by dlia. split; [done|]. split; dlia.
Qed.

Lemma translate_pte m dir v :
  dir_wf m dir -> 0 <= v < 4294967296 ->
  paging_get_physical_address dir v m =
    u32 (Z.land (pte m dir (v - v mod 4096)) 0xfffff000 + v mod 4096).
Proof.
  intros Hw Hv. destruct (lower_page v Hv) as [E Hp].
  unfold paging_get_physical_address. rewrite E, paging_get_pte by done.
  do 2 f_equal. rewrite u32_id by dlia. lia.
Qed.

Lemma land_page_lor p f : page p -> 0 <= f < 4096 -> Z.land (Z.lor p f) 0xfffff000 = p.
Proof. intros [? ?] ?. rewrite lor_page, land_page by dlia. dlia. Qed.

(** [paging_map_range] never fails on aligned addresses, whatever the tables
    hold. *)
Lemma paging_map_returns dir v p flags m :
  page v -> p mod 4096 = 0 -> fst (paging_map dir v p flags m) = 0.
Proof.
  intros Hv Hp. destruct (page_indexs v Hv) as (E & H1 & H2).
  unfold paging_map. rewrite page_mod by done. unfold PAGE_SIZE. rewrite Hp. cbn [Z.eqb negb orb].
  unfold paging_set. rewrite page_aligned, E by done. cbn [negb directory_index table_index].
  destruct (Z.eqb_spec (v mod 4194304 / 4096) (-1)); [lia|].
  destruct (Z.eqb_spec (v / 4194304) (-1)); [lia|done].
Qed.

Lemma map_range_returns n : forall dir v p flags m,
  page v -> page p -> fst (paging_map_range_loop n dir v p flags 0 m) = 0.
Proof.
  induction n as [|n IH]; intros dir v p flags m Hv Hp; [done|]. cbn [paging_map_range_loop].
  pose proof (paging_map_returns dir v p flags m Hv (proj2 Hp)) as E.
  destruct (paging_map dir v p flags m) as [res m']. cbn [fst] in E. subst res.
  cbn [Z.ltb Z.compare]. apply IH; by apply page_next.
Qed.

(** ** Creation *)

Lemma fill_table_spec t off flags m :
  page t ->
  (forall b, 0 <= b < 1024 ->
     ld32 (fill_table t off flags m) (t + 4 * b) = u32 (Z.lor (i32 (off + b * 4096)) flags)) /\
  (forall a, a < t \/ t + 4096 <= a -> rd (fill_table t off flags m) a = rd m a).
Proof.
  intros Hp. pose proof (page_top _ Hp) as Htop. destruct Hp as [Hp _].
  unfold fill_table, TABLE_ENTRIES_COUNT, PAGE_SIZE.
  pose (P := fun i m' =>
    (forall b, 0 <= b < i -> ld32 m' (t + 4 * b) = u32 (Z.lor (i32 (off + b * 4096)) flags)) /\
    (forall a, a < t \/ t + 4096 <= a -> rd m' a = rd m a)).
  enough (HP : P (0 + Z.of_nat (Z.to_nat 1024)) (for_loop (Z.to_nat 1024) 0
    (fun b m => st32 m (word_at t b) (Z.lor (i32 (off + b * 4096)) flags)) m)) by exact HP.
  apply for_loop_ind; unfold P; [split; [lia|done]|].
  intros j m' Hj [H1 H2]. rewrite word_at_id by lia. split.
  - intros b Hb. destruct (decide (b = j)) as [->|Hne]; [apply ld32_st32_eq|].
    rewrite ld32_st32_ne by lia. apply H1; lia.
  - intros a Ha. rewrite rd_st32_ne by lia. by apply H2.
Qed.

Section heap_client.
Context `{KAllocator}.

(** After [i] turns of the outer loop, from the memory [m1] that holds the
    directory page [dir]. *)
Definition created (m1 : mem) (dir flags i N : Z) (s : mem * Z) : Prop :=
  snd s = i32 (i * 4194304) /\
  exists ts, Z.of_nat (length ts) = i /\ heap_ok (fst s) /\ room (fst s) (Z.to_nat (N - i)) /\
    NoDup (dir :: ts) /\ (forall p, p ∈ dir :: ts -> page p) /\
    (forall q t, live (fst s) q t <-> live m1 q t \/ q ∈ ts /\ t = 4096) /\
    (forall q t, live m1 q t -> q ∉ ts) /\
    (forall k t, ts !! k = Some t ->
       dir_entry (fst s) dir (Z.of_nat k) = Z.lor (Z.lor t flags) 2 /\
       forall b, 0 <= b < 1024 ->
         ld32 (fst s) (t + 4 * b) = Z.lor (Z.of_nat k * 4194304 + b * 4096) flags) /\
    (forall a, ~ meta a -> (forall p, p ∈ dir :: ts -> a < p \/ p + 4096 <= a) ->
       rd (fst s) a = rd m1 a).

Lemma entry_value k b flags :
  0 <= k < 1024 -> 0 <= b < 1024 -> 0 <= flags < 256 ->
  u32 (Z.lor (i32 (i32 (k * 4194304) + b * 4096)) flags) = Z.lor (k * 4194304 + b * 4096) flags.
Proof.
  intros Hk Hb Hf. rewrite u32_lor, u32_i32, (u32_id flags) by lia. f_equal.
  transitivity (u32 (k * 4194304 + b * 4096)); [|apply u32_id; lia].
  unfold u32. rewrite <- (Zplus_mod_idemp_l (i32 _)). fold (u32 (i32 (k * 4194304))).
  rewrite u32_i32. unfold u32. by rewrite Zplus_mod_idemp_l.
Qed.

Lemma dir_entry_value t flags : page t -> 0 <= flags < 256 ->
  u32 (Z.lor (Z.lor t flags) 2) = Z.lor (Z.lor t flags) 2 /\
  Z.land (Z.lor (Z.lor t flags) 2) 0xfffff000 = t.
Proof.
  intros Ht Hf. pose proof (page_top _ Ht). rewrite <- Z.lor_assoc.
  pose proof (lor_small 8 flags 2 ltac:(lia) ltac:(cbn; lia) ltac:(cbn; lia)) as Hs.
  change (2 ^ 8) with 256 in Hs. destruct Ht as [Hr Ha].
  rewrite land_page_lor by (done || lia). split; [|done].
  rewrite lor_page by (done || lia). apply u32_id. lia.
Qed.

(** One turn of the outer loop, when the directory and the earlier tables
    [ts] are live pages: a fresh table [t], filled and entered in slot [i],
    and no other word of those pages touched. *)
Lemma new_table_effect m off dir ts flags i n :
  0 <= flags < 256 -> 0 <= i < 1024 -> heap_ok m -> room m (S n) -> NoDup (dir :: ts) ->
  (forall p, p ∈ dir :: ts -> page p /\ live m p 4096) ->
  exists t m', new_table dir flags i (m, off) = (m', i32 (off + 4194304)) /\
    page t /\ (t ∉ dir :: ts) /\ heap_ok m' /\ room m' n /\
    (forall q s, live m' q s <-> live m q s \/ q = t /\ s = 4096) /\
    (forall q s, live m q s -> q <> t) /\
    (forall p k, p ∈ dir :: ts -> 0 <= k < 1024 -> ~ (p = dir /\ k = i) ->
       ld32 m' (p + 4 * k) = ld32 m (p + 4 * k)) /\
    dir_entry m' dir i = Z.lor (Z.lor t flags) 2 /\
    (forall b, 0 <= b < 1024 -> ld32 m' (t + 4 * b) = u32 (Z.lor (i32 (off + b * 4096)) flags)) /\
    (forall a, ~ meta a -> (forall p, p ∈ dir :: ts -> a < p \/ p + 4096 <= a) ->
       a < t \/ t + 4096 <= a -> rd m' a = rd m a).
Proof.
  intros Hfl Hi Hok Hroom Hnd Hps. unfold new_table.
  change (4 * TABLE_ENTRIES_COUNT) with 4096.
  destruct (alloc_page m 4096 n eq_refl ltac:(lia) Hok Hroom)
    as (t & ma & -> & Htp & Hoka & Hrooma & Hlva & Hda & Hfra & _ & _ & Hoa).
  destruct (fill_table_spec t off flags ma Htp) as [Hfill Hfo].
  set (mb := fill_table t off flags ma) in *.
  destruct (Hps dir ltac:(by left)) as [Hdp Hdl].
  pose proof (page_top _ Hdp). pose proof Hdp as [Hdr _]. rewrite (word_at_id dir) by lia.
  set (mc := st32 mb (dir + 4 * i) (Z.lor (Z.lor t flags) PAGING_IS_WRITEABLE)).
  assert (Hsep : forall p, p ∈ dir :: ts -> p + 4096 <= t \/ t + 4096 <= p)
    by (intros p Hp; by apply Hda, Hps).
  assert (Hdt : dir + 4096 <= t \/ t + 4096 <= dir) by (apply Hsep; by left).
  destruct (client_frame ma mb t 4096 Hoka ltac:(apply Hlva; by right) Hfo)
    as (Hokb & Hlvb & Hroomb).
  destruct (client_frame mb mc dir 4096) as (Hokc & Hlvc & Hroomc);
    [done | apply Hlvb, Hlva; by left | intros a Ha; apply rd_st32_ne; lia |].
  exists t, mc. split; [done|]. split; [done|].
  split; [intros Ht; specialize (Hsep t Ht); lia|].
  split; [done|]. split; [by apply Hroomc, Hroomb|].
  split; [|split; [done|split; [|split; [|split]]]].
  - intros q s. by rewrite Hlvc, Hlvb, Hlva.
  - intros p k Hp Hk Hne. unfold mc. rewrite ld32_st32_ne.
    + apply ld32_ext. intros b Hb. rewrite Hfo by (specialize (Hsep p Hp); lia).
      apply Hoa; [|specialize (Hsep p Hp); lia].
      destruct (live_block m p 4096) as (_ & _ & Hmp); [by apply Hps|]. apply Hmp. lia.
    + apply elem_of_cons in Hp as [->|Hp]; [lia|].
      assert (p <> dir) by (intros ->; by apply list.NoDup_cons in Hnd as [? _]).
      destruct (pages_disjoint p dir); [apply Hps; by right|done|done|lia|lia].
  - unfold dir_entry, mc. rewrite ld32_st32_eq. by apply (dir_entry_value t flags).
  - intros b Hb. unfold mc. rewrite ld32_st32_ne by lia. by apply Hfill.
  - intros a Hna Ha Hat. unfold mc. rewrite rd_st32_ne.
    + rewrite Hfo by done. by apply Hoa.
    + specialize (Ha dir ltac:(by left)). lia.
Qed.

Lemma i32_add_l x y : i32 (i32 x + y) = i32 (x + y).
Proof.
  rewrite <- (i32_u32 (i32 x + y)), <- (i32_u32 (x + y)). f_equal. unfold u32.
  rewrite <- (Zplus_mod_idemp_l (i32 x)), <- (Zplus_mod_idemp_l x).
  fold (u32 (i32 x)) (u32 x). by rewrite u32_i32.
Qed.

(** One turn of the outer loop keeps [created]. *)
Lemma created_step m1 dir flags i N s :
  0 <= flags < 256 -> 0 <= i < 1024 -> i < N -> live m1 dir 4096 ->
  created m1 dir flags i N s -> created m1 dir flags (i + 1) N (new_table dir flags i s).
Proof.
  intros Hfl Hi HN Hdir (Hoff & ts & Hlen & Hok & Hroom & Hnd & Hpg & Hlv & Hfr & Hent & Hout).
  destruct s as [m off]. cbn [fst snd] in *.
  replace (Z.to_nat (N - i)) with (S (Z.to_nat (N - (i + 1)))) in Hroom by lia.
  destruct (new_table_effect m off dir ts flags i _ Hfl Hi Hok Hroom Hnd)
    as (t & m' & -> & Htp & Htnew & Hok' & Hroom' & Hlv' & Hfr' & Hkeep & He & Hfill & Hout').
  { intros p Hp. split; [by apply Hpg|]. apply Hlv.
    apply elem_of_cons in Hp as [->|Hp]; [by left|by right]. }
  assert (Hin : forall p, p ∈ dir :: ts ++ [t] <-> p ∈ dir :: ts \/ p = t).
  { intros p. rewrite !elem_of_cons, elem_of_app, list_elem_of_singleton. tauto. }
  split; [cbn [snd]; rewrite Hoff, i32_add_l; f_equal; lia|].
  exists (ts ++ [t]). cbn [fst]. split; [rewrite length_app; cbn [length]; lia|].
  split; [done|]. split; [done|]. split; [|split; [|split; [|split; [|split]]]].
  - change (NoDup ((dir :: ts) ++ [t])). apply list.NoDup_app. split; [done|].
    split; [|apply NoDup_singleton]. intros x Hx ->%list_elem_of_singleton. done.
  - intros p [Hp| ->]%Hin; [by apply Hpg|done].
  - intros q s. rewrite Hlv', Hlv, elem_of_app, list_elem_of_singleton. tauto.
  - intros q s Hq. rewrite elem_of_app, list_elem_of_singleton. intros [Hin'| ->].
    + by apply (Hfr q s).
    + apply (Hfr' t s); [|done]. apply Hlv. by left.
  - intros k u Hu. apply lookup_app_Some in Hu as [Hu | [Hge Hu]].
    + pose proof (list_elem_of_lookup_2 _ _ _ Hu). apply lookup_lt_Some in Hu as Hk.
      destruct (Hent k u Hu) as [He1 He2]. split.
      * unfold dir_entry in *. rewrite Hkeep; [done|by left|lia|lia].
      * intros b Hb. rewrite Hkeep; [by apply He2|by right|done|].
        intros [-> _]. by apply list.NoDup_cons in Hnd as [? _].
    + apply list_lookup_singleton_Some in Hu as [Hk <-].
      replace (Z.of_nat k) with i by lia. split; [done|].
      intros b Hb. rewrite Hfill, Hoff by done. by apply entry_value.
  - intros a Hna Ha. rewrite Hout'; [|done| |by apply Ha, Hin; right].
    + apply Hout; [done|]. intros p Hp. apply Ha, Hin. by left.
    + intros p Hp. apply Ha, Hin. by left.
Qed.

(** An owned directory is well formed. *)
Lemma dir_owned_wf m obj dir ts : dir_owned m obj dir ts -> dir_wf m dir.
Proof.
  intros [Hl Hnd _ Hpg _ Ht].
  assert (Hget : forall i, 0 <= i < 1024 -> ts !! Z.to_nat i = Some (dir_table m dir i)).
  { intros i Hi. destruct (lookup_lt_is_Some_2 ts (Z.to_nat i)) as [t E]; [lia|].
    rewrite E. specialize (Ht _ _ E). rewrite Z2Nat.id in Ht by lia. by rewrite Ht. }
  apply list.NoDup_cons in Hnd as [_ Hnd]. apply list.NoDup_cons in Hnd as [Hdir Hnd].
  assert (Hdp : page dir) by (apply Hpg; right; by left).
  split; [apply Hdp|apply Hdp| |].
  - intros i Hi E. apply Hdir. rewrite <- E. eapply list_elem_of_lookup_2. by apply Hget.
  - intros i j Hi Hj E.
    enough (Z.to_nat i = Z.to_nat j) by lia.
    eapply (NoDup_lookup ts); [done|by apply Hget|]. rewrite E. by apply Hget.
Qed.

Lemma page_bits v f : page v -> 0 <= f < 256 -> 0 <= Z.lor v f < 4294967296.
Proof. intros Hv Hf. pose proof (page_top _ Hv). destruct Hv. rewrite lor_page by (done || lia). lia. Qed.

Lemma created_all m flags n :
  0 <= flags < 256 -> heap_ok m -> room m (1026 + n) ->
  exists dir m1, ka_alloc 4096 m = (dir, m1) /\ live m1 dir 4096 /\
    (forall q s, live m1 q s <-> live m q s \/ q = dir /\ s = 4096) /\
    (forall q s, live m q s -> q <> dir) /\
    (forall a, ~ meta a -> a < dir \/ dir + 4096 <= a -> rd m1 a = rd m a) /\
    created m1 dir flags 1024 (1025 + Z.of_nat n)
      (for_loop (Z.to_nat 1024) 0 (new_table dir flags) (m1, 0)).
Proof.
  intros Hf Hok Hroom.
  destruct (alloc_page m 4096 (1025 + n) eq_refl ltac:(lia) Hok Hroom)
    as (dir & m1 & E & Hp & Hok1 & Hroom1 & Hlv & _ & Hne & _ & _ & Ho).
  assert (Hl : live m1 dir 4096) by (apply Hlv; by right).
  exists dir, m1. split; [done|split; [done|split; [done|split; [done|split; [done|]]]]].
  apply (for_loop_ind (fun i s => created m1 dir flags i (1025 + Z.of_nat n) s)).
  - split; [done|]. exists []. cbn [fst]. split; [done|]. split; [done|].
    split; [by replace (Z.to_nat (1025 + Z.of_nat n - 0)) with (1025 + n)%nat by lia|].
    split; [apply NoDup_singleton|].
    split; [by intros p ->%list_elem_of_singleton|].
    split; [intros q t; rewrite elem_of_nil; tauto|].
    split; [intros q t _; apply not_elem_of_nil|by split].
  - intros j t Hj. apply created_step; [done|lia|lia|done].
Qed.

Lemma dir_entry_low t flags : page t -> 0 <= flags < 256 ->
  Z.land (Z.lor (Z.lor t flags) 2) 4095 = Z.lor flags 2.
Proof.
  intros [Hr Ha] Hf. rewrite <- Z.lor_assoc.
  pose proof (lor_small 8 flags 2 ltac:(lia) ltac:(cbn; lia) ltac:(cbn; lia)) as Hs.
  change (2 ^ 8) with 256 in Hs. rewrite lor_page by (done || lia).
  change 4095 with (Z.ones 12). rewrite Z.land_ones by lia. change (2 ^ 12) with 4096. dlia.
Qed.

Lemma create_spec m flags n :
  0 <= flags < 256 -> heap_ok m -> room m (1026 + n) ->
  exists obj m' dir ts, create_new_page_directory flags m = (obj, m') /\
    dir_owned m' obj dir ts /\ heap_ok m' /\ room m' n /\
    (forall i, 0 <= i < 1024 -> Z.land (dir_entry m' dir i) 4095 = Z.lor flags 2) /\
    (forall v, page v -> pte m' dir v = Z.lor v flags) /\
    (forall q s, live m' q s <-> live m q s \/ q ∈ (obj :: dir :: ts) /\ s = 4096) /\
    (forall q s, live m q s -> q ∉ obj :: dir :: ts) /\
    (forall a, ~ meta a -> (forall p, p ∈ obj :: dir :: ts -> a < p \/ p + 4096 <= a) ->
       rd m' a = rd m a).
Proof.
  intros Hf Hok Hroom. unfold create_new_page_directory.
  change (4 * TABLE_ENTRIES_COUNT) with 4096.
  destruct (created_all m flags n Hf Hok Hroom) as (dir & m1 & -> & Hdl & Hlv1 & Hfr1 & Ho1 & Hc).
  unfold TABLE_ENTRIES_COUNT. destruct (for_loop _ _ _ _) as [m2 off].
  destruct Hc as (_ & ts & Hlen & Hok2 & Hroom2 & Hnd & Hpg & Hlv2 & Hfr2 & Hent & Ho2).
  cbn [fst] in *.
  replace (Z.to_nat (1025 + Z.of_nat n - 1024)) with (S n) in Hroom2 by lia.
  destruct (alloc_page m2 4 n eq_refl ltac:(lia) Hok2 Hroom2)
    as (obj & m3 & -> & Hobj & Hok3 & Hroom3 & Hlv3 & Hd3 & Hfr3 & _ & _ & Ho3).
  unfold directory_entry_offset. rewrite Z.add_0_r. set (m4 := st32 m3 obj dir).
  destruct (client_frame m3 m4 obj 4096 Hok3 ltac:(apply Hlv3; by right))
    as (Hok4 & Hlv4 & Hroom4); [intros a Ha; apply rd_st32_ne; lia|].
  assert (Hlive2 : forall p, p ∈ dir :: ts -> live m2 p 4096).
  { intros p [->|Hp]%elem_of_cons; apply Hlv2; [by left|by right]. }
  assert (Hkeep : forall p k, p ∈ dir :: ts -> 0 <= k < 1024 ->
    ld32 m4 (p + 4 * k) = ld32 m2 (p + 4 * k)).
  { intros p k Hp Hk. specialize (Hd3 p _ (Hlive2 p Hp)).
    apply ld32_ext. intros b Hb. unfold m4. rewrite rd_st32_ne by lia. apply Ho3; [|lia].
    destruct (live_block m2 p 4096) as (_ & _ & Hmp); [by apply Hlive2|]. apply Hmp. lia. }
  assert (Hdir : page dir) by (apply Hpg; by left).
  assert (Htab : forall i t, ts !! i = Some t ->
    dir_entry m4 dir (Z.of_nat i) = Z.lor (Z.lor t flags) 2 /\ page t).
  { intros i t Hi. apply lookup_lt_Some in Hi as Hlt. split.
    - unfold dir_entry. rewrite Hkeep; [by apply Hent|by left|lia].
    - apply Hpg. right. by eapply list_elem_of_lookup_2. }
  assert (Hidx : forall i, 0 <= i < 1024 -> exists t, ts !! Z.to_nat i = Some t).
  { intros i Hi. apply lookup_lt_is_Some_2. lia. }
  exists obj, m4, dir, ts. split; [done|].
  split; [|split; [done|split; [by apply Hroom4|split; [|split; [|split; [|split]]]]]].
  - split.
    + lia.
    + apply list.NoDup_cons. split; [|done]. intros Hin. specialize (Hd3 _ _ (Hlive2 _ Hin)). lia.
    + intros p [->|Hin]%elem_of_cons; apply Hlv4, Hlv3; [by right|left; by apply Hlive2].
    + intros p [->|Hin]%elem_of_cons; [done|by apply Hpg].
    + unfold m4. rewrite ld32_st32_eq. apply u32_id. apply Hdir.
    + intros i t Hi. destruct (Htab i t Hi) as [E Ht]. unfold dir_table. rewrite E.
      by apply dir_entry_value.
  - intros i Hi. destruct (Hidx i Hi) as [t Ht]. destruct (Htab _ _ Ht) as [E Htp].
    rewrite Z2Nat.id in E by lia. rewrite E. by apply dir_entry_low.
  - intros v Hv. destruct (page_indexs v Hv) as (_ & H1 & H2).
    destruct (Hidx _ H1) as [t Ht]. destruct (Htab _ _ Ht) as [E Htp].
    rewrite Z2Nat.id in E by lia. unfold pte, dir_table. rewrite E.
    destruct (dir_entry_value t flags Htp Hf) as [_ ->].
    rewrite Hkeep; [|right; by eapply list_elem_of_lookup_2|done].
    destruct (Hent _ _ Ht) as [_ E2]. rewrite E2, Z2Nat.id by lia. f_equal.
    destruct Hv. dlia.
  - intros q s. rewrite Hlv4, Hlv3, Hlv2, Hlv1, !elem_of_cons. tauto.
  - intros q s Hq. rewrite !elem_of_cons. intros [->|[->|Hin]].
    + apply (Hfr3 obj s); [|done]. apply Hlv2. left. apply Hlv1. by left.
    + by apply (Hfr1 dir s).
    + apply (Hfr2 q s); [|done]. apply Hlv1. by left.
  - intros a Hna Ha. unfold m4. rewrite rd_st32_ne
      by (specialize (Ha obj ltac:(by left)); lia).
    rewrite Ho3; [|done|apply Ha; by left]. rewrite Ho2; [|done|intros; apply Ha; by right].
    apply Ho1; [done|]. apply Ha. right. by left.
Qed.

(** ** Release *)

(** One page of the directory is released: what is left of the others. *)
Lemma free_page m m0 ps done_ p :
  heap_ok m -> live m0 p 4096 -> p ∉ done_ ->
  (forall q t, live m q t <-> live m0 q t /\ q ∉ done_) ->
  (forall a, ~ meta a -> rd m a = rd m0 a) ->
  ps = done_ ++ [p] ->
  heap_ok (ka_free p m) /\
  (forall q t, live (ka_free p m) q t <-> live m0 q t /\ q ∉ ps) /\
  (forall a, ~ meta a -> rd (ka_free p m) a = rd m0 a).
Proof.
  intros Hok Hp Hnot Hlv Ho ->.
  destruct (ka_free_spec m p 4096) as (H1 & H2 & _ & H4); [done|by apply Hlv|].
  split; [done|]. split.
  - intros q t. rewrite H2, Hlv, elem_of_app, list_elem_of_singleton. tauto.
  - intros a Ha. by rewrite H4, Ho.
Qed.

Lemma free_4gb_spec m obj dir ts :
  heap_ok m -> dir_owned m obj dir ts ->
  heap_ok (paging_free_4gb obj m) /\
  (forall q t, live (paging_free_4gb obj m) q t <-> live m q t /\ q ∉ obj :: dir :: ts) /\
  (forall a, ~ meta a -> rd (paging_free_4gb obj m) a = rd m a).
Proof.
  intros Hok Hown. pose proof Hown as [Hlen Hnd Hlive Hpg Hobj Htab].
  apply list.NoDup_cons in Hnd as [Hobj_in Hnd]. apply list.NoDup_cons in Hnd as [Hdir_in Hnd].
  (* words of the object and of the directory are read unchanged all along *)
  assert (Hword : forall m' p k, (forall a, ~ meta a -> rd m' a = rd m a) ->
    p ∈ [obj; dir] -> 0 <= k < 1024 -> ld32 m' (p + 4 * k) = ld32 m (p + 4 * k)).
  { intros m' p k Ho Hp Hk. apply ld32_ext. intros b Hb. apply Ho.
    destruct (live_block m p 4096) as (_ & _ & Hm).
    - apply Hlive. rewrite !elem_of_cons in Hp. rewrite !elem_of_cons. rewrite elem_of_nil in Hp. tauto.
    - apply Hm. lia. }
  assert (Hroot : forall m', (forall a, ~ meta a -> rd m' a = rd m a) ->
    ld32 m' (obj + directory_entry_offset) = dir).
  { intros m' Ho. rewrite <- Hobj. unfold directory_entry_offset.
    specialize (Hword m' obj 0 Ho). change (4 * 0) with 0 in Hword. rewrite Z.add_0_r in *.
    apply Hword; [by left|lia]. }
  pose (P := fun i m' => heap_ok m' /\
    (forall q t, live m' q t <-> live m q t /\ q ∉ take (Z.to_nat i) ts) /\
    (forall a, ~ meta a -> rd m' a = rd m a)).
  unfold paging_free_4gb.
  set (m1 := for_loop _ _ _ _).
  assert (HP : P (0 + Z.of_nat (Z.to_nat 1024)) m1).
  { apply for_loop_ind; unfold P.
    - split; [done|]. split; [|done]. intros q t. cbn. rewrite elem_of_nil. tauto.
    - intros j m' Hj (H1 & H2 & H3). rewrite Hroot by done.
      assert (Hdp : page dir) by (apply Hpg; right; by left).
      pose proof (page_top _ Hdp). destruct Hdp. rewrite word_at_id by lia.
      rewrite (Hword _ dir); [|done|right; by left|lia].
      destruct (lookup_lt_is_Some_2 ts (Z.to_nat j)) as [t Ht]; [lia|].
      pose proof (Htab _ _ Ht) as E. rewrite Z2Nat.id in E by lia.
      unfold dir_table, dir_entry in E. rewrite E.
      apply (free_page _ _ _ (take (Z.to_nat j) ts)); try done.
      + apply Hlive. do 2 right. by eapply list_elem_of_lookup_2.
      + intros (i & Hi)%list_elem_of_lookup_1. apply lookup_take_Some in Hi as [Hi Hlt].
        enough (i = Z.to_nat j) by lia. by eapply (NoDup_lookup ts).
      + rewrite Z2Nat.inj_add by lia. change (Z.to_nat 1) with 1%nat. rewrite Nat.add_1_r.
        by apply take_S_r. }
  destruct HP as (H1 & H2 & H3). change (Z.to_nat (0 + Z.of_nat (Z.to_nat 1024))) with (Z.to_nat 1024) in H2.
  rewrite take_ge in H2 by lia. rewrite Hroot by done.
  destruct (free_page m1 m (ts ++ [dir]) ts dir H1) as (H4 & H5 & H6); try done.
  { apply Hlive. right. by left. }
  destruct (free_page (ka_free dir m1) m ((ts ++ [dir]) ++ [obj]) (ts ++ [dir]) obj H4)
    as (H7 & H8 & H9); try done.
  - apply Hlive. by left.
  - rewrite elem_of_app, list_elem_of_singleton. rewrite elem_of_cons in Hobj_in. tauto.
  - split; [done|]. split; [|done]. intros q t.
    rewrite H8, !elem_of_app, !list_elem_of_singleton, !elem_of_cons. tauto.
Qed.

End heap_client.

(** ** Properties *)

(** A fresh address space is the identity: [create_new_page_directory] makes a
    directory whose 1026 pages are fresh, distinct, live heap blocks, whose
    directory entries carry [flags] and the writable bit, whose page entries
    carry [flags], and under which every 32-bit address translates to
    itself; blocks that were live stay live with their bytes. *)
Theorem create_identity `{KAllocator} m flags :
  0 <= flags < 256 -> heap_ok m -> room m 1026 ->
  let '(obj, m') := create_new_page_directory flags m in
  exists ts, dir_owned m' obj (get_page_directory_entry obj m') ts /\ heap_ok m' /\
    (forall i, 0 <= i < 1024 ->
       Z.land (dir_entry m' (get_page_directory_entry obj m') i) 4095 = Z.lor flags 2) /\
    (forall v, page v -> paging_get (get_page_directory_entry obj m') v m' = Z.lor v flags) /\
    (forall v, 0 <= v < 4294967296 ->
       paging_get_physical_address (get_page_directory_entry obj m') v m' = v) /\
    (forall q s, live m q s -> live m' q s /\ bytes m' q (Z.to_nat s) = bytes m q (Z.to_nat s)).
Proof.
  intros Hf Hok Hroom.
  destruct (create_spec m flags 0 Hf Hok Hroom)
    as (obj & m' & dir & ts & -> & Hown & Hok' & _ & Hlow & Hpte & Hlv & Hfr & Ho).
  pose proof (dir_owned_wf _ _ _ _ Hown) as Hw.
  assert (Edir : get_page_directory_entry obj m' = dir).
  { unfold get_page_directory_entry, directory_entry_offset. rewrite Z.add_0_r. apply Hown. }
  rewrite Edir. exists ts. repeat (split; [done|]). split; [|split].
  - intros v Hv. rewrite paging_get_pte by done. by apply Hpte.
  - intros v Hv. destruct (lower_page v Hv) as [_ Hp].
    rewrite translate_pte, Hpte, land_page_lor by (done || lia). rewrite u32_id by lia. lia.
  - intros q s Hq. split; [apply Hlv; by left|].
    apply bytes_ext. intros b Hb. destruct (live_block _ _ _ Hq) as (_ & _ & Hm).
    apply Ho; [apply Hm; lia|]. intros p Hp.
    assert (Hq' : live m' q s) by (apply Hlv; by left).
    destruct (live_disjoint m' q s p 4096 Hq') as [[-> ->]|[?|?]]; [by apply Hown| |lia|lia].
    by apply Hfr in Hq.
Qed.

(** C30. Creating an address space and releasing it leaves the heap as it was:
    [paging_free_4gb] releases exactly the 1026 blocks
    [create_new_page_directory] took, and every block that was live before is
    live after with the same bytes. *)
Theorem create_free_restores `{KAllocator} m flags :
  0 <= flags < 256 -> heap_ok m -> room m 1026 ->
  let '(obj, m1) := create_new_page_directory flags m in
  let m2 := paging_free_4gb obj m1 in
  heap_ok m2 /\ (forall q s, live m2 q s <-> live m q s) /\
  (forall q s, live m q s -> bytes m2 q (Z.to_nat s) = bytes m q (Z.to_nat s)).
Proof.
  intros Hf Hok Hroom.
  destruct (create_spec m flags 0 Hf Hok Hroom)
    as (obj & m' & dir & ts & -> & Hown & Hok' & _ & _ & _ & Hlv & Hfr & Ho).
  destruct (free_4gb_spec m' obj dir ts Hok' Hown) as (H1 & H2 & H3).
  split; [done|]. split.
  - intros q s. rewrite H2, Hlv. split; [intros [[?|[? _]] ?]; [done|by exfalso]|].
    intros Hq. split; [by left|by eapply Hfr].
  - intros q s Hq. apply bytes_ext. intros b Hb.
    destruct (live_block _ _ _ Hq) as (_ & _ & Hm).
    rewrite H3 by (apply Hm; lia). apply Ho; [apply Hm; lia|]. intros p Hp.
    assert (Hq' : live m' q s) by (apply Hlv; by left).
    destruct (live_disjoint m' q s p 4096 Hq') as [[-> ->]|[?|?]]; [by apply Hown| |lia|lia].
    by apply Hfr in Hq.
Qed.

(** C29. [paging_map_to] maps exactly the pages of the range: for aligned
    arguments in order, with the virtual range inside the address space, it
    succeeds, page [virt + d] gets the entry [phys + d | flags] for every
    page offset [d] of the range, every other page keeps its entry, the
    directory stays well formed, and no byte outside its tables changes. *)
Theorem paging_map_to_maps m dir virt phys phys_end flags :
  dir_wf m dir -> page virt -> page phys -> page phys_end -> phys <= phys_end ->
  virt + (phys_end - phys) <= 4294967296 ->
  let '(res, m') := paging_map_to dir virt phys phys_end flags m in
  res = 0 /\ dir_wf m' dir /\
  (forall w, page w -> paging_get dir w m' =
     if (virt <=? w) && (w <? virt + (phys_end - phys))
     then u32 (Z.lor (phys + (w - virt)) flags) else paging_get dir w m) /\
  (forall a, (forall i, 0 <= i < 1024 ->
     a < dir_table m dir i \/ dir_table m dir i + 4096 <= a) -> rd m' a = rd m a).
Proof.
  intros Hw Hv Hp He Hle Hb.
  destruct (paging_map_to_pages m dir virt phys phys_end flags)
    as (m' & -> & Hw' & _ & Hpt & Ho); try done.
  repeat (split; [done|]). split; [|done]. intros w Hwp.
  rewrite !paging_get_pte, Hpt by done. unfold mapped.
  destruct Hp, He. replace ((phys_end - phys) / 4096 * 4096) with (phys_end - phys) by dlia.
  done.
Qed.

(** [paging_map_to] checks all its arguments before it touches memory: it
    refuses an unaligned [virt], [phys] or [phys_end] and an end below the
    start with [-EINVARG] and memory unchanged, and it refuses nothing else:
    on every other argument it returns 0. *)
Theorem paging_map_to_rejects m dir virt phys phys_end flags :
  0 <= virt < 4294967296 -> 0 <= phys < 4294967296 ->
  if (virt mod 4096 =? 0) && (phys mod 4096 =? 0) && (phys_end mod 4096 =? 0) &&
     (phys <=? phys_end)
  then fst (paging_map_to dir virt phys phys_end flags m) = 0
  else paging_map_to dir virt phys phys_end flags m = (- EINVARG, m).
Proof.
  intros Hvr Hpr. unfold paging_map_to, PAGE_SIZE.
  destruct (Z.eqb_spec (virt mod 4096) 0) as [Hv|]; [|done].
  destruct (Z.eqb_spec (phys mod 4096) 0) as [Hp|]; [|done].
  destruct (Z.eqb_spec (phys_end mod 4096) 0); [|done].
  destruct (Z.leb_spec phys phys_end), (Z.ltb_spec phys_end phys); try lia; [|done].
  cbn [negb andb]. apply map_range_returns; by split.
Qed.

(** Reading an entry back: after [paging_set] on a page, [paging_get] of
    that page is the value stored (as 32 bits) and [paging_get] of any other
    page is what it was; an unaligned address is refused with [-EINVARG] and
    memory unchanged. *)
Theorem paging_set_get m dir v val :
  dir_wf m dir -> 0 <= v < 4294967296 ->
  let '(res, m') := paging_set dir v val m in
  if v mod 4096 =? 0
  then res = 0 /\ dir_wf m' dir /\
       forall w, page w -> paging_get dir w m' = if w =? v then u32 val else paging_get dir w m
  else res = - EINVARG /\ m' = m.
Proof.
  intros Hw Hv. destruct (Z.eqb_spec (v mod 4096) 0) as [Ha|Ha].
  - destruct (paging_set_spec m dir v val Hw) as (m' & -> & Hw' & _ & Hp & _); [by split|].
    split; [done|]. split; [done|]. intros w Hwp. by rewrite !paging_get_pte, Hp.
  - unfold paging_set, is_page_aligned, PAGE_SIZE.
    by destruct (Z.eqb_spec (v mod 4096) 0).
Qed.

(** Translation follows the mapping: after a successful [paging_map_to]
    with flag bits below a page, every byte address of the virtual range
    translates to the byte at the same offset of the physical range. *)
Theorem paging_map_to_translates m dir virt phys phys_end flags v :
  dir_wf m dir -> page virt -> page phys -> page phys_end -> phys <= phys_end ->
  virt + (phys_end - phys) <= 4294967296 -> 0 <= flags < 4096 ->
  virt <= v < virt + (phys_end - phys) ->
  paging_get_physical_address dir v (snd (paging_map_to dir virt phys phys_end flags m)) =
    phys + (v - virt).
Proof.
  intros Hw Hv Hp He Hle Hb Hf Hr.
  destruct (paging_map_to_pages m dir virt phys phys_end flags)
    as (m' & -> & Hw' & _ & Hpt & _); try done.
  cbn [snd]. destruct Hv as [Hv1 Hv2], Hp as [Hp1 Hp2], He as [He1 He2].
  assert (Hv : 0 <= v < 4294967296) by lia. destruct (lower_page v Hv) as [_ Hpage].
  rewrite translate_pte, Hpt by done. unfold mapped.
  replace ((phys_end - phys) / 4096 * 4096) with (phys_end - phys) by dlia.
  assert (v - v mod 4096 >= virt) by dlia.
  destruct (Z.leb_spec virt (v - v mod 4096)); [|lia].
  destruct (Z.ltb_spec (v - v mod 4096) (virt + (phys_end - phys))); [|dlia]. cbn [andb].
  assert (Hpp : page (phys + (v - v mod 4096 - virt))) by (split; dlia).
  destruct Hpp as [Hpp1 Hpp2].
  rewrite u32_lor, (u32_id flags), (u32_id (phys + _)) by lia.
  rewrite land_page_lor by (done || by split). rewrite u32_id by dlia. lia.
Qed.

(** Rounding: [paging_align_to_lower_page] is the greatest page address
    not above its argument, and [paging_align_address] the least one not
    below it, except in the last page of the address space, where it wraps
    to 0. *)
Theorem paging_alignment a :
  0 <= a < 4294967296 ->
  page (paging_align_to_lower_page a) /\
  paging_align_to_lower_page a <= a < paging_align_to_lower_page a + 4096 /\
  page (paging_align_address a) /\
  (if a <=? 4294963200 then a <= paging_align_address a < a + 4096
   else paging_align_address a = 0).
Proof.
  intros Ha. destruct (lower_page a Ha) as [E Hp]. rewrite E. split; [done|].
  split; [dlia|]. unfold paging_align_address, PAGE_SIZE, page, u32.
  destruct (Z.eqb_spec (a mod 4096) 0), (Z.leb_spec a 4294963200); cbn [negb]; repeat split; dlia.
Qed.

(** ** Witnesses *)

(** The kernel's first address space, made from an empty heap with the flags
    of [kernel_main]. *)
Definition first_space : Z * mem := create_new_page_directory 7 ∅.

Lemma create_identity_witness :
  let '(obj, m') := create_new_page_directory 7 ∅ in
  exists ts, dir_owned m' obj (get_page_directory_entry obj m') ts /\ heap_ok m' /\
    (forall i, 0 <= i < 1024 ->
       Z.land (dir_entry m' (get_page_directory_entry obj m') i) 4095 = Z.lor 7 2) /\
    (forall v, page v -> paging_get (get_page_directory_entry obj m') v m' = Z.lor v 7) /\
    (forall v, 0 <= v < 4294967296 ->
       paging_get_physical_address (get_page_directory_entry obj m') v m' = v) /\
    (forall q s, live ∅ q s -> live m' q s /\ bytes m' q (Z.to_nat s) = bytes ∅ q (Z.to_nat s)).
Proof.
  apply (create_identity ∅ 7); [lia|exact (kernel_empty_ok)|apply kernel_empty_room; lia].
Defined.

Lemma create_free_restores_witness :
  let '(obj, m1) := create_new_page_directory 7 ∅ in
  let m2 := paging_free_4gb obj m1 in
  heap_ok m2 /\ (forall q s, live m2 q s <-> live ∅ q s) /\
  (forall q s, live ∅ q s -> bytes m2 q (Z.to_nat s) = bytes ∅ q (Z.to_nat s)).
Proof.
  apply (create_free_restores ∅ 7); [lia|exact (kernel_empty_ok)|apply kernel_empty_room; lia].
Defined.

Lemma first_space_wf : exists dir ts, dir_owned (snd first_space) (fst first_space) dir ts.
Proof.
  unfold first_space.
  destruct (create_spec ∅ 7 0) as (obj & m' & dir & ts & -> & Hown & _);
    [lia|exact (kernel_empty_ok)|apply kernel_empty_room; lia|]. by exists dir, ts.
Qed.

Lemma paging_set_get_witness :
  exists dir, dir_wf (snd first_space) dir /\
    let '(res, m') := paging_set dir 0x400000 0x12345 (snd first_space) in
    res = 0 /\ dir_wf m' dir /\ forall w, page w -> paging_get dir w m' =
      if w =? 0x400000 then u32 0x12345 else paging_get dir w (snd first_space).
Proof.
  destruct first_space_wf as (dir & ts & Hown). apply dir_owned_wf in Hown. exists dir.
  split; [done|]. apply (paging_set_get (snd first_space) dir 0x400000 0x12345); [done|lia].
Defined.

Lemma paging_map_to_maps_witness :
  exists dir, dir_wf (snd first_space) dir /\
    let '(res, m') := paging_map_to dir 0x400000 0x1000000 0x1003000 7 (snd first_space) in
    res = 0 /\ dir_wf m' dir /\
    (forall w, page w -> paging_get dir w m' =
       if (0x400000 <=? w) && (w <? 0x400000 + (0x1003000 - 0x1000000))
       then u32 (Z.lor (0x1000000 + (w - 0x400000)) 7) else paging_get dir w (snd first_space)) /\
    (forall a, (forall i, 0 <= i < 1024 ->
       a < dir_table (snd first_space) dir i \/ dir_table (snd first_space) dir i + 4096 <= a) ->
       rd m' a = rd (snd first_space) a).
Proof.
  destruct first_space_wf as (dir & ts & Hown). apply dir_owned_wf in Hown. exists dir.
  split; [done|].
  apply (paging_map_to_maps (snd first_space) dir 0x400000 0x1000000 0x1003000 7);
    [done|split; done|split; done|split; done|lia|lia].
Defined.

Lemma paging_map_to_rejects_witness :
  paging_map_to 0x1000 0x400000 0x2000 0x1000 7 ∅ = (- EINVARG, ∅).
Proof. apply (paging_map_to_rejects ∅ 0x1000 0x400000 0x2000 0x1000 7); lia. Defined.

Lemma paging_map_to_translates_witness :
  exists dir, dir_wf (snd first_space) dir /\
    paging_get_physical_address dir 0x401234
      (snd (paging_map_to dir 0x400000 0x1000000 0x1003000 7 (snd first_space))) = 0x1001234.
Proof.
  destruct first_space_wf as (dir & ts & Hown). apply dir_owned_wf in Hown. exists dir.
  split; [done|].
  apply (paging_map_to_translates (snd first_space) dir 0x400000 0x1000000 0x1003000 7 0x401234);
    [done|split; done|split; done|split; done|lia|lia|lia|lia].
Defined.

Lemma paging_alignment_witness :
  page (paging_align_to_lower_page 0x12345) /\
  paging_align_to_lower_page 0x12345 <= 0x12345 < paging_align_to_lower_page 0x12345 + 4096 /\
  page (paging_align_address 0x12345) /\ 0x12345 <= paging_align_address 0x12345 < 0x12345 + 4096.
Proof. apply (paging_alignment 0x12345). lia. Defined.
