(* ===== verification/Terminal.v ===== *)
(** * The text terminal: the screen half of [src/kernel/kernel.c]

    The globals [video_mem], [terminal_row], [terminal_col] and the routines
    that write the VGA text buffer, down to [print] and [panic].  The
    abstract view is a linear [screen]: a cursor counting character cells and
    the contents of every cell; [terminal_repr] relates the two, and
    [print] refines a left fold of [put] over the string. *)
From S2P Require Import Prelude Memory CString.

(** ** Data *)

Definition VGA_WIDTH : Z := 80.
Definition VGA_HEIGHT : Z := 20.

(** The component's globals, with the memory the video buffer is part of. *)
Record terminal : Type := {
  video_mem : Z;
  terminal_row : Z;
  terminal_col : Z;
  memory : mem }.

Definition set_cursor (row col : Z) (t : terminal) : terminal :=
  {| video_mem := video_mem t; terminal_row := u16 row; terminal_col := u16 col;
     memory := memory t |}.

(** A [const char *] argument: what the pointer shows in a given memory.
    [ptr p] points into memory; [lit l] is a string literal of the kernel
    image, which the modelled code never writes. *)
Definition cptr : Type := mem -> cbuf.
Definition ptr (p : Z) : cptr := fun m => at_mem m p.
Definition lit (l : list Z) : cptr := fun _ => at_list l.

(** The bytes of a literal. *)
Fixpoint codes (s : string) : list Z :=
  match s with
  | EmptyString => []
  | String a s' => Z.of_N (Ascii.N_of_ascii a) :: codes s'
  end.

(** ** Operations *)

(** [c] and [color] are (signed) [char]s. *)
Definition terminal_make_char (c color : Z) : Z := u16 (Z.lor (Z.shiftl color 8) c).

Definition terminal_putchar (x y c color : Z) (t : terminal) : terminal :=
  {| video_mem := video_mem t; terminal_row := terminal_row t; terminal_col := terminal_col t;
     memory := st16 (memory t) (video_mem t + 2 * (y * VGA_WIDTH + x))
                 (terminal_make_char c color) |}.

Definition terminal_backspace (t : terminal) : terminal :=
  if (terminal_row t =? 0) && (terminal_col t =? 0) then t
  else
    let t1 := if terminal_col t =? 0 then set_cursor (terminal_row t - 1) VGA_WIDTH t else t in
    let t2 := set_cursor (terminal_row t1) (terminal_col t1 - 1) t1 in
    terminal_putchar (terminal_col t2) (terminal_row t2) 32 15 t2.

Definition terminal_writechar (c color : Z) (t : terminal) : terminal :=
  if c =? 10 then set_cursor (terminal_row t + 1) 0 t
  else if c =? 0x08 then terminal_backspace t
  else
    let t1 := terminal_putchar (terminal_col t) (terminal_row t) c color t in
    let t2 := set_cursor (terminal_row t1) (terminal_col t1 + 1) t1 in
    if VGA_WIDTH <=? terminal_col t2 then set_cursor (terminal_row t2 + 1) 0 t2 else t2.

(** The screen is cleared row by row, with colour 0. *)
Definition terminal_initialize (t : terminal) : terminal :=
  let t0 := {| video_mem := 0xB8000; terminal_row := 0; terminal_col := 0;
               memory := memory t |} in
  for_loop (Z.to_nat VGA_HEIGHT) 0
    (fun y t => for_loop (Z.to_nat VGA_WIDTH) 0 (fun x t => terminal_putchar x y 32 0 t) t) t0.

(** The length is computed once; the characters are read as they are when
    their turn comes. *)
Definition print_loop (len : Z) (str : cptr) (t : terminal) : terminal :=
  for_loop (Z.to_nat len) 0
    (fun i t => terminal_writechar (i8 (str (memory t) i)) 15 t) t.
Definition print (fuel : nat) (str : cptr) : M terminal unit :=
  fun t =>
    match strlen fuel (str (memory t)) with
    | None => NoFuel
    | Some len => Ret tt (print_loop len str t)
    end.

(** The kernel's last words: print and spin. *)
Definition panic {A} (fuel : nat) (msg : cptr) : M terminal A := print fuel msg ;;; hang.

(** ** The abstract screen *)

Record screen : Type := {
  cursor : Z;
  cell : Z -> Z }.

Definition set_cell (p v : Z) (s : screen) : Z -> Z := fun q => if q =? p then v else cell s q.

(** One character on the screen: a newline moves to the next row, a
    backspace blanks the previous cell, and anything else is drawn at the
    cursor, white on black. *)
Definition put (s : screen) (c : Z) : screen :=
  if c =? 10 then {| cursor := 80 * (cursor s / 80 + 1); cell := cell s |}
  else if c =? 8 then
    if cursor s =? 0 then s
    else {| cursor := cursor s - 1; cell := set_cell (cursor s - 1) 0x0F20 s |}
  else {| cursor := cursor s + 1; cell := set_cell (cursor s) (0x0F00 + c) s |}.

(** [t] shows [s]; memory outside the cells below [bound] is that of [m0]. *)
Record terminal_repr (m0 : mem) (v bound : Z) (t : terminal) (s : screen) : Prop := {
  tr_video : video_mem t = v;
  tr_col : 0 <= terminal_col t < 80;
  tr_row : 0 <= terminal_row t;
  tr_cursor : cursor s = 80 * terminal_row t + terminal_col t;
  tr_cell : forall p, ld16 (memory t) (v + 2 * p) = cell s p;
  tr_frame : forall a, a < v \/ v + 2 * bound <= a -> rd (memory t) a = rd m0 a }.

(** The screen a terminal shows. *)
Definition shows (t : terminal) : screen :=
  {| cursor := 80 * terminal_row t + terminal_col t;
     cell := fun p => ld16 (memory t) (video_mem t + 2 * p) |}.

(** ** Lemmas *)

Lemma make_char_ascii c : 0 <= c < 128 -> terminal_make_char c 15 = 0x0F00 + c.
Proof.
  intros Hc. unfold terminal_make_char. change (Z.shiftl 15 8) with 3840.
  rewrite (lor_disjoint 8) by (done || (cbn; lia)). apply u16_id. lia.
Qed.

(** Projections of the terminal after an update. *)
Ltac tcbn :=
  cbn [video_mem terminal_row terminal_col memory set_cursor terminal_putchar cursor cell].

Ltac u16s := repeat (rewrite u16_id by (repeat rewrite u16_id by lia; lia)).

(** One character. *)
Lemma writechar_put m0 v bound t s c :
  terminal_repr m0 v bound t s -> 0 <= c < 128 -> cursor s < bound -> cursor s < 80 * 65535 ->
  terminal_repr m0 v bound (terminal_writechar c 15 t) (put s c).
Proof.
  intros [Hv Hc Hr Hp Hcell Hf] Hch Hb Hb2.
  assert (Hcell' : forall p q w, ld16 (st16 (memory t) (v + 2 * p) w) (v + 2 * q) =
    if q =? p then u16 w else cell s q).
  { intros p q w. destruct (Z.eqb_spec q p) as [->|Hne]; [apply ld16_st16_eq|].
    rewrite ld16_st16_ne by lia. apply Hcell. }
  unfold terminal_writechar, put. destruct (Z.eqb_spec c 10) as [->|H10].
  { split; tcbn; try done; rewrite ?u16_id by lia; try lia. dlia. }
  destruct (Z.eqb_spec c 8) as [->|H8].
  - unfold terminal_backspace.
    destruct (Z.eqb_spec (cursor s) 0) as [Hz|Hz].
    + destruct (Z.eqb_spec (terminal_row t) 0), (Z.eqb_spec (terminal_col t) 0); try lia.
      by split.
    + destruct (Z.eqb_spec (terminal_col t) 0) as [Hc0|Hc0].
      * destruct (Z.eqb_spec (terminal_row t) 0); [lia|]. cbn [andb].
        split; tcbn; unfold VGA_WIDTH; rewrite ?Hv; u16s; try lia.
        -- intros p. replace ((terminal_row t - 1) * 80 + (80 - 1)) with (cursor s - 1) by lia.
           rewrite Hcell'. unfold set_cell. by destruct (p =? cursor s - 1).
        -- intros a Ha. rewrite rd_st16_ne; [by apply Hf|lia].
      * rewrite andb_false_r.
        split; tcbn; unfold VGA_WIDTH; rewrite ?Hv; u16s; try lia.
        -- intros p. replace (terminal_row t * 80 + (terminal_col t - 1)) with (cursor s - 1) by lia.
           rewrite Hcell'. unfold set_cell. by destruct (p =? cursor s - 1).
        -- intros a Ha. rewrite rd_st16_ne; [by apply Hf|lia].
  - unfold VGA_WIDTH. cbn [set_cursor terminal_putchar terminal_col terminal_row].
    rewrite (u16_id (terminal_col t + 1)) by lia. rewrite (u16_id (terminal_row t)) by lia.
    assert (E : terminal_row t * 80 + terminal_col t = cursor s) by lia.
    destruct (Z.leb_spec 80 (terminal_col t + 1)).
    all: split; tcbn; unfold VGA_WIDTH; rewrite ?Hv, ?E, ?u16_id by lia; try lia.
    1,3: intros p; rewrite Hcell', make_char_ascii, u16_id by lia; unfold set_cell;
      by destruct (p =? cursor s).
    all: intros a Ha; rewrite rd_st16_ne; [by apply Hf|lia].
Qed.

Lemma put_cursor s c : 0 <= cursor s -> 0 <= cursor (put s c) <= cursor s + 80.
Proof.
  intros H. unfold put. zcases; cbn [cursor]; try lia. dlia.
Qed.

Lemma print_loop_put m0 v bound str l : forall n t s,
  terminal_repr m0 v bound t s -> 0 <= cursor s ->
  Forall (fun c => 0 < c < 128) l -> n = length l ->
  cursor s + 80 * Z.of_nat n <= bound -> bound <= 80 * 65535 ->
  (forall t', terminal_repr m0 v bound t' (shows t') ->
     forall i, 0 <= i < Z.of_nat n -> str (memory t') i = default 0 (l !! Z.to_nat i)) ->
  terminal_repr m0 v bound (print_loop (Z.of_nat n) str t) (fold_left put l s).
Proof.
  intros n t s Ht Hs Hl -> Hb Hb2 Hstr. unfold print_loop. rewrite Nat2Z.id.
  pose (P := fun i t' => exists s', s' = fold_left put (take (Z.to_nat i) l) s /\
    terminal_repr m0 v bound t' s' /\ 0 <= cursor s' <= cursor s + 80 * i).
  enough (HP : P (0 + Z.of_nat (length l)) (for_loop (length l) 0
    (fun i t => terminal_writechar (i8 (str (memory t) i)) 15 t) t)).
  { destruct HP as (s' & E & HP & _). rewrite Z.add_0_l, Nat2Z.id, take_ge in E by lia.
    by rewrite <- E. }
  apply for_loop_ind; unfold P.
  - exists s. split; [done|]. split; [done|lia].
  - intros j t' Hj (s' & E & Hrep & Hcur).
    destruct (lookup_lt_is_Some_2 l (Z.to_nat j)) as [c Hc]; [lia|].
    assert (Hrep' : terminal_repr m0 v bound t' (shows t'))
      by (destruct Hrep as [Hv ? ? ? ? ?]; split; try done; intros; cbn; by rewrite Hv).
    rewrite (Hstr t' Hrep') by lia. rewrite Hc. change (default 0 (Some c)) with c.
    assert (Hcb : 0 < c < 128) by (rewrite Forall_lookup in Hl; by apply (Hl (Z.to_nat j))).
    replace (i8 c) with c by wordlia.
    exists (put s' c). split; [|split].
    + replace (Z.to_nat (j + 1)) with (S (Z.to_nat j)) by lia.
      rewrite (take_S_r _ _ c), fold_left_app by done. cbn. by rewrite <- E.
    + apply writechar_put; try done; lia.
    + pose proof (put_cursor s' c). lia.
Qed.

Lemma clear_row v y t :
  video_mem t = v -> 0 <= y ->
  let t' := for_loop (Z.to_nat VGA_WIDTH) 0 (fun x t => terminal_putchar x y 32 0 t) t in
  video_mem t' = v /\ terminal_row t' = terminal_row t /\ terminal_col t' = terminal_col t /\
  (forall p, ld16 (memory t') (v + 2 * p) =
     if (80 * y <=? p) && (p <? 80 * (y + 1)) then 32 else ld16 (memory t) (v + 2 * p)) /\
  (forall a, a < v + 2 * (80 * y) \/ v + 2 * (80 * (y + 1)) <= a ->
     rd (memory t') a = rd (memory t) a).
Proof.
  intros Hv Hy.
  pose (P := fun x t' => video_mem t' = v /\ terminal_row t' = terminal_row t /\
    terminal_col t' = terminal_col t /\
    (forall p, ld16 (memory t') (v + 2 * p) =
       if (80 * y <=? p) && (p <? 80 * y + x) then 32 else ld16 (memory t) (v + 2 * p)) /\
    (forall a, a < v + 2 * (80 * y) \/ v + 2 * (80 * (y + 1)) <= a ->
       rd (memory t') a = rd (memory t) a)).
  intros t'. replace (80 * (y + 1)) with (80 * y + (0 + Z.of_nat (Z.to_nat 80))) by lia.
  enough (HP : P (0 + Z.of_nat (Z.to_nat 80)) t').
  { destruct HP as (? & ? & ? & ? & HP). repeat (split; [done|]). intros; apply HP; lia. }
  apply for_loop_ind; unfold P.
  - repeat split; try done. intros p. zcases.
  - intros x t2 Hx (E1 & E2 & E3 & E4 & E5). tcbn. repeat (split; [done|]). rewrite E1.
    unfold VGA_WIDTH in *. split.
    + intros p. destruct (decide (p = y * 80 + x)) as [->|Hne].
      * rewrite ld16_st16_eq. change (u16 (terminal_make_char 32 0)) with 32. zcases.
      * rewrite ld16_st16_ne, E4 by lia. zcases.
    + intros a Ha. rewrite rd_st16_ne by lia. by apply E5.
Qed.

(** [print] of the string [l]. *)
Lemma print_spec fuel str l t bound :
  0 <= terminal_col t < 80 -> 0 <= terminal_row t ->
  Forall (fun c => 0 < c < 128) l -> (length l < fuel)%nat ->
  cstr (str (memory t)) l ->
  cursor (shows t) + 80 * Z.of_nat (length l) <= bound -> bound <= 80 * 65535 ->
  (forall m', (forall a, a < video_mem t \/ video_mem t + 2 * bound <= a ->
      rd m' a = rd (memory t) a) -> forall i, 0 <= i < Z.of_nat (length l) -> str m' i = str (memory t) i) ->
  exists t', print fuel str t = Ret tt t' /\
    terminal_repr (memory t) (video_mem t) bound t' (fold_left put l (shows t)).
Proof.
  intros Hc Hr Hl Hfu Hs Hb Hb2 Hst. unfold print. rewrite (strlen_cstr _ l) by done.
  eexists. split; [done|]. apply print_loop_put; try done.
  - cbn [shows cursor]. lia.
  - intros t' [_ _ _ _ _ Hf] i Hi. rewrite Hst by (done || lia).
    replace i with (Z.of_nat (Z.to_nat i)) at 1 by lia. apply cstr_at; [done|lia].
Qed.

(** What is drawn at a cell only depends on the cursor and on the cell. *)
Lemma put_local l : forall s s' , cursor s' = cursor s ->
  cursor (fold_left put l s') = cursor (fold_left put l s) /\
  forall p, cell s' p = cell s p -> cell (fold_left put l s') p = cell (fold_left put l s) p.
Proof.
  induction l as [|c l IH]; intros s s' Hc; [done|]. cbn [fold_left].
  destruct (IH (put s c) (put s' c)) as [H1 H2].
  { unfold put; rewrite Hc; repeat case_bool; done. }
  split; [done|]. intros p Hp. apply H2. unfold put; rewrite Hc; repeat case_bool; cbn [cell]; unfold set_cell;
    try done; by case_bool.
Qed.

(** ** Properties *)

(** C28. [print] refines the abstract screen: on an ASCII string that fits below
    row 65535 and is not itself part of the cells written, it terminates,
    and what the terminal then shows is the fold of [put] over the
    characters (drawing, wrapping at 80 columns, newlines and backspaces
    included); memory outside those cells is unchanged. *)
Theorem print_refines fuel str l t bound :
  0 <= terminal_col t < 80 -> 0 <= terminal_row t ->
  Forall (fun c => 0 < c < 128) l -> (length l < fuel)%nat ->
  cstr (str (memory t)) l ->
  cursor (shows t) + 80 * Z.of_nat (length l) <= bound -> bound <= 80 * 65535 ->
  (forall m', (forall a, a < video_mem t \/ video_mem t + 2 * bound <= a ->
      rd m' a = rd (memory t) a) -> forall i, 0 <= i < Z.of_nat (length l) -> str m' i = str (memory t) i) ->
  exists t', print fuel str t = Ret tt t' /\
    terminal_repr (memory t) (video_mem t) bound t' (fold_left put l (shows t)).
Proof. apply print_spec. Qed.

(** [terminal_initialize] homes the cursor and clears exactly the first 20
    rows of the text buffer at 0xB8000 (the VGA text mode has 25). *)
Theorem terminal_initialize_clears t :
  let t' := terminal_initialize t in
  cursor (shows t') = 0 /\ video_mem t' = 0xB8000 /\
  (forall p, cell (shows t') p =
     if (0 <=? p) && (p <? 1600) then 0x20 else ld16 (memory t) (0xB8000 + 2 * p)) /\
  (forall a, a < 0xB8000 \/ 0xB8000 + 3200 <= a -> rd (memory t') a = rd (memory t) a).
Proof.
  set (t0 := {| video_mem := 0xB8000; terminal_row := 0; terminal_col := 0;
                memory := memory t |}).
  pose (P := fun y t' => video_mem t' = 0xB8000 /\ terminal_row t' = 0 /\ terminal_col t' = 0 /\
    (forall p, ld16 (memory t') (0xB8000 + 2 * p) =
       if (0 <=? p) && (p <? 80 * y) then 32 else ld16 (memory t) (0xB8000 + 2 * p)) /\
    (forall a, a < 0xB8000 \/ 0xB8000 + 3200 <= a -> rd (memory t') a = rd (memory t) a)).
  assert (HP : P (0 + Z.of_nat (Z.to_nat VGA_HEIGHT)) (terminal_initialize t)).
  { unfold terminal_initialize. fold t0. apply for_loop_ind; unfold P.
    - repeat split; try done. intros p. zcases.
    - intros y t1 Hy (E1 & E2 & E3 & E4 & E5). unfold VGA_HEIGHT in Hy.
      pose proof (clear_row 0xB8000 y t1 E1 ltac:(lia)) as HC. cbn zeta in HC.
      destruct HC as (F1 & F2 & F3 & F4 & F5). rewrite F2, F3. repeat (split; [done|]). split.
      + intros p. rewrite F4, E4. zcases.
      + intros a Ha. rewrite F5 by lia. by apply E5. }
  destruct HP as (E1 & E2 & E3 & E4 & E5). cbn [shows cursor cell].
  rewrite E1, E2, E3. split; [done|]. split; [done|]. split; [exact E4|exact E5].
Qed.

(** The terminal never scrolls: from row 1844 on the characters land at and
    above 1 MB, where the kernel image is loaded. *)
Lemma terminal_never_scrolls t c :
  video_mem t = 0xB8000 -> 1844 <= terminal_row t < 65535 -> 0 <= terminal_col t < 80 ->
  0 <= c < 128 -> c <> 10 -> c <> 8 ->
  let a := 0xB8000 + 2 * (80 * terminal_row t + terminal_col t) in
  0x100000 <= a /\ ld16 (memory (terminal_writechar c 15 t)) a = 0x0F00 + c.
Proof.
  intros Hv Hr Hc Hch Hn Hb a. split; [unfold a; lia|].
  unfold terminal_writechar. destruct (Z.eqb_spec c 10), (Z.eqb_spec c 8); try lia.
  assert (E : ld16 (memory (terminal_putchar (terminal_col t) (terminal_row t) c 15 t)) a =
              0x0F00 + c).
  { tcbn. rewrite Hv. unfold a, VGA_WIDTH.
    replace (terminal_row t * 80 + terminal_col t) with (80 * terminal_row t + terminal_col t)
      by lia.
    rewrite ld16_st16_eq, make_char_ascii, u16_id by lia. lia. }
  case_bool; tcbn; exact E.
Qed.

(** ** Witnesses *)

Definition blank_terminal : terminal :=
  {| video_mem := 0xB8000; terminal_row := 2; terminal_col := 79; memory := ∅ |}.

Lemma print_refines_witness :
  exists t', print 10 (lit (codes "Hi!")) blank_terminal = Ret tt t' /\
    terminal_repr ∅ 0xB8000 1000 t' (fold_left put [72; 105; 33] (shows blank_terminal)).
Proof.
  apply (print_refines 10 (lit (codes "Hi!")) [72; 105; 33] blank_terminal 1000);
    cbn; try lia; try done.
  - repeat constructor; lia.
  - split; [|done|repeat constructor; cbv; split; done].
    intros [|[|[|i]]] x; cbn; by intros [= <-].
Defined.
