(* ===== verification/Gdt.v ===== *)
(** * The global descriptor table: [src/gdt/gdt.c]

    Encoding of the kernel's segment records into the 8-byte descriptors the
    processor reads, and the six segments of [kernel.c].  The abstract view
    is the processor's: [seg_base], [seg_limit], [seg_access] decode a
    descriptor. *)
From S2P Require Import Prelude Config Memory CString Terminal.

(** ** Data *)

Record gdt_structured : Type := {
  base : Z;
  limit : Z;
  type : Z }.

(** [sizeof(struct gdt)]. *)
Definition sizeof_gdt : Z := 8.

(** The segments of [kernel.c]; [tss] is the address [kernel_main] stores in
    the last one and [tss_size] its size, 104. *)
Definition tss_size : Z := 104.
Definition kernel_segments (tss : Z) : list gdt_structured :=
  [ {| base := 0; limit := 0; type := 0 |};
    {| base := 0; limit := 0xffffffff; type := 0x9a |};
    {| base := 0; limit := 0xffffffff; type := 0x92 |};
    {| base := 0; limit := 0xffffffff; type := 0xf8 |};
    {| base := 0; limit := 0xffffffff; type := 0xf2 |};
    {| base := tss; limit := tss_size; type := 0xE9 |} ].

(** ** Operations *)

(** [target[i] = v] *)
Definition set_byte (target i v : Z) : M terminal unit :=
  modify (fun t => {| video_mem := video_mem t; terminal_row := terminal_row t;
                      terminal_col := terminal_col t; memory := wr (memory t) (target + i) v |}).
Definition get_byte (target i : Z) : M terminal Z := gets (fun t => rd (memory t) (target + i)).

Definition bad_limit_message : cptr := lit (codes "encodeeGDTEntry: Invlaid Args").

Definition encodeGdtEntry (target : Z) (source : gdt_structured) : M terminal unit :=
  (if (65536 <? limit source) && negb (Z.land (limit source) 0xFFF =? 0xFFF)
   then panic 30 bad_limit_message else ret tt) ;;;
  set_byte target 6 0x40 ;;;
  let! lim :=
    (if 65536 <? limit source
     then set_byte target 6 0xc0 ;;; ret (Z.shiftr (limit source) 12)
     else ret (limit source)) in
  set_byte target 0 (Z.land lim 0xFF) ;;;
  set_byte target 1 (Z.land (Z.shiftr lim 8) 0xFF) ;;;
  let! flags := get_byte target 6 in
  set_byte target 6 (Z.lor flags (Z.land (Z.shiftr lim 16) 0x0F)) ;;;
  set_byte target 2 (Z.land (base source) 0xFF) ;;;
  set_byte target 3 (Z.land (Z.shiftr (base source) 8) 0xFF) ;;;
  set_byte target 4 (Z.land (Z.shiftr (base source) 16) 0xFF) ;;;
  set_byte target 7 (Z.land (Z.shiftr (base source) 24) 0xFF) ;;;
  set_byte target 5 (type source).

(** The loop over [i < total_entries], on the entries themselves. *)
Fixpoint gdt_structured_to_gdt (gdt : Z) (structured_gdt : list gdt_structured)
  : M terminal unit :=
  match structured_gdt with
  | [] => ret tt
  | e :: rest => encodeGdtEntry gdt e ;;; gdt_structured_to_gdt (gdt + sizeof_gdt) rest
  end.

(** ** The processor's view *)

(** The fields of the descriptor at [a]. *)
Definition seg_base (m : mem) (a : Z) : Z :=
  rd m (a + 2) + 256 * rd m (a + 3) + 65536 * rd m (a + 4) + 16777216 * rd m (a + 7).
Definition seg_raw_limit (m : mem) (a : Z) : Z :=
  rd m a + 256 * rd m (a + 1) + 65536 * (rd m (a + 6) mod 16).
(** Granularity: the limit counts 4 KB pages. *)
Definition seg_granular (m : mem) (a : Z) : bool := 128 <=? rd m (a + 6).
Definition seg_limit (m : mem) (a : Z) : Z :=
  if seg_granular m a then seg_raw_limit m a * 4096 + 4095 else seg_raw_limit m a.
Definition seg_access (m : mem) (a : Z) : Z := rd m (a + 5).

(** What an entry may ask for: sizes beyond 64 KB come in whole pages. *)
Definition valid_segment (e : gdt_structured) : Prop :=
  0 <= base e < 4294967296 /\ 0 <= limit e < 4294967296 /\ 0 <= type e < 256 /\
  (65536 < limit e -> limit e mod 4096 = 4095).

(** The descriptor at [a] describes [e]: a 32-bit segment. *)
Definition describes (m : mem) (a : Z) (e : gdt_structured) : Prop :=
  seg_base m a = base e /\ seg_limit m a = limit e /\ seg_access m a = type e /\
  Z.testbit (rd m (a + 6)) 6 = true.

(** ** Lemmas *)

Lemma low_byte x : Z.land x 0xFF = x mod 256.
Proof. change 0xFF with (Z.ones 8). by rewrite Z.land_ones by lia. Qed.
Lemma byte_at x k : 0 <= k -> Z.land (Z.shiftr x k) 0xFF = x / 2 ^ k mod 256.
Proof. intros. by rewrite low_byte, Z.shiftr_div_pow2. Qed.

(** The eight bytes as one memory update. *)
Definition descriptor (m : mem) (a lim flags : Z) (e : gdt_structured) : mem :=
  let m1 := wr (wr (wr m (a + 6) flags) (a + 0) lim) (a + 1) (lim / 256) in
  let m2 := wr m1 (a + 6) (Z.lor (u8 flags) (lim / 65536 mod 16)) in
  wr (wr (wr (wr (wr m2 (a + 2) (base e)) (a + 3) (base e / 256)) (a + 4) (base e / 65536))
    (a + 7) (base e / 16777216)) (a + 5) (type e).

Lemma rd_descriptor_out m a lim flags e b :
  b < a \/ a + 8 <= b -> rd (descriptor m a lim flags e) b = rd m b.
Proof. intros. unfold descriptor. by rewrite !rd_wr_ne by lia. Qed.

Lemma wr_low m a v : wr m a (Z.land v 0xFF) = wr m a v.
Proof. unfold wr. rewrite low_byte. fold (u8 v). by rewrite u8_u8. Qed.
Lemma wr_twice m a v w : wr (wr m a v) a w = wr m a w.
Proof. unfold wr. apply insert_insert_eq. Qed.

Definition with_memory (m : mem) (t : terminal) : terminal :=
  {| video_mem := video_mem t; terminal_row := terminal_row t;
     terminal_col := terminal_col t; memory := m |}.

(** The limit field and the flag nibble [encodeGdtEntry] chooses. *)
Definition lim_of (e : gdt_structured) : Z :=
  if 65536 <? limit e then limit e / 4096 else limit e.
Definition flags_of (e : gdt_structured) : Z := if 65536 <? limit e then 0xc0 else 0x40.

Lemma encode_eq a e t :
  (65536 < limit e -> limit e mod 4096 = 4095) ->
  encodeGdtEntry a e t =
    Ret tt (with_memory (descriptor (memory t) a (lim_of e) (flags_of e) e) t).
Proof.
  intros Hv. unfold encodeGdtEntry, lim_of, flags_of.
  change 0xFFF with (Z.ones 12). rewrite Z.land_ones by lia. change (2 ^ 12) with 4096.
  assert (Hlast : forall m f x y, rd (wr (wr (wr m (a + 6) f) (a + 0) x) (a + 1) y) (a + 6) = u8 f).
  { intros m f x y. rewrite !rd_wr_ne by lia. by rewrite rd_wr_eq. }
  change 0x0F with (Z.ones 4).
  destruct (Z.ltb_spec 65536 (limit e)) as [Hl|Hl].
  - rewrite Hv by done.
    change (Z.eqb _ (Z.ones 12)) with true. cbn [negb andb].
    unfold bind, ret, set_byte, get_byte, modify, gets. tcbn.
    rewrite wr_twice, !Z.land_ones, !wr_low, Hlast, !Z.shiftr_div_pow2 by lia.
    unfold descriptor. by rewrite !(Z.div_div _ 4096).
  - cbn [andb]. unfold bind, ret, set_byte, get_byte, modify, gets. tcbn.
    rewrite !Z.land_ones, !wr_low, Hlast, !Z.shiftr_div_pow2 by lia. done.
Qed.

Lemma descriptor_describes m a e :
  valid_segment e -> describes (descriptor m a (lim_of e) (flags_of e) e) a e.
Proof.
  intros (Hb & Hl & Ht & Hv).
  assert (Hlim : 0 <= lim_of e < 1048576) by (unfold lim_of; case_bool; dlia).
  assert (Hn : 0 <= lim_of e / 65536 mod 16 < 16) by dlia.
  assert (Hf : u8 (flags_of e) = flags_of e /\ flags_of e mod 2 ^ 4 = 0 /\
    (flags_of e = 0x40 \/ flags_of e = 0xc0)) by (unfold flags_of; case_bool; repeat split; tauto).
  destruct Hf as (Hf1 & Hf2 & Hf3).
  set (m' := descriptor m a (lim_of e) (flags_of e) e).
  assert (H6 : rd m' (a + 6) = flags_of e + lim_of e / 65536 mod 16).
  { unfold m', descriptor. rewrite !rd_wr_ne by lia. rewrite rd_wr_eq, Hf1.
    rewrite (lor_disjoint 4) by (done || lia). apply u8_id. lia. }
  assert (H0 : rd m' a = u8 (lim_of e)).
  { unfold m', descriptor. rewrite Z.add_0_r. rewrite !rd_wr_ne by lia. by rewrite rd_wr_eq. }
  assert (H1 : rd m' (a + 1) = u8 (lim_of e / 256)).
  { unfold m', descriptor. rewrite !rd_wr_ne by lia. by rewrite rd_wr_eq. }
  split; [|split; [|split]].
  - unfold seg_base, m', descriptor. rewrite ?rd_wr_eq.
    repeat (rewrite ?rd_wr_eq; rewrite rd_wr_ne by lia). rewrite ?rd_wr_eq. unfold u8. dlia.
  - unfold seg_limit, seg_granular, seg_raw_limit. rewrite H6, H0, H1. unfold u8, lim_of in *.
    unfold flags_of in *. destruct (Z.ltb_spec 65536 (limit e)) as [Hg|Hg].
    + destruct (Z.leb_spec 128 (0xc0 + limit e / 4096 / 65536 mod 16)); [|lia].
      specialize (Hv Hg). dlia.
    + destruct (Z.leb_spec 128 (0x40 + limit e / 65536 mod 16)); [lia|]. dlia.
  - unfold seg_access, m', descriptor. rewrite rd_wr_eq. by apply u8_id.
  - rewrite H6. apply Z.testbit_true; [lia|]. change (2 ^ 6) with 64. destruct Hf3 as [-> | ->]; dlia.
Qed.

Lemma describes_frame m m' a e :
  (forall b, a <= b < a + 8 -> rd m' b = rd m b) -> describes m a e -> describes m' a e.
Proof.
  intros Hf. unfold describes, seg_base, seg_limit, seg_granular, seg_raw_limit, seg_access.
  rewrite !Hf by lia. done.
Qed.

Lemma gdt_loop_spec es : forall gdt t,
  Forall valid_segment es ->
  exists m', gdt_structured_to_gdt gdt es t = Ret tt (with_memory m' t) /\
    (forall i e, es !! i = Some e -> describes m' (gdt + 8 * Z.of_nat i) e) /\
    (forall b, b < gdt \/ gdt + 8 * Z.of_nat (length es) <= b -> rd m' b = rd (memory t) b).
Proof.
  induction es as [|e es IH]; intros gdt t Hv; cbn [gdt_structured_to_gdt].
  - exists (memory t). split; [by destruct t|]. split; [done|]. done.
  - apply list.Forall_cons in Hv as [He Hes].
    rewrite (bind_Ret _ _ _ _ _ (encode_eq gdt e t (proj2 (proj2 (proj2 He))))).
    set (m1 := descriptor (memory t) gdt (lim_of e) (flags_of e) e).
    destruct (IH (gdt + sizeof_gdt) (with_memory m1 t) Hes) as (m' & -> & Hd & Ho).
    exists m'. unfold sizeof_gdt in *. cbn [with_memory memory] in Ho.
    split; [done|]. split.
    + intros [|i] x Hx; cbn [lookup list_lookup] in Hx.
      * injection Hx as <-. rewrite Z.mul_0_r, Z.add_0_r.
        apply (describes_frame m1); [|by apply descriptor_describes].
        intros b Hb. apply Ho. lia.
      * replace (gdt + 8 * Z.of_nat (S i)) with (gdt + 8 + 8 * Z.of_nat i) by lia. by apply Hd.
    + intros b Hb. cbn [length] in Hb. rewrite Ho by lia. apply rd_descriptor_out. lia.
Qed.

(** An entry [encodeGdtEntry] refuses. *)
Definition refused (e : gdt_structured) : Prop :=
  65536 < limit e /\ limit e mod 4096 <> 4095.

Lemma encode_refused a e t : refused e -> exists t', encodeGdtEntry a e t = Hang t'.
Proof.
  intros [Hl Hm]. unfold encodeGdtEntry. change 0xFFF with (Z.ones 12).
  rewrite Z.land_ones by lia. change (2 ^ 12) with 4096. change (Z.ones 12) with 4095.
  destruct (Z.ltb_spec 65536 (limit e)); [|lia].
  destruct (Z.eqb_spec (limit e mod 4096) 4095); [lia|]. cbn [negb andb].
  unfold bind at 1. unfold panic, bind at 1, print, hang.
  replace (strlen 30 (bad_limit_message (memory t))) with (Some 29) by reflexivity. by eexists.
Qed.

(** ** Properties *)

(** C39. The descriptor table is encoded faithfully: for entries with 32-bit
    bases and byte- or page-granular limits, [gdt_structured_to_gdt]
    terminates, descriptor [i] decodes, as the processor reads it, to base,
    limit and access byte of entry [i] as a 32-bit segment, and no byte
    outside the table is written. *)
Theorem gdt_table_encoded gdt es t :
  Forall valid_segment es ->
  exists t', gdt_structured_to_gdt gdt es t = Ret tt t' /\
    (forall i e, es !! i = Some e -> describes (memory t') (gdt + 8 * Z.of_nat i) e) /\
    (forall b, b < gdt \/ gdt + 8 * Z.of_nat (length es) <= b ->
       rd (memory t') b = rd (memory t) b).
Proof.
  intros Hv. destruct (gdt_loop_spec es gdt t Hv) as (m' & -> & Hd & Ho). by eexists.
Qed.

(** An entry whose limit is above 64 KB but not a whole number of pages
    cannot be encoded: the kernel panics on the first such entry, after
    encoding the entries before it. *)
Theorem gdt_panics_on_bad_limit gdt es1 e es2 t :
  Forall valid_segment es1 -> refused e ->
  exists t', gdt_structured_to_gdt gdt (es1 ++ e :: es2) t = Hang t'.
Proof.
  intros Hv He. revert gdt t. induction Hv as [|x es1 Hx _ IH]; intros gdt t;
    cbn [app gdt_structured_to_gdt].
  - destruct (encode_refused gdt e t He) as [t' E]. exists t'. unfold bind. by rewrite E.
  - rewrite (bind_Ret _ _ _ _ _ (encode_eq gdt x t (proj2 (proj2 (proj2 Hx))))). apply IH.
Qed.

(** ** Witnesses *)

Lemma gdt_table_encoded_witness :
  exists t', gdt_structured_to_gdt 0x200000 (kernel_segments 0x201000) blank_terminal = Ret tt t' /\
    (forall i e, kernel_segments 0x201000 !! i = Some e ->
       describes (memory t') (0x200000 + 8 * Z.of_nat i) e) /\
    (forall b, b < 0x200000 \/ 0x200000 + 8 * Z.of_nat 6 <= b ->
       rd (memory t') b = rd (memory blank_terminal) b).
Proof.
  apply (gdt_table_encoded 0x200000 (kernel_segments 0x201000) blank_terminal).
  repeat constructor; cbn; unfold tss_size; try lia; discriminate.
Defined.

Lemma gdt_panics_on_bad_limit_witness :
  exists t', gdt_structured_to_gdt 0x200000
    ([ {| base := 0; limit := 0; type := 0 |} ] ++
     {| base := 0; limit := 0x12345; type := 0x92 |} :: []) blank_terminal = Hang t'.
Proof.
  apply gdt_panics_on_bad_limit.
  - repeat constructor; cbn; lia || discriminate.
  - split; cbn; [lia|discriminate].
Defined.
