(* ===== verification/Disk.v ===== *)
(** * The disk driver and its stream: [src/disk/disk.c], [src/disk/streamer.c]

    The ATA driver talks to a device that is not part of the sources, so the
    device is a parameter: what its status register and its data register
    show after the command registers were written.  [drive_ok] states the
    documented behaviour of a 28-bit LBA drive holding [image].  On top of it:
    the disk object, and the byte stream that cuts reads at sector
    boundaries. *)
From S2P Require Import Prelude Config Memory Heap KHeap.

(** ** Data *)

Definition LIEBE_OS_DISK_TYPE_REAL : Z := 0.
Definition LIEBE_OS_DEFAULT_DISK_ID : Z := 0.

(** A [struct disk *]: null, the address of the one global [disk_obj], or
    anything else. *)
Inductive disk_ptr : Type :=
| disk_null
| disk_obj_ptr
| disk_other (address : Z).

Global Instance disk_ptr_eq_dec : EqDecision disk_ptr.
Proof. solve_decision. Defined.

(** [struct disk]; [filesystem] and [fs_private] are addresses. *)
Record disk : Type := {
  disk_type : Z;
  sector_size : Z;
  disk_id : Z;
  disk_filesystem : Z;
  fs_private : Z }.

Record disk_stream : Type := {
  pos : Z;
  stream_disk : disk_ptr }.

(** The ATA device: after the port writes [cmd], [ata_status cmd b k] is the
    status byte of the [k]-th poll before block [b], and [ata_word cmd b i]
    the [i]-th word read from the data port during block [b]. *)
Record ata_device : Type := {
  ata_status : list (Z * Z) -> Z -> Z -> Z;
  ata_word : list (Z * Z) -> Z -> Z -> Z }.

(** ** The driver *)

(** The port writes of [disk_read_sector], in order. *)
Definition ata_command (lba total : Z) : list (Z * Z) :=
  [ (0x1F6, u8 (Z.lor (Z.shiftr lba 24) 0xE0));
    (0x1F2, u8 total);
    (0x1F3, u8 (Z.land lba 0xFF));
    (0x1F4, u8 (Z.shiftr lba 8));
    (0x1F5, u8 (Z.shiftr lba 16));
    (0x1F7, 0x20) ].

Section driver.
Variable dev : ata_device.
(** Bound on the polls of the busy-wait loop. *)
Variable poll_fuel : nat.

(** [do { } while (!(insb(0x1F7) & 0x08));] *)
Fixpoint ata_wait (n : nat) (cmd : list (Z * Z)) (b k : Z) : bool :=
  match n with
  | O => false
  | S n' =>
    if negb (Z.land (ata_status dev cmd b k) 0x08 =? 0) then true
    else ata_wait n' cmd b (k + 1)
  end.

(** The bytes of one block: 256 words, low byte first. *)
Fixpoint ata_block (n : nat) (cmd : list (Z * Z)) (b i : Z) : list Z :=
  match n with
  | O => []
  | S n' =>
    let w := u16 (ata_word dev cmd b i) in
    w mod 256 :: w / 256 :: ata_block n' cmd b (i + 1)
  end.

Fixpoint ata_blocks (n : nat) (cmd : list (Z * Z)) (b : Z) : option (list Z) :=
  match n with
  | O => Some []
  | S n' =>
    if ata_wait poll_fuel cmd b 0 then
      match ata_blocks n' cmd (b + 1) with
      | Some l => Some (ata_block 256 cmd b 0 ++ l)
      | None => None
      end
    else None
  end.

(** The bytes [disk_read_sector] stores at [buff]; its result is always 0. *)
Definition disk_read_sector (lba total : Z) : option (list Z) :=
  ata_blocks (Z.to_nat total) (ata_command lba total) 0.

Definition disk_get (index : Z) : disk_ptr :=
  if negb (index =? LIEBE_OS_DEFAULT_DISK_ID) then disk_null else disk_obj_ptr.

(** The result and the bytes stored at the buffer. *)
Definition disk_read_block (idisk : disk_ptr) (lba total : Z) : option (Z * list Z) :=
  if negb (bool_decide (idisk = disk_obj_ptr)) then Some (- EIO, [])
  else match disk_read_sector (i32 lba) total with
       | Some l => Some (0, l)
       | None => None
       end.

(** ** The stream *)

(** The stream object lives at the returned address; [None] is the null
    pointer, for a disk that does not exist. *)
Definition sizeof_disk_stream : Z := 8.
Definition get_new_disk_stream `{KAllocator} (id : Z) (m : mem) : option (Z * disk_stream) * mem :=
  match disk_get id with
  | disk_null => (None, m)
  | d =>
    let '(stream_obj, m') := ka_alloc sizeof_disk_stream m in
    (Some (stream_obj, {| pos := 0; stream_disk := d |}), m')
  end.

Definition free_diskstreamer `{KAllocator} (stream_obj : Z) (m : mem) : mem :=
  ka_free stream_obj m.

Definition diskstreamer_seek (p : Z) : M disk_stream Z :=
  modify (fun s => {| pos := p; stream_disk := stream_disk s |}) ;;; ret 0.

(** [for (i = 0; i < n; i++) *out++ = buffer[offset + i];] *)
Definition copy_out (buffer : list Z) (offset n : Z) : list Z :=
  take (Z.to_nat n) (drop (Z.to_nat offset) buffer).

(** The result is the list of bytes stored from [out] on, with the return
    value.  A negative position makes the buffer index negative. *)
Fixpoint diskstreamer_read (fuel : nat) (total : Z) : M disk_stream (list Z * Z) :=
  match fuel with
  | O => nofuel
  | S fuel' =>
    let! s := get in
    let sector := cdiv (pos s) LIEBE_OS_SECTOR_SIZE in
    let offset := cmod (pos s) LIEBE_OS_SECTOR_SIZE in
    let overflow := LIEBE_OS_SECTOR_SIZE <=? offset + total in
    let total_to_read :=
      if overflow then total - (offset + total - LIEBE_OS_SECTOR_SIZE) else total in
    match disk_read_block (stream_disk s) (u32 sector) 1 with
    | None => nofuel
    | Some (res, buffer) =>
      if res <? 0 then ret ([], res)
      else if (offset <? 0) && (0 <? total_to_read) then fault
      else
        let out := copy_out buffer offset total_to_read in
        put {| pos := i32 (pos s + total_to_read); stream_disk := stream_disk s |} ;;;
        if overflow then
          let! r := diskstreamer_read fuel' (total - LIEBE_OS_SECTOR_SIZE) in
          ret (out ++ fst r, snd r)
        else ret (out, res)
    end
  end.

End driver.

(** ** The device's documented behaviour *)

(** The value last seen by port [p]: each port is written once. *)
Fixpoint port (cmd : list (Z * Z)) (p : Z) : Z :=
  match cmd with
  | [] => 0
  | (q, v) :: cmd' => if q =? p then v else port cmd' p
  end.

(** The block address a 28-bit LBA command selects. *)
Definition lba_of (cmd : list (Z * Z)) : Z :=
  port cmd 0x1F3 + 256 * port cmd 0x1F4 + 65536 * port cmd 0x1F5 +
  16777216 * (port cmd 0x1F6 mod 16).

(** The drive holds the bytes [image], becomes ready within the poll bound,
    and serves block [b] of a command from sector [lba + b]. *)
Record drive_ok (dev : ata_device) (poll_fuel : nat) (image : Z -> Z) : Prop := {
  drive_byte : forall a, 0 <= image a < 256;
  drive_ready : forall cmd b, exists k,
    0 <= k < Z.of_nat poll_fuel /\ Z.land (ata_status dev cmd b k) 0x08 <> 0;
  drive_word : forall cmd b i, 0 <= i < 256 ->
    ata_word dev cmd b i =
      image (512 * (lba_of cmd + b) + 2 * i) + 256 * image (512 * (lba_of cmd + b) + 2 * i + 1) }.

(** The [n] bytes of the image at [a]. *)
Definition image_bytes (image : Z -> Z) (a n : Z) : list Z := map image (seqZ a n).

(** ** Lemmas *)

Lemma length_image_bytes image a n : length (image_bytes image a n) = Z.to_nat n.
Proof. unfold image_bytes. by rewrite length_map, length_seqZ. Qed.

Lemma image_bytes_app image a n k :
  0 <= n -> 0 <= k -> image_bytes image a (n + k) = image_bytes image a n ++ image_bytes image (a + n) k.
Proof. intros. unfold image_bytes. by rewrite seqZ_app, map_app. Qed.

Lemma image_bytes_nil image a n : n <= 0 -> image_bytes image a n = [].
Proof. intros. unfold image_bytes. by rewrite seqZ_nil. Qed.

(** A chunk of a sector. *)
Lemma copy_out_image image a n off k :
  0 <= off -> 0 <= k -> off + k <= n ->
  copy_out (image_bytes image a n) off k = image_bytes image (a + off) k.
Proof.
  intros Ho Hk Hn. unfold copy_out.
  replace n with (off + (k + (n - off - k))) by lia.
  rewrite !image_bytes_app by lia.
  rewrite drop_app_length' by (by rewrite length_image_bytes).
  by rewrite take_app_length' by (by rewrite length_image_bytes).
Qed.

Lemma lba_roundtrip lba total : 0 <= lba -> lba_of (ata_command lba total) = lba mod 268435456.
Proof.
  intros Hl. unfold lba_of, ata_command. cbn [port Z.eqb Pos.eqb].
  assert (E : u8 (Z.lor (Z.shiftr lba 24) 0xE0) mod 16 = Z.shiftr lba 24 mod 16).
  { unfold u8. rewrite Z.mod_mod_divide by (by exists 16).
    change 16 with (2 ^ 4). rewrite <- !Z.land_ones by lia.
    rewrite Z.land_lor_distr_l. change (Z.land 0xE0 (Z.ones 4)) with 0. apply Z.lor_0_r. }
  rewrite E. change 0xFF with (Z.ones 8). rewrite Z.land_ones, !Z.shiftr_div_pow2 by lia.
  unfold u8. dlia.
Qed.

Section reads.
Context (dev : ata_device) (poll_fuel : nat) (image : Z -> Z).
Hypothesis Hdrive : drive_ok dev poll_fuel image.

Lemma ata_wait_ready cmd b : ata_wait dev poll_fuel cmd b 0 = true.
Proof.
  destruct (drive_ready _ _ _ Hdrive cmd b) as (k & Hk & Hs).
  enough (H : forall n j, j <= k < j + Z.of_nat n -> ata_wait dev n cmd b j = true)
    by (apply H; lia).
  induction n as [|n IH]; intros j Hj; [lia|]. cbn [ata_wait].
  destruct (Z.eqb_spec (Z.land (ata_status dev cmd b j) 8) 0) as [E|E]; [|done]. cbn [negb].
  apply IH. assert (j <> k) by (intros ->; done). lia.
Qed.

Lemma ata_block_image cmd b n i :
  0 <= i -> i + Z.of_nat n <= 256 ->
  ata_block dev n cmd b i = image_bytes image (512 * (lba_of cmd + b) + 2 * i) (2 * Z.of_nat n).
Proof.
  revert i; induction n as [|n IH]; intros i Hi Hn; cbn [ata_block]; [done|].
  rewrite IH by lia. rewrite (drive_word _ _ _ Hdrive) by lia.
  set (a := 512 * (lba_of cmd + b) + 2 * i).
  pose proof (drive_byte _ _ _ Hdrive a). pose proof (drive_byte _ _ _ Hdrive (a + 1)).
  replace (2 * Z.of_nat (S n)) with (1 + (1 + 2 * Z.of_nat n)) by lia.
  rewrite !(image_bytes_app _ _ 1) by lia. unfold image_bytes at 2 3.
  change (seqZ a 1) with [a]. change (seqZ (a + 1) 1) with [a + 1].
  cbn [map app]. unfold u16. f_equal; [dlia|]. f_equal; [dlia|]. f_equal. unfold a. lia.
Qed.

Lemma read_block_one lba :
  0 <= lba -> disk_read_sector dev poll_fuel lba 1 =
    Some (image_bytes image (512 * (lba mod 268435456)) 512).
Proof.
  intros Hl. unfold disk_read_sector. change (Z.to_nat 1) with 1%nat. cbn [ata_blocks].
  rewrite ata_wait_ready, app_nil_r, ata_block_image, lba_roundtrip by lia.
  do 2 f_equal. lia.
Qed.

(** One sector. *)
Lemma read_sector s :
  0 <= s < 268435456 ->
  disk_read_block dev poll_fuel disk_obj_ptr (u32 s) 1 = Some (0, image_bytes image (512 * s) 512).
Proof.
  intros Hs. unfold disk_read_block. rewrite bool_decide_true by done. cbn [negb].
  rewrite i32_u32, i32_id, read_block_one, Z.mod_small by lia. done.
Qed.

(** One turn of [diskstreamer_read], at a non-negative position. *)
Lemma stream_step fuel p total :
  0 <= p < 2147483648 -> -2147483648 <= p + total < 2147483648 - 512 ->
  let offset := p mod 512 in
  let n := Z.min total (512 - offset) in
  let s := {| pos := p + n; stream_disk := disk_obj_ptr |} in
  diskstreamer_read dev poll_fuel (S fuel) total {| pos := p; stream_disk := disk_obj_ptr |} =
    if 512 <=? offset + total then
      match diskstreamer_read dev poll_fuel fuel (total - 512) s with
      | Ret (l, r) s' => Ret (image_bytes image p n ++ l, r) s'
      | Hang s' => Hang s' | Fault => Fault | NoFuel => NoFuel
      end
    else Ret (image_bytes image p n, 0) s.
Proof.
  intros Hp Ht. cbn zeta. cbn [diskstreamer_read]. unfold bind at 1, get. cbn [pos stream_disk].
  change LIEBE_OS_SECTOR_SIZE with 512. rewrite cdiv_pos, cmod_pos by lia.
  rewrite read_sector by dlia. cbn [Z.ltb Z.compare].
  destruct (Z.ltb_spec (p mod 512) 0); [dlia|]. cbn [andb].
  assert (En : (if 512 <=? p mod 512 + total then total - (p mod 512 + total - 512) else total) =
               Z.min total (512 - p mod 512)) by (case_bool; lia).
  rewrite En. set (n := Z.min total (512 - p mod 512)) in *.
  assert (Hc : copy_out (image_bytes image (512 * (p / 512)) 512) (p mod 512) n =
               image_bytes image p n).
  { destruct (Z.le_ge_cases n 0) as [Hn|Hn].
    - rewrite (image_bytes_nil image p n) by lia. unfold copy_out. by replace (Z.to_nat n) with O by lia.
    - rewrite copy_out_image by dlia. f_equal. dlia. }
  rewrite Hc, i32_id by dlia. unfold put, bind, ret.
  destruct (Z.leb_spec 512 (p mod 512 + total)); [|done].
  by destruct (diskstreamer_read _ _ _ _ _) as [[l r] s'| | |].
Qed.

(** Reads that start on a sector boundary. *)
Lemma stream_aligned fuel : forall p total,
  0 <= p -> p mod 512 = 0 -> 0 <= total -> p + total < 2147483648 - 512 ->
  (Z.to_nat (total / 512) < fuel)%nat ->
  diskstreamer_read dev poll_fuel fuel total {| pos := p; stream_disk := disk_obj_ptr |} =
    Ret (image_bytes image p total, 0) {| pos := p + total; stream_disk := disk_obj_ptr |}.
Proof.
  induction fuel as [|fuel IH]; intros p total Hp Ha Ht Hb Hf; [lia|].
  rewrite stream_step by lia. rewrite Ha.
  destruct (Z.leb_spec 512 (0 + total)) as [Ho|Ho].
  - replace (Z.min total (512 - 0)) with 512 by lia.
    rewrite IH by dlia. rewrite <- image_bytes_app by lia.
    replace (512 + (total - 512)) with total by lia.
    by replace (p + 512 + (total - 512)) with (p + total) by lia.
  - replace (Z.min total (512 - 0)) with total by lia. done.
Qed.

(** Reads that start on a sector boundary or stay inside a sector. *)
Lemma stream_inside fuel p total :
  0 <= p -> 0 <= total -> p + total < 2147483648 - 512 ->
  p mod 512 = 0 \/ p mod 512 + total < 512 -> (Z.to_nat (total / 512) < fuel)%nat ->
  diskstreamer_read dev poll_fuel fuel total {| pos := p; stream_disk := disk_obj_ptr |} =
    Ret (image_bytes image p total, 0) {| pos := p + total; stream_disk := disk_obj_ptr |}.
Proof.
  intros Hp Ht Hb [Ha|Ha] Hf; [by apply stream_aligned|].
  destruct fuel as [|fuel]; [lia|]. rewrite stream_step by lia.
  destruct (Z.leb_spec 512 (p mod 512 + total)); [lia|].
  by replace (Z.min total (512 - p mod 512)) with total by lia.
Qed.

(** Reads that start inside a sector and reach its end. *)
Lemma stream_short fuel p total :
  0 <= p -> 0 < total -> p + total < 2147483648 - 1024 ->
  512 <= p mod 512 + total -> (Z.to_nat (total / 512) + 1 < fuel)%nat ->
  diskstreamer_read dev poll_fuel fuel total {| pos := p; stream_disk := disk_obj_ptr |} =
    Ret (image_bytes image p (Z.max (512 - p mod 512) (total - p mod 512)), 0)
      {| pos := p + total - p mod 512; stream_disk := disk_obj_ptr |}.
Proof.
  intros Hp Ht Hb Ho Hf. destruct fuel as [|fuel]; [lia|]. rewrite stream_step by lia.
  destruct (Z.leb_spec 512 (p mod 512 + total)); [|lia].
  replace (Z.min total (512 - p mod 512)) with (512 - p mod 512) by lia.
  destruct (Z.le_gt_cases 512 total) as [Hl|Hl].
  - rewrite stream_aligned by dlia. rewrite <- image_bytes_app by dlia.
    replace (512 - p mod 512 + (total - 512)) with (Z.max (512 - p mod 512) (total - p mod 512)) by lia.
    by replace (p + (512 - p mod 512) + (total - 512)) with (p + total - p mod 512) by lia.
  - destruct fuel as [|fuel]; [lia|]. rewrite stream_step by dlia.
    replace ((p + (512 - p mod 512)) mod 512) with 0 by dlia.
    destruct (Z.leb_spec 512 (0 + (total - 512))); [lia|].
    rewrite (image_bytes_nil _ (p + _)), app_nil_r by lia.
    replace (Z.max (512 - p mod 512) (total - p mod 512)) with (512 - p mod 512) by lia.
    by replace (p + (512 - p mod 512) + Z.min (total - 512) (512 - 0)) with (p + total - p mod 512) by lia.
Qed.

End reads.

(** ** Properties *)

(** The LBA survives the port encoding: one sector read through the four
    address registers yields exactly the 512 bytes of the addressed sector,
    for every non-negative block number a drive with 28-bit addresses can
    hold; higher numbers alias modulo 2^28, and a disk other than the one
    disk object is refused with [-EIO]. *)
Theorem disk_read_block_sector dev poll_fuel image d lba :
  drive_ok dev poll_fuel image -> 0 <= lba < 2147483648 ->
  disk_read_block dev poll_fuel d lba 1 =
    if bool_decide (d = disk_obj_ptr)
    then Some (0, image_bytes image (512 * (lba mod 268435456)) 512) else Some (- EIO, []).
Proof.
  intros Hd Hl. unfold disk_read_block. case_bool_decide as E; [|done]. cbn [negb].
  rewrite i32_id by lia. rewrite (read_block_one _ _ image) by (done || lia). done.
Qed.

(** C35. A stream read that starts on a sector boundary, or stays strictly
    inside one sector, is correct: it returns 0 with exactly the [total]
    bytes of the disk at the stream's position and advances the position by
    [total], terminating within [total / 512 + 1] recursive calls. *)
Theorem diskstreamer_read_correct dev poll_fuel image fuel p total :
  drive_ok dev poll_fuel image ->
  0 <= p -> 0 <= total -> p + total < 2147483648 - 512 ->
  p mod 512 = 0 \/ p mod 512 + total < 512 -> (Z.to_nat (total / 512) < fuel)%nat ->
  diskstreamer_read dev poll_fuel fuel total {| pos := p; stream_disk := disk_obj_ptr |} =
    Ret (image_bytes image p total, 0) {| pos := p + total; stream_disk := disk_obj_ptr |}.
Proof.
  intros. by apply stream_inside.
Qed.

(** A stream read that starts inside a sector and reaches its end loses
    [p mod 512] bytes: the recursive call asks for [total - 512] bytes
    whatever was copied before.  The bytes delivered are those up to
    [total - p mod 512] (or the rest of the sector, when [total < 512]), and
    the position ends at [p + total - p mod 512], before the data already
    returned when [total] is small. *)
Theorem diskstreamer_read_short dev poll_fuel image fuel p total :
  drive_ok dev poll_fuel image ->
  0 <= p -> 0 < total -> p + total < 2147483648 - 1024 ->
  512 <= p mod 512 + total -> (Z.to_nat (total / 512) + 1 < fuel)%nat ->
  diskstreamer_read dev poll_fuel fuel total {| pos := p; stream_disk := disk_obj_ptr |} =
    Ret (image_bytes image p (Z.max (512 - p mod 512) (total - p mod 512)), 0)
      {| pos := p + total - p mod 512; stream_disk := disk_obj_ptr |}.
Proof.
  intros. by apply stream_short.
Qed.

(** ** Witnesses *)

(** A drive whose byte [a] is [a mod 251], always ready. *)
Definition test_image (a : Z) : Z := a mod 251.
Definition test_drive : ata_device :=
  {| ata_status := fun _ _ _ => 0x58;
     ata_word := fun cmd b i =>
       test_image (512 * (lba_of cmd + b) + 2 * i) +
       256 * test_image (512 * (lba_of cmd + b) + 2 * i + 1) |}.

Lemma test_drive_ok : drive_ok test_drive 1 test_image.
Proof.
  split; [intros; unfold test_image; dlia| |done].
  intros. exists 0. split; [lia|done].
Qed.

Lemma disk_read_block_sector_witness :
  disk_read_block test_drive 1 disk_obj_ptr 3 1 = Some (0, image_bytes test_image (512 * 3) 512).
Proof. apply (disk_read_block_sector test_drive 1 test_image disk_obj_ptr 3); [exact test_drive_ok|lia]. Defined.

Lemma diskstreamer_read_correct_witness :
  diskstreamer_read test_drive 1 3 1000 {| pos := 1024; stream_disk := disk_obj_ptr |} =
    Ret (image_bytes test_image 1024 1000, 0) {| pos := 1024 + 1000; stream_disk := disk_obj_ptr |}.
Proof.
  apply (diskstreamer_read_correct test_drive 1 test_image 3 1024 1000);
    [exact test_drive_ok|lia|lia|lia|by left|cbv; lia].
Defined.

Lemma diskstreamer_read_short_witness :
  diskstreamer_read test_drive 1 3 32 {| pos := 480; stream_disk := disk_obj_ptr |} =
    Ret (image_bytes test_image 480 (Z.max (512 - 480 mod 512) (32 - 480 mod 512)), 0)
      {| pos := 480 + 32 - 480 mod 512; stream_disk := disk_obj_ptr |}.
Proof.
  apply (diskstreamer_read_short test_drive 1 test_image 3 480 32);
    [exact test_drive_ok|lia|lia|lia|dlia|cbv; lia].
Defined.
