(* ===== verification/PathParser.v ===== *)
(** * The path parser: [src/fs/pparser.c]

    A path such as [0:/dir/file.txt] becomes a drive number and a linked list
    of heap-allocated components.  Everything lives in the flat memory: a
    [struct path_root] is two words (drive, first), a [struct path_part] two
    words (string, next).  [split_path] is the reference splitting,
    [parts_repr] relates it to the list in memory, and [path_owned] says which
    heap blocks the result consists of. *)
From S2P Require Import Prelude Config Memory CString Heap KHeap.

(** ** Data *)

Definition sizeof_path_root : Z := 8.
Definition root_drive_no : Z := 0.
Definition root_first : Z := 4.
Definition sizeof_path_part : Z := 8.
Definition part_part : Z := 0.
Definition part_next : Z := 4.

Definition SLASH : Z := 47.

(** The literal [":/"]. *)
Definition colon_slash : cbuf := at_list [58; 47; 0].

(** ** Operations *)

Section operations.
Context `{KAllocator}.

Definition is_valid_path (filename : cbuf) : bool :=
  let len := strnlen filename LIEBE_OS_MAX_PATH_LEN in
  (3 <=? len) && is_digit (i8 (filename 0)) &&
  (memcmp (fun i => filename (1 + i)) colon_slash 2 =? 0).

Definition get_drive_number (path : cbuf) : Z :=
  if negb (is_valid_path path) then - EBADPATH else atoi (i8 (path 0)).

Definition create_root_path (drive_number : Z) (m : mem) : Z * mem :=
  let '(root, m1) := ka_alloc sizeof_path_root m in
  let m2 := st32 m1 (root + root_drive_no) drive_number in
  (root, st32 m2 (root + root_first) 0).

(** [while ( *tmp_path != '/' && *tmp_path != 0x00)]: the final [tmp_path]. *)
Fixpoint copy_part (fuel : nat) (tmp_path path_str idx : Z) (m : mem) : option (Z * mem) :=
  match fuel with
  | O => None
  | S f =>
    if negb (rd m tmp_path =? SLASH) && negb (rd m tmp_path =? 0)
    then copy_part f (tmp_path + 1) path_str (idx + 1) (wr m (path_str + idx) (rd m tmp_path))
    else Some (tmp_path, m)
  end.

(** [None]: the fuel, a bound on the length of the path, is exhausted. *)
Fixpoint create_path_nodes (fuel : nat) (path last_path : Z) (m : mem) : option (Z * mem) :=
  match fuel with
  | O => None
  | S f =>
    if rd m path =? 0 then Some (0, m)
    else
      let '(path_str, m1) := ka_alloc LIEBE_OS_MAX_PATH_LEN m in
      match copy_part fuel path path_str 0 m1 with
      | None => None
      | Some (tmp_path, m2) =>
        let '(part, m3) := ka_alloc sizeof_path_part m2 in
        let m4 := st32 m3 (part + part_part) path_str in
        let m5 := st32 m4 (part + part_next) 0 in
        let m6 := if negb (last_path =? 0) then st32 m5 (last_path + part_next) part else m5 in
        let tmp_path' := if rd m6 tmp_path =? SLASH then tmp_path + 1 else tmp_path in
        match create_path_nodes f tmp_path' part m6 with
        | None => None
        | Some (_, m7) => Some (part, m7)
        end
      end
  end.

(** The second argument of the source, [current_directory_path], is unused. *)
Definition pathparser_parse (fuel : nat) (path : Z) (m : mem) : option (Z * mem) :=
  if negb (is_valid_path (at_mem m path)) then Some (0, m)
  else
    let drive_number := get_drive_number (at_mem m path) in
    let '(root, m1) := create_root_path drive_number m in
    match create_path_nodes fuel (path + 3) 0 m1 with
    | None => None
    | Some (first, m2) => Some (root, st32 m2 (root + root_first) first)
    end.

Fixpoint free_parts (fuel : nat) (part : Z) (m : mem) : option mem :=
  match fuel with
  | O => None
  | S f =>
    if part =? 0 then Some m
    else
      let next_part := ld32 m (part + part_next) in
      let m1 := ka_free (ld32 m (part + part_part)) m in
      free_parts f next_part (ka_free part m1)
  end.

Definition pathparser_free (fuel : nat) (root : Z) (m : mem) : option mem :=
  match free_parts fuel (ld32 m (root + root_first)) m with
  | None => None
  | Some m1 => Some (ka_free root m1)
  end.

End operations.

(** ** Specification *)

(** The component in front, and what follows it. *)
Fixpoint head_part (l : list Z) : list Z :=
  match l with
  | [] => []
  | c :: l' => if c =? SLASH then [] else c :: head_part l'
  end.
Fixpoint tail_part (l : list Z) : list Z :=
  match l with
  | [] => []
  | c :: l' => if c =? SLASH then l' else tail_part l'
  end.

(** Splitting at every slash; a trailing slash ends the last component. *)
Fixpoint split_fuel (n : nat) (l : list Z) : list (list Z) :=
  match n, l with
  | O, _ | _, [] => []
  | S n', _ => head_part l :: split_fuel n' (tail_part l)
  end.
Definition split_path (l : list Z) : list (list Z) := split_fuel (length l) l.

(** A node of the list: its address, its string's address, its string. *)
Definition node : Type := Z * Z * list Z.

Fixpoint parts_repr (m : mem) (first : Z) (ns : list node) : Prop :=
  match ns with
  | [] => first = 0
  | (n, s, l) :: ns' =>
    first = n /\ n <> 0 /\ ld32 m (n + part_part) = s /\ cstr (at_mem m s) l /\
    parts_repr m (ld32 m (n + part_next)) ns'
  end.

(** The heap blocks of a list of nodes. *)
Fixpoint node_blocks (ns : list node) : list Z :=
  match ns with
  | [] => []
  | (n, s, _) :: ns' => n :: s :: node_blocks ns'
  end.

(** ** Lemmas: splitting *)

Lemma split_parts l :
  head_part l = l /\ tail_part l = [] /\ SLASH ∉ l \/
  l = head_part l ++ SLASH :: tail_part l.
Proof.
  induction l as [|c l IH]; cbn [head_part tail_part].
  - left. split; [done|]. split; [done|]. apply not_elem_of_nil.
  - destruct (Z.eqb_spec c SLASH) as [->|Hc]; [by right|].
    destruct IH as [(E1 & E2 & E3)|IH]; [left|right; by rewrite <- app_comm_cons, <- IH].
    rewrite E1, E2. split; [done|]. split; [done|]. rewrite elem_of_cons. intros [?|?]; congruence.
Qed.

Lemma head_no_slash l : SLASH ∉ head_part l.
Proof.
  induction l as [|c l IH]; cbn [head_part]; [apply not_elem_of_nil|].
  destruct (Z.eqb_spec c SLASH) as [->|Hc]; [apply not_elem_of_nil|].
  rewrite elem_of_cons. intros [?|?]; [congruence|done].
Qed.

Lemma tail_shorter l : l <> [] -> (length (tail_part l) < length l)%nat.
Proof.
  intros Hl. destruct (split_parts l) as [(_ & -> & _)|E].
  - destruct l; [done|cbn; lia].
  - rewrite E at 2. rewrite length_app. cbn [length]. lia.
Qed.

Lemma split_fuel_enough n : forall k l, (length l <= n)%nat -> (length l <= k)%nat ->
  split_fuel n l = split_fuel k l.
Proof.
  induction n as [|n IH]; intros k l Hn Hk.
  - destruct l; [by destruct k|cbn in Hn; lia].
  - destruct l as [|c l]; [by destruct k|]. destruct k as [|k]; [cbn in Hk; lia|].
    pose proof (tail_shorter (c :: l) ltac:(done)) as Ht. cbn [length] in *.
    cbn [split_fuel]. f_equal. apply IH; lia.
Qed.

Lemma split_path_cons l : l <> [] -> split_path l = head_part l :: split_path (tail_part l).
Proof.
  intros Hl. pose proof (tail_shorter l Hl). destruct l as [|c l]; [done|].
  unfold split_path at 1. cbn [length split_fuel]. f_equal. apply split_fuel_enough;
    cbn [length] in *; lia.
Qed.

Lemma split_path_length l : (length (split_path l) <= length l)%nat.
Proof.
  unfold split_path. generalize (length l). intros n; revert l.
  induction n as [|n IH]; intros l; [destruct l; cbn; lia|].
  destruct l; cbn [split_fuel length]; [lia|]. specialize (IH (tail_part (z :: l))). lia.
Qed.

Section parser.
Context `{KAllocator}.

(** ** Lemmas: one component *)

(** The copying loop copies the component in front. *)
Lemma copy_part_spec l : forall fuel tmp dst idx m,
  cstr (at_mem m tmp) l -> (length (head_part l) < fuel)%nat ->
  (forall i, 0 <= i <= Z.of_nat (length l) -> tmp + i < dst + idx \/
     dst + idx + Z.of_nat (length (head_part l)) <= tmp + i) ->
  copy_part fuel tmp dst idx m =
    Some (tmp + Z.of_nat (length (head_part l)), store_bytes m (dst + idx) (head_part l)).
Proof.
  induction l as [|c l IH]; intros fuel tmp dst idx m Hc Hf Hd;
    (destruct fuel as [|f]; [lia|]); cbn [copy_part head_part length store_bytes] in *.
  - pose proof (cstr_nul _ _ Hc) as E. unfold at_mem in E. cbn [length] in E.
    replace (tmp + Z.of_nat 0) with tmp in * by lia. rewrite E. done.
  - destruct (cstr_lookup _ _ 0 c Hc eq_refl) as [E Hr]. unfold at_mem in E.
    replace (tmp + Z.of_nat 0) with tmp in * by lia. rewrite E.
    destruct (Z.eqb_spec c SLASH) as [->|Hs].
    { cbn. by rewrite Z.add_0_r. }
    destruct (Z.eqb_spec c 0); [lia|]. cbn [negb andb length store_bytes] in *.
    rewrite IH.
    + do 2 f_equal; [lia|]. f_equal. lia.
    + pose proof (cstr_drop _ _ 1 Hc ltac:(cbn; lia)) as Hc1. change (drop 1 (c :: l)) with l in Hc1.
      destruct Hc1 as [H1 H2 H3]. split; [| |done].
      * intros i x Hx. rewrite <- (H1 i x Hx). unfold at_mem.
        apply lookup_lt_Some in Hx. rewrite rd_wr_ne; [f_equal; lia|].
        specialize (Hd (1 + Z.of_nat i)). lia.
      * etrans; [|exact H2]. unfold at_mem. rewrite rd_wr_ne; [f_equal; lia|].
        specialize (Hd (1 + Z.of_nat (length l))). lia.
    + lia.
    + intros i Hi. specialize (Hd (1 + i)). lia.
Qed.

Lemma head_part_chars l : Forall char_ok l -> Forall char_ok (head_part l).
Proof.
  induction 1 as [|c l Hc Hl IH]; cbn [head_part]; [constructor|].
  destruct (c =? SLASH); [constructor|by constructor].
Qed.

Lemma head_part_length l : (length (head_part l) <= length l)%nat.
Proof.
  induction l as [|c l IH]; cbn [head_part length]; [lia|].
  destruct (c =? SLASH); cbn [length]; lia.
Qed.

(** The path to go on with. *)
Definition next_path (path : Z) (l : list Z) : Z :=
  path + Z.of_nat (length l - length (tail_part l)).

Lemma next_path_spec m path l :
  cstr (at_mem m path) l ->
  let tmp := path + Z.of_nat (length (head_part l)) in
  (if rd m tmp =? SLASH then tmp + 1 else tmp) = next_path path l /\
  cstr (at_mem m (next_path path l)) (tail_part l).
Proof.
  intros Hc tmp.
  assert (E : (if rd m tmp =? SLASH then tmp + 1 else tmp) = next_path path l).
  { unfold next_path. destruct (split_parts l) as [(E1 & E2 & Hns)|E].
    - rewrite E2. unfold tmp. rewrite E1. pose proof (cstr_nul _ _ Hc) as H0.
      unfold at_mem in H0. rewrite H0. cbn [length]. change (0 =? SLASH) with false. cbn. lia.
    - assert (Hl : rd m tmp = SLASH).
      { apply (cstr_chars _ _ Hc).
        transitivity ((head_part l ++ SLASH :: tail_part l) !! length (head_part l));
          [by rewrite <- E|].
        rewrite lookup_app_r by lia. by rewrite Nat.sub_diag. }
      rewrite Hl, Z.eqb_refl. unfold tmp. apply (f_equal length) in E.
      rewrite length_app in E. cbn [length] in E. lia. }
  split; [done|]. unfold next_path.
  pose proof (cstr_drop _ _ (length l - length (tail_part l)) Hc ltac:(lia)) as Hd.
  replace (drop (length l - length (tail_part l)) l) with (tail_part l) in Hd.
  - eapply cstr_ext; [|exact Hd]. intros i Hi. unfold at_mem. f_equal. lia.
  - destruct (split_parts l) as [(E1 & E2 & _)|E2].
    + rewrite E2. cbn [length]. rewrite Nat.sub_0_r. by rewrite drop_ge by lia.
    + pose proof (f_equal length E2) as Hlen. rewrite length_app in Hlen. cbn [length] in Hlen.
      set (k := (length l - length (tail_part l))%nat) in *.
      transitivity (drop k (head_part l ++ SLASH :: tail_part l)); [|by rewrite <- E2].
      rewrite drop_app_ge by lia. unfold k.
      replace (length l - length (tail_part l) - length (head_part l))%nat with 1%nat by lia. done.
Qed.

(** A region the client owns. *)
Definition region_owned (m : mem) (p n : Z) : Prop := forall a, p <= a < p + n -> owned m a.

(** What creating one component does: two fresh blocks, the string [p1] and
    the node [p2], linked from [last]. *)
Record new_part (n : nat) (m : mem) (last : Z) (l : list Z) (p1 p2 : Z) (m' : mem) : Prop := {
  np_p1 : page p1;
  np_p2 : page p2;
  np_pos : p1 <> p2 /\ p2 <> 0;
  np_ok : heap_ok m';
  np_room : room m' n;
  np_live : forall q s, live m' q s <-> live m q s \/ (q = p1 \/ q = p2) /\ s = 4096;
  np_fresh : forall q s, live m q s -> q <> p1 /\ q <> p2;
  np_string : ld32 m' (p2 + part_part) = p1 /\ cstr (at_mem m' p1) (head_part l);
  np_next : ld32 m' (p2 + part_next) = 0;
  np_last : last <> 0 -> ld32 m' (last + part_next) = p2;
  np_frame : forall a, owned m a ->
    (a < p1 \/ p1 + 4096 <= a) /\ (a < p2 \/ p2 + 4096 <= a) /\
    (last = 0 \/ a < last + 4 \/ last + 8 <= a -> rd m' a = rd m a) }.

Lemma create_step n f m path l last :
  cstr (at_mem m path) l -> l <> [] -> (length l <= f)%nat ->
  heap_ok m -> room m (S (S n)) -> (length (head_part l) < 108)%nat ->
  region_owned m path (Z.of_nat (length l) + 1) ->
  (last = 0 \/ live m last 4096 /\ page last /\
     forall i, 0 <= i <= Z.of_nat (length l) -> path + i < last \/ last + 8 <= path + i) ->
  exists p1 p2 m', new_part n m last l p1 p2 m' /\
    create_path_nodes (S f) path last m =
      match create_path_nodes f (next_path path l) p2 m' with
      | None => None
      | Some (_, m'') => Some (p2, m'')
      end.
Proof.
  intros Hc Hl Hf Hok Hroom Hlen Hown Hlast. cbn [create_path_nodes].
  assert (Hne : rd m path <> 0).
  { pose proof (cstr_nonzero _ _ 0 Hc) as E. unfold at_mem in E.
    rewrite Z.add_0_r in E. apply E. destruct l; [done|cbn; lia]. }
  destruct (Z.eqb_spec (rd m path) 0); [done|].
  destruct (alloc_page m LIEBE_OS_MAX_PATH_LEN (S n) (one_block 108 ltac:(lia))
    ltac:(unfold LIEBE_OS_MAX_PATH_LEN; lia) Hok Hroom)
    as (p1 & m1 & -> & Hp1 & Hok1 & Hroom1 & Hlv1 & Hd1 & Hf1 & Hz1 & Ho1 & Hfr1).
  change LIEBE_OS_MAX_PATH_LEN with 108 in *.
  pose proof (head_part_length l) as Hhl.
  assert (Hc1 : cstr (at_mem m1 path) l).
  { eapply cstr_ext; [|exact Hc]. intros i Hi. apply Ho1, Hown. lia. }
  rewrite (copy_part_spec l) by
    (done || lia || (intros i Hi; destruct (Ho1 (path + i)) as [? _]; [apply Hown; lia|lia])).
  rewrite Z.add_0_r. set (m2 := store_bytes m1 p1 (head_part l)).
  assert (Hout2 : forall a, a < p1 \/ p1 + 4096 <= a -> rd m2 a = rd m1 a)
    by (intros a Ha; apply rd_store_bytes_out; lia).
  destruct (client_frame m1 m2 p1 4096 Hok1 ltac:(apply Hlv1; by right) Hout2)
    as (Hok2 & Hlv2 & Hr2).
  destruct (alloc_page m2 sizeof_path_part n (one_block 8 ltac:(lia))
    ltac:(unfold sizeof_path_part; lia) Hok2 (Hr2 _ Hroom1))
    as (p2 & m3 & -> & Hp2 & Hok3 & Hroom3 & Hlv3 & Hd3 & Hf3 & Hz3 & Ho3 & Hfr3).
  set (m5 := st32 (st32 m3 (p2 + part_part) p1) (p2 + part_next) 0).
  set (m6 := if negb (last =? 0) then st32 m5 (last + part_next) p2 else m5).
  unfold part_part, part_next in *.
  (* the pages involved *)
  assert (Hp21 : p2 + 4096 <= p1 \/ p1 + 4096 <= p2)
    by (destruct (Hd3 p1 4096); [apply Hlv2, Hlv1; by right|lia|lia]).
  pose proof (live_block m3 p2 4096 ltac:(apply Hlv3; by right)) as (Hp2pos & _ & _).
  assert (Hlast2 : last = 0 \/ live m2 last 4096 /\ (p1 + 4096 <= last \/ last + 4096 <= p1) /\
                             (p2 + 4096 <= last \/ last + 4096 <= p2)).
  { destruct Hlast as [?|[Hll _]]; [by left|right].
    assert (Hll2 : live m2 last 4096) by (apply Hlv2, Hlv1; by left).
    pose proof (Hd1 _ _ Hll). pose proof (Hd3 _ _ Hll2). split; [done|lia]. }
  destruct (client_frame m3 m5 p2 4096 Hok3 ltac:(apply Hlv3; by right))
    as (Hok5 & Hlv5 & Hr5).
  { intros a Ha. unfold m5. by rewrite !rd_st32_ne by lia. }
  assert (H6 : heap_ok m6 /\ (forall q s, live m6 q s <-> live m5 q s) /\
               (forall k, room m5 k -> room m6 k)).
  { unfold m6. destruct (Z.eqb_spec last 0) as [|Hl0]; [done|]. cbn [negb].
    destruct Hlast2 as [?|[Hll _]]; [done|].
    apply (client_frame m5 _ last 4096 Hok5); [by apply Hlv5, Hlv3; left|].
    intros a Ha. by rewrite rd_st32_ne by lia. }
  destruct H6 as (Hok6 & Hlv6 & Hr6).
  assert (Hout6 : forall a, (a < p2 \/ p2 + 8 <= a) ->
    (last = 0 \/ a < last + 4 \/ last + 8 <= a) -> rd m6 a = rd m3 a).
  { intros a Ha Hla. transitivity (rd m5 a).
    - unfold m6. destruct (Z.eqb_spec last 0); [done|]. cbn [negb]. by rewrite rd_st32_ne by lia.
    - unfold m5. by rewrite !rd_st32_ne by lia. }
  assert (Hframe : forall a, owned m a -> (a < p1 \/ p1 + 4096 <= a) /\
    (a < p2 \/ p2 + 4096 <= a) /\
    (last = 0 \/ a < last + 4 \/ last + 8 <= a -> rd m6 a = rd m a)).
  { intros a Ha. destruct (Ho1 a Ha) as (H1 & Ha1 & E1). split; [done|].
    assert (Ha2 : owned m2 a) by (by apply (owned_ext m1); [intros; apply Hlv2|]).
    destruct (Ho3 a Ha2) as (H3 & _ & E3). split; [done|].
    intros Hla. rewrite Hout6, E3, Hout2, E1 by (done || lia). done. }
  assert (Hcell : forall k, (k = 0 \/ k = 4) -> ld32 m6 (p2 + k) = ld32 m5 (p2 + k)).
  { intros k Hk. unfold m6. destruct (Z.eqb_spec last 0); [done|]. cbn [negb].
    apply ld32_st32_ne. destruct Hlast2; lia. }
  exists p1, p2, m6. split.
  - split; try done; [lia|by apply Hr6, Hr5| | | | | ].
    + intros q s. rewrite Hlv6, Hlv5, Hlv3, Hlv2, Hlv1. tauto.
    + intros q s Hq. split; [by eapply Hf1|]. eapply (Hf3 q s). apply Hlv2, Hlv1. by left.
    + split.
      * unfold part_part. rewrite Hcell by lia. unfold m5.
        rewrite ld32_st32_ne, ld32_st32_eq by lia. apply u32_id. apply Hp1.
      * apply (cstr_ext (at_mem m2 p1)).
        -- intros i Hi. unfold at_mem. rewrite Hout6 by (destruct Hlast2; lia).
           apply Ho3. apply (owned_live m2 p1 4096); [apply Hlv2, Hlv1; by right|lia].
        -- apply store_bytes_nul; [apply head_part_chars, (cstr_ok _ _ Hc)|]. apply Hz1. lia.
    + unfold part_next. rewrite Hcell by lia. unfold m5. by rewrite ld32_st32_eq.
    + intros Hl0. unfold m6, part_next. destruct (Z.eqb_spec last 0); [done|]. cbn [negb].
      rewrite ld32_st32_eq. apply u32_id. apply Hp2.
  - assert (Etmp : rd m6 (path + Z.of_nat (length (head_part l))) =
                   rd m (path + Z.of_nat (length (head_part l)))).
    { apply Hframe; [apply Hown; lia|].
      destruct Hlast as [?|(_ & _ & Hs)]; [by left|right].
      specialize (Hs (Z.of_nat (length (head_part l)))). lia. }
    rewrite Etmp. destruct (next_path_spec m path l Hc) as [-> _]. done.
Qed.

(** What parsing the components of [l] makes: the list [ns] of fresh blocks,
    linked from [last]. *)
Record parsed (N : nat) (m : mem) (last : Z) (l : list Z) (first : Z) (ns : list node)
    (m' : mem) : Prop := {
  pd_split : map snd ns = split_path l;
  pd_repr : parts_repr m' first ns;
  pd_ok : heap_ok m';
  pd_room : room m' N;
  pd_nodup : NoDup (node_blocks ns);
  pd_page : forall p, p ∈ node_blocks ns -> page p;
  pd_live : forall q s, live m' q s <-> live m q s \/ q ∈ node_blocks ns /\ s = 4096;
  pd_fresh : forall q s, live m q s -> q ∉ node_blocks ns;
  pd_empty : l = [] -> m' = m;
  pd_last : last <> 0 -> l <> [] -> ld32 m' (last + part_next) = first;
  pd_frame : forall a, owned m a -> last = 0 \/ a < last + 4 \/ last + 8 <= a ->
    rd m' a = rd m a }.

(** Putting the new component in front of the parsed rest. *)
Lemma parsed_cons N m path l last p1 p2 m1 first ns m2 :
  cstr (at_mem m path) l -> l <> [] -> (length (head_part l) < 108)%nat ->
  (last = 0 \/ live m last 4096 /\ page last) ->
  new_part (N + length ns * 2) m last l p1 p2 m1 ->
  parsed N m1 p2 (tail_part l) first ns m2 ->
  parsed N m last l p2 ((p2, p1, head_part l) :: ns) m2.
Proof.
  intros Hc Hl Hlen Hlast [Hp1 Hp2 [Hp12 Hp20] Hok Hroom Hlv Hfr [Hs1 Hs2] Hn Hla Hf]
    [Esplit Hrep Hok2 Hroom2 Hnd Hpg2 Hlv2 Hfr2 Hem Hla2 Hf2].
  assert (Hl1 : live m1 p1 4096) by (apply Hlv; right; by split; [left|]).
  assert (Hl2 : live m1 p2 4096) by (apply Hlv; right; by split; [right|]).
  pose proof (pages_disjoint p1 p2 Hp1 Hp2 Hp12) as Hd.
  assert (Hk : forall p a, live m1 p 4096 -> p <= a < p + 4096 -> a < p2 + 4 \/ p2 + 8 <= a ->
    rd m2 a = rd m1 a).
  { intros p a Hp Ha Ho. apply Hf2; [by apply (owned_live m1 p 4096)|by right]. }
  unfold part_part, part_next in *. split; try done.
  - cbn [map snd]. by rewrite Esplit, <- split_path_cons.
  - cbn [parts_repr]. unfold part_part, part_next. split; [done|]. split; [done|]. split; [|split].
    + rewrite <- Hs1. apply ld32_ext. intros i Hi. apply (Hk p2); [done|lia|lia].
    + eapply cstr_ext; [|exact Hs2]. intros i Hi. apply (Hk p1); [done|lia|lia].
    + destruct (decide (tail_part l = [])) as [E|E].
      * rewrite E in Esplit. destruct ns; [|done]. cbn [parts_repr]. by rewrite Hem.
      * by rewrite Hla2.
  - cbn [node_blocks]. rewrite !list.NoDup_cons, elem_of_cons.
    split; [|split; [by eapply Hfr2|done]].
    intros [?|Hin]; [congruence|by eapply Hfr2 in Hl2].
  - intros q. cbn [node_blocks]. rewrite !elem_of_cons. intros [->|[->|Hq]]; [done|done|by apply Hpg2].
  - intros q s. cbn [node_blocks]. rewrite Hlv2, Hlv, !elem_of_cons. tauto.
  - intros q s Hq. cbn [node_blocks]. rewrite !elem_of_cons. destruct (Hfr q s Hq).
    intros [?|[?|Hin]]; [done|done|]. eapply (Hfr2 q s); [|done]. apply Hlv. by left.
  - intros Hl0 _. destruct Hlast as [?|[Hll Hlp]]; [done|].
    destruct (Hfr _ _ Hll) as [Hn1 Hn2]. pose proof (pages_disjoint last p2 Hlp Hp2 Hn2).
    etrans; [|exact (Hla Hl0)]. apply ld32_ext. intros i Hi.
    apply (Hk last); [apply Hlv; by left|lia|lia].
  - intros a Ha Hout. destruct (Hf a Ha) as (_ & Ho2 & E). rewrite <- (E Hout).
    apply Hf2; [|lia]. apply (owned_ext m); [|done]. intros; apply Hlv; by left.
Qed.

(** [create_path_nodes] builds exactly the components of the path. *)
Lemma create_path_nodes_spec fuel : forall N m path l last,
  cstr (at_mem m path) l -> (length l < fuel)%nat ->
  heap_ok m -> room m (N + length (split_path l) * 2) ->
  (forall p, p ∈ split_path l -> (length p < 108)%nat) ->
  region_owned m path (Z.of_nat (length l) + 1) ->
  (last = 0 \/ live m last 4096 /\ page last /\
     forall i, 0 <= i <= Z.of_nat (length l) -> path + i < last \/ last + 8 <= path + i) ->
  exists first m' ns, create_path_nodes fuel path last m = Some (first, m') /\
    parsed N m last l first ns m'.
Proof.
  induction fuel as [|f IH]; intros N m path l last Hc Hf Hok Hroom Hlen Hown Hlast; [lia|].
  destruct (decide (l = [])) as [->|Hl].
  - exists 0, m, []. split.
    + cbn [create_path_nodes]. pose proof (cstr_nul _ _ Hc) as E. unfold at_mem in E.
      cbn [length] in E. rewrite Z.add_0_r in E. by rewrite E.
    + split; try done; [by replace N with (N + length (split_path []) * 2)%nat by (cbn; lia)
        |constructor|intros q Hq; by apply not_elem_of_nil in Hq|intros q s; cbn [node_blocks]; rewrite elem_of_nil; tauto
        |intros q s _; apply not_elem_of_nil].
  - rewrite split_path_cons in Hroom, Hlen by done. cbn [length] in Hroom.
    assert (Hhead : (length (head_part l) < 108)%nat) by (apply Hlen; by left).
    destruct (create_step (N + length (split_path (tail_part l)) * 2) f m path l last)
      as (p1 & p2 & m1 & Hnew & ->); try done; [lia|by replace (S (S _)) with
        (N + S (length (split_path (tail_part l))) * 2)%nat by lia|].
    pose proof Hnew as [Hp1 Hp2 [Hp12 Hp20] Hok1 Hroom1 Hlv Hfr _ _ _ Hfm].
    pose proof (tail_shorter l Hl) as Hts.
    assert (Hnext : forall i, 0 <= i <= Z.of_nat (length (tail_part l)) ->
      path <= next_path path l + i < path + (Z.of_nat (length l) + 1))
      by (intros i Hi; unfold next_path; lia).
    destruct (IH N m1 (next_path path l) (tail_part l) p2) as (first & m2 & ns & E & Hparsed).
    + destruct (next_path_spec m path l Hc) as [_ Hn]. eapply cstr_ext; [|exact Hn].
      intros i Hi. apply Hfm; [apply Hown, Hnext; lia|].
      destruct Hlast as [?|(_ & _ & Ho)]; [by left|right].
      specialize (Ho (next_path path l + i - path)). specialize (Hnext i Hi). lia.
    + lia.
    + done.
    + done.
    + intros p Hp. apply Hlen. by right.
    + intros a Ha. apply (owned_ext m); [intros; apply Hlv; by left|].
      apply Hown. specialize (Hnext (a - next_path path l)). lia.
    + right. split; [apply Hlv; right; by split; [right|]|]. split; [done|].
      intros i Hi. destruct (Hfm (next_path path l + i)) as (_ & Ho & _); [by apply Hown, Hnext|lia].
    + rewrite E. exists p2, m2, ((p2, p1, head_part l) :: ns). split; [done|].
      apply (parsed_cons N m path l last p1 p2 m1 first ns); try done.
      * destruct Hlast as [?|(? & ? & _)]; [by left|by right].
      * pose proof (pd_split _ _ _ _ _ _ _ Hparsed) as Es.
        rewrite <- Es, length_map in Hnew. done.
Qed.

(** ** Lemmas: release *)

(** The nodes and their links, strings aside. *)
Fixpoint linked (m : mem) (first : Z) (ns : list node) : Prop :=
  match ns with
  | [] => first = 0
  | (n, s, _) :: ns' =>
    first = n /\ n <> 0 /\ ld32 m (n + part_part) = s /\ linked m (ld32 m (n + part_next)) ns'
  end.

Lemma parts_linked m first ns : parts_repr m first ns -> linked m first ns.
Proof.
  revert first; induction ns as [|[[n s] l] ns IH]; intros first; cbn [parts_repr linked]; [done|].
  intros (? & ? & ? & _ & Hr). repeat (split; [done|]). by apply IH.
Qed.

(** The blocks of the list are live, and distinct. *)
Definition blocks_live (m : mem) (ps : list Z) : Prop :=
  NoDup ps /\ forall p, p ∈ ps -> live m p 4096.

(** Words of a live block are read the same in a memory that agrees outside
    the allocator's table. *)
Lemma block_word m0 m m' p k :
  live m0 p 4096 -> (forall a, ~ meta a -> rd m' a = rd m a) -> 0 <= k <= 4092 ->
  ld32 m' (p + k) = ld32 m (p + k).
Proof.
  intros Hp Hf Hk. destruct (live_block _ _ _ Hp) as (_ & _ & Hm).
  apply ld32_ext. intros i Hi. apply Hf, Hm. lia.
Qed.

Lemma linked_frame m0 m m' ns : forall first,
  blocks_live m0 (node_blocks ns) -> (forall a, ~ meta a -> rd m' a = rd m a) ->
  linked m first ns -> linked m' first ns.
Proof.
  induction ns as [|[[n s] l] ns IH]; intros first [Hnd Hl] Hf; cbn [linked node_blocks] in *; [done|].
  assert (Hn : live m0 n 4096) by (apply Hl; by left).
  intros (? & ? & ? & Hr). unfold part_part, part_next in *.
  rewrite !(block_word m0 m m') by (done || lia). repeat (split; [done|]).
  apply IH; [|done|done]. apply list.NoDup_cons in Hnd as [_ Hnd].
  apply list.NoDup_cons in Hnd as [_ Hnd]. split; [done|].
  intros p Hp. apply Hl. right. by right.
Qed.

(** Releasing one block of a set. *)
Lemma free_block_spec m p ps :
  heap_ok m -> blocks_live m (p :: ps) ->
  heap_ok (ka_free p m) /\ blocks_live (ka_free p m) ps /\
  (forall q s, live (ka_free p m) q s <-> live m q s /\ q <> p) /\
  (forall a, ~ meta a -> rd (ka_free p m) a = rd m a).
Proof.
  intros Hok [Hnd Hl]. destruct (ka_free_spec m p 4096) as (H1 & H2 & _ & H4); [done|apply Hl; by left|].
  apply list.NoDup_cons in Hnd as [Hp Hnd]. split; [done|]. split; [|done]. split; [done|].
  intros q Hq. apply H2. split; [apply Hl; by right|]. intros ->. done.
Qed.

Lemma blocks_live_swap m p q ps : blocks_live m (p :: q :: ps) -> blocks_live m (q :: p :: ps).
Proof.
  intros [Hnd Hl]. rewrite !list.NoDup_cons, !elem_of_cons in *.
  split.
  - destruct Hnd as (H1 & H2 & H3). rewrite !list.NoDup_cons, !elem_of_cons.
    split; [|split; [|done]].
    + intros [E|?]; [apply H1; left; by symmetry|done].
    + intros ?. apply H1. by right.
  - intros x. rewrite !elem_of_cons. intros Hx. apply Hl. rewrite !elem_of_cons. tauto.
Qed.

Lemma free_parts_spec ns : forall fuel first m rest,
  (length ns < fuel)%nat -> heap_ok m -> linked m first ns ->
  blocks_live m (node_blocks ns ++ rest) ->
  exists m', free_parts fuel first m = Some m' /\ heap_ok m' /\ blocks_live m' rest /\
    (forall q s, live m' q s <-> live m q s /\ q ∉ node_blocks ns) /\
    (forall a, ~ meta a -> rd m' a = rd m a).
Proof.
  induction ns as [|[[n s] l] ns IH]; intros fuel first m rest Hf Hok Hlk Hbl;
    (destruct fuel as [|f]; [lia|]); cbn [free_parts linked node_blocks app length] in *.
  - subst first. exists m. repeat (split; [done|]). split; [|done].
    intros q s. rewrite elem_of_nil. tauto.
  - destruct Hlk as (-> & Hn0 & Hs & Hlk). destruct (Z.eqb_spec n 0); [done|].
    rewrite Hs. pose proof Hbl as [Hnd Hl].
    destruct (free_block_spec m s (n :: node_blocks ns ++ rest)) as (Hok1 & Hbl1 & Hlv1 & Ho1);
      [done|by apply (blocks_live_swap _ n)|].
    destruct (free_block_spec (ka_free s m) n (node_blocks ns ++ rest)) as (Hok2 & Hbl2 & Hlv2 & Ho2);
      [done|done|].
    destruct (IH f (ld32 m (n + part_next)) (ka_free n (ka_free s m)) rest) as
      (m' & E & Hok' & Hbl' & Hlv' & Ho'); [lia|done| |done|].
    + apply (linked_frame m m); [|intros a Ha; by rewrite Ho2, Ho1|done].
      apply list.NoDup_cons in Hnd as [_ Hnd]. apply list.NoDup_cons in Hnd as [_ Hnd].
      apply list.NoDup_app in Hnd as (Hnd & _ & _). split; [done|].
      intros p Hp. apply Hl. right. right. apply elem_of_app. by left.
    + exists m'. repeat (split; [done|]). split.
      * intros q t. rewrite Hlv', Hlv2, Hlv1, !elem_of_cons. tauto.
      * intros a Ha. by rewrite Ho', Ho2, Ho1.
Qed.

(** ** Lemmas: the whole parser *)

(** What [is_valid_path] accepts. *)
Definition drive_path (l : list Z) (d : Z) (rest : list Z) : Prop :=
  l = d :: 58 :: SLASH :: rest /\ 48 <= d <= 57.

Lemma colon_slash_test f :
  0 <= f 1 < 256 -> 0 <= f 2 < 256 ->
  (memcmp (fun i => f (1 + i)) colon_slash 2 =? 0) = (f 1 =? 58) && (f 2 =? SLASH).
Proof.
  intros H1 H2. unfold memcmp. change (Z.to_nat 2) with 2%nat. cbn [memcmp_loop].
  change (1 + 0) with 1. change (1 + (0 + 1)) with 2.
  change (colon_slash 0) with 58. change (colon_slash (0 + 1)) with SLASH. unfold SLASH.
  destruct (Z.eqb_spec (i8 (f 1)) (i8 58)) as [E|E].
  - apply i8_inj in E; [|done|lia]. rewrite E, Z.eqb_refl.
    destruct (Z.eqb_spec (i8 (f 2)) (i8 47)) as [E2|E2].
    + apply i8_inj in E2; [|done|lia]. by rewrite E2.
    + destruct (Z.eqb_spec (f 2) 47); [congruence|]. by case_bool.
  - destruct (Z.eqb_spec (f 1) 58); [congruence|]. by case_bool.
Qed.

Lemma valid_path s l :
  cstr s l ->
  if is_valid_path s
  then exists d rest, drive_path l d rest /\ get_drive_number s = d - 48
  else forall d rest, ~ drive_path l d rest.
Proof.
  intros Hc. destruct (is_valid_path s) eqn:E.
  - unfold get_drive_number. rewrite E. cbn [negb]. unfold is_valid_path in E.
    change LIEBE_OS_MAX_PATH_LEN with 108 in E. rewrite (strnlen_cstr s l) in E by (done || lia).
    apply andb_true_iff in E as [E E3]. apply andb_true_iff in E as [E1 E2].
    apply Z.leb_le in E1. destruct l as [|d [|c [|e rest]]]; cbn [length] in E1; try lia.
    destruct (cstr_lookup s _ 0 d Hc eq_refl) as [F0 R0].
    destruct (cstr_lookup s _ 1 c Hc eq_refl) as [F1 R1].
    destruct (cstr_lookup s _ 2 e Hc eq_refl) as [F2 R2].
    change (Z.of_nat 0) with 0 in F0. change (Z.of_nat 1) with 1 in F1.
    change (Z.of_nat 2) with 2 in F2.
    rewrite colon_slash_test, F1, F2 in E3 by lia. apply andb_true_iff in E3 as [E3 E4].
    apply Z.eqb_eq in E3, E4. subst c e. unfold is_digit in E2.
    apply andb_true_iff in E2 as [E2 E5]. apply Z.leb_le in E2, E5.
    assert (i8 d = d) by (rewrite F0 in E2, E5; revert E2 E5; unfold i8; case_bool; dlia).
    rewrite F0 in *. exists d, rest. split; [split; [done|lia]|]. unfold atoi. lia.
  - intros d rest [-> Hd]. enough (is_valid_path s = true) by congruence.
    unfold is_valid_path. change LIEBE_OS_MAX_PATH_LEN with 108.
    rewrite (strnlen_cstr s _ _ Hc) by lia. cbn [length].
    destruct (cstr_lookup s _ 0 d Hc eq_refl) as [F0 R0].
    destruct (cstr_lookup s _ 1 58 Hc eq_refl) as [F1 R1].
    destruct (cstr_lookup s _ 2 SLASH Hc eq_refl) as [F2 R2].
    change (Z.of_nat 0) with 0 in F0. change (Z.of_nat 1) with 1 in F1.
    change (Z.of_nat 2) with 2 in F2.
    rewrite colon_slash_test, F0, F1, F2 by (unfold SLASH in *; lia).
    replace (i8 d) with d by wordlia. unfold is_digit.
    destruct (Z.leb_spec 48 d), (Z.leb_spec d 57); try lia. cbn [andb].
    rewrite !andb_true_r. apply Z.leb_le. lia.
Qed.

(** The result of a parse: a root object with the drive number and the
    components. *)
Definition parse_result (m : mem) (d : Z) (rest : list Z) (root : Z) (ns : list node) (m' : mem)
  : Prop :=
  root <> 0 /\ heap_ok m' /\
  ld32 m' (root + root_drive_no) = d - 48 /\
  parts_repr m' (ld32 m' (root + root_first)) ns /\ map snd ns = split_path rest /\
  blocks_live m' (node_blocks ns ++ [root]) /\
  (forall q s, live m' q s <-> live m q s \/ q ∈ (root :: node_blocks ns) /\ s = 4096) /\
  (forall q s, live m q s -> q ∉ root :: node_blocks ns) /\
  (forall a, owned m a -> rd m' a = rd m a).

Lemma parts_repr_frame m m' ns : forall first,
  (forall l, l ∈ map snd ns -> (length l < 108)%nat) ->
  (forall p a, p ∈ node_blocks ns -> p <= a < p + 4096 -> rd m' a = rd m a) ->
  parts_repr m first ns -> parts_repr m' first ns.
Proof.
  induction ns as [|[[n s] l] ns IH]; intros first Hl Hf; cbn [parts_repr node_blocks map snd] in *;
    [done|].
  intros (? & ? & Hs & Hc & Hr). unfold part_part, part_next in *.
  assert (Hw : forall k, 0 <= k <= 4092 -> ld32 m' (n + k) = ld32 m (n + k)).
  { intros k Hk. apply ld32_ext. intros i Hi. apply (Hf n); [by left|lia]. }
  rewrite !Hw by lia. repeat (split; [done|]). split.
  - eapply cstr_ext; [|exact Hc]. intros i Hi. specialize (Hl l ltac:(by left)).
    apply (Hf s); [right; by left|lia].
  - apply IH; [|intros p a Hp; apply Hf; right; by right|done].
    intros x Hx. apply Hl. by right.
Qed.

(** The root object. *)
Lemma create_root_spec m d n :
  heap_ok m -> room m (S n) ->
  exists root m', create_root_path d m = (root, m') /\ page root /\ root <> 0 /\ heap_ok m' /\
    room m' n /\ ld32 m' (root + root_drive_no) = u32 d /\
    (forall q s, live m' q s <-> live m q s \/ q = root /\ s = 4096) /\
    (forall q s, live m q s -> q <> root) /\
    (forall a, owned m a -> (a < root \/ root + 4096 <= a) /\ owned m' a /\ rd m' a = rd m a).
Proof.
  intros Hok Hroom. unfold create_root_path.
  destruct (alloc_page m sizeof_path_root n (one_block 8 ltac:(lia))
    ltac:(unfold sizeof_path_root; lia) Hok Hroom)
    as (root & m1 & -> & Hp & Hok1 & Hroom1 & Hlv & _ & Hfr & _ & Ho & _).
  unfold root_drive_no, root_first. set (m2 := st32 _ _ 0).
  assert (Hl : live m1 root 4096) by (apply Hlv; by right).
  assert (Hout : forall a, a < root \/ root + 4096 <= a -> rd m2 a = rd m1 a)
    by (intros a Ha; unfold m2; by rewrite !rd_st32_ne by lia).
  destruct (client_frame m1 m2 root 4096 Hok1 Hl Hout) as (Hok2 & Hlv2 & Hr2).
  destruct (live_block _ _ _ Hl) as (Hpos & _ & _).
  exists root, m2. split; [done|]. split; [done|]. split; [lia|]. split; [done|].
  split; [by apply Hr2|]. split; [|split; [|split; [done|]]].
  - unfold m2. by rewrite ld32_st32_ne, ld32_st32_eq by lia.
  - intros q s. by rewrite Hlv2, Hlv.
  - intros a Ha. destruct (Ho a Ha) as (H1 & H2 & H3). split; [done|].
    split; [by apply (owned_ext m1); [intros; apply Hlv2|]|]. by rewrite Hout.
Qed.

Lemma parse_spec N fuel m path l d rest :
  cstr (at_mem m path) l -> drive_path l d rest -> (length rest < fuel)%nat ->
  heap_ok m -> room m (S (N + length (split_path rest) * 2)) ->
  (forall p, p ∈ split_path rest -> (length p < 108)%nat) ->
  region_owned m path (Z.of_nat (length l) + 1) ->
  exists root m' ns, pathparser_parse fuel path m = Some (root, m') /\
    parse_result m d rest root ns m' /\ room m' N.
Proof.
  intros Hc Hd Hf Hok Hroom Hlen Hown. unfold pathparser_parse.
  pose proof (valid_path _ l Hc) as Hv.
  destruct (is_valid_path (at_mem m path)); [|exfalso; by apply (Hv d rest)].
  destruct Hv as (d' & rest' & Hd' & Ed). destruct Hd as [-> Hdr], Hd' as [El _].
  injection El as <- <-. cbn [negb]. rewrite Ed.
  destruct (create_root_spec m (d - 48) _ Hok Hroom)
    as (root & m1 & -> & Hrp & Hr0 & Hok1 & Hroom1 & Hdrive & Hlv1 & Hfr1 & Ho1).
  assert (Hroot1 : live m1 root 4096) by (apply Hlv1; by right).
  destruct (create_path_nodes_spec fuel N m1 (path + 3) rest 0) as
    (first & m2 & ns & -> & Hpd); try done; try lia.
  - eapply cstr_ext; [|exact (cstr_drop _ _ 3 Hc ltac:(cbn; lia))].
    intros i Hi. unfold at_mem. replace (path + 3 + i) with (path + (3 + i)) by lia.
    apply Ho1, Hown. change (drop 3 (d :: 58 :: SLASH :: rest)) with rest in Hi.
    cbn [length]. lia.
  - intros a Ha. apply Ho1, Hown. cbn [length]. lia.
  - pose proof Hpd as [Hsp Hrep Hok2 Hroom2 Hnd Hpg Hlv2 Hfr2 _ _ Hf2].
    unfold root_first, root_drive_no in *. set (m3 := st32 m2 (root + 4) first).
    assert (Hroot2 : live m2 root 4096) by (apply Hlv2; by left).
    assert (Hnr : root ∉ node_blocks ns) by (by eapply Hfr2).
    assert (Hout : forall a, a < root \/ root + 4096 <= a -> rd m3 a = rd m2 a)
      by (intros a Ha; unfold m3; by rewrite rd_st32_ne by lia).
    destruct (client_frame m2 m3 root 4096 Hok2 Hroot2 Hout) as (Hok3 & Hlv3 & Hr3).
    exists root, m3, ns. split; [done|]. split; [|by apply Hr3].
    assert (Hfirst : ld32 m3 (root + 4) = first).
    { unfold m3. rewrite ld32_st32_eq. apply u32_id.
      destruct ns as [|[[n s] l'] ns]; cbn [parts_repr] in Hrep; [lia|].
      destruct Hrep as [-> _]. apply Hpg. by left. }
    assert (Hlen' : forall l, l ∈ map snd ns -> (length l < 108)%nat) by (rewrite Hsp; exact Hlen).
    unfold parse_result, root_drive_no, root_first. rewrite Hfirst.
    split; [done|]. split; [done|]. split; [|split; [|split; [done|split; [|split; [|split]]]]].
    + unfold m3. rewrite ld32_st32_ne by lia. transitivity (ld32 m1 (root + 0)).
      * apply ld32_ext. intros i Hi. apply Hf2; [apply (owned_live m1 root 4096); [done|lia]|by left].
      * rewrite Hdrive. apply u32_id. lia.
    + apply (parts_repr_frame m2); [done| |done]. intros p a Hp Ha. apply Hout.
      assert (Hpr : p <> root) by (intros ->; done).
      destruct (pages_disjoint p root (Hpg p Hp) Hrp Hpr); lia.
    + split.
      * apply list.NoDup_app. split; [done|]. split; [|apply NoDup_singleton].
        intros x Hx ->%list_elem_of_singleton. done.
      * intros p [Hp| ->%list_elem_of_singleton]%elem_of_app; apply Hlv3, Hlv2; [by right|by left].
    + intros q s. rewrite Hlv3, Hlv2, Hlv1, elem_of_cons. tauto.
    + intros q s Hq. rewrite elem_of_cons. intros [->|Hin]; [by apply (Hfr1 root s)|].
      apply (Hfr2 q s); [|done]. apply Hlv1. by left.
    + intros a Ha. destruct (Ho1 a Ha) as (H1 & H2 & H3). rewrite Hout by done.
      rewrite <- H3. apply Hf2; [done|by left].
Qed.

Lemma free_spec fuel m root ns :
  (length ns < fuel)%nat -> heap_ok m -> parts_repr m (ld32 m (root + root_first)) ns ->
  blocks_live m (node_blocks ns ++ [root]) ->
  exists m', pathparser_free fuel root m = Some m' /\ heap_ok m' /\
    (forall q s, live m' q s <-> live m q s /\ q ∉ root :: node_blocks ns) /\
    (forall a, ~ meta a -> rd m' a = rd m a).
Proof.
  intros Hf Hok Hr Hbl. unfold pathparser_free.
  destruct (free_parts_spec ns fuel _ m [root] Hf Hok (parts_linked _ _ _ Hr) Hbl)
    as (m1 & -> & Hok1 & Hbl1 & Hlv1 & Ho1).
  destruct (free_block_spec m1 root [] Hok1 Hbl1) as (Hok2 & _ & Hlv2 & Ho2).
  exists (ka_free root m1). split; [done|]. split; [done|]. split.
  - intros q s. rewrite Hlv2, Hlv1, elem_of_cons. tauto.
  - intros a Ha. by rewrite Ho2, Ho1.
Qed.

End parser.

(** ** Properties *)

(** C22. Parsing follows the reference splitting: a path that is a digit, [:/] and
    a rest whose components are shorter than 108 characters yields a root
    with the drive number and the linked list of exactly the components of
    [split_path rest], in order, as C strings in fresh live heap blocks;
    what the caller owned is unchanged, and fuel above the length is enough.
    Any other path yields null and touches nothing. *)
Theorem pathparser_parse_correct `{KAllocator} N fuel m path l :
  cstr (at_mem m path) l -> (length l < fuel)%nat -> heap_ok m ->
  (forall d rest, drive_path l d rest ->
     room m (S (N + length (split_path rest) * 2)) /\
     (forall p, p ∈ split_path rest -> (length p < 108)%nat) /\
     region_owned m path (Z.of_nat (length l) + 1)) ->
  exists root m', pathparser_parse fuel path m = Some (root, m') /\
    ((exists d rest ns, drive_path l d rest /\ parse_result m d rest root ns m') \/
     (forall d rest, ~ drive_path l d rest) /\ root = 0 /\ m' = m).
Proof.
  intros Hc Hf Hok Hgood. pose proof (valid_path _ l Hc) as Hv.
  destruct (is_valid_path (at_mem m path)) eqn:E.
  - destruct Hv as (d & rest & Hd & _). destruct (Hgood d rest Hd) as (Hroom & Hlen & Hown).
    destruct (parse_spec N fuel m path l d rest) as (root & m' & ns & -> & Hr & _); try done.
    + destruct Hd as [-> _]. cbn [length] in Hf. lia.
    + exists root, m'. split; [done|]. left. by exists d, rest, ns.
  - exists 0, m. unfold pathparser_parse. rewrite E. split; [done|]. by right.
Qed.

(** [pathparser_free] undoes [pathparser_parse]: it releases exactly the blocks
    the parse allocated, so that the set of live blocks and every byte the
    caller owned are as before the parse. *)
Theorem pathparser_free_restores `{KAllocator} fuel m path l d rest :
  cstr (at_mem m path) l -> drive_path l d rest -> (length l < fuel)%nat -> heap_ok m ->
  room m (S (length (split_path rest) * 2)) ->
  (forall p, p ∈ split_path rest -> (length p < 108)%nat) ->
  region_owned m path (Z.of_nat (length l) + 1) ->
  exists root m1 m2, pathparser_parse fuel path m = Some (root, m1) /\
    pathparser_free fuel root m1 = Some m2 /\ heap_ok m2 /\
    (forall q s, live m2 q s <-> live m q s) /\ (forall a, owned m a -> rd m2 a = rd m a).
Proof.
  intros Hc Hd Hf Hok Hroom Hlen Hown.
  assert (Hlr : (length rest < length l)%nat) by (destruct Hd as [-> _]; cbn [length]; lia).
  destruct (parse_spec 0 fuel m path l d rest) as (root & m1 & ns & E & Hres & _); try done; [lia|].
  destruct Hres as (Hr0 & Hok1 & _ & Hrep & Hsp & Hbl & Hlv & Hfr & Ho).
  assert (Hns : (length ns < fuel)%nat).
  { assert (length ns = length (split_path rest)) by (rewrite <- Hsp; by rewrite length_map).
    pose proof (split_path_length rest). lia. }
  destruct (free_spec fuel m1 root ns Hns Hok1 Hrep Hbl) as (m2 & E2 & Hok2 & Hlv2 & Ho2).
  exists root, m1, m2. repeat (split; [done|]). split.
  - intros q s. rewrite Hlv2, Hlv. split; [intros [[?|[? _]] ?]; [done|by exfalso]|].
    intros Hq. split; [by left|by eapply Hfr].
  - intros a Ha. destruct Ha as [Hna Hown']. rewrite Ho2 by done. by apply Ho.
Qed.

(** ** Witnesses *)

(** The path [0:/a/bc], stored below the heap. *)
Definition test_path : list Z := [48; 58; 47; 97; 47; 98; 99].
Definition test_mem : mem := store_bytes ∅ 0x5000 (test_path ++ [0]).

Lemma test_mem_low a : 0x7000 <= a -> rd test_mem a = rd ∅ a.
Proof. intros Ha. apply rd_store_bytes_out. change (length (test_path ++ [0])) with 8%nat. lia. Qed.

Lemma test_mem_frame a : in_table kernel_heap a -> rd test_mem a = rd ∅ a.
Proof.
  intros Ha. apply test_mem_low. unfold in_table in Ha.
  change (entries (table kernel_heap)) with 0x7E00 in Ha. lia.
Qed.

Lemma test_mem_ok : heap_ok test_mem /\ forall n, (n <= Z.to_nat 25600)%nat -> room test_mem n.
Proof.
  destruct (kheap_frame ∅ test_mem test_mem_frame kernel_empty_ok) as (H1 & _ & H2).
  split; [exact H1|]. intros n Hn. by apply H2, kernel_empty_room.
Qed.

Lemma test_mem_owned : region_owned test_mem 0x5000 (Z.of_nat (length test_path) + 1).
Proof.
  intros a Ha. change (length test_path) with 7%nat in Ha. split.
  - change (~ in_table kernel_heap a). unfold in_table.
    change (entries (table kernel_heap)) with 0x7E00. lia.
  - change (0x01000000 <= a -> exists p s, live test_mem p s /\ p <= a < p + s). lia.
Qed.

Lemma test_path_stored : cstr (at_mem test_mem 0x5000) test_path.
Proof. apply store_bytes_cstr. repeat constructor; lia. Qed.

Lemma test_path_parts p : p ∈ split_path [97; 47; 98; 99] -> (length p < 108)%nat.
Proof.
  change (split_path [97; 47; 98; 99]) with [[97]; [98; 99]].
  rewrite !elem_of_cons, elem_of_nil. intros [->|[->|[]]]; cbn; lia.
Qed.

Lemma pathparser_parse_correct_witness :
  exists root m', pathparser_parse 10 0x5000 test_mem = Some (root, m') /\
    ((exists d rest ns, drive_path test_path d rest /\ parse_result test_mem d rest root ns m') \/
     (forall d rest, ~ drive_path test_path d rest) /\ root = 0 /\ m' = test_mem).
Proof.
  apply (pathparser_parse_correct 0 10 test_mem 0x5000 test_path);
    [exact test_path_stored|cbn; lia|exact (proj1 test_mem_ok)|].
  intros d rest [[= <- <-] _]. split; [apply test_mem_ok; cbn; lia|].
  split; [exact test_path_parts|exact test_mem_owned].
Defined.

Lemma pathparser_free_restores_witness :
  exists root m1 m2, pathparser_parse 10 0x5000 test_mem = Some (root, m1) /\
    pathparser_free 10 root m1 = Some m2 /\ heap_ok m2 /\
    (forall q s, live m2 q s <-> live test_mem q s) /\
    (forall a, owned test_mem a -> rd m2 a = rd test_mem a).
Proof.
  apply (pathparser_free_restores 10 test_mem 0x5000 test_path 48 [97; 47; 98; 99]);
    [exact test_path_stored|split; [done|lia]|cbn; lia|exact (proj1 test_mem_ok)
    |apply test_mem_ok; cbn; lia|exact test_path_parts|exact test_mem_owned].
Defined.
