(* ===== verification/Fat16.v ===== *)
(** * The FAT16 file system: [src/fs/fat/fat16.c]

    All the structures live in the flat memory at the offsets the compiler
    gives them ([fat_h] is packed, so the header is the boot sector's bytes as
    they are); the three disk streams are kept as records, by address.  Every
    function of the source is a monadic definition over that state, with a
    null or dangling stream, an index outside a local array and a division
    by zero as [Fault].  The correctness lemmas are in [Fat16Facts]. *)
From S2P Require Import Prelude Config Memory CString Heap KHeap Disk.

(** ** Constants and layout *)

Definition FAT16_SIGNATURE : Z := 0x29.
Definition LIEBE_OS_FAT16_ENTRY_SIZE : Z := 0x02.
Definition LIEBE_OS_FAT16_BAD_SECTOR : Z := 0xFF7.
Definition LIEBE_OS_FAT16_UNUSED : Z := 0x00.
Definition FAT_FILE_READ_ONLY : Z := 0x01.
Definition FAT_FILE_SUBDIRECTORY : Z := 0x10.
Definition FAT_ITEM_TYPE_DIRECTORY : Z := 0.
Definition FAT_ITEM_TYPE_FILE : Z := 1.

(** [enum]s of [file.h]. *)
Definition SEEK_SET : Z := 0.
Definition SEEK_CUR : Z := 1.
Definition SEEK_END : Z := 2.
Definition FILE_MODE_READ : Z := 0.
Definition FILE_MODE_WRITE : Z := 1.
Definition FILE_MODE_APPEND : Z := 2.
Definition FILE_MODE_INVALID : Z := 3.
Definition FILE_STAT_READ_ONLY : Z := 1.
(** [struct file_stat]. *)
Definition stat_flags : Z := 0.
Definition stat_filesize : Z := 4.

(** [struct fat_header] and [struct fat_header_extended], packed. *)
Definition hdr_sectors_per_cluster : Z := 13.
Definition hdr_reserved_sectors : Z := 14.
Definition hdr_fat_copies : Z := 16.
Definition hdr_root_dir_entries : Z := 17.
Definition hdr_sectors_per_fat : Z := 22.
Definition hdr_signature : Z := 38.
Definition sizeof_fat_h : Z := 62.

(** [struct fat_directory_item], packed. *)
Definition item_filename : Z := 0.
Definition item_ext : Z := 8.
Definition item_attribute : Z := 11.
Definition item_high_cluster : Z := 20.
Definition item_low_cluster : Z := 26.
Definition item_filesize : Z := 28.
Definition sizeof_item : Z := 32.

(** [struct fat_directory], packed. *)
Definition dir_item : Z := 0.
Definition dir_total : Z := 4.
Definition dir_sector_pos : Z := 8.
Definition dir_ending_sector_pos : Z := 12.
Definition sizeof_fat_directory : Z := 16.

(** [struct fat_item] (the union is one pointer) and
    [struct fat_file_descriptor]. *)
Definition fi_pointer : Z := 0.
Definition fi_type : Z := 4.
Definition sizeof_fat_item : Z := 8.
Definition fd_item : Z := 0.
Definition fd_pos : Z := 4.
Definition sizeof_fat_file_descriptor : Z := 8.

(** [struct fat_private]: the packed header and root directory, then the
    stream pointers at word alignment. *)
Definition fp_header : Z := 0.
Definition fp_root_directory : Z := 62.
Definition fp_cluster_read_stream : Z := 80.
Definition fp_fat_read_stream : Z := 84.
Definition fp_directory_stream : Z := 88.
Definition sizeof_fat_private : Z := 92.

(** [struct path_part], as [PathParser] lays it out. *)
Definition pp_part : Z := 0.
Definition pp_next : Z := 4.

(** ** State *)

(** Memory, the stream objects by address, and the one disk object. *)
Record fs : Type := {
  fmem : mem;
  streams : gmap Z disk_stream;
  the_disk : disk }.

Definition with_mem (m : mem) (s : fs) : fs :=
  {| fmem := m; streams := streams s; the_disk := the_disk s |}.
Definition with_stream (p : Z) (d : disk_stream) (s : fs) : fs :=
  {| fmem := fmem s; streams := <[p := d]> (streams s); the_disk := the_disk s |}.

Definition load32 (a : Z) : M fs Z := gets (fun s => ld32 (fmem s) a).
Definition load16 (a : Z) : M fs Z := gets (fun s => ld16 (fmem s) a).
Definition load8 (a : Z) : M fs Z := gets (fun s => rd (fmem s) a).
(** An [int] field. *)
Definition loadi32 (a : Z) : M fs Z := gets (fun s => i32 (ld32 (fmem s) a)).
Definition store32 (a v : Z) : M fs unit := modify (fun s => with_mem (st32 (fmem s) a v) s).
Definition store_buffer (a : Z) (l : list Z) : M fs unit :=
  modify (fun s => with_mem (store_bytes (fmem s) a l) s).

(** A local structure of which a read fills the front. *)
Definition overlay (l old : list Z) : list Z := l ++ drop (length l) old.
(** Writing a local array; [None] is outside. *)
Definition buf_set (buf : list Z) (i v : Z) : option (list Z) :=
  if (0 <=? i) && (i <? Z.of_nat (length buf)) then Some (<[Z.to_nat i := v]> buf) else None.

(** ** Operations *)

Section operations.
Context `{KAllocator} (dev : ata_device) (poll_fuel : nat).
(** The address of the file-system object, and what the stack held where
    [fat16_get_total_items_for_directory] puts its local item. *)
Context (fat16_fs : Z) (stack_item : list Z).

Definition alloc (size : Z) : M fs Z :=
  fun s => let '(p, m') := ka_alloc size (fmem s) in Ret p (with_mem m' s).
Definition free (p : Z) : M fs unit := modify (fun s => with_mem (ka_free p (fmem s)) s).

(** The stream functions through a pointer. *)
Definition new_stream (id : Z) : M fs Z :=
  fun s =>
    match get_new_disk_stream id (fmem s) with
    | (Some (p, d), m') => Ret p (with_stream p d (with_mem m' s))
    | (None, m') => Ret 0 (with_mem m' s)
    end.
Definition on_stream {A} (p : Z) (c : M disk_stream A) : M fs A :=
  fun s =>
    match streams s !! p with
    | None => Fault
    | Some d =>
      match c d with
      | Ret a d' => Ret a (with_stream p d' s)
      | Hang d' => Hang (with_stream p d' s)
      | Fault => Fault
      | NoFuel => NoFuel
      end
    end.
Definition seek (p position : Z) : M fs Z := on_stream p (diskstreamer_seek position).
(** The recursion of [diskstreamer_read] takes one call per sector. *)
Definition read (p total : Z) : M fs (list Z * Z) :=
  on_stream p (diskstreamer_read dev poll_fuel (Z.to_nat (total / 512) + 2) total).

Definition fat16_init_private (private_obj : Z) : M fs unit :=
  let! s := get in
  modify (fun s => with_mem (memset private_obj 0 sizeof_fat_private (fmem s)) s) ;;;
  let id := disk_id (the_disk s) in
  let! s1 := new_stream id in store32 (private_obj + fp_cluster_read_stream) s1 ;;;
  let! s2 := new_stream id in store32 (private_obj + fp_fat_read_stream) s2 ;;;
  let! s3 := new_stream id in store32 (private_obj + fp_directory_stream) s3.

Definition fat16_sector_to_absolute (sector : Z) : M fs Z :=
  gets (fun s => i32 (sector * sector_size (the_disk s))).

(** The entry-counting loop: [item] is the local buffer. *)
Fixpoint count_items (fuel : nat) (stream : Z) (item : list Z) (count : Z) : M fs Z :=
  match fuel with
  | O => nofuel
  | S f =>
    let! r := read stream sizeof_item in
    let item' := overlay (fst r) item in
    if negb (snd r =? OK) then ret (- EIO)
    else if default 0 (item' !! 0%nat) =? 0x00 then ret count
    else if default 0 (item' !! 0%nat) =? 0xE5 then count_items f stream item' count
    else count_items f stream item' (count + 1)
  end.

Definition fat16_get_total_items_for_directory (fuel : nat) (directory_start_sector : Z)
  : M fs Z :=
  let! s := get in
  let private := fs_private (the_disk s) in
  let directory_start_pos := i32 (u32 (directory_start_sector * sector_size (the_disk s))) in
  let! stream := load32 (private + fp_directory_stream) in
  let! r := seek stream directory_start_pos in
  if negb (r =? OK) then ret (- EIO) else count_items fuel stream stack_item 0.

Definition fat16_get_root_directory (fuel : nat) (private directory : Z) : M fs Z :=
  let! fat_copies := load8 (private + hdr_fat_copies) in
  let! sectors_per_fat := load16 (private + hdr_sectors_per_fat) in
  let! reserved_sectors := load16 (private + hdr_reserved_sectors) in
  let root_directory_pos := fat_copies * sectors_per_fat + reserved_sectors in
  let! root_dir_entries := load16 (private + hdr_root_dir_entries) in
  let root_dir_size := root_dir_entries * sizeof_item in
  let! s0 := get in
  (* the divisions by the sector size *)
  (if sector_size (the_disk s0) =? 0 then fault else ret tt) ;;;
  let! total_items := fat16_get_total_items_for_directory fuel root_directory_pos in
  let! dir := alloc root_dir_size in
  if dir =? 0 then ret (- ENOMEM)
  else
    let! stream := load32 (private + fp_directory_stream) in
    let! absolute := fat16_sector_to_absolute root_directory_pos in
    let! r := seek stream absolute in
    if negb (r =? OK) then ret (- EIO)
    else
      let! b := read stream root_dir_size in
      store_buffer dir (fst b) ;;;
      if negb (snd b =? OK) then ret (- EIO)
      else
        store32 (directory + dir_item) dir ;;;
        store32 (directory + dir_total) total_items ;;;
        store32 (directory + dir_sector_pos) root_directory_pos ;;;
        let! s := get in
        store32 (directory + dir_ending_sector_pos)
          (root_directory_pos + cdiv root_dir_size (sector_size (the_disk s))) ;;;
        ret 0.

Definition fat16_resolve (fuel : nat) : M fs Z :=
  let! private := alloc sizeof_fat_private in
  fat16_init_private private ;;;
  modify (fun s => {| fmem := fmem s; streams := streams s; the_disk :=
    {| disk_type := disk_type (the_disk s); sector_size := sector_size (the_disk s);
       disk_id := disk_id (the_disk s); disk_filesystem := fat16_fs; fs_private := private |} |}) ;;;
  let! s := get in
  let! stream := new_stream (disk_id (the_disk s)) in
  if stream =? 0 then ret (- ENOMEM)
  else
    let! b := read stream sizeof_fat_h in
    store_buffer (private + fp_header) (fst b) ;;;
    if negb (snd b =? OK) then ret (- EIO)
    else
      let! signature := load8 (private + hdr_signature) in
      if negb (signature =? FAT16_SIGNATURE) then ret (- EFSNOTUS)
      else
        let! r := fat16_get_root_directory fuel private (private + fp_root_directory) in
        if negb (r =? OK) then ret (- EIO) else ret 0.

(** The copying loop of [fat16_to_proper_string]: [out] indexes the local
    buffer [buf], [inp] is a pointer. *)
Fixpoint fat16_to_proper_string (fuel : nat) (m : mem) (buf : list Z) (out inp : Z)
  : outcome unit (list Z * Z) :=
  match fuel with
  | O => NoFuel
  | S f =>
    if negb (rd m inp =? 0x00) && negb (rd m inp =? 0x20) then
      match buf_set buf out (rd m inp) with
      | None => Fault
      | Some buf' => fat16_to_proper_string f m buf' (out + 1) (inp + 1)
      end
    else if rd m inp =? 0x20 then
      match buf_set buf out 0x00 with None => Fault | Some buf' => Ret (buf', out) tt end
    else Ret (buf, out) tt
  end.

(** [memset(out, 0, max_len)] clears the whole local buffer. *)
Definition fat16_get_full_relative_filename (m : mem) (item : Z) (buf : list Z)
  : outcome unit (list Z) :=
  let buf0 := replicate (length buf) 0 in
  match fat16_to_proper_string 300 m buf0 0 (item + item_filename) with
  | Ret (buf1, out1) _ =>
    if negb (rd m (item + item_ext) =? 0x00) && negb (rd m (item + item_ext) =? 0x20) then
      match buf_set buf1 out1 46 with
      | None => Fault
      | Some buf2 =>
        match fat16_to_proper_string 300 m buf2 (out1 + 1) (item + item_ext) with
        | Ret (buf3, _) _ => Ret buf3 tt
        | Hang s => Hang s | Fault => Fault | NoFuel => NoFuel
        end
      end
    else Ret buf1 tt
  | Hang s => Hang s | Fault => Fault | NoFuel => NoFuel
  end.

Definition fat16_clone_direcotry_item (item : Z) : M fs Z :=
  let! dir_item_copy := alloc sizeof_item in
  if dir_item_copy =? 0 then ret 0
  else
    modify (fun s => with_mem (memcpy dir_item_copy item sizeof_item (fmem s)) s) ;;;
    ret dir_item_copy.

Definition fat16_cluster_to_sector (private cluster : Z) : M fs Z :=
  let! ending := loadi32 (private + fp_root_directory + dir_ending_sector_pos) in
  let! spc := load8 (private + hdr_sectors_per_cluster) in
  ret (i32 (ending + (cluster - 2) * spc)).

(** The high half is not shifted. *)
Definition fat16_get_first_cluster (item : Z) : M fs Z :=
  let! high := load16 (item + item_high_cluster) in
  let! low := load16 (item + item_low_cluster) in
  ret (Z.lor high low).

Definition fat16_get_first_fat_sector (private : Z) : M fs Z :=
  load16 (private + hdr_reserved_sectors).

Definition fat16_get_fat_entry (cluster : Z) : M fs Z :=
  let! s := get in
  let private := fs_private (the_disk s) in
  let! stream := load32 (private + fp_fat_read_stream) in
  if stream =? 0 then ret (-1)
  else
    let! first := fat16_get_first_fat_sector private in
    let fat_table_position := u32 (first * sector_size (the_disk s)) in
    let! r := seek stream (i32 (u32 (fat_table_position + cluster * LIEBE_OS_FAT16_ENTRY_SIZE))) in
    if r <? 0 then ret r
    else
      let! b := read stream 2 in
      let result := overlay (fst b) [0; 0] in
      if snd b <? 0 then ret (snd b)
      else ret (default 0 (result !! 0%nat) + 256 * default 0 (result !! 1%nat)).

(** The loop over the chain; the reserved values are those of FAT12. *)
Fixpoint follow_chain (n : nat) (cluster_to_use : Z) : M fs Z :=
  match n with
  | O => ret cluster_to_use
  | S n' =>
    let! entry := fat16_get_fat_entry cluster_to_use in
    if (entry =? 0xFF8) || (entry =? 0xFFF) then ret (- EIO)
    else if entry =? LIEBE_OS_FAT16_BAD_SECTOR then ret (- EIO)
    else if (entry =? 0xFF0) || (entry =? 0xFF6) then ret (- EIO)
    else if entry =? 0x00 then ret (- EIO)
    else follow_chain n' entry
  end.

Definition size_of_cluster : M fs Z :=
  let! s := get in
  let! spc := load8 (fs_private (the_disk s) + hdr_sectors_per_cluster) in
  ret (spc * sector_size (the_disk s)).

Definition fat16_get_cluster_for_offset (starting_cluster offset : Z) : M fs Z :=
  let! size_of_cluster_bytes := size_of_cluster in
  if size_of_cluster_bytes =? 0 then fault
  else
    let cluster_ahead := cdiv offset size_of_cluster_bytes in
    follow_chain (Z.to_nat cluster_ahead) starting_cluster.

Definition fat16_free_directory (directory : Z) : M fs unit :=
  if directory =? 0 then ret tt
  else
    let! item := load32 (directory + dir_item) in
    (if negb (item =? 0) then free item else ret tt) ;;;
    free directory.

Fixpoint fat16_read_internal_from_stream (fuel : nat) (stream cluster offset total out : Z)
  : M fs Z :=
  match fuel with
  | O => nofuel
  | S f =>
    let! s := get in
    let private := fs_private (the_disk s) in
    let! size_of_cluster_bytes := size_of_cluster in
    let! cluster_to_use := fat16_get_cluster_for_offset cluster offset in
    if cluster_to_use <? 0 then ret cluster_to_use
    else
      let offset_from_cluster := cmod offset size_of_cluster_bytes in
      let! starting_sector := fat16_cluster_to_sector private cluster_to_use in
      let starting_pos := i32 (starting_sector * sector_size (the_disk s) + offset_from_cluster) in
      let total_to_read :=
        if size_of_cluster_bytes <? total then size_of_cluster_bytes else total in
      let! r := seek stream starting_pos in
      if negb (r =? 0) then ret r
      else
        let! b := read stream total_to_read in
        store_buffer out (fst b) ;;;
        if negb (snd b =? OK) then ret (snd b)
        else
          let total' := total - total_to_read in
          if 0 <? total' then
            fat16_read_internal_from_stream f stream cluster (offset + total_to_read) total'
              (out + total_to_read)
          else ret (snd b)
  end.

Definition fat16_read_internal (fuel : nat) (starting_cluster offset total out : Z) : M fs Z :=
  let! s := get in
  let! stream := load32 (fs_private (the_disk s) + fp_cluster_read_stream) in
  fat16_read_internal_from_stream fuel stream starting_cluster offset total out.

(** [fuel] bounds the entry count, [rfuel] the clusters of one read.  The
    status [res] is dropped: the directory is returned even when it could
    not be read. *)
Definition fat16_load_fat_directory (fuel rfuel : nat) (item : Z) : M fs Z :=
  let! s := get in
  let fat_private := fs_private (the_disk s) in
  let! attribute := load8 (item + item_attribute) in
  if Z.land attribute FAT_FILE_SUBDIRECTORY =? 0 then ret 0
  else
    let! directory := alloc sizeof_fat_directory in
    if directory =? 0 then ret directory
    else
      let! cluster := fat16_get_first_cluster item in
      let! cluster_sector := fat16_cluster_to_sector fat_private cluster in
      let! total_items := fat16_get_total_items_for_directory fuel cluster_sector in
      store32 (directory + dir_total) total_items ;;;
      let directory_size := i32 (u32 (total_items * sizeof_item)) in
      let! items := alloc (u32 directory_size) in
      store32 (directory + dir_item) items ;;;
      if items =? 0 then ret directory
      else
        fat16_read_internal rfuel cluster 0x00 directory_size items ;;;
        ret directory.

Definition fat16_new_fat_item_for_directory_item (fuel rfuel : nat) (item : Z) : M fs Z :=
  let! item_copy := alloc sizeof_fat_item in
  if item_copy =? 0 then ret 0
  else
    let! attribute := load8 (item + item_attribute) in
    (if negb (Z.land attribute FAT_FILE_SUBDIRECTORY =? 0) then
       let! directory := fat16_load_fat_directory fuel rfuel item in
       store32 (item_copy + fi_pointer) directory ;;;
       store32 (item_copy + fi_type) FAT_ITEM_TYPE_DIRECTORY
     else
       store32 (item_copy + fi_type) FAT_ITEM_TYPE_FILE ;;;
       let! copy := fat16_clone_direcotry_item item in
       store32 (item_copy + fi_pointer) copy) ;;;
    ret item_copy.

(** The search loop does not stop at a match: a later one replaces it.
    [name] is a pointer. *)
Fixpoint find_item (n : nat) (fuel rfuel : nat) (directory i name tmp_item : Z) : M fs Z :=
  match n with
  | O => ret tmp_item
  | S n' =>
    let! items := load32 (directory + dir_item) in
    let item := items + i * sizeof_item in
    let! s := get in
    match fat16_get_full_relative_filename (fmem s) item
            (replicate (Z.to_nat LIEBE_OS_MAX_PATH_LEN) 0) with
    | Ret tmp_filename _ =>
      let! tmp_item' :=
        (if istrncmp (at_list tmp_filename) (at_mem (fmem s) name) LIEBE_OS_MAX_PATH_LEN =? 0
         then fat16_new_fat_item_for_directory_item fuel rfuel item
         else ret tmp_item) in
      find_item n' fuel rfuel directory (i + 1) name tmp_item'
    | Hang _ => hang
    | Fault => fault
    | NoFuel => nofuel
    end
  end.

Definition fat16_find_item_in_directory (fuel rfuel : nat) (directory name : Z) : M fs Z :=
  let! total := loadi32 (directory + dir_total) in
  find_item (Z.to_nat total) fuel rfuel directory 0 name 0.

Definition fat16_fat_item_free (item : Z) : M fs unit :=
  let! type := load32 (item + fi_type) in
  let! p := load32 (item + fi_pointer) in
  (if type =? FAT_ITEM_TYPE_DIRECTORY then fat16_free_directory p
   else if type =? FAT_ITEM_TYPE_FILE then free p else ret tt) ;;;
  free item.

(** The walk over the path's components; [pfuel] bounds their number. *)
Fixpoint walk_path (pfuel fuel rfuel : nat) (current_item next_part : Z) : M fs Z :=
  match pfuel with
  | O => nofuel
  | S p =>
    if next_part =? 0 then ret current_item
    else
      (* a missing component makes [current_item] null *)
      (if current_item =? 0 then fault else ret tt) ;;;
      let! type := load32 (current_item + fi_type) in
      if negb (type =? FAT_ITEM_TYPE_DIRECTORY) then ret 0
      else
        let! directory := load32 (current_item + fi_pointer) in
        let! name := load32 (next_part + pp_part) in
        let! tmp_item := fat16_find_item_in_directory fuel rfuel directory name in
        fat16_fat_item_free current_item ;;;
        let! next := load32 (next_part + pp_next) in
        walk_path p fuel rfuel tmp_item next
  end.

Definition fat16_get_directory_entry (pfuel fuel rfuel : nat) (path : Z) : M fs Z :=
  let! s := get in
  let! name := load32 (path + pp_part) in
  let! root_item :=
    fat16_find_item_in_directory fuel rfuel (fs_private (the_disk s) + fp_root_directory) name in
  if root_item =? 0 then ret 0
  else
    let! next := load32 (path + pp_next) in
    walk_path pfuel fuel rfuel root_item next.

(** A pointer, or a status cast to one. *)
Definition fat16_open (pfuel fuel rfuel : nat) (path mode : Z) : M fs Z :=
  if negb (mode =? FILE_MODE_READ) then ret (ERROR (- ERDONLY))
  else
    let! descriptor := alloc sizeof_fat_file_descriptor in
    if descriptor =? 0 then ret (ERROR (- ENOMEM))
    else
      let! item := fat16_get_directory_entry pfuel fuel rfuel path in
      store32 (descriptor + fd_item) item ;;;
      if item =? 0 then ret (ERROR (- EIO))
      else
        store32 (descriptor + fd_pos) 0 ;;;
        ret descriptor.

(** [nmemb] reads of [size] bytes. *)
Fixpoint read_members (n rfuel : nat) (item offset size out_ptr : Z) : M fs Z :=
  match n with
  | O => ret 0
  | S n' =>
    let! cluster := fat16_get_first_cluster item in
    let! res := fat16_read_internal rfuel cluster offset (i32 size) out_ptr in
    if ISERR res then ret res
    else read_members n' rfuel item (i32 (offset + size)) size (u32 (out_ptr + size))
  end.

(** Nothing here looks at the item's type or stores the position back. *)
Definition fat16_read (rfuel : nat) (descriptor size nmemb out_ptr : Z) : M fs Z :=
  let! fat_item := load32 (descriptor + fd_item) in
  let! item := load32 (fat_item + fi_pointer) in
  let! offset := loadi32 (descriptor + fd_pos) in
  let! res := read_members (Z.to_nat nmemb) rfuel item offset size out_ptr in
  if ISERR res then ret res else ret (i32 nmemb).

Definition fat16_seek (desc offset seek_mode : Z) : M fs Z :=
  let! desc_item := load32 (desc + fd_item) in
  let! type := load32 (desc_item + fi_type) in
  if negb (type =? FAT_ITEM_TYPE_FILE) then ret (- EINVARG)
  else
    let! ritem := load32 (desc_item + fi_pointer) in
    let! filesize := load32 (ritem + item_filesize) in
    if filesize <=? offset then ret (- EIO)
    else if seek_mode =? SEEK_SET then store32 (desc + fd_pos) offset ;;; ret 0
    else if seek_mode =? SEEK_END then ret (i32 (u32 (filesize - offset)))
    else if seek_mode =? SEEK_CUR then
      let! pos := load32 (desc + fd_pos) in
      store32 (desc + fd_pos) (pos + offset) ;;; ret 0
    else ret (- EINVARG).

Definition fat16_stat (desc stat : Z) : M fs Z :=
  let! desc_item := load32 (desc + fd_item) in
  let! type := load32 (desc_item + fi_type) in
  if negb (type =? FAT_ITEM_TYPE_FILE) then ret (- EINVARG)
  else
    let! ritem := load32 (desc_item + fi_pointer) in
    let! filesize := load32 (ritem + item_filesize) in
    store32 (stat + stat_filesize) filesize ;;;
    store32 (stat + stat_flags) 0x00 ;;;
    let! attribute := load8 (ritem + item_attribute) in
    if negb (Z.land attribute FAT_FILE_READ_ONLY =? 0) then
      let! flags := load32 (stat + stat_flags) in
      store32 (stat + stat_flags) (Z.lor flags FILE_STAT_READ_ONLY) ;;; ret 0
    else ret 0.

Definition fat16_free_file_descriptor (desc : Z) : M fs unit :=
  let! item := load32 (desc + fd_item) in
  fat16_fat_item_free item ;;;
  free desc.

Definition fat16_close (private : Z) : M fs Z := fat16_free_file_descriptor private ;;; ret 0.

End operations.
