(* ===== verification/Fat16Facts.v ===== *)
(** * Correctness of the FAT16 file system

    Theorems about the definitions of [Fat16], on a drive that holds [image]:
    counting the entries of a directory, turning a directory entry into a
    file name, following the allocation table and reading a file's bytes,
    and seeking.  [mounted] is the part of the state a successful
    [fat16_resolve] sets up. *)
From S2P Require Import Prelude Config Memory CString Heap KHeap Disk Fat16.

(** ** Specification *)

(** The private structure the disk object points to. *)
Definition priv (s : fs) : Z := fs_private (the_disk s).

(** A stream on the disk object. *)
Definition has_stream (s : fs) (p : Z) : Prop :=
  exists q, streams s !! p = Some {| pos := q; stream_disk := disk_obj_ptr |}.

Record mounted (s : fs) : Prop := {
  mt_sector : sector_size (the_disk s) = 512;
  mt_cluster : has_stream s (ld32 (fmem s) (priv s + fp_cluster_read_stream));
  mt_fat : has_stream s (ld32 (fmem s) (priv s + fp_fat_read_stream)) /\
    ld32 (fmem s) (priv s + fp_fat_read_stream) <> 0;
  mt_directory : has_stream s (ld32 (fmem s) (priv s + fp_directory_stream)) }.

(** Two states that differ in stream positions only. *)
Record same_store (s s' : fs) : Prop := {
  ss_mem : fmem s' = fmem s;
  ss_disk : the_disk s' = the_disk s;
  ss_streams : forall p, has_stream s p -> has_stream s' p }.

(** Two states in which the mounted volume is the same. *)
Record kept (s s' : fs) : Prop := {
  kp_mem : forall a, priv s <= a < priv s + sizeof_fat_private -> rd (fmem s') a = rd (fmem s) a;
  kp_disk : the_disk s' = the_disk s;
  kp_streams : forall p, has_stream s p -> has_stream s' p }.

(** The first byte of entry [i] of the directory at byte [base], and the
    number of its entries from [k] to [n] that are not deleted. *)
Definition entry_mark (image : Z -> Z) (base i : Z) : Z := image (base + 32 * i).
Definition live_entries (image : Z -> Z) (base k n : Z) : Z :=
  Z.of_nat (length (filter (fun i => entry_mark image base i <> 0xE5) (seqZ k (n - k)))).

(** The geometry of the mounted volume. *)
Definition reserved (s : fs) : Z := ld16 (fmem s) (priv s + hdr_reserved_sectors).
Definition spc (s : fs) : Z := rd (fmem s) (priv s + hdr_sectors_per_cluster).
Definition data_start (s : fs) : Z :=
  i32 (ld32 (fmem s) (priv s + fp_root_directory + dir_ending_sector_pos)).
Definition cluster_bytes (s : fs) : Z := spc s * 512.

(** The table's entry for a cluster, the cluster [k] links further on, and
    the position of a cluster's bytes. *)
Definition fat_entry (image : Z -> Z) (s : fs) (c : Z) : Z :=
  image (reserved s * 512 + 2 * c) + 256 * image (reserved s * 512 + 2 * c + 1).
Definition nth_cluster (image : Z -> Z) (s : fs) (c : Z) (k : nat) : Z :=
  Nat.iter k (fat_entry image s) c.
Definition cluster_pos (s : fs) (c : Z) : Z := (data_start s + (c - 2) * spc s) * 512.

(** An entry the chain can go on from, as [fat16_get_cluster_for_offset]
    sees it. *)
Definition link_ok (e : Z) : Prop :=
  e <> 0xFF8 /\ e <> 0xFFF /\ e <> 0xFF7 /\ e <> 0xFF0 /\ e <> 0xFF6 /\ e <> 0.

(** Byte [o] of the file that starts at cluster [c], and a run of them. *)
Definition file_byte (image : Z -> Z) (s : fs) (c o : Z) : Z :=
  image (cluster_pos s (nth_cluster image s c (Z.to_nat (o / cluster_bytes s))) +
         o mod cluster_bytes s).
Definition file_bytes (image : Z -> Z) (s : fs) (c off total : Z) : list Z :=
  map (file_byte image s c) (seqZ off total).

(** A cluster whose bytes are at positions the streams can hold: they are
    [int]s, so it lies below 2 GB. *)
Record cluster_ok (s : fs) (c : Z) : Prop := {
  cl_number : 2 <= c < 65536;
  cl_position : cluster_pos s c + cluster_bytes s < 2147483648 - 2048 }.

(** The first [k] links of a chain are usable and its clusters are within
    reach. *)
Record chain_ok (image : Z -> Z) (s : fs) (c : Z) (k : nat) : Prop := {
  ch_link : forall i, (i < k)%nat -> link_ok (nth_cluster image s c (S i));
  ch_range : forall i, (i <= k)%nat -> cluster_ok s (nth_cluster image s c i) }.
Record geometry_ok (s : fs) : Prop := {
  geo_spc : 0 < spc s;
  geo_data : 0 <= data_start s }.

(** ** Lemmas: states *)

Lemma same_store_refl s : same_store s s.
Proof. by split. Qed.

Lemma same_store_trans s1 s2 s3 : same_store s1 s2 -> same_store s2 s3 -> same_store s1 s3.
Proof. intros [H1 H2 H3] [H4 H5 H6]. split; [congruence|congruence|auto]. Qed.

Lemma with_stream_same p q s :
  same_store s (with_stream p {| pos := q; stream_disk := disk_obj_ptr |} s).
Proof.
  split; [done|done|]. intros p' [q' Hp]. destruct (decide (p' = p)) as [->|Hne].
  - exists q. apply lookup_insert_eq.
  - exists q'. cbn. by rewrite lookup_insert_ne.
Qed.

Lemma with_stream_twice p d d' s : with_stream p d (with_stream p d' s) = with_stream p d s.
Proof. unfold with_stream. cbn. by rewrite insert_insert_eq. Qed.

Lemma same_store_kept s s' : same_store s s' -> kept s s'.
Proof. intros [H1 H2 H3]. split; [by rewrite H1|done|done]. Qed.

Lemma kept_trans s1 s2 s3 : kept s1 s2 -> kept s2 s3 -> kept s1 s3.
Proof.
  intros [H1 H2 H3] [H4 H5 H6]. split; [|congruence|auto].
  intros a Ha. rewrite H4; [by apply H1|]. unfold priv in *. by rewrite H2.
Qed.

(** A word, half-word or byte of the private structure. *)
Lemma kept_word s s' k : kept s s' -> 0 <= k <= 88 ->
  ld32 (fmem s') (priv s' + k) = ld32 (fmem s) (priv s + k).
Proof.
  intros [Hm Hd _] Hk. unfold priv at 1. rewrite Hd. fold (priv s).
  apply ld32_ext. intros i Hi. apply Hm. unfold sizeof_fat_private. lia.
Qed.

Lemma kept_mounted s s' : kept s s' -> mounted s -> mounted s'.
Proof.
  intros Hk [H1 H2 [H3 H4] H5]. pose proof Hk as [_ Hd Hs].
  split; rewrite ?(kept_word s s') by (done || (cbv; split; discriminate)); auto. by rewrite Hd.
Qed.

(** The geometry is part of the private structure. *)
Lemma kept_geometry s s' : kept s s' ->
  reserved s' = reserved s /\ spc s' = spc s /\ data_start s' = data_start s.
Proof.
  intros Hk. pose proof Hk as [Hm Hd _].
  assert (Hrd : forall k, 0 <= k < 92 -> rd (fmem s') (priv s' + k) = rd (fmem s) (priv s + k)).
  { intros k Hk'. unfold priv at 1. rewrite Hd. fold (priv s). apply Hm.
    unfold sizeof_fat_private. lia. }
  unfold reserved, spc, data_start, ld16. split; [|split].
  - rewrite <- !Z.add_assoc. by rewrite !Hrd by (cbv; split; discriminate || done).
  - by rewrite Hrd by (cbv; split; discriminate || done).
  - rewrite <- !Z.add_assoc. by rewrite (kept_word s s') by (done || (cbv; split; discriminate)).
Qed.

Lemma kept_cluster_ok s s' c : kept s s' -> cluster_ok s c -> cluster_ok s' c.
Proof.
  intros Hk [H1 H2]. destruct (kept_geometry _ _ Hk) as (_ & E1 & E2).
  split; unfold cluster_pos, cluster_bytes in *; rewrite ?E1, ?E2; done.
Qed.

Section facts.
Context `{KAllocator} (dev : ata_device) (poll_fuel : nat) (image : Z -> Z).
Hypothesis Hdrive : drive_ok dev poll_fuel image.

(** ** Lemmas: streams through pointers *)

Lemma seek_eq p q s :
  has_stream s p ->
  seek p q s = Ret 0 (with_stream p {| pos := q; stream_disk := disk_obj_ptr |} s).
Proof. intros [q' E]. unfold seek, on_stream. by rewrite E. Qed.

Lemma read_eq p q total s :
  streams s !! p = Some {| pos := q; stream_disk := disk_obj_ptr |} ->
  0 <= q -> 0 <= total -> q + total < 2147483648 - 512 ->
  q mod 512 = 0 \/ q mod 512 + total < 512 ->
  read dev poll_fuel p total s =
    Ret (image_bytes image q total, 0)
      (with_stream p {| pos := q + total; stream_disk := disk_obj_ptr |} s).
Proof.
  intros E Hq Ht Hb Ha. unfold read, on_stream. rewrite E.
  rewrite (stream_inside _ _ image) by (done || lia). done.
Qed.

Lemma overlay_head q n old : 0 < n -> default 0 (overlay (image_bytes image q n) old !! 0%nat) = image q.
Proof.
  intros Hn. unfold overlay, image_bytes. rewrite seqZ_cons by lia. done.
Qed.

(** Reading directory entry [k] of the sector at [base]: at the last one the
    stream falls back to entry 1. *)
Lemma read_entry p base k s :
  base mod 512 = 0 -> 0 <= base < 2147483648 - 2048 -> 0 <= k < 16 ->
  streams s !! p = Some {| pos := base + 32 * k; stream_disk := disk_obj_ptr |} ->
  read dev poll_fuel p sizeof_item s =
    Ret (image_bytes image (base + 32 * k) 32, 0)
      (with_stream p {| pos := base + (if k =? 15 then 32 else 32 * (k + 1));
                        stream_disk := disk_obj_ptr |} s).
Proof.
  intros Ha Hb Hk E. unfold sizeof_item. destruct (Z.eqb_spec k 15) as [->|Hne].
  - unfold read, on_stream. rewrite E. rewrite (stream_short _ _ image) by (done || dlia).
    replace (Z.max _ _) with 32 by dlia.
    by replace (base + 32 * 15 + 32 - (base + 32 * 15) mod 512) with (base + 32) by dlia.
  - rewrite (read_eq p (base + 32 * k)) by (done || (try right; dlia)).
    by replace (base + 32 * k + 32) with (base + 32 * (k + 1)) by lia.
Qed.

(** ** Lemmas: counting directory entries *)

(** One turn of the loop, on an entry that is not the end marker. *)
Lemma count_items_step f p base k item count s :
  base mod 512 = 0 -> 0 <= base < 2147483648 - 2048 -> 0 <= k < 16 ->
  streams s !! p = Some {| pos := base + 32 * k; stream_disk := disk_obj_ptr |} ->
  entry_mark image base k <> 0 ->
  exists item', count_items dev poll_fuel (S f) p item count s =
    count_items dev poll_fuel f p item'
      (if entry_mark image base k =? 0xE5 then count else count + 1)
      (with_stream p {| pos := base + (if k =? 15 then 32 else 32 * (k + 1));
                        stream_disk := disk_obj_ptr |} s).
Proof.
  intros Ha Hb Hk E Hm. cbn [count_items]. rewrite (bind_Ret _ _ _ _ _ (read_entry p base k s Ha Hb Hk E)).
  cbn [fst snd]. rewrite overlay_head by lia. change (0 =? OK) with true. cbn [negb].
  unfold entry_mark in *. destruct (Z.eqb_spec (image (base + 32 * k)) 0); [done|].
  eexists. by case_bool.
Qed.

Lemma count_items_diverges p base fuel : forall k item count s,
  base mod 512 = 0 -> 0 <= base < 2147483648 - 2048 -> 0 <= k < 16 ->
  streams s !! p = Some {| pos := base + 32 * k; stream_disk := disk_obj_ptr |} ->
  (forall i, 0 <= i < 16 -> entry_mark image base i <> 0) ->
  count_items dev poll_fuel fuel p item count s = NoFuel.
Proof.
  induction fuel as [|f IH]; intros k item count s Ha Hb Hk E Hm; [done|].
  destruct (count_items_step f p base k item count s Ha Hb Hk E (Hm k Hk)) as [item' ->].
  apply (IH (if k =? 15 then 1 else k + 1)); try done; [case_bool; lia|].
  cbn. rewrite lookup_insert_eq. do 3 f_equal. case_bool; lia.
Qed.

Lemma live_entries_step base k n :
  k < n -> live_entries image base k n =
    (if entry_mark image base k =? 0xE5 then 0 else 1) + live_entries image base (k + 1) n.
Proof.
  intros Hk. unfold live_entries. rewrite seqZ_cons by lia. rewrite filter_cons.
  replace (Z.pred (n - k)) with (n - (k + 1)) by lia. rewrite Z.add_1_r.
  destruct (Z.eqb_spec (entry_mark image base k) 0xE5), (decide (entry_mark image base k <> 0xE5));
    try done. cbn [length]. lia.
Qed.

Lemma count_items_counts p base n fuel : forall k item count s,
  base mod 512 = 0 -> 0 <= base < 2147483648 - 2048 -> 0 <= k <= n -> n < 16 ->
  (Z.to_nat (n - k) < fuel)%nat ->
  streams s !! p = Some {| pos := base + 32 * k; stream_disk := disk_obj_ptr |} ->
  (forall i, k <= i < n -> entry_mark image base i <> 0) -> entry_mark image base n = 0 ->
  exists s', count_items dev poll_fuel fuel p item count s =
    Ret (count + live_entries image base k n) s' /\ same_store s s'.
Proof.
  induction fuel as [|f IH]; intros k item count s Ha Hb Hk Hn Hf E Hm Hz; [lia|].
  destruct (decide (k = n)) as [->|Hne].
  - cbn [count_items]. rewrite (bind_Ret _ _ _ _ _ (read_entry p base n s Ha Hb ltac:(lia) E)).
    cbn [fst snd]. rewrite overlay_head by lia. change (0 =? OK) with true. cbn [negb].
    unfold entry_mark in Hz. rewrite Hz. cbn [Z.eqb].
    eexists. split; [|apply with_stream_same]. unfold live_entries, ret.
    rewrite Z.sub_diag. cbn. by rewrite Z.add_0_r.
  - destruct (count_items_step f p base k item count s Ha Hb ltac:(lia) E (Hm k ltac:(lia)))
      as [item' ->]. destruct (Z.eqb_spec k 15); [lia|].
    destruct (IH (k + 1) item' (if entry_mark image base k =? 0xE5 then count else count + 1)
      (with_stream p {| pos := base + 32 * (k + 1); stream_disk := disk_obj_ptr |} s))
      as (s' & -> & Hs); try done; try lia.
    + cbn. by rewrite lookup_insert_eq.
    + intros i Hi. apply Hm. lia.
    + exists s'. split; [|by eapply same_store_trans; [apply with_stream_same|]].
      rewrite (live_entries_step base k n) by lia.
      enough (forall a b : Z, a = b -> Ret a s' = Ret b s') as HR by (apply HR; case_bool; lia).
      by intros a b ->.
Qed.

(** The scan starts at the first entry of the sector. *)
Lemma total_items_unfold stack_item fuel sector s :
  mounted s -> 0 <= sector < 4194300 ->
  fat16_get_total_items_for_directory dev poll_fuel stack_item fuel sector s =
    count_items dev poll_fuel fuel (ld32 (fmem s) (priv s + fp_directory_stream)) stack_item 0
      (with_stream (ld32 (fmem s) (priv s + fp_directory_stream))
         {| pos := sector * 512 + 32 * 0; stream_disk := disk_obj_ptr |} s).
Proof.
  intros Hm Hs. unfold fat16_get_total_items_for_directory.
  unfold bind at 1, get. unfold bind at 1, load32, gets.
  rewrite (mt_sector _ Hm). rewrite u32_id, i32_id by lia.
  rewrite (bind_Ret _ _ _ _ _ (seek_eq _ _ _ (mt_directory _ Hm))).
  change (0 =? OK) with true. cbn [negb]. by rewrite Z.add_0_r.
Qed.

(** ** Lemmas: the allocation table *)

(** A two-byte read never crosses a sector: table entries are aligned. *)
Lemma fat_entry_spec c s :
  mounted s -> 0 <= c < 65536 ->
  exists s', fat16_get_fat_entry dev poll_fuel c s = Ret (fat_entry image s c) s' /\ same_store s s'.
Proof.
  intros Hm Hc. unfold fat16_get_fat_entry.
  unfold bind at 1, get. unfold bind at 1, load32, gets.
  destruct (mt_fat _ Hm) as [Hst Hnz]. fold (priv s).
  destruct (Z.eqb_spec (ld32 (fmem s) (priv s + fp_fat_read_stream)) 0); [done|].
  set (p := ld32 (fmem s) (priv s + fp_fat_read_stream)) in *.
  unfold fat16_get_first_fat_sector, bind at 1, load16, gets. fold (reserved s).
  rewrite (mt_sector _ Hm).
  assert (Hr : 0 <= reserved s < 65536) by apply ld16_range.
  unfold LIEBE_OS_FAT16_ENTRY_SIZE. rewrite (u32_id (reserved s * 512)), u32_id, i32_id by lia.
  set (q := reserved s * 512 + c * 2).
  rewrite (bind_Ret _ _ _ _ _ (seek_eq p q s Hst)). cbn [Z.ltb Z.compare].
  set (s1 := with_stream p {| pos := q; stream_disk := disk_obj_ptr |} s).
  assert (E1 : streams s1 !! p = Some {| pos := q; stream_disk := disk_obj_ptr |})
    by (unfold s1; cbn; apply lookup_insert_eq).
  assert (Hread : exists q', read dev poll_fuel p 2 s1 =
    Ret (image_bytes image q 2, 0) (with_stream p {| pos := q'; stream_disk := disk_obj_ptr |} s1)).
  { unfold read, on_stream. rewrite E1. destruct (Z.le_gt_cases 512 (q mod 512 + 2)).
    - eexists. rewrite (stream_short _ _ image) by (done || unfold q in *; dlia).
      replace (Z.max _ _) with 2 by (unfold q in *; dlia). done.
    - eexists. rewrite (stream_inside _ _ image); [done|done|unfold q; lia|lia|unfold q; lia|lia|].
      cbn; lia. }
  destruct Hread as [q' Hread]. rewrite (bind_Ret _ _ _ _ _ Hread).
  cbn [fst snd Z.ltb Z.compare]. unfold ret.
  eexists. split; [|eapply same_store_trans; apply with_stream_same].
  f_equal. unfold fat_entry, image_bytes, overlay.
  rewrite seqZ_cons, seqZ_cons, seqZ_nil by lia. cbn [map length drop app].
  cbn [default from_option lookup list_lookup]. unfold q, id.
  by replace (Z.succ (reserved s * 512 + c * 2)) with (reserved s * 512 + 2 * c + 1) by lia;
    replace (reserved s * 512 + c * 2) with (reserved s * 512 + 2 * c) by lia.
Qed.

Lemma fat_entry_same s s' c : kept s s' -> fat_entry image s' c = fat_entry image s c.
Proof. intros Hs. unfold fat_entry. by destruct (kept_geometry _ _ Hs) as (-> & _). Qed.

Lemma nth_cluster_same s s' c k :
  kept s s' -> nth_cluster image s' c k = nth_cluster image s c k.
Proof.
  intros Hs. unfold nth_cluster. induction k as [|k IH]; [done|]. cbn [Nat.iter nat_rect].
  fold (Nat.iter k (fat_entry image s') c) (Nat.iter k (fat_entry image s) c) in *.
  rewrite IH. by apply fat_entry_same.
Qed.

Lemma nth_cluster_shift s c k :
  nth_cluster image s (fat_entry image s c) k = nth_cluster image s c (S k).
Proof. unfold nth_cluster. by rewrite Nat.iter_succ_r. Qed.

(** Following a usable chain. *)
Lemma follow_chain_spec k : forall c s,
  mounted s -> chain_ok image s c k ->
  exists s', follow_chain dev poll_fuel k c s = Ret (nth_cluster image s c k) s' /\ same_store s s'.
Proof.
  induction k as [|k IH]; intros c s Hm [Hl Hr]; cbn [follow_chain].
  - exists s. split; [done|apply same_store_refl].
  - destruct (fat_entry_spec c s Hm) as (s1 & E & Hs1); [destruct (Hr 0%nat ltac:(lia)) as [Hn _]; cbn in Hn; lia|].
    rewrite (bind_Ret _ _ _ _ _ E).
    destruct (Hl 0%nat ltac:(lia)) as (N1 & N2 & N3 & N4 & N5 & N6). cbn in N1, N2, N3, N4, N5, N6.
    unfold LIEBE_OS_FAT16_BAD_SECTOR.
    repeat match goal with
    | |- context [?a =? ?b] => destruct (Z.eqb_spec a b); [done|]
    end. cbn [orb].
    pose proof (same_store_kept _ _ Hs1) as Hk1.
    destruct (IH (fat_entry image s c) s1) as (s2 & E2 & Hs2).
    + by apply (kept_mounted s).
    + split; intros i Hi; rewrite (nth_cluster_same s s1) by done; rewrite nth_cluster_shift;
        [apply Hl; lia|apply (kept_cluster_ok s); [done|apply Hr; lia]].
    + exists s2. rewrite E2, (nth_cluster_same s s1), nth_cluster_shift by done.
      split; [done|by eapply same_store_trans].
Qed.

(** ** Lemmas: reading a file *)

Lemma map_seqZ_ext {A} (f g : Z -> A) a b n :
  (forall i, 0 <= i < n -> f (a + i) = g (b + i)) -> map f (seqZ a n) = map g (seqZ b n).
Proof.
  intros Hfg. remember (Z.to_nat n) as k eqn:Ek. revert a b n Ek Hfg.
  induction k as [|k IH]; intros a b n Ek Hfg.
  - by rewrite !seqZ_nil by lia.
  - rewrite !(seqZ_cons _ n) by lia. cbn [map]. f_equal.
    + specialize (Hfg 0). rewrite !Z.add_0_r in Hfg. apply Hfg. lia.
    + apply IH; [lia|]. intros i Hi. specialize (Hfg (Z.succ i)).
      replace (Z.succ a + i) with (a + Z.succ i) by lia.
      replace (Z.succ b + i) with (b + Z.succ i) by lia. apply Hfg. lia.
Qed.

Lemma file_bytes_app s c off n k :
  0 <= n -> 0 <= k ->
  file_bytes image s c off (n + k) = file_bytes image s c off n ++ file_bytes image s c (off + n) k.
Proof. intros. unfold file_bytes. by rewrite seqZ_app, map_app. Qed.

Lemma length_file_bytes s c off n : length (file_bytes image s c off n) = Z.to_nat n.
Proof. unfold file_bytes. by rewrite length_map, length_seqZ. Qed.

(** Inside one cluster the file is a stretch of the disk. *)
Lemma file_bytes_chunk s c off n :
  geometry_ok s -> 0 <= off -> off mod cluster_bytes s = 0 -> n <= cluster_bytes s ->
  file_bytes image s c off n =
    image_bytes image (cluster_pos s (nth_cluster image s c (Z.to_nat (off / cluster_bytes s)))) n.
Proof.
  intros [Hspc _] Ho Ha Hn. unfold file_bytes, image_bytes. apply map_seqZ_ext.
  intros i Hi. unfold file_byte. set (cb := cluster_bytes s) in *.
  assert (Hcb : 0 < cb) by (unfold cb, cluster_bytes; lia).
  replace ((off + i) / cb) with (off / cb) by (apply Z.div_unique with (off mod cb + i);
    [left; lia|]; rewrite Ha at 1; rewrite (Z.div_mod off cb) at 1 by lia; lia).
  f_equal. f_equal. rewrite (Z.div_mod off cb), Ha by lia.
  rewrite Z.add_0_r, Z.mul_comm, Z.add_comm, Z.mod_add by lia. apply Z.mod_small. lia.
Qed.

Lemma size_of_cluster_eq s : mounted s -> size_of_cluster s = Ret (cluster_bytes s) s.
Proof.
  intros Hm. unfold size_of_cluster, bind, get, load8, gets, ret.
  by rewrite (mt_sector _ Hm).
Qed.

Lemma cluster_for_offset_spec c off s :
  mounted s -> geometry_ok s -> 0 <= off ->
  chain_ok image s c (Z.to_nat (off / cluster_bytes s)) ->
  exists s', fat16_get_cluster_for_offset dev poll_fuel c off s =
    Ret (nth_cluster image s c (Z.to_nat (off / cluster_bytes s))) s' /\ same_store s s'.
Proof.
  intros Hm [Hspc _] Ho Hc. unfold fat16_get_cluster_for_offset.
  rewrite (bind_Ret _ _ _ _ _ (size_of_cluster_eq s Hm)).
  assert (Hcb : 0 < cluster_bytes s) by (unfold cluster_bytes; lia).
  destruct (Z.eqb_spec (cluster_bytes s) 0); [lia|].
  rewrite cdiv_pos by lia. by apply follow_chain_spec.
Qed.

Lemma cluster_to_sector_eq c s :
  geometry_ok s -> cluster_ok s c ->
  fat16_cluster_to_sector (priv s) c s = Ret (data_start s + (c - 2) * spc s) s.
Proof.
  intros [Hspc Hd] [Hc Hp]. unfold fat16_cluster_to_sector, bind, loadi32, load8, gets, ret.
  fold (data_start s) (spc s). unfold cluster_pos, cluster_bytes in Hp. rewrite i32_id; [done|]. nia.
Qed.

(** The destination of a read is apart from the volume's structure. *)
Definition out_ok (s : fs) (out total : Z) : Prop :=
  out + total <= priv s \/ priv s + sizeof_fat_private <= out.

Lemma kept_out s s' out total : kept s s' -> out_ok s out total -> out_ok s' out total.
Proof. intros [_ Hd _]. unfold out_ok, priv. by rewrite Hd. Qed.

Lemma kept_geometry_ok s s' : kept s s' -> geometry_ok s -> geometry_ok s'.
Proof.
  intros Hk [H1 H2]. destruct (kept_geometry _ _ Hk) as (_ & E1 & E2).
  split; rewrite ?E1, ?E2; done.
Qed.

Lemma kept_chain s s' c k : kept s s' -> chain_ok image s c k -> chain_ok image s' c k.
Proof.
  intros Hk [H1 H2]. split; intros i Hi; rewrite (nth_cluster_same s s') by done; [by apply H1|].
  by apply (kept_cluster_ok s), H2.
Qed.

Lemma kept_file_bytes s s' c off n :
  kept s s' -> file_bytes image s' c off n = file_bytes image s c off n.
Proof.
  intros Hk. unfold file_bytes. apply map_seqZ_ext. intros i Hi.
  unfold file_byte, cluster_bytes, cluster_pos.
  destruct (kept_geometry _ _ Hk) as (_ & -> & ->). by rewrite (nth_cluster_same s s').
Qed.

Lemma chain_ok_le s c j k : (j <= k)%nat -> chain_ok image s c k -> chain_ok image s c j.
Proof. intros Hj [H1 H2]. split; intros i Hi; [apply H1|apply H2]; lia. Qed.

(** One cluster's share of a read: what the chunk before the recursion does. *)
Lemma read_chunk stream c off total out s :
  mounted s -> geometry_ok s -> has_stream s stream -> out_ok s out total ->
  0 <= off -> off mod cluster_bytes s = 0 -> 0 < total ->
  chain_ok image s c (Z.to_nat (off / cluster_bytes s)) ->
  let n := Z.min total (cluster_bytes s) in
  exists s', kept s s' /\ has_stream s' stream /\
    fmem s' = store_bytes (fmem s) out (file_bytes image s c off n) /\
    forall f, fat16_read_internal_from_stream dev poll_fuel (S f) stream c off total out s =
      if 0 <? total - n
      then fat16_read_internal_from_stream dev poll_fuel f stream c (off + n) (total - n) (out + n) s'
      else Ret 0 s'.
Proof.
  intros Hm Hg Hst Hout Ho Ha Ht Hc n.
  assert (Hcb : 0 < cluster_bytes s) by (destruct Hg; unfold cluster_bytes; lia).
  set (k := Z.to_nat (off / cluster_bytes s)) in *.
  destruct (cluster_for_offset_spec c off s Hm Hg Ho Hc) as (s1 & E1 & Hs1). fold k in E1.
  set (cl := nth_cluster image s c k) in *.
  assert (Hcl : cluster_ok s cl) by (by apply (ch_range _ _ _ _ Hc)).
  pose proof (same_store_kept _ _ Hs1) as Hk1.
  pose proof (kept_geometry_ok _ _ Hk1 Hg) as Hg1.
  assert (Epriv : priv s1 = priv s) by (unfold priv; by rewrite (ss_disk _ _ Hs1)).
  assert (Esec : data_start s1 + (cl - 2) * spc s1 = data_start s + (cl - 2) * spc s)
    by (destruct (kept_geometry _ _ Hk1) as (_ & -> & ->); done).
  assert (Hpos : 0 <= cluster_pos s cl < 2147483648 - 1024 - cluster_bytes s).
  { destruct Hg, Hcl as [? Hp]. split; [unfold cluster_pos; nia|lia]. }
  assert (Hpm : cluster_pos s cl mod 512 = 0) by (unfold cluster_pos; apply Z.mod_mul; lia).
  set (s2 := with_stream stream {| pos := cluster_pos s cl; stream_disk := disk_obj_ptr |} s1).
  set (s3 := with_stream stream {| pos := cluster_pos s cl + n; stream_disk := disk_obj_ptr |} s2).
  assert (Hread : read dev poll_fuel stream n s2 = Ret (image_bytes image (cluster_pos s cl) n, 0) s3).
  { apply read_eq; [unfold s2; cbn; apply lookup_insert_eq|lia|lia|lia|by left]. }
  assert (Hk3 : kept s s3).
  { eapply kept_trans; [exact Hk1|]. apply same_store_kept.
    eapply same_store_trans; [apply with_stream_same|apply with_stream_same]. }
  set (s4 := with_mem (store_bytes (fmem s3) out (image_bytes image (cluster_pos s cl) n)) s3).
  assert (Hk4 : kept s3 s4).
  { split; [|done|done]. intros a Ha'. cbn [s4 fmem with_mem]. apply rd_store_bytes_out.
    rewrite length_image_bytes. pose proof (kept_out _ _ _ _ Hk3 Hout) as Hout'.
    unfold out_ok in Hout'. lia. }
  exists s4. split; [by eapply kept_trans|].
  split; [exists (cluster_pos s cl + n); unfold s4, s3; cbn; apply lookup_insert_eq|].
  split.
  { unfold s4, s3, s2. cbn [fmem with_mem with_stream]. rewrite (ss_mem _ _ Hs1).
    unfold n. rewrite file_bytes_chunk by (done || lia). done. }
  intros f. cbn [fat16_read_internal_from_stream]. unfold bind at 1, get.
  rewrite (bind_Ret _ _ _ _ _ (size_of_cluster_eq s Hm)), (bind_Ret _ _ _ _ _ E1).
  destruct (Z.ltb_spec cl 0); [destruct Hcl; lia|]. fold (priv s). rewrite <- Epriv at 1.
  rewrite (bind_Ret _ _ _ _ _ (cluster_to_sector_eq cl s1 Hg1 (kept_cluster_ok _ _ _ Hk1 Hcl))), Esec, (mt_sector _ Hm).
  rewrite cmod_pos, Ha, Z.add_0_r by lia. fold (cluster_pos s cl). rewrite i32_id by lia.
  replace (if cluster_bytes s <? total then cluster_bytes s else total) with n
    by (unfold n; case_bool; lia).
  rewrite (bind_Ret _ _ _ _ _ (seek_eq stream _ s1 ltac:(by apply Hk1))). fold s2.
  cbn [Z.eqb negb]. rewrite (bind_Ret _ _ _ _ _ Hread). cbn [fst snd].
  unfold bind at 1, store_buffer, modify. fold s4. change (0 =? OK) with true. cbn [negb].
  by destruct (0 <? total - n).
Qed.

(** A read that starts on a cluster boundary delivers the file. *)
Lemma read_internal_spec rfuel : forall stream c off total out s,
  mounted s -> geometry_ok s -> has_stream s stream -> out_ok s out total ->
  0 <= off -> off mod cluster_bytes s = 0 -> 0 < total ->
  chain_ok image s c (Z.to_nat ((off + total - 1) / cluster_bytes s)) ->
  (Z.to_nat ((total - 1) / cluster_bytes s) < rfuel)%nat ->
  exists s', fat16_read_internal_from_stream dev poll_fuel rfuel stream c off total out s = Ret 0 s' /\
    fmem s' = store_bytes (fmem s) out (file_bytes image s c off total) /\ kept s s'.
Proof.
  induction rfuel as [|f IH]; intros stream c off total out s Hm Hg Hst Hout Ho Ha Ht Hc Hf; [lia|].
  assert (Hcb : 0 < cluster_bytes s) by (destruct Hg; unfold cluster_bytes; lia).
  destruct (read_chunk stream c off total out s) as (s1 & Hk & Hst1 & Em & Er); try done.
  { eapply chain_ok_le; [|exact Hc]. apply Z2Nat.inj_le; [apply Z.div_pos; lia|apply Z.div_pos; lia|].
    apply Z.div_le_mono; lia. }
  rewrite Er. set (cb := cluster_bytes s) in *. set (n := Z.min total cb) in *.
  destruct (Z.ltb_spec 0 (total - n)) as [Hmore|Hdone].
  - replace n with cb in * by lia.
    assert (Ecb : cluster_bytes s1 = cb).
    { unfold cluster_bytes. by destruct (kept_geometry _ _ Hk) as (_ & -> & _). }
    destruct (IH stream c (off + cb) (total - cb) (out + cb) s1) as (s2 & -> & Em2 & Hk2).
    + by apply (kept_mounted s).
    + by apply (kept_geometry_ok s).
    + done.
    + pose proof (kept_out s s1 _ _ Hk Hout) as Hout1. unfold out_ok in *. lia.
    + lia.
    + rewrite Ecb. rewrite <- (Z.mul_1_l cb) at 1. rewrite Z.mod_add by lia. done.
    + lia.
    + rewrite Ecb. replace (off + cb + (total - cb) - 1) with (off + total - 1) by lia.
      by apply (kept_chain s).
    + rewrite Ecb. replace (total - 1) with ((total - cb - 1) + 1 * cb) in Hf by lia.
      rewrite Z.div_add in Hf by lia. pose proof (Z.div_pos (total - cb - 1) cb). lia.
    + exists s2. split; [done|]. split; [|by eapply kept_trans].
      rewrite Em2, Em, (kept_file_bytes s s1) by done.
      replace total with (cb + (total - cb)) at 2 by lia.
      rewrite file_bytes_app, store_bytes_app, length_file_bytes, Z2Nat.id by lia. done.
  - exists s1. split; [done|]. split; [|done]. by replace total with n at 1 by lia.
Qed.

End facts.

(** Counting the entries of a directory. *)
Lemma total_items_spec `{KAllocator} dev poll_fuel image stack_item fuel sector n s :
  drive_ok dev poll_fuel image -> mounted s -> 0 <= sector < 4194300 ->
  0 <= n < 16 -> (Z.to_nat n < fuel)%nat ->
  (forall i, 0 <= i < n -> entry_mark image (sector * 512) i <> 0) ->
  entry_mark image (sector * 512) n = 0 ->
  exists s', fat16_get_total_items_for_directory dev poll_fuel stack_item fuel sector s =
      Ret (live_entries image (sector * 512) 0 n) s' /\ same_store s s'.
Proof.
  intros Hd Hm Hs Hn Hf Hne Hz. rewrite total_items_unfold by (done || lia).
  destruct (count_items_counts dev poll_fuel image Hd (ld32 (fmem s) (priv s + fp_directory_stream)) (sector * 512) n fuel 0 stack_item 0
    (with_stream (ld32 (fmem s) (priv s + fp_directory_stream))
       {| pos := sector * 512 + 32 * 0; stream_disk := disk_obj_ptr |} s))
    as (s' & -> & Hss); try done; try lia.
  - apply Z.mod_mul. lia.
  - cbn. apply lookup_insert_eq.
  - exists s'. split; [done|]. by eapply same_store_trans; [apply with_stream_same|].
Qed.

(** ** Lemmas: file names *)

(** The characters [l] at [p], up to a space or a null. *)
Definition field (m : mem) (p : Z) (l : list Z) : Prop :=
  (forall i c, l !! i = Some c -> rd m (p + Z.of_nat i) = c /\ c <> 0 /\ c <> 0x20) /\
  (rd m (p + Z.of_nat (length l)) = 0 \/ rd m (p + Z.of_nat (length l)) = 0x20).

Lemma buf_set_next p k v :
  buf_set (p ++ replicate (S k) 0) (Z.of_nat (length p)) v = Some ((p ++ [v]) ++ replicate k 0).
Proof.
  unfold buf_set. rewrite length_app, length_replicate.
  destruct (Z.leb_spec 0 (Z.of_nat (length p))); [|lia].
  destruct (Z.ltb_spec (Z.of_nat (length p)) (Z.of_nat (length p + S k))); [|lia].
  cbn [andb]. f_equal. rewrite Nat2Z.id, <- app_assoc. cbn [replicate app].
  rewrite insert_app_r_alt by lia. by rewrite Nat.sub_diag.
Qed.

Lemma to_proper_spec l : forall fuel m p k inp,
  field m inp l -> (length l < k)%nat -> (length l < fuel)%nat ->
  fat16_to_proper_string fuel m (p ++ replicate k 0) (Z.of_nat (length p)) inp =
    Ret ((p ++ l) ++ replicate (k - length l) 0, Z.of_nat (length (p ++ l))) tt.
Proof.
  induction l as [|c l IH]; intros fuel m p k inp [Hch Hend] Hk Hf;
    (destruct fuel as [|f]; [lia|]); cbn [fat16_to_proper_string length] in *.
  - rewrite Z.add_0_r in Hend. rewrite app_nil_r, Nat.sub_0_r.
    destruct Hend as [-> | ->]; cbn [Z.eqb Pos.eqb negb andb]; [done|].
    destruct k as [|k]; [lia|]. rewrite buf_set_next. by rewrite <- app_assoc.
  - destruct (Hch 0%nat c eq_refl) as (E & H0 & H32). rewrite Z.add_0_r in E. rewrite E.
    destruct (Z.eqb_spec c 0); [done|]. destruct (Z.eqb_spec c 0x20); [done|]. cbn [negb andb].
    destruct k as [|k]; [lia|]. rewrite buf_set_next.
    replace (Z.of_nat (length p) + 1) with (Z.of_nat (length (p ++ [c])))
      by (rewrite length_app; cbn [length]; lia).
    rewrite IH.
    + rewrite <- (app_assoc p [c] l). cbn [app length].
      by replace (S k - S (length l))%nat with (k - length l)%nat by lia.
    + split.
      * intros i x Hx. specialize (Hch (S i) x Hx).
        by replace (inp + 1 + Z.of_nat i) with (inp + Z.of_nat (S i)) by lia.
      * by replace (inp + 1 + Z.of_nat (length l)) with (inp + Z.of_nat (S (length l))) by lia.
    + lia.
    + lia.
Qed.

(** The name the two fields make. *)
Definition full_name (n e : list Z) : list Z :=
  match e with [] => n | _ => n ++ 46 :: e end.

Lemma full_name_spec m item n e k :
  field m (item + item_filename) n -> field m (item + item_ext) e ->
  (length n + 1 + length e < k)%nat -> (k <= 300)%nat ->
  fat16_get_full_relative_filename m item (replicate k 0) =
    Ret (full_name n e ++ replicate (k - length (full_name n e)) 0) tt.
Proof.
  intros Hn He Hk Hk2. unfold fat16_get_full_relative_filename. rewrite length_replicate.
  pose proof (to_proper_spec n 300 m [] k (item + item_filename) Hn ltac:(lia) ltac:(lia)) as E.
  cbn [app length] in E. change (Z.of_nat 0) with 0 in E. rewrite E.
  destruct e as [|c e].
  - destruct He as [_ He]. cbn [length] in He. rewrite Z.add_0_r in He.
    cbn [full_name]. by destruct He as [-> | ->].
  - destruct He as [Hch Hend]. destruct (Hch 0%nat c eq_refl) as (Ec & H0 & H32).
    rewrite Z.add_0_r in Ec. rewrite Ec.
    destruct (Z.eqb_spec c 0); [done|]. destruct (Z.eqb_spec c 0x20); [done|]. cbn [negb andb].
    replace (k - length n)%nat with (S (k - length n - 1)) by lia.
    rewrite buf_set_next.
    replace (Z.of_nat (length n) + 1) with (Z.of_nat (length (n ++ [46])))
      by (rewrite length_app; cbn [length]; lia).
    cbn [length] in Hk. rewrite (to_proper_spec (c :: e)); [|by split|cbn [length]; lia|cbn [length]; lia].
    cbn [full_name]. rewrite <- (app_assoc n [46]). cbn [app].
    rewrite length_app. cbn [length]. do 3 f_equal. lia.
Qed.

(** The buffer holds the name as a C string. *)
Lemma padded_cstr l k :
  Forall char_ok l -> (0 < k)%nat -> cstr (at_list (l ++ replicate k 0)) l.
Proof.
  intros Hl Hk. split; [| |done].
  - intros i x Hx. unfold at_list. rewrite Nat2Z.id, lookup_app_l by (by eapply lookup_lt_Some).
    by rewrite Hx.
  - unfold at_list. rewrite Nat2Z.id, lookup_app_r, Nat.sub_diag by lia.
    by destruct k; [lia|].
Qed.

Lemma field_chars m p l : field m p l -> Forall char_ok l.
Proof.
  intros [Hch _]. rewrite Forall_lookup. intros i c Hc. destruct (Hch i c Hc) as (E & H0 & _).
  unfold char_ok. pose proof (rd_range m (p + Z.of_nat i)). lia.
Qed.

Lemma full_name_chars m p q n e : field m p n -> field m q e -> Forall char_ok (full_name n e).
Proof.
  intros Hn%field_chars He%field_chars. destruct e as [|c e]; [done|].
  apply Forall_app. split; [done|]. constructor; [cbv; split; done|done].
Qed.

(** ** Properties *)

(** The directory entry behind a file descriptor, its first cluster, its
    position. *)
Definition desc_entry (s : fs) (desc : Z) : Z :=
  ld32 (fmem s) (ld32 (fmem s) (desc + fd_item) + fi_pointer).
Definition desc_cluster (s : fs) (desc : Z) : Z :=
  Z.lor (ld16 (fmem s) (desc_entry s desc + item_high_cluster))
        (ld16 (fmem s) (desc_entry s desc + item_low_cluster)).
Definition desc_pos (s : fs) (desc : Z) : Z := ld32 (fmem s) (desc + fd_pos).

(** Reading one member from a position on a cluster boundary. *)
Lemma fat16_read_spec `{KAllocator} dev poll_fuel image rfuel desc size out s :
  drive_ok dev poll_fuel image -> mounted s -> geometry_ok s ->
  0 < size < 2147483648 -> out_ok s out size ->
  desc_pos s desc < 2147483648 -> desc_pos s desc mod cluster_bytes s = 0 ->
  chain_ok image s (desc_cluster s desc)
    (Z.to_nat ((desc_pos s desc + size - 1) / cluster_bytes s)) ->
  (Z.to_nat ((size - 1) / cluster_bytes s) < rfuel)%nat ->
  exists s', fat16_read dev poll_fuel rfuel desc size 1 out s = Ret 1 s' /\
    fmem s' = store_bytes (fmem s) out
      (file_bytes image s (desc_cluster s desc) (desc_pos s desc) size) /\
    kept s s'.
Proof.
  intros Hd Hm Hg Hsz Hout Hp Ha Hc Hf.
  assert (Hp0 : 0 <= desc_pos s desc) by (pose proof (ld32_range (fmem s) (desc + fd_pos)); unfold desc_pos; lia).
  set (c := desc_cluster s desc) in *. set (off := desc_pos s desc) in *.
  destruct (read_internal_spec dev poll_fuel image Hd rfuel
    (ld32 (fmem s) (priv s + fp_cluster_read_stream)) c off size out s)
    as (s1 & E & Em & Hk); try done; [apply (mt_cluster _ Hm)|lia|].
  assert (Er : fat16_read dev poll_fuel rfuel desc size 1 out s = Ret 1 s1).
  { assert (Em1 : read_members dev poll_fuel 1 rfuel (desc_entry s desc) off size out s = Ret 0 s1).
    { cbn [read_members]. assert (Ec : fat16_get_first_cluster (desc_entry s desc) s = Ret c s) by done.
      rewrite (bind_Ret _ _ _ _ _ Ec). rewrite i32_id by lia.
      assert (Ei : fat16_read_internal dev poll_fuel rfuel c off size out s = Ret 0 s1) by exact E.
      by rewrite (bind_Ret _ _ _ _ _ Ei). }
    unfold fat16_read. rewrite (bind_Ret (load32 (desc + fd_item)) _ s _ s eq_refl).
    rewrite (bind_Ret (load32 _) _ s _ s eq_refl), (bind_Ret (loadi32 _) _ s _ s eq_refl).
    fold (desc_entry s desc) (desc_pos s desc). fold off. rewrite i32_id by lia.
    change (Z.to_nat 1) with 1%nat. by rewrite (bind_Ret _ _ _ _ _ Em1). }
  by exists s1.
Qed.

(** C19. Reading a file delivers its contents: from a position on a cluster
    boundary, [fat16_read] of one member returns 1 and stores at [out] exactly
    the [size] bytes of the file there, found by following the allocation
    table from the entry's first cluster, as long as the chain up to the last
    byte read is [chain_ok]: its entries are usable links and its clusters lie
    below 2 GB, within reach of the streams' [int] positions.  The bytes at
    [out] are apart from the volume's private structure and the descriptor;
    no other memory changes, and neither does the descriptor's position:
    reading again gives the same bytes. *)
Theorem fat16_read_delivers `{KAllocator} dev poll_fuel image rfuel desc size out s :
  drive_ok dev poll_fuel image -> mounted s -> geometry_ok s ->
  0 < size < 2147483648 -> out_ok s out size ->
  desc_pos s desc < 2147483648 -> desc_pos s desc mod cluster_bytes s = 0 ->
  chain_ok image s (desc_cluster s desc)
    (Z.to_nat ((desc_pos s desc + size - 1) / cluster_bytes s)) ->
  (Z.to_nat ((size - 1) / cluster_bytes s) < rfuel)%nat ->
  (desc + sizeof_fat_file_descriptor <= out \/ out + size <= desc) ->
  exists s', fat16_read dev poll_fuel rfuel desc size 1 out s = Ret 1 s' /\
    bytes (fmem s') out (Z.to_nat size) =
      file_bytes image s (desc_cluster s desc) (desc_pos s desc) size /\
    (forall a, a < out \/ out + size <= a -> rd (fmem s') a = rd (fmem s) a) /\
    desc_pos s' desc = desc_pos s desc.
Proof.
  intros Hd Hm Hg Hsz Hout Hp Ha Hc Hf Hdesc.
  destruct (fat16_read_spec dev poll_fuel image rfuel desc size out s) as (s1 & Er & Em & _); try done.
  set (c := desc_cluster s desc) in *. set (off := desc_pos s desc) in *.
  exists s1. split; [done|]. rewrite Em.
  assert (Hlen : Z.of_nat (length (file_bytes image s c off size)) = size)
    by (rewrite length_file_bytes; lia).
  assert (Hfr : forall a, a < out \/ out + size <= a ->
    rd (store_bytes (fmem s) out (file_bytes image s c off size)) a = rd (fmem s) a)
    by (intros a Haa; apply rd_store_bytes_out; lia).
  split; [|split; [done|]].
  - rewrite <- (length_file_bytes image s c off size). apply bytes_store_bytes.
    apply Forall_map, list.Forall_forall. intros o _. apply (drive_byte _ _ _ Hd).
  - unfold desc_pos. rewrite Em. apply ld32_ext. intros i Hi. apply Hfr.
    unfold fd_pos, sizeof_fat_file_descriptor in *. lia.
Qed.

(** C40. Counting the entries of a directory that ends within its first
    sector: [fat16_get_total_items_for_directory] terminates with the number
    of entries in front of the end marker that are not marked deleted, and
    changes nothing but a stream position. *)
Theorem directory_scan_counts `{KAllocator} dev poll_fuel image stack_item fuel sector n s :
  drive_ok dev poll_fuel image -> mounted s -> 0 <= sector < 4194300 ->
  0 <= n < 16 -> (Z.to_nat n < fuel)%nat ->
  (forall i, 0 <= i < n -> entry_mark image (sector * 512) i <> 0) ->
  entry_mark image (sector * 512) n = 0 ->
  exists s', fat16_get_total_items_for_directory dev poll_fuel stack_item fuel sector s =
      Ret (live_entries image (sector * 512) 0 n) s' /\ same_store s s'.
Proof. exact (total_items_spec dev poll_fuel image stack_item fuel sector n s). Qed.

(** The same scan never terminates on a directory whose first sector is full:
    the read of the sixteenth entry throws the stream back to the second
    one, so the end marker is never reached, whatever the fuel. *)
Theorem directory_scan_diverges `{KAllocator} dev poll_fuel image stack_item fuel sector s :
  drive_ok dev poll_fuel image -> mounted s -> 0 <= sector < 4194300 - 4 ->
  (forall i, 0 <= i < 16 -> entry_mark image (sector * 512) i <> 0) ->
  fat16_get_total_items_for_directory dev poll_fuel stack_item fuel sector s = NoFuel.
Proof.
  intros Hd Hm Hs Hne. rewrite total_items_unfold by (done || lia).
  apply (count_items_diverges dev poll_fuel image Hd _ (sector * 512) fuel 0); try done; try lia.
  - apply Z.mod_mul. lia.
  - cbn. apply lookup_insert_eq.
Qed.

(** File names: from an entry whose name field reads [n] and whose extension
    field reads [e] (each up to a space or null), the name built is [n.e], or
    [n] when there is no extension, and the comparison the lookup makes
    accepts exactly the path components equal to it up to letter case. *)
Theorem entry_name_matches m item n e name l :
  field m (item + item_filename) n -> field m (item + item_ext) e ->
  (length n + 1 + length e < 108)%nat -> cstr name l -> (length l < 108)%nat ->
  exists buf, fat16_get_full_relative_filename m item (replicate 108 0) = Ret buf tt /\
    (istrncmp (at_list buf) name LIEBE_OS_MAX_PATH_LEN = 0 <->
     map fold_case (full_name n e) = map fold_case l).
Proof.
  intros Hn He Hlen Hc Hl. rewrite (full_name_spec m item n e 108) by (done || lia).
  eexists. split; [done|].
  assert (Hfl : (length (full_name n e) < 108)%nat).
  { destruct e as [|c e]; cbn [full_name length] in *; [|rewrite length_app; cbn [length]]; lia. }
  rewrite (istrncmp_fold _ _ (full_name n e) l) by
    (done || (apply padded_cstr; [by eapply full_name_chars|lia])).
  change (Z.to_nat LIEBE_OS_MAX_PATH_LEN) with 108%nat.
  by rewrite !take_ge by (rewrite length_map; lia).
Qed.

(** A name that fills its field is not found: with eight name characters
    [n] in front of an extension [e] padded by a space, the name field runs on
    into the extension, and the comparison refuses the component [n.e]. *)
Theorem entry_name_eight m item n e name :
  length n = 8%nat -> field m (item + item_filename) (n ++ e) ->
  e <> [] -> (length e <= 3)%nat -> cstr name (n ++ 46 :: e) ->
  exists buf, fat16_get_full_relative_filename m item (replicate 108 0) = Ret buf tt /\
    istrncmp (at_list buf) name LIEBE_OS_MAX_PATH_LEN <> 0.
Proof.
  intros Hn8 Hf Hne He3 Hc.
  assert (He : field m (item + item_ext) e).
  { destruct Hf as [Hch Hend]. split.
    - intros i c Hic. specialize (Hch (8 + i)%nat c).
      rewrite lookup_app_r, Hn8 in Hch by lia. replace (8 + i - 8)%nat with i in Hch by lia.
      replace (item + item_ext + Z.of_nat i) with (item + item_filename + Z.of_nat (8 + i))
        by (unfold item_ext, item_filename; lia). by apply Hch.
    - rewrite length_app, Hn8 in Hend.
      by replace (item + item_ext + Z.of_nat (length e))
        with (item + item_filename + Z.of_nat (8 + length e)) by (unfold item_ext, item_filename; lia). }
  rewrite (full_name_spec m item (n ++ e) e 108) by (done || lia || (rewrite length_app; lia)).
  eexists. split; [done|].
  rewrite (istrncmp_fold _ _ (full_name (n ++ e) e) (n ++ 46 :: e)).
  - change (Z.to_nat LIEBE_OS_MAX_PATH_LEN) with 108%nat. intros E. apply (f_equal length) in E.
    rewrite !length_take, !length_map in E. destruct e as [|c e]; [done|].
    cbn [full_name] in E. rewrite !length_app in E. cbn [length] in *. lia.
  - apply padded_cstr; [by eapply full_name_chars|].
    destruct e as [|c e]; [done|]. cbn [full_name]. rewrite !length_app. cbn [length] in *. lia.
  - done.
Qed.

(** Seeking in a file: an offset at or past the end is refused with [-EIO],
    [SEEK_SET] moves the position to the offset and [SEEK_CUR] moves it on by
    the offset, [SEEK_END] returns the distance from the end but leaves the
    position where it was, other modes are refused, and seeking in a
    directory is refused; on every refusal memory is unchanged. *)
Theorem fat16_seek_cases desc offset mode s :
  let item := ld32 (fmem s) (desc + fd_item) in
  let filesize := ld32 (fmem s) (desc_entry s desc + item_filesize) in
  match fat16_seek desc offset mode s with
  | Ret r s' =>
    if negb (ld32 (fmem s) (item + fi_type) =? FAT_ITEM_TYPE_FILE) then r = - EINVARG /\ s' = s
    else if filesize <=? offset then r = - EIO /\ s' = s
    else if mode =? SEEK_SET then r = 0 /\ desc_pos s' desc = u32 offset
    else if mode =? SEEK_END then r = i32 (filesize - offset) /\ s' = s
    else if mode =? SEEK_CUR then r = 0 /\ desc_pos s' desc = u32 (desc_pos s desc + offset)
    else r = - EINVARG /\ s' = s
  | _ => False
  end.
Proof.
  unfold fat16_seek, bind, load32, gets, store32, modify, ret, desc_entry, desc_pos.
  destruct (ld32 (fmem s) (ld32 (fmem s) (desc + fd_item) + fi_type) =? FAT_ITEM_TYPE_FILE);
    cbn [negb]; [|done].
  destruct (_ <=? offset); [done|].
  destruct (mode =? SEEK_SET); [cbn [fmem with_mem]; by rewrite ld32_st32_eq|].
  destruct (mode =? SEEK_END); [by rewrite i32_u32|].
  destruct (mode =? SEEK_CUR); [cbn [fmem with_mem]; by rewrite ld32_st32_eq|done].
Qed.

(** ** Witnesses *)

(** A volume with the geometry of [src/boot/boot.asm]: 128 sectors per cluster,
    512 reserved sectors, two tables of 256 sectors and 64 root entries, so
    data from sector 1028 on.  Cluster 2 is followed by cluster 3; the
    directory in sector 20 has three entries, the one in sector 30 more than
    sixteen. *)
Definition volume_image (a : Z) : Z :=
  if a =? 262148 then 3 else if a =? 262149 then 0 else if a =? 10336 then 0 else a mod 251.
Definition volume_drive : ata_device :=
  {| ata_status := fun _ _ _ => 0x58;
     ata_word := fun cmd b i =>
       volume_image (512 * (lba_of cmd + b) + 2 * i) +
       256 * volume_image (512 * (lba_of cmd + b) + 2 * i + 1) |}.

Lemma volume_drive_ok : drive_ok volume_drive 1 volume_image.
Proof.
  split; [intros a; unfold volume_image; case_bools; dlia| |done].
  intros. exists 0. split; [lia|done].
Qed.

(** The private structure at 0x3000, the streams at 0x3100, 0x3200, 0x3300; an
    open file at 0x3600: item at 0x3500, directory entry at 0x3400. *)
Definition volume_mem : mem :=
  let m1 := st32 (st32 (st32 ∅ (0x3000 + fp_cluster_read_stream) 0x3100)
              (0x3000 + fp_fat_read_stream) 0x3200) (0x3000 + fp_directory_stream) 0x3300 in
  let m2 := wr (st16 (st32 m1 (0x3000 + fp_root_directory + dir_ending_sector_pos) 1028)
              (0x3000 + hdr_reserved_sectors) 512) (0x3000 + hdr_sectors_per_cluster) 128 in
  let m3 := st16 (st32 m2 (0x3400 + item_filesize) 700) (0x3400 + item_low_cluster) 2 in
  st32 (st32 (st32 m3 (0x3500 + fi_pointer) 0x3400) (0x3500 + fi_type) FAT_ITEM_TYPE_FILE)
    (0x3600 + fd_item) 0x3500.
Definition a_stream : disk_stream := {| pos := 0; stream_disk := disk_obj_ptr |}.
Definition volume : fs :=
  {| fmem := volume_mem;
     streams := {[ 0x3100 := a_stream; 0x3200 := a_stream; 0x3300 := a_stream ]};
     the_disk := {| disk_type := 0; sector_size := 512; disk_id := 0;
                    disk_filesystem := 1; fs_private := 0x3000 |} |}.

Lemma volume_mounted : mounted volume.
Proof.
  assert (Hst : forall p, streams volume !! p = Some a_stream -> has_stream volume p)
    by (intros p E; by exists 0).
  split; [done|..]; try split; try (apply Hst; vm_compute; reflexivity). vm_compute. discriminate.
Qed.

Lemma volume_geometry : geometry_ok volume.
Proof. split; vm_compute; done || discriminate. Qed.

Lemma volume_chain : chain_ok volume_image volume 2 1.
Proof.
  split.
  - intros [|i] Hi; [|lia]. vm_compute. repeat split; discriminate.
  - intros [|[|i]] Hi; [| |lia]; (split; [vm_compute; split; done || discriminate|vm_compute; done]).
Qed.

Lemma fat16_read_delivers_witness :
  exists s', fat16_read volume_drive 1 5 0x3600 70000 1 0x200000 volume = Ret 1 s' /\
    bytes (fmem s') 0x200000 (Z.to_nat 70000) = file_bytes volume_image volume 2 0 70000 /\
    (forall a, a < 0x200000 \/ 0x200000 + 70000 <= a -> rd (fmem s') a = rd (fmem volume) a) /\
    desc_pos s' 0x3600 = desc_pos volume 0x3600.
Proof.
  apply (fat16_read_delivers volume_drive 1 volume_image 5 0x3600 70000 0x200000 volume);
    [exact volume_drive_ok|exact volume_mounted|exact volume_geometry|lia
    |right; vm_compute; discriminate|vm_compute; reflexivity|vm_compute; reflexivity
    |exact volume_chain|vm_compute; lia|left; vm_compute; discriminate].
Defined.

Lemma directory_scan_counts_witness :
  exists s', fat16_get_total_items_for_directory volume_drive 1 [] 4 20 volume =
      Ret (live_entries volume_image (20 * 512) 0 3) s' /\ same_store volume s'.
Proof.
  apply (directory_scan_counts volume_drive 1 volume_image [] 4 20 3 volume);
    [exact volume_drive_ok|exact volume_mounted|lia|lia|lia| |reflexivity].
  intros i Hi. unfold entry_mark, volume_image. case_bools; dlia.
Defined.

Lemma directory_scan_diverges_witness :
  fat16_get_total_items_for_directory volume_drive 1 [] 100 30 volume = NoFuel.
Proof.
  apply (directory_scan_diverges volume_drive 1 volume_image [] 100 30 volume);
    [exact volume_drive_ok|exact volume_mounted|lia|].
  intros i Hi. unfold entry_mark, volume_image. case_bools; dlia.
Defined.

(** The entry [HELLO   TXT] and the entry [LONGNAMETXT], with the archive bit. *)
Definition entry_mem (codes : list Z) : mem := store_bytes ∅ 0x3400 codes.
Definition hello_entry : list Z := [72; 69; 76; 76; 79; 32; 32; 32; 84; 88; 84; 32; 0].
Definition long_entry : list Z := [76; 79; 78; 71; 78; 65; 77; 69; 84; 88; 84; 32; 0].

Lemma entry_name_matches_witness :
  exists buf, fat16_get_full_relative_filename (entry_mem hello_entry) 0x3400 (replicate 108 0) =
      Ret buf tt /\
    (istrncmp (at_list buf) (at_list [104; 101; 108; 108; 111; 46; 116; 120; 116; 0])
       LIEBE_OS_MAX_PATH_LEN = 0 <->
     map fold_case (full_name [72; 69; 76; 76; 79] [84; 88; 84]) =
     map fold_case [104; 101; 108; 108; 111; 46; 116; 120; 116]).
Proof.
  apply (entry_name_matches (entry_mem hello_entry) 0x3400 [72; 69; 76; 76; 79] [84; 88; 84]
    (at_list [104; 101; 108; 108; 111; 46; 116; 120; 116; 0])).
  - split; [|right; vm_compute; reflexivity].
    intros [|[|[|[|[|i]]]]] c; cbn; try done; intros [= <-]; by vm_compute.
  - split; [|right; vm_compute; reflexivity].
    intros [|[|[|i]]] c; cbn; try done; intros [= <-]; by vm_compute.
  - cbn; lia.
  - exact (padded_cstr [104; 101; 108; 108; 111; 46; 116; 120; 116] 1
      ltac:(repeat constructor; lia) ltac:(lia)).
  - cbn; lia.
Defined.

Lemma entry_name_eight_witness :
  exists buf, fat16_get_full_relative_filename (entry_mem long_entry) 0x3400 (replicate 108 0) =
      Ret buf tt /\
    istrncmp (at_list buf) (at_list ([76; 79; 78; 71; 78; 65; 77; 69; 46; 84; 88; 84] ++ [0]))
      LIEBE_OS_MAX_PATH_LEN <> 0.
Proof.
  apply (entry_name_eight (entry_mem long_entry) 0x3400 [76; 79; 78; 71; 78; 65; 77; 69]
    [84; 88; 84]); [done| |done|cbn; lia|].
  - split; [|right; vm_compute; reflexivity].
    intros [|[|[|[|[|[|[|[|[|[|[|i]]]]]]]]]]] c; cbn; try done; intros [= <-]; by vm_compute.
  - exact (padded_cstr [76; 79; 78; 71; 78; 65; 77; 69; 46; 84; 88; 84] 1
      ltac:(repeat constructor; lia) ltac:(lia)).
Defined.
