(* ===== verification/Lookup.v ===== *)
(** * Finding a file on the volume

    Path resolution of [fat16.c] against an abstract lookup.  A directory is a
    list of 32-byte entries; [disk_dir] reads one off the disk image, [dir_in]
    says that a directory structure in memory holds one, [search_entry] is the
    search for a name in one and [locate] the walk down a path.  The theorem
    is that [fat16_open] returns a descriptor of what [locate] finds, and how it
    fails otherwise. *)
From S2P Require Import Prelude Config Memory CString Heap KHeap PathParser Disk Fat16 Fat16Facts.

(** ** Directory entries *)

(** The characters of a field: up to a space or a null. *)
Fixpoint upto (l : list Z) : list Z :=
  match l with
  | [] => []
  | c :: l' => if (c =? 0) || (c =? 0x20) then [] else c :: upto l'
  end.
Definition has_end (l : list Z) : bool := existsb (fun c => (c =? 0) || (c =? 0x20)) l.

Definition item_byte (e : list Z) (i : Z) : Z := default 0 (e !! Z.to_nat i).
Definition half_at (e : list Z) (i : Z) : Z := item_byte e i + 256 * item_byte e (i + 1).

(** The file name of an entry as the code reads it: a field that is full runs
    on into what follows. *)
Definition entry_name (e : list Z) : list Z := full_name (upto e) (upto (drop 8 e)).
Definition is_dir (e : list Z) : bool :=
  negb (Z.land (item_byte e item_attribute) FAT_FILE_SUBDIRECTORY =? 0).
Definition entry_cluster (e : list Z) : Z :=
  Z.lor (half_at e item_high_cluster) (half_at e item_low_cluster).
(** An entry whose two fields end inside it. *)
Definition entry_ends (e : list Z) : bool := has_end (drop 8 e).

(** Names are compared without regard to case. *)
Definition named (l e : list Z) : bool :=
  bool_decide (map fold_case (entry_name e) = map fold_case l).

(** The search runs to the end of the directory: the last match counts. *)
Fixpoint search_entry (l : list Z) (es : list (list Z)) : option (list Z) :=
  match es with
  | [] => None
  | e :: es' =>
    match search_entry l es' with
    | Some e' => Some e'
    | None => if named l e then Some e else None
    end
  end.

(** ** Directories on the disk *)

(** The entry that marks the end of the directory at byte [base], among the
    [n] from entry [i] on. *)
Fixpoint dir_end (n : nat) (image : Z -> Z) (base i : Z) : Z :=
  match n with
  | O => i
  | S n' => if entry_mark image base i =? 0 then i else dir_end n' image base (i + 1)
  end.
(** The number of entries the code counts: the deleted ones are left out. *)
Definition dir_count (image : Z -> Z) (base : Z) : Z :=
  live_entries image base 0 (dir_end 16 image base 0).
(** The entries the code loads: as many as it counted, deleted ones
    included. *)
Definition disk_dir (image : Z -> Z) (s : fs) (c : Z) : list (list Z) :=
  map (fun i => image_bytes image (cluster_pos s c + 32 * i) 32)
    (seqZ 0 (dir_count image (cluster_pos s c))).

(** A directory the code can load: its cluster is within reach, the end mark
    is in its first sector, and it is not empty. *)
Record dir_ok (image : Z -> Z) (s : fs) (c : Z) : Prop := {
  do_cluster : cluster_ok s c;
  do_end : dir_end 16 image (cluster_pos s c) 0 < 16;
  do_live : 0 < dir_count image (cluster_pos s c) }.

(** ** Walking down a path *)

Inductive located : Type :=
| Found (e : list Z)    (* the entry of the last component *)
| Missing               (* no such file *)
| Wild.                 (* a missing directory in the middle: a null pointer is used *)

Fixpoint descend (image : Z -> Z) (s : fs) (current : option (list Z)) (path : list (list Z))
  : located :=
  match path with
  | [] => match current with Some e => Found e | None => Missing end
  | l :: path' =>
    match current with
    | None => Wild
    | Some e =>
      if is_dir e then
        descend image s (search_entry l (disk_dir image s (entry_cluster e))) path'
      else Missing
    end
  end.
Definition locate (image : Z -> Z) (s : fs) (root path : list (list Z)) : located :=
  match path with
  | [] => Missing
  | l :: path' =>
    match search_entry l root with
    | None => Missing
    | Some e => descend image s (Some e) path'
    end
  end.

(** The directories on the way are usable: entries end, and the directories
    that match the component looked for can be loaded. *)
Definition dir_good (image : Z -> Z) (s : fs) (l : list Z) (es : list (list Z)) : Prop :=
  (forall e, e ∈ es -> entry_ends e) /\
  (forall e, e ∈ es -> named l e -> is_dir e -> dir_ok image s (entry_cluster e)).
Fixpoint descend_good (image : Z -> Z) (s : fs) (current : option (list Z))
    (path : list (list Z)) : Prop :=
  match path, current with
  | l :: path', Some e =>
    is_dir e ->
    let es := disk_dir image s (entry_cluster e) in
    dir_good image s l es /\ descend_good image s (search_entry l es) path'
  | _, _ => True
  end.
Definition path_good (image : Z -> Z) (s : fs) (root path : list (list Z)) : Prop :=
  match path with
  | [] => True
  | l :: path' => dir_good image s l root /\ descend_good image s (search_entry l root) path'
  end.

(** A name that at most one entry of a directory has, for every component of
    the path. *)
Definition unique (l : list Z) (es : list (list Z)) : Prop := (length (filter (named l) es) <= 1)%nat.
Fixpoint descend_unique (image : Z -> Z) (s : fs) (current : option (list Z))
    (path : list (list Z)) : Prop :=
  match path, current with
  | l :: path', Some e =>
    is_dir e ->
    let es := disk_dir image s (entry_cluster e) in
    unique l es /\ descend_unique image s (search_entry l es) path'
  | _, _ => True
  end.
Definition path_unique (image : Z -> Z) (s : fs) (root path : list (list Z)) : Prop :=
  match path with
  | [] => True
  | l :: path' => unique l root /\ descend_unique image s (search_entry l root) path'
  end.

(** ** In memory *)

(** The directory structure at [d] holds the entries [es]. *)
Record dir_in (m : mem) (d : Z) (es : list (list Z)) : Prop := {
  di_total : ld32 m (d + dir_total) = Z.of_nat (length es);
  di_few : Z.of_nat (length es) < 65536;
  di_entry : forall i e, es !! i = Some e ->
    bytes m (ld32 m (d + dir_item) + 32 * Z.of_nat i) 32 = e }.
Definition dir_region `{KAllocator} (m : mem) (d n : Z) : Prop :=
  region_owned m d sizeof_fat_directory /\ region_owned m (ld32 m (d + dir_item)) (32 * n).

(** The item at [p] for the entry [e], made of the blocks [bs]. *)
Definition item_repr (image : Z -> Z) (s : fs) (p : Z) (e : list Z) (bs : list Z) : Prop :=
  let m := fmem s in
  if is_dir e then
    exists d, bs = [ld32 m (d + dir_item); d; p] /\ ld32 m (p + fi_pointer) = d /\
      ld32 m (p + fi_type) = FAT_ITEM_TYPE_DIRECTORY /\
      dir_ok image s (entry_cluster e) /\ dir_in m d (disk_dir image s (entry_cluster e))
  else
    exists q, bs = [q; p] /\ ld32 m (p + fi_pointer) = q /\
      ld32 m (p + fi_type) = FAT_ITEM_TYPE_FILE /\ bytes m q 32 = e.

(** ** Growth

    [grown s s']: between [s] and [s'] blocks were only added, and nothing the
    caller owned changed. *)
Record grown `{KAllocator} (s s' : fs) : Prop := {
  gr_ok : heap_ok (fmem s');
  gr_live : forall q t, live (fmem s) q t -> live (fmem s') q t;
  gr_bytes : forall a, owned (fmem s) a -> rd (fmem s') a = rd (fmem s) a;
  gr_disk : the_disk s' = the_disk s;
  gr_streams : forall p, has_stream s p -> has_stream s' p }.

(** A block of a page that was not live in [s]. *)
Record fresh_block `{KAllocator} (s s' : fs) (p : Z) : Prop := {
  fb_live : live (fmem s') p 4096;
  fb_new : forall q t, live (fmem s) q t -> q <> p }.

(** No other blocks than [bs] are live in [s'] that were not in [s]. *)
Definition adds `{KAllocator} (s s' : fs) (bs : list Z) : Prop :=
  forall q t, live (fmem s') q t -> live (fmem s) q t \/ q ∈ bs.

(** An item made since [s]: its blocks are distinct and new. *)
Record item_made `{KAllocator} (image : Z -> Z) (s s' : fs) (p : Z) (e bs : list Z) : Prop := {
  im_repr : item_repr image s' p e bs;
  im_nodup : NoDup bs;
  im_fresh : forall b, b ∈ bs -> fresh_block s s' b;
  im_nonnull : p <> 0 }.

(** The structures of the mounted volume belong to the file system. *)
Definition volume_owned `{KAllocator} (s : fs) : Prop :=
  region_owned (fmem s) (priv s) sizeof_fat_private.

(** ** Lemmas: entries *)

Lemma upto_field m p l :
  bytes m p (length l) = l -> has_end l -> field m p (upto l).
Proof.
  revert p. induction l as [|c l IH]; intros p Hb Ht; [done|].
  cbn [bytes length] in Hb. injection Hb as Hc Hb. cbn [has_end existsb upto] in *.
  destruct ((c =? 0) || (c =? 0x20)) eqn:E.
  - split; [intros i x Hx; done|]. cbn [length]. rewrite Z.add_0_r, Hc.
    apply orb_prop in E as [?%Z.eqb_eq|?%Z.eqb_eq]; auto.
  - destruct (IH (p + 1) Hb Ht) as [H1 H2]. apply orb_false_elim in E as [E1%Z.eqb_neq E2%Z.eqb_neq].
    split.
    + intros [|i] x Hx; [injection Hx as <-; by rewrite Z.add_0_r|].
      replace (p + Z.of_nat (S i)) with (p + 1 + Z.of_nat i) by lia. by apply H1.
    + cbn [length]. by replace (p + Z.of_nat (S (length (upto l)))) with (p + 1 + Z.of_nat (length (upto l))) by lia.
Qed.

Lemma upto_length l : (length (upto l) <= length l)%nat.
Proof. induction l as [|c l IH]; cbn [upto]; [done|]. destruct (_ || _); cbn [length]; lia. Qed.

Lemma has_end_drop k l : has_end (drop k l) -> has_end l.
Proof.
  revert l. induction k as [|k IH]; intros [|c l]; cbn [drop has_end existsb]; try done.
  intros Ht%IH. unfold has_end in Ht. destruct (existsb _ l); [|done].
  by rewrite orb_true_r.
Qed.

(** The bytes of an entry in memory. *)
Section entry.
Context (m : mem) (p : Z) (e : list Z).
Hypothesis Hb : bytes m p 32 = e.

Lemma entry_length : length e = 32%nat.
Proof. rewrite <- Hb. apply length_bytes. Qed.

Lemma entry_item_byte i : 0 <= i < 32 -> rd m (p + i) = item_byte e i.
Proof.
  intros Hi. unfold item_byte. rewrite <- Hb, bytes_lookup by lia. cbn. by rewrite Z2Nat.id by lia.
Qed.

Lemma entry_half i : 0 <= i < 31 -> ld16 m (p + i) = half_at e i.
Proof. intros Hi. unfold ld16, half_at. rewrite <- Z.add_assoc, !entry_item_byte by lia. lia. Qed.

Lemma entry_attribute : (Z.land (rd m (p + item_attribute)) FAT_FILE_SUBDIRECTORY =? 0) = negb (is_dir e).
Proof. unfold is_dir. rewrite entry_item_byte by (cbv; done). by rewrite negb_involutive. Qed.

(** The name the code builds. *)
Lemma entry_name_spec :
  entry_ends e ->
  fat16_get_full_relative_filename m p (replicate 108 0) =
    Ret (entry_name e ++ replicate (108 - length (entry_name e)) 0) tt /\
  Forall char_ok (entry_name e) /\ (length (entry_name e) < 108)%nat.
Proof.
  intros Ht. pose proof entry_length as Hlen.
  assert (Hn : field m (p + item_filename) (upto e)).
  { unfold item_filename. rewrite Z.add_0_r. apply upto_field; [by rewrite Hlen|].
    by apply (has_end_drop 8). }
  assert (He : field m (p + item_ext) (upto (drop 8 e))).
  { unfold item_ext. apply upto_field; [|done]. rewrite length_drop, Hlen.
    rewrite <- Hb. change (bytes m p 32) with (bytes m p (8 + 24)). rewrite bytes_app. by rewrite drop_app_length' by (by rewrite length_bytes). }
  pose proof (upto_length e). pose proof (upto_length (drop 8 e)). rewrite length_drop in *.
  assert (Hl : (length (entry_name e) < 108)%nat).
  { unfold entry_name, full_name. destruct (upto (drop 8 e)); [lia|].
    rewrite length_app. cbn [length] in *. lia. }
  split; [|split; [by eapply full_name_chars|done]].
  by rewrite (full_name_spec m p (upto e) (upto (drop 8 e)) 108) by (done || lia).
Qed.

(** And its comparison with a path component. *)
Lemma entry_match name l :
  entry_ends e -> cstr name l -> (length l < 108)%nat ->
  (istrncmp (at_list (entry_name e ++ replicate (108 - length (entry_name e)) 0)) name
     LIEBE_OS_MAX_PATH_LEN =? 0) = named l e.
Proof.
  intros Ht Hc Hl. destruct (entry_name_spec Ht) as (_ & Hch & Hlen).
  pose proof (istrncmp_fold (at_list (entry_name e ++ replicate (108 - length (entry_name e)) 0)) name
    (entry_name e) l LIEBE_OS_MAX_PATH_LEN (padded_cstr _ (108 - length (entry_name e)) Hch ltac:(lia)) Hc) as Hiff.
  change (Z.to_nat LIEBE_OS_MAX_PATH_LEN) with 108%nat in Hiff.
  rewrite !take_ge in Hiff by (rewrite length_map; lia).
  unfold named. destruct (Z.eqb_spec (istrncmp (at_list (entry_name e ++ replicate (108 - length (entry_name e)) 0)) name LIEBE_OS_MAX_PATH_LEN) 0) as [E|E].
  - symmetry. apply bool_decide_eq_true. by apply Hiff.
  - symmetry. apply bool_decide_eq_false. intros E'. by apply E, Hiff.
Qed.

End entry.

(** ** Lemmas: growth *)

Section growth.
Context `{KAllocator}.

Lemma grown_refl s : heap_ok (fmem s) -> grown s s.
Proof. by split. Qed.

Lemma grown_owned s s' a : grown s s' -> owned (fmem s) a -> owned (fmem s') a.
Proof. intros Hg. apply owned_ext, Hg. Qed.

Lemma grown_trans s1 s2 s3 : grown s1 s2 -> grown s2 s3 -> grown s1 s3.
Proof.
  intros H1 H2. split; [by apply H2| | | |].
  - intros q t Hq. by apply H2, H1.
  - intros a Ha. rewrite (gr_bytes _ _ H2); [by apply H1|by apply (grown_owned s1)].
  - rewrite (gr_disk _ _ H2). apply H1.
  - intros p Hp. by apply H2, H1.
Qed.

Lemma grown_kept s s' : volume_owned s -> grown s s' -> kept s s'.
Proof. intros Hv [H1 H2 H3 H4 H5]. split; [|done|done]. intros a Ha. by apply H3, Hv. Qed.

Lemma grown_region s s' p n : grown s s' -> region_owned (fmem s) p n -> region_owned (fmem s') p n.
Proof. intros Hg Hr a Ha. by apply (grown_owned s), Hr. Qed.

Lemma grown_volume s s' : grown s s' -> volume_owned s -> volume_owned s'.
Proof. intros Hg Hv. unfold volume_owned, priv. rewrite (gr_disk _ _ Hg). by apply (grown_region s). Qed.

(** Owned memory reads the same. *)
Lemma grown_ld32 s s' a : grown s s' -> region_owned (fmem s) a 4 -> ld32 (fmem s') a = ld32 (fmem s) a.
Proof. intros Hg Ha. apply (ld32_ext (fmem s) (fmem s') a a). intros i Hi. apply Hg, Ha. lia. Qed.

Lemma grown_bytes s s' a n :
  grown s s' -> region_owned (fmem s) a (Z.of_nat n) -> bytes (fmem s') a n = bytes (fmem s) a n.
Proof. intros Hg Ha. apply bytes_ext. intros i Hi. apply Hg, Ha. lia. Qed.

Lemma region_sub m p n q k : region_owned m p n -> p <= q -> q + k <= p + n -> region_owned m q k.
Proof. intros Hr Hq Hk a Ha. apply Hr. lia. Qed.

(** Stream positions are not memory. *)
Lemma grown_same s s1 s2 : grown s s1 -> same_store s1 s2 -> grown s s2.
Proof. intros Hg [Em Ed Es]. split; rewrite ?Em, ?Ed; try apply Hg. intros p Hp. by apply Es, Hg. Qed.

Lemma live_region m p : live m p 4096 -> region_owned m p 4096.
Proof. intros Hp a Ha. by apply (owned_live m p 4096). Qed.

Lemma fresh_region s s' p : fresh_block s s' p -> region_owned (fmem s') p 4096.
Proof. intros [Hl _]. by apply live_region. Qed.

(** A fresh block holds nothing the caller owned. *)
Lemma fresh_apart s s' p a :
  grown s s' -> fresh_block s s' p -> owned (fmem s) a -> a < p \/ p + 4096 <= a.
Proof.
  intros Hg [Hl Hn] Ha. apply (owned_fresh (fmem s) (fmem s') p 4096 a); try done. apply Hg.
Qed.

Lemma fresh_region_apart s s' p q n :
  grown s s' -> fresh_block s s' p -> region_owned (fmem s) q n -> 0 < n ->
  q + n <= p \/ p + 4096 <= q.
Proof.
  intros Hg Hf Hr Hn. assert (Hap : forall a, q <= a < q + n -> a < p \/ p + 4096 <= a)
    by (intros a Ha; by eapply fresh_apart, Hr).
  pose proof (Hap q ltac:(lia)). destruct (decide (q < p)); [|lia].
  destruct (decide (q + n <= p)); [by left|]. pose proof (Hap p ltac:(lia)). lia.
Qed.

Lemma fresh_same s s1 s2 p : same_store s1 s2 -> fresh_block s s1 p -> fresh_block s s2 p.
Proof. intros [Em _ _] [Hl Hn]. split; [by rewrite Em|done]. Qed.

Lemma fresh_later s s1 s2 p : fresh_block s s1 p -> grown s1 s2 -> fresh_block s s2 p.
Proof. intros [Hl Hn] Hg. split; [by apply Hg|done]. Qed.

Lemma fresh_earlier s s1 s2 p : grown s s1 -> fresh_block s1 s2 p -> fresh_block s s2 p.
Proof. intros Hg [Hl Hn]. split; [done|]. intros q t Hq. by eapply Hn, Hg. Qed.

Lemma live_apart m p q a :
  live m p 4096 -> live m q 4096 -> p <> q -> q <= a < q + 4096 -> a < p \/ p + 4096 <= a.
Proof. intros Hp Hq Hne Ha. destruct (live_disjoint _ _ _ _ _ Hp Hq) as [[? _]|?]; [done|lia]. Qed.

(** Allocating a block of up to a page. *)
Lemma alloc_fresh s size n :
  0 < size <= 4096 -> heap_ok (fmem s) -> room (fmem s) (S n) ->
  exists p s', alloc size s = Ret p s' /\ p <> 0 /\ grown s s' /\ fresh_block s s' p /\
    room (fmem s') n /\ s' = with_mem (fmem s') s /\ page p /\
    forall q t, live (fmem s') q t <-> live (fmem s) q t \/ q = p /\ t = 4096.
Proof.
  intros Hs Hok Hr.
  destruct (alloc_page (fmem s) size n (one_block size Hs) Hs Hok Hr)
    as (p & m' & E & Hp & Hok' & Hr' & Hlv & Hd & Hne & _ & Ho & _).
  assert (Hl : live m' p 4096) by (apply Hlv; by right).
  exists p, (with_mem m' s). split; [unfold alloc; by rewrite E|].
  split; [by destruct (live_block _ _ _ Hl) as [? _]; lia|].
  split; [split; try done; [intros q t Hq; apply Hlv; by left|intros a Ha; by apply Ho]|].
  split; [by split|]. by split; [done|split].
Qed.

(** Changing the contents of a fresh block. *)
Lemma edit_fresh s s1 s2 p :
  grown s s1 -> fresh_block s s1 p ->
  (forall a, a < p \/ p + 4096 <= a -> rd (fmem s2) a = rd (fmem s1) a) ->
  the_disk s2 = the_disk s1 -> (forall q, has_stream s1 q -> has_stream s2 q) ->
  grown s s2 /\ (forall n, room (fmem s1) n -> room (fmem s2) n) /\
  (forall q, fresh_block s s1 q -> fresh_block s s2 q).
Proof.
  intros Hg Hf Ho Hd Hst. pose proof Hf as [Hl Hn].
  destruct (client_frame (fmem s1) (fmem s2) p 4096 (gr_ok _ _ Hg) Hl Ho) as (Hok & Hlv & Hr).
  split; [split|split].
  - done.
  - intros q t Hq. by apply Hlv, Hg.
  - intros a Ha. rewrite Ho by (by eapply fresh_apart). by apply Hg.
  - rewrite Hd. apply Hg.
  - intros q Hq. by apply Hst, Hg.
  - done.
  - intros q [Hq Hq2]. split; [by apply Hlv|done].
Qed.

(** A word stored into one. *)
Lemma store_fresh s s1 p k v :
  grown s s1 -> fresh_block s s1 p -> 0 <= k <= 4092 ->
  exists s2, store32 (p + k) v s1 = Ret tt s2 /\ fmem s2 = st32 (fmem s1) (p + k) v /\
    grown s s2 /\ (forall n, room (fmem s1) n -> room (fmem s2) n) /\
    (forall q, fresh_block s s1 q -> fresh_block s s2 q).
Proof.
  intros Hg Hf Hk. exists (with_mem (st32 (fmem s1) (p + k) v) s1). split; [done|]. split; [done|].
  apply (edit_fresh s s1 _ p); try done.
  intros a Ha. cbn [fmem with_mem]. by rewrite rd_st32_ne by lia.
Qed.

(** Which blocks were added. *)
Lemma adds_trans s1 s2 s3 bs bs' : adds s1 s2 bs -> adds s2 s3 bs' -> adds s1 s3 (bs ++ bs').
Proof. intros H1 H2 q t [[Hq|Hq]%H1|Hq]%H2; rewrite elem_of_app; auto. Qed.

Lemma adds_sub s s' bs bs' : adds s s' bs -> bs ⊆ bs' -> adds s s' bs'.
Proof. intros Ha Hb q t [Hq|Hq]%Ha; [by left|right; by apply Hb]. Qed.

Lemma adds_same s s' : same_store s s' -> adds s s' [].
Proof. intros Hs q t Hq. left. by rewrite <- (ss_mem _ _ Hs). Qed.

Lemma adds_alloc s s' p :
  (forall q t, live (fmem s') q t <-> live (fmem s) q t \/ q = p /\ t = 4096) -> adds s s' [p].
Proof. intros Hl q t [Hq|[-> _]]%Hl; [by left|right; by left]. Qed.

Lemma adds_edit s s1 s2 p :
  grown s s1 -> fresh_block s s1 p ->
  (forall a, a < p \/ p + 4096 <= a -> rd (fmem s2) a = rd (fmem s1) a) -> adds s1 s2 [].
Proof.
  intros Hg Hf Ho q t Hq. left.
  by apply (client_frame (fmem s1) (fmem s2) p 4096 (gr_ok _ _ Hg) (fb_live _ _ _ Hf) Ho).
Qed.

Lemma adds_store s s1 s2 p k v :
  grown s s1 -> fresh_block s s1 p -> 0 <= k <= 4092 -> fmem s2 = st32 (fmem s1) (p + k) v ->
  adds s1 s2 [].
Proof.
  intros Hg Hf Hk E. apply (adds_edit s s1 s2 p Hg Hf). intros a Ha. by rewrite E, rd_st32_ne by lia.
Qed.

End growth.

(** ** Lemmas: bytes of the image *)

Lemma bytes_image_rd m a image q n :
  bytes m a (Z.to_nat n) = image_bytes image q n -> forall i, 0 <= i < n -> rd m (a + i) = image (q + i).
Proof.
  intros E i Hi. apply (f_equal (.!! Z.to_nat i)) in E.
  rewrite bytes_lookup in E by lia. unfold image_bytes in E.
  rewrite list_lookup_fmap, lookup_seqZ_lt in E by lia. cbn in E. injection E as E.
  rewrite Z2Nat.id in E by lia. done.
Qed.

Lemma bytes_image_eq m a image q n :
  (forall i, 0 <= i < n -> rd m (a + i) = image (q + i)) ->
  bytes m a (Z.to_nat n) = image_bytes image q n.
Proof.
  intros Hrd. apply list_eq. intros i. destruct (decide (i < Z.to_nat n)%nat) as [Hi|Hi].
  - rewrite bytes_lookup by lia. unfold image_bytes.
    rewrite list_lookup_fmap, lookup_seqZ_lt by lia. cbn. by rewrite Hrd by lia.
  - rewrite !lookup_ge_None_2; [done| |]; rewrite ?length_bytes, ?length_image_bytes; lia.
Qed.

(** ** Lemmas: directories on the disk *)

Lemma dir_end_spec n image base : forall i,
  let k := dir_end n image base i in
  i <= k <= i + Z.of_nat n /\ (forall j, i <= j < k -> entry_mark image base j <> 0) /\
  (k < i + Z.of_nat n -> entry_mark image base k = 0).
Proof.
  induction n as [|n IH]; intros i; cbn [dir_end]; [split; [lia|split; lia]|].
  destruct (Z.eqb_spec (entry_mark image base i) 0) as [E|E]; [split; [lia|split; [lia|done]]|].
  destruct (IH (i + 1)) as (H1 & H2 & H3). split; [lia|]. split; [|intros; apply H3; lia].
  intros j Hj. destruct (Z.eq_dec j i) as [->|]; [done|]. apply H2. lia.
Qed.

Lemma dir_count_range image base :
  dir_end 16 image base 0 < 16 -> 0 <= dir_count image base < 16.
Proof.
  intros He. destruct (dir_end_spec 16 image base 0) as (Hk & _).
  unfold dir_count, live_entries.
  match goal with |- context [length (filter ?P ?l)] => pose proof (length_filter P l) as Hlen end.
  rewrite length_seqZ in Hlen. lia.
Qed.

Lemma length_disk_dir image s c :
  dir_end 16 image (cluster_pos s c) 0 < 16 ->
  Z.of_nat (length (disk_dir image s c)) = dir_count image (cluster_pos s c).
Proof.
  intros He%dir_count_range. unfold disk_dir. rewrite length_map, length_seqZ. lia.
Qed.

Lemma cluster_pos_kept s s' c : kept s s' -> cluster_pos s' c = cluster_pos s c.
Proof. intros Hk. unfold cluster_pos. by destruct (kept_geometry _ _ Hk) as (_ & -> & ->). Qed.

Lemma disk_dir_kept image s s' c : kept s s' -> disk_dir image s' c = disk_dir image s c.
Proof. intros Hk. unfold disk_dir. by rewrite !(cluster_pos_kept s s'). Qed.

Lemma dir_ok_kept image s s' c : kept s s' -> dir_ok image s c -> dir_ok image s' c.
Proof.
  intros Hk [H1 H2 H3]. split; rewrite ?(cluster_pos_kept s s') by done; [|done..].
  by apply (kept_cluster_ok s).
Qed.

Lemma nodup_two (a b : Z) : a <> b -> NoDup [a; b].
Proof.
  intros Hab. apply list.NoDup_cons. split; [|apply NoDup_singleton].
  by rewrite list_elem_of_singleton.
Qed.

Lemma nodup_three (a b c : Z) : a <> b -> a <> c -> b <> c -> NoDup [a; b; c].
Proof.
  intros Hab Hac Hbc. apply list.NoDup_cons. split; [|by apply nodup_two].
  by rewrite elem_of_cons, list_elem_of_singleton; intros [?|?].
Qed.

(** ** Lemmas: frames *)

Lemma dir_in_frame m m' d es :
  dir_in m d es -> (forall a, d <= a < d + 16 -> rd m' a = rd m a) ->
  (forall a, ld32 m (d + dir_item) <= a < ld32 m (d + dir_item) + 32 * Z.of_nat (length es) ->
     rd m' a = rd m a) ->
  dir_in m' d es.
Proof.
  intros [H1 H2 H3] Hd Hi.
  assert (E : forall k, 0 <= k <= 12 -> ld32 m' (d + k) = ld32 m (d + k))
    by (intros k Hk; apply (ld32_ext m m' (d + k) (d + k)); intros i Hi'; apply Hd; lia).
  split; rewrite ?E by (cbv; split; discriminate); try done.
  intros i e He. rewrite <- (H3 i e He). apply bytes_ext. intros j Hj. apply Hi.
  apply lookup_lt_Some in He. lia.
Qed.

Lemma item_repr_frame image s s' p e bs :
  item_repr image s p e bs -> kept s s' ->
  (forall b a, b ∈ bs -> b <= a < b + 4096 -> rd (fmem s') a = rd (fmem s) a) ->
  item_repr image s' p e bs.
Proof.
  intros Hi Hk Hf. unfold item_repr in *.
  assert (E : forall b k, b ∈ bs -> 0 <= k <= 4092 -> ld32 (fmem s') (b + k) = ld32 (fmem s) (b + k)).
  { intros b k Hb Hk'. apply (ld32_ext (fmem s) (fmem s') (b + k) (b + k)). intros i Hi'.
    apply (Hf b); [done|lia]. }
  destruct (is_dir e).
  - destruct Hi as (d & -> & Ep & Et & Hok & Hd). exists d.
    assert (Ei : ld32 (fmem s') (d + dir_item) = ld32 (fmem s) (d + dir_item))
      by (apply E; [set_solver|cbv; split; discriminate]).
    rewrite Ei, !(E p) by (set_solver || (cbv; split; discriminate)).
    split; [done|]. split; [done|]. split; [done|]. split; [by apply (dir_ok_kept image s)|].
    rewrite (disk_dir_kept image s s') by done. apply (dir_in_frame (fmem s)); [done| |].
    + intros a Ha. apply (Hf d); [set_solver|lia].
    + intros a Ha. rewrite (length_disk_dir image s _ (do_end _ _ _ Hok)) in Ha.
      pose proof (dir_count_range image _ (do_end _ _ _ Hok)).
      apply (Hf (ld32 (fmem s) (d + dir_item))); [set_solver|lia].
  - destruct Hi as (q & -> & Ep & Et & Hb). exists q.
    rewrite !(E p) by (set_solver || (cbv; split; discriminate)).
    split; [done|]. split; [done|]. split; [done|]. rewrite <- Hb. apply bytes_ext.
    intros i Hi. apply (Hf q); [set_solver|lia].
Qed.

Section release.
Context `{KAllocator}.

(** Releasing a list of blocks. *)
Definition free_all (bs : list Z) (m : mem) : mem := foldl (fun m b => ka_free b m) m bs.

Lemma free_all_spec bs : forall m,
  heap_ok m -> NoDup bs -> (forall b, b ∈ bs -> live m b 4096) ->
  heap_ok (free_all bs m) /\
  (forall q t, live (free_all bs m) q t <-> live m q t /\ q ∉ bs) /\
  (forall n, room m n -> room (free_all bs m) n) /\
  (forall a, ~ meta a -> rd (free_all bs m) a = rd m a).
Proof.
  induction bs as [|b bs IH]; intros m Hok Hnd Hl; cbn [free_all foldl].
  - repeat split; try done; try tauto. apply not_elem_of_nil.
  - destruct (ka_free_spec m b 4096 Hok (Hl b ltac:(by left))) as (H1 & H2 & H3 & H4).
    apply list.NoDup_cons in Hnd as [Hb Hnd].
    destruct (IH (ka_free b m)) as (H5 & H6 & H7 & H8); try done.
    { intros c Hc. apply H2. split; [apply Hl; by right|]. by intros ->. }
    fold (free_all bs (ka_free b m)). split; [done|]. split; [|split].
    + intros q t. rewrite H6, H2, not_elem_of_cons. tauto.
    + intros k Hk. by apply H7, H3.
    + intros a Ha. by rewrite H8, H4.
Qed.

End release.

(** ** Lemmas: states and items *)

Section states.
Context `{KAllocator} (image : Z -> Z).

(** The volume's part of the state, which everything below keeps. *)
Record volume_ok (s : fs) : Prop := {
  vo_mounted : mounted s;
  vo_geometry : geometry_ok s;
  vo_owned : volume_owned s;
  vo_heap : heap_ok (fmem s) }.

Lemma volume_grown s s' : grown s s' -> volume_ok s -> volume_ok s'.
Proof.
  intros Hg [H1 H2 H3 H4]. pose proof (grown_kept s s' H3 Hg) as Hk. split.
  - by apply (kept_mounted s).
  - by apply (kept_geometry_ok s).
  - by apply (grown_volume s).
  - apply Hg.
Qed.

Lemma item_made_earlier s s1 s2 p e bs :
  grown s s1 -> item_made image s1 s2 p e bs -> item_made image s s2 p e bs.
Proof.
  intros Hg [H1 H2 H3 H4]. split; try done. intros b Hb. eapply fresh_earlier; [done|]. by apply H3.
Qed.

(** A path component in memory. *)
Record name_at (s : fs) (name : Z) (l : list Z) : Prop := {
  na_string : cstr (at_mem (fmem s) name) l;
  na_short : (length l < 108)%nat;
  na_owned : region_owned (fmem s) name (Z.of_nat (length l) + 1) }.

Lemma name_grown s s' name l : grown s s' -> name_at s name l -> name_at s' name l.
Proof.
  intros Hg [H1 H2 H3]. split; [|done|by apply (grown_region s)].
  eapply cstr_ext; [|exact H1]. intros i Hi. unfold at_mem. apply Hg, H3. lia.
Qed.

(** A directory in memory that the caller owns. *)
Record dir_at (s : fs) (d : Z) (es : list (list Z)) : Prop := {
  da_dir : dir_in (fmem s) d es;
  da_owned : dir_region (fmem s) d (Z.of_nat (length es)) }.

Lemma dir_grown s s' d es : grown s s' -> dir_at s d es -> dir_at s' d es.
Proof.
  intros Hg [H1 [H2 H3]].
  assert (E : ld32 (fmem s') (d + dir_item) = ld32 (fmem s) (d + dir_item)).
  { apply grown_ld32; [done|]. eapply region_sub; [exact H2|unfold dir_item, sizeof_fat_directory; lia..]. }
  split; [|split; [by apply (grown_region s)|rewrite E; by apply (grown_region s)]].
  apply (dir_in_frame (fmem s)); [done| |]; intros a Ha; apply Hg; [by apply H2|by apply H3].
Qed.

Lemma free_item_eq s p e bs :
  item_repr image s p e bs -> (forall b, b ∈ bs -> b <> 0) ->
  fat16_fat_item_free p s = Ret tt (with_mem (free_all bs (fmem s)) s).
Proof.
  intros Hi Hn. unfold item_repr in Hi. unfold fat16_fat_item_free, bind, load32, gets.
  destruct (is_dir e).
  - destruct Hi as (d & -> & -> & -> & _). rewrite Z.eqb_refl. unfold fat16_free_directory.
    destruct (Z.eqb_spec d 0) as [->|_]; [exfalso; apply (Hn 0); [set_solver|done]|].
    unfold bind at 1, load32, gets.
    destruct (Z.eqb_spec (ld32 (fmem s) (d + dir_item)) 0) as [E|_]; [|done].
    exfalso. apply (Hn (ld32 (fmem s) (d + dir_item))); [set_solver|done].
  - by destruct Hi as (q & -> & -> & -> & _).
Qed.

(** The current item is released while the next one is kept. *)
Lemma free_current s0 s s1 cur e bs :
  volume_ok s0 -> grown s0 s -> item_made image s0 s cur e bs -> grown s s1 ->
  exists s2, fat16_fat_item_free cur s1 = Ret tt s2 /\ grown s0 s2 /\
    (forall n, room (fmem s1) n -> room (fmem s2) n) /\
    (forall bs', adds s0 s bs -> adds s s1 bs' -> adds s0 s2 bs') /\
    forall p e' bs', item_made image s s1 p e' bs' -> item_made image s0 s2 p e' bs'.
Proof.
  intros Hv Hg0 [Hi Hnd Hfr _] Hg1. pose proof (grown_trans _ _ _ Hg0 Hg1) as Hg.
  assert (Hk : kept s s1) by (apply grown_kept; [by apply (grown_volume s0), (vo_owned _ Hv)|done]).
  assert (Hi1 : item_repr image s1 cur e bs).
  { apply (item_repr_frame image s); [done..|]. intros b a Hb Ha. apply Hg1.
    by apply (fresh_region s0 s b); [apply Hfr|]. }
  assert (Hl1 : forall b, b ∈ bs -> live (fmem s1) b 4096) by (intros b Hb; apply Hg1, Hfr, Hb).
  destruct (free_all_spec bs (fmem s1) (gr_ok _ _ Hg1) Hnd Hl1) as (H1 & H2 & H3 & H4).
  exists (with_mem (free_all bs (fmem s1)) s1). split; [apply (free_item_eq s1 cur e bs Hi1)|].
  { intros b Hb. destruct (live_block _ _ _ (Hl1 b Hb)). lia. }
  assert (Hg2 : grown s0 (with_mem (free_all bs (fmem s1)) s1)).
  { split; cbn [fmem with_mem the_disk]; [done| | |by apply Hg|by apply Hg].
    - intros q t Hq. apply H2. split; [by apply Hg|]. intros Hb. by apply (fb_new _ _ _ (Hfr q Hb) q t).
    - intros a Ha. rewrite H4 by apply Ha. by apply Hg. }
  split; [done|]. split; [done|]. split.
  { intros bs' Ha Ha' q t [Hq Hb]%H2. destruct (Ha' _ _ Hq) as [Hq'|]; [|by right].
    destruct (Ha _ _ Hq'); [by left|done]. }
  intros p e' bs' [Hi' Hnd' Hfr' Hn'].
  assert (Hnb : forall b, b ∈ bs' -> b ∉ bs).
  { intros b Hb Hb2. by apply (fb_new _ _ _ (Hfr' b Hb) b 4096 (fb_live _ _ _ (Hfr b Hb2))). }
  split; [|done| |done].
  - apply (item_repr_frame image s1); [done| |].
    + split; [|done|done]. intros a Ha. cbn [fmem with_mem]. apply H4.
      apply (grown_volume _ _ Hg (vo_owned _ Hv)). exact Ha.
    + intros b a Hb Ha. cbn [fmem with_mem]. apply H4.
      by apply (fresh_region s s1 b (Hfr' b Hb) a).
  - intros b Hb. split; [apply H2; split; [apply Hfr', Hb|by apply Hnb]|].
    intros q t Hq. eapply (fb_new _ _ _ (Hfr' b Hb)). by apply Hg0.
Qed.

Definition parts_owned (s : fs) (ns : list node) : Prop :=
  forall n sp l, (n, sp, l) ∈ ns -> region_owned (fmem s) n sizeof_path_part /\ name_at s sp l.

Lemma parts_grown s s' ns : forall first,
  grown s s' -> parts_owned s ns -> parts_repr (fmem s) first ns ->
  parts_repr (fmem s') first ns /\ parts_owned s' ns.
Proof.
  intros first Hg Ho Hr. split.
  - revert first Ho Hr. induction ns as [|[[n sp] l] ns IH]; intros first Ho; cbn [parts_repr]; [done|].
    destruct (Ho n sp l ltac:(by left)) as [Hreg Hna]. unfold part_part, part_next, sizeof_path_part in *.
    intros (-> & H2 & H3 & H4 & H5). split; [done|]. split; [done|].
    rewrite !(grown_ld32 s s') by (done || (eapply region_sub; [exact Hreg|lia..])).
    split; [done|]. split; [apply (name_grown s s' sp l Hg Hna)|].
    apply IH; [|done]. intros n' sp' l' Hin. apply Ho. by right.
  - intros n sp l Hin. destruct (Ho n sp l Hin) as [H1 H2].
    split; [by apply (grown_region s)|by apply (name_grown s)].
Qed.

Lemma item_made_pointer s s' p e bs : item_made image s s' p e bs -> 0 < p < 4294967296.
Proof.
  intros [Hi _ Hfr _]. assert (Hp : p ∈ bs).
  { unfold item_repr in Hi. destruct (is_dir e); [destruct Hi as (d & -> & _)|destruct Hi as (q & -> & _)]; set_solver. }
  pose proof (live_block _ _ _ (fb_live _ _ _ (Hfr p Hp))). pose proof (live_low _ _ _ (fb_live _ _ _ (Hfr p Hp))). lia.
Qed.

End states.

(** ** Lemmas: items *)

Section resolve.
Context `{KAllocator} (dev : ata_device) (poll_fuel : nat) (image : Z -> Z) (stack_item : list Z).
Context (fuel rfuel : nat).
Hypothesis Hdrive : drive_ok dev poll_fuel image.
Hypothesis Hfuel : (16 < fuel)%nat.
Hypothesis Hrfuel : (0 < rfuel)%nat.

(** A copy of an entry. *)
Lemma clone_spec s src e n :
  bytes (fmem s) src 32 = e -> region_owned (fmem s) src 32 -> heap_ok (fmem s) ->
  room (fmem s) (S n) ->
  exists q s', fat16_clone_direcotry_item src s = Ret q s' /\ grown s s' /\ fresh_block s s' q /\
    room (fmem s') n /\ bytes (fmem s') q 32 = e /\ adds s s' [q].
Proof.
  intros Hb Hr Hok Hroom.
  destruct (alloc_fresh s sizeof_item n ltac:(cbv; done) Hok Hroom)
    as (q & s1 & E & Hq & Hg & Hf & Hr1 & _ & _ & Hlv).
  set (m2 := memcpy q src sizeof_item (fmem s1)).
  pose proof (fresh_region_apart s s1 q src 32 Hg Hf Hr ltac:(lia)) as Hap.
  assert (Hm2 : forall a, rd m2 a = if (q <=? a) && (a <? q + 32) then rd (fmem s1) (src + (a - q)) else rd (fmem s1) a).
  { intros a. unfold m2, memcpy. change (Z.to_nat (u32 sizeof_item)) with 32%nat.
    rewrite memcpy_loop_spec by lia. done. }
  assert (Ho : forall a, a < q \/ q + 4096 <= a -> rd (fmem (with_mem m2 s1)) a = rd (fmem s1) a)
    by (intros a Ha; cbn [fmem with_mem]; rewrite Hm2; zcases).
  destruct (edit_fresh s s1 (with_mem m2 s1) q Hg Hf Ho) as (Hg2 & Hr2 & Hf2); [done|done|].
  exists q, (with_mem m2 s1). split; [|split; [done|split; [by apply Hf2|split; [by apply Hr2|split]]]].
  - unfold fat16_clone_direcotry_item. rewrite (bind_Ret _ _ _ _ _ E).
    destruct (Z.eqb_spec q 0); [done|]. done.
  - rewrite <- Hb, <- (grown_bytes s s1 src 32) by done. cbn [fmem with_mem].
    apply bytes_ext. intros i Hi. rewrite Hm2.
    replace (src + (q + i - q)) with (src + i) by lia. zcases.
  - apply (adds_trans s s1 _ [q] []); [by apply adds_alloc|by apply (adds_edit s s1 _ q)].
Qed.

(** Counting and locating a directory that can be loaded. *)
Lemma directory_sector s c :
  volume_ok s -> dir_ok image s c ->
  fat16_cluster_to_sector (priv s) c s = Ret (data_start s + (c - 2) * spc s) s /\
  exists s', fat16_get_total_items_for_directory dev poll_fuel stack_item fuel
      (data_start s + (c - 2) * spc s) s = Ret (dir_count image (cluster_pos s c)) s' /\
    same_store s s'.
Proof.
  intros [Hmt Hgeo _ _] [Hc He _]. split; [by apply cluster_to_sector_eq|].
  destruct (dir_end_spec 16 image (cluster_pos s c) 0) as (Hk & Hne & Hz).
  apply (total_items_spec dev poll_fuel image stack_item fuel (data_start s + (c - 2) * spc s)
    (dir_end 16 image (cluster_pos s c) 0) s); try done;
    [destruct Hgeo, Hc; unfold cluster_pos, cluster_bytes in *; nia|lia|lia|].
  apply Hz. lia.
Qed.

(** Reading its entries. *)
Lemma read_directory s c items :
  volume_ok s -> dir_ok image s c ->
  let N := dir_count image (cluster_pos s c) in out_ok s items (32 * N) ->
  exists s', fat16_read_internal dev poll_fuel rfuel c 0 (32 * N) items s = Ret 0 s' /\ kept s s' /\
    (forall a, a < items \/ items + 4096 <= a -> rd (fmem s') a = rd (fmem s) a) /\
    bytes (fmem s') items (Z.to_nat (32 * N)) = image_bytes image (cluster_pos s c) (32 * N).
Proof.
  intros [Hmt Hgeo _ _] [Hc He Hn] N Hout. pose proof (dir_count_range image _ He) as HN. fold N in HN, Hn.
  assert (Hcb : 512 <= cluster_bytes s) by (destruct Hgeo; unfold cluster_bytes; lia).
  destruct (read_internal_spec dev poll_fuel image Hdrive rfuel
    (ld32 (fmem s) (priv s + fp_cluster_read_stream)) c 0 (32 * N) items s)
    as (s1 & E & Em & Hk); try done; try lia; [apply (mt_cluster _ Hmt)| | |].
  - rewrite Z.div_small by lia. split; [intros i Hi; cbn in Hi; lia|].
    intros i Hi. assert (i = 0%nat) as -> by (cbn in Hi; lia). done.
  - rewrite Z.div_small by lia. done.
  - exists s1. split; [exact E|]. split; [done|].
    rewrite (file_bytes_chunk image s c 0 (32 * N)) in Em by (done || lia).
    rewrite Z.div_0_l in Em by lia. change (nth_cluster image s c (Z.to_nat 0)) with c in Em.
    pose proof (length_image_bytes image (cluster_pos s c) (32 * N)) as Hlen. rewrite Em.
    split; [intros a Ha; apply rd_store_bytes_out; lia|].
    rewrite <- Hlen. apply bytes_store_bytes, Forall_map, list.Forall_forall.
    intros o _. apply (drive_byte _ _ _ Hdrive).
Qed.

(** The two blocks of a directory, once they are there. *)
Lemma fill_directory s s4 d items c :
  let N := dir_count image (cluster_pos s c) in
  volume_ok s -> dir_ok image s c -> grown s s4 -> fresh_block s s4 d -> fresh_block s s4 items ->
  items <> d -> items <> 0 -> ld32 (fmem s4) (d + dir_total) = N ->
  exists s', (store32 (d + dir_item) items ;;;
      if items =? 0 then ret d
      else fat16_read_internal dev poll_fuel rfuel c 0 (32 * N) items ;;; ret d) s4 = Ret d s' /\
    grown s s' /\ (forall n, room (fmem s4) n -> room (fmem s') n) /\
    (forall q, fresh_block s s4 q -> fresh_block s s' q) /\
    ld32 (fmem s') (d + dir_item) = items /\ dir_in (fmem s') d (disk_dir image s c) /\ adds s4 s' [].
Proof.
  intros N Hv Hdir Hg4 Hf4 Hfi4 Hne Hi0 Et. pose proof (vo_owned _ Hv) as Hown.
  destruct (store_fresh s s4 d dir_item items Hg4 Hf4 ltac:(cbv; split; discriminate))
    as (s5 & E6 & Em5 & Hg5 & Hr5 & Hf5).
  pose proof (volume_grown _ _ Hg5 Hv) as Hv5. pose proof (grown_kept _ _ Hown Hg5) as Hk5.
  pose proof (dir_ok_kept image _ _ c Hk5 Hdir) as Hdir5.
  pose proof (dir_count_range image _ (do_end _ _ _ Hdir)) as HN. fold N in HN.
  destruct (read_directory s5 c items Hv5 Hdir5) as (s6 & E7 & Hk56 & Ho6 & Hb6).
  { rewrite (cluster_pos_kept s s5) by done. fold N.
    pose proof (fresh_region_apart s s5 items _ _ Hg5 (Hf5 _ Hfi4) Hown ltac:(cbv; done)) as Hap.
    unfold out_ok, priv. rewrite (gr_disk _ _ Hg5). fold (priv s). lia. }
  rewrite (cluster_pos_kept s s5) in E7, Hb6 by done. fold N in E7, Hb6.
  destruct (edit_fresh s s5 s6 items Hg5 (Hf5 _ Hfi4) Ho6 (kp_disk _ _ Hk56) (kp_streams _ _ Hk56))
    as (Hg6 & Hr6 & Hf6).
  assert (Hd6 : forall k, 0 <= k <= 4092 -> ld32 (fmem s6) (d + k) = ld32 (fmem s5) (d + k)).
  { intros k Hk. apply (ld32_ext (fmem s5) (fmem s6) (d + k) (d + k)). intros i Hi. apply Ho6.
    apply (live_apart (fmem s4) items d); [apply Hfi4|apply Hf4|done|lia]. }
  assert (Eit : ld32 (fmem s6) (d + dir_item) = items).
  { rewrite Hd6 by (cbv; split; discriminate). rewrite Em5, ld32_st32_eq.
    pose proof (live_block _ _ _ (fb_live _ _ _ Hfi4)). pose proof (live_low _ _ _ (fb_live _ _ _ Hfi4)).
    apply u32_id. lia. }
  exists s6. split; [|split; [done|split; [auto|split; [auto|split; [done|split]]]]].
  - rewrite (bind_Ret _ _ _ _ _ E6). destruct (Z.eqb_spec items 0); [done|].
    by rewrite (bind_Ret _ _ _ _ _ E7).
  - split; rewrite ?(length_disk_dir image s c (do_end _ _ _ Hdir)); [|fold N; lia|].
    + rewrite Hd6 by (cbv; split; discriminate). rewrite Em5.
      unfold dir_total, dir_item in *. rewrite ld32_st32_ne by lia. exact Et.
    + intros i e He. unfold disk_dir in He. fold N in He. rewrite list_lookup_fmap in He.
      destruct (seqZ 0 N !! i) as [z|] eqn:Ez; [|done]. injection He as <-.
      apply lookup_seqZ in Ez as [-> Hi]. rewrite Eit, Z.add_0_l.
      apply (bytes_image_eq _ _ image _ 32). intros j Hj.
      rewrite <- !Z.add_assoc. apply (bytes_image_rd _ _ image _ (32 * N) Hb6). lia.
  - apply (adds_trans s4 s5 s6 [] []); [|by apply (adds_edit s s5 s6 items Hg5 (Hf5 _ Hfi4))].
    by eapply (adds_store s s4 s5 d dir_item items Hg4 Hf4 ltac:(cbv; split; discriminate)).
Qed.

(** A directory read into memory: its structure at [d], its entries behind. *)
Lemma load_directory_spec s src e n :
  volume_ok s -> bytes (fmem s) src 32 = e -> region_owned (fmem s) src 32 ->
  is_dir e -> dir_ok image s (entry_cluster e) -> room (fmem s) (S (S n)) ->
  exists d s', fat16_load_fat_directory dev poll_fuel stack_item fuel rfuel src s = Ret d s' /\
    grown s s' /\ room (fmem s') n /\ fresh_block s s' d /\
    fresh_block s s' (ld32 (fmem s') (d + dir_item)) /\ ld32 (fmem s') (d + dir_item) <> d /\
    dir_in (fmem s') d (disk_dir image s (entry_cluster e)) /\
    adds s s' [ld32 (fmem s') (d + dir_item); d].
Proof.
  intros Hv Hb Hr Hd Hdir Hroom. pose proof Hv as [Hmt Hgeo Hown Hok].
  set (c := entry_cluster e) in *.
  destruct (alloc_fresh s sizeof_fat_directory (S n) ltac:(cbv; done) Hok Hroom)
    as (d & s1 & E1 & Hd0 & Hg1 & Hf1 & Hr1 & _ & _ & Hlv1).
  pose proof (volume_grown _ _ Hg1 Hv) as Hv1. pose proof (grown_kept _ _ Hown Hg1) as Hk1.
  pose proof (dir_ok_kept image _ _ c Hk1 Hdir) as Hdir1.
  destruct (directory_sector s1 c Hv1 Hdir1) as (E2 & s2 & E3 & Hss).
  rewrite (cluster_pos_kept s s1) in E3 by done. set (N := dir_count image (cluster_pos s c)) in *.
  assert (HN : 0 < N < 16).
  { pose proof (dir_count_range image _ (do_end _ _ _ Hdir)). pose proof (do_live _ _ _ Hdir). lia. }
  pose proof (grown_same _ _ _ Hg1 Hss) as Hg2. pose proof (fresh_same s _ _ d Hss Hf1) as Hf2.
  destruct (store_fresh s s2 d dir_total N Hg2 Hf2 ltac:(cbv; split; discriminate))
    as (s3 & E4 & Em3 & Hg3 & Hr3 & Hf3).
  assert (Hrm3 : room (fmem s3) (S n)) by (apply Hr3; by rewrite (ss_mem _ _ Hss)).
  destruct (alloc_fresh s3 (32 * N) n ltac:(lia) (gr_ok _ _ Hg3) Hrm3)
    as (items & s4 & E5 & Hi0 & Hg34 & Hfi & Hr4 & _ & _ & Hlv4).
  pose proof (grown_trans _ _ _ Hg3 Hg34) as Hg4.
  pose proof (fresh_later s s3 s4 d (Hf3 d Hf2) Hg34) as Hf4.
  pose proof (fresh_earlier s s3 s4 items Hg3 Hfi) as Hfi4.
  assert (Hne : items <> d) by (intros ->; by apply (fb_new _ _ _ Hfi d 4096 (fb_live _ _ _ (Hf3 d Hf2)))).
  destruct (fill_directory s s4 d items c) as (s5 & E6 & Hg5 & Hr5 & Hf5 & Eit & Hdi & Ha5); try done.
  { change (ld32 (fmem s4) (d + dir_total) = N). rewrite (grown_ld32 s3 s4) by
      (done || (eapply region_sub; [apply (fresh_region s s3 d (Hf3 d Hf2))|unfold dir_total; lia..])).
    rewrite Em3, ld32_st32_eq. apply u32_id. lia. }
  fold N in E6.
  assert (Ha : adds s s5 [items; d]).
  { eapply adds_sub; [eapply adds_trans; [by apply adds_alloc|eapply adds_trans; [by apply adds_same|eapply adds_trans;
      [by apply (adds_store s s2 s3 d dir_total N Hg2 Hf2 ltac:(cbv; split; discriminate))
      |eapply adds_trans; [by apply adds_alloc|exact Ha5]]]]|clear; set_solver]. }
  exists d, s5. rewrite Eit. split; [|by auto 12].
  unfold fat16_load_fat_directory. unfold bind at 1, get. unfold bind at 1, load8, gets.
  rewrite (entry_attribute (fmem s) src e Hb). destruct (is_dir e); [|done]. cbn [negb].
  rewrite (bind_Ret _ _ _ _ _ E1). destruct (Z.eqb_spec d 0); [done|].
  assert (Ec : fat16_get_first_cluster src s1 = Ret c s1).
  { unfold fat16_get_first_cluster, bind, load16, gets, ret, c, entry_cluster.
    rewrite !(entry_half (fmem s1) src e) by
      ((by rewrite (grown_bytes s s1)) || (cbv; split; done || discriminate)). done. }
  rewrite (bind_Ret _ _ _ _ _ Ec).
  assert (Ep : fs_private (the_disk s) = priv s1) by (unfold priv; by rewrite (gr_disk _ _ Hg1)).
  rewrite Ep, (bind_Ret _ _ _ _ _ E2), (bind_Ret _ _ _ _ _ E3), (bind_Ret _ _ _ _ _ E4).
  assert (Ez : i32 (u32 (N * sizeof_item)) = 32 * N)
    by (unfold sizeof_item; rewrite u32_id, i32_id by lia; lia).
  rewrite Ez, (u32_id (32 * N)) by lia. by rewrite (bind_Ret _ _ _ _ _ E5).
Qed.

(** An item for a file. *)
Lemma new_file_item s src e n :
  volume_ok s -> bytes (fmem s) src 32 = e -> region_owned (fmem s) src 32 -> is_dir e = false ->
  room (fmem s) (S (S n)) ->
  exists p s' bs,
    fat16_new_fat_item_for_directory_item dev poll_fuel stack_item fuel rfuel src s = Ret p s' /\
    grown s s' /\ room (fmem s') n /\ item_made image s s' p e bs /\ adds s s' bs.
Proof.
  intros Hv Hb Hr Hd Hroom. pose proof Hv as [_ _ Hown Hok].
  destruct (alloc_fresh s sizeof_fat_item (S n) ltac:(cbv; done) Hok Hroom)
    as (p & s1 & E1 & Hp0 & Hg1 & Hf1 & Hr1 & _ & _ & Hlv1).
  destruct (store_fresh s s1 p fi_type FAT_ITEM_TYPE_FILE Hg1 Hf1 ltac:(cbv; split; discriminate))
    as (s2 & E2 & Em2 & Hg2 & Hr2 & Hf2).
  assert (Hb1 : bytes (fmem s1) src 32 = e) by (by rewrite (grown_bytes s s1)).
  assert (Hb2 : bytes (fmem s2) src 32 = e) by (by rewrite (grown_bytes s s2)).
  destruct (clone_spec s2 src e n Hb2 (grown_region _ _ _ _ Hg2 Hr) (gr_ok _ _ Hg2) (Hr2 _ Hr1))
    as (q & s3 & E3 & Hg23 & Hfq & Hr3 & Hbq & Ha3).
  pose proof (grown_trans _ _ _ Hg2 Hg23) as Hg3.
  pose proof (fresh_later s s2 s3 p (Hf2 p Hf1) Hg23) as Hf3.
  pose proof (fresh_earlier s s2 s3 q Hg2 Hfq) as Hfq3.
  assert (Hne : q <> p) by (intros ->; by apply (fb_new _ _ _ Hfq p 4096 (fb_live _ _ _ (Hf2 p Hf1)))).
  destruct (store_fresh s s3 p fi_pointer q Hg3 Hf3 ltac:(cbv; split; discriminate))
    as (s4 & E4 & Em4 & Hg4 & Hr4 & Hf4).
  assert (Ha : adds s s4 [q; p]).
  { eapply adds_sub; [eapply adds_trans; [by apply adds_alloc|eapply adds_trans;
      [by apply (adds_store s s1 s2 p fi_type FAT_ITEM_TYPE_FILE Hg1 Hf1 ltac:(cbv; split; discriminate))
      |eapply adds_trans; [exact Ha3
      |by apply (adds_store s s3 s4 p fi_pointer q Hg3 Hf3 ltac:(cbv; split; discriminate))]]]|clear; set_solver]. }
  exists p, s4, [q; p]. split; [|split; [done|split; [auto|split; [|done]]]].
  - unfold fat16_new_fat_item_for_directory_item. rewrite (bind_Ret _ _ _ _ _ E1).
    destruct (Z.eqb_spec p 0); [done|]. unfold bind at 1, load8, gets.
    rewrite (entry_attribute (fmem s1) src e Hb1), Hd. cbn [negb].
    unfold bind at 1. rewrite (bind_Ret _ _ _ _ _ E2), (bind_Ret _ _ _ _ _ E3), E4. done.
  - split; [|by apply nodup_two| |done].
    + unfold item_repr. rewrite Hd. exists q. split; [done|]. rewrite Em4.
      assert (Et : ld32 (fmem s3) (p + fi_type) = FAT_ITEM_TYPE_FILE).
      { rewrite (grown_ld32 s2 s3) by (done || (eapply region_sub;
          [apply (fresh_region s s2 p (Hf2 p Hf1))|unfold fi_type; lia..])).
        by rewrite Em2, ld32_st32_eq. }
      pose proof (live_block _ _ _ (fb_live _ _ _ Hfq)). pose proof (live_low _ _ _ (fb_live _ _ _ Hfq)).
      unfold fi_pointer, fi_type in *. rewrite ld32_st32_eq, ld32_st32_ne by lia.
      split; [apply u32_id; lia|]. split; [done|]. rewrite <- Hbq. apply bytes_ext. intros i Hi.
      apply rd_st32_ne. pose proof (live_apart (fmem s3) p q (q + i) (fb_live _ _ _ Hf3) (fb_live _ _ _ Hfq3) ltac:(done) ltac:(lia)). lia.
    + intros b Hb'. apply elem_of_cons in Hb' as [->|Hb'%list_elem_of_singleton]; [by auto|].
      rewrite Hb'. by auto.
Qed.

(** An item for a directory. *)
Lemma new_directory_item s src e n :
  volume_ok s -> bytes (fmem s) src 32 = e -> region_owned (fmem s) src 32 -> is_dir e ->
  dir_ok image s (entry_cluster e) -> room (fmem s) (S (S (S n))) ->
  exists p s' bs,
    fat16_new_fat_item_for_directory_item dev poll_fuel stack_item fuel rfuel src s = Ret p s' /\
    grown s s' /\ room (fmem s') n /\ item_made image s s' p e bs /\ adds s s' bs.
Proof.
  intros Hv Hb Hr Hd Hdir Hroom. pose proof Hv as [_ _ Hown Hok].
  destruct (alloc_fresh s sizeof_fat_item (S (S n)) ltac:(cbv; done) Hok Hroom)
    as (p & s1 & E1 & Hp0 & Hg1 & Hf1 & Hr1 & _ & _ & Hlv1).
  assert (Hb1 : bytes (fmem s1) src 32 = e) by (by rewrite (grown_bytes s s1)).
  pose proof (grown_kept _ _ Hown Hg1) as Hk1.
  destruct (load_directory_spec s1 src e n (volume_grown _ _ Hg1 Hv) Hb1 (grown_region _ _ _ _ Hg1 Hr)
    Hd (dir_ok_kept _ _ _ _ Hk1 Hdir) Hr1) as (d & s2 & E2 & Hg12 & Hr2 & Hfd & Hfi & Hne & Hdi & Ha2).
  pose proof (grown_trans _ _ _ Hg1 Hg12) as Hg2.
  pose proof (fresh_later s s1 s2 p Hf1 Hg12) as Hf2.
  pose proof (fresh_earlier s s1 s2 _ Hg1 Hfd) as Hfd2.
  pose proof (fresh_earlier s s1 s2 _ Hg1 Hfi) as Hfi2.
  set (items := ld32 (fmem s2) (d + dir_item)) in *.
  assert (Hdp : d <> p) by (intros ->; by apply (fb_new _ _ _ Hfd p 4096 (fb_live _ _ _ Hf1))).
  assert (Hip : items <> p) by (intros E; by apply (fb_new _ _ _ Hfi p 4096 (fb_live _ _ _ Hf1))).
  destruct (store_fresh s s2 p fi_pointer d Hg2 Hf2 ltac:(cbv; split; discriminate))
    as (s3 & E3 & Em3 & Hg3 & Hr3 & Hf3).
  destruct (store_fresh s s3 p fi_type FAT_ITEM_TYPE_DIRECTORY Hg3 (Hf3 p Hf2) ltac:(cbv; split; discriminate))
    as (s4 & E4 & Em4 & Hg4 & Hr4 & Hf4).
  assert (Ho : forall b a, fresh_block s s2 b -> b <> p -> b <= a < b + 4096 -> rd (fmem s4) a = rd (fmem s2) a).
  { intros b a Hfb Hnb Ha. pose proof (live_apart (fmem s2) p b a (fb_live _ _ _ Hf2) (fb_live _ _ _ Hfb)
      ltac:(done) ltac:(lia)). unfold fi_pointer, fi_type in *. by rewrite Em4, Em3, !rd_st32_ne by lia. }
  assert (Eit : ld32 (fmem s4) (d + dir_item) = items).
  { apply (ld32_ext (fmem s2) (fmem s4) (d + dir_item) (d + dir_item)). intros i Hi.
    apply (Ho d); [done|done|unfold dir_item in *; lia]. }
  assert (Hadd : adds s s4 [items; d; p]).
  { eapply adds_sub; [eapply adds_trans; [by apply adds_alloc|eapply adds_trans; [exact Ha2|eapply adds_trans;
      [by apply (adds_store s s2 s3 p fi_pointer d Hg2 Hf2 ltac:(cbv; split; discriminate))
      |by apply (adds_store s s3 s4 p fi_type FAT_ITEM_TYPE_DIRECTORY Hg3 (Hf3 p Hf2) ltac:(cbv; split; discriminate))]]]
    |clear; set_solver]. }
  exists p, s4, [items; d; p]. split; [|split; [done|split; [auto|split; [|done]]]].
  - unfold fat16_new_fat_item_for_directory_item. rewrite (bind_Ret _ _ _ _ _ E1).
    destruct (Z.eqb_spec p 0); [done|]. unfold bind at 1, load8, gets.
    rewrite (entry_attribute (fmem s1) src e Hb1). destruct (is_dir e); [|done]. cbn [negb].
    unfold bind at 1. rewrite (bind_Ret _ _ _ _ _ E2), (bind_Ret _ _ _ _ _ E3), E4. done.
  - split; [| |intros b Hb'; rewrite !elem_of_cons in Hb'; destruct Hb' as [->|[->|[->|Hb'%not_elem_of_nil]]]; [auto|auto|auto|done]|done].
    + pose proof (grown_kept _ _ Hown Hg2) as Hk2. pose proof (grown_kept _ _ Hown Hg4) as Hk4.
      pose proof (live_block _ _ _ (fb_live _ _ _ Hfd)). pose proof (live_low _ _ _ (fb_live _ _ _ Hfd)).
      assert (Ew : ld32 (fmem s4) (p + fi_pointer) = d /\ ld32 (fmem s4) (p + fi_type) = FAT_ITEM_TYPE_DIRECTORY).
      { rewrite Em4, Em3. unfold fi_pointer, fi_type. rewrite ld32_st32_ne, !ld32_st32_eq by lia.
        split; [apply u32_id; lia|done]. }
      unfold item_repr. destruct (is_dir e); [|done]. exists d. rewrite Eit.
      split; [done|]. split; [apply Ew|]. split; [apply Ew|].
      split; [by apply (dir_ok_kept _ s)|].
      rewrite (disk_dir_kept _ s s4), <- (disk_dir_kept _ s s1) by done.
      apply (dir_in_frame (fmem s2)); [done|intros a Ha; apply (Ho d); [done|done|lia]|].
      intros a Ha. apply (Ho items); [done|done|].
      rewrite (length_disk_dir image s1 _ (do_end _ _ _ (dir_ok_kept _ _ _ _ Hk1 Hdir))) in Ha.
      pose proof (dir_count_range image _ (do_end _ _ _ (dir_ok_kept _ _ _ _ Hk1 Hdir))).
      fold items in Ha. lia.
    + by apply nodup_three.
Qed.

Lemma new_item_spec s src e n :
  volume_ok s -> bytes (fmem s) src 32 = e -> region_owned (fmem s) src 32 ->
  (is_dir e -> dir_ok image s (entry_cluster e)) -> room (fmem s) (3 + n) ->
  exists p s' bs,
    fat16_new_fat_item_for_directory_item dev poll_fuel stack_item fuel rfuel src s = Ret p s' /\
    grown s s' /\ room (fmem s') n /\ item_made image s s' p e bs /\ adds s s' bs.
Proof.
  intros Hv Hb Hr Hd Hroom. destruct (is_dir e) eqn:E.
  - apply (new_directory_item s src e n); try done; [by rewrite E|by apply Hd].
  - apply (new_file_item s src e n); try done. apply (room_weaken _ _ _ Hroom). lia.
Qed.

(** ** Lemmas: searching a directory *)

Lemma search_matches l es e : search_entry l es = Some e -> (1 <= length (filter (named l) es))%nat.
Proof.
  induction es as [|e' es IH]; cbn [search_entry]; [done|]. rewrite filter_cons.
  destruct (search_entry l es); [intros [= ->]; specialize (IH eq_refl)|intros En];
    destruct (decide (named l e')); cbn [length]; [lia..|].
  by destruct (named l e').
Qed.

Lemma unique_tail l e es : unique l (e :: es) -> unique l es.
Proof. unfold unique. rewrite filter_cons. destruct (decide _); cbn [length]; lia. Qed.

Lemma unique_last l e es e' : unique l (e :: es) -> named l e -> search_entry l es <> Some e'.
Proof.
  unfold unique. intros Hu Hn He%search_matches. rewrite filter_cons_True in Hu by done. cbn [length] in Hu. lia.
Qed.

Lemma find_item_spec s0 d name l es n :
  volume_ok s0 -> dir_at s0 d es -> name_at s0 name l -> dir_good image s0 l es ->
  forall k i s tmp, grown s0 s -> (i + k = length es)%nat -> room (fmem s) (3 * k + n) ->
  exists r s', find_item dev poll_fuel stack_item k fuel rfuel d (Z.of_nat i) name tmp s = Ret r s' /\
    grown s0 s' /\ room (fmem s') n /\
    match search_entry l (drop i es) with
    | Some e => exists bs, item_made image s0 s' r e bs /\ (unique l (drop i es) -> adds s s' bs)
    | None => r = tmp /\ s' = s
    end.
Proof.
  intros Hv Hda Hna [Hent Hsub]. induction k as [|k IH]; intros i s tmp Hg Hk Hroom.
  - exists tmp, s. rewrite drop_ge by lia. by repeat (split; [done|]).
  - destruct (lookup_lt_is_Some_2 es i ltac:(lia)) as [e He].
    rewrite (drop_S _ _ _ He). cbn [search_entry find_item]. unfold bind at 1, load32, gets. unfold bind at 1, get.
    destruct (dir_grown _ _ _ _ Hg Hda) as [[Htot _ Hen] [_ Hio]].
    destruct (name_grown _ _ _ _ Hg Hna) as [Hstr Hlen _].
    set (src := ld32 (fmem s) (d + dir_item) + Z.of_nat i * sizeof_item).
    assert (Hb : bytes (fmem s) src 32 = e) by (rewrite <- (Hen _ _ He); f_equal; unfold src, sizeof_item; lia).
    pose proof (list_elem_of_lookup_2 _ _ _ He) as Hin.
    change (Z.to_nat LIEBE_OS_MAX_PATH_LEN) with 108%nat.
    destruct (entry_name_spec (fmem s) src e Hb (Hent e Hin)) as (-> & _).
    rewrite (entry_match (fmem s) src e Hb _ l (Hent e Hin) Hstr Hlen).
    replace (Z.of_nat i + 1) with (Z.of_nat (S i)) by lia.
    destruct (named l e) eqn:En.
    + destruct (new_item_spec s src e (3 * k + n)) as (p & s1 & bs & E & Hg1 & Hr1 & Him & Ha).
      * by apply (volume_grown s0).
      * done.
      * eapply region_sub; [exact Hio|unfold src, sizeof_item; lia..].
      * intros Hd. apply (dir_ok_kept image s0); [by apply (grown_kept _ _ (vo_owned _ Hv))|].
        apply Hsub; [done|by rewrite En|done].
      * by replace (3 + (3 * k + n))%nat with (3 * S k + n)%nat by lia.
      * rewrite (bind_Ret _ _ _ _ _ E).
        destruct (IH (S i) s1 p (grown_trans _ _ _ Hg Hg1) ltac:(lia) Hr1) as (r & s2 & -> & Hg2 & Hr2 & Hres).
        exists r, s2. split; [done|]. split; [done|]. split; [done|].
        destruct (search_entry l (drop (S i) es)) as [e'|] eqn:Es.
        -- destruct Hres as (bs' & Him' & _). exists bs'. split; [done|]. intros Hu.
           by destruct (unique_last l e (drop (S i) es) e' Hu); [rewrite En|].
        -- destruct Hres as [-> ->]. exists bs. split; [by apply (item_made_earlier image s0 s)|done].
    + unfold bind at 1, ret.
      destruct (IH (S i) s tmp Hg ltac:(lia) (room_weaken _ _ (3 * k + n) Hroom ltac:(lia))) as (r & s2 & -> & Hg2 & Hr2 & Hres).
      exists r, s2. split; [done|]. split; [done|]. split; [done|].
      destruct (search_entry l (drop (S i) es)); [|done]. destruct Hres as (bs & Him & Ha).
      exists bs. split; [done|]. intros Hu. by apply Ha, (unique_tail l e).
Qed.

Lemma find_directory_spec s d name l es n :
  volume_ok s -> dir_at s d es -> name_at s name l -> dir_good image s l es ->
  room (fmem s) (3 * length es + n) ->
  exists r s', fat16_find_item_in_directory dev poll_fuel stack_item fuel rfuel d name s = Ret r s' /\
    grown s s' /\ room (fmem s') n /\
    match search_entry l es with
    | Some e => exists bs, item_made image s s' r e bs /\ (unique l es -> adds s s' bs)
    | None => r = 0 /\ s' = s
    end.
Proof.
  intros Hv Hda Hna Hgood Hroom. destruct Hda as [[Htot Hfew Hen] Hdo].
  unfold fat16_find_item_in_directory, bind, loadi32, gets. rewrite Htot, i32_id, Nat2Z.id by lia.
  apply (find_item_spec s d name l es n Hv ltac:(done) Hna Hgood (length es) 0 s 0); try done.
  apply grown_refl, Hv.
Qed.

(** ** Lemmas: walking down the path *)

Lemma dir_good_kept s s' l es : kept s s' -> dir_good image s l es -> dir_good image s' l es.
Proof. intros Hk [H1 H2]. split; [done|]. intros e He Hn Hd. apply (dir_ok_kept image s); auto. Qed.

(** The directory behind an item. *)
Lemma item_directory s0 s p e bs :
  volume_ok s0 -> grown s0 s -> item_made image s0 s p e bs -> is_dir e ->
  ld32 (fmem s) (p + fi_type) = FAT_ITEM_TYPE_DIRECTORY /\
  dir_at s (ld32 (fmem s) (p + fi_pointer)) (disk_dir image s0 (entry_cluster e)) /\
  (length (disk_dir image s0 (entry_cluster e)) < 16)%nat.
Proof.
  intros Hv Hg [Hi _ Hfr _] Hd. pose proof (grown_kept _ _ (vo_owned _ Hv) Hg) as Hk.
  unfold item_repr in Hi. destruct (is_dir e); [|done].
  destruct Hi as (d & -> & -> & Ht & Hok & Hdi). split; [done|].
  pose proof (length_disk_dir image s _ (do_end _ _ _ Hok)) as Hlen.
  pose proof (dir_count_range image _ (do_end _ _ _ Hok)) as Hrange.
  rewrite (disk_dir_kept image s0 s) in Hlen, Hdi by done. split; [|lia].
  split; [done|]. split.
  - eapply region_sub; [apply (fresh_region s0 s d), Hfr; set_solver|unfold sizeof_fat_directory; lia..].
  - eapply region_sub; [apply (fresh_region s0 s (ld32 (fmem s) (d + dir_item))), Hfr; set_solver|lia..].
Qed.

Lemma item_file s0 s p e bs :
  item_made image s0 s p e bs -> is_dir e = false ->
  ld32 (fmem s) (p + fi_type) = FAT_ITEM_TYPE_FILE /\ bytes (fmem s) (ld32 (fmem s) (p + fi_pointer)) 32 = e.
Proof.
  intros [Hi _ _ _] Hd. unfold item_repr in Hi. rewrite Hd in Hi.
  by destruct Hi as (q & -> & -> & -> & Hb).
Qed.

(** What a walk gives for a lookup's result; when the names are unique, [U],
    the item found is all that is added. *)
Definition walked (s0 : fs) (N : nat) (U : Prop) (r : located) (o : outcome fs Z) : Prop :=
  match r with
  | Found e => exists p s' bs, o = Ret p s' /\ grown s0 s' /\ room (fmem s') N /\
      item_made image s0 s' p e bs /\ (U -> adds s0 s' bs)
  | Missing => exists s', o = Ret 0 s' /\ grown s0 s'
  | Wild => o = Fault
  end.

Lemma walked_mono s0 N (U V : Prop) r o : (V -> U) -> walked s0 N U r o -> walked s0 N V r o.
Proof.
  intros HVU. destruct r; cbn [walked]; [|done|done].
  intros (p & s' & bs & E & Hg & Hr & Him & Ha). exists p, s', bs. by auto 10.
Qed.

Lemma walk_missing s0 N U ns : forall pf next s,
  grown s0 s -> parts_repr (fmem s0) next ns -> (length ns < pf)%nat ->
  walked s0 N U (descend image s0 None (map snd ns))
    (walk_path dev poll_fuel stack_item pf fuel rfuel 0 next s).
Proof.
  intros [|pf] next s Hg Hr Hpf; [lia|]. cbn [walk_path].
  destruct ns as [|[[n sp] l] ns]; cbn [parts_repr map descend walked] in *.
  - subst next. by exists s.
  - destruct Hr as (-> & Hn & _). by destruct (Z.eqb_spec n 0).
Qed.

Lemma walk_spec s0 N ns : forall (U : Prop) pf cur next s e bs,
  volume_ok s0 -> grown s0 s -> item_made image s0 s cur e bs -> (U -> adds s0 s bs) ->
  room (fmem s) (48 * length ns + N) ->
  parts_repr (fmem s0) next ns -> parts_owned s0 ns ->
  descend_good image s0 (Some e) (map snd ns) -> (length ns < pf)%nat ->
  walked s0 N (U /\ descend_unique image s0 (Some e) (map snd ns)) (descend image s0 (Some e) (map snd ns))
    (walk_path dev poll_fuel stack_item pf fuel rfuel cur next s).
Proof.
  induction ns as [|[[n sp] l] ns IH]; intros U [|pf] cur next s e bs Hv Hg Him Ha Hroom Hr Ho Hgood Hpf;
    try (cbn [length] in Hpf; lia); cbn [walk_path].
  - cbn in Hr. subst next. exists cur, s, bs. repeat (split; [done|]). by intros [HU _]; apply Ha.
  - destruct (parts_grown s0 s _ next Hg Ho Hr) as [Hrs _].
    destruct Hr as (-> & Hn & Esp & Hstr & Hrest). cbn [map snd descend_good descend_unique descend] in *.
    destruct (Ho n sp l ltac:(by left)) as [Hreg Hna].
    unfold pp_part, pp_next, part_part, part_next in *.
    destruct (Z.eqb_spec n 0); [done|]. destruct (Z.eqb_spec cur 0); [by destruct (im_nonnull _ _ _ _ _ _ Him)|].
    unfold bind at 1, ret at 1. unfold bind at 1, load32 at 1, gets at 1.
    destruct (is_dir e) eqn:Ed.
    2:{ destruct (item_file s0 s cur e bs Him Ed) as [-> _]. by exists s. }
    destruct (item_directory s0 s cur e bs Hv Hg Him) as (-> & Hda & Hfew); [by rewrite Ed|].
    rewrite Z.eqb_refl. cbn [negb].
    destruct Hgood as [Hgood Hnext]; [done|]. set (es := disk_dir image s0 (entry_cluster e)) in *.
    unfold bind at 1, load32 at 1, gets at 1. unfold bind at 1, load32 at 1, gets at 1.
    destruct Hrs as (_ & _ & Es & _). unfold part_part in Es. rewrite Es.
    destruct (find_directory_spec s _ sp l es (48 * length ns + N) (volume_grown _ _ Hg Hv) Hda
      (name_grown _ _ _ _ Hg Hna)) as (r & s1 & E1 & Hg1 & Hr1 & Hres).
    { by apply (dir_good_kept s0), Hgood; apply (grown_kept _ _ (vo_owned _ Hv)). }
    { apply (room_weaken _ _ _ Hroom). cbn [length]. lia. }
    rewrite (bind_Ret _ _ _ _ _ E1).
    destruct (free_current image s0 s s1 cur e bs Hv Hg Him Hg1) as (s2 & E2 & Hg2 & Hr2 & Hadds & Hmade).
    rewrite (bind_Ret _ _ _ _ _ E2). unfold bind at 1, load32 at 1, gets at 1.
    rewrite (grown_ld32 s0 s2) by (done || (eapply region_sub; [exact Hreg|unfold sizeof_path_part; lia..])).
    assert (Hns : (length ns < pf)%nat) by (cbn [length] in Hpf; lia).
    destruct (search_entry l es) as [e'|].
    + destruct Hres as (bs' & Him' & Ha').
      apply (walked_mono s0 N ((U /\ unique l es) /\ descend_unique image s0 (Some e') (map snd ns))).
      { intros [HU Hq]. destruct (Hq I). by split. }
      apply (IH (U /\ unique l es) pf r _ s2 e' bs'); try done; auto.
      * intros [HU Hu]. by apply Hadds; [apply Ha|apply Ha'].
      * intros n' sp' l' Hin. apply Ho. by right.
    + destruct Hres as [-> ->]. by apply walk_missing.
Qed.

(** The lookup of a path. *)
Lemma directory_entry_spec s path ns root pf N :
  volume_ok s -> dir_at s (priv s + fp_root_directory) root ->
  parts_repr (fmem s) path ns -> parts_owned s ns -> ns <> [] -> (length ns <= pf)%nat ->
  path_good image s root (map snd ns) -> room (fmem s) (3 * length root + (48 * length ns + N)) ->
  walked s N (path_unique image s root (map snd ns)) (locate image s root (map snd ns))
    (fat16_get_directory_entry dev poll_fuel stack_item pf fuel rfuel path s).
Proof.
  intros Hv Hda Hr Ho Hne Hpf Hgood Hroom. destruct ns as [|[[n sp] l] ns]; [done|].
  destruct Hr as (-> & Hn & Esp & Hstr & Hrest). destruct (Ho n sp l ltac:(by left)) as [Hreg Hna].
  cbn [map snd path_good path_unique locate] in *. destruct Hgood as [Hgood Hnext].
  unfold fat16_get_directory_entry. unfold pp_part, pp_next, part_part, part_next in *.
  unfold bind at 1, get. unfold bind at 1, load32 at 1, gets at 1. rewrite Esp. fold (priv s).
  destruct (find_directory_spec s _ sp l root (48 * length ((n, sp, l) :: ns) + N) Hv Hda Hna Hgood Hroom)
    as (r & s1 & E1 & Hg1 & Hr1 & Hres).
  rewrite (bind_Ret _ _ _ _ _ E1). destruct (search_entry l root) as [e|].
  - destruct Hres as (bs & Him & Ha). destruct (Z.eqb_spec r 0); [by destruct (im_nonnull _ _ _ _ _ _ Him)|].
    unfold bind at 1, load32 at 1, gets at 1.
    rewrite (grown_ld32 s s1) by (done || (eapply region_sub; [exact Hreg|unfold sizeof_path_part; lia..])).
    apply (walk_spec s N ns (unique l root) pf r _ s1 e bs); try done.
    + apply (room_weaken _ _ _ Hr1). unfold node in *. cbn [length]. lia.
    + intros n' sp' l' Hin. apply Ho. by right.
  - destruct Hres as [-> ->]. exists s. split; [done|]. by apply grown_refl, Hv.
Qed.

(** Writing into the descriptor leaves the item as it is. *)
Lemma item_made_edit s s1 s2 s3 desc p e bs :
  volume_ok s -> grown s s1 -> fresh_block s s1 desc -> grown s1 s2 -> item_made image s1 s2 p e bs ->
  (forall a, a < desc \/ desc + 4096 <= a -> rd (fmem s3) a = rd (fmem s2) a) ->
  the_disk s3 = the_disk s2 -> (forall q, has_stream s2 q -> has_stream s3 q) ->
  grown s s3 /\ (forall n, room (fmem s2) n -> room (fmem s3) n) /\
  fresh_block s s3 desc /\ (desc ∉ bs) /\ item_made image s s3 p e bs.
Proof.
  intros Hv Hg1 Hfd Hg12 Him Ho Hd Hst. pose proof (grown_trans _ _ _ Hg1 Hg12) as Hg2.
  pose proof (fresh_later _ _ _ _ Hfd Hg12) as Hfd2.
  destruct (edit_fresh s s2 s3 desc Hg2 Hfd2 Ho Hd Hst) as (Hg3 & Hr3 & Hf3).
  assert (Hnb : desc ∉ bs)
    by (intros Hb; by apply (fb_new _ _ _ (im_fresh _ _ _ _ _ _ Him desc Hb) desc 4096 (fb_live _ _ _ Hfd))).
  destruct (item_made_earlier image s s1 s2 p e bs Hg1 Him) as [Hi Hnd Hfr Hnn].
  split; [done|]. split; [done|]. split; [by apply Hf3|]. split; [done|]. split; [|done|auto|done].
  apply (item_repr_frame image s2); [done| |].
  - split; [|done|done]. intros a Ha. apply Ho. apply (fresh_apart s s2); [done|done|].
    unfold priv in Ha. rewrite (gr_disk _ _ Hg2) in Ha. by apply (vo_owned _ Hv).
  - intros b a Hb Ha. apply Ho. apply (live_apart (fmem s2) desc b a); [apply Hfd2|by apply Hfr| |done].
    intros ->. done.
Qed.

(** Lookups depend on the volume only. *)
Lemma descend_kept s s' path : forall cur, kept s s' -> descend image s' cur path = descend image s cur path.
Proof.
  induction path as [|l path IH]; intros [e|] Hk; cbn [descend]; try done.
  destruct (is_dir e); [|done]. by rewrite (disk_dir_kept image s s'), IH.
Qed.

Lemma locate_kept s s' root path : kept s s' -> locate image s' root path = locate image s root path.
Proof.
  intros Hk. destruct path as [|l path]; cbn [locate]; [done|].
  destruct (search_entry l root); [by apply descend_kept|done].
Qed.

Lemma descend_good_kept s s' path : forall cur, kept s s' ->
  descend_good image s cur path -> descend_good image s' cur path.
Proof.
  induction path as [|l path IH]; intros [e|] Hk; cbn [descend_good]; try done.
  intros Hd He. rewrite (disk_dir_kept image s s') by done. destruct (Hd He) as [H1 H2].
  split; [by apply (dir_good_kept s)|by apply IH].
Qed.

Lemma path_good_kept s s' root path : kept s s' -> path_good image s root path -> path_good image s' root path.
Proof.
  intros Hk. destruct path as [|l path]; cbn [path_good]; [done|].
  intros [H1 H2]. split; [by apply (dir_good_kept s)|by apply (descend_good_kept s)].
Qed.

Lemma descend_unique_kept s s' path : forall cur, kept s s' ->
  descend_unique image s cur path -> descend_unique image s' cur path.
Proof.
  induction path as [|l path IH]; intros [e|] Hk; cbn [descend_unique]; try done.
  intros Hd He. rewrite (disk_dir_kept image s s') by done. destruct (Hd He) as [H1 H2].
  split; [done|by apply IH].
Qed.

Lemma path_unique_kept s s' root path :
  kept s s' -> path_unique image s root path -> path_unique image s' root path.
Proof.
  intros Hk. destruct path as [|l path]; cbn [path_unique]; [done|].
  intros [H1 H2]. split; [done|by apply (descend_unique_kept s)].
Qed.

(** What opening gives; when the names on the way are unique, [U], the
    descriptor and the item are all that is added. *)
Definition opened (s : fs) (N : nat) (U : Prop) (r : located) (o : outcome fs Z) : Prop :=
  match r with
  | Found e => exists desc s' bs, o = Ret desc s' /\ grown s s' /\ room (fmem s') N /\
      fresh_block s s' desc /\ (desc ∉ bs) /\
      item_made image s s' (ld32 (fmem s') (desc + fd_item)) e bs /\ desc_pos s' desc = 0 /\
      (U -> adds s s' (desc :: bs))
  | Missing => exists desc s', o = Ret (ERROR (- EIO)) s' /\ grown s s' /\ fresh_block s s' desc
  | Wild => o = Fault
  end.

Lemma open_spec s path ns root pf N :
  volume_ok s -> dir_at s (priv s + fp_root_directory) root ->
  parts_repr (fmem s) path ns -> parts_owned s ns -> ns <> [] -> (length ns <= pf)%nat ->
  path_good image s root (map snd ns) -> room (fmem s) (S (3 * length root + (48 * length ns + N))) ->
  opened s N (path_unique image s root (map snd ns)) (locate image s root (map snd ns))
    (fat16_open dev poll_fuel stack_item pf fuel rfuel path FILE_MODE_READ s).
Proof.
  intros Hv Hda Hr Ho Hne Hpf Hgood Hroom. pose proof Hv as [_ _ Hown Hok].
  destruct (alloc_fresh s sizeof_fat_file_descriptor _ ltac:(cbv; done) Hok Hroom)
    as (desc & s1 & E1 & Hd0 & Hg1 & Hf1 & Hr1 & _ & _ & Hlv1).
  destruct (parts_grown s s1 ns path Hg1 Ho Hr) as [Hrep1 Ho1].
  pose proof (grown_kept _ _ Hown Hg1) as Hk1.
  assert (Epriv : priv s1 = priv s) by (unfold priv; by rewrite (gr_disk _ _ Hg1)).
  pose proof (dir_grown _ _ _ _ Hg1 Hda) as Hda1. rewrite <- Epriv in Hda1.
  pose proof (directory_entry_spec s1 path ns root pf N (volume_grown _ _ Hg1 Hv) Hda1 Hrep1 Ho1 Hne Hpf
    (path_good_kept _ _ _ _ Hk1 Hgood) Hr1) as Hw.
  rewrite (locate_kept s s1) in Hw by done.
  unfold fat16_open. change (negb (FILE_MODE_READ =? FILE_MODE_READ)) with false. cbv iota.
  rewrite (bind_Ret _ _ _ _ _ E1). destruct (Z.eqb_spec desc 0); [done|].
  destruct (locate image s root (map snd ns)) as [e| |]; cbn [walked opened] in *.
  - destruct Hw as (p & s2 & bs & E2 & Hg12 & Hr2 & Him & Ha). rewrite (bind_Ret _ _ _ _ _ E2).
    assert (Hp : 0 < p < 4294967296) by (by eapply item_made_pointer).
    unfold bind at 1, store32 at 1, modify at 1. destruct (Z.eqb_spec p 0); [lia|].
    unfold bind at 1, store32 at 1, modify at 1, ret.
    set (s4 := with_mem _ (with_mem _ s2)).
    assert (Ho4 : forall a, a < desc \/ desc + 4096 <= a -> rd (fmem s4) a = rd (fmem s2) a).
    { intros a Hout. unfold s4, fd_pos, fd_item. cbn [fmem with_mem]. by rewrite !rd_st32_ne by lia. }
    destruct (item_made_edit s s1 s2 s4 desc p e bs Hv Hg1 Hf1 Hg12 Him Ho4) as (Hg4 & Hr4 & Hf4 & Hnb & Him4);
      [done|done|].
    assert (Ha4 : path_unique image s root (map snd ns) -> adds s s4 (desc :: bs)).
    { intros HU. eapply adds_sub; [eapply adds_trans; [by apply adds_alloc|eapply adds_trans;
        [by apply Ha, (path_unique_kept s)|by apply (adds_edit s s2 s4 desc (grown_trans _ _ _ Hg1 Hg12)
          (fresh_later _ _ _ _ Hf1 Hg12))]]|clear; set_solver]. }
    exists desc, s4, bs. split; [done|]. split; [done|]. split; [by apply Hr4|]. split; [done|].
    split; [done|]. unfold desc_pos, s4, fd_pos, fd_item in *. cbn [fmem with_mem] in *.
    rewrite ld32_st32_eq, ld32_st32_ne, ld32_st32_eq, u32_id by lia. done.
  - destruct Hw as (s2 & E2 & Hg12). rewrite (bind_Ret _ _ _ _ _ E2).
    pose proof (grown_trans _ _ _ Hg1 Hg12) as Hg2. pose proof (fresh_later _ _ _ _ Hf1 Hg12) as Hf2.
    destruct (store_fresh s s2 desc fd_item 0 Hg2 Hf2 ltac:(cbv; split; discriminate))
      as (s3 & E3 & _ & Hg3 & _ & Hf3).
    rewrite (bind_Ret _ _ _ _ _ E3). exists desc, s3. by split; [|split; [|apply Hf3]].
  - unfold bind at 1. by rewrite Hw.
Qed.

End resolve.


(** ** Properties *)

(** C14. Opening a file on a volume the code can walk: [fat16_open] returns a
    descriptor for exactly the entry that the abstract lookup [locate] finds
    along the path, whatever the number of directories on the way: the item
    holds a copy of the entry (or the loaded directory, when the path ends in
    one), the position is 0, the descriptor and the item are new blocks, and no
    memory the caller owned changes.  When no directory on the way has two
    entries of the name looked for, the descriptor's and the item's blocks are
    the only ones added: the objects of the directories passed are released
    again.  When there is no such file the result is [ERROR(-EIO)], with the
    descriptor still allocated; when a directory in the middle is missing the
    code uses a null pointer.  The conditions on the volume ([path_good]): in
    the directories looked into, the names end inside their entries, and the
    directories that match a component are not empty, end within their first
    sector and lie in a cluster below 2 GB, where the streams' [int] positions
    reach.  The heap has room for the objects. *)
Theorem fat16_open_locates `{KAllocator} dev poll_fuel image stack_item fuel rfuel pf N path ns root s :
  drive_ok dev poll_fuel image -> (16 < fuel)%nat -> (0 < rfuel)%nat -> (length ns <= pf)%nat ->
  volume_ok s -> dir_at s (priv s + fp_root_directory) root ->
  parts_repr (fmem s) path ns -> parts_owned s ns -> ns <> [] ->
  path_good image s root (map snd ns) -> room (fmem s) (S (3 * length root + (48 * length ns + N))) ->
  opened image s N (path_unique image s root (map snd ns)) (locate image s root (map snd ns))
    (fat16_open dev poll_fuel stack_item pf fuel rfuel path FILE_MODE_READ s).
Proof. intros. by apply open_spec. Qed.

(** ** Witnesses *)

(** A volume whose root directory has the entries [DIR] (a directory at
    cluster 5) and [HELLO.TXT]; [DIR] has the one entry [B.TXT]. *)
Definition an_entry (name : list Z) (attribute cluster size : Z) : list Z :=
  name ++ [attribute] ++ replicate 14 0 ++ [cluster; 0] ++ [size mod 256; size / 256; 0; 0].
Definition subdir_entry : list Z := an_entry [68; 73; 82; 32; 32; 32; 32; 32; 32; 32; 32] 0x10 5 0.
Definition hello_file : list Z := an_entry [72; 69; 76; 76; 79; 32; 32; 32; 84; 88; 84] 0x20 2 700.
Definition b_file : list Z := an_entry [66; 32; 32; 32; 32; 32; 32; 32; 84; 88; 84] 0x20 2 700.

(** Cluster 5 is at byte 722944. *)
Definition tree_image (a : Z) : Z :=
  if (722944 <=? a) && (a <? 722944 + 64) then default 0 ((b_file ++ replicate 32 0) !! Z.to_nat (a - 722944))
  else volume_image a.
Definition tree_drive : ata_device :=
  {| ata_status := fun _ _ _ => 0x58;
     ata_word := fun cmd b i =>
       tree_image (512 * (lba_of cmd + b) + 2 * i) + 256 * tree_image (512 * (lba_of cmd + b) + 2 * i + 1) |}.

Lemma tree_drive_ok : drive_ok tree_drive 1 tree_image.
Proof.
  assert (Hb : Forall (fun x => 0 <= x < 256) (b_file ++ replicate 32 0))
    by (vm_compute; repeat constructor; discriminate || done).
  split; [|intros; exists 0; split; [lia|done]|done].
  intros a. unfold tree_image. destruct (_ && _); [|apply (drive_byte _ _ _ volume_drive_ok)].
  destruct ((b_file ++ replicate 32 0) !! Z.to_nat (a - 722944)) as [x|] eqn:E; [|cbn; lia].
  by apply (Forall_lookup_1 _ _ _ _ Hb E).
Qed.

(** The private structure at 0x3000, the root directory's entries at 0x4000,
    the path [dir/b.txt] at 0x5000, and the string [0:/dir/b.txt] at 0x5200. *)
Definition tree_name : list Z := [48; 58; 47; 100; 105; 114; 47; 98; 46; 116; 120; 116].
Definition tree_mem : mem :=
  store_bytes (store_bytes (store_bytes (st32 (st32 (st32 (st32
    (store_bytes (st32 (st32 volume_mem (0x3000 + fp_root_directory + dir_item) 0x4000)
       (0x3000 + fp_root_directory + dir_total) 2) 0x4000 (subdir_entry ++ hello_file))
    0x5000 0x5100) 0x5004 0x5008) 0x5008 0x5110) 0x500C 0)
    0x5100 [100; 105; 114; 0]) 0x5110 [98; 46; 116; 120; 116; 0])
    0x5200 (tree_name ++ [0]).
Definition tree : fs := with_mem tree_mem volume.
Definition tree_path : list node :=
  [(0x5000, 0x5100, [100; 105; 114]); (0x5008, 0x5110, [98; 46; 116; 120; 116])].

Lemma tree_low a : 0x6000 <= a -> rd tree_mem a = rd ∅ a.
Proof.
  intros Ha. unfold tree_mem, volume_mem.
  unfold fp_root_directory, dir_item, dir_total, fp_cluster_read_stream, fp_fat_read_stream,
    fp_directory_stream, dir_ending_sector_pos, hdr_reserved_sectors, hdr_sectors_per_cluster,
    item_filesize, item_low_cluster, fi_pointer, fi_type, fd_item.
  repeat first [rewrite rd_st32_ne by lia | rewrite rd_st16_ne by lia | rewrite rd_wr_ne by lia
    | rewrite rd_store_bytes_out by (unfold tree_name; cbn [length app subdir_entry hello_file an_entry replicate]; lia)].
  done.
Qed.

Lemma tree_heap : heap_ok tree_mem /\ forall n, (n <= Z.to_nat 25600)%nat -> room tree_mem n.
Proof.
  destruct (kheap_frame ∅ tree_mem) as (H1 & _ & H2); [|exact kernel_empty_ok|].
  - intros a Ha. apply tree_low. unfold in_table in Ha. rewrite kernel_total in Ha.
    change (entries (table kernel_heap)) with 0x7E00 in Ha. lia.
  - split; [exact H1|]. intros n Hn. by apply H2, kernel_empty_room.
Qed.

Lemma tree_low_owned m p n : 0 <= p -> p + n <= 0x7000 -> region_owned m p n.
Proof.
  intros Hp Hn a Ha. split.
  - intros Hin. change (in_table kernel_heap a) in Hin. unfold in_table in Hin. rewrite kernel_total in Hin.
    change (entries (table kernel_heap)) with 0x7E00 in Hin. lia.
  - intros Hpool. exfalso. change (saddr kernel_heap <= a) in Hpool. change (saddr kernel_heap) with 0x01000000 in Hpool. lia.
Qed.

Lemma tree_volume : volume_ok tree.
Proof.
  assert (Hst : forall p, streams tree !! p = Some a_stream -> has_stream tree p)
    by (intros p E; by exists 0).
  split; [|split; vm_compute; done || discriminate|by apply tree_low_owned|apply tree_heap].
  split; [done|..]; try split; try (apply Hst; vm_compute; reflexivity). vm_compute. discriminate.
Qed.

Lemma tree_root : dir_at tree (priv tree + fp_root_directory) [subdir_entry; hello_file].
Proof.
  split; [split; [vm_compute; reflexivity|cbn; lia|]|split; apply tree_low_owned; vm_compute; discriminate].
  intros [|[|i]] e; cbn [lookup list_lookup]; [intros [= <-]; vm_compute; reflexivity..|done].
Qed.

Lemma tree_parts : parts_repr tree_mem 0x5000 tree_path /\ parts_owned tree tree_path.
Proof.
  assert (H1 : cstr (at_mem tree_mem 0x5100) [100; 105; 114]).
  { split; [|vm_compute; reflexivity|repeat constructor; lia].
    intros [|[|[|i]]] x; cbn; try done; intros [= <-]; by vm_compute. }
  assert (H2 : cstr (at_mem tree_mem 0x5110) [98; 46; 116; 120; 116]).
  { split; [|vm_compute; reflexivity|repeat constructor; lia].
    intros [|[|[|[|[|i]]]]] x; cbn; try done; intros [= <-]; by vm_compute. }
  split.
  - cbn [parts_repr tree_path]. split; [done|]. split; [done|]. split; [by vm_compute|]. split; [done|].
    split; [by vm_compute|]. split; [done|]. split; [by vm_compute|]. split; [done|by vm_compute].
  - intros n sp l [[= -> -> ->]|[[= -> -> ->]|Hin%not_elem_of_nil]%elem_of_cons]%elem_of_cons;
      [| |done]; (split; [by apply tree_low_owned|split; [done|cbn; lia|by apply tree_low_owned]]).
Qed.

Lemma tree_path_good : path_good tree_image tree [subdir_entry; hello_file] (map snd tree_path).
Proof.
  assert (Hdir : disk_dir tree_image tree 5 = [b_file]) by (vm_compute; reflexivity).
  cbn [map snd tree_path path_good]. split.
  - split; intros e [->|[->|He%not_elem_of_nil]%elem_of_cons]%elem_of_cons; [exact I|exact I|destruct He| | |destruct He].
    + intros _ _. split; [split; vm_compute; [split; [discriminate|]|]|..]; vm_compute; reflexivity.
    + intros _ Hd. exact (False_ind _ Hd).
  - change (search_entry [100; 105; 114] [subdir_entry; hello_file]) with (Some subdir_entry).
    cbn [descend_good]. intros _. change (entry_cluster subdir_entry) with 5. rewrite Hdir. split; [|exact I].
    split; intros e [->|He%not_elem_of_nil]%elem_of_cons; [exact I|destruct He| |destruct He].
    intros _ Hd. exact (False_ind _ Hd).
Qed.

Lemma tree_unique : path_unique tree_image tree [subdir_entry; hello_file] (map snd tree_path).
Proof.
  assert (Hdir : disk_dir tree_image tree 5 = [b_file]) by (vm_compute; reflexivity).
  cbn [map snd tree_path path_unique]. split; [apply Nat.leb_le; vm_compute; reflexivity|].
  change (search_entry [100; 105; 114] [subdir_entry; hello_file]) with (Some subdir_entry).
  cbn [descend_unique]. intros _. change (entry_cluster subdir_entry) with 5. rewrite Hdir.
  split; [apply Nat.leb_le; vm_compute; reflexivity|exact I].
Qed.

Lemma fat16_open_locates_witness :
  path_unique tree_image tree [subdir_entry; hello_file] (map snd tree_path) /\
  opened tree_image tree 40 (path_unique tree_image tree [subdir_entry; hello_file] (map snd tree_path)) (Found b_file)
    (fat16_open tree_drive 1 [] 2 17 1 0x5000 FILE_MODE_READ tree).
Proof.
  split; [exact tree_unique|].
  assert (E : locate tree_image tree [subdir_entry; hello_file] (map snd tree_path) = Found b_file)
    by (vm_compute; exact eq_refl).
  rewrite <- E.
  apply (fat16_open_locates tree_drive 1 tree_image [] 17 1 2 40 0x5000 tree_path [subdir_entry; hello_file] tree);
    [exact tree_drive_ok|lia|lia|cbn; lia|exact tree_volume|exact tree_root|apply tree_parts
    |apply tree_parts|done|exact tree_path_good|apply tree_heap; cbn [length tree_path]; lia].
Defined.
