(* ===== verification/File.v ===== *)
(** * The virtual file system: [src/fs/file.c]

    The table of file systems, the table of 512 file descriptors, and the
    stdio-like operations that dispatch through a file system's function
    pointers.  What a file system provides is the record [filesystem_ops];
    [ops] says which one is at which address, and [fat16_ops] is the FAT16
    one.  Descriptors are heap objects in the flat memory. *)
From S2P Require Import Prelude Config Memory CString Heap KHeap Terminal PathParser Disk Fat16.

(** ** Data *)

(** [struct filesystem]: its function pointers, and where the name is. *)
Record filesystem_ops : Type := {
  op_resolve : M fs Z;
  op_open : Z -> Z -> M fs Z;
  op_read : Z -> Z -> Z -> Z -> M fs Z;
  op_seek : Z -> Z -> Z -> M fs Z;
  op_stat : Z -> Z -> M fs Z;
  op_close : Z -> M fs Z }.
Definition filesystem_name : Z := 24.

(** [struct file_descriptor]. *)
Definition desc_index : Z := 0.
Definition desc_filesystem : Z := 4.
Definition desc_pvt : Z := 8.
Definition desc_disk : Z := 12.
Definition sizeof_file_descriptor : Z := 16.

(** The component's globals over the file-system state; [video], [row] and
    [col] are those of the terminal. *)
Record vfs : Type := {
  core : fs;
  filesystems : list Z;
  file_descriptors : list Z;
  video : Z;
  row : Z;
  col : Z }.

Definition with_core (s : fs) (v : vfs) : vfs :=
  {| core := s; filesystems := filesystems v; file_descriptors := file_descriptors v;
     video := video v; row := row v; col := col v |}.
Definition with_descriptors (l : list Z) (v : vfs) : vfs :=
  {| core := core v; filesystems := filesystems v; file_descriptors := l;
     video := video v; row := row v; col := col v |}.
Definition with_filesystems (l : list Z) (v : vfs) : vfs :=
  {| core := core v; filesystems := l; file_descriptors := file_descriptors v;
     video := video v; row := row v; col := col v |}.

(** Running the other components' operations. *)
Definition on_core {A} (c : M fs A) : M vfs A :=
  fun v =>
    match c (core v) with
    | Ret a s => Ret a (with_core s v)
    | Hang s => Hang (with_core s v)
    | Fault => Fault
    | NoFuel => NoFuel
    end.
Definition on_terminal {A} (c : M terminal A) : M vfs A :=
  fun v =>
    let back t := {| core := with_mem (memory t) (core v); filesystems := filesystems v;
                     file_descriptors := file_descriptors v; video := video_mem t;
                     row := terminal_row t; col := terminal_col t |} in
    match c {| video_mem := video v; terminal_row := row v; terminal_col := col v;
               memory := fmem (core v) |} with
    | Ret a t => Ret a (back t)
    | Hang t => Hang (back t)
    | Fault => Fault
    | NoFuel => NoFuel
    end.

(** Index of the first null entry. *)
Fixpoint first_null (l : list Z) (i : Z) : option Z :=
  match l with
  | [] => None
  | p :: l' => if p =? 0 then Some i else first_null l' (i + 1)
  end.

(** ** Operations *)

Section operations.
Context `{KAllocator} (ops : Z -> option filesystem_ops).
(** The addresses of the FAT16 object and of [disk_obj]. *)
Context (fat16_fs disk_obj : Z).

Definition fs_get_free_filesystem : M vfs (option Z) :=
  gets (fun v => first_null (filesystems v) 0).

Definition fs_insert_filesystem (filesystem : Z) : M vfs unit :=
  let! slot := fs_get_free_filesystem in
  match slot with
  | None => on_terminal (print 30 (lit (codes "Failed to insert fs"))) ;;; hang
  | Some i => modify (fun v => with_filesystems (<[Z.to_nat i := filesystem]> (filesystems v)) v)
  end.

(** The name is copied without its terminator (see [strcpy]). *)
Definition fat16_init : M fs Z :=
  store_buffer (fat16_fs + filesystem_name) (codes "FAT16") ;;; ret fat16_fs.

Definition fs_static_load : M vfs unit :=
  let! f := on_core fat16_init in fs_insert_filesystem f.

Definition fs_load : M vfs unit :=
  modify (with_filesystems (replicate (Z.to_nat LIEBE_OS_MAX_FILESYSTEMS) 0)) ;;;
  fs_static_load.

Definition fs_init : M vfs unit :=
  modify (with_descriptors (replicate (Z.to_nat LIEBE_OS_MAX_FILE_DESCRIPTORS) 0)) ;;;
  fs_load.

(** The status and the descriptor; the allocation is not checked. *)
Definition file_new_decriptor : M vfs (Z * Z) :=
  let! slot := gets (fun v => first_null (file_descriptors v) 0) in
  match slot with
  | None => ret (- ENOMEM, 0)
  | Some i =>
    let! desc := on_core (alloc sizeof_file_descriptor) in
    on_core (store32 (desc + desc_index) (i + 1)) ;;;
    modify (fun v => with_descriptors (<[Z.to_nat i := desc]> (file_descriptors v)) v) ;;;
    ret (0, desc)
  end.

Definition file_free_descriptor (desc : Z) : M vfs Z :=
  let! index := on_core (loadi32 (desc + desc_index)) in
  (* a write outside the table *)
  let! v := get in
  (if (1 <=? index) && (index <=? Z.of_nat (length (file_descriptors v))) then ret tt else fault) ;;;
  modify (fun v => with_descriptors (<[Z.to_nat (index - 1) := 0]> (file_descriptors v)) v) ;;;
  on_core (free desc) ;;; ret 0.

Definition file_get_descriptor (fd : Z) (v : vfs) : Z :=
  if (fd <=? 0) || (LIEBE_OS_MAX_FILE_DESCRIPTORS <=? fd) then 0
  else default 0 (file_descriptors v !! Z.to_nat (fd - 1)).

(** The function pointers of the object at an address. *)
Definition fs_ops (filesystem : Z) : M vfs filesystem_ops := opt (ops filesystem).

(** [resolve] sets the disk's file system itself; the first that answers 0. *)
Fixpoint fs_resolve_loop (l : list Z) : M vfs Z :=
  match l with
  | [] => ret 0
  | f :: l' =>
    if f =? 0 then fs_resolve_loop l'
    else
      let! o := fs_ops f in
      let! r := on_core (op_resolve o) in
      if r =? 0 then ret f else fs_resolve_loop l'
  end.
Definition fs_resolve : M vfs Z :=
  let! l := gets filesystems in fs_resolve_loop l.

(** [disk_search_and_init] of [disk.c]: [resolve] sees the disk object half
    filled in, and the id comes last. *)
Definition set_disk (f : disk -> disk) : M vfs unit :=
  modify (fun v => with_core {| fmem := fmem (core v); streams := streams (core v);
                                the_disk := f (the_disk (core v)) |} v).
Definition disk_search_and_init : M vfs unit :=
  set_disk (fun _ => {| disk_type := LIEBE_OS_DISK_TYPE_REAL; sector_size := LIEBE_OS_SECTOR_SIZE;
                        disk_id := 0; disk_filesystem := 0; fs_private := 0 |}) ;;;
  let! filesystem := fs_resolve in
  set_disk (fun d => {| disk_type := disk_type d; sector_size := sector_size d;
                        disk_id := LIEBE_OS_DEFAULT_DISK_ID; disk_filesystem := filesystem;
                        fs_private := fs_private d |}).

Definition file_get_mode_by_string (str : cbuf) : Z :=
  let mode := FILE_MODE_INVALID in
  let mode := if strncmp str (at_list (codes "r")) 1 =? 0 then FILE_MODE_READ else mode in
  let mode := if strncmp str (at_list (codes "w")) 1 =? 0 then FILE_MODE_WRITE else mode in
  if strncmp str (at_list (codes "a")) 1 =? 0 then FILE_MODE_APPEND else mode.

(** [filename] is a pointer; [fuel] bounds the path.  The parsed path is
    never freed. *)
Definition fopen_res (fuel : nat) (filename : Z) (mode_str : cbuf) : M vfs Z :=
  let! m := gets (fun v => fmem (core v)) in
  match pathparser_parse fuel filename m with
  | None => nofuel
  | Some (root_node, m') =>
    modify (fun v => with_core (with_mem m' (core v)) v) ;;;
    if root_node =? 0 then ret (- EINVARG)
    else
      let! first := on_core (load32 (root_node + root_first)) in
      if first =? 0 then ret (- EINVARG)
      else
        let! drive_no := on_core (loadi32 (root_node + root_drive_no)) in
        match disk_get drive_no with
        | disk_null => ret (- EIO)
        | _ =>
          let! filesystem := gets (fun v => disk_filesystem (the_disk (core v))) in
          if filesystem =? 0 then ret (- EIO)
          else
            let mode := file_get_mode_by_string mode_str in
            if mode =? FILE_MODE_INVALID then ret (- EINVARG)
            else
              let! o := fs_ops filesystem in
              let! descriptor_private_data := on_core (op_open o first mode) in
              if ISERR descriptor_private_data then ret (i32 (ERROR_I descriptor_private_data))
              else
                let! r := file_new_decriptor in
                if ISERR_I (fst r) then ret (- EIO)
                else
                  let desc := snd r in
                  on_core (store32 (desc + desc_filesystem) filesystem) ;;;
                  on_core (store32 (desc + desc_pvt) descriptor_private_data) ;;;
                  on_core (store32 (desc + desc_disk) disk_obj) ;;;
                  on_core (loadi32 (desc + desc_index))
        end
  end.

(** Errors come out as 0. *)
Definition fopen (fuel : nat) (filename : Z) (mode_str : cbuf) : M vfs Z :=
  let! res := fopen_res fuel filename mode_str in
  ret (if ISERR_I res then 0 else res).

(** The file system and private data of a descriptor. *)
Definition desc_target (desc : Z) : M vfs (filesystem_ops * Z) :=
  let! filesystem := on_core (load32 (desc + desc_filesystem)) in
  let! o := fs_ops filesystem in
  let! pvt := on_core (load32 (desc + desc_pvt)) in
  ret (o, pvt).

Definition fread (ptr size nmemb fd : Z) : M vfs Z :=
  if (size =? 0) || (nmemb =? 0) || (fd <? 1) then ret (- EINVARG)
  else
    let! desc := gets (file_get_descriptor fd) in
    if desc =? 0 then ret (- EIO)
    else
      let! t := desc_target desc in
      on_core (op_read (fst t) (snd t) size nmemb ptr).

(** The offset is passed on as an unsigned number. *)
Definition fseek (fd offset whence : Z) : M vfs Z :=
  let! desc := gets (file_get_descriptor fd) in
  if desc =? 0 then ret (- EIO)
  else
    let! t := desc_target desc in
    on_core (op_seek (fst t) (snd t) (u32 offset) whence).

Definition fstat (fd stat : Z) : M vfs Z :=
  let! desc := gets (file_get_descriptor fd) in
  if desc =? 0 then ret (- EIO)
  else
    let! t := desc_target desc in
    on_core (op_stat (fst t) (snd t) stat).

Definition fclose (fd : Z) : M vfs Z :=
  let! desc := gets (file_get_descriptor fd) in
  if desc =? 0 then ret (- EIO)
  else
    let! t := desc_target desc in
    let! res := on_core (op_close (fst t) (snd t)) in
    if res =? OK then file_free_descriptor desc ;;; ret res else ret res.

End operations.

(** The FAT16 functions as a file system. *)
Definition fat16_ops `{KAllocator} (dev : ata_device) (poll_fuel : nat) (fat16_fs : Z)
    (stack_item : list Z) (pfuel fuel rfuel : nat) : filesystem_ops :=
  {| op_resolve := fat16_resolve dev poll_fuel fat16_fs stack_item fuel;
     op_open := fat16_open dev poll_fuel stack_item pfuel fuel rfuel;
     op_read := fat16_read dev poll_fuel rfuel;
     op_seek := fat16_seek;
     op_stat := fat16_stat;
     op_close := fat16_close |}.

(** ** Specification *)

(** The descriptor table: each used slot [i] points to a live descriptor of
    its own whose index is [i + 1]. *)
Record fd_table_ok `{KAllocator} (v : vfs) : Prop := {
  ft_len : length (file_descriptors v) = Z.to_nat LIEBE_OS_MAX_FILE_DESCRIPTORS;
  ft_desc : forall i p, file_descriptors v !! i = Some p -> p <> 0 ->
    live (fmem (core v)) p 4096 /\ ld32 (fmem (core v)) (p + desc_index) = Z.of_nat i + 1;
  ft_distinct : forall i j p, file_descriptors v !! i = Some p -> file_descriptors v !! j = Some p ->
    p <> 0 -> i = j }.

(** ** Lemmas *)

Lemma first_null_spec l : forall k,
  match first_null l k with
  | Some i => k <= i /\ l !! Z.to_nat (i - k) = Some 0 /\
      forall j p, (j < Z.to_nat (i - k))%nat -> l !! j = Some p -> p <> 0
  | None => forall j p, l !! j = Some p -> p <> 0
  end.
Proof.
  induction l as [|x l IH]; intros k; cbn [first_null]; [done|].
  destruct (Z.eqb_spec x 0) as [->|Hx].
  - split; [lia|]. rewrite Z.sub_diag. split; [done|]. intros j p Hj. cbn in Hj. lia.
  - specialize (IH (k + 1)). destruct (first_null l (k + 1)) as [i|].
    + destruct IH as (Hk & Hi & Hlow). split; [lia|].
      replace (Z.to_nat (i - k)) with (S (Z.to_nat (i - (k + 1)))) by lia. split; [done|].
      intros [|j] p Hj Hp; [by injection Hp as <-|]. apply (Hlow j); [lia|done].
    + intros [|j] p Hp; [by injection Hp as <-|]. by apply (IH j).
Qed.

Lemma first_null_at l i :
  l !! i = Some 0 -> (forall j p, (j < i)%nat -> l !! j = Some p -> p <> 0) ->
  first_null l 0 = Some (Z.of_nat i).
Proof.
  intros Hi Hlow. pose proof (first_null_spec l 0) as Hf.
  destruct (first_null l 0) as [k|]; [|by specialize (Hf i 0 Hi)].
  destruct Hf as (Hk & Hk0 & Hkl). rewrite Z.sub_0_r in *.
  destruct (lt_eq_lt_dec (Z.to_nat k) i) as [[Hlt|Heq]|Hgt].
  - by specialize (Hlow _ 0 Hlt Hk0).
  - f_equal. lia.
  - by specialize (Hkl i 0 Hgt Hi).
Qed.

Section tables.
Context `{KAllocator}.

(** A descriptor made in the first free slot. *)
Lemma new_descriptor_spec n v i :
  fd_table_ok v -> heap_ok (fmem (core v)) -> room (fmem (core v)) (S n) ->
  first_null (file_descriptors v) 0 = Some i ->
  exists desc m', file_new_decriptor v =
      Ret (0, desc) (with_descriptors (<[Z.to_nat i := desc]> (file_descriptors v))
                       (with_core (with_mem m' (core v)) v)) /\
    0 <= i < 512 /\ desc <> 0 /\ heap_ok m' /\ room m' n /\ ld32 m' (desc + desc_index) = i + 1 /\
    (forall q s, live m' q s <-> live (fmem (core v)) q s \/ q = desc /\ s = 4096) /\
    (forall q s, live (fmem (core v)) q s -> q <> desc) /\
    (forall a, owned (fmem (core v)) a -> rd m' a = rd (fmem (core v)) a).
Proof.
  intros [Hlen Hdesc Hdist] Hok Hroom E. pose proof (first_null_spec (file_descriptors v) 0) as Hf.
  rewrite E in Hf. destruct Hf as (Hi0 & Hi & _). rewrite Z.sub_0_r in Hi.
  apply lookup_lt_Some in Hi as Hlt. rewrite Hlen in Hlt. change (Z.to_nat LIEBE_OS_MAX_FILE_DESCRIPTORS)
    with 512%nat in Hlt.
  destruct (alloc_page (fmem (core v)) sizeof_file_descriptor n (one_block 16 ltac:(lia))
    ltac:(unfold sizeof_file_descriptor; lia) Hok Hroom)
    as (p & m1 & Ea & Hp & Hok1 & Hroom1 & Hlv & _ & Hfr & _ & Ho & _).
  assert (Hl : live m1 p 4096) by (apply Hlv; by right).
  destruct (live_block _ _ _ Hl) as (Hpos & _ & _).
  set (m2 := st32 m1 (p + desc_index) (i + 1)).
  assert (Hout : forall a, a < p \/ p + 4096 <= a -> rd m2 a = rd m1 a)
    by (intros a Ha; unfold m2, desc_index; by rewrite rd_st32_ne by lia).
  destruct (client_frame m1 m2 p 4096 Hok1 Hl Hout) as (Hok2 & Hlv2 & Hr2).
  exists p, m2. split.
  - unfold file_new_decriptor, bind at 1, gets. rewrite E.
    unfold bind, on_core, alloc, store32, modify, ret. rewrite Ea. done.
  - split; [lia|]. split; [lia|]. split; [done|]. split; [by apply Hr2|]. split; [|split; [|split; [done|]]].
    + unfold m2. rewrite ld32_st32_eq. apply u32_id. lia.
    + intros q s. by rewrite Hlv2, Hlv.
    + intros a Ha. destruct (Ho a Ha) as (H1 & _ & H3). by rewrite Hout.
Qed.

(** The table stays well formed when slot [i] gets a fresh descriptor. *)
Lemma fd_table_insert v i desc m' :
  fd_table_ok v -> 0 <= i < 512 -> ld32 m' (desc + desc_index) = i + 1 ->
  (forall q s, live m' q s <-> live (fmem (core v)) q s \/ q = desc /\ s = 4096) ->
  (forall q s, live (fmem (core v)) q s -> q <> desc) ->
  (forall a, owned (fmem (core v)) a -> rd m' a = rd (fmem (core v)) a) ->
  fd_table_ok (with_descriptors (<[Z.to_nat i := desc]> (file_descriptors v))
                 (with_core (with_mem m' (core v)) v)).
Proof.
  intros [Hlen Hdesc Hdist] Hi Hld Hlv Hfr Ho.
  assert (Hother : forall j p, <[Z.to_nat i := desc]> (file_descriptors v) !! j = Some p ->
    j = Z.to_nat i /\ p = desc \/ j <> Z.to_nat i /\ file_descriptors v !! j = Some p).
  { intros j p Hj. destruct (decide (j = Z.to_nat i)) as [->|Hne].
    - left. rewrite list_lookup_insert_eq in Hj; [by injection Hj|].
      rewrite Hlen. change (Z.to_nat LIEBE_OS_MAX_FILE_DESCRIPTORS) with 512%nat. lia.
    - right. by rewrite list_lookup_insert_ne in Hj by done. }
  split; cbn [file_descriptors with_descriptors core with_core fmem with_mem].
  - by rewrite length_insert.
  - intros j p Hj Hp0. destruct (Hother j p Hj) as [[-> ->]|[Hne Hj']].
    + split; [apply Hlv; by right|]. rewrite Z2Nat.id by lia. done.
    + destruct (Hdesc j p Hj' Hp0) as [Hl Hx]. split; [apply Hlv; by left|].
      rewrite <- Hx. apply ld32_ext. intros b Hb. apply Ho. apply (owned_live _ p 4096); [done|].
      unfold desc_index. lia.
  - intros j k p Hj Hk Hp0.
    destruct (Hother j p Hj) as [[-> Ep]|[Hj1 Hj2]], (Hother k p Hk) as [[-> Ek]|[Hk1 Hk2]];
      try done; [| |by eapply Hdist].
    + destruct (Hdesc k p Hk2 Hp0) as [Hl _]. by apply Hfr in Hl.
    + destruct (Hdesc j p Hj2 Hp0) as [Hl _]. by apply Hfr in Hl.
Qed.

(** Releasing the descriptor in slot [i]. *)
Lemma free_descriptor_spec v i desc :
  fd_table_ok v -> heap_ok (fmem (core v)) -> desc <> 0 ->
  file_descriptors v !! i = Some desc ->
  exists m', file_free_descriptor desc v =
      Ret 0 (with_descriptors (<[i := 0]> (file_descriptors v)) (with_core (with_mem m' (core v)) v)) /\
    heap_ok m' /\
    (forall q s, live m' q s <-> live (fmem (core v)) q s /\ q <> desc) /\
    (forall a, ~ meta a -> rd m' a = rd (fmem (core v)) a) /\
    (forall n, room (fmem (core v)) n -> room m' n).
Proof.
  intros [Hlen Hdesc _] Hok Hd0 Hi. destruct (Hdesc i desc Hi Hd0) as [Hl Hx].
  apply lookup_lt_Some in Hi as Hlt. pose proof Hlt as Hlt2. rewrite Hlen in Hlt2.
  change (Z.to_nat LIEBE_OS_MAX_FILE_DESCRIPTORS) with 512%nat in Hlt2.
  destruct (ka_free_spec (fmem (core v)) desc 4096 Hok Hl) as (H1 & H2 & H3 & H4).
  eexists. split; [|split; [exact H1|split; [exact H2|split; [exact H4|exact H3]]]].
  unfold file_free_descriptor, bind at 1, on_core, loadi32, gets. rewrite Hx, i32_id by lia.
  unfold bind, get. cbn [with_core].
  replace (file_descriptors _) with (file_descriptors v) by done.
  destruct (Z.leb_spec 1 (Z.of_nat i + 1)); [|lia].
  destruct (Z.leb_spec (Z.of_nat i + 1) (Z.of_nat (length (file_descriptors v)))); [|lia].
  cbn [andb]. unfold modify, free, ret. cbn.
  by replace (Z.to_nat (Z.of_nat i + 1 - 1)) with i by lia.
Qed.

End tables.

(** ** Properties *)

(** Descriptors are handed out and taken back: with a free slot and a free
    block, [file_new_decriptor] takes the lowest free slot [i], gives it a
    fresh descriptor of index [i + 1] and keeps the table well formed;
    releasing that descriptor restores the table, the set of live blocks and
    every byte the caller owned. *)
Theorem new_descriptor_roundtrip `{KAllocator} n v i :
  fd_table_ok v -> heap_ok (fmem (core v)) -> room (fmem (core v)) (S n) ->
  file_descriptors v !! i = Some 0 ->
  (forall j p, (j < i)%nat -> file_descriptors v !! j = Some p -> p <> 0) ->
  exists desc v1 v2, file_new_decriptor v = Ret (0, desc) v1 /\ fd_table_ok v1 /\
    file_descriptors v1 = <[i := desc]> (file_descriptors v) /\
    ld32 (fmem (core v1)) (desc + desc_index) = Z.of_nat i + 1 /\
    file_free_descriptor desc v1 = Ret 0 v2 /\ file_descriptors v2 = file_descriptors v /\
    heap_ok (fmem (core v2)) /\
    (forall q s, live (fmem (core v2)) q s <-> live (fmem (core v)) q s) /\
    (forall a, owned (fmem (core v)) a -> rd (fmem (core v2)) a = rd (fmem (core v)) a).
Proof.
  intros Ht Hok Hroom Hi Hlow.
  assert (E : first_null (file_descriptors v) 0 = Some (Z.of_nat i)).
  { by apply first_null_at. }
  destruct (new_descriptor_spec n v (Z.of_nat i) Ht Hok Hroom E)
    as (desc & m' & En & Hib & Hd0 & Hok1 & _ & Hx & Hlv & Hfr & Ho).
  pose proof (fd_table_insert v (Z.of_nat i) desc m' Ht Hib Hx Hlv Hfr Ho) as Ht1.
  rewrite Nat2Z.id in *. set (v1 := with_descriptors _ _) in *.
  assert (Hv1 : file_descriptors v1 !! i = Some desc).
  { cbn. apply list_lookup_insert_eq. by eapply lookup_lt_Some. }
  destruct (free_descriptor_spec v1 i desc Ht1 Hok1 Hd0 Hv1) as (m2 & Ef & Hok2 & Hlv2 & Ho2 & _).
  eexists desc, v1, _. split; [done|]. split; [done|]. split; [done|]. split; [done|].
  split; [exact Ef|]. split; [|split; [done|split]].
  - cbn. rewrite list_insert_insert_eq. by apply list_insert_id.
  - intros q s. cbn [fmem core with_descriptors with_core with_mem]. rewrite Hlv2.
    change (fmem (core v1)) with m'. rewrite Hlv.
    split; [intros [[?|[? _]] ?]; [done|by exfalso]|]. intros Hq. split; [by left|by eapply Hfr].
  - intros a Ha. cbn [fmem core with_descriptors with_core with_mem].
    rewrite Ho2 by apply Ha. change (fmem (core v1)) with m'. by apply Ho.
Qed.

(** A number that is not an open descriptor is refused by every operation,
    with the state unchanged: [-EIO], except that [fread] answers [-EINVARG]
    to a zero size or count or a number below 1. *)
Theorem bad_descriptor_refused `{KAllocator} ops fd v :
  fd <= 0 \/ 512 <= fd \/ file_descriptors v !! Z.to_nat (fd - 1) = Some 0 ->
  (forall ptr size nmemb, fread ops ptr size nmemb fd v =
     Ret (if (size =? 0) || (nmemb =? 0) || (fd <? 1) then - EINVARG else - EIO) v) /\
  (forall offset whence, fseek ops fd offset whence v = Ret (- EIO) v) /\
  (forall stat, fstat ops fd stat v = Ret (- EIO) v) /\
  fclose ops fd v = Ret (- EIO) v.
Proof.
  intros Hfd. assert (E : file_get_descriptor fd v = 0).
  { unfold file_get_descriptor. change LIEBE_OS_MAX_FILE_DESCRIPTORS with 512.
    destruct (Z.leb_spec fd 0); [done|]. destruct (Z.leb_spec 512 fd); [done|]. cbn [orb].
    destruct Hfd as [?|[?|Hs]]; [lia|lia|by rewrite Hs]. }
  repeat split; intros.
  - unfold fread. destruct (_ || _); [done|]. unfold bind at 1, gets. by rewrite E.
  - unfold fseek, bind at 1, gets. by rewrite E.
  - unfold fstat, bind at 1, gets. by rewrite E.
  - unfold fclose, bind at 1, gets. by rewrite E.
Qed.

(** The last descriptor is lost: when slot 511 is the first free one,
    [file_new_decriptor] succeeds with index 512, but no operation accepts
    512, so the slot can never be closed again. *)
Theorem last_descriptor_unusable `{KAllocator} ops n v :
  fd_table_ok v -> heap_ok (fmem (core v)) -> room (fmem (core v)) (S n) ->
  first_null (file_descriptors v) 0 = Some 511 ->
  exists desc v1, file_new_decriptor v = Ret (0, desc) v1 /\ desc <> 0 /\
    ld32 (fmem (core v1)) (desc + desc_index) = 512 /\
    file_descriptors v1 !! 511%nat = Some desc /\
    file_get_descriptor 512 v1 = 0 /\ fclose ops 512 v1 = Ret (- EIO) v1.
Proof.
  intros Ht Hok Hroom E.
  destruct (new_descriptor_spec n v 511 Ht Hok Hroom E)
    as (desc & m' & -> & _ & Hd0 & _ & _ & Hx & _).
  eexists desc, _. split; [done|]. split; [done|]. split; [exact Hx|]. split; [|done].
  cbn. apply list_lookup_insert_eq. rewrite (ft_len _ Ht).
  change (Z.to_nat LIEBE_OS_MAX_FILE_DESCRIPTORS) with 512%nat. lia.
Qed.

(** ** Witnesses *)

Definition empty_vfs : vfs :=
  {| core := {| fmem := ∅; streams := ∅;
                the_disk := {| disk_type := 0; sector_size := 512; disk_id := 0;
                               disk_filesystem := 0; fs_private := 0 |} |};
     filesystems := replicate 12 0; file_descriptors := replicate (Z.to_nat 512) 0;
     video := 0xB8000; row := 0; col := 0 |}.

Lemma empty_vfs_ok : fd_table_ok empty_vfs.
Proof.
  assert (Hz : forall i p, replicate (Z.to_nat 512) 0 !! i = Some p -> p = 0)
    by (intros i p [-> _]%lookup_replicate; done).
  split; [apply length_replicate| |]; cbn [empty_vfs file_descriptors].
  - intros i p Hi Hp. by apply Hz in Hi.
  - intros i j p Hi _ Hp. by apply Hz in Hi.
Qed.

Lemma new_descriptor_roundtrip_witness :
  exists desc v1 v2, file_new_decriptor empty_vfs = Ret (0, desc) v1 /\ fd_table_ok v1 /\
    file_descriptors v1 = <[0%nat := desc]> (file_descriptors empty_vfs) /\
    ld32 (fmem (core v1)) (desc + desc_index) = Z.of_nat 0 + 1 /\
    file_free_descriptor desc v1 = Ret 0 v2 /\ file_descriptors v2 = file_descriptors empty_vfs /\
    heap_ok (fmem (core v2)) /\
    (forall q s, live (fmem (core v2)) q s <-> live (fmem (core empty_vfs)) q s) /\
    (forall a, owned (fmem (core empty_vfs)) a ->
       rd (fmem (core v2)) a = rd (fmem (core empty_vfs)) a).
Proof.
  apply (new_descriptor_roundtrip 0 empty_vfs 0);
    [exact empty_vfs_ok|exact kernel_empty_ok|apply kernel_empty_room; lia|done|intros j p Hj; lia].
Defined.

Lemma bad_descriptor_refused_witness :
  fclose (fun _ => None) 7 empty_vfs = Ret (- EIO) empty_vfs.
Proof. apply (bad_descriptor_refused (fun _ => None) 7 empty_vfs). by right; right. Defined.

(** A table with its first [k] slots in use. *)
Lemma table_with k : (k <= 511)%nat -> exists v, fd_table_ok v /\ heap_ok (fmem (core v)) /\
  room (fmem (core v)) (600 - k) /\
  (forall j p, file_descriptors v !! j = Some p -> (j < k)%nat <-> p <> 0).
Proof.
  induction k as [|k IH]; intros Hk.
  - exists empty_vfs. split; [exact empty_vfs_ok|]. split; [exact kernel_empty_ok|].
    split; [apply kernel_empty_room; lia|].
    intros j p [-> _]%lookup_replicate. split; [lia|done].
  - destruct IH as (v & Ht & Hok & Hroom & Hslots); [lia|].
    replace (600 - k)%nat with (S (600 - S k)) in Hroom by lia.
    destruct (lookup_lt_is_Some_2 (file_descriptors v) k) as [p0 Hp0].
    { rewrite (ft_len _ Ht). change (Z.to_nat LIEBE_OS_MAX_FILE_DESCRIPTORS) with 512%nat. lia. }
    assert (p0 = 0) as ->.
    { destruct (Z.eq_dec p0 0) as [|Hne]; [done|]. apply (Hslots k p0 Hp0) in Hne. lia. }
    assert (E : first_null (file_descriptors v) 0 = Some (Z.of_nat k)).
    { apply first_null_at; [done|]. intros j p Hj Hp. by apply (Hslots j p Hp). }
    destruct (new_descriptor_spec _ v (Z.of_nat k) Ht Hok Hroom E)
      as (desc & m' & _ & Hib & Hd0 & Hok1 & Hroom1 & Hx & Hlv & Hfr & Ho).
    pose proof (fd_table_insert v (Z.of_nat k) desc m' Ht Hib Hx Hlv Hfr Ho) as Ht1.
    rewrite Nat2Z.id in Ht1. eexists. split; [exact Ht1|]. split; [exact Hok1|].
    split; [exact Hroom1|]. cbn [file_descriptors with_descriptors]. intros j p Hj.
    destruct (decide (j = k)) as [->|Hne].
    + rewrite list_lookup_insert_eq in Hj by (by eapply lookup_lt_Some).
      injection Hj as <-. split; [done|lia].
    + rewrite list_lookup_insert_ne in Hj by done. rewrite <- (Hslots j p Hj). lia.
Qed.

Lemma last_descriptor_unusable_witness :
  exists v, first_null (file_descriptors v) 0 = Some 511 /\
  exists desc v1, file_new_decriptor v = Ret (0, desc) v1 /\ desc <> 0 /\
    ld32 (fmem (core v1)) (desc + desc_index) = 512 /\
    file_descriptors v1 !! 511%nat = Some desc /\
    file_get_descriptor 512 v1 = 0 /\ fclose (fun _ => None) 512 v1 = Ret (- EIO) v1.
Proof.
  destruct (table_with 511 ltac:(lia)) as (v & Ht & Hok & Hroom & Hslots).
  assert (E : first_null (file_descriptors v) 0 = Some 511).
  { destruct (lookup_lt_is_Some_2 (file_descriptors v) 511) as [p0 Hp0].
    { rewrite (ft_len _ Ht). change (Z.to_nat LIEBE_OS_MAX_FILE_DESCRIPTORS) with 512%nat. lia. }
    assert (p0 = 0) as ->.
    { destruct (Z.eq_dec p0 0) as [|Hne]; [done|]. apply (Hslots _ p0 Hp0) in Hne. lia. }
    apply (first_null_at _ 511); [done|]. intros j p Hj Hp. by apply (Hslots j p Hp). }
  exists v. split; [exact E|].
  exact (last_descriptor_unusable (fun _ => None) 88 v Ht Hok Hroom E).
Defined.
