(* ===== verification/Open.v ===== *)
(** * Opening, reading and closing a file

    The virtual file system over FAT16: what [fopen], [fread] and [fclose] do to
    a file on the volume, from the path string to the bytes of the image.  The
    lookup itself is in [Lookup], the parser in [PathParser], the descriptor
    table in [File]; here they are put together. *)
From S2P Require Import Prelude Config Memory CString Heap KHeap Terminal PathParser Disk Fat16 File Fat16Facts Lookup.

(** ** Specification *)

(** Descriptor number [n] is an open file for the entry [e]: the descriptor
    object [desc], the FAT16 descriptor [pvt] and the blocks [bs] of the item,
    all distinct live blocks. *)
Record open_file `{KAllocator} (image : Z -> Z) (fat16_fs : Z) (v : vfs) (n : Z) (e : list Z)
    (desc pvt : Z) (bs : list Z) : Prop := {
  of_number : 0 < n < 512;
  of_slot : file_descriptors v !! Z.to_nat (n - 1) = Some desc;
  of_filesystem : ld32 (fmem (core v)) (desc + desc_filesystem) = fat16_fs;
  of_pvt : ld32 (fmem (core v)) (desc + desc_pvt) = pvt;
  of_item : item_repr image (core v) (ld32 (fmem (core v)) (pvt + fd_item)) e bs;
  of_pos : desc_pos (core v) pvt = 0;
  of_blocks : blocks_live (fmem (core v)) (desc :: pvt :: bs);
  (* which no other descriptor uses *)
  of_private : forall j p, file_descriptors v !! j = Some p -> p <> 0 -> p ∉ pvt :: bs }.

Section open.
Context `{KAllocator} (ops : Z -> option filesystem_ops) (fat16_fs disk_obj : Z).
Context (dev : ata_device) (poll_fuel : nat) (image : Z -> Z) (stack_item : list Z).
Context (pfuel fuel rfuel : nat).
Hypothesis Hdrive : drive_ok dev poll_fuel image.
Hypothesis Hfuel : (16 < fuel)%nat.
Hypothesis Hrfuel : (0 < rfuel)%nat.
(** The functions at the address of the FAT16 object are those of FAT16. *)
Hypothesis Hops : ops fat16_fs = Some (fat16_ops dev poll_fuel fat16_fs stack_item pfuel fuel rfuel).
Hypothesis Hfs : 0 < fat16_fs < 4294967296.

(** A system with a mounted volume whose root directory is [root]. *)
Record system_ok (root : list (list Z)) (v : vfs) : Prop := {
  so_volume : volume_ok (core v);
  so_filesystem : disk_filesystem (the_disk (core v)) = fat16_fs;
  so_root : dir_at (core v) (priv (core v) + fp_root_directory) root;
  so_table : fd_table_ok v }.

(** ** Lemmas *)

Lemma fd_table_grown v s : fd_table_ok v -> grown (core v) s -> fd_table_ok (with_core s v).
Proof.
  intros [H1 H2 H3] Hg. split; cbn [file_descriptors core with_core]; [done| |done].
  intros i p Hi Hp. destruct (H2 i p Hi Hp) as [Hl Hx]. split; [by apply Hg|]. rewrite <- Hx.
  apply grown_ld32; [done|]. eapply region_sub; [by apply live_region|unfold desc_index; lia..].
Qed.

Lemma system_grown root v s : system_ok root v -> grown (core v) s -> system_ok root (with_core s v).
Proof.
  intros [H1 H2 H3 H4] Hg. split; cbn [core with_core].
  - by apply (volume_grown (core v)).
  - by rewrite (gr_disk _ _ Hg).
  - unfold priv. rewrite (gr_disk _ _ Hg). by apply (dir_grown (core v)).
  - by apply fd_table_grown.
Qed.

(** A parsed path: its parts belong to the caller. *)
Lemma parse_owned m d rest root ns m' s :
  parse_result m d rest root ns m' -> (forall p, p ∈ split_path rest -> (length p < 108)%nat) ->
  fmem s = m' -> parts_owned s ns.
Proof.
  intros (_ & _ & _ & Hrep & Hsp & [_ Hl] & _) Hlen Em. unfold parts_owned. rewrite Em.
  assert (Hshort : forall n sp l, (n, sp, l) ∈ ns -> (length l < 108)%nat).
  { intros n sp l Hin. apply Hlen. rewrite <- Hsp. by apply (list_elem_of_fmap_2 snd) in Hin. }
  assert (Hb : forall p, p ∈ node_blocks ns -> region_owned m' p 4096)
    by (intros p Hp; apply live_region, Hl, elem_of_app; by left).
  clear Hsp Hl Hlen. revert Hrep Hshort Hb. generalize (ld32 m' (root + root_first)).
  induction ns as [|[[n sp] l] ns IH]; intros first Hrep Hshort Hb n' sp' l' Hin.
  { by apply not_elem_of_nil in Hin. }
  destruct Hrep as (_ & _ & _ & Hstr & Hrest). apply elem_of_cons in Hin as [[= -> -> ->]|Hin].
  - pose proof (Hshort n sp l ltac:(by left)) as Hs. split.
    + eapply region_sub; [apply (Hb n); by left|unfold sizeof_path_part; lia..].
    + split; rewrite ?Em; [done|done|].
      eapply region_sub; [apply (Hb sp); right; by left|lia..].
  - apply (IH _ Hrest); [| |done].
    + intros x y z Hz. apply (Hshort x y z). by right.
    + intros p Hp. apply Hb. right. by right.
Qed.

(** What the parse leaves. *)
Lemma parse_grown m d rest root ns m' s :
  fmem s = m -> parse_result m d rest root ns m' -> grown s (with_mem m' s).
Proof.
  intros <- (_ & Hok & _ & _ & _ & _ & Hlv & _ & Ho). split; cbn [fmem with_mem the_disk]; try done.
  - intros q t Hq. apply Hlv. by left.
Qed.

(** The part of [fopen] after the path is parsed and the mode read. *)
Definition finish_open (first : Z) : M vfs Z :=
  let! pvt := on_core (fat16_open dev poll_fuel stack_item pfuel fuel rfuel first FILE_MODE_READ) in
  if ISERR pvt then ret (i32 (ERROR_I pvt))
  else
    let! r := file_new_decriptor in
    if ISERR_I (fst r) then ret (- EIO)
    else
      on_core (store32 (snd r + desc_filesystem) fat16_fs) ;;;
      on_core (store32 (snd r + desc_pvt) pvt) ;;;
      on_core (store32 (snd r + desc_disk) disk_obj) ;;;
      on_core (loadi32 (snd r + desc_index)).

(** The path string, on drive 0, with at least one component. *)
Record path_string (s : fs) (filename : Z) (l rest : list Z) : Prop := {
  ps_string : cstr (at_mem (fmem s) filename) l;
  ps_drive : drive_path l 48 rest;
  ps_some : rest <> [];
  ps_short : forall p, p ∈ split_path rest -> (length p < 108)%nat;
  ps_owned : region_owned (fmem s) filename (Z.of_nat (length l) + 1) }.

Lemma on_core_Ret {A} (c : M fs A) v a s : c (core v) = Ret a s -> on_core c v = Ret a (with_core s v).
Proof. intros E. unfold on_core. by rewrite E. Qed.

Lemma fopen_parses pf filename mode l rest root N v :
  system_ok root v -> path_string (core v) filename l rest -> (length rest < pf)%nat ->
  file_get_mode_by_string mode = FILE_MODE_READ ->
  room (fmem (core v)) (S (N + length (split_path rest) * 2)) ->
  exists first m' ns, let s1 := with_mem m' (core v) in
    grown (core v) s1 /\ room m' N /\ parts_repr m' first ns /\ parts_owned s1 ns /\
    map snd ns = split_path rest /\ ns <> [] /\
    fopen_res ops disk_obj pf filename mode v = finish_open first (with_core s1 v).
Proof.
  intros [Hv Hf _ _] [Hc Hd Hne Hlen Hown] Hpf Hm Hroom.
  destruct (parse_spec N pf (fmem (core v)) filename l 48 rest Hc Hd Hpf (vo_heap _ Hv) Hroom Hlen Hown)
    as (node & m' & ns & E & Hres & Hroom').
  pose proof (parse_grown _ _ _ _ _ _ (core v) eq_refl Hres) as Hg.
  pose proof (parse_owned _ _ _ _ _ _ (with_mem m' (core v)) Hres Hlen eq_refl) as Ho.
  destruct Hres as (Hn0 & _ & Hdr & Hrep & Hsp & _).
  assert (Hns : ns <> []).
  { intros ->. rewrite split_path_cons in Hsp by done. done. }
  set (first := ld32 m' (node + root_first)) in *.
  assert (Hf0 : first <> 0) by (destruct ns as [|[[n sp] q] ns]; [done|]; by destruct Hrep as (-> & Hn & _)).
  exists first, m', ns. split; [done|]. split; [done|]. split; [done|]. split; [done|].
  split; [done|]. split; [done|].
  unfold fopen_res. unfold bind at 1, gets at 1. rewrite E.
  unfold bind at 1, modify at 1. destruct (Z.eqb_spec node 0); [done|].
  set (v1 := with_core (with_mem m' (core v)) v).
  assert (E1 : on_core (load32 (node + root_first)) v1 = Ret first v1) by done.
  rewrite (bind_Ret _ _ _ _ _ E1). destruct (Z.eqb_spec first 0); [done|].
  assert (E2 : on_core (loadi32 (node + root_drive_no)) v1 = Ret 0 v1).
  { unfold on_core, loadi32, gets. cbn [core with_core fmem with_mem v1]. by rewrite Hdr. }
  rewrite (bind_Ret _ _ _ _ _ E2). change (disk_get 0) with disk_obj_ptr. cbv iota.
  assert (E3 : gets (fun v => disk_filesystem (the_disk (core v))) v1 = Ret fat16_fs v1)
    by (unfold gets; cbn [core with_core the_disk with_mem v1]; by rewrite Hf).
  rewrite (bind_Ret _ _ _ _ _ E3), Hm. destruct (Z.eqb_spec fat16_fs 0); [lia|].
  change (FILE_MODE_READ =? FILE_MODE_INVALID) with false. cbv iota zeta.
  unfold bind at 1, fs_ops. rewrite Hops. done.
Qed.

(** A new descriptor, filled in. *)
Lemma fill_descriptor v i pvt N :
  fd_table_ok v -> heap_ok (fmem (core v)) -> room (fmem (core v)) (S N) ->
  first_null (file_descriptors v) 0 = Some i -> i < 511 -> 0 <= pvt < 4294967296 ->
  exists desc s', (let! r := file_new_decriptor in
      if ISERR_I (fst r) then ret (- EIO)
      else
        on_core (store32 (snd r + desc_filesystem) fat16_fs) ;;;
        on_core (store32 (snd r + desc_pvt) pvt) ;;;
        on_core (store32 (snd r + desc_disk) disk_obj) ;;;
        on_core (loadi32 (snd r + desc_index))) v =
      Ret (i + 1) (with_descriptors (<[Z.to_nat i := desc]> (file_descriptors v)) (with_core s' v)) /\
    0 <= i /\ grown (core v) s' /\ fresh_block (core v) s' desc /\ room (fmem s') N /\
    ld32 (fmem s') (desc + desc_filesystem) = fat16_fs /\ ld32 (fmem s') (desc + desc_pvt) = pvt /\
    fd_table_ok (with_descriptors (<[Z.to_nat i := desc]> (file_descriptors v)) (with_core s' v)).
Proof.
  intros Ht Hok Hroom E Hi Hp.
  destruct (new_descriptor_spec N v i Ht Hok Hroom E)
    as (desc & m1 & En & Hib & Hd0 & Hok1 & Hroom1 & Hx & Hlv & Hfr & Ho).
  assert (Hl1 : live m1 desc 4096) by (apply Hlv; by right).
  set (m2 := st32 (st32 (st32 m1 (desc + desc_filesystem) fat16_fs) (desc + desc_pvt) pvt)
    (desc + desc_disk) disk_obj).
  unfold desc_filesystem, desc_pvt, desc_disk, desc_index in *.
  assert (Hout : forall a, a < desc \/ desc + 4096 <= a -> rd m2 a = rd m1 a)
    by (intros a Ha; unfold m2; by rewrite !rd_st32_ne by lia).
  destruct (client_frame m1 m2 desc 4096 Hok1 Hl1 Hout) as (Hok2 & Hlv2 & Hr2).
  assert (Hx2 : ld32 m2 (desc + 0) = i + 1) by (unfold m2; by rewrite !ld32_st32_ne by lia).
  assert (Ho2 : forall a, owned (fmem (core v)) a -> rd m2 a = rd (fmem (core v)) a).
  { intros a Ha. rewrite Hout; [by apply Ho|].
    apply (owned_fresh (fmem (core v)) m1 desc 4096 a); try done. intros q t Hq. apply Hlv. by left. }
  assert (Hlv3 : forall q t, live m2 q t <-> live (fmem (core v)) q t \/ q = desc /\ t = 4096)
    by (intros q t; by rewrite Hlv2, Hlv).
  exists desc, (with_mem m2 (core v)). split; [|split; [lia|split; [|split; [|split; [by apply Hr2|split; [|split]]]]]].
  - rewrite (bind_Ret _ _ _ _ _ En). cbn [fst snd]. unfold ISERR_I. cbn [Z.ltb Z.compare].
    unfold bind, on_core, store32, modify, loadi32, gets. cbn [core with_core with_descriptors fmem with_mem].
    fold m2. rewrite Hx2, i32_id by lia. done.
  - split; cbn [fmem with_mem the_disk]; [done| |done|done|].
    + intros q t Hq. apply Hlv3. by left.
    + intros q [x Hq]. by exists x.
  - split; [apply Hlv3; by right|done].
  - cbn [fmem with_mem]. unfold m2. rewrite !ld32_st32_ne, ld32_st32_eq by lia. apply u32_id. lia.
  - cbn [fmem with_mem]. unfold m2. rewrite !ld32_st32_ne, ld32_st32_eq by lia. apply u32_id. lia.
  - by apply fd_table_insert.
Qed.

Lemma blocks_two s0 s1 s2 desc pvt bs :
  grown s1 s2 -> fresh_block s0 s1 pvt -> pvt ∉ bs -> NoDup bs ->
  (forall b, b ∈ bs -> fresh_block s0 s1 b) -> fresh_block s1 s2 desc ->
  blocks_live (fmem s2) (desc :: pvt :: bs).
Proof.
  intros Hg Hp Hn Hnd Hfr Hd.
  assert (Hne : forall b, b ∈ pvt :: bs -> live (fmem s1) b 4096).
  { intros b [->|Hb]%elem_of_cons; [apply Hp|by apply Hfr]. }
  split.
  - apply list.NoDup_cons. split; [|by apply list.NoDup_cons].
    intros Hb. by apply (fb_new _ _ _ Hd desc 4096 (Hne _ Hb)).
  - intros b [->|Hb]%elem_of_cons; [apply Hd|]. by apply Hg, Hne.
Qed.

(** The bytes of an item move along. *)
Lemma item_later s0 s1 s2 p e bs :
  volume_ok s1 -> item_made image s0 s1 p e bs -> grown s1 s2 -> item_repr image s2 p e bs.
Proof.
  intros Hv [Hi _ Hfr _] Hg. apply (item_repr_frame image s1); [done|by apply grown_kept, Hg; apply Hv|].
  intros b a Hb Ha. apply Hg. by apply (fresh_region s0 s1 b); [apply Hfr|].
Qed.

Lemma page_not_err p m : live m p 4096 -> ISERR p = false.
Proof.
  intros Hl. pose proof (live_block _ _ _ Hl). pose proof (live_low _ _ _ Hl).
  unfold ISERR. rewrite i32_id by lia. apply Z.ltb_ge. lia.
Qed.

Lemma finish_found first v e i N s2 pvt bs :
  fat16_open dev poll_fuel stack_item pfuel fuel rfuel first FILE_MODE_READ (core v) = Ret pvt s2 ->
  volume_ok (core v) -> fd_table_ok v -> grown (core v) s2 -> room (fmem s2) (S N) ->
  fresh_block (core v) s2 pvt -> (pvt ∉ bs) ->
  item_made image (core v) s2 (ld32 (fmem s2) (pvt + fd_item)) e bs -> desc_pos s2 pvt = 0 ->
  first_null (file_descriptors v) 0 = Some i -> i < 511 ->
  exists desc v', finish_open first v = Ret (i + 1) v' /\
    open_file image fat16_fs v' (i + 1) e desc pvt bs /\ grown (core v) (core v') /\
    fd_table_ok v' /\ file_descriptors v' = <[Z.to_nat i := desc]> (file_descriptors v) /\
    room (fmem (core v')) N /\
    forall b, b ∈ desc :: pvt :: bs -> fresh_block (core v) (core v') b.
Proof.
  intros E Hv Ht Hg Hroom Hfp Hnb Him Hpos Hi Hlt.
  pose proof (live_block _ _ _ (fb_live _ _ _ Hfp)) as Hp1. pose proof (live_low _ _ _ (fb_live _ _ _ Hfp)) as Hp2.
  set (v2 := with_core s2 v).
  destruct (fill_descriptor v2 i pvt N (fd_table_grown v s2 Ht Hg) (gr_ok _ _ Hg) Hroom Hi Hlt ltac:(lia))
    as (desc & s4 & E4 & Hi0 & Hg4 & Hfd & Hroom4 & Ef & Epv & Ht4).
  pose proof (volume_grown _ _ Hg Hv) as Hv2. pose proof (grown_trans _ _ _ Hg Hg4) as Hg14.
  assert (Hreg : region_owned (fmem s2) pvt 4096) by (by eapply fresh_region).
  assert (Eit : ld32 (fmem s4) (pvt + fd_item) = ld32 (fmem s2) (pvt + fd_item)).
  { apply (grown_ld32 s2 s4); [done|]. eapply region_sub; [exact Hreg|unfold fd_item; lia..]. }
  assert (Hbl : blocks_live (fmem s4) (desc :: pvt :: bs))
    by (eapply (blocks_two (core v) s2 s4); try done; [apply Him|by apply Him]).
  eexists desc, _. split; [|split; [|split; [|split; [exact Ht4|split; [|split; [exact Hroom4|]]]]]].
  - unfold finish_open. rewrite (bind_Ret _ _ _ _ _ (on_core_Ret _ v _ _ E)).
    rewrite (page_not_err _ _ (fb_live _ _ _ Hfp)). exact E4.
  - split; cbn [core with_core with_descriptors file_descriptors v2].
    + lia.
    + replace (i + 1 - 1) with i by lia. apply list_lookup_insert_eq.
      rewrite (ft_len _ Ht). change (Z.to_nat LIEBE_OS_MAX_FILE_DESCRIPTORS) with 512%nat. lia.
    + exact Ef.
    + exact Epv.
    + rewrite Eit. by apply (item_later (core v) s2).
    + unfold desc_pos in *. rewrite (grown_ld32 s2 s4); [done|done|].
      eapply region_sub; [exact Hreg|unfold fd_pos; lia..].
    + exact Hbl.
    + intros j p Hj Hp0 Hin. destruct (decide (j = Z.to_nat i)) as [->|Hne].
      * apply list_lookup_insert_Some in Hj as [(_ & -> & _)|[? _]]; [|done].
        destruct Hbl as [Hnd _]. by apply list.NoDup_cons in Hnd as [Hnd _].
      * rewrite list_lookup_insert_ne in Hj by done. destruct (ft_desc _ Ht j p Hj Hp0) as [Hl _].
        apply elem_of_cons in Hin as [->|Hin]; [by apply (fb_new _ _ _ Hfp pvt 4096)|].
        by apply (fb_new _ _ _ (im_fresh _ _ _ _ _ _ Him p Hin) p 4096).
  - exact Hg14.
  - done.
  - cbn [core with_core with_descriptors]. intros b [->|[->|Hb]%elem_of_cons]%elem_of_cons.
    + by apply (fresh_earlier (core v) s2).
    + by apply (fresh_later (core v) s2).
    + apply (fresh_later (core v) s2); [by apply Him|done].
Qed.

Lemma fopen_spec pf filename mode l rest root i N v :
  system_ok root v -> path_string (core v) filename l rest -> (length rest < pf)%nat ->
  (length (split_path rest) <= pfuel)%nat -> file_get_mode_by_string mode = FILE_MODE_READ ->
  path_good image (core v) root (split_path rest) ->
  first_null (file_descriptors v) 0 = Some i -> i < 511 ->
  room (fmem (core v)) (S (S (3 * length root + (48 * length (split_path rest) + S N)) + length (split_path rest) * 2)) ->
  match locate image (core v) root (split_path rest) with
  | Found e => exists desc pvt bs v', fopen ops disk_obj pf filename mode v = Ret (i + 1) v' /\
      open_file image fat16_fs v' (i + 1) e desc pvt bs /\ grown (core v) (core v') /\
      system_ok root v' /\ file_descriptors v' = <[Z.to_nat i := desc]> (file_descriptors v) /\
      room (fmem (core v')) N /\ forall b, b ∈ desc :: pvt :: bs -> fresh_block (core v) (core v') b
  | Missing => exists v', fopen ops disk_obj pf filename mode v = Ret 0 v' /\ grown (core v) (core v') /\
      file_descriptors v' = file_descriptors v
  | Wild => fopen ops disk_obj pf filename mode v = Fault
  end.
Proof.
  intros Hs Hps Hpf Hlen Hm Hgood Hi Hlt Hroom. pose proof Hs as [Hv Hf Hroot Ht].
  destruct (fopen_parses pf filename mode l rest root _ v Hs Hps Hpf Hm Hroom)
    as (first & m' & ns & Hg1 & Hr1 & Hrep & Ho & Hsp & Hne & Efo). set (s1 := with_mem m' (core v)) in *.
  pose proof (grown_kept _ _ (vo_owned _ Hv) Hg1) as Hk1.
  pose proof (system_grown root v s1 Hs Hg1) as Hs1. set (v1 := with_core s1 v) in *.
  assert (Elen : length (split_path rest) = length ns) by (by rewrite <- Hsp, length_map).
  rewrite Elen in *. rewrite <- Hsp in *.
  pose proof (open_spec dev poll_fuel image stack_item fuel rfuel Hdrive Hfuel Hrfuel s1 first ns root
    pfuel (S N) (so_volume _ _ Hs1) (so_root _ _ Hs1) Hrep Ho Hne Hlen
    (path_good_kept _ _ _ _ _ Hk1 Hgood) Hr1) as Hop.
  rewrite (locate_kept image (core v) s1) in Hop by done.
  unfold fopen. destruct (locate image (core v) root (map snd ns)) as [e| |]; cbn [opened] in Hop.
  - destruct Hop as (pvt & s2 & bs & E & Hg2 & Hr2 & Hfp & Hnb & Him & Hpos & _).
    destruct (finish_found first v1 e i N s2 pvt bs E (so_volume _ _ Hs1) (so_table _ _ Hs1) Hg2 Hr2 Hfp Hnb Him
      Hpos Hi Hlt) as (desc & v4 & E4 & Hof & Hg4 & Ht4 & Efd & Hr4 & Hfr).
    exists desc, pvt, bs, v4. pose proof (grown_trans _ _ _ Hg1 Hg4) as Hg.
    split; [|split; [done|split; [done|split; [|split; [done|split; [done|]]]]]].
    + rewrite (bind_Ret _ _ _ (i + 1) v4) by (by rewrite Efo). unfold ISERR_I.
      pose proof (of_number _ _ _ _ _ _ _ _ Hof). by destruct (Z.ltb_spec (i + 1) 0); [lia|].
    + pose proof (system_grown root v (core v4) Hs Hg) as [H1 H2 H3 _]. by split.
    + intros b Hb. apply (fresh_earlier (core v) s1); [done|]. by apply Hfr.
  - destruct Hop as (pvt & s2 & E & Hg2 & _). exists (with_core s2 v1). split; [|split; [|done]].
    + rewrite (bind_Ret _ _ _ (- EIO) (with_core s2 v1)); [done|]. rewrite Efo. unfold finish_open.
      by rewrite (bind_Ret _ _ _ _ _ (on_core_Ret _ v1 _ _ E)).
    + by apply (grown_trans _ s1).
  - assert (Ew : on_core (fat16_open dev poll_fuel stack_item pfuel fuel rfuel first FILE_MODE_READ) v1 = Fault).
    { unfold on_core. change (core v1) with s1. by rewrite Hop. }
    unfold bind at 1. rewrite Efo. unfold finish_open, bind at 1. by rewrite Ew.
Qed.

(** What an open descriptor's number leads to. *)
Lemma open_target v n e desc pvt bs :
  open_file image fat16_fs v n e desc pvt bs ->
  file_get_descriptor n v = desc /\ desc <> 0 /\
  desc_target ops desc v = Ret (fat16_ops dev poll_fuel fat16_fs stack_item pfuel fuel rfuel, pvt) v.
Proof.
  intros [Hn Hs Ef Ep _ _ [_ Hl] _]. split; [|split].
  - unfold file_get_descriptor. change LIEBE_OS_MAX_FILE_DESCRIPTORS with 512.
    destruct (Z.leb_spec n 0); [lia|]. destruct (Z.leb_spec 512 n); [lia|]. cbn [orb]. by rewrite Hs.
  - pose proof (live_block _ _ _ (Hl desc ltac:(by left))). lia.
  - unfold desc_target, bind, on_core, load32, gets. rewrite Ef. unfold fs_ops. rewrite Hops.
    cbn [opt ret core with_core]. rewrite Ep. by destruct v.
Qed.

Lemma fread_spec v n e desc pvt bs size out :
  open_file image fat16_fs v n e desc pvt bs -> is_dir e = false -> volume_ok (core v) ->
  0 < size < 2147483648 -> out_ok (core v) out size ->
  chain_ok image (core v) (entry_cluster e) (Z.to_nat ((size - 1) / cluster_bytes (core v))) ->
  (Z.to_nat ((size - 1) / cluster_bytes (core v)) < rfuel)%nat ->
  exists s', fread ops out size 1 n v = Ret 1 (with_core s' v) /\
    fmem s' = store_bytes (fmem (core v)) out (file_bytes image (core v) (entry_cluster e) 0 size) /\
    kept (core v) s'.
Proof.
  intros Hof Hd [Hm Hg _ _] Hsz Hout Hc Hr. destruct (open_target _ _ _ _ _ _ Hof) as (Eg & Hd0 & Et).
  pose proof Hof as [Hn _ _ _ Hi Hpos _ _]. unfold item_repr in Hi. rewrite Hd in Hi.
  destruct Hi as (q & _ & Eq & _ & Hb).
  assert (Ecl : desc_cluster (core v) pvt = entry_cluster e).
  { unfold desc_cluster, desc_entry, entry_cluster. rewrite Eq.
    by rewrite !(entry_half (fmem (core v)) q e Hb) by (cbv; split; done || discriminate). }
  destruct (fat16_read_spec dev poll_fuel image rfuel pvt size out (core v)) as (s' & E & Em & Hk);
    rewrite ?Ecl, ?Hpos in *; try done.
  exists s'. split; [|done]. unfold fread.
  destruct (Z.eqb_spec size 0); [lia|]. destruct (Z.eqb_spec 1 0); [lia|]. destruct (Z.ltb_spec n 1); [lia|].
  cbn [orb]. unfold bind at 1, gets at 1. rewrite Eg. destruct (Z.eqb_spec desc 0); [done|].
  rewrite (bind_Ret _ _ _ _ _ Et). by apply on_core_Ret.
Qed.

Lemma fclose_spec v n e desc pvt bs :
  open_file image fat16_fs v n e desc pvt bs -> fd_table_ok v -> heap_ok (fmem (core v)) ->
  exists m', fclose ops n v =
      Ret 0 (with_descriptors (<[Z.to_nat (n - 1) := 0]> (file_descriptors v)) (with_core (with_mem m' (core v)) v)) /\
    heap_ok m' /\ (forall q t, live m' q t <-> live (fmem (core v)) q t /\ q ∉ desc :: pvt :: bs) /\
    (forall a, ~ meta a -> rd m' a = rd (fmem (core v)) a) /\
    (forall n, room (fmem (core v)) n -> room m' n).
Proof.
  intros Hof Ht Hok. destruct (open_target _ _ _ _ _ _ Hof) as (Eg & Hd0 & Et).
  destruct Hof as [Hn Hs _ _ Hi _ [Hnd Hl] Hpriv].
  apply list.NoDup_cons in Hnd as [Hdn Hnd]. apply list.NoDup_cons in Hnd as [Hpn Hnd].
  destruct (free_all_spec (bs ++ [pvt]) (fmem (core v)) Hok) as (H1 & H2 & H3 & H4).
  { apply list.NoDup_app. split; [done|]. split; [|apply NoDup_singleton].
    intros b Hb Hb2. apply list_elem_of_singleton in Hb2 as ->. done. }
  { intros b Hb. apply Hl. apply elem_of_app in Hb as [Hb|Hb]; right; [by right|].
    apply list_elem_of_singleton in Hb as ->. by left. }
  set (m1 := free_all (bs ++ [pvt]) (fmem (core v))) in *. set (v1 := with_core (with_mem m1 (core v)) v).
  assert (Hin : forall b, b ∈ bs ++ [pvt] <-> b ∈ pvt :: bs)
    by (intros b; rewrite elem_of_app, list_elem_of_singleton, elem_of_cons; tauto).
  assert (Ht1 : fd_table_ok v1).
  { destruct Ht as [T1 T2 T3]. split; [done| |done]. intros j p Hj Hp. destruct (T2 j p Hj Hp) as [Hlp Hx].
    cbn [v1 core with_core fmem with_mem]. split.
    - apply H2. split; [done|]. rewrite Hin. by apply (Hpriv j).
    - rewrite <- Hx. apply ld32_ext. intros b Hb. apply H4. destruct (live_block _ _ _ Hlp) as (_ & _ & Hm).
      apply Hm. unfold desc_index. lia. }
  destruct (free_descriptor_spec v1 (Z.to_nat (n - 1)) desc Ht1 H1 Hd0 Hs) as (m2 & Ef & Hok2 & Hlv2 & Ho2 & Hr2).
  exists m2. split; [|split; [done|split]].
  - unfold fclose. unfold bind at 1, gets at 1. rewrite Eg. destruct (Z.eqb_spec desc 0); [done|].
    rewrite (bind_Ret _ _ _ _ _ Et). cbn [fst snd op_close fat16_ops].
    assert (Ec : on_core (fat16_close pvt) v = Ret 0 v1).
    { apply on_core_Ret. unfold fat16_close, fat16_free_file_descriptor. unfold bind at 1, bind at 1, load32 at 1, gets at 1.
      rewrite (bind_Ret _ _ _ _ _ (free_item_eq image (core v) _ e bs Hi ltac:(intros b Hb;
        pose proof (live_block _ _ _ (Hl b ltac:(right; by right))); lia))).
      unfold free, modify, ret. cbn [fmem with_mem]. unfold m1, free_all. by rewrite foldl_app. }
    rewrite (bind_Ret _ _ _ _ _ Ec). cbn [Z.eqb OK]. change (0 =? OK) with true. cbv iota.
    by rewrite (bind_Ret _ _ _ _ _ Ef).
  - intros q t. rewrite Hlv2. change (fmem (core v1)) with m1. rewrite H2, Hin, (elem_of_cons _ _ desc). tauto.
  - split; [intros a Ha; rewrite Ho2 by done; by apply H4|]. intros j Hj. by apply Hr2, H3.
Qed.

End open.

(** ** Lemmas: a read between opening and closing *)

Section session.
Context `{KAllocator} (image : Z -> Z) (fat16_fs : Z).

(** The read writes only to [out], away from what the file is made of. *)
Lemma open_file_frame v n e desc pvt bs s' :
  open_file image fat16_fs v n e desc pvt bs -> kept (core v) s' ->
  (forall q t, live (fmem s') q t <-> live (fmem (core v)) q t) ->
  (forall b a, b ∈ desc :: pvt :: bs -> b <= a < b + 4096 -> rd (fmem s') a = rd (fmem (core v)) a) ->
  open_file image fat16_fs (with_core s' v) n e desc pvt bs.
Proof.
  intros [H1 H2 H3 H4 H5 H6 [Hnd Hl] H8] Hk Hlv Hf.
  assert (E : forall b k, b ∈ desc :: pvt :: bs -> 0 <= k <= 4092 ->
    ld32 (fmem s') (b + k) = ld32 (fmem (core v)) (b + k)).
  { intros b k Hb Hk'. apply (ld32_ext (fmem (core v)) (fmem s') (b + k) (b + k)). intros i Hi.
    apply (Hf b); [done|lia]. }
  assert (Hd : desc ∈ desc :: pvt :: bs) by (by left).
  assert (Hp : pvt ∈ desc :: pvt :: bs) by (right; by left).
  split; cbn [core with_core file_descriptors]; [done|done|..].
  - rewrite E; [done|done|unfold desc_filesystem; lia].
  - rewrite E; [done|done|unfold desc_pvt; lia].
  - rewrite E by (done || (unfold fd_item; lia)). apply (item_repr_frame image (core v)); [done|done|].
    intros b a Hb Ha. apply (Hf b); [right; by right|done].
  - unfold desc_pos in *. rewrite E; [done|done|unfold fd_pos; lia].
  - split; [done|]. intros b Hb. by apply Hlv, Hl.
  - done.
Qed.

Lemma fd_table_frame v s' :
  fd_table_ok v -> (forall q t, live (fmem s') q t <-> live (fmem (core v)) q t) ->
  (forall p a, p ∈ file_descriptors v -> p <> 0 -> p <= a < p + 4096 -> rd (fmem s') a = rd (fmem (core v)) a) ->
  fd_table_ok (with_core s' v).
Proof.
  intros [H1 H2 H3] Hlv Hf. split; cbn [core with_core file_descriptors]; [done| |done].
  intros i p Hi Hp. destruct (H2 i p Hi Hp) as [Hl Hx]. split; [by apply Hlv|]. rewrite <- Hx.
  apply (ld32_ext (fmem (core v)) (fmem s') (p + desc_index) (p + desc_index)). intros b Hb.
  apply (Hf p); [by eapply list_elem_of_lookup_2|done|unfold desc_index; lia].
Qed.

(** A read into memory the caller owned before the file was opened. *)
Lemma read_frame v0 v desc pvt bs n e out size s' l :
  open_file image fat16_fs v n e desc pvt bs -> grown (core v0) (core v) -> fd_table_ok v ->
  (forall b, b ∈ desc :: pvt :: bs -> fresh_block (core v0) (core v) b) ->
  0 < size -> region_owned (fmem (core v0)) out size ->
  (forall p, p ∈ file_descriptors v -> p <> 0 -> p = desc \/ out + size <= p \/ p + 4096 <= out) ->
  kept (core v) s' -> fmem s' = store_bytes (fmem (core v)) out l -> Z.of_nat (length l) = size ->
  open_file image fat16_fs (with_core s' v) n e desc pvt bs /\ fd_table_ok (with_core s' v) /\
  heap_ok (fmem s') /\ (forall q t, live (fmem s') q t <-> live (fmem (core v)) q t).
Proof.
  intros Hof Hg Ht Hfr Hsz Hown Hap Hk Em Hl.
  assert (Hout : forall a, a < out \/ out + size <= a -> rd (fmem s') a = rd (fmem (core v)) a)
    by (intros a Ha; rewrite Em; apply rd_store_bytes_out; lia).
  assert (Hb : forall b, b ∈ desc :: pvt :: bs -> out + size <= b \/ b + 4096 <= out)
    by (intros b Hb; by apply (fresh_region_apart (core v0) (core v) b out size Hg (Hfr b Hb))).
  destruct (meta_frame (fmem (core v)) (fmem s') (gr_ok _ _ Hg)) as (Hok & Hlv & _).
  { intros a Ha. apply Hout. destruct (decide (out <= a < out + size)) as [Hin|]; [|lia].
    by destruct (Hown a Hin) as [Hm _]. }
  split; [|split; [|done]].
  - apply open_file_frame; [done|done|done|]. intros b a Hin Ha. apply Hout. specialize (Hb b Hin). lia.
  - apply fd_table_frame; [done|done|]. intros p a Hin Hp Ha. apply Hout.
    destruct (Hap p Hin Hp) as [->|?]; [specialize (Hb desc ltac:(by left)); lia|lia].
Qed.

End session.

(** ** Properties *)

(** C13. From the path string to the descriptor: [fopen] of a path on drive 0
    parses it, finds exactly the entry the abstract lookup [locate] finds, and
    returns the number of the lowest free slot, whose descriptor leads to that
    entry at position 0, all in new blocks and with every byte the caller owned
    unchanged; when there is no such file it returns 0 and the descriptor
    table stays as it was; when a directory in the middle of the path is missing
    the code uses a null pointer.  The conditions: a mounted volume with its root
    directory in memory ([system_ok]); components shorter than 108 characters
    ([path_string]); [path_good]: in the directories looked into the names end
    inside their entries, and the directories that match a component are not
    empty, end within their first sector and lie in a cluster below 2 GB; a
    free slot below the last one, and room in the heap. *)
Theorem fopen_locates `{KAllocator} ops fat16_fs disk_obj dev poll_fuel image stack_item pfuel fuel rfuel
    pf filename mode l rest root i N v :
  drive_ok dev poll_fuel image -> (16 < fuel)%nat -> (0 < rfuel)%nat ->
  ops fat16_fs = Some (fat16_ops dev poll_fuel fat16_fs stack_item pfuel fuel rfuel) ->
  0 < fat16_fs < 4294967296 ->
  system_ok fat16_fs root v -> path_string (core v) filename l rest -> (length rest < pf)%nat ->
  (length (split_path rest) <= pfuel)%nat -> file_get_mode_by_string mode = FILE_MODE_READ ->
  path_good image (core v) root (split_path rest) ->
  first_null (file_descriptors v) 0 = Some i -> i < 511 ->
  room (fmem (core v)) (S (S (3 * length root + (48 * length (split_path rest) + S N)) + length (split_path rest) * 2)) ->
  match locate image (core v) root (split_path rest) with
  | Found e => exists desc pvt bs v', fopen ops disk_obj pf filename mode v = Ret (i + 1) v' /\
      open_file image fat16_fs v' (i + 1) e desc pvt bs /\ grown (core v) (core v') /\
      system_ok fat16_fs root v' /\ file_descriptors v' = <[Z.to_nat i := desc]> (file_descriptors v) /\
      room (fmem (core v')) N /\ forall b, b ∈ desc :: pvt :: bs -> fresh_block (core v) (core v') b
  | Missing => exists v', fopen ops disk_obj pf filename mode v = Ret 0 v' /\ grown (core v) (core v') /\
      file_descriptors v' = file_descriptors v
  | Wild => fopen ops disk_obj pf filename mode v = Fault
  end.
Proof. intros. by eapply fopen_spec. Qed.

(** C12. Opening, reading and closing a file: when [fopen] is given the path of
    a file on the volume, [fread] of its first [size] bytes through the number
    it returns answers 1 and stores exactly those bytes of the file, found by
    following the allocation table from the entry's first cluster; [fclose]
    then answers 0 and gives the slot back, and what the caller had before is
    as it was, apart from the buffer: its blocks are live, its bytes and the
    descriptor table unchanged.  The conditions are those of C13 (a mounted
    volume, and [path_good] directories: they end within their first sector and
    lie below 2 GB); [chain_ok]: the links of the file up to the last byte read
    are usable and its clusters lie below 2 GB; and a buffer the caller owns,
    apart from the volume's structure and the open descriptors. *)
Theorem file_session `{KAllocator} ops fat16_fs disk_obj dev poll_fuel image stack_item pfuel fuel rfuel
    pf filename mode l rest root i N v e out size :
  drive_ok dev poll_fuel image -> (16 < fuel)%nat ->
  ops fat16_fs = Some (fat16_ops dev poll_fuel fat16_fs stack_item pfuel fuel rfuel) ->
  0 < fat16_fs < 4294967296 ->
  system_ok fat16_fs root v -> path_string (core v) filename l rest -> (length rest < pf)%nat ->
  (length (split_path rest) <= pfuel)%nat -> file_get_mode_by_string mode = FILE_MODE_READ ->
  path_good image (core v) root (split_path rest) ->
  first_null (file_descriptors v) 0 = Some i -> i < 511 ->
  room (fmem (core v)) (S (S (3 * length root + (48 * length (split_path rest) + S N)) + length (split_path rest) * 2)) ->
  locate image (core v) root (split_path rest) = Found e -> is_dir e = false ->
  0 < size < 2147483648 -> region_owned (fmem (core v)) out size -> out_ok (core v) out size ->
  (forall p, p ∈ file_descriptors v -> p <> 0 -> out + size <= p \/ p + 4096 <= out) ->
  chain_ok image (core v) (entry_cluster e) (Z.to_nat ((size - 1) / cluster_bytes (core v))) ->
  (Z.to_nat ((size - 1) / cluster_bytes (core v)) < rfuel)%nat ->
  exists v1 v2 v3, fopen ops disk_obj pf filename mode v = Ret (i + 1) v1 /\
    fread ops out size 1 (i + 1) v1 = Ret 1 v2 /\
    bytes (fmem (core v2)) out (Z.to_nat size) = file_bytes image (core v) (entry_cluster e) 0 size /\
    fclose ops (i + 1) v2 = Ret 0 v3 /\ heap_ok (fmem (core v3)) /\
    file_descriptors v3 = file_descriptors v /\
    (forall q t, live (fmem (core v)) q t -> live (fmem (core v3)) q t) /\
    (forall a, owned (fmem (core v)) a -> a < out \/ out + size <= a -> rd (fmem (core v3)) a = rd (fmem (core v)) a) /\
    bytes (fmem (core v3)) out (Z.to_nat size) = file_bytes image (core v) (entry_cluster e) 0 size.
Proof.
  intros Hdr Hfu Hops Hfs Hs Hps Hpf Hlen Hm Hgood Hi Hlt Hroom El Hd Hsz Hown Hout Hap Hc Hrf.
  assert (Hrf0 : (0 < rfuel)%nat) by lia.
  pose proof (fopen_spec ops fat16_fs disk_obj dev poll_fuel image stack_item pfuel fuel rfuel Hdr Hfu Hrf0 Hops Hfs
    pf filename mode l rest root i N v Hs Hps Hpf Hlen Hm Hgood Hi Hlt Hroom) as Hop. rewrite El in Hop.
  destruct Hop as (desc & pvt & bs & v1 & E1 & Hof & Hg & Hs1 & Efd & _ & Hfr).
  pose proof (so_volume _ _ _ Hs) as Hv. pose proof (grown_kept _ _ (vo_owned _ Hv) Hg) as Hk.
  assert (Ecb : cluster_bytes (core v1) = cluster_bytes (core v))
    by (unfold cluster_bytes; by destruct (kept_geometry _ _ Hk) as (_ & -> & _)).
  destruct (fread_spec ops fat16_fs dev poll_fuel image stack_item pfuel fuel rfuel Hdr Hfu Hrf0 Hops
    v1 (i + 1) e desc pvt bs size out Hof Hd (so_volume _ _ _ Hs1) Hsz) as (s2 & E2 & Em & Hk2);
    rewrite ?Ecb; [by apply (kept_out (core v))|by apply (kept_chain _ (core v))|done|].
  rewrite (kept_file_bytes image (core v)) in Em by done.
  set (l2 := file_bytes image (core v) (entry_cluster e) 0 size) in *.
  assert (Hl2 : Z.of_nat (length l2) = size) by (unfold l2; rewrite length_file_bytes; lia).
  destruct (read_frame image fat16_fs v v1 desc pvt bs (i + 1) e out size s2 l2) as (Hof2 & Ht2 & Hok2 & Hlv2);
    try done; [apply (so_table _ _ _ Hs1)|lia| |].
  { intros p Hin Hp. rewrite Efd in Hin. apply list_elem_of_lookup in Hin as [j Hj].
    destruct (decide (j = Z.to_nat i)) as [->|Hne].
    - apply list_lookup_insert_Some in Hj as [(_ & -> & _)|[? _]]; [by left|done].
    - rewrite list_lookup_insert_ne in Hj by done. right. apply Hap; [by eapply list_elem_of_lookup_2|done]. }
  destruct (fclose_spec ops fat16_fs dev poll_fuel image stack_item pfuel fuel rfuel Hfu Hrf0 Hops Hfs
    (with_core s2 v1) (i + 1) e desc pvt bs Hof2 Ht2 Hok2) as (m3 & E3 & Hok3 & Hlv3 & Ho3 & _).
  assert (Hb2 : bytes (fmem s2) out (Z.to_nat size) = l2).
  { rewrite Em. replace (Z.to_nat size) with (length l2) by lia. apply bytes_store_bytes.
    apply Forall_map, list.Forall_forall. intros o _. apply (drive_byte _ _ _ Hdr). }
  eexists v1, _, _. split; [done|]. split; [done|]. split; [done|]. split; [exact E3|].
  cbn [core with_core with_descriptors file_descriptors fmem with_mem] in *.
  split; [done|]. split; [|split; [|split]].
  - replace (i + 1 - 1) with i by lia. rewrite Efd, list_insert_insert_eq. apply list_insert_id.
    pose proof (first_null_spec (file_descriptors v) 0) as Hf. rewrite Hi, Z.sub_0_r in Hf. apply Hf.
  - intros q t Hq. apply Hlv3. split; [by apply Hlv2, Hg|]. intros Hb. by apply (fb_new _ _ _ (Hfr q Hb) q t).
  - intros a Ha Hoa. rewrite Ho3, Em by apply Ha. rewrite rd_store_bytes_out by lia. by apply Hg.
  - rewrite <- Hb2. apply bytes_ext. intros j Hj. apply Ho3. by apply (Hown (out + j) ltac:(lia)).
Qed.

(** ** Witnesses *)

(** The volume of [Lookup] with an empty descriptor table, FAT16 at address 1. *)
Definition tree_ops (a : Z) : option filesystem_ops :=
  if a =? 1 then Some (fat16_ops tree_drive 1 1 [] 2 17 2) else None.
Definition tree_vfs : vfs :=
  {| core := tree; filesystems := 1 :: replicate 11 0; file_descriptors := replicate (Z.to_nat 512) 0;
     video := 0xB8000; row := 0; col := 0 |}.
Definition tree_rest : list Z := drop 3 tree_name.

Lemma tree_system : system_ok 1 [subdir_entry; hello_file] tree_vfs.
Proof.
  assert (Hz : forall i p, replicate (Z.to_nat 512) 0 !! i = Some p -> p = 0)
    by (intros i p [-> _]%lookup_replicate; done).
  split; [exact tree_volume|vm_compute; reflexivity|exact tree_root|].
  split; [apply length_replicate| |]; cbn [tree_vfs file_descriptors].
  - intros i p Hi Hp. by apply Hz in Hi.
  - intros i j p Hi _ Hp. by apply Hz in Hi.
Qed.

Lemma tree_path_string : path_string tree 0x5200 tree_name tree_rest.
Proof.
  split; [split|..].
  - intros i x Hx. assert (Hi : (i < 12)%nat) by (apply lookup_lt_Some in Hx; exact Hx).
    do 12 (destruct i as [|i]; [injection Hx as <-; vm_compute; reflexivity|]). lia.
  - vm_compute. reflexivity.
  - repeat constructor; lia.
  - split; [reflexivity|lia].
  - done.
  - intros p Hp. change (split_path tree_rest) with [[100; 105; 114]; [98; 46; 116; 120; 116]] in Hp.
    repeat (apply elem_of_cons in Hp as [->|Hp]; [cbn; lia|]). by apply not_elem_of_nil in Hp.
  - apply tree_low_owned; vm_compute; discriminate.
Qed.

Lemma tree_high_owned m p n : 0x10000 <= p -> p + n <= 0x01000000 -> region_owned m p n.
Proof.
  intros Hp Hn a Ha. split.
  - intros Hin. change (in_table kernel_heap a) in Hin. unfold in_table in Hin. rewrite kernel_total in Hin.
    change (entries (table kernel_heap)) with 0x7E00 in Hin. lia.
  - intros Hpool. exfalso. change (saddr kernel_heap <= a) in Hpool. change (saddr kernel_heap) with 0x01000000 in Hpool. lia.
Qed.

Lemma tree_chain : chain_ok tree_image tree 2 0.
Proof.
  split; [intros i Hi; lia|].
  intros [|i] Hi; [|lia]. split; vm_compute; [split; [discriminate|]|]; reflexivity.
Qed.

Lemma fopen_locates_witness :
  exists desc pvt bs v', fopen tree_ops 0x2000 10 0x5200 (at_list [114; 0]) tree_vfs = Ret (0 + 1) v' /\
    open_file tree_image 1 v' (0 + 1) b_file desc pvt bs /\ grown tree (core v') /\
    system_ok 1 [subdir_entry; hello_file] v' /\
    file_descriptors v' = <[Z.to_nat 0 := desc]> (file_descriptors tree_vfs) /\
    room (fmem (core v')) 10 /\ forall b, b ∈ desc :: pvt :: bs -> fresh_block tree (core v') b.
Proof.
  assert (E : locate tree_image tree [subdir_entry; hello_file] (split_path tree_rest) = Found b_file)
    by (vm_compute; exact eq_refl).
  pose proof (fopen_locates tree_ops 1 0x2000 tree_drive 1 tree_image [] 2 17 2 10 0x5200 (at_list [114; 0])
    tree_name tree_rest [subdir_entry; hello_file] 0 10 tree_vfs tree_drive_ok ltac:(lia) ltac:(lia) eq_refl ltac:(lia)
    tree_system tree_path_string ltac:(vm_compute; lia) ltac:(vm_compute; lia) eq_refl tree_path_good eq_refl
    ltac:(lia) (proj2 tree_heap 119%nat ltac:(lia))) as Hf.
  change (core tree_vfs) with tree in Hf. rewrite E in Hf. exact Hf.
Defined.

Lemma file_session_witness :
  exists v1 v2 v3, fopen tree_ops 0x2000 10 0x5200 (at_list [114; 0]) tree_vfs = Ret (0 + 1) v1 /\
    fread tree_ops 0x200000 600 1 (0 + 1) v1 = Ret 1 v2 /\
    bytes (fmem (core v2)) 0x200000 (Z.to_nat 600) = file_bytes tree_image tree (entry_cluster b_file) 0 600 /\
    fclose tree_ops (0 + 1) v2 = Ret 0 v3 /\ heap_ok (fmem (core v3)) /\
    file_descriptors v3 = file_descriptors tree_vfs /\
    (forall q t, live (fmem tree) q t -> live (fmem (core v3)) q t) /\
    (forall a, owned (fmem tree) a -> a < 0x200000 \/ 0x200000 + 600 <= a ->
       rd (fmem (core v3)) a = rd (fmem tree) a) /\
    bytes (fmem (core v3)) 0x200000 (Z.to_nat 600) = file_bytes tree_image tree (entry_cluster b_file) 0 600.
Proof.
  apply (file_session tree_ops 1 0x2000 tree_drive 1 tree_image [] 2 17 2 10 0x5200 (at_list [114; 0])
    tree_name tree_rest [subdir_entry; hello_file] 0 10 tree_vfs b_file 0x200000 600 tree_drive_ok ltac:(lia)
    eq_refl ltac:(lia) tree_system tree_path_string ltac:(vm_compute; lia) ltac:(vm_compute; lia) eq_refl
    tree_path_good eq_refl ltac:(lia) (proj2 tree_heap 119%nat ltac:(lia))).
  - vm_compute. exact eq_refl.
  - vm_compute. exact eq_refl.
  - lia.
  - apply tree_high_owned; lia.
  - right. vm_compute. discriminate.
  - intros p Hp Hp0. exfalso. apply Hp0. cbn [tree_vfs file_descriptors] in Hp.
    by apply elem_of_replicate in Hp as [-> _].
  - exact tree_chain.
  - vm_compute. lia.
Defined.
