(* ===== verification/Mount.v ===== *)
(** * Mounting the volume

    [fat16_resolve] and [disk_search_and_init] on a drive that holds a FAT16
    volume: the private structure with its three streams, the copy of the boot
    sector's header, the root directory.  The theorem is that afterwards the
    state is the one the theorems on reading and opening start from. *)
From S2P Require Import Prelude Config Memory CString Heap KHeap Terminal PathParser Disk Fat16 File Fat16Facts Lookup Open.

(** ** Specification: the volume on the disk *)






(** ** Lemmas: allocation *)

Section mount.
Context `{KAllocator} (dev : ata_device) (poll_fuel : nat) (image : Z -> Z).
Hypothesis Hdrive : drive_ok dev poll_fuel image.



(** The private structure with its streams. *)
Record private_at (s : fs) (p : Z) : Prop := {
  pa_cluster : has_stream s (ld32 (fmem s) (p + fp_cluster_read_stream));
  pa_fat : has_stream s (ld32 (fmem s) (p + fp_fat_read_stream)) /\
    ld32 (fmem s) (p + fp_fat_read_stream) <> 0;
  pa_directory : has_stream s (ld32 (fmem s) (p + fp_directory_stream)) }.

(** A field that other writes leave alone. *)
Lemma field_kept m m' p k : 0 <= k -> k + 4 <= 4096 ->
  (forall a, p + k <= a < p + k + 4 -> rd m' a = rd m a) -> ld32 m' (p + k) = ld32 m (p + k).
Proof. intros H1 H2 Hf. apply (ld32_ext m m' (p + k) (p + k)). intros i Hi. apply Hf. lia. Qed.

Lemma private_frame s s' p :
  private_at s p -> (forall x, has_stream s x -> has_stream s' x) ->
  (forall a, p + 80 <= a < p + 92 -> rd (fmem s') a = rd (fmem s) a) -> private_at s' p.
Proof.
  intros [H1 [H2 H3] H4] Hs Hf. unfold fp_cluster_read_stream, fp_fat_read_stream, fp_directory_stream in *.
  split; unfold fp_cluster_read_stream, fp_fat_read_stream, fp_directory_stream;
    rewrite ?(field_kept (fmem s) (fmem s') p) by (try lia; intros a Ha; apply Hf; lia); auto.
Qed.









Lemma same_private s s' p : same_store s s' -> private_at s p -> private_at s' p.
Proof. intros [Em _ Es] Hp. by apply (private_frame s); [done|done|intros a _; by rewrite Em]. Qed.










End mount.

(** ** Lemmas: the virtual file system *)

Section search.
Context `{KAllocator} (ops : Z -> option filesystem_ops) (fat16_fs : Z).
Context (dev : ata_device) (poll_fuel : nat) (image : Z -> Z) (stack_item : list Z).
Context (pfuel fuel rfuel : nat).
Hypothesis Hdrive : drive_ok dev poll_fuel image.
Hypothesis Hfuel : (16 < fuel)%nat.
Hypothesis Hops : ops fat16_fs = Some (fat16_ops dev poll_fuel fat16_fs stack_item pfuel fuel rfuel).
Hypothesis Hfs : 0 < fat16_fs < 4294967296.






End search.

(** ** Properties *)


(** ** Witnesses *)






