(* ===== verification/Elf.v ===== *)
(** * The ELF loader: [src/loader/formats/elf.c], [src/loader/formats/elfloader.c]

    An ELF image is a file read into one heap block, and [struct elf_file] is
    a heap object that points to it; the header, the program headers and the
    section headers are read in place, at the offsets of the packed
    structures.  Functions that only touch memory are functions of it; those
    that call the file system run over its state. *)
From S2P Require Import Prelude Config Memory Heap KHeap PathParser Fat16 File.

(** ** Constants and layout *)

Definition PF_W : Z := 0x02.
Definition PT_LOAD : Z := 1.
Definition ET_EXEC : Z := 2.
Definition EI_CLASS : Z := 4.
Definition EI_DATA : Z := 5.
Definition ELFCLASSNONE : Z := 0.
Definition ELFCLASS32 : Z := 1.
Definition ELFDATANONE : Z := 0.
Definition ELFDATA2LSB : Z := 1.

(** [struct elf_header], packed. *)
Definition e_ident : Z := 0.
Definition e_type : Z := 16.
Definition e_entry : Z := 24.
Definition e_phoff : Z := 28.
Definition e_shoff : Z := 32.
Definition e_phnum : Z := 44.
Definition e_shstrndx : Z := 50.

(** [struct elf32_phdr], packed. *)
Definition p_type : Z := 0.
Definition p_offset : Z := 4.
Definition p_vaddr : Z := 8.
Definition p_filesz : Z := 16.
Definition p_memsz : Z := 20.
Definition p_flags : Z := 24.
Definition sizeof_phdr : Z := 32.

(** [struct elf32_shdr], packed. *)
Definition sh_offset : Z := 16.
Definition sizeof_shdr : Z := 40.

(** [struct elf_file]; the name comes first. *)
Definition ef_elf_memory : Z := 112.
Definition ef_virtual_base_address : Z := 116.
Definition ef_virtual_end_address : Z := 120.
Definition ef_physical_base_address : Z := 124.
Definition ef_physical_end_address : Z := 128.
Definition sizeof_elf_file : Z := 132.

Definition elf_signature : list Z := [0x7f; 69; 76; 70].

(** ** Reading the image *)

Definition elf_get_entry (elf_header : Z) (m : mem) : Z := ld32 m (elf_header + e_entry).
Definition elf_get_entry_ptr (elf_header : Z) (m : mem) : Z := ld32 m (elf_header + e_entry).

Definition elf_valid_signature (buffer : Z) (m : mem) : bool :=
  memcmp (at_mem m buffer) (at_list elf_signature) 4 =? 0.
Definition elf_valid_class (header : Z) (m : mem) : bool :=
  (rd m (header + e_ident + EI_CLASS) =? ELFCLASSNONE) ||
  (rd m (header + e_ident + EI_CLASS) =? ELFCLASS32).
Definition elf_valid_encoding (header : Z) (m : mem) : bool :=
  (rd m (header + e_ident + EI_DATA) =? ELFDATANONE) ||
  (rd m (header + e_ident + EI_DATA) =? ELFDATA2LSB).
(** Defined by the source, called by nothing. *)
Definition elf_is_executable (header : Z) (m : mem) : bool :=
  (ld16 m (header + e_type) =? ET_EXEC) &&
  (LIEBE_OS_PROGRAM_VIRTUAL_ADDRESS <=? ld32 m (header + e_entry)).
Definition elf_has_program_header (header : Z) (m : mem) : bool :=
  negb (i32 (ld32 m (header + e_phoff)) =? 0).

Definition elf_memory (file : Z) (m : mem) : Z := ld32 m (file + ef_elf_memory).
Definition elf_header (file : Z) (m : mem) : Z := ld32 m (file + ef_elf_memory).
Definition elf_sheader (header : Z) (m : mem) : Z :=
  u32 (header + i32 (ld32 m (header + e_shoff))).
Definition elf_pheader (header : Z) (m : mem) : Z :=
  if i32 (ld32 m (header + e_phoff)) =? 0 then 0
  else u32 (header + i32 (ld32 m (header + e_phoff))).
Definition elf_program_header (header index : Z) (m : mem) : Z :=
  u32 (elf_pheader header m + index * sizeof_phdr).
Definition elf_section (header index : Z) (m : mem) : Z :=
  u32 (elf_sheader header m + index * sizeof_shdr).
Definition elf_str_table (header : Z) (m : mem) : Z :=
  u32 (header + i32 (ld32 m (elf_section header (ld16 m (header + e_shstrndx)) m + sh_offset))).
Definition elf_virtual_base (file : Z) (m : mem) : Z := ld32 m (file + ef_virtual_base_address).
Definition elf_virtual_end (file : Z) (m : mem) : Z := ld32 m (file + ef_virtual_end_address).
Definition elf_phys_base (file : Z) (m : mem) : Z := ld32 m (file + ef_physical_base_address).
Definition elf_phys_end (file : Z) (m : mem) : Z := ld32 m (file + ef_physical_end_address).
Definition elf_phdr_phys_address (file phdr : Z) (m : mem) : Z :=
  u32 (elf_memory file m + i32 (ld32 m (phdr + p_offset))).

Definition elf_validate_loaded (header : Z) (m : mem) : Z :=
  if elf_valid_signature header m && elf_valid_class header m &&
     elf_valid_encoding header m && elf_has_program_header header m
  then OK else - EINFORMAT.

(** ** Processing the program headers *)

(** Two independent updates; the second reads what the first left. *)
Definition update_base (elf_file phdr : Z) (m : mem) : mem :=
  let base := ld32 m (elf_file + ef_virtual_base_address) in
  if (ld32 m (phdr + p_vaddr) <=? base) || (base =? 0x00) then
    let m1 := st32 m (elf_file + ef_virtual_base_address) (ld32 m (phdr + p_vaddr)) in
    st32 m1 (elf_file + ef_physical_base_address)
      (elf_memory elf_file m1 + i32 (ld32 m1 (phdr + p_offset)))
  else m.
Definition update_end (elf_file phdr : Z) (m : mem) : mem :=
  let end_virtual_address := u32 (ld32 m (phdr + p_vaddr) + ld32 m (phdr + p_filesz)) in
  let end_ := ld32 m (elf_file + ef_virtual_end_address) in
  if (end_ <=? end_virtual_address) || (end_ =? 0x00) then
    let m1 := st32 m (elf_file + ef_virtual_end_address) end_virtual_address in
    st32 m1 (elf_file + ef_physical_end_address)
      (elf_memory elf_file m1 + i32 (ld32 m1 (phdr + p_offset)) + ld32 m1 (phdr + p_filesz))
  else m.
Definition elf_process_phdr_pt_load (elf_file phdr : Z) (m : mem) : Z * mem :=
  (0, update_end elf_file phdr (update_base elf_file phdr m)).

Definition elf_process_pheader (elf_file_obj phdr : Z) (m : mem) : Z * mem :=
  if ld32 m (phdr + p_type) =? PT_LOAD then elf_process_phdr_pt_load elf_file_obj phdr m
  else (0, m).

(** [for (i = 0; i < header->e_phnum; i++)]: the bound is read anew each
    turn, [fuel] bounds it ([e_phnum] has 16 bits). *)
Fixpoint process_pheaders_loop (fuel : nat) (elf_file_obj header i res : Z) (m : mem)
  : Z * mem :=
  match fuel with
  | O => (res, m)
  | S f =>
    if i <? ld16 m (header + e_phnum) then
      let '(res', m') :=
        elf_process_pheader elf_file_obj (elf_program_header header i m) m in
      if res' <? 0 then (res', m')
      else process_pheaders_loop f elf_file_obj header (i + 1) res' m'
    else (res, m)
  end.
Definition elf_process_pheaders (elf_file_obj : Z) (m : mem) : Z * mem :=
  process_pheaders_loop (Z.to_nat 65536) elf_file_obj (elf_header elf_file_obj m) 0 0 m.

Definition elf_process_loaded (elf_file_obj : Z) (m : mem) : Z * mem :=
  let res := elf_validate_loaded (elf_header elf_file_obj m) m in
  if res <? 0 then (res, m) else elf_process_pheaders elf_file_obj m.

(** ** Loading and closing *)

Section files.
Context `{KAllocator} (ops : Z -> option filesystem_ops) (disk_obj : Z).

(** A memory function of the image, run on the file system's memory. *)
Definition on_memory {A} (f : mem -> A * mem) : M vfs A :=
  fun v => let '(a, m) := f (fmem (core v)) in Ret a (with_core (with_mem m (core v)) v).

(** [stat] is the address of the local structure; [fuel] bounds the path.
    The results are the status and [*file_out] (null where it is not set). *)
Definition elf_load_body (elf_file_obj stat fd : Z) : M vfs (Z * Z) :=
  let! res := fstat ops fd stat in
  if res <? 0 then ret (res, 0)
  else
    let! filesize := on_core (load32 (stat + stat_filesize)) in
    let! p := on_core (alloc filesize) in
    on_core (store32 (elf_file_obj + ef_elf_memory) p) ;;;
    let! memory := on_core (load32 (elf_file_obj + ef_elf_memory)) in
    let! res := fread ops memory filesize 1 fd in
    if res <? 0 then ret (res, 0)
    else
      let! res := on_memory (elf_process_loaded elf_file_obj) in
      if res <? 0 then ret (res, 0) else ret (res, elf_file_obj).

Definition elf_load (fuel : nat) (stat filename : Z) : M vfs (Z * Z) :=
  let! elf_file_obj := on_core (alloc sizeof_elf_file) in
  let! res := fopen ops disk_obj fuel filename (at_list [114; 0]) in
  if res <=? 0 then
    (* closing the descriptor 0 *)
    fclose ops 0 ;;; ret (- EIO, 0)
  else
    let! r := elf_load_body elf_file_obj stat res in
    fclose ops res ;;; ret r.

Definition elf_close (file : Z) (m : mem) : mem :=
  if file =? 0 then m
  else ka_free file (ka_free (ld32 m (file + ef_elf_memory)) m).

End files.

(** ** Specification *)

Record segment : Type := {
  seg_type : Z; seg_offset : Z; seg_vaddr : Z; seg_filesz : Z; seg_memsz : Z; seg_flags : Z }.
Definition segment_at (m : mem) (p : Z) : segment :=
  {| seg_type := ld32 m (p + p_type); seg_offset := i32 (ld32 m (p + p_offset));
     seg_vaddr := ld32 m (p + p_vaddr); seg_filesz := ld32 m (p + p_filesz);
     seg_memsz := ld32 m (p + p_memsz); seg_flags := ld32 m (p + p_flags) |}.

(** The program headers of the image at [h], and the loadable ones among the
    first [n]. *)
Definition phdr_addr (m : mem) (h i : Z) : Z := elf_pheader h m + i * sizeof_phdr.
Definition seg (m : mem) (h i : Z) : segment := segment_at m (phdr_addr m h i).
Definition load_below (m : mem) (h n i : Z) : Prop :=
  0 <= i < n /\ seg_type (seg m h i) = PT_LOAD.

(** The header table of the image does not wrap, and the object [f] does not
    overlap it or the header. *)
Record image_ok (m : mem) (f h : Z) : Prop := {
  io_header : elf_header f m = h;
  io_table : 0 <= elf_pheader h m /\
    elf_pheader h m + ld16 m (h + e_phnum) * sizeof_phdr <= 4294967296;
  io_apart : forall a, h <= a < h + 52 \/
      elf_pheader h m <= a < elf_pheader h m + ld16 m (h + e_phnum) * sizeof_phdr ->
    a < f \/ f + sizeof_elf_file <= a }.

(** The bounds kept in the object after the loadable headers among the first
    [n]: zero if there was none, otherwise the least start and the greatest
    end, each with the image address of the header it came from. *)
Definition start_of (s : segment) (mem_ : Z) : Z * Z :=
  (seg_vaddr s, u32 (mem_ + seg_offset s)).
Definition end_of (s : segment) (mem_ : Z) : Z * Z :=
  (seg_vaddr s + seg_filesz s, u32 (mem_ + seg_offset s + seg_filesz s)).
Definition extreme (le : Z -> Z -> Prop) (at_ : segment -> Z -> Z * Z) (m0 : mem) (h n : Z)
    (x : Z * Z) : Prop :=
  (forall i, load_below m0 h n i -> le (fst x) (fst (at_ (seg m0 h i) h))) /\
  ((exists i, load_below m0 h n i /\ x = at_ (seg m0 h i) h) \/
   (forall i, ~ load_below m0 h n i) /\ fst x = 0).

(** ** Lemmas *)

(** What the loop never changes. *)
Definition only_object (f : Z) (m0 m : mem) : Prop :=
  forall a, a < f + ef_virtual_base_address \/ f + sizeof_elf_file <= a -> rd m a = rd m0 a.

Lemma only_object_ld32 f m0 m a :
  only_object f m0 m -> a + 4 <= f + ef_virtual_base_address \/ f + sizeof_elf_file <= a ->
  ld32 m a = ld32 m0 a.
Proof.
  unfold only_object, ef_virtual_base_address, sizeof_elf_file.
  intros Ho Ha. apply ld32_ext. intros i Hi. apply Ho. lia.
Qed.

Section loop.
Context (f h : Z) (m0 : mem) (Hio : image_ok m0 f h).

Lemma image_frame m : only_object f m0 m ->
  elf_header f m = h /\ elf_pheader h m = elf_pheader h m0 /\
  ld16 m (h + e_phnum) = ld16 m0 (h + e_phnum) /\
  forall i, 0 <= i < ld16 m0 (h + e_phnum) ->
    segment_at m (phdr_addr m0 h i) = seg m0 h i /\ elf_program_header h i m = phdr_addr m0 h i.
Proof.
  intros Ho. destruct Hio as [Hh Ht Ha]. unfold ef_virtual_base_address, sizeof_elf_file in *.
  assert (Hb : forall a, h <= a < h + 52 \/
      elf_pheader h m0 <= a < elf_pheader h m0 + ld16 m0 (h + e_phnum) * sizeof_phdr ->
      rd m a = rd m0 a).
  { intros a H. apply Ho. unfold ef_virtual_base_address, sizeof_elf_file.
    specialize (Ha a H). lia. }
  assert (Hph : elf_pheader h m = elf_pheader h m0).
  { unfold elf_pheader. rewrite (ld32_ext m0 m (h + e_phoff) (h + e_phoff)); [done|].
    intros i Hi. apply Hb. left. unfold e_phoff. lia. }
  split; [|split; [done|split]].
  - rewrite <- Hh. unfold elf_header. apply (only_object_ld32 f); [done|].
    unfold ef_elf_memory, ef_virtual_base_address. lia.
  - unfold ld16. rewrite !Hb by (left; unfold e_phnum; lia). done.
  - intros i Hi. unfold seg, phdr_addr. unfold sizeof_phdr in *. split.
    + unfold segment_at.
      assert (E : forall o, 0 <= o <= 28 ->
        ld32 m (elf_pheader h m0 + i * 32 + o) = ld32 m0 (elf_pheader h m0 + i * 32 + o)).
      { intros o Ho2. apply ld32_ext. intros j Hj. apply Hb. right. lia. }
      rewrite !E; [done|..]; unfold p_flags, p_memsz, p_filesz, p_vaddr, p_offset, p_type; lia.
    + unfold elf_program_header. rewrite Hph. apply u32_id.
      destruct Ht. unfold sizeof_phdr in *. lia.
Qed.

End loop.

(** One more header. *)
Lemma extreme_skip le at_ m0 h n x :
  0 <= n -> seg_type (seg m0 h n) <> PT_LOAD ->
  extreme le at_ m0 h n x -> extreme le at_ m0 h (n + 1) x.
Proof.
  intros Hn Hty [Hle Hex].
  assert (Hsame : forall i, load_below m0 h (n + 1) i <-> load_below m0 h n i).
  { unfold load_below. intros i. destruct (Z.eq_dec i n) as [->|]; [|lia].
    split; intros [? ?]; [done|lia]. }
  split; [intros i Hi; by apply Hle, Hsame|].
  destruct Hex as [(i & Hi & Hx)|[Hno Hx]].
  - left. exists i. by rewrite Hsame.
  - right. split; [|done]. intros i. by rewrite Hsame.
Qed.

(** [y] is the better of [x] and header [n]'s value; 0 counts as none. *)
Definition better (le : Z -> Z -> Prop) at_ m0 h n (x y : Z * Z) : Prop :=
  (le (fst (at_ (seg m0 h n) h)) (fst x) \/ fst x = 0) /\ y = at_ (seg m0 h n) h \/
  ~ le (fst (at_ (seg m0 h n) h)) (fst x) /\ fst x <> 0 /\ y = x.

Lemma extreme_step (le : Z -> Z -> Prop) at_ m0 h n x y :
  (forall a, le a a) -> (forall a b c, le a b -> le b c -> le a c) ->
  (forall a b, ~ le a b -> le b a) ->
  0 <= n -> seg_type (seg m0 h n) = PT_LOAD ->
  (forall i, load_below m0 h n i -> fst (at_ (seg m0 h i) h) <> 0) ->
  better le at_ m0 h n x y -> extreme le at_ m0 h n x -> extreme le at_ m0 h (n + 1) y.
Proof.
  intros Hrefl Htrans Htot Hn Hty Hnz Hy [Hle Hex].
  assert (Hcase : forall i, load_below m0 h (n + 1) i -> i = n \/ load_below m0 h n i).
  { unfold load_below. intros i [? ?]. destruct (Z.eq_dec i n); [by left|right]. split; [lia|done]. }
  assert (Hself : load_below m0 h (n + 1) n) by (split; [lia|done]).
  destruct Hy as [[Hbetter ->]|(Hworse & Hx0 & ->)].
  - split; [|left; by exists n]. intros i [->|Hi]%Hcase; [done|].
    destruct Hbetter as [Hb|H0]; [by eapply Htrans; [exact Hb|apply Hle]|].
    destruct Hex as [(j & Hj & Hx)|[Hno _]]; [|by exfalso; apply (Hno i)].
    exfalso. apply (Hnz j Hj). by rewrite <- Hx.
  - split; [intros i [->|Hi]%Hcase; [by apply Htot|by apply Hle]|].
    destruct Hex as [(i & Hi & Hx)|[_ Hx]]; [|done].
    left. exists i. split; [|done]. destruct Hi. split; [lia|done].
Qed.

Section pheaders.
Context (f h : Z) (m0 : mem) (Hio : image_ok m0 f h).
(** No loadable segment starts at or ends at 0, and none wraps. *)
Context (Hnz : forall i, load_below m0 h (ld16 m0 (h + e_phnum)) i ->
  0 < seg_vaddr (seg m0 h i) /\ seg_vaddr (seg m0 h i) + seg_filesz (seg m0 h i) < 4294967296).

Ltac obj := unfold ef_elf_memory, ef_virtual_base_address, ef_virtual_end_address,
  ef_physical_base_address, ef_physical_end_address, sizeof_elf_file in *.

(** The fields of header [n] as an intermediate memory shows them. *)
Lemma header_fields m n : only_object f m0 m -> 0 <= n < ld16 m0 (h + e_phnum) ->
  ld32 m (phdr_addr m0 h n + p_type) = seg_type (seg m0 h n) /\
  ld32 m (phdr_addr m0 h n + p_vaddr) = seg_vaddr (seg m0 h n) /\
  i32 (ld32 m (phdr_addr m0 h n + p_offset)) = seg_offset (seg m0 h n) /\
  ld32 m (phdr_addr m0 h n + p_filesz) = seg_filesz (seg m0 h n) /\
  elf_memory f m = h.
Proof.
  intros Ho Hn. destruct (image_frame f h m0 Hio m Ho) as (He & _ & _ & Hseg).
  destruct (Hseg n Hn) as [Hs _]. rewrite <- Hs. by repeat split.
Qed.

Lemma only_object_st32 m o v : only_object f m0 m -> 116 <= o <= 128 ->
  only_object f m0 (st32 m (f + o) v).
Proof. intros Ho Hr a Ha. obj. rewrite rd_st32_ne by lia. apply Ho. obj. lia. Qed.

Lemma update_base_spec m n : only_object f m0 m -> 0 <= n < ld16 m0 (h + e_phnum) ->
  seg_type (seg m0 h n) = PT_LOAD ->
  extreme Z.le start_of m0 h n (elf_virtual_base f m, elf_phys_base f m) ->
  let m' := update_base f (phdr_addr m0 h n) m in
  only_object f m0 m' /\
  extreme Z.le start_of m0 h (n + 1) (elf_virtual_base f m', elf_phys_base f m') /\
  elf_virtual_end f m' = elf_virtual_end f m /\ elf_phys_end f m' = elf_phys_end f m.
Proof.
  intros Ho Hn Hty Hext m'. destruct (header_fields m n Ho Hn) as (_ & Hv & _ & _ & _).
  assert (Hbound : 0 <= seg_vaddr (seg m0 h n) < 4294967296) by (rewrite <- Hv; auto with mem).
  assert (Hstep : forall y, better Z.le start_of m0 h n
      (elf_virtual_base f m, elf_phys_base f m) y -> extreme Z.le start_of m0 h (n + 1) y).
  { intros y Hy. apply (extreme_step Z.le start_of m0 h n (elf_virtual_base f m, elf_phys_base f m) y); [lia|lia|lia|lia|done| |exact Hy|exact Hext].
    intros i [Hi Hit]. assert (load_below m0 h (ld16 m0 (h + e_phnum)) i) as Hl by (split; [lia|done]).
    destruct (Hnz i Hl). cbn [fst start_of]. lia. }
  subst m'. unfold update_base. rewrite Hv.
  set (base := ld32 m (f + ef_virtual_base_address)).
  destruct ((seg_vaddr (seg m0 h n) <=? base) || (base =? 0)) eqn:Hc.
  - set (m1 := st32 m (f + ef_virtual_base_address) _).
    assert (Ho1 : only_object f m0 m1) by (apply only_object_st32; [done|obj; lia]).
    destruct (header_fields m1 n Ho1 Hn) as (_ & _ & Hoff & _ & ->). rewrite Hoff.
    split; [apply only_object_st32; [done|obj; lia]|]. split; [|split].
    + unfold elf_virtual_base, elf_phys_base. apply Hstep. left. split.
      * cbn [fst]. apply orb_true_iff in Hc as [Hc|Hc];
          [left; by apply Z.leb_le in Hc|right; by apply Z.eqb_eq in Hc].
      * rewrite ld32_st32_eq. rewrite ld32_st32_ne by (obj; lia). unfold m1.
        rewrite ld32_st32_eq, u32_id by done. done.
    + unfold elf_virtual_end, m1. by rewrite !ld32_st32_ne by (obj; lia).
    + unfold elf_phys_end, m1. by rewrite !ld32_st32_ne by (obj; lia).
  - split; [done|]. split; [|done]. apply Hstep. right. apply orb_false_iff in Hc as [H1 H2].
    apply Z.leb_gt in H1. apply Z.eqb_neq in H2. change (elf_virtual_base f m) with base. cbn [fst start_of end_of]. split; [lia|split; [lia|done]].
Qed.

Lemma update_end_spec m n : only_object f m0 m -> 0 <= n < ld16 m0 (h + e_phnum) ->
  seg_type (seg m0 h n) = PT_LOAD ->
  extreme Z.ge end_of m0 h n (elf_virtual_end f m, elf_phys_end f m) ->
  let m' := update_end f (phdr_addr m0 h n) m in
  only_object f m0 m' /\
  extreme Z.ge end_of m0 h (n + 1) (elf_virtual_end f m', elf_phys_end f m') /\
  elf_virtual_base f m' = elf_virtual_base f m /\ elf_phys_base f m' = elf_phys_base f m.
Proof.
  intros Ho Hn Hty Hext m'. destruct (header_fields m n Ho Hn) as (_ & Hv & _ & Hz & _).
  assert (load_below m0 h (ld16 m0 (h + e_phnum)) n) as Hl by (split; [lia|done]).
  destruct (Hnz n Hl) as [Hv0 Hend].
  assert (Hz0 : 0 <= seg_filesz (seg m0 h n)) by (rewrite <- Hz; apply ld32_range).
  assert (Hstep : forall y, better Z.ge end_of m0 h n
      (elf_virtual_end f m, elf_phys_end f m) y -> extreme Z.ge end_of m0 h (n + 1) y).
  { intros y Hy. apply (extreme_step Z.ge end_of m0 h n (elf_virtual_end f m, elf_phys_end f m) y); [lia|lia|lia|lia|done| |exact Hy|exact Hext].
    intros i [Hi Hit]. assert (load_below m0 h (ld16 m0 (h + e_phnum)) i) as Hl' by (split; [lia|done]).
    destruct (Hnz i Hl'). pose proof (ld32_range m0 (phdr_addr m0 h i + p_filesz) : 0 <= seg_filesz (seg m0 h i) < _).
    cbn [fst end_of]. lia. }
  subst m'. unfold update_end. rewrite Hv, Hz. rewrite (u32_id (_ + _)) by lia.
  set (end_ := ld32 m (f + ef_virtual_end_address)).
  destruct ((end_ <=? _) || (end_ =? 0)) eqn:Hc.
  - set (m1 := st32 m (f + ef_virtual_end_address) _).
    assert (Ho1 : only_object f m0 m1) by (apply only_object_st32; [done|obj; lia]).
    destruct (header_fields m1 n Ho1 Hn) as (_ & _ & -> & -> & ->).
    split; [apply only_object_st32; [done|obj; lia]|]. split; [|split].
    + unfold elf_virtual_end, elf_phys_end. apply Hstep. left. split.
      * cbn [fst]. apply orb_true_iff in Hc as [Hc|Hc];
          [left; apply Z.leb_le in Hc; cbn [fst end_of]; change (elf_virtual_end f m) with end_; lia|right; by apply Z.eqb_eq in Hc].
      * rewrite ld32_st32_eq. rewrite ld32_st32_ne by (obj; lia). unfold m1.
        rewrite ld32_st32_eq, u32_id by lia. done.
    + unfold elf_virtual_base, m1. by rewrite !ld32_st32_ne by (obj; lia).
    + unfold elf_phys_base, m1. by rewrite !ld32_st32_ne by (obj; lia).
  - split; [done|]. split; [|done]. apply Hstep. right. apply orb_false_iff in Hc as [H1 H2].
    apply Z.leb_gt in H1. apply Z.eqb_neq in H2. change (elf_virtual_end f m) with end_. cbn [fst start_of end_of]. split; [lia|split; [lia|done]].
Qed.

(** The bounds after the first [n] headers. *)
Definition bounds_at (n : Z) (m : mem) : Prop :=
  only_object f m0 m /\
  extreme Z.le start_of m0 h n (elf_virtual_base f m, elf_phys_base f m) /\
  extreme Z.ge end_of m0 h n (elf_virtual_end f m, elf_phys_end f m).

Lemma pheaders_loop fuel : forall n m, 0 <= n <= ld16 m0 (h + e_phnum) ->
  ld16 m0 (h + e_phnum) - n < Z.of_nat fuel -> bounds_at n m ->
  exists m', process_pheaders_loop fuel f h n 0 m = (0, m') /\
    bounds_at (ld16 m0 (h + e_phnum)) m'.
Proof.
  induction fuel as [|fuel IH]; intros n m Hn Hf Hb; [lia|].
  cbn [process_pheaders_loop]. pose proof Hb as (Ho & Hst & Hen).
  destruct (image_frame f h m0 Hio m Ho) as (_ & _ & -> & Hseg).
  destruct (Z.ltb_spec n (ld16 m0 (h + e_phnum))) as [Hlt|]; [|].
  2:{ replace n with (ld16 m0 (h + e_phnum)) in * by lia. eauto. }
  destruct (Hseg n ltac:(lia)) as [_ ->]. unfold elf_process_pheader.
  destruct (header_fields m n Ho ltac:(lia)) as (-> & _).
  destruct (Z.eqb_spec (seg_type (seg m0 h n)) PT_LOAD) as [Hty|Hty]; cbn.
  - destruct (update_base_spec m n Ho ltac:(lia) Hty Hst) as (Ho1 & Hst1 & He1 & He2).
    rewrite <- He1, <- He2 in Hen.
    destruct (update_end_spec _ n Ho1 ltac:(lia) Hty Hen) as (Ho2 & Hen2 & Hs1 & Hs2).
    rewrite <- Hs1, <- Hs2 in Hst1. apply IH; [lia|lia|by split].
  - apply IH; [lia|lia|]. split; [done|]. split; (apply extreme_skip; [lia|done|done]).
Qed.

End pheaders.

Lemma valid_signature_iff h m :
  elf_valid_signature h m = true <-> bytes m h 4 = elf_signature.
Proof.
  unfold elf_valid_signature, memcmp. rewrite Z.eqb_eq, memcmp_loop_lex.
  change (Z.to_nat 4) with 4%nat. change (seqZ 0 (Z.of_nat 4)) with [0; 1; 2; 3].
  replace (map (at_mem m h) [0; 1; 2; 3]) with (bytes m h 4).
  2:{ cbn [bytes map]. unfold at_mem. by rewrite Z.add_0_r, <- !Z.add_assoc. }
  change (map (at_list elf_signature) [0; 1; 2; 3]) with elf_signature.
  apply lex_cmp_eq0; [done|apply Forall_bytes|].
  repeat (constructor; [lia|]). constructor.
Qed.

(** ** Properties *)

(** An image is accepted exactly when it starts with the ELF signature, is
    of class none or 32-bit, of encoding none or little-endian, and has a
    program header table; everything else is [-EINFORMAT].  Nothing is
    checked of the entry point, the type or the table's extent. *)
Theorem elf_validate_cases h m :
  elf_validate_loaded h m =
    if bool_decide (bytes m h 4 = elf_signature /\ rd m (h + 4) <= 1 /\ rd m (h + 5) <= 1 /\
                    ld32 m (h + e_phoff) <> 0)
    then OK else - EINFORMAT.
Proof.
  unfold elf_validate_loaded. pose proof (rd_range m (h + 4)). pose proof (rd_range m (h + 5)).
  assert (Hc : elf_valid_class h m = (rd m (h + 4) <=? 1)).
  { unfold elf_valid_class, e_ident, EI_CLASS, ELFCLASSNONE, ELFCLASS32. rewrite Z.add_0_r. zcases. }
  assert (He : elf_valid_encoding h m = (rd m (h + 5) <=? 1)).
  { unfold elf_valid_encoding, e_ident, EI_DATA, ELFDATANONE, ELFDATA2LSB. rewrite Z.add_0_r. zcases. }
  assert (Hp : elf_has_program_header h m = negb (ld32 m (h + e_phoff) =? 0)).
  { unfold elf_has_program_header. f_equal. pose proof (ld32_range m (h + e_phoff)).
    unfold i32. zcases; case_bools; dlia. }
  rewrite Hc, He, Hp. case_bool_decide as Hb.
  - destruct Hb as (Hs & H1 & H2 & H3). apply valid_signature_iff in Hs. rewrite Hs. zcases.
  - destruct (elf_valid_signature h m) eqn:Hs; [|done]. apply valid_signature_iff in Hs.
    zcases. exfalso. by apply Hb.
Qed.

(** [elf_process_pheaders] computes the extent of the loadable segments:
    starting from a zeroed object, with at least one loadable header, the
    virtual base is the least segment start and the virtual end the greatest
    segment end, each paired with the address in the image of a segment that
    attains it, and only those four fields of the object change. *)
Theorem elf_process_pheaders_extent f h m :
  image_ok m f h ->
  (forall i, load_below m h (ld16 m (h + e_phnum)) i ->
     0 < seg_vaddr (seg m h i) /\ seg_vaddr (seg m h i) + seg_filesz (seg m h i) < 4294967296) ->
  (exists i, load_below m h (ld16 m (h + e_phnum)) i) ->
  elf_virtual_base f m = 0 -> elf_virtual_end f m = 0 ->
  exists m', elf_process_pheaders f m = (0, m') /\
    (forall i, load_below m h (ld16 m (h + e_phnum)) i ->
       elf_virtual_base f m' <= seg_vaddr (seg m h i) /\
       seg_vaddr (seg m h i) + seg_filesz (seg m h i) <= elf_virtual_end f m') /\
    (exists i, load_below m h (ld16 m (h + e_phnum)) i /\
       elf_virtual_base f m' = seg_vaddr (seg m h i) /\
       elf_phys_base f m' = u32 (h + seg_offset (seg m h i))) /\
    (exists i, load_below m h (ld16 m (h + e_phnum)) i /\
       elf_virtual_end f m' = seg_vaddr (seg m h i) + seg_filesz (seg m h i) /\
       elf_phys_end f m' = u32 (h + seg_offset (seg m h i) + seg_filesz (seg m h i))) /\
    (forall a, a < f + 116 \/ f + 132 <= a -> rd m' a = rd m a).
Proof.
  intros Hio Hnz [i0 Hi0] Hb He. unfold elf_process_pheaders. rewrite (io_header _ _ _ Hio).
  pose proof (ld16_range m (h + e_phnum)).
  destruct (pheaders_loop f h m Hio Hnz (Z.to_nat 65536) 0 m) as (m' & -> & Ho & [Hs1 Hs2] & [He1 He2]);
    [lia|lia| |].
  { split; [done|].
    split; split; try (intros i [? _]; lia); right; (split; [intros i [? _]; lia|done]). }
  exists m'. split; [done|]. split; [|split; [|split; [|exact Ho]]].
  - intros i Hi. specialize (Hs1 i Hi). specialize (He1 i Hi). cbn [fst start_of end_of] in *. lia.
  - destruct Hs2 as [(i & Hi & [= E1 E2])|[Hno _]]; [eauto|by apply Hno in Hi0].
  - destruct He2 as [(i & Hi & [= E1 E2])|[Hno _]]; [eauto|by apply Hno in Hi0].
Qed.

(** ** Witnesses *)

(** A two-segment image at 0x10000 (code at 0x400000, data at 0x402000) and an
    object at 0x20000. *)
Definition example_image : mem :=
  let m := store_bytes ∅ 0x10000 [0x7f; 69; 76; 70; 1; 1] in
  let m := st16 (st32 m (0x10000 + e_phoff) 52) (0x10000 + e_phnum) 2 in
  let m := st32 (st32 m (0x10000 + 52) PT_LOAD) (0x10000 + 56) 0x1000 in
  let m := st32 (st32 m (0x10000 + 60) 0x400000) (0x10000 + 68) 0x800 in
  let m := st32 (st32 m (0x10000 + 84) PT_LOAD) (0x10000 + 88) 0x3000 in
  let m := st32 (st32 m (0x10000 + 92) 0x402000) (0x10000 + 100) 0x100 in
  st32 m (0x20000 + ef_elf_memory) 0x10000.

Lemma elf_process_pheaders_extent_witness :
  exists m', elf_process_pheaders 0x20000 example_image = (0, m') /\
    exists i, load_below example_image 0x10000 2 i /\
       elf_virtual_base 0x20000 m' = seg_vaddr (seg example_image 0x10000 i).
Proof.
  assert (Hn : ld16 example_image (0x10000 + e_phnum) = 2) by (vm_compute; reflexivity).
  destruct (elf_process_pheaders_extent 0x20000 0x10000 example_image)
    as (m' & E & _ & (i & Hi & Hb & _) & _).
  - split; rewrite ?Hn; [vm_compute; reflexivity|split; vm_compute; [discriminate|discriminate]|].
    change (elf_pheader 0x10000 example_image) with (0x10000 + 52).
    unfold sizeof_phdr, sizeof_elf_file. lia.
  - rewrite Hn. intros i [Hi _]. assert (i = 0 \/ i = 1) as [-> | ->] by lia; vm_compute; done.
  - rewrite Hn. exists 0. split; [lia|vm_compute; reflexivity].
  - vm_compute; reflexivity.
  - vm_compute; reflexivity.
  - rewrite Hn in Hi. eauto.
Defined.
