(* ===== verification/Load.v ===== *)
(** * Loading a program's image: [elf_load], [process_load_binary], [process_load_data]

    How the loaders of [src/loader/formats/elfloader.c] and
    [src/task/process.c] get a program's bytes through the file layer: open the
    path, ask for the size, allocate, read everything, look at the bytes,
    close.  The memory they leave is described from the file's bytes alone. *)
From S2P Require Import Prelude Config Memory CString Heap KHeap Terminal PathParser Disk Fat16 File Fat16Facts Lookup Open Elf.

(** ** Specification *)

(** Between [s] and [s'] blocks were added, and of what the caller owned only
    the bytes in [W] changed. *)
Record since `{KAllocator} (W : Z -> Prop) (s s' : fs) : Prop := {
  si_ok : heap_ok (fmem s');
  si_live : forall q t, live (fmem s) q t -> live (fmem s') q t;
  si_bytes : forall a, owned (fmem s) a -> ~ W a -> rd (fmem s') a = rd (fmem s) a;
  si_disk : the_disk s' = the_disk s;
  si_streams : forall p, has_stream s p -> has_stream s' p }.

(** The caller's bytes the file system relies on: the volume, its root
    directory, the open descriptors. *)
Definition system_byte (root : list (list Z)) (v : vfs) (a : Z) : Prop :=
  let s := core v in
  let items := ld32 (fmem s) (priv s + fp_root_directory + dir_item) in
  priv s <= a < priv s + sizeof_fat_private \/
  items <= a < items + 32 * Z.of_nat (length root) \/
  exists p, p ∈ file_descriptors v /\ p <> 0 /\ p <= a < p + 4096.

(** What [fstat] says of an entry. *)
Definition entry_size (e : list Z) : Z := half_at e item_filesize + 65536 * half_at e (item_filesize + 2).

(** Words of a file. *)
Definition file_word (l : list Z) (i : Z) : Z := half_at l i + 65536 * half_at l (i + 2).

(** ** Lemmas *)

Section since.
Context `{KAllocator} (W : Z -> Prop).

Lemma since_refl s : heap_ok (fmem s) -> since W s s.
Proof. by split. Qed.

Lemma since_grown s s' : grown s s' -> since W s s'.
Proof. intros [H1 H2 H3 H4 H5]. split; auto. Qed.

Lemma since_owned s s' a : since W s s' -> owned (fmem s) a -> owned (fmem s') a.
Proof. intros Hs. apply owned_ext, Hs. Qed.

Lemma since_trans s1 s2 s3 : since W s1 s2 -> since W s2 s3 -> since W s1 s3.
Proof.
  intros H1 H2. split; [by apply H2| | | |].
  - intros q t Hq. by apply H2, H1.
  - intros a Ha Hw. rewrite (si_bytes _ _ _ H2); [by apply H1|by apply (since_owned s1)|done].
  - rewrite (si_disk _ _ _ H2). apply H1.
  - intros p Hp. by apply H2, H1.
Qed.

Lemma since_more (W' : Z -> Prop) s s' : (forall a, W a -> W' a) -> since W s s' -> since W' s s'.
Proof. intros Hw [H1 H2 H3 H4 H5]. split; auto. Qed.

(** Writes into memory the caller did not own, or in [W]. *)
Lemma since_edit s s1 s2 : since W s s1 ->
  (forall a, meta a -> rd (fmem s2) a = rd (fmem s1) a) ->
  (forall a, owned (fmem s) a -> ~ W a -> rd (fmem s2) a = rd (fmem s1) a) ->
  the_disk s2 = the_disk s1 -> (forall q, has_stream s1 q -> has_stream s2 q) ->
  since W s s2 /\ (forall q t, live (fmem s2) q t <-> live (fmem s1) q t) /\
  (forall n, room (fmem s1) n -> room (fmem s2) n).
Proof.
  intros [H1 H2 H3 H4 H5] Hm Ho Hd Hst. destruct (meta_frame (fmem s1) (fmem s2) H1 Hm) as (Hok & Hlv & Hr).
  split; [|done]. split; [done| | | |].
  - intros q t Hq. by apply Hlv, H2.
  - intros a Ha Hw. rewrite Ho by done. by apply H3.
  - by rewrite Hd.
  - intros p Hp. by apply Hst, H5.
Qed.

(** Blocks added since are given back. *)
Lemma since_drop s s1 m2 (bs : list Z) : since W s s1 -> heap_ok m2 ->
  (forall q t, live m2 q t <-> live (fmem s1) q t /\ q ∉ bs) ->
  (forall b q t, b ∈ bs -> live (fmem s) q t -> q <> b) ->
  (forall a, ~ meta a -> rd m2 a = rd (fmem s1) a) -> since W s (with_mem m2 s1).
Proof.
  intros [H1 H2 H3 H4 H5] Hok Hlv Hn Ho. split; cbn [fmem with_mem the_disk]; try done.
  - intros q t Hq. apply Hlv. split; [by apply H2|]. intros Hin. by apply (Hn q q t).
  - intros a Ha Hw. rewrite Ho by apply Ha. by apply H3.
Qed.

End since.

Section system.
Context `{KAllocator} (image : Z -> Z) (fat16_fs : Z) (W : Z -> Prop) (root : list (list Z)) (v : vfs).
Hypothesis Hsys : system_ok fat16_fs root v.
Hypothesis Hclear : forall a, system_byte root v a -> ~ W a.

(** The mounted volume is the same. *)
Lemma since_kept s : since W (core v) s -> kept (core v) s.
Proof.
  intros [H1 H2 H3 H4 H5]. split; [|done|done]. intros a Ha.
  apply H3; [by apply (vo_owned _ (so_volume _ _ _ Hsys))|]. apply Hclear. by left.
Qed.

Lemma since_volume s : since W (core v) s -> volume_ok s.
Proof.
  intros Hs. pose proof (since_kept s Hs) as Hk. destruct (so_volume _ _ _ Hsys) as [H1 H2 H3 H4].
  split; [by apply (kept_mounted (core v))|by apply (kept_geometry_ok (core v))| |apply Hs].
  unfold volume_owned, priv. rewrite (si_disk _ _ _ Hs). intros a Ha. by apply (since_owned W (core v)), H3.
Qed.

Lemma since_descriptor s p a : since W (core v) s -> p ∈ file_descriptors v -> p <> 0 -> p <= a < p + 4096 ->
  rd (fmem s) a = rd (fmem (core v)) a.
Proof.
  intros Hs Hp Hp0 Ha. pose proof Hp as [i Hi]%list_elem_of_lookup.
  destruct (ft_desc _ (so_table _ _ _ Hsys) i p Hi Hp0) as [Hl _]. apply (si_bytes _ _ _ Hs).
  - by apply (owned_live (fmem (core v)) p 4096).
  - apply Hclear. right; right. by exists p.
Qed.

Lemma since_root s : since W (core v) s ->
  ld32 (fmem s) (priv (core v) + fp_root_directory + dir_item) =
  ld32 (fmem (core v)) (priv (core v) + fp_root_directory + dir_item).
Proof.
  intros Hs. apply ld32_ext. intros i Hi. apply (kp_mem _ _ (since_kept s Hs)).
  unfold dir_item, fp_root_directory, sizeof_fat_private. lia.
Qed.

Lemma since_system_byte v' a : since W (core v) (core v') -> file_descriptors v' = file_descriptors v ->
  system_byte root v' a -> system_byte root v a.
Proof.
  intros Hs Ed. unfold system_byte, priv. rewrite Ed, (si_disk _ _ _ Hs). fold (priv (core v)). cbv zeta.
  by rewrite since_root.
Qed.

(** The system with the descriptor table it had. *)
Lemma since_system v' : since W (core v) (core v') -> file_descriptors v' = file_descriptors v ->
  system_ok fat16_fs root v'.
Proof.
  intros Hs Ed. pose proof (since_kept _ Hs) as Hk. destruct Hsys as [H1 H2 [H3 [H4 H5]] H6].
  assert (Ep : priv (core v') = priv (core v)) by (unfold priv; by rewrite (si_disk _ _ _ Hs)).
  assert (Hb : forall a, priv (core v) + fp_root_directory <= a < priv (core v) + fp_root_directory + 16 ->
    rd (fmem (core v')) a = rd (fmem (core v)) a).
  { intros a Ha. apply (kp_mem _ _ Hk). unfold fp_root_directory, sizeof_fat_private in *. lia. }
  pose proof (since_root _ Hs) as Ei.
  split; [by apply since_volume|by rewrite (si_disk _ _ _ Hs)| |].
  - rewrite Ep. split; [apply (dir_in_frame (fmem (core v))); [done|exact Hb|]|split].
    + intros a Ha. apply (si_bytes _ _ _ Hs); [by apply H5|]. apply Hclear. by right; left.
    + intros a Ha. by apply (since_owned W (core v)), H4.
    + rewrite Ei. intros a Ha. by apply (since_owned W (core v)), H5.
  - destruct H6 as [T1 T2 T3]. split; rewrite ?Ed; [done| |done].
    intros i p Hi Hp. destruct (T2 i p Hi Hp) as [Hl Hx]. split; [by apply Hs|]. rewrite <- Hx.
    apply ld32_ext. intros j Hj. apply (since_descriptor _ p); [done|by eapply list_elem_of_lookup_2|done|unfold desc_index; lia].
Qed.

End system.

Lemma since_path `{KAllocator} W s s' filename l rest : since W s s' -> path_string s filename l rest ->
  (forall a, filename <= a < filename + Z.of_nat (length l) + 1 -> ~ W a) -> path_string s' filename l rest.
Proof.
  intros Hs [H1 H2 H3 H4 H5] Hw. split; [|done|done|done|].
  - eapply cstr_ext; [|exact H1]. intros i Hi. apply (si_bytes _ _ _ Hs); [apply H5; lia|apply Hw; lia].
  - intros a Ha. by apply (since_owned W s), H5.
Qed.

(** ** The bytes of a program *)

(** What [elf_validate_loaded] accepts. *)
Definition is_elf (l : list Z) : bool :=
  bool_decide (take 4 l = elf_signature) && (item_byte l 4 <=? 1) && (item_byte l 5 <=? 1) &&
  negb (file_word l e_phoff =? 0).

(** A file on the volume, by its path: the code finds the entry [e] and can
    read all [size] bytes of it. *)
Set Implicit Arguments.
Record program_file `{KAllocator} (image : Z -> Z) (root : list (list Z)) (v : vfs) (filename : Z)
    (name rest e : list Z) (size : Z) : Prop := {
  pg_path : path_string (core v) filename name rest;
  pg_good : path_good image (core v) root (split_path rest);
  pg_found : locate image (core v) root (split_path rest) = Found e;
  pg_file : is_dir e = false;
  pg_size : entry_size e = size;
  pg_range : 52 <= size < 2147483648;
  pg_chain : chain_ok image (core v) (entry_cluster e) (Z.to_nat ((size - 1) / cluster_bytes (core v))) }.
Unset Implicit Arguments.
Definition program_bytes (image : Z -> Z) (v : vfs) (e : list Z) : list Z :=
  file_bytes image (core v) (entry_cluster e) 0 (entry_size e).

(** Free blocks that opening a path of [parts] takes, with [n] left over. *)
Definition open_room (root parts : list (list Z)) (n : nat) : nat :=
  S (S (3 * length root + (48 * length parts + S n)) + length parts * 2).

(** A block of [n] bytes added since. *)
Record new_block `{KAllocator} (s s' : fs) (p n : Z) : Prop := {
  nb_live : live (fmem s') p n;
  nb_new : forall q t, live (fmem s) q t -> q <> p }.

(** The object [f] points to a block [h] that holds the file [l]. *)
Record file_in_memory `{KAllocator} (s s' : fs) (f h : Z) (l : list Z) : Prop := {
  fm_object : new_block s s' f 4096;
  fm_image : new_block s s' h (span (Z.of_nat (length l)));
  fm_distinct : f <> h;
  fm_page : page f /\ page h;
  fm_pointer : ld32 (fmem s') (f + ef_elf_memory) = h;
  fm_bytes : bytes (fmem s') h (length l) = l }.

(** ** Lemmas: bytes of the image *)

Lemma bytes_item m h n l i : bytes m h n = l -> 0 <= i < Z.of_nat n -> rd m (h + i) = item_byte l i.
Proof.
  intros <- Hi. unfold item_byte. rewrite bytes_lookup by lia. cbn. by rewrite Z2Nat.id by lia.
Qed.

Lemma bytes_half m h n l i : bytes m h n = l -> 0 <= i -> i + 2 <= Z.of_nat n -> ld16 m (h + i) = half_at l i.
Proof.
  intros Hb H0 Hi. unfold ld16, half_at. rewrite <- Z.add_assoc, !(bytes_item m h n l) by (done || lia). lia.
Qed.

Lemma bytes_word m h n l i : bytes m h n = l -> 0 <= i -> i + 4 <= Z.of_nat n -> ld32 m (h + i) = file_word l i.
Proof.
  intros Hb H0 Hi. unfold file_word. rewrite <- !(bytes_half m h n l) by (done || lia). unfold ld32, ld16.
  replace (h + (i + 2)) with (h + i + 2) by lia. replace (h + i + 2 + 1) with (h + i + 3) by lia. lia.
Qed.

Lemma validate_bytes m h n l : bytes m h n = l -> (52 <= n)%nat ->
  elf_validate_loaded h m = if is_elf l then OK else - EINFORMAT.
Proof.
  intros Hb Hn. rewrite elf_validate_cases. unfold is_elf.
  rewrite (bytes_item m h n l 4), (bytes_item m h n l 5), (bytes_word m h n l e_phoff)
    by (done || (unfold e_phoff; lia)).
  assert (E : bytes m h 4 = take 4 l).
  { rewrite <- Hb. replace n with (4 + (n - 4))%nat by lia. rewrite bytes_app.
    by rewrite take_app_length' by (by rewrite length_bytes). }
  rewrite E. case_bool_decide as Hx.
  - destruct Hx as (-> & H1 & H2 & H3). rewrite bool_decide_true by done.
    rewrite (proj2 (Z.leb_le _ _) H1), (proj2 (Z.leb_le _ _) H2), (proj2 (Z.eqb_neq _ _) H3). done.
  - destruct (bool_decide (take 4 l = elf_signature)) eqn:E1; [|done]. apply bool_decide_eq_true in E1.
    destruct (Z.leb_spec (item_byte l 4) 1); [|done]. destruct (Z.leb_spec (item_byte l 5) 1); [|done].
    destruct (Z.eqb_spec (file_word l e_phoff) 0); [done|]. by destruct Hx.
Qed.

(** Processing the headers touches the object's bounds only. *)
Lemma pheaders_only f m0 fuel header : forall i m, only_object f m0 m ->
  exists m', process_pheaders_loop fuel f header i 0 m = (0, m') /\ only_object f m0 m'.
Proof.
  induction fuel as [|fuel IH]; intros i m Ho; cbn [process_pheaders_loop]; [eauto|].
  destruct (i <? ld16 m (header + e_phnum)); [|eauto]. unfold elf_process_pheader.
  destruct (ld32 m (elf_program_header header i m + p_type) =? PT_LOAD); cbn; [|by apply IH].
  apply IH. unfold update_end, update_base.
  destruct (_ || _); (destruct (_ || _)); repeat apply only_object_st32;
    unfold ef_virtual_base_address, ef_virtual_end_address, ef_physical_base_address, ef_physical_end_address; (done || lia).
Qed.

Lemma process_loaded_only f m h n l : elf_header f m = h -> bytes m h n = l -> (52 <= n)%nat ->
  exists m', elf_process_loaded f m = ((if is_elf l then 0 else - EINFORMAT), m') /\ only_object f m m'.
Proof.
  intros Hh Hb Hn. unfold elf_process_loaded. rewrite Hh, (validate_bytes m h n l Hb Hn).
  destruct (is_elf l); [|by exists m]. change (OK <? 0) with false. cbv iota. apply pheaders_only. done.
Qed.

(** Bytes of a new block are nothing the caller owned. *)
Lemma new_unowned `{KAllocator} W s s' p n a : since W s s' -> new_block s s' p n -> p <= a < p + n ->
  ~ meta a /\ ~ owned (fmem s) a.
Proof.
  intros Hs [Hl Hn] Ha. split; [by apply (live_block _ _ _ Hl)|]. intros Ho.
  pose proof (owned_fresh (fmem s) (fmem s') p n a (si_live _ _ _ Hs) Hl Hn Ho). lia.
Qed.

Lemma block_distinct `{KAllocator} m p n q t : live m p n -> live m q t -> p <> q -> p + n <= q \/ q + t <= p.
Proof. intros Hp Hq Hne. by destruct (live_disjoint _ _ _ _ _ Hp Hq) as [[? _]|?]. Qed.

(** ** Lemmas: a file being read *)

Section session.
Context `{KAllocator} (ops : Z -> option filesystem_ops) (fat16_fs : Z).
Context (dev : ata_device) (poll_fuel : nat) (image : Z -> Z) (stack_item : list Z).
Context (pfuel fuel rfuel : nat).
Hypothesis Hdrive : drive_ok dev poll_fuel image.
Hypothesis Hfuel : (16 < fuel)%nat.
Hypothesis Hrfuel : (0 < rfuel)%nat.
Hypothesis Hops : ops fat16_fs = Some (fat16_ops dev poll_fuel fat16_fs stack_item pfuel fuel rfuel).
Hypothesis Hfs : 0 < fat16_fs < 4294967296.
Context (W : Z -> Prop) (root : list (list Z)) (v0 : vfs) (i : Z) (e : list Z).
Hypothesis Hsys : system_ok fat16_fs root v0.
Hypothesis Hclear : forall a, system_byte root v0 a -> ~ W a.
Hypothesis Hnull : first_null (file_descriptors v0) 0 = Some i.
Hypothesis Hdir : is_dir e = false.

(** [v] is [v0] with the file opened, and more memory in use. *)
Set Implicit Arguments.
Record session (v : vfs) (desc pvt : Z) (bs : list Z) : Prop := {
  se_since : since W (core v0) (core v);
  se_open : open_file image fat16_fs v (i + 1) e desc pvt bs;
  se_table : fd_table_ok v;
  se_descs : file_descriptors v = <[Z.to_nat i := desc]> (file_descriptors v0);
  se_fresh : forall b, b ∈ desc :: pvt :: bs -> fresh_block (core v0) (core v) b }.
Unset Implicit Arguments.

Lemma session_kept v desc pvt bs s2 : session v desc pvt bs -> since W (core v0) s2 ->
  (forall q, has_stream (core v) q -> has_stream s2 q) -> kept (core v) s2.
Proof.
  intros [H1 _ _ _ _] H2 Hst. pose proof (since_kept fat16_fs W root v0 Hsys Hclear _ H1) as K1.
  pose proof (since_kept fat16_fs W root v0 Hsys Hclear _ H2) as K2. split; [| |done].
  - unfold priv. rewrite (kp_disk _ _ K1). intros a Ha. rewrite (kp_mem _ _ K2), (kp_mem _ _ K1); done.
  - by rewrite (kp_disk _ _ K2), (kp_disk _ _ K1).
Qed.

Lemma session_descriptor v desc pvt bs p : session v desc pvt bs -> p ∈ file_descriptors v ->
  p = desc \/ p ∈ file_descriptors v0.
Proof.
  intros Hse Hp. rewrite (se_descs Hse) in Hp. apply list_elem_of_lookup in Hp as [j Hj].
  destruct (decide (j = Z.to_nat i)) as [->|Hne].
  - apply list_lookup_insert_Some in Hj as [(_ & -> & _)|[? _]]; [by left|done].
  - rewrite list_lookup_insert_ne in Hj by done. right. by eapply list_elem_of_lookup_2.
Qed.

(** Writes away from what the file is made of. *)
Lemma session_edit v desc pvt bs s2 : session v desc pvt bs ->
  (forall a, meta a -> rd (fmem s2) a = rd (fmem (core v)) a) ->
  (forall a, owned (fmem (core v0)) a -> ~ W a -> rd (fmem s2) a = rd (fmem (core v)) a) ->
  (forall b a, b ∈ desc :: pvt :: bs -> b <= a < b + 4096 -> rd (fmem s2) a = rd (fmem (core v)) a) ->
  the_disk s2 = the_disk (core v) -> (forall q, has_stream (core v) q -> has_stream s2 q) ->
  session (with_core s2 v) desc pvt bs /\ (forall q t, live (fmem s2) q t <-> live (fmem (core v)) q t) /\
  (forall n, room (fmem (core v)) n -> room (fmem s2) n).
Proof.
  intros Hse Hm Ho Hb Hd Hst. pose proof Hse as [H1 H2 H3 H4 H5].
  destruct (since_edit W (core v0) (core v) s2 H1 Hm Ho Hd Hst) as (Hs2 & Hlv & Hr).
  split; [|done]. split; cbn [core with_core file_descriptors]; [done| | |done|].
  - apply open_file_frame; [done|by eapply session_kept|done|done].
  - apply fd_table_frame; [done|done|]. intros p a Hp Hp0 Ha.
    destruct (session_descriptor _ _ _ _ _ Hse Hp) as [->|Hin]; [apply (Hb desc); [by left|done]|].
    rewrite (since_descriptor fat16_fs W root v0 Hsys Hclear s2 p a Hs2 Hin Hp0 Ha).
    by rewrite (since_descriptor fat16_fs W root v0 Hsys Hclear (core v) p a H1 Hin Hp0 Ha).
  - intros b Hin. destruct (H5 b Hin) as [Hl Hn]. split; [by apply Hlv|done].
Qed.

(** More allocations. *)
Lemma session_grown v desc pvt bs s2 : session v desc pvt bs -> grown (core v) s2 ->
  session (with_core s2 v) desc pvt bs.
Proof.
  intros Hse Hg. pose proof Hse as [H1 [O1 O2 O3 O4 O5 O6 [Hnd Hl] O8] H3 H4 H5].
  assert (Hs2 : since W (core v0) s2) by (eapply since_trans; [done|by apply since_grown]).
  assert (Hk : kept (core v) s2) by (eapply session_kept; [done|done|apply Hg]).
  assert (Hb : forall b a, b ∈ desc :: pvt :: bs -> b <= a < b + 4096 -> rd (fmem s2) a = rd (fmem (core v)) a).
  { intros b a Hb Ha. apply Hg. apply (owned_live _ b 4096); [by apply Hl|done]. }
  assert (E : forall b k, b ∈ desc :: pvt :: bs -> 0 <= k <= 4092 -> ld32 (fmem s2) (b + k) = ld32 (fmem (core v)) (b + k)).
  { intros b k Hin Hk'. apply ld32_ext. intros j Hj. apply (Hb b); [done|lia]. }
  assert (Hd : desc ∈ desc :: pvt :: bs) by (by left).
  assert (Hp : pvt ∈ desc :: pvt :: bs) by (right; by left).
  split; cbn [core with_core file_descriptors]; [done| |by apply (fd_table_grown fuel rfuel)|done|].
  - split; cbn [core with_core file_descriptors]; [done|done|..].
    + rewrite E; [done|done|unfold desc_filesystem; lia].
    + rewrite E; [done|done|unfold desc_pvt; lia].
    + rewrite E by (done || (unfold fd_item; lia)). apply (item_repr_frame image (core v)); [done|done|].
      intros b a Hin Ha. apply (Hb b); [by right; right|done].
    + unfold desc_pos in *. rewrite E; [done|done|unfold fd_pos; lia].
    + split; [done|]. intros b Hin. by apply Hg, Hl.
    + done.
  - intros b Hin. destruct (H5 b Hin) as [Hlb Hn]. split; [by apply Hg|done].
Qed.

(** The blocks of the file are away from a region the caller owned, and from
    one block of its own. *)
Lemma session_apart v desc pvt bs b p n : session v desc pvt bs -> b ∈ desc :: pvt :: bs ->
  0 < n -> region_owned (fmem (core v0)) p n -> p + n <= b \/ b + 4096 <= p.
Proof.
  intros Hse Hb Hn Hr. destruct (se_fresh Hse Hb) as [Hl Hnew].
  assert (Hap : forall a, p <= a < p + n -> a < b \/ b + 4096 <= a).
  { intros a Ha. apply (owned_fresh (fmem (core v0)) (fmem (core v)) b 4096 a);
      [apply (se_since Hse)|done|done|by apply Hr]. }
  pose proof (Hap p ltac:(lia)). destruct (decide (p < b)); [|lia].
  destruct (decide (p + n <= b)); [by left|]. pose proof (Hap b ltac:(lia)). lia.
Qed.

(** [fopen] starts one, from a state with more memory in use. *)
Lemma session_open disk_obj pf filename mode l rest N v1 :
  grown (core v0) (core v1) -> file_descriptors v1 = file_descriptors v0 ->
  path_string (core v0) filename l rest -> (length rest < pf)%nat ->
  (length (split_path rest) <= pfuel)%nat -> file_get_mode_by_string mode = FILE_MODE_READ ->
  path_good image (core v0) root (split_path rest) -> i < 511 ->
  room (fmem (core v1)) (open_room root (split_path rest) N) ->
  locate image (core v0) root (split_path rest) = Found e ->
  exists v2 desc pvt bs, fopen ops disk_obj pf filename mode v1 = Ret (i + 1) v2 /\
    session v2 desc pvt bs /\ grown (core v1) (core v2) /\ room (fmem (core v2)) N /\
    (forall b q t, b ∈ desc :: pvt :: bs -> live (fmem (core v1)) q t -> q <> b).
Proof.
  intros Hg1 Ed Hps Hpf Hlen Hm Hgood Hi Hroom El.
  assert (Hs1 : system_ok fat16_fs root v1)
    by (apply (since_system fat16_fs W root v0 Hsys Hclear); [by apply since_grown|done]).
  assert (Hk : kept (core v0) (core v1)) by (apply (since_kept fat16_fs W root v0 Hsys Hclear); by apply since_grown).
  assert (Hps1 : path_string (core v1) filename l rest)
    by (apply (since_path (fun _ => False) (core v0)); [by apply since_grown|done|by intros ? _ []]).
  pose proof (fopen_spec ops fat16_fs disk_obj dev poll_fuel image stack_item pfuel fuel rfuel Hdrive Hfuel Hrfuel Hops Hfs
    pf filename mode l rest root i N v1 Hs1 Hps1 Hpf Hlen Hm (path_good_kept _ _ _ _ _ Hk Hgood)
    ltac:(by rewrite Ed) Hi Hroom) as Hop. rewrite (locate_kept image (core v0)), El in Hop by done.
  destruct Hop as (desc & pvt & bs & v2 & E1 & Hof & Hg & Hs2 & Efd & Hr & Hfr).
  exists v2, desc, pvt, bs. split; [done|]. split; [|split; [done|split; [done|]]].
  - split; [apply since_grown; by apply (grown_trans _ (core v1))|done|apply (so_table _ _ _ Hs2)|by rewrite <- Ed|].
    intros b Hb. by apply (fresh_earlier (core v0) (core v1)), Hfr.
  - intros b q t Hb. by apply (fb_new _ _ _ (Hfr b Hb)).
Qed.

(** [fclose] ends it. *)
Lemma session_close v desc pvt bs : session v desc pvt bs ->
  exists v', fclose ops (i + 1) v = Ret 0 v' /\ since W (core v0) (core v') /\
    file_descriptors v' = file_descriptors v0 /\
    (forall q t, live (fmem (core v')) q t <-> live (fmem (core v)) q t /\ q ∉ desc :: pvt :: bs) /\
    (forall a, ~ meta a -> rd (fmem (core v')) a = rd (fmem (core v)) a) /\
    (forall n, room (fmem (core v)) n -> room (fmem (core v')) n).
Proof.
  intros [H1 H2 H3 H4 H5].
  destruct (fclose_spec ops fat16_fs dev poll_fuel image stack_item pfuel fuel rfuel Hfuel Hrfuel Hops Hfs
    v (i + 1) e desc pvt bs H2 H3 (si_ok _ _ _ H1)) as (m' & E & Hok & Hlv & Ho & Hr).
  eexists. split; [exact E|]. cbn [core with_core with_descriptors file_descriptors fmem with_mem].
  split; [|split; [|done]].
  - apply (since_drop W (core v0) (core v) m' (desc :: pvt :: bs)); try done.
    intros b q t Hb Hq. by apply (fb_new _ _ _ (H5 b Hb) q t).
  - replace (i + 1 - 1) with i by lia. rewrite H4, list_insert_insert_eq. apply list_insert_id.
    pose proof (first_null_spec (file_descriptors v0) 0) as Hf. rewrite Hnull, Z.sub_0_r in Hf. apply Hf.
Qed.

(** The size, through [fstat]. *)
Lemma session_stat v desc pvt bs stat : session v desc pvt bs ->
  (forall a, stat <= a < stat + 8 -> W a) -> region_owned (fmem (core v0)) stat 8 ->
  exists s2, fstat ops (i + 1) stat v = Ret 0 (with_core s2 v) /\ session (with_core s2 v) desc pvt bs /\
    ld32 (fmem s2) (stat + stat_filesize) = entry_size e /\
    (forall a, a < stat \/ stat + 8 <= a -> rd (fmem s2) a = rd (fmem (core v)) a) /\
    (forall q t, live (fmem s2) q t <-> live (fmem (core v)) q t) /\
    (forall n, room (fmem (core v)) n -> room (fmem s2) n).
Proof.
  intros Hse Hw Hown. pose proof Hse as [_ Hof _ _ _]. destruct (open_target ops fat16_fs dev poll_fuel image stack_item
    pfuel fuel rfuel Hfuel Hrfuel Hops _ _ _ _ _ _ Hof) as (Eg & Hd0 & Et).
  pose proof (of_item _ _ _ _ _ _ _ _ Hof) as Hi. unfold item_repr in Hi. rewrite Hdir in Hi.
  destruct Hi as (q & Ebs & Eq & Ety & Hb).
  set (s := core v) in *. set (p := ld32 (fmem s) (pvt + fd_item)) in *.
  assert (Hq : q ∈ desc :: pvt :: bs) by (rewrite Ebs; right; right; by left).
  assert (Hap : forall b, b ∈ desc :: pvt :: bs -> stat + 8 <= b \/ b + 4096 <= stat)
    by (intros b Hin; apply (session_apart v desc pvt bs b stat 8 Hse Hin); [lia|done]).
  pose proof (Hap q Hq) as Hqa.
  assert (Esz : ld32 (fmem s) (q + item_filesize) = entry_size e).
  { unfold entry_size. rewrite <- (entry_half (fmem s) q e Hb item_filesize), <- (entry_half (fmem s) q e Hb (item_filesize + 2))
      by (unfold item_filesize; lia). unfold ld32, ld16. rewrite !Z.add_assoc.
    replace (q + item_filesize + 2 + 1) with (q + item_filesize + 3) by lia. lia. }
  set (m1 := st32 (fmem s) (stat + stat_filesize) (entry_size e)).
  set (m2 := st32 m1 (stat + stat_flags) 0).
  assert (Hm2 : forall a, a < stat \/ stat + 8 <= a -> rd m2 a = rd (fmem s) a).
  { intros a Ha. unfold m2, m1, stat_flags, stat_filesize. by rewrite !rd_st32_ne by lia. }
  assert (Hrange : 0 <= entry_size e < 4294967296) by (rewrite <- Esz; apply ld32_range).
  assert (Hfin : forall m3, (forall a, a < stat \/ stat + 8 <= a -> rd m3 a = rd (fmem s) a) ->
    ld32 m3 (stat + stat_filesize) = entry_size e ->
    fstat ops (i + 1) stat v = Ret 0 (with_core (with_mem m3 s) v) ->
    exists s2, fstat ops (i + 1) stat v = Ret 0 (with_core s2 v) /\ session (with_core s2 v) desc pvt bs /\
    ld32 (fmem s2) (stat + stat_filesize) = entry_size e /\
    (forall a, a < stat \/ stat + 8 <= a -> rd (fmem s2) a = rd (fmem s) a) /\
    (forall q t, live (fmem s2) q t <-> live (fmem s) q t) /\
    (forall n, room (fmem s) n -> room (fmem s2) n)).
  { intros m3 Ho Hs3 E. destruct (session_edit v desc pvt bs (with_mem m3 s) Hse) as (Hse' & Hlv & Hr); try done.
    - intros a Ha. apply Ho. destruct (decide (stat <= a < stat + 8)) as [Hin|]; [|lia]. by destruct (Hown a Hin).
    - intros a _ Hna. apply Ho. destruct (decide (stat <= a < stat + 8)) as [Hin|]; [|lia]. by destruct Hna; apply Hw.
    - intros b a Hin Ha. apply Ho. specialize (Hap b Hin). lia.
    - by exists (with_mem m3 s). }
  assert (Efs : fstat ops (i + 1) stat v = on_core (fat16_stat pvt stat) v).
  { unfold fstat. unfold bind at 1, gets at 1. rewrite Eg. destruct (Z.eqb_spec desc 0); [done|].
    by rewrite (bind_Ret _ _ _ _ _ Et). }
  assert (E1 : ld32 m2 (stat + stat_filesize) = entry_size e).
  { unfold m2, m1, stat_flags, stat_filesize. rewrite ld32_st32_ne, ld32_st32_eq by lia. by apply u32_id. }
  assert (Est : fat16_stat pvt stat s = Ret 0 (with_mem
    (if negb (Z.land (rd m2 (q + item_attribute)) FAT_FILE_READ_ONLY =? 0)
     then st32 m2 (stat + stat_flags) (Z.lor (ld32 m2 (stat + stat_flags)) FILE_STAT_READ_ONLY) else m2) s)).
  { unfold fat16_stat. rewrite (bind_Ret (load32 (pvt + fd_item)) _ s p s eq_refl).
    rewrite (bind_Ret (load32 (p + fi_type)) _ s FAT_ITEM_TYPE_FILE s) by (unfold load32, gets; by rewrite Ety).
    rewrite Z.eqb_refl. cbn [negb].
    rewrite (bind_Ret (load32 (p + fi_pointer)) _ s q s) by (unfold load32, gets; by rewrite Eq).
    rewrite (bind_Ret (load32 (q + item_filesize)) _ s (entry_size e) s) by (unfold load32, gets; by rewrite Esz).
    unfold bind at 1, store32 at 1, modify at 1. cbn [fmem with_mem]. fold m1.
    unfold bind at 1, store32 at 1, modify at 1. cbn [fmem with_mem]. fold m2.
    rewrite (bind_Ret (load8 (q + item_attribute)) _ (with_mem m2 (with_mem m1 s)) (rd m2 (q + item_attribute)) (with_mem m2 (with_mem m1 s)) eq_refl).
    destruct (negb _); reflexivity. }
  apply (Hfin (if negb (Z.land (rd m2 (q + item_attribute)) FAT_FILE_READ_ONLY =? 0)
     then st32 m2 (stat + stat_flags) (Z.lor (ld32 m2 (stat + stat_flags)) FILE_STAT_READ_ONLY) else m2)).
  - intros a Ha. destruct (negb _); [|by apply Hm2]. rewrite rd_st32_ne by (unfold stat_flags; lia). by apply Hm2.
  - destruct (negb _); [|exact E1]. rewrite ld32_st32_ne by (unfold stat_flags, stat_filesize; lia). exact E1.
  - rewrite Efs. by apply on_core_Ret.
Qed.

(** All of the file, into a block of its own. *)
Lemma session_read v desc pvt bs out size : session v desc pvt bs -> 0 < size < 2147483648 ->
  (forall a, out <= a < out + size -> ~ meta a /\ ~ owned (fmem (core v0)) a) ->
  (forall b, b ∈ desc :: pvt :: bs -> out + size <= b \/ b + 4096 <= out) ->
  chain_ok image (core v0) (entry_cluster e) (Z.to_nat ((size - 1) / cluster_bytes (core v0))) ->
  (Z.to_nat ((size - 1) / cluster_bytes (core v0)) < rfuel)%nat ->
  exists s2, fread ops out size 1 (i + 1) v = Ret 1 (with_core s2 v) /\ session (with_core s2 v) desc pvt bs /\
    bytes (fmem s2) out (Z.to_nat size) = file_bytes image (core v0) (entry_cluster e) 0 size /\
    (forall a, a < out \/ out + size <= a -> rd (fmem s2) a = rd (fmem (core v)) a) /\
    (forall q t, live (fmem s2) q t <-> live (fmem (core v)) q t) /\
    (forall n, room (fmem (core v)) n -> room (fmem s2) n).
Proof.
  intros Hse Hsz Hout Hap Hc Hr. pose proof Hse as [H1 H2 H3 H4 H5].
  pose proof (since_kept fat16_fs W root v0 Hsys Hclear _ H1) as Hk.
  pose proof (since_volume fat16_fs W root v0 Hsys Hclear _ H1) as Hv.
  assert (Ecb : cluster_bytes (core v) = cluster_bytes (core v0))
    by (unfold cluster_bytes; by destruct (kept_geometry _ _ Hk) as (_ & -> & _)).
  destruct (fread_spec ops fat16_fs dev poll_fuel image stack_item pfuel fuel rfuel Hdrive Hfuel Hrfuel Hops
    v (i + 1) e desc pvt bs size out H2 Hdir Hv Hsz) as (s2 & E2 & Em & Hk2); rewrite ?Ecb.
  { unfold out_ok. destruct (decide (out + size <= priv (core v))) as [|Hn]; [by left|right].
    destruct (decide (priv (core v) + sizeof_fat_private <= out)) as [|Hn2]; [done|exfalso].
    set (a := Z.max out (priv (core v))). unfold sizeof_fat_private in *.
    destruct (Hout a ltac:(lia)) as [_ Ha]. apply Ha.
    assert (Ep : priv (core v) = priv (core v0)) by (unfold priv; by rewrite (kp_disk _ _ Hk)).
    apply (vo_owned _ (so_volume _ _ _ Hsys)). unfold sizeof_fat_private. lia. }
  { by apply (kept_chain _ (core v0)). }
  { done. }
  rewrite (kept_file_bytes image (core v0)) in Em by done.
  set (l := file_bytes image (core v0) (entry_cluster e) 0 size) in *.
  assert (Hl : Z.of_nat (length l) = size) by (unfold l; rewrite length_file_bytes; lia).
  assert (Ho : forall a, a < out \/ out + size <= a -> rd (fmem s2) a = rd (fmem (core v)) a)
    by (intros a Ha; rewrite Em; apply rd_store_bytes_out; lia).
  destruct (session_edit v desc pvt bs s2 Hse) as (Hse' & Hlv & Hrm).
  - intros a Ha. apply Ho. destruct (decide (out <= a < out + size)) as [Hin|]; [|lia]. by destruct (Hout a Hin).
  - intros a Ha _. apply Ho. destruct (decide (out <= a < out + size)) as [Hin|]; [|lia]. by destruct (Hout a Hin).
  - intros b a Hb Ha. apply Ho. specialize (Hap b Hb). lia.
  - apply Hk2.
  - apply Hk2.
  - exists s2. split; [done|]. split; [done|]. split; [|done]. rewrite Em. replace (Z.to_nat size) with (length l) by lia.
    apply bytes_store_bytes. apply Forall_map, list.Forall_forall. intros o _. apply (drive_byte _ _ _ Hdrive).
Qed.

(** A block of its own. *)
Lemma session_alloc v desc pvt bs size n : session v desc pvt bs -> 0 < size <= 0xFFFFF000 ->
  room (fmem (core v)) n -> blocks_for size <= Z.of_nat n ->
  exists p m', ka_alloc size (fmem (core v)) = (p, m') /\ let s' := with_mem m' (core v) in
    session (with_core s' v) desc pvt bs /\ live m' p (span size) /\ page p /\ p <> 0 /\
    (forall q t, live (fmem (core v)) q t -> q <> p) /\
    (forall b, b ∈ desc :: pvt :: bs -> p + span size <= b \/ b + 4096 <= p) /\
    room m' (n - Z.to_nat (blocks_for size)) /\ grown (core v) s'.
Proof.
  intros Hse Hs Hr Hb. destruct (alloc_span (fmem (core v)) size n (si_ok _ _ _ (se_since Hse)) Hs Hr Hb)
    as (p & m' & E & Hp0 & Hp & _ & Hok & Hr' & Hlv & Hd & _ & Ho).
  assert (Hg : grown (core v) (with_mem m' (core v))).
  { split; cbn [fmem with_mem the_disk]; try done; [intros q t Hq; apply Hlv; by left|]. intros a Ha. by apply Ho. }
  exists p, m'. split; [done|]. cbv zeta. split; [by apply session_grown|].
  split; [apply Hlv; by right|]. split; [done|]. split; [lia|]. split; [|split; [|done]].
  - intros q t Hq ->. specialize (Hd _ _ Hq). pose proof (live_block _ _ _ Hq). destruct (span_blocks size Hs). lia.
  - intros b Hin. destruct (of_blocks _ _ _ _ _ _ _ _ (se_open Hse)) as [_ Hl].
    specialize (Hd _ _ (Hl b Hin)). lia.
Qed.

(** *** The file is a program's image *)

Context (disk_obj : Z) (pf : nat) (stat filename : Z) (name rest : list Z) (size : Z).
Hypothesis Hi : i < 511.
Hypothesis Hpg : program_file image root v0 filename name rest e size.
Hypothesis Hrest : (length rest < pf)%nat.
Hypothesis Hparts : (length (split_path rest) <= pfuel)%nat.
Hypothesis Hread : (Z.to_nat ((size - 1) / cluster_bytes (core v0)) < rfuel)%nat.
Hypothesis Hstat : forall a, stat <= a < stat + 8 -> W a.
Hypothesis Hstat_owned : region_owned (fmem (core v0)) stat 8.

Let l : list Z := program_bytes image v0 e.

Lemma program_length : Z.of_nat (length l) = size.
Proof.
  unfold l, program_bytes. rewrite length_file_bytes, (pg_size Hpg).
  pose proof (pg_range Hpg). lia.
Qed.

(** Size, block and bytes, in either loader. *)
Lemma session_fill v desc pvt bs h : session v desc pvt bs ->
  new_block (core v0) (core v) h (span size) ->
  (forall b, b ∈ desc :: pvt :: bs -> h + span size <= b \/ b + 4096 <= h) ->
  exists s2, fread ops h size 1 (i + 1) v = Ret 1 (with_core s2 v) /\ session (with_core s2 v) desc pvt bs /\
    bytes (fmem s2) h (length l) = l /\
    (forall a, a < h \/ h + size <= a -> rd (fmem s2) a = rd (fmem (core v)) a) /\
    (forall q t, live (fmem s2) q t <-> live (fmem (core v)) q t) /\
    (forall n, room (fmem (core v)) n -> room (fmem s2) n).
Proof.
  intros Hse Hh Hap. pose proof program_length as Hlen. pose proof (pg_range Hpg) as Hsz.
  destruct (span_blocks size ltac:(lia)) as (Hsp & _ & _).
  destruct (session_read v desc pvt bs h size Hse ltac:(lia)) as (s2 & E & Hse2 & Hb & Hx);
    [|intros b Hb; specialize (Hap b Hb); lia|by apply Hpg|done|].
  { intros a Ha. apply (new_unowned W (core v0) (core v) h (span size)); [apply Hse|done|lia]. }
  exists s2. split; [done|]. split; [done|]. split; [|done].
  replace (length l) with (Z.to_nat size) by lia. unfold l, program_bytes. by rewrite (pg_size Hpg).
Qed.

(** Stores into the object keep the session and everything else. *)
Lemma session_object v desc pvt bs f m' : session v desc pvt bs -> new_block (core v0) (core v) f 4096 ->
  f ∉ desc :: pvt :: bs -> (forall a, a < f \/ f + 4096 <= a -> rd m' a = rd (fmem (core v)) a) ->
  session (with_core (with_mem m' (core v)) v) desc pvt bs /\
  (forall q t, live m' q t <-> live (fmem (core v)) q t) /\ (forall n, room (fmem (core v)) n -> room m' n).
Proof.
  intros Hse Hf Hnin Ho. pose proof (se_open Hse) as Hof.
  destruct (of_blocks _ _ _ _ _ _ _ _ Hof) as [_ Hl].
  apply (session_edit v desc pvt bs (with_mem m' (core v)) Hse); try done.
  - intros a Ha. apply Ho. destruct (decide (f <= a < f + 4096)) as [Hin|]; [|lia].
    by destruct (new_unowned W (core v0) (core v) f 4096 a (se_since Hse) Hf Hin).
  - intros a Ha _. apply Ho. destruct (decide (f <= a < f + 4096)) as [Hin|]; [|lia].
    by destruct (new_unowned W (core v0) (core v) f 4096 a (se_since Hse) Hf Hin).
  - intros b a Hb Ha. apply Ho. destruct (block_distinct (fmem (core v)) f 4096 b 4096); [apply Hf|by apply Hl| |lia|lia].
    by intros ->.
Qed.

Lemma elf_body_spec v desc pvt bs f n : session v desc pvt bs -> new_block (core v0) (core v) f 4096 -> page f ->
  f ∉ desc :: pvt :: bs -> room (fmem (core v)) n -> blocks_for size <= Z.of_nat n ->
  exists v' h, elf_load_body ops f stat (i + 1) v = Ret (if is_elf l then (0, f) else (- EINFORMAT, 0)) v' /\
    session v' desc pvt bs /\ file_in_memory (core v0) (core v') f h l /\ (h ∉ desc :: pvt :: bs) /\
    room (fmem (core v')) (n - Z.to_nat (blocks_for size)).
Proof.
  intros Hse Hf Hpf Hfn Hr Hb. pose proof program_length as Hlen. pose proof (pg_range Hpg) as Hsz.
  destruct (span_blocks size ltac:(lia)) as (Hsp & _ & _).
  destruct (session_stat v desc pvt bs stat Hse Hstat Hstat_owned) as (s2 & E2 & Hse2 & Esz & _ & Hlv2 & Hr2).
  rewrite (pg_size Hpg) in Esz.
  destruct (session_alloc _ desc pvt bs size n Hse2 ltac:(lia) (Hr2 _ Hr) Hb)
    as (h & m3 & E3 & Hse3 & Hlh & Hph & Hh0 & Hhn & Hhap & Hr3 & Hg3). cbn [core with_core] in E3, Hhn, Hg3.
  set (v3 := with_core (with_mem m3 s2) v). change (with_core _ (with_core s2 v)) with v3 in Hse3.
  assert (Hlf3 : live m3 f 4096) by (apply Hg3, Hlv2, Hf).
  assert (Hf3 : new_block (core v0) (core v3) f 4096) by (split; [done|apply Hf]).
  assert (Hfh : f <> h) by (intros ->; by apply (Hhn h 4096), eq_refl; apply Hlv2, Hf).
  set (m4 := st32 m3 (f + ef_elf_memory) h).
  destruct (session_object v3 desc pvt bs f m4 Hse3 Hf3 Hfn) as (Hse4 & Hlv4 & Hr4).
  { intros a Ha. unfold m4, ef_elf_memory. by rewrite rd_st32_ne by lia. }
  change (core v3) with (with_mem m3 s2) in Hlv4, Hr4. cbn [fmem with_mem] in Hlv4, Hr4.
  set (v4 := with_core (with_mem m4 (core v3)) v3) in *.
  assert (Hh4 : new_block (core v0) (core v4) h (span size)).
  { split; [by apply Hlv4|]. intros q t Hq. apply (Hhn q t), Hlv2. by apply (si_live _ _ _ (se_since Hse)). }
  destruct (session_fill v4 desc pvt bs h Hse4 Hh4 Hhap) as (s5 & E5 & Hse5 & Hby & Ho5 & Hlv5 & Hr5).
  set (v5 := with_core s5 v4) in *.
  assert (Hap : f + 4096 <= h \/ h + span size <= f) by (by apply (block_distinct m3 f 4096 h (span size))).
  assert (E4 : ld32 m4 (f + ef_elf_memory) = h) by (unfold m4; rewrite ld32_st32_eq; by apply u32_id, Hph).
  assert (Ep5 : elf_header f (fmem s5) = h).
  { unfold elf_header. rewrite <- E4. apply ld32_ext. intros j Hj. apply Ho5. unfold ef_elf_memory. lia. }
  destruct (process_loaded_only f (fmem s5) h (length l) l Ep5 Hby ltac:(lia)) as (m6 & E6 & Hoo).
  assert (Hf5 : new_block (core v0) (core v5) f 4096) by (split; [by apply Hlv5, Hlv4|apply Hf]).
  assert (Ho6 : forall a, a < f \/ f + 4096 <= a -> rd m6 a = rd (fmem s5) a)
    by (intros a Ha; apply Hoo; unfold ef_virtual_base_address, sizeof_elf_file; lia).
  destruct (session_object v5 desc pvt bs f m6 Hse5 Hf5 Hfn Ho6) as (Hse6 & Hlv6 & Hr6).
  exists (with_core (with_mem m6 (core v5)) v5), h. split; [|split; [exact Hse6|split; [|split]]].
  - unfold elf_load_body. rewrite (bind_Ret _ _ _ _ _ E2). change (0 <? 0) with false. cbv iota.
    rewrite (bind_Ret _ _ _ size (with_core s2 v)) by (unfold on_core, load32, gets; cbn [core with_core]; by rewrite Esz).
    rewrite (bind_Ret _ _ _ h v3) by (unfold on_core, alloc; cbn [core with_core]; by rewrite E3).
    rewrite (bind_Ret _ _ _ tt v4) by done.
    rewrite (bind_Ret _ _ _ h v4) by (unfold on_core, load32, gets; cbn [core with_core v4 fmem with_mem]; by rewrite E4).
    rewrite (bind_Ret _ _ _ _ _ E5). change (1 <? 0) with false. cbv iota.
    rewrite (bind_Ret _ _ _ (if is_elf l then 0 else - EINFORMAT) (with_core (with_mem m6 (core v5)) v5))
      by (unfold on_memory; change (fmem (core v5)) with (fmem s5); by rewrite E6).
    by destruct (is_elf l).
  - cbn [core with_core]. split.
    + split; [apply Hlv6, Hf5|apply Hf].
    + rewrite Hlen. split; [apply Hlv6, Hlv5, Hh4|apply Hh4].
    + done.
    + done.
    + cbn [fmem with_mem]. rewrite <- Ep5. unfold elf_header. apply (only_object_ld32 f); [done|].
      unfold ef_elf_memory, ef_virtual_base_address. lia.
    + cbn [fmem with_mem]. rewrite <- Hby at 2. apply bytes_ext. intros j Hj. apply Ho6. lia.
  - intros Hin. specialize (Hhap h Hin). lia.
  - apply Hr6, Hr5, Hr4. done.
Qed.

Lemma elf_load_spec N :
  room (fmem (core v0)) (S (open_room root (split_path rest) (Z.to_nat (blocks_for size) + N))) ->
  exists v' f h, elf_load ops disk_obj pf stat filename v0 = Ret (if is_elf l then (0, f) else (- EINFORMAT, 0)) v' /\
    since W (core v0) (core v') /\ file_descriptors v' = file_descriptors v0 /\
    file_in_memory (core v0) (core v') f h l /\ room (fmem (core v')) N.
Proof.
  intros Hroom. pose proof (pg_range Hpg) as Hsz.
  destruct (blocks_for_bounds size ltac:(lia)) as [Hb0 _].
  destruct (alloc_fresh (core v0) sizeof_elf_file _ ltac:(unfold sizeof_elf_file; lia) (vo_heap _ (so_volume _ _ _ Hsys)) Hroom)
    as (f & s1 & E1 & Hf0 & Hg1 & Hf1 & Hr1 & _ & Hpf & _).
  set (v1 := with_core s1 v0).
  destruct (session_open disk_obj pf filename (at_list [114; 0]) name rest (Z.to_nat (blocks_for size) + N) v1 Hg1 eq_refl
    (pg_path Hpg) Hrest Hparts eq_refl (pg_good Hpg) Hi Hr1 (pg_found Hpg))
    as (v2 & desc & pvt & bs & E2 & Hse2 & Hg2 & Hr2 & Hn2).
  assert (Hi0 : 0 < i + 1) by (pose proof (of_number _ _ _ _ _ _ _ _ (se_open Hse2)); lia).
  assert (Hf2 : new_block (core v0) (core v2) f 4096) by (split; [apply Hg2, Hf1|apply Hf1]).
  assert (Hfn : f ∉ desc :: pvt :: bs) by (intros Hin; by apply (Hn2 f f 4096 Hin); [apply Hf1|]).
  destruct (elf_body_spec v2 desc pvt bs f _ Hse2 Hf2 Hpf Hfn Hr2 ltac:(lia)) as (v6 & h & E6 & Hse6 & Hfm & Hhn & Hr6).
  destruct (session_close _ _ _ _ Hse6) as (v7 & E7 & Hs7 & Ed7 & Hlv7 & Ho7 & Hr7).
  exists v7, f, h. split; [|split; [done|split; [done|split]]].
  - unfold elf_load. rewrite (bind_Ret _ _ _ f v1) by (by apply on_core_Ret).
    rewrite (bind_Ret _ _ _ _ _ E2). destruct (Z.leb_spec (i + 1) 0); [lia|].
    rewrite (bind_Ret _ _ _ _ _ E6). by rewrite (bind_Ret _ _ _ _ _ E7).
  - destruct Hfm as [[F1 F2] [I1 I2] Hd Hp Hpt Hby].
    assert (Hm : forall p n a, live (fmem (core v6)) p n -> p <= a < p + n -> rd (fmem (core v7)) a = rd (fmem (core v6)) a)
      by (intros p n a Hl Ha; apply Ho7; by apply (live_block _ _ _ Hl)).
    pose proof program_length as Hlen. destruct (span_blocks size ltac:(lia)) as (Hsp & _ & _).
    split; [split; [by apply Hlv7|done]|split; [by apply Hlv7|done]|done|done| |].
    + rewrite <- Hpt. apply ld32_ext. intros j Hj. apply (Hm f 4096); [done|unfold ef_elf_memory; lia].
    + rewrite <- Hby at 2. apply bytes_ext. intros j Hj. apply (Hm h (span (Z.of_nat (length l)))); [done|rewrite Hlen; lia].
  - apply Hr7. replace N with (Z.to_nat (blocks_for size) + N - Z.to_nat (blocks_for size))%nat by lia. done.
Qed.

(** *** The flat loader, around the stores into the process object *)

Lemma flat_open_spec N : room (fmem (core v0)) (open_room root (split_path rest) (Z.to_nat (blocks_for size) + N)) ->
  exists v2 v3 m4 v5 h desc pvt bs,
    fopen ops disk_obj pf filename (at_list [114; 0]) v0 = Ret (i + 1) v2 /\ 0 < i + 1 /\
    fstat ops (i + 1) stat v2 = Ret 0 v3 /\ ld32 (fmem (core v3)) (stat + stat_filesize) = size /\
    ka_alloc size (fmem (core v3)) = (h, m4) /\
    fread ops h size 1 (i + 1) (with_core (with_mem m4 (core v3)) v3) = Ret 1 v5 /\
    session v5 desc pvt bs /\ new_block (core v0) (core v5) h (span size) /\ page h /\ h <> 0 /\
    (h ∉ desc :: pvt :: bs) /\ bytes (fmem (core v5)) h (length l) = l /\ room (fmem (core v5)) N.
Proof.
  intros Hroom. pose proof (pg_range Hpg) as Hsz.
  destruct (blocks_for_bounds size ltac:(lia)) as [Hb0 _]. destruct (span_blocks size ltac:(lia)) as (Hsp & _ & _).
  destruct (session_open disk_obj pf filename (at_list [114; 0]) name rest (Z.to_nat (blocks_for size) + N) v0
    (grown_refl _ (vo_heap _ (so_volume _ _ _ Hsys))) eq_refl
    (pg_path Hpg) Hrest Hparts eq_refl (pg_good Hpg) Hi Hroom (pg_found Hpg))
    as (v2 & desc & pvt & bs & E2 & Hse2 & Hg2 & Hr2 & _).
  assert (Hi0 : 0 < i + 1) by (pose proof (of_number _ _ _ _ _ _ _ _ (se_open Hse2)); lia).
  destruct (session_stat v2 desc pvt bs stat Hse2 Hstat Hstat_owned) as (s3 & E3 & Hse3 & Esz & _ & Hlv3 & Hr3).
  rewrite (pg_size Hpg) in Esz.
  destruct (session_alloc _ desc pvt bs size _ Hse3 ltac:(lia) (Hr3 _ Hr2) ltac:(lia))
    as (h & m4 & E4 & Hse4 & Hlh & Hph & Hh0 & Hhn & Hhap & Hr4 & Hg4).
  assert (Hh4 : new_block (core v0) (with_mem m4 s3) h (span size)).
  { split; [exact Hlh|]. intros q t Hq. apply (Hhn q t), (si_live _ _ _ (se_since Hse3)), Hq. }
  destruct (session_fill _ desc pvt bs h Hse4 Hh4 Hhap) as (s5 & E5 & Hse5 & Hby & _ & Hlv5 & Hr5).
  eexists v2, (with_core s3 v2), m4, _, h, desc, pvt, bs. split; [done|]. split; [done|]. split; [exact E3|].
  split; [exact Esz|]. split; [exact E4|]. split; [exact E5|]. split; [exact Hse5|].
  split; [split; [by apply Hlv5|apply Hh4]|]. split; [done|]. split; [done|]. split; [|split; [done|]].
  - intros Hin. specialize (Hhap h Hin). lia.
  - apply Hr5. replace N with (Z.to_nat (blocks_for size) + N - Z.to_nat (blocks_for size))%nat by lia. done.
Qed.

Lemma object_close v desc pvt bs p n m6 : session v desc pvt bs ->
  0 < n -> region_owned (fmem (core v0)) p n -> (forall a, p <= a < p + n -> W a) ->
  (forall a, a < p \/ p + n <= a -> rd m6 a = rd (fmem (core v)) a) ->
  exists v', fclose ops (i + 1) (with_core (with_mem m6 (core v)) v) = Ret 0 v' /\
    since W (core v0) (core v') /\ file_descriptors v' = file_descriptors v0 /\
    (forall q t, live (fmem (core v')) q t <-> live (fmem (core v)) q t /\ q ∉ desc :: pvt :: bs) /\
    (forall a, ~ meta a -> rd (fmem (core v')) a = rd m6 a) /\
    (forall n, room (fmem (core v)) n -> room (fmem (core v')) n).
Proof.
  intros Hse Hn Hown Hw Ho.
  destruct (session_edit v desc pvt bs (with_mem m6 (core v)) Hse) as (Hse6 & Hlv6 & Hr6); try done.
  - intros a Ha. apply Ho. destruct (decide (p <= a < p + n)) as [Hin|]; [|lia]. by destruct (Hown a Hin).
  - intros a _ Hna. apply Ho. destruct (decide (p <= a < p + n)) as [Hin|]; [|lia]. by destruct Hna; apply Hw.
  - intros b a Hb Ha. apply Ho. pose proof (session_apart v desc pvt bs b p n Hse Hb Hn Hown). lia.
  - destruct (session_close _ _ _ _ Hse6) as (v7 & E7 & Hs7 & Ed7 & Hlv7 & Ho7 & Hr7).
    exists v7. split; [done|]. split; [done|]. split; [done|]. split; [|split; [exact Ho7|]].
    + intros q t. by rewrite Hlv7, (Hlv6 q t).
    + intros j Hj. by apply Hr7, Hr6.
Qed.

End session.

(** More may be written. *)
Lemma session_more `{KAllocator} fat16_fs image (W W' : Z -> Prop) v0 i e v desc pvt bs :
  (forall a, W a -> W' a) -> session fat16_fs image W v0 i e v desc pvt bs ->
  session fat16_fs image W' v0 i e v desc pvt bs.
Proof. intros Hw [H1 H2 H3 H4 H5]. split; try done. by apply (since_more W). Qed.

(** ** What a load starts from *)

(** A file system in which the program can be loaded: [W] are the bytes of the
    caller the loaders may write ([stat] among them). *)
Set Implicit Arguments.
Record load_ready `{KAllocator} (fat16_fs : Z) (image : Z -> Z) (pfuel rfuel pf : nat) (W : Z -> Prop)
    (root : list (list Z)) (v : vfs) (filename : Z) (name rest e : list Z) (size i stat : Z) : Prop := {
  lr_system : system_ok fat16_fs root v;
  lr_file : program_file image root v filename name rest e size;
  lr_slot : first_null (file_descriptors v) 0 = Some i;
  lr_low : i < 511;
  lr_rest : (length rest < pf)%nat;
  lr_parts : (length (split_path rest) <= pfuel)%nat;
  lr_read : (Z.to_nat ((size - 1) / cluster_bytes (core v)) < rfuel)%nat;
  lr_clear : forall a, system_byte root v a -> ~ W a;
  lr_name : forall a, filename <= a < filename + Z.of_nat (length name) + 1 -> ~ W a;
  lr_stat : forall a, stat <= a < stat + 8 -> W a;
  lr_stat_owned : region_owned (fmem (core v)) stat 8 }.
Unset Implicit Arguments.

(** The bytes the file system relies on are the caller's. *)
Lemma system_byte_owned `{KAllocator} fat16_fs root v a :
  system_ok fat16_fs root v -> system_byte root v a -> owned (fmem (core v)) a.
Proof.
  intros [Hv _ [_ [_ Hi]] Ht] [Ha|[Ha|(p & Hp & Hp0 & Ha)]].
  - by apply (vo_owned _ Hv).
  - by apply Hi.
  - apply list_elem_of_lookup in Hp as [j Hj]. apply (owned_live _ p 4096); [by apply (ft_desc _ Ht j p)|done].
Qed.

Section ready.
Context `{KAllocator} (fat16_fs : Z) (image : Z -> Z) (pfuel rfuel pf : nat) (W : Z -> Prop).
Context (root : list (list Z)) (v : vfs) (filename : Z) (name rest e : list Z) (size i stat : Z).
Hypothesis Hlr : load_ready fat16_fs image pfuel rfuel pf W root v filename name rest e size i stat.

(** Later, with the descriptor table as it was. *)
Lemma load_ready_since v' : since W (core v) (core v') -> file_descriptors v' = file_descriptors v ->
  load_ready fat16_fs image pfuel rfuel pf W root v' filename name rest e size i stat /\
  program_bytes image v' e = program_bytes image v e.
Proof.
  destruct Hlr as [H1 [P1 P2 P3 P4 P5 P6 P7] H3 H4 H5 H6 H7 H8 H9 H10 H11]. intros Hs Ed.
  pose proof (since_kept fat16_fs W root v H1 H8 _ Hs) as Hk.
  assert (Ecb : cluster_bytes (core v') = cluster_bytes (core v))
    by (unfold cluster_bytes; by destruct (kept_geometry _ _ Hk) as (_ & -> & _)).
  split; [|unfold program_bytes; by rewrite (kept_file_bytes image (core v))].
  split; rewrite ?Ed, ?Ecb; try done.
  - by apply (since_system fat16_fs W root v).
  - split; rewrite ?Ecb; try done.
    + by apply (since_path W (core v)).
    + by apply (path_good_kept image (core v)).
    + by rewrite (locate_kept image (core v)).
    + by apply (kept_chain image (core v)).
  - intros a Ha. apply H8. by apply (since_system_byte fat16_fs W root v H1 H8 v').
  - intros a Ha. apply (since_owned W (core v)); [done|by apply H11].
Qed.

(** A block added since may be written too. *)
Lemma load_ready_block v' p n : since W (core v) (core v') -> file_descriptors v' = file_descriptors v ->
  new_block (core v) (core v') p n ->
  load_ready fat16_fs image pfuel rfuel pf (fun a => W a \/ p <= a < p + n) root v' filename name rest e size i stat.
Proof.
  intros Hs Ed Hp. destruct (load_ready_since v' Hs Ed) as [[H1 H2 H3 H4 H5 H6 H7 H8 H9 H10 H11] _].
  assert (Hown : forall a, owned (fmem (core v)) a -> ~ (p <= a < p + n)).
  { intros a Ha Hin. by apply (new_unowned W (core v) (core v') p n a Hs Hp Hin). }
  split; try done.
  - intros a Ha [Hw|Hin]; [by apply (H8 a)|]. apply (Hown a); [|done].
    apply (system_byte_owned fat16_fs root); [apply Hlr|].
    apply (since_system_byte fat16_fs W root v (lr_system Hlr) (lr_clear Hlr) v'); done.
  - intros a Ha [Hw|Hin]; [by apply (H9 a)|]. apply (Hown a); [|done].
    apply (ps_owned _ _ _ _ (pg_path (lr_file Hlr))). lia.
  - intros a Ha. left. by apply H10.
Qed.

End ready.
