(* ===== verification/Kernel.v ===== *)
(** * The running kernel: what tasks, processes and interrupts share

    The state of the upper half of the kernel ([src/kernel/kernel.c],
    [src/task], [src/keyboard], [src/idt], [src/isr80h]): the file-system
    state with its memory, the paging registers, and the globals of those
    files.  The kernel's own page directory maps every address to itself, so
    code that runs on it reads and writes the flat memory directly; code that
    runs on a task's directory goes through the processor's address
    translation, which is a parameter ([mmu]) described by [mmu_ok]. *)
From S2P Require Import Prelude Config Memory CString Heap KHeap Paging Terminal PathParser Disk Fat16 File.

(** ** State *)

(** What an interrupt number, and a command number, are bound to. *)
Inductive callback : Type := cb_exception | cb_clock | cb_keyboard.
Inductive command : Type :=
| command0_sum | command1_print | command2_getkey | command3_putchar | command4_malloc
| command5_free | command6_process_load_start | command7_invoke_system_command
| command8_get_program_arguments | command9_exit.

#[export] Instance callback_eq_dec : EqDecision callback.
Proof. solve_decision. Defined.
#[export] Instance command_eq_dec : EqDecision command.
Proof. solve_decision. Defined.

Record kernel : Type := {
  files : vfs;
  paging : paging_state;
  (* the selector in DS, ES, FS and GS *)
  data_segment : Z;
  (* [page_directory_obj] of [kernel.c] *)
  kernel_chunk : Z;
  current_task : Z;
  task_head : Z;
  task_tail : Z;
  current_process : Z;
  processes : list Z;
  (* the addresses of [keyboard.c]'s list *)
  keyboard_list_head : Z;
  keyboard_list_last : Z;
  interrupt_callbacks : list (option callback);
  isr80h_commnads : list (option command) }.

Definition kmem (k : kernel) : mem := fmem (core (files k)).

Definition with_files (v : vfs) (k : kernel) : kernel :=
  {| files := v; paging := paging k; data_segment := data_segment k;
     kernel_chunk := kernel_chunk k; current_task := current_task k; task_head := task_head k;
     task_tail := task_tail k; current_process := current_process k; processes := processes k;
     keyboard_list_head := keyboard_list_head k;
     keyboard_list_last := keyboard_list_last k; interrupt_callbacks := interrupt_callbacks k;
     isr80h_commnads := isr80h_commnads k |}.
Definition with_kmem (m : mem) (k : kernel) : kernel :=
  with_files (with_core (with_mem m (core (files k))) (files k)) k.
Definition with_cpu (p : paging_state) (ds : Z) (k : kernel) : kernel :=
  {| files := files k; paging := p; data_segment := ds;
     kernel_chunk := kernel_chunk k; current_task := current_task k; task_head := task_head k;
     task_tail := task_tail k; current_process := current_process k; processes := processes k;
     keyboard_list_head := keyboard_list_head k;
     keyboard_list_last := keyboard_list_last k; interrupt_callbacks := interrupt_callbacks k;
     isr80h_commnads := isr80h_commnads k |}.
Definition with_tasks (current head tail : Z) (k : kernel) : kernel :=
  {| files := files k; paging := paging k; data_segment := data_segment k;
     kernel_chunk := kernel_chunk k; current_task := current; task_head := head;
     task_tail := tail; current_process := current_process k; processes := processes k;
     keyboard_list_head := keyboard_list_head k;
     keyboard_list_last := keyboard_list_last k; interrupt_callbacks := interrupt_callbacks k;
     isr80h_commnads := isr80h_commnads k |}.
Definition with_processes (current : Z) (ps : list Z) (k : kernel) : kernel :=
  {| files := files k; paging := paging k; data_segment := data_segment k;
     kernel_chunk := kernel_chunk k; current_task := current_task k; task_head := task_head k;
     task_tail := task_tail k; current_process := current; processes := ps;
     keyboard_list_head := keyboard_list_head k;
     keyboard_list_last := keyboard_list_last k; interrupt_callbacks := interrupt_callbacks k;
     isr80h_commnads := isr80h_commnads k |}.
Definition with_keyboards (head last : Z) (k : kernel) : kernel :=
  {| files := files k; paging := paging k; data_segment := data_segment k;
     kernel_chunk := kernel_chunk k; current_task := current_task k; task_head := task_head k;
     task_tail := task_tail k; current_process := current_process k; processes := processes k;
     keyboard_list_head := head;
     keyboard_list_last := last; interrupt_callbacks := interrupt_callbacks k;
     isr80h_commnads := isr80h_commnads k |}.
Definition with_tables (cbs : list (option callback)) (cmds : list (option command))
    (k : kernel) : kernel :=
  {| files := files k; paging := paging k; data_segment := data_segment k;
     kernel_chunk := kernel_chunk k; current_task := current_task k; task_head := task_head k;
     task_tail := task_tail k; current_process := current_process k; processes := processes k;
     keyboard_list_head := keyboard_list_head k;
     keyboard_list_last := keyboard_list_last k; interrupt_callbacks := cbs;
     isr80h_commnads := cmds |}.

(** ** Running the components *)

Definition on_files {A} (c : M vfs A) : M kernel A :=
  fun k =>
    match c (files k) with
    | Ret a v => Ret a (with_files v k)
    | Hang v => Hang (with_files v k)
    | Fault => Fault
    | NoFuel => NoFuel
    end.
Definition on_kmem {A} (f : mem -> A * mem) : M kernel A :=
  fun k => let '(a, m) := f (kmem k) in Ret a (with_kmem m k).
Definition edit_kmem (f : mem -> mem) : M kernel unit :=
  modify (fun k => with_kmem (f (kmem k)) k).

Definition kload32 (a : Z) : M kernel Z := gets (fun k => ld32 (kmem k) a).
Definition kload8 (a : Z) : M kernel Z := gets (fun k => rd (kmem k) a).
Definition kstore32 (a v : Z) : M kernel unit := edit_kmem (fun m => st32 m a v).
Definition kstore8 (a v : Z) : M kernel unit := edit_kmem (fun m => wr m a v).

(** The kernel's messages; a literal is shorter than 60 bytes. *)
Definition kpanic {A} (msg : list Z) : M kernel A := on_files (on_terminal (panic 60 (lit msg))).

(** ** Address translation *)

(** The processor's page walk: the directory in CR3, memory, a virtual
    address; [None] is a page fault. *)
Definition mmu_type : Type := Z -> mem -> Z -> option Z.

(** Two-level 32-bit paging, for accesses of the kernel: both entries have the
    present bit, the frame is the upper 20 bits of the page's entry. *)
Definition mmu_ok (mmu : mmu_type) : Prop :=
  forall dir m v, dir_wf m dir -> 0 <= v < 4294967296 ->
    Z.testbit (dir_entry m dir (v / 4194304)) 0 = true ->
    Z.testbit (pte m dir (v - v mod 4096)) 0 = true ->
    mmu dir m v = Some (paging_get_physical_address dir v m).

Section translation.
Context (mmu : mmu_type).

Definition vload8 (a : Z) : M kernel Z :=
  fun k =>
    match mmu (cr3 (paging k)) (kmem k) (u32 a) with
    | Some p => Ret (rd (kmem k) p) k
    | None => Fault
    end.
Definition vstore8 (a v : Z) : M kernel unit :=
  fun k =>
    match mmu (cr3 (paging k)) (kmem k) (u32 a) with
    | Some p => Ret tt (with_kmem (wr (kmem k) p v) k)
    | None => Fault
    end.
(** A word may cross a page boundary. *)
Definition vload32 (a : Z) : M kernel Z :=
  let! b0 := vload8 a in
  let! b1 := vload8 (a + 1) in
  let! b2 := vload8 (a + 2) in
  let! b3 := vload8 (a + 3) in
  ret (b0 + 256 * b1 + 65536 * b2 + 16777216 * b3).

End translation.

(** ** [kernel.c]: the kernel's pages *)

(** [kernel_registers] loads the kernel's data selector. *)
Definition kernel_registers : M kernel unit :=
  modify (fun k => with_cpu (paging k) KERNEL_DATA_SELECTOR k).
Definition switch_to (directory : Z) : M kernel unit :=
  modify (fun k => with_cpu (page_switch directory (paging k)) (data_segment k) k).
Definition kernel_page : M kernel unit :=
  kernel_registers ;;;
  let! chunk := gets kernel_chunk in
  let! directory := kload32 (chunk + directory_entry_offset) in
  switch_to directory.

(** ** Lemmas *)

Lemma kmem_with_kmem m k : kmem (with_kmem m k) = m.
Proof. done. Qed.
Lemma with_kmem_with_kmem m m' k : with_kmem m (with_kmem m' k) = with_kmem m k.
Proof. done. Qed.
Lemma with_kmem_id k : with_kmem (kmem k) k = k.
Proof. destruct k as [v]; destruct v as [c]; by destruct c. Qed.

(** A concrete walk that satisfies the description. *)
Definition walk : mmu_type :=
  fun dir m v =>
    if Z.testbit (dir_entry m dir (v / 4194304)) 0 &&
       Z.testbit (pte m dir (v - v mod 4096)) 0
    then Some (paging_get_physical_address dir v m) else None.

Lemma walk_ok : mmu_ok walk.
Proof. intros dir m v _ _ H1 H2. unfold walk. by rewrite H1, H2. Qed.

(** ** The memory behind a translation *)

(** The addresses of the directory and of its tables. *)
Definition space (m : mem) (dir a : Z) : Prop :=
  dir <= a < dir + 4096 \/
  exists i, 0 <= i < 1024 /\ dir_table m dir i <= a < dir_table m dir i + 4096.

(** Both entries on the way to [v] are present and lead to [p]. *)
Definition maps (m : mem) (dir v p : Z) : Prop :=
  Z.testbit (dir_entry m dir (v / 4194304)) 0 = true /\
  Z.testbit (pte m dir (v - v mod 4096)) 0 = true /\
  paging_get_physical_address dir v m = p.

Lemma mmu_maps mmu m dir v p :
  mmu_ok mmu -> dir_wf m dir -> 0 <= v < 4294967296 -> maps m dir v p -> mmu dir m v = Some p.
Proof. intros Hm Hw Hv (H1 & H2 & <-). by apply Hm. Qed.

Section frame.
Context (m m' : mem) (dir : Z) (Hs : forall a, space m dir a -> rd m' a = rd m a).

Lemma space_entry i : 0 <= i < 1024 -> dir_entry m' dir i = dir_entry m dir i.
Proof. intros Hi. apply dir_table_frame; [|done]. intros a Ha. apply Hs. by left. Qed.

Lemma space_table i : 0 <= i < 1024 -> dir_table m' dir i = dir_table m dir i.
Proof. intros Hi. unfold dir_table. by rewrite space_entry. Qed.

Lemma space_pte w : page w -> pte m' dir w = pte m dir w.
Proof.
  intros [Hw Ha]. unfold pte. rewrite space_table by dlia. apply ld32_ext. intros i Hi.
  apply Hs. right. exists (w / 4194304). split; dlia.
Qed.

Lemma space_wf : dir_wf m dir -> dir_wf m' dir.
Proof. apply dir_wf_frame. intros. by apply space_table. Qed.

Lemma space_same a : space m' dir a <-> space m dir a.
Proof.
  unfold space. split; intros [?|(i & Hi & Ha)]; [by left| |by left|];
    right; exists i; split; try done; [by rewrite <- space_table|by rewrite space_table].
Qed.

Lemma space_maps v p : dir_wf m dir -> 0 <= v < 4294967296 -> maps m dir v p -> maps m' dir v p.
Proof.
  intros Hw Hv (H1 & H2 & H3). destruct (lower_page v Hv) as [_ Hp]. repeat split.
  - rewrite space_entry; [done|dlia].
  - by rewrite space_pte.
  - rewrite translate_pte in * by (done || by apply space_wf). by rewrite space_pte.
Qed.
End frame.

Lemma dir_owned_space `{KAllocator} m obj dir ts a :
  dir_owned m obj dir ts -> space m dir a ->
  exists p, p ∈ obj :: dir :: ts /\ p <> obj /\ p <= a < p + 4096.
Proof.
  intros [Hl Hnd _ _ _ Ht] Hs. apply list.NoDup_cons in Hnd as [Hobj _].
  destruct Hs as [Ha|(i & Hi & Ha)].
  - exists dir. split; [right; by left|]. split; [|done]. intros ->. apply Hobj. by left.
  - destruct (lookup_lt_is_Some_2 ts (Z.to_nat i)) as [t E]; [lia|].
    pose proof (Ht _ _ E) as Et. rewrite Z2Nat.id in Et by lia. rewrite Et in Ha.
    exists t. apply list_elem_of_lookup_2 in E. split; [by do 2 right|]. split; [|done].
    intros ->. apply Hobj. by right.
Qed.

Lemma dir_owned_owned `{KAllocator} m obj dir ts a :
  dir_owned m obj dir ts -> space m dir a -> owned m a.
Proof.
  intros Hd Hs. destruct (dir_owned_space _ _ _ _ _ Hd Hs) as (p & Hp & _ & Ha).
  apply (owned_live m p 4096); [by apply (do_live _ _ _ _ Hd)|done].
Qed.

(** A live page that is none of the directory's blocks is outside it. *)
Lemma live_not_space `{KAllocator} m obj dir ts p a :
  dir_owned m obj dir ts -> live m p 4096 -> p ∉ dir :: ts -> p <= a < p + 4096 ->
  ~ space m dir a.
Proof.
  intros Hd Hl Hp Ha Hs. destruct (dir_owned_space _ _ _ _ _ Hd Hs) as (q & Hq & Hne & Hr).
  pose proof (do_live _ _ _ _ Hd q Hq) as Hlq.
  destruct (live_disjoint _ _ _ _ _ Hl Hlq) as [[-> _]|?]; [|lia].
  apply Hp. by apply elem_of_cons in Hq as [->|Hq].
Qed.

(** The tables' bytes are determined by the page entries. *)
Lemma pte_bytes m m' dir a :
  dir_wf m dir -> (forall i, 0 <= i < 1024 -> dir_entry m' dir i = dir_entry m dir i) ->
  (forall w, page w -> pte m' dir w = pte m dir w) ->
  (exists i, 0 <= i < 1024 /\ dir_table m dir i <= a < dir_table m dir i + 4096) ->
  rd m' a = rd m a.
Proof.
  intros Hw He Hp (i & Hi & Ha). set (o := (a - dir_table m dir i) / 4).
  assert (E : pte m' dir (i * 4194304 + o * 4096) = pte m dir (i * 4194304 + o * 4096)).
  { apply Hp. split; unfold o; dlia. }
  unfold pte, dir_table in E. rewrite He in E by (unfold o; dlia). fold (dir_table m dir i) in E.
  replace ((i * 4194304 + o * 4096) / 4194304) with i in E by (unfold o; dlia).
  replace ((i * 4194304 + o * 4096) mod 4194304 / 4096) with o in E by (unfold o; dlia).
  fold (dir_table m dir i) in E. set (b := dir_table m dir i + 4 * o) in *.
  unfold ld32 in E.
  pose proof (rd_range m b); pose proof (rd_range m (b + 1)); pose proof (rd_range m (b + 2));
  pose proof (rd_range m (b + 3)); pose proof (rd_range m' b); pose proof (rd_range m' (b + 1));
  pose proof (rd_range m' (b + 2)); pose proof (rd_range m' (b + 3)).
  assert (Hc : a = b \/ a = b + 1 \/ a = b + 2 \/ a = b + 3) by (unfold b, o; dlia).
  clearbody b. destruct Hc as [->|[->|[->| ->]]]; lia.
Qed.

Lemma table_dec m dir a :
  (exists i, 0 <= i < 1024 /\ dir_table m dir i <= a < dir_table m dir i + 4096) \/
  (forall i, 0 <= i < 1024 -> a < dir_table m dir i \/ dir_table m dir i + 4096 <= a).
Proof.
  destruct (decide (Exists (fun i => dir_table m dir i <= a < dir_table m dir i + 4096) (seqZ 0 1024)))
    as [(i & Hi & Ha)%list.Exists_exists|Hno].
  - left. exists i. apply elem_of_seqZ in Hi. split; [lia|done].
  - right. intros i Hi. destruct (decide (dir_table m dir i <= a < dir_table m dir i + 4096)); [|lia].
    exfalso. apply Hno, list.Exists_exists. exists i. split; [apply elem_of_seqZ; lia|done].
Qed.
