(* ===== verification/Task.v ===== *)
(** * Tasks: [src/task/task.c]

    A task is a heap object: its page directory, its saved registers, its
    process, and its links in the task list.  Every function of the file is a
    definition over the kernel's state; [task_list] is the list the heap
    objects form. *)
From S2P Require Import Prelude Config Memory CString Heap KHeap Paging Terminal PathParser Disk Fat16 File Elf Kernel.

(** ** Layout *)

(** [struct task]; [struct registers] is packed inside it. *)
Definition task_page_directory : Z := 0.
Definition task_registers : Z := 4.
Definition task_process : Z := 52.
Definition task_next_link : Z := 56.
Definition task_prev_link : Z := 60.
Definition sizeof_task : Z := 64.

Definition reg_edi : Z := 0.
Definition reg_esi : Z := 4.
Definition reg_ebp : Z := 8.
Definition reg_ebx : Z := 12.
Definition reg_edx : Z := 16.
Definition reg_ecx : Z := 20.
Definition reg_eax : Z := 24.
Definition reg_ip : Z := 28.
Definition reg_cs : Z := 32.
Definition reg_flags : Z := 36.
Definition reg_esp : Z := 40.
Definition reg_ss : Z := 44.

(** [struct interrupt_frame], packed: [pushad], then what the processor
    pushed. *)
Definition frame_edi : Z := 0.
Definition frame_esi : Z := 4.
Definition frame_ebp : Z := 8.
Definition frame_ebx : Z := 16.
Definition frame_edx : Z := 20.
Definition frame_ecx : Z := 24.
Definition frame_eax : Z := 28.
Definition frame_ip : Z := 32.
Definition frame_cs : Z := 36.
Definition frame_flags : Z := 40.
Definition frame_esp : Z := 44.
Definition frame_ss : Z := 48.

(** What [task_save_state] copies, in order: register, frame field. *)
Definition saved_registers : list (Z * Z) :=
  [ (reg_ip, frame_ip); (reg_cs, frame_cs); (reg_flags, frame_flags); (reg_esp, frame_esp);
    (reg_ss, frame_ss); (reg_eax, frame_eax); (reg_ebp, frame_ebp); (reg_ebx, frame_ebx);
    (reg_ecx, frame_ecx); (reg_edi, frame_edi); (reg_edx, frame_edx); (reg_esi, frame_esi) ].

(** The two fields of [struct process] this file reads. *)
Definition proc_filetype : Z := 8308.
Definition proc_elf_file : Z := 8312.
Definition PROCESS_FILETYPE_ELF : Z := 0.
Definition PROCESS_FILETYPE_BINARY : Z := 1.

(** The registers a task resumes with; [EBP] and the flags are not restored
    by [task_return]. *)
Record registers : Type := {
  edi : Z; esi : Z; ebx : Z; edx : Z; ecx : Z; eax : Z; ip : Z; cs : Z; esp : Z; ss : Z }.

(** ** Operations *)

Section operations.
Context `{KAllocator} (mmu : mmu_type).

Definition kalloc (size : Z) : M kernel Z := on_kmem (ka_alloc size).
Definition kdealloc (p : Z) : M kernel unit := edit_kmem (ka_free p).

(** [memset(task, 0, sizeof(struct task))], then the fields. *)
Definition task_init (task process : Z) : M kernel Z :=
  edit_kmem (memset task 0 sizeof_task) ;;;
  let! directory :=
    on_kmem (create_new_page_directory (Z.lor PAGING_IS_PRESENT PAGING_ACCESS_FROM_ALL)) in
  kstore32 (task + task_page_directory) directory ;;;
  if directory =? 0 then ret (- EIO)
  else
    kstore32 (task + task_registers + reg_ip) LIEBE_OS_PROGRAM_VIRTUAL_ADDRESS ;;;
    let! filetype := kload8 (process + proc_filetype) in
    (if filetype =? PROCESS_FILETYPE_ELF then
       let! elf_file := kload32 (process + proc_elf_file) in
       let! entry := gets (fun k => elf_get_entry (elf_header elf_file (kmem k)) (kmem k)) in
       kstore32 (task + task_registers + reg_ip) entry
     else ret tt) ;;;
    kstore32 (task + task_registers + reg_ss) USER_DATA_SEGMENT ;;;
    kstore32 (task + task_registers + reg_cs) USER_CODE_SEGMENT ;;;
    kstore32 (task + task_registers + reg_esp) LIEBE_OS_PROGRAM_VIRTUAL_STACK_ADDRESS_START ;;;
    kstore32 (task + task_process) process ;;;
    ret 0.

Definition task_get_next : M kernel Z :=
  let! current := gets current_task in
  let! next := kload32 (current + task_next_link) in
  if next =? 0 then gets task_head
  else
    let! current := gets current_task in kload32 (current + task_next_link).

Definition task_list_remove (task : Z) : M kernel unit :=
  let! prev := kload32 (task + task_prev_link) in
  (if negb (prev =? 0) then
     let! next := kload32 (task + task_next_link) in kstore32 (prev + task_next_link) next
   else ret tt) ;;;
  let! k := get in
  (if task =? task_head k then
     let! next := kload32 (task + task_next_link) in
     modify (fun k => with_tasks (current_task k) next (task_tail k) k)
   else ret tt) ;;;
  let! k := get in
  (if task =? task_tail k then
     let! prev := kload32 (task + task_prev_link) in
     modify (fun k => with_tasks (current_task k) (task_head k) prev k)
   else ret tt) ;;;
  let! k := get in
  if task =? current_task k then
    let! next := task_get_next in
    modify (fun k => with_tasks next (task_head k) (task_tail k) k)
  else ret tt.

Definition task_free (task : Z) : M kernel Z :=
  let! chunk := kload32 (task + task_page_directory) in
  edit_kmem (paging_free_4gb chunk) ;;;
  task_list_remove task ;;;
  kdealloc task ;;;
  ret 0.

(** A pointer, or a status cast to one. *)
Definition task_new (process : Z) : M kernel Z :=
  let! task := kalloc sizeof_task in
  if task =? 0 then task_free task ;;; ret (ERROR (u32 (- ENOMEM)))
  else
    let! res := task_init task process in
    if negb (res =? OK) then
      if ISERR res then task_free task ;;; ret (ERROR (u32 res)) else ret task
    else
      let! head := gets task_head in
      if head =? 0 then modify (with_tasks task task task) ;;; ret task
      else
        let! tail := gets task_tail in
        kstore32 (tail + task_next_link) task ;;;
        let! tail := gets task_tail in
        kstore32 (task + task_prev_link) tail ;;;
        modify (fun k => with_tasks (current_task k) (task_head k) task k) ;;;
        ret task.

(** [user_registers] loads the user's data selector. *)
Definition user_registers : M kernel unit := modify (fun k => with_cpu (paging k) 0x23 k).

(** [page_switch(task->page_directory->directory_entry)]. *)
Definition switch_pages (task : Z) : M kernel unit :=
  let! chunk := kload32 (task + task_page_directory) in
  let! directory := kload32 (chunk + directory_entry_offset) in
  switch_to directory.
Definition task_switch (task : Z) : M kernel Z :=
  modify (fun k => with_tasks task (task_head k) (task_tail k) k) ;;;
  switch_pages task ;;; ret 0.
Definition task_page : M kernel Z :=
  user_registers ;;;
  let! task := gets current_task in task_switch task ;;; ret 0.
Definition task_page_task (task : Z) : M kernel Z :=
  user_registers ;;; switch_pages task ;;; ret 0.

(** The assembly routine: the registers read from the structure while the
    task's directory is loaded.  It does not return to its caller. *)
Definition task_return (regs : Z) : M kernel registers :=
  let reg o := vload32 mmu (regs + o) in
  let! r_ss := reg reg_ss in
  let! r_esp := reg reg_esp in
  let! r_cs := reg reg_cs in
  let! r_ip := reg reg_ip in
  modify (fun k => with_cpu (paging k) (u16 r_ss) k) ;;;
  let! r_edi := reg reg_edi in
  let! r_esi := reg reg_esi in
  let! r_edx := reg reg_edx in
  let! r_ecx := reg reg_ecx in
  let! r_eax := reg reg_eax in
  let! r_ebx := reg reg_ebx in
  ret {| edi := r_edi; esi := r_esi; ebx := r_ebx; edx := r_edx; ecx := r_ecx; eax := r_eax;
         ip := r_ip; cs := r_cs; esp := r_esp; ss := r_ss |}.

Definition task_run_first_ever_task : M kernel registers :=
  let! current := gets current_task in
  if current =? 0 then kpanic (codes "task_run_first_ever_task(): No current task exists!" ++ [10])
  else
    let! head := gets task_head in
    task_switch head ;;;
    task_return (head + task_registers).

Fixpoint save_registers (l : list (Z * Z)) (task frame : Z) : M kernel unit :=
  match l with
  | [] => ret tt
  | (r, f) :: l' =>
    let! v := kload32 (frame + f) in
    kstore32 (task + task_registers + r) v ;;; save_registers l' task frame
  end.
Definition task_save_state (task frame : Z) : M kernel unit :=
  save_registers saved_registers task frame.
Definition task_current_save_state (frame : Z) : M kernel unit :=
  let! task := gets current_task in
  if task =? 0 then kpanic (codes "!No current task to save " ++ [10]) else task_save_state task frame.

(** [strncpy(tmp, virtual, max)] on the task's pages. *)
Fixpoint vstrncpy_loop (n : nat) (i dest src : Z) : M kernel Z :=
  match n with
  | O => ret i
  | S n' =>
    let! c := vload8 mmu (src + i) in
    if c =? 0 then ret i
    else
      let! c := vload8 mmu (src + i) in
      vstore8 mmu (dest + i) c ;;; vstrncpy_loop n' (i + 1) dest src
  end.
Definition vstrncpy (dest src count : Z) : M kernel unit :=
  let! i := vstrncpy_loop (Z.to_nat (count - 1)) 0 dest src in
  vstore8 mmu (dest + i) 0.

Definition TASK_PAGE_FLAGS : Z :=
  Z.lor (Z.lor PAGING_IS_WRITEABLE PAGING_IS_PRESENT) PAGING_ACCESS_FROM_ALL.

(** The directory's address is read from the task each time it is used. *)
Definition task_directory (task : Z) : M kernel Z :=
  let! chunk := kload32 (task + task_page_directory) in
  kload32 (chunk + directory_entry_offset).

Definition copy_string_from_task (task virtual physical max : Z) : M kernel Z :=
  if PAGE_SIZE <=? max then ret (- EINVARG)
  else
    let! tmp := kalloc (u32 max) in
    if tmp =? 0 then ret (- ENOMEM)
    else
      let! directory := task_directory task in
      let! old_entry := gets (fun k => paging_get directory tmp (kmem k)) in
      let! directory' := task_directory task in
      on_kmem (paging_map directory' tmp tmp TASK_PAGE_FLAGS) ;;;
      let! directory'' := task_directory task in
      switch_to directory'' ;;;
      vstrncpy tmp virtual max ;;;
      kernel_page ;;;
      let! res := on_kmem (paging_set directory tmp old_entry) in
      if res <? 0 then kdealloc tmp ;;; ret (- EIO)
      else
        edit_kmem (strncpy physical tmp max) ;;;
        kdealloc tmp ;;; ret res.

Definition task_get_stack_item (task index : Z) : M kernel Z :=
  let! sp_ptr := kload32 (task + task_registers + reg_esp) in
  task_page_task task ;;;
  let! result := vload32 mmu (sp_ptr + 4 * index) in
  kernel_page ;;;
  ret result.

Definition task_virtual_address_to_physical (task virtual_address : Z) : M kernel Z :=
  let! directory := task_directory task in
  gets (fun k => paging_get_physical_address directory virtual_address (kmem k)).

Definition task_next : M kernel registers :=
  let! next_task := task_get_next in
  if next_task =? 0 then kpanic (codes "No more tasks!" ++ [10])
  else
    task_switch next_task ;;;
    task_return (next_task + task_registers).

End operations.

(** ** The task list *)

(** [l] is the list found from [head] through the [next] links. *)
Definition chain (m : mem) (head : Z) (l : list Z) : Prop :=
  head = default 0 (l !! 0%nat) /\
  forall i t, l !! i = Some t -> t <> 0 /\ ld32 m (t + task_next_link) = default 0 (l !! S i).

(** The whole structure: also the [prev] links and the tail, and no two
    objects overlap. *)
Record task_list (m : mem) (head tail : Z) (l : list Z) : Prop := {
  tl_chain : chain m head l;
  tl_prev : forall i t, l !! i = Some t ->
    ld32 m (t + task_prev_link) = match i with O => 0 | S j => default 0 (l !! j) end;
  tl_tail : tail = default 0 (l !! pred (length l));
  tl_apart : forall i j s t, l !! i = Some s -> l !! j = Some t -> i <> j ->
    s + sizeof_task <= t \/ t + sizeof_task <= s }.

(** ** Lemmas: the list *)

Ltac kstep := cbv beta iota delta [bind ret gets get modify kload32 kload8 kstore32 kstore8
  edit_kmem on_kmem].
Ltac ksimpl := cbn [kmem files core fmem with_mem with_core with_files with_kmem with_tasks with_cpu
  with_processes current_task task_head task_tail paging data_segment kernel_chunk
  current_process processes].

(** What [task_list_remove] does, for whatever the links say. *)
Definition unlinked (t : Z) (k : kernel) : kernel :=
  let m := kmem k in
  let prev := ld32 m (t + task_prev_link) in
  let m' := if prev =? 0 then m
            else st32 m (prev + task_next_link) (ld32 m (t + task_next_link)) in
  let head := if t =? task_head k then ld32 m' (t + task_next_link) else task_head k in
  let tail := if t =? task_tail k then ld32 m' (t + task_prev_link) else task_tail k in
  let current :=
    if t =? current_task k then
      if ld32 m' (t + task_next_link) =? 0 then head else ld32 m' (t + task_next_link)
    else current_task k in
  with_tasks current head tail (with_kmem m' k).

Lemma with_tasks_id k : with_tasks (current_task k) (task_head k) (task_tail k) k = k.
Proof. by destruct k. Qed.

(** A statement under a condition. *)
Lemma when_Ret {S} (b : bool) (c : M S unit) s s' :
  c s = Ret tt s' -> (if b then c else ret tt) s = Ret tt (if b then s' else s).
Proof. by destruct b. Qed.

Lemma task_get_next_eq k : task_get_next k =
  Ret (if ld32 (kmem k) (current_task k + task_next_link) =? 0 then task_head k
       else ld32 (kmem k) (current_task k + task_next_link)) k.
Proof. unfold task_get_next. kstep. by destruct (_ =? 0). Qed.

Lemma task_list_remove_eq t k : task_list_remove t k = Ret tt (unlinked t k).
Proof.
  unfold task_list_remove, unlinked.
  rewrite (bind_Ret _ _ k (ld32 (kmem k) (t + task_prev_link)) k) by done.
  erewrite bind_Ret; [|apply when_Ret; reflexivity].
  set (k1 := if negb _ then _ else k).
  assert (E1 : k1 = with_kmem (if ld32 (kmem k) (t + task_prev_link) =? 0 then kmem k
      else st32 (kmem k) (ld32 (kmem k) (t + task_prev_link) + task_next_link)
             (ld32 (kmem k) (t + task_next_link))) k).
  { subst k1. destruct (_ =? 0); cbn [negb]; [by rewrite with_kmem_id|done]. }
  rewrite E1. set (m' := if _ =? 0 then _ else _). clear E1 k1.
  rewrite (bind_Ret _ _ _ (with_kmem m' k) (with_kmem m' k)) by done. ksimpl.
  erewrite bind_Ret; [|apply when_Ret; reflexivity].
  set (k2 := if t =? task_head k then _ else _).
  assert (E2 : k2 = with_tasks (current_task k)
    (if t =? task_head k then ld32 m' (t + task_next_link) else task_head k) (task_tail k)
    (with_kmem m' k)) by (subst k2; by destruct (t =? task_head k)).
  rewrite E2. clear E2 k2. set (head := if t =? task_head k then _ else _).
  set (k2 := with_tasks _ head _ _).
  rewrite (bind_Ret _ _ k2 k2 k2) by done. unfold k2 at 1. ksimpl.
  erewrite bind_Ret; [|apply when_Ret; reflexivity].
  set (k3 := if t =? task_tail k then _ else _).
  assert (E3 : k3 = with_tasks (current_task k) head
    (if t =? task_tail k then ld32 m' (t + task_prev_link) else task_tail k)
    (with_kmem m' k)) by (subst k3; by destruct (t =? task_tail k)).
  rewrite E3. clear E3 k3. set (tail := if t =? task_tail k then _ else _).
  set (k3 := with_tasks _ head tail _). rewrite (bind_Ret _ _ k3 k3 k3) by done.
  unfold k3 at 1. ksimpl. destruct (Z.eqb_spec t (current_task k)) as [->|]; [|done].
  rewrite (bind_Ret _ _ _ _ _ (task_get_next_eq k3)). done.
Qed.

Lemma list_nonempty_length (l : list Z) : l <> [] -> (0 < length l)%nat.
Proof. destruct l; [done|cbn; lia]. Qed.

Lemma chain_frame m m' head l :
  (forall i t, l !! i = Some t -> ld32 m' (t + task_next_link) = ld32 m (t + task_next_link)) ->
  chain m head l -> chain m' head l.
Proof. intros Hf [Hh Hc]. split; [done|]. intros i t Hi. rewrite (Hf i t Hi). by apply Hc. Qed.

(** Dropping the head, and gluing two halves. *)
Lemma chain_tail m head t l : chain m head (t :: l) -> chain m (ld32 m (t + task_next_link)) l.
Proof.
  intros [_ Hc]. split; [apply (Hc 0%nat t eq_refl)|]. intros i s Hi. by apply (Hc (S i) s).
Qed.
Lemma lookup_upto (l1 : list Z) p x j : (j <= length l1)%nat ->
  (l1 ++ p :: x) !! j = (l1 ++ [p]) !! j.
Proof.
  intros Hj. destruct (decide (j = length l1)) as [->|].
  - by rewrite !list_lookup_middle.
  - by rewrite !lookup_app_l by lia.
Qed.
Lemma chain_glue m head l1 p q :
  head = default 0 ((l1 ++ [p]) !! 0%nat) ->
  (forall i t, l1 !! i = Some t -> t <> 0 /\
     ld32 m (t + task_next_link) = default 0 ((l1 ++ [p]) !! S i)) ->
  p <> 0 -> ld32 m (p + task_next_link) = default 0 (q !! 0%nat) ->
  (forall i t, q !! i = Some t -> t <> 0 /\
     ld32 m (t + task_next_link) = default 0 (q !! S i)) ->
  chain m head (l1 ++ p :: q).
Proof.
  intros Hh H1 Hp Hn Hq. split; [by rewrite lookup_upto by lia|].
  intros i t Hi. destruct (lt_eq_lt_dec i (length l1)) as [[Hlt| ->]|Hgt].
  - rewrite lookup_app_l in Hi by done. rewrite lookup_upto by lia. by apply H1.
  - rewrite list_lookup_middle in Hi by done. injection Hi as <-. split; [done|].
    rewrite lookup_app_r by lia. by replace (S (length l1) - length l1)%nat with 1%nat by lia.
  - rewrite lookup_app_r in Hi by lia. rewrite lookup_app_r by lia.
    replace (i - length l1)%nat with (S (i - S (length l1))) in Hi by lia.
    replace (S i - length l1)%nat with (S (S (i - S (length l1)))) by lia. by apply Hq.
Qed.

Section unlink.
Context (m : mem) (head tail : Z) (l1 : list Z) (t : Z) (l2 : list Z)
  (Hl : task_list m head tail (l1 ++ t :: l2)).

Lemma tl_middle : (l1 ++ t :: l2) !! length l1 = Some t.
Proof. by apply list_lookup_middle. Qed.

Lemma tl_next_t : ld32 m (t + task_next_link) = default 0 (l2 !! 0%nat).
Proof.
  destruct (tl_chain _ _ _ _ Hl) as [_ Hc]. destruct (Hc _ _ tl_middle) as [_ ->].
  rewrite lookup_app_r by lia. by replace (S (length l1) - length l1)%nat with 1%nat by lia.
Qed.

Lemma tl_prev_t : ld32 m (t + task_prev_link) = default 0 (l1 !! pred (length l1)) /\
  (l1 = [] <-> ld32 m (t + task_prev_link) = 0).
Proof.
  rewrite (tl_prev _ _ _ _ Hl _ _ tl_middle). destruct (length l1) as [|j] eqn:El.
  - apply nil_length_inv in El. by subst.
  - rewrite lookup_app_l by lia. split; [done|].
    destruct (lookup_lt_is_Some_2 l1 j) as [p Hp]; [lia|]. rewrite Hp. cbn.
    destruct (tl_chain _ _ _ _ Hl) as [_ Hc]. destruct (Hc j p) as [Hp0 _].
    { by rewrite lookup_app_l by lia. }
    split; [intros ->; discriminate|done].
Qed.

Lemma tl_other i s : (l1 ++ l2) !! i = Some s -> s + 64 <= t \/ t + 64 <= s.
Proof.
  intros Hi. apply lookup_app_Some in Hi as [Hi|[Hge Hi]].
  - apply (tl_apart _ _ _ _ Hl i (length l1)); [|apply tl_middle|].
    + by rewrite lookup_app_l by (by eapply lookup_lt_Some).
    + apply lookup_lt_Some in Hi. lia.
  - apply (tl_apart _ _ _ _ Hl (S i) (length l1)); [|apply tl_middle|lia].
    rewrite lookup_app_r by lia. by replace (S i - length l1)%nat with (S (i - length l1)) by lia.
Qed.

Lemma tl_is_head : t = head <-> l1 = [].
Proof.
  destruct (tl_chain _ _ _ _ Hl) as [E0 _]. rewrite E0. split.
  - intros E. destruct (decide (l1 = [])) as [|Hne]; [done|].
    destruct (lookup_lt_is_Some_2 l1 0) as [p Hp]; [by apply list_nonempty_length|].
    rewrite lookup_app_l in E by (by eapply lookup_lt_Some). rewrite Hp in E. cbn in E.
    pose proof (tl_other 0 p). rewrite lookup_app_l in H by (by eapply lookup_lt_Some).
    specialize (H Hp). lia.
  - intros E. by rewrite E.
Qed.

Lemma tl_is_tail : t = tail <-> l2 = [].
Proof.
  rewrite (tl_tail _ _ _ _ Hl). rewrite length_app. cbn [length].
  replace (pred _) with (length l1 + length l2)%nat by lia. split.
  - intros E. destruct (decide (l2 = [])) as [|Hne]; [done|].
    apply list_nonempty_length in Hne.
    destruct (lookup_lt_is_Some_2 l2 (pred (length l2))) as [s Hs]; [lia|].
    pose proof (tl_other (length l1 + pred (length l2)) s) as Ho.
    rewrite lookup_app_r, Nat.add_sub_swap, Nat.sub_diag in Ho by lia. specialize (Ho Hs).
    rewrite lookup_app_r in E by lia.
    replace (length l1 + length l2 - length l1)%nat with (S (pred (length l2))) in E by lia.
    assert (E2 : (t :: l2) !! S (pred (length l2)) = Some s) by exact Hs.
    rewrite E2 in E. cbn in E. lia.
  - intros E. replace (length l1 + length l2)%nat with (length l1) by (rewrite E; cbn; lia).
    by rewrite tl_middle.
Qed.

(** The value of [prev->next]. *)
Definition unlinked_mem : mem :=
  if ld32 m (t + task_prev_link) =? 0 then m
  else st32 m (ld32 m (t + task_prev_link) + task_next_link) (ld32 m (t + task_next_link)).

Lemma unlinked_outside a :
  (forall i p, l1 !! i = Some p -> S i = length l1 -> a < p + 56 \/ p + 60 <= a) ->
  rd unlinked_mem a = rd m a.
Proof.
  intros Ha. unfold unlinked_mem. destruct (Z.eqb_spec (ld32 m (t + task_prev_link)) 0) as [|Hn]; [done|].
  destruct tl_prev_t as [E Hp]. destruct (lookup_lt_is_Some_2 l1 (pred (length l1))) as [p Hi].
  { destruct (decide (l1 = [])) as [E1|E1]; [exfalso; by apply Hn, Hp|].
    apply list_nonempty_length in E1. lia. }
  rewrite E, Hi. cbn. apply rd_st32_ne. apply lookup_lt_Some in Hi as Hlt.
  specialize (Ha _ _ Hi ltac:(lia)). unfold task_next_link. lia.
Qed.

Lemma unlinked_field s o : 0 <= o <= 60 -> o <> 56 ->  o + 4 <= 56 \/ o = 60 ->
  (s = t \/ exists i, (l1 ++ l2) !! i = Some s) -> ld32 unlinked_mem (s + o) = ld32 m (s + o).
Proof.
  intros Ho _ Ho2 Hs. apply ld32_ext. intros j Hj. apply unlinked_outside. intros i p Hi Hlen.
  destruct Hs as [->|[k Hk]].
  - pose proof (tl_other i p) as H0. rewrite lookup_app_l in H0 by (by eapply lookup_lt_Some).
    specialize (H0 Hi). lia.
  - destruct (decide (k = i)) as [->|Hne].
    + rewrite lookup_app_l in Hk by (by eapply lookup_lt_Some). rewrite Hi in Hk.
      injection Hk as ->. lia.
    + assert (H0 : s + sizeof_task <= p \/ p + sizeof_task <= s); [|unfold sizeof_task in H0; lia].
      apply lookup_lt_Some in Hi as Hlt.
      apply lookup_app_Some in Hk as [Hk|[Hge Hk]].
      * apply (tl_apart _ _ _ _ Hl k i); [| |done]; rewrite lookup_app_l by (by eapply lookup_lt_Some); done.
      * apply (tl_apart _ _ _ _ Hl (S k) i); [| |lia].
        -- rewrite lookup_app_r by lia.
           by replace (S k - length l1)%nat with (S (k - length l1)) by lia.
        -- by rewrite lookup_app_l by done.
Qed.

Lemma unlinked_next_t : ld32 unlinked_mem (t + task_next_link) = ld32 m (t + task_next_link).
Proof.
  apply ld32_ext. intros j Hj. apply unlinked_outside. intros i p Hi Hlen.
  pose proof (tl_other i p) as H0. rewrite lookup_app_l in H0 by (by eapply lookup_lt_Some).
  specialize (H0 Hi). unfold task_next_link. lia.
Qed.

Lemma unlinked_chain :
  chain unlinked_mem (if t =? head then ld32 unlinked_mem (t + task_next_link) else head) (l1 ++ l2).
Proof.
  destruct (tl_chain _ _ _ _ Hl) as [Hh Hc].
  assert (Hl2 : forall i s, l2 !! i = Some s -> s <> 0 /\
      ld32 unlinked_mem (s + task_next_link) = default 0 (l2 !! S i)).
  { intros i s Hi. destruct (Hc (S (length l1) + i)%nat s) as [H1 H2].
    { rewrite lookup_app_r by lia. by replace (S (length l1) + i - length l1)%nat with (S i) by lia. }
    split; [done|]. rewrite lookup_app_r in H2 by lia.
    replace (S (S (length l1) + i) - length l1)%nat with (S (S i)) in H2 by lia. change ((t :: l2) !! S (S i)) with (l2 !! S i) in H2.
    etrans; [|exact H2]. apply ld32_ext. intros j Hj. apply unlinked_outside. intros k p Hk Hlen.
    assert (H0 : s + sizeof_task <= p \/ p + sizeof_task <= s).
    { apply lookup_lt_Some in Hk as Hlt.
      apply (tl_apart _ _ _ _ Hl (S (length l1) + i) k); [| |lia].
      - rewrite lookup_app_r by lia. by replace (S (length l1) + i - length l1)%nat with (S i) by lia.
      - by rewrite lookup_app_l by done. }
    unfold sizeof_task in H0. unfold task_next_link. lia. }
  rewrite unlinked_next_t, tl_next_t.
  destruct (Z.eqb_spec t head) as [E|E].
  { apply tl_is_head in E. rewrite E. cbn [app]. by split. }
  destruct tl_prev_t as [Ep _].
  assert (Hne : l1 <> []) by (intros En; by apply E, tl_is_head).
  destruct (exists_last Hne) as (l1' & p & El1).
  assert (Hpi : l1 !! length l1' = Some p) by (rewrite El1; by apply list_lookup_middle).
  assert (Hlen : length l1 = S (length l1')) by (rewrite El1, length_app; cbn; lia).
  assert (Hprev : ld32 m (t + task_prev_link) = p) by (rewrite Ep, Hlen; cbn; by rewrite Hpi).
  assert (Hp0 : p <> 0).
  { apply (Hc (length l1') p). by rewrite lookup_app_l by lia. }
  assert (Eall : l1 ++ l2 = l1' ++ p :: l2) by (rewrite El1, <- app_assoc; done).
  assert (Eold : l1 ++ t :: l2 = l1' ++ p :: t :: l2) by (rewrite El1, <- app_assoc; done).
  rewrite Eall. apply chain_glue; [| |done| |exact Hl2].
  - rewrite Hh, Eold. by rewrite lookup_upto by lia.
  - intros i s Hi. apply lookup_lt_Some in Hi as Hlt.
    destruct (Hc i s) as [H1 H2]; [rewrite Eold; by rewrite lookup_app_l|]. split; [done|].
    rewrite Eold, lookup_upto in H2 by lia. rewrite <- H2. apply ld32_ext. intros j Hj.
    apply unlinked_outside. intros k q Hk Hlast. assert (k = length l1') as -> by lia.
    assert (H0 : s + sizeof_task <= q \/ q + sizeof_task <= s).
    { apply (tl_apart _ _ _ _ Hl i (length l1')); [| |lia].
      - rewrite Eold. by rewrite lookup_app_l.
      - by rewrite lookup_app_l by lia. }
    unfold sizeof_task in H0. unfold task_next_link. lia.
  - unfold unlinked_mem. rewrite Hprev. destruct (Z.eqb_spec p 0); [done|].
    rewrite ld32_st32_eq, tl_next_t. apply u32_id. rewrite <- tl_next_t. apply ld32_range.
Qed.

(** The new tail. *)
Lemma unlinked_tail :
  (if t =? tail then ld32 unlinked_mem (t + task_prev_link) else tail) =
    default 0 ((l1 ++ l2) !! pred (length (l1 ++ l2))).
Proof.
  rewrite unlinked_field by (unfold task_prev_link; auto with lia).
  destruct (Z.eqb_spec t tail) as [E|E].
  - apply tl_is_tail in E. rewrite E, app_nil_r. apply tl_prev_t.
  - assert (Hne : l2 <> []) by (intros En; by apply E, tl_is_tail).
    rewrite (tl_tail _ _ _ _ Hl), !length_app. cbn [length].
    apply list_nonempty_length in Hne. rewrite !lookup_app_r by lia.
    replace (pred (length l1 + S (length l2)) - length l1)%nat with (S (pred (length l2))) by lia.
    by replace (pred (length l1 + length l2) - length l1)%nat with (pred (length l2)) by lia.
Qed.

End unlink.

(** ** Lemmas: copying a string out of a task *)

(** The kernel running on directory [dir] with memory [m]. *)
Definition running (dir ds : Z) (m : mem) (k : kernel) : kernel :=
  with_cpu {| cr3 := dir; current_directory := dir |} ds (with_kmem m k).

(** The string [l] is what the addresses from [v] show through [dir], outside
    the page [tmp]. *)
Definition vstring (m : mem) (dir v : Z) (l : list Z) (tmp : Z) : Prop :=
  Forall char_ok l /\ 0 <= v /\ v + Z.of_nat (length l) < 4294967296 /\
  forall j, (j <= length l)%nat -> exists p, maps m dir (v + Z.of_nat j) p /\
    rd m p = default 0 (l !! j) /\ (p < tmp \/ tmp + 4096 <= p).

Section copy.
Context (mmu : mmu_type) (Hmmu : mmu_ok mmu) (k : kernel) (m0 : mem) (dir ds tmp v : Z) (l : list Z).
Context (Hwf : dir_wf m0 dir) (Htmp : page tmp)
  (Hspace : forall a, space m0 dir a -> a < tmp \/ tmp + 4096 <= a)
  (Hself : forall j, 0 <= j < 4096 -> maps m0 dir (tmp + j) (tmp + j))
  (Hstr : vstring m0 dir v l tmp) (Hlen : Z.of_nat (length l) < 4096).

(** The first [i] characters are in place. *)
Definition copied (i : nat) (m : mem) : Prop :=
  (forall a, a < tmp \/ tmp + Z.of_nat i <= a -> rd m a = rd m0 a) /\
  (forall j, (j < i)%nat -> rd m (tmp + Z.of_nat j) = default 0 (l !! j)).

Lemma copied_space i m a : (i <= length l)%nat -> copied i m -> space m0 dir a -> rd m a = rd m0 a.
Proof. intros Hi [Ho _] Ha. apply Ho. specialize (Hspace a Ha). lia. Qed.

Lemma vload_char i m : (i <= length l)%nat -> copied i m ->
  vload8 mmu (v + Z.of_nat i) (running dir ds m k) =
    Ret (default 0 (l !! i)) (running dir ds m k).
Proof.
  intros Hi Hc. destruct Hstr as (_ & Hv & Hb & Hp). destruct (Hp i Hi) as (p & Hm & Hr & Hd).
  unfold vload8, running. ksimpl. cbn [cr3]. rewrite u32_id by lia.
  rewrite (mmu_maps mmu m dir _ p Hmmu).
  - do 2 f_equal. rewrite <- Hr. apply Hc. lia.
  - apply (space_wf m0); [|done]. intros a Ha. by apply (copied_space i).
  - lia.
  - apply (space_maps m0); [|done|lia|done]. intros a Ha. by apply (copied_space i).
Qed.

Lemma vstore_char i m x : (i <= length l)%nat -> copied i m ->
  vstore8 mmu (tmp + Z.of_nat i) x (running dir ds m k) =
    Ret tt (running dir ds (wr m (tmp + Z.of_nat i) x) k).
Proof.
  intros Hi Hc. pose proof (page_top _ Htmp). destruct Htmp as [Hr _].
  unfold vstore8, running. ksimpl. cbn [cr3]. rewrite u32_id by lia.
  rewrite (mmu_maps mmu m dir _ (tmp + Z.of_nat i) Hmmu); [done| |lia|].
  - apply (space_wf m0); [|done]. intros a Ha. by apply (copied_space i).
  - apply (space_maps m0); [|done|lia|apply Hself; lia]. intros a Ha. by apply (copied_space i).
Qed.

Lemma vstrncpy_loop_spec n : forall i m, (i <= length l)%nat -> (length l <= i + n)%nat ->
  copied i m ->
  exists m', vstrncpy_loop mmu n (Z.of_nat i) tmp v (running dir ds m k) =
      Ret (Z.of_nat (length l)) (running dir ds m' k) /\ copied (length l) m'.
Proof.
  induction n as [|n IH]; intros i m Hi Hn Hc; cbn [vstrncpy_loop].
  - replace i with (length l) in * by lia. by exists m.
  - rewrite (bind_Ret _ _ _ _ _ (vload_char i m Hi Hc)).
    destruct (l !! i) as [x|] eqn:El.
    + destruct Hstr as (Hok & _). rewrite Forall_lookup in Hok. specialize (Hok i x El).
      unfold char_ok in Hok. change (default 0 (Some x)) with x.
      destruct (Z.eqb_spec x 0); [lia|].
      rewrite (bind_Ret _ _ _ _ _ (vload_char i m Hi Hc)). rewrite El.
      change (default 0 (Some x)) with x.
      rewrite (bind_Ret _ _ _ _ _ (vstore_char i m x Hi Hc)).
      apply lookup_lt_Some in El as Hlt. destruct Hc as [Ho Hin].
      replace (Z.of_nat i + 1) with (Z.of_nat (S i)) by lia. apply IH; [lia|lia|].
      split.
      * intros a Ha. rewrite rd_wr_ne by lia. apply Ho. lia.
      * intros j Hj. destruct (decide (j = i)) as [->|].
        -- rewrite rd_wr_eq, El. cbn. apply u8_id. lia.
        -- rewrite rd_wr_ne by lia. apply Hin. lia.
    + apply lookup_ge_None in El. replace i with (length l) in * by lia.
      exists m. by rewrite Z.eqb_refl.
Qed.

Lemma vstrncpy_spec count : Z.of_nat (length l) < count -> 
  exists m', vstrncpy mmu tmp v count (running dir ds m0 k) = Ret tt (running dir ds m' k) /\
    cstr (at_mem m' tmp) l /\
    (forall a, a < tmp \/ tmp + 4096 <= a -> rd m' a = rd m0 a).
Proof.
  intros Hcount. unfold vstrncpy.
  destruct (vstrncpy_loop_spec (Z.to_nat (count - 1)) 0 m0) as (m' & E & Hc);
    [lia|lia|by split; [done|lia]|].
  rewrite (bind_Ret _ _ _ _ _ E). rewrite vstore_char by done.
  eexists. split; [done|]. destruct Hc as [Ho Hin]. split; [|].
  - split.
    + intros j x Hx. apply lookup_lt_Some in Hx as Hlt. unfold at_mem.
      rewrite rd_wr_ne by lia. rewrite Hin by done. by rewrite Hx.
    + unfold at_mem. by rewrite rd_wr_eq.
    + apply Hstr.
  - intros a Ha. rewrite rd_wr_ne by lia. apply Ho. lia.
Qed.

End copy.

(** ** A task with its address space *)

(** The object [task] is a live page whose directory is [dir], through the
    object [chunk]; every table of the directory is present. *)
Record task_space `{KAllocator} (m : mem) (task chunk dir : Z) (ts : list Z) : Prop := {
  sp_chunk : ld32 m (task + task_page_directory) = chunk;
  sp_owned : dir_owned m chunk dir ts;
  sp_live : live m task 4096;
  sp_page : page task;
  sp_fresh : task ∉ chunk :: dir :: ts;
  sp_present : forall i, 0 <= i < 1024 -> Z.testbit (dir_entry m dir i) 0 = true }.

(** Memory a client may rely on across the kernel's own page-table work. *)
Definition stable `{KAllocator} (m : mem) (dir a : Z) : Prop := owned m a /\ ~ space m dir a.

Section copy_string.
Context `{KAllocator} (mmu : mmu_type) (Hmmu : mmu_ok mmu).
Context (m : mem) (task chunk dir : Z) (ts : list Z) (Hts : task_space m task chunk dir ts).

Lemma space_owned a : space m dir a -> owned m a.
Proof. apply (dir_owned_owned _ _ _ _ _ (sp_owned _ _ _ _ _ Hts)). Qed.

Lemma task_stable a : task <= a < task + 4096 -> stable m dir a.
Proof.
  intros Ha. destruct Hts as [_ Hd Hl _ Hf _]. split; [by eapply owned_live|].
  apply (live_not_space _ _ _ _ _ _ Hd Hl); [|done]. intros Hin. apply Hf. by right.
Qed.

Lemma chunk_stable a : chunk <= a < chunk + 4096 -> stable m dir a.
Proof.
  intros Ha. destruct Hts as [_ Hd _ _ _ _].
  assert (Hl : live m chunk 4096) by (apply (do_live _ _ _ _ Hd); by left).
  split; [by eapply owned_live|]. apply (live_not_space _ _ _ _ _ _ Hd Hl); [|done].
  pose proof (do_nodup _ _ _ _ Hd) as Hn. by apply list.NoDup_cons in Hn as [Hn _].
Qed.

(** The directory is found through the task as long as stable bytes stay. *)
Lemma task_directory_eq m' k :
  kmem k = m' -> (forall a, stable m dir a -> rd m' a = rd m a) -> task_directory task k = Ret dir k.
Proof.
  intros <- Hst. destruct Hts as [Hc Hd Hl _ _ _].
  assert (E1 : ld32 (kmem k) (task + task_page_directory) = chunk).
  { rewrite <- Hc. apply ld32_ext. intros i Hi. apply Hst, task_stable.
    unfold task_page_directory. lia. }
  assert (E2 : ld32 (kmem k) (chunk + directory_entry_offset) = dir).
  { rewrite <- (do_obj _ _ _ _ Hd). unfold directory_entry_offset. rewrite Z.add_0_r.
    apply ld32_ext. intros i Hi. apply Hst, chunk_stable. lia. }
  unfold task_directory. kstep. by rewrite E1, E2.
Qed.

(** After [tmp] is allocated ([m1]) and mapped to itself ([m2]). *)
Section mapped.
Context (m1 m2 : mem) (tmp : Z) (Htmp : page tmp)
  (Hout : forall a, owned m a -> (a < tmp \/ tmp + 4096 <= a) /\ rd m1 a = rd m a)
  (Hw2 : dir_wf m2 dir)
  (He2 : forall i, 0 <= i < 1024 -> dir_entry m2 dir i = dir_entry m1 dir i)
  (Hp2 : forall w, page w -> pte m2 dir w =
     if w =? tmp then u32 (u32 (Z.lor tmp TASK_PAGE_FLAGS)) else pte m1 dir w)
  (Ho2 : forall a, (forall i, 0 <= i < 1024 ->
     a < dir_table m1 dir i \/ dir_table m1 dir i + 4096 <= a) -> rd m2 a = rd m1 a).

Lemma space_m1 a : space m dir a -> rd m1 a = rd m a.
Proof. intros Ha. by apply Hout, space_owned. Qed.

Lemma not_space_tables a : ~ space m dir a -> forall i, 0 <= i < 1024 ->
  a < dir_table m1 dir i \/ dir_table m1 dir i + 4096 <= a.
Proof.
  intros Ha i Hi. rewrite (space_table m m1 dir space_m1) by done.
  destruct (decide (dir_table m dir i <= a < dir_table m dir i + 4096)); [|lia].
  exfalso. apply Ha. right. eauto.
Qed.

Lemma stable_m2 a : stable m dir a -> rd m2 a = rd m a.
Proof. intros [Ho Hs]. rewrite Ho2 by (by apply not_space_tables). by apply Hout. Qed.

Lemma space_m2 a : space m2 dir a <-> space m dir a.
Proof.
  rewrite <- (space_same m m1 dir space_m1). unfold space, dir_table.
  split; intros [?|(i & Hi & Hr)]; [by left| |by left|]; right; exists i; split; try done;
    [by rewrite <- He2|by rewrite He2].
Qed.

Lemma space_apart a : space m2 dir a -> a < tmp \/ tmp + 4096 <= a.
Proof. intros Ha. by apply Hout, space_owned, space_m2. Qed.

Lemma lower_same a : page a -> forall j, 0 <= j < 4096 -> a + j - (a + j) mod 4096 = a.
Proof. intros [_ E] j Hj. dlia. Qed.

Lemma present_m2 i : 0 <= i < 1024 -> Z.testbit (dir_entry m2 dir i) 0 = true.
Proof.
  intros Hi. rewrite He2, (space_entry m m1 dir space_m1) by done.
  by apply (sp_present _ _ _ _ _ Hts).
Qed.

Lemma tmp_self j : 0 <= j < 4096 -> maps m2 dir (tmp + j) (tmp + j).
Proof.
  intros Hj. pose proof (page_top _ Htmp). pose proof Htmp as [Hr _].
  assert (E : pte m2 dir tmp = tmp + 7).
  { rewrite Hp2, Z.eqb_refl by done. rewrite lor_page by (apply Htmp || done).
    change TASK_PAGE_FLAGS with 7. rewrite (u32_id (tmp + 7)) by lia. apply u32_id. lia. }
  split; [apply present_m2; dlia|]. rewrite lower_same, E by done. split.
  - destruct Htmp as [_ Ha]. rewrite Z.bit0_odd. 
    replace (tmp + 7) with (1 + 2 * (tmp / 2 + 3)) by dlia. by rewrite Z.odd_add_mul_2.
  - rewrite translate_pte by (done || lia). rewrite lower_same, E by done.
    rewrite <- (lor_page tmp 7), land_page_lor by (done || apply Htmp || lia).
    destruct Htmp as [_ Ha]. rewrite u32_id; dlia.
Qed.

(** A user string is seen the same way. *)
Lemma vstring_m2 v l :
  Forall char_ok l -> 0 <= v -> v + Z.of_nat (length l) < 4294967296 ->
  (forall j, (j <= length l)%nat -> owned m (v + Z.of_nat j) /\ exists p,
     maps m dir (v + Z.of_nat j) p /\ rd m p = default 0 (l !! j) /\ stable m dir p) ->
  vstring m2 dir v l tmp.
Proof.
  intros Hok Hv Hb Hch. split; [done|]. split; [done|]. split; [done|]. intros j Hj.
  destruct (Hch j Hj) as (Hov & p & (H1 & H2 & H3) & Hr & Hst). exists p.
  set (a := v + Z.of_nat j) in *. assert (Ha : 0 <= a < 4294967296) by lia.
  destruct (lower_page a Ha) as [_ Hp].
  assert (E : pte m2 dir (a - a mod 4096) = pte m dir (a - a mod 4096)).
  { rewrite Hp2 by done. rewrite (space_pte m m1 dir space_m1) by done.
    destruct (Z.eqb_spec (a - a mod 4096) tmp); [|done].
    destruct (Hout a Hov) as [Hd _]. exfalso. dlia. }
  pose proof (dir_owned_wf _ _ _ _ (sp_owned _ _ _ _ _ Hts)) as Hw.
  split; [|split].
  - split; [apply present_m2; dlia|]. rewrite E. split; [done|].
    rewrite translate_pte in * by done. by rewrite E.
  - rewrite <- Hr. by apply stable_m2.
  - apply Hout, Hst.
Qed.

(** Putting the old entry back restores everything the client owned. *)
Lemma restored m3 m4 :
  (forall a, a < tmp \/ tmp + 4096 <= a -> rd m3 a = rd m2 a) ->
  (forall i, 0 <= i < 1024 -> dir_entry m4 dir i = dir_entry m3 dir i) ->
  (forall w, page w -> pte m4 dir w = if w =? tmp then u32 (pte m1 dir tmp) else pte m3 dir w) ->
  (forall a, (forall i, 0 <= i < 1024 ->
     a < dir_table m3 dir i \/ dir_table m3 dir i + 4096 <= a) -> rd m4 a = rd m3 a) ->
  forall a, owned m a -> rd m4 a = rd m a.
Proof.
  intros H3 He4 Hp4 Ho4 a Ha. destruct (Hout a Ha) as [Hd Hr].
  assert (Hs3 : forall b, space m2 dir b -> rd m3 b = rd m2 b) by (intros; by apply H3, space_apart).
  pose proof (dir_owned_wf _ _ _ _ (sp_owned _ _ _ _ _ Hts)) as Hw.
  pose proof (space_wf m m1 dir space_m1 Hw) as Hw1.
  assert (Htab : forall i, 0 <= i < 1024 -> dir_table m3 dir i = dir_table m1 dir i).
  { intros i Hi. unfold dir_table. by rewrite (space_entry m2 m3 dir Hs3), He2. }
  destruct (table_dec m1 dir a) as [Hin|Hno].
  - rewrite <- Hr. apply (pte_bytes m1 m4 dir); [done| | |done].
    + intros i Hi. by rewrite He4, (space_entry m2 m3 dir Hs3), He2.
    + intros w Hwp. rewrite Hp4, (space_pte m2 m3 dir Hs3), Hp2 by done.
      destruct (Z.eqb_spec w tmp) as [->|]; [|done]. apply u32_id. unfold pte. apply ld32_range.
  - rewrite Ho4 by (intros i Hi; rewrite Htab by done; by apply Hno).
    rewrite H3 by done. rewrite Ho2 by done. done.
Qed.
(** The second change of the tables touches neither [tmp] nor the allocator. *)
Lemma outside_m4 m3 m4 :
  (forall a, a < tmp \/ tmp + 4096 <= a -> rd m3 a = rd m2 a) ->
  (forall a, (forall i, 0 <= i < 1024 ->
     a < dir_table m3 dir i \/ dir_table m3 dir i + 4096 <= a) -> rd m4 a = rd m3 a) ->
  (forall a, tmp <= a < tmp + 4096 -> rd m4 a = rd m3 a) /\
  ((forall a, meta a -> a < tmp \/ tmp + 4096 <= a) ->
   forall a, meta a -> rd m4 a = rd m1 a).
Proof.
  intros H3 Ho4.
  assert (Hs3 : forall b, space m2 dir b -> rd m3 b = rd m2 b) by (intros; by apply H3, space_apart).
  assert (Hno : forall a, ~ space m2 dir a -> rd m4 a = rd m3 a).
  { intros a Ha. apply Ho4. intros i Hi.
    destruct (decide (dir_table m3 dir i <= a < dir_table m3 dir i + 4096)) as [Hin|]; [|lia].
    exfalso. apply Ha, (space_same m2 m3 dir Hs3). right. eauto. }
  split.
  - intros a Ha. apply Hno. intros Hs%space_apart. lia.
  - intros Hmt a Ha. assert (Hns : ~ space m2 dir a).
    { intros Hs%space_m2%space_owned. by apply Hs. }
    rewrite Hno, H3, Ho2; [done| |by apply Hmt|done].
    apply not_space_tables. by rewrite <- space_m2.
Qed.
End mapped.
End copy_string.

(** [kernel_page] from a state where the kernel's chunk still names [kdir]. *)
Lemma kernel_page_running dir ds m k kdir :
  ld32 m (kernel_chunk k) = kdir ->
  kernel_page (running dir ds m k) = Ret tt (running kdir KERNEL_DATA_SELECTOR m k).
Proof.
  intros E. unfold kernel_page, kernel_registers, switch_to, running, directory_entry_offset.
  kstep. ksimpl. rewrite Z.add_0_r, E. done.
Qed.

Lemma alloc_running `{KAllocator} size k p m' :
  ka_alloc size (kmem k) = (p, m') -> kalloc size k = Ret p (with_kmem m' k).
Proof. intros E. unfold kalloc, on_kmem. by rewrite E. Qed.

(** A user string, character by character: seen through [dir] at addresses
    the kernel does not hand out meanwhile. *)
Definition user_string `{KAllocator} (m : mem) (dir v : Z) (l : list Z) : Prop :=
  Forall char_ok l /\ 0 <= v /\ v + Z.of_nat (length l) < 4294967296 /\
  forall j, (j <= length l)%nat -> owned m (v + Z.of_nat j) /\ exists p,
    maps m dir (v + Z.of_nat j) p /\ rd m p = default 0 (l !! j) /\ stable m dir p.


(** The last part: out of [tmp], and releasing it. *)
Lemma copy_finish `{KAllocator} m m1 m4 tmp n l physical max :
  page tmp -> heap_ok m1 -> room m1 n -> live m1 tmp 4096 ->
  (forall q s, live m1 q s <-> live m q s \/ q = tmp /\ s = 4096) ->
  (forall q s, live m q s -> q <> tmp) ->
  (forall a, owned m a -> a < tmp \/ tmp + 4096 <= a) ->
  (forall a, meta a -> rd m4 a = rd m1 a) -> (forall a, owned m a -> rd m4 a = rd m a) ->
  cstr (at_mem m4 tmp) l -> Z.of_nat (length l) < max < 4096 ->
  (forall a, physical <= a < physical + max -> owned m a) ->
  let m' := ka_free tmp (strncpy physical tmp max m4) in
  cstr (at_mem m' physical) l /\ heap_ok m' /\
  (forall q s, live m' q s <-> live m q s) /\ room m' n /\
  (forall a, owned m a -> a < physical \/ physical + Z.of_nat (length l) < a -> rd m' a = rd m a).
Proof.
  intros Htmp Hok1 Hroom1 Hlt Hlv1 Hfr Hout Hmeta Hrest Hc Hmax Hphys m'. set (m5 := strncpy _ _ _ _) in *.
  assert (Hapart : physical + Z.max 1 max <= tmp \/ tmp + Z.of_nat (length l) < physical).
  { destruct (Hout physical) as [?|?]; [apply Hphys; lia| |lia].
    destruct (decide (physical + max <= tmp)); [lia|].
    destruct (Hout tmp) as [?|?]; [apply Hphys; lia|lia|lia]. }
  destruct (strncpy_mem l physical tmp max m4 Hc Hapart) as (_ & _ & Ho5). fold m5 in Ho5.
  pose proof (strncpy_cstr l physical tmp max m4 Hc Hapart) as Hc5. fold m5 in Hc5.
  rewrite take_ge in Hc5 by lia.
  assert (Hmeta5 : forall a, meta a -> rd m5 a = rd m1 a).
  { intros a Ha. rewrite Ho5; [by apply Hmeta|].
    destruct (decide (physical <= a < physical + max)) as [Hin|]; [|lia].
    exfalso. by apply (Hphys a). }
  destruct (meta_frame m1 m5 Hok1 Hmeta5) as (Hok5 & Hlv5 & Hr5).
  destruct (ka_free_spec m5 tmp 4096 Hok5) as (H1 & H2 & H3 & H4); [by apply Hlv5|].
  assert (Hout6 : forall a, owned m a -> rd m' a = rd m5 a) by (intros a [Ha _]; by apply H4).
  split; [|split; [done|split; [|split; [by apply H3, Hr5|]]]].
  - apply (cstr_ext (at_mem m5 physical)); [|done]. intros i Hi. unfold at_mem.
    apply Hout6, Hphys. lia.
  - intros q s. unfold m'. rewrite H2, Hlv5, Hlv1. split; [intros [[?|[? _]] ?]; [done|by exfalso]|].
    intros Hq. split; [by left|by eapply Hfr].
  - intros a Ha Hd. rewrite Hout6 by done. rewrite Ho5; [by apply Hrest|].
    lia.
Qed.

Section copy_theorem.
Context `{KAllocator} (mmu : mmu_type) (Hmmu : mmu_ok mmu).
Context (k : kernel) (task chunk dir : Z) (ts : list Z) (n : nat)
  (Hok : heap_ok (kmem k)) (Hroom : room (kmem k) (S n))
  (Hts : task_space (kmem k) task chunk dir ts)
  (Hk : forall a, kernel_chunk k <= a < kernel_chunk k + 4 -> stable (kmem k) dir a).

(** The steps of the function put together. *)
Lemma copy_string_eq v physical max tmp m1 m2 m3 m4 : let m := kmem k in
  max < 4096 -> 0 < tmp -> page tmp -> dir_wf m1 dir ->
  ka_alloc (u32 max) m = (tmp, m1) -> (forall a, stable m dir a -> rd m1 a = rd m a) ->
  paging_map dir tmp tmp TASK_PAGE_FLAGS m1 = (0, m2) ->
  (forall a, stable m dir a -> rd m2 a = rd m a) ->
  vstrncpy mmu tmp v max (running dir (data_segment k) m2 k) =
    Ret tt (running dir (data_segment k) m3 k) ->
  ld32 m3 (kernel_chunk k) = ld32 m (kernel_chunk k) ->
  paging_set dir tmp (pte m1 dir tmp) m3 = (0, m4) ->
  copy_string_from_task mmu task v physical max k =
    Ret 0 (running (ld32 m (kernel_chunk k)) KERNEL_DATA_SELECTOR
             (ka_free tmp (strncpy physical tmp max m4)) k).
Proof.
  intros m Hmax Htpos Htmp Hw1 Ea Hdir1 Emap Hst2 E3 Hkd E4.
  unfold copy_string_from_task, PAGE_SIZE. destruct (Z.leb_spec 4096 max); [lia|].
  rewrite (bind_Ret _ _ _ _ _ (alloc_running _ k tmp m1 Ea)).
  destruct (Z.eqb_spec tmp 0); [lia|].
  rewrite (bind_Ret _ _ _ _ _
    (task_directory_eq m task chunk dir ts Hts m1 (with_kmem m1 k) eq_refl Hdir1)).
  rewrite (bind_Ret _ _ _ (pte m1 dir tmp) (with_kmem m1 k))
    by (unfold gets; by rewrite paging_get_pte).
  rewrite (bind_Ret _ _ _ _ _
    (task_directory_eq m task chunk dir ts Hts m1 (with_kmem m1 k) eq_refl Hdir1)).
  rewrite (bind_Ret _ _ _ 0 (with_kmem m2 k)) by (unfold on_kmem; by rewrite kmem_with_kmem, Emap).
  rewrite (bind_Ret _ _ _ _ _
    (task_directory_eq m task chunk dir ts Hts m2 (with_kmem m2 k) eq_refl Hst2)).
  rewrite (bind_Ret _ _ _ tt (running dir (data_segment k) m2 k)) by done.
  rewrite (bind_Ret _ _ _ _ _ E3), (bind_Ret _ _ _ _ _ (kernel_page_running _ _ _ k _ Hkd)).
  rewrite (bind_Ret _ _ _ 0 (running (ld32 m (kernel_chunk k)) KERNEL_DATA_SELECTOR m4 k))
    by (unfold on_kmem, running; ksimpl; by rewrite E4).
  reflexivity.
Qed.

Lemma copy_string_spec v l physical max :
  Z.of_nat (length l) < max < 4096 -> user_string (kmem k) dir v l ->
  (forall a, physical <= a < physical + max -> stable (kmem k) dir a) ->
  exists m', copy_string_from_task mmu task v physical max k =
      Ret 0 (running (ld32 (kmem k) (kernel_chunk k)) KERNEL_DATA_SELECTOR m' k) /\
    cstr (at_mem m' physical) l /\ heap_ok m' /\
    (forall q s, live m' q s <-> live (kmem k) q s) /\ room m' n /\
    (forall a, owned (kmem k) a -> a < physical \/ physical + Z.of_nat (length l) < a ->
       rd m' a = rd (kmem k) a).
Proof.
  intros Hmax (Hchars & Hv & Hvb & Hstr) Hphys. set (m := kmem k) in *.
  pose proof (dir_owned_wf _ _ _ _ (sp_owned _ _ _ _ _ Hts)) as Hw.
  destruct (alloc_page m (u32 max) n) as (tmp & m1 & Ea & Htmp & Hok1 & Hroom1 & Hlv1 & _ & Hfr & _ & Ho1 & Hm1);
    [apply one_block; rewrite u32_id; lia|rewrite u32_id; lia|done|done|].
  assert (Hout : forall a, owned m a -> (a < tmp \/ tmp + 4096 <= a) /\ rd m1 a = rd m a)
    by (intros a Ha; destruct (Ho1 a Ha) as (H1 & _ & H3); by split).
  pose proof (space_m1 m task chunk dir ts Hts m1 tmp Hout) as Hs1.
  assert (Hlt : live m1 tmp 4096) by (apply Hlv1; by right).
  assert (Htpos : 0 < tmp) by (by destruct (live_block _ _ _ Hlt)).
  destruct (paging_set_spec m1 dir tmp (u32 (Z.lor tmp TASK_PAGE_FLAGS)) (space_wf m m1 dir Hs1 Hw) Htmp)
    as (m2 & E2 & Hw2 & He2 & Hp2 & Ho2).
  assert (Emap : paging_map dir tmp tmp TASK_PAGE_FLAGS m1 = (0, m2))
    by (unfold paging_map; rewrite page_mod by done; exact E2).
  assert (Hst2 : forall a, stable m dir a -> rd m2 a = rd m a)
    by (eapply stable_m2; eauto).
  assert (Hap : forall a, space m2 dir a -> a < tmp \/ tmp + 4096 <= a)
    by (eapply space_apart; eauto).
  destruct (vstrncpy_spec mmu Hmmu k m2 dir (data_segment k) tmp v l Hw2 Htmp) with (count := max)
    as (m3 & E3 & Hc3 & Ho3);
    [exact Hap|eapply tmp_self; eauto|eapply vstring_m2; eauto|lia|lia|].
  assert (Hs3 : forall a, space m2 dir a -> rd m3 a = rd m2 a)
    by (intros a Ha; by apply Ho3, Hap).
  destruct (paging_set_spec m3 dir tmp (pte m1 dir tmp) (space_wf m2 m3 dir Hs3 Hw2) Htmp)
    as (m4 & E4 & _ & He4 & Hp4 & Ho4).
  assert (Hrest : forall a, owned m a -> rd m4 a = rd m a) by (eapply restored; eauto).
  destruct (outside_m4 m task chunk dir ts Hts m1 m2 tmp Hout He2 Ho2 m3 m4 Ho3 Ho4) as [Htmp3 Hmeta].
  specialize (Hmeta ltac:(intros a Ha; destruct (decide (tmp <= a < tmp + 4096)); [|lia];
    exfalso; destruct (live_block _ _ _ Hlt) as (_ & _ & Hb); by apply (Hb a))).
  assert (Hc4 : cstr (at_mem m4 tmp) l).
  { apply (cstr_ext (at_mem m3 tmp)); [|done]. intros i Hi. unfold at_mem. apply Htmp3. lia. }
  pose proof (copy_finish m m1 m4 tmp n l physical max Htmp Hok1 Hroom1 Hlt Hlv1 Hfr
    (fun a Ha => proj1 (Hout a Ha)) Hmeta Hrest Hc4 Hmax (fun a Ha => proj1 (Hphys a Ha))) as Hfin.
  cbv zeta in Hfin. eexists. split; [|exact Hfin].
  assert (Hkd : ld32 m3 (kernel_chunk k) = ld32 m (kernel_chunk k)).
  { apply ld32_ext. intros i Hi. assert (Hs : stable m dir (kernel_chunk k + i)) by (apply Hk; lia).
    rewrite Ho3 by (apply Hout, Hs). by apply Hst2. }
  assert (Hdir1 : forall a, stable m dir a -> rd m1 a = rd m a) by (intros a [Ha _]; by apply Hout).
  apply (copy_string_eq v physical max tmp m1 m2 m3 m4); try done; [lia|].
  by apply (space_wf m).
Qed.

End copy_theorem.

(** ** Lemmas: the stack of a task, saving and resuming *)

(** The word at the virtual address [v]. *)
Definition user_word (m : mem) (dir v w : Z) : Prop :=
  exists p : Z -> Z, (forall i, 0 <= i < 4 -> maps m dir (u32 (v + i)) (p i)) /\
    w = rd m (p 0) + 256 * rd m (p 1) + 65536 * rd m (p 2) + 16777216 * rd m (p 3).

Lemma vload8_maps mmu dir ds m k v p :
  mmu_ok mmu -> dir_wf m dir -> maps m dir (u32 v) p ->
  vload8 mmu v (running dir ds m k) = Ret (rd m p) (running dir ds m k).
Proof.
  intros Hmmu Hw Hp. unfold vload8, running. ksimpl. cbn [cr3].
  by rewrite (mmu_maps mmu m dir (u32 v) p Hmmu Hw (u32_range v) Hp).
Qed.

Lemma vload32_word mmu dir ds m k v w :
  mmu_ok mmu -> dir_wf m dir -> user_word m dir v w ->
  vload32 mmu v (running dir ds m k) = Ret w (running dir ds m k).
Proof.
  intros Hmmu Hw (p & Hp & ->). unfold vload32.
  assert (E : forall i, 0 <= i < 4 ->
    vload8 mmu (v + i) (running dir ds m k) = Ret (rd m (p i)) (running dir ds m k))
    by (intros i Hi; by apply vload8_maps, Hp).
  rewrite <- (Z.add_0_r v) at 1.
  by rewrite (bind_Ret _ _ _ _ _ (E 0 ltac:(lia))), (bind_Ret _ _ _ _ _ (E 1 ltac:(lia))),
    (bind_Ret _ _ _ _ _ (E 2 ltac:(lia))), (bind_Ret _ _ _ _ _ (E 3 ltac:(lia))).
Qed.

Section stack.
Context `{KAllocator} (mmu : mmu_type) (Hmmu : mmu_ok mmu).
Context (k : kernel) (task chunk dir : Z) (ts : list Z)
  (Hts : task_space (kmem k) task chunk dir ts).

Lemma switch_pages_eq ds :
  switch_pages task (with_cpu (paging k) ds k) = Ret tt (running dir ds (kmem k) k).
Proof.
  pose proof (task_directory_eq _ _ _ _ _ Hts (kmem k) (with_cpu (paging k) ds k) eq_refl
    (fun _ _ => eq_refl)) as E.
  unfold task_directory, bind, kload32, gets in E. injection E as E.
  unfold switch_pages. kstep. rewrite E. unfold running. by rewrite with_kmem_id.
Qed.

Lemma task_get_stack_item_spec index w :
  user_word (kmem k) dir (ld32 (kmem k) (task + task_registers + reg_esp) + 4 * index) w ->
  task_get_stack_item mmu task index k =
    Ret w (running (ld32 (kmem k) (kernel_chunk k)) KERNEL_DATA_SELECTOR (kmem k) k).
Proof.
  intros Hw. unfold task_get_stack_item.
  rewrite (bind_Ret _ _ k (ld32 (kmem k) (task + task_registers + reg_esp)) k) by done.
  assert (E : task_page_task task k = Ret 0 (running dir 0x23 (kmem k) k)).
  { unfold task_page_task, user_registers.
    rewrite (bind_Ret _ _ k tt (with_cpu (paging k) 0x23 k)) by done.
    by rewrite (bind_Ret _ _ _ _ _ (switch_pages_eq 0x23)). }
  rewrite (bind_Ret _ _ _ _ _ E).
  pose proof (dir_owned_wf _ _ _ _ (sp_owned _ _ _ _ _ Hts)) as Hwf.
  rewrite (bind_Ret _ _ _ _ _ (vload32_word mmu dir 0x23 (kmem k) k _ w Hmmu Hwf Hw)).
  by rewrite (bind_Ret _ _ _ _ _ (kernel_page_running _ _ _ k _ eq_refl)).
Qed.

End stack.

Lemma save_registers_spec task frame l : forall k,
  (forall r f, (r, f) ∈ l -> 0 <= r <= 44 /\ r mod 4 = 0 /\ 0 <= f <= 48) ->
  NoDup (fst <$> l) -> frame + 52 <= task + 4 \/ task + 52 <= frame ->
  exists m', save_registers l task frame k = Ret tt (with_kmem m' k) /\
    (forall a, a < task + 4 \/ task + 52 <= a -> rd m' a = rd (kmem k) a) /\
    (forall r, r ∉ l.*1 -> 0 <= r <= 44 -> r mod 4 = 0 ->
       ld32 m' (task + 4 + r) = ld32 (kmem k) (task + 4 + r)) /\
    (forall r f, (r, f) ∈ l -> ld32 m' (task + 4 + r) = ld32 (kmem k) (frame + f)).
Proof.
  induction l as [|[r f] l IH]; intros k Hl Hnd Hd; cbn [save_registers].
  - exists (kmem k). rewrite with_kmem_id. repeat split; try done. intros r f Hin.
    by apply not_elem_of_nil in Hin.
  - destruct (Hl r f ltac:(by left)) as (Hr & Hr4 & Hf). unfold task_registers.
    cbn in Hnd. apply list.NoDup_cons in Hnd as [Hni Hnd].
    set (m1 := st32 (kmem k) (task + 4 + r) (ld32 (kmem k) (frame + f))).
    destruct (IH (with_kmem m1 k)) as (m' & E & Ho & Hkeep & Hin); [|done|done|].
    { intros r' f' Hin. apply Hl. by right. }
    rewrite kmem_with_kmem in *. exists m'. split; [|split; [|split]].
    + rewrite (bind_Ret _ _ k (ld32 (kmem k) (frame + f)) k) by done.
      rewrite (bind_Ret _ _ k tt (with_kmem m1 k)) by done. rewrite E. done.
    + intros a Ha. rewrite Ho by done. apply rd_st32_ne. lia.
    + intros r' Hni' Hr' Hr4'. cbn in Hni'. apply not_elem_of_cons in Hni' as [Hne Hni'].
      rewrite Hkeep by done. apply ld32_st32_ne. dlia.
    + intros r' f' [[= -> ->]|Hin']%elem_of_cons.
      * rewrite Hkeep by done. unfold m1. rewrite ld32_st32_eq. apply u32_id, ld32_range.
      * rewrite (Hin r' f' Hin'). destruct (Hl r' f' ltac:(by right)) as (_ & _ & Hf').
        apply ld32_st32_ne. lia.
Qed.

(** Writes to a live page leave a directory that does not include it alone. *)
Lemma dir_owned_frame `{KAllocator} m m' t obj dir ts :
  heap_ok m -> dir_owned m obj dir ts -> live m t 4096 -> t ∉ obj :: dir :: ts ->
  (forall a, a < t \/ t + 4096 <= a -> rd m' a = rd m a) ->
  dir_owned m' obj dir ts /\ (forall a, space m dir a -> rd m' a = rd m a).
Proof.
  intros Hok Hd Hl Hfr Hf.
  assert (Hs : forall a, space m dir a -> rd m' a = rd m a).
  { intros a Ha. apply Hf. destruct (decide (t <= a < t + 4096)) as [Hin|]; [|lia].
    exfalso. apply (live_not_space m obj dir ts t a Hd Hl); [|done|done].
    intros Hin2. apply Hfr. by right. }
  split; [|done]. destruct (client_frame m m' t 4096 Hok Hl Hf) as (_ & Hlv & _).
  destruct Hd as [H1 H2 H3 H4 H5 H6]. split; try done.
  - intros p Hin. by apply Hlv, H3.
  - rewrite <- H5. apply ld32_ext. intros i Hi. apply Hf.
    destruct (live_disjoint m t 4096 obj 4096 Hl (H3 obj ltac:(by left))) as [[E _]|?]; [|lia].
    exfalso. apply Hfr. rewrite E. by left.
  - intros i p Hi. rewrite (space_table m m' dir Hs); [by apply H6|].
    apply lookup_lt_Some in Hi. lia.
Qed.

(** Writes to a live page outside the address space, the first word of the
    task object excepted, leave it as it is. *)
Lemma task_space_frame `{KAllocator} m m' task chunk dir ts p :
  heap_ok m -> task_space m task chunk dir ts -> live m p 4096 -> p ∉ chunk :: dir :: ts ->
  (forall a, a < p \/ p + 4096 <= a \/ task <= a < task + 4 -> rd m' a = rd m a) ->
  task_space m' task chunk dir ts /\ (forall v, page v -> pte m' dir v = pte m dir v).
Proof.
  intros Hok [Hc Hd Hl Hpg Hfr Hp] Hlp Hpf Hf.
  assert (Hf' : forall a, a < p \/ p + 4096 <= a -> rd m' a = rd m a)
    by (intros a Ha; apply Hf; tauto).
  destruct (dir_owned_frame m m' p chunk dir ts Hok Hd Hlp Hpf Hf') as [Hd' Hs].
  destruct (client_frame m m' p 4096 Hok Hlp Hf') as (_ & Hlv & _).
  split; [|intros v Hv; by apply space_pte].
  split; [|done|by apply Hlv|done|done|].
  - rewrite <- Hc. apply ld32_ext. intros i Hi. apply Hf. unfold task_page_directory. lia.
  - intros i Hi. rewrite (space_entry m m' dir Hs) by done. by apply Hp.
Qed.

Section resume.
Context (mmu : mmu_type) (Hmmu : mmu_ok mmu) (k : kernel) (m : mem) (dir regs : Z)
  (Hw : dir_wf m dir) (Hr : 0 <= regs /\ regs + 48 <= 4294967296)
  (Hid : forall j, 0 <= j < 48 -> maps m dir (regs + j) (regs + j)).

(** The kernel's own data are seen at their addresses. *)
Lemma reg_word o : 0 <= o <= 44 -> user_word m dir (regs + o) (ld32 m (regs + o)).
Proof.
  intros Ho. exists (fun i => regs + o + i). split.
  - intros i Hi. rewrite u32_id by lia. rewrite <- Z.add_assoc. apply Hid. lia.
  - unfold ld32. by rewrite Z.add_0_r.
Qed.

Lemma task_return_spec ds : task_return mmu regs (running dir ds m k) =
  Ret {| edi := ld32 m (regs + reg_edi); esi := ld32 m (regs + reg_esi);
         ebx := ld32 m (regs + reg_ebx); edx := ld32 m (regs + reg_edx);
         ecx := ld32 m (regs + reg_ecx); eax := ld32 m (regs + reg_eax);
         ip := ld32 m (regs + reg_ip); cs := ld32 m (regs + reg_cs);
         esp := ld32 m (regs + reg_esp); ss := ld32 m (regs + reg_ss) |}
      (running dir (u16 (ld32 m (regs + reg_ss))) m k).
Proof.
  assert (E : forall ds o, 0 <= o <= 44 ->
    vload32 mmu (regs + o) (running dir ds m k) = Ret (ld32 m (regs + o)) (running dir ds m k))
    by (intros ds' o Ho; apply vload32_word, reg_word; done).
  unfold task_return. cbv zeta.
  rewrite (bind_Ret _ _ _ _ _ (E ds reg_ss ltac:(done))), (bind_Ret _ _ _ _ _ (E ds reg_esp ltac:(done))),
    (bind_Ret _ _ _ _ _ (E ds reg_cs ltac:(done))), (bind_Ret _ _ _ _ _ (E ds reg_ip ltac:(done))).
  set (ds' := u16 (ld32 m (regs + reg_ss))).
  rewrite (bind_Ret _ _ _ tt (running dir ds' m k)) by done.
  by rewrite (bind_Ret _ _ _ _ _ (E ds' reg_edi ltac:(done))), (bind_Ret _ _ _ _ _ (E ds' reg_esi ltac:(done))),
    (bind_Ret _ _ _ _ _ (E ds' reg_edx ltac:(done))), (bind_Ret _ _ _ _ _ (E ds' reg_ecx ltac:(done))),
    (bind_Ret _ _ _ _ _ (E ds' reg_eax ltac:(done))), (bind_Ret _ _ _ _ _ (E ds' reg_ebx ltac:(done))).
Qed.
End resume.

(** ** Lemmas: creation *)

(** Where a task starts, and the bytes that decide it. *)
Definition entry_of (m : mem) (process : Z) : Z :=
  if rd m (process + proc_filetype) =? PROCESS_FILETYPE_ELF
  then elf_get_entry (elf_header (ld32 m (process + proc_elf_file)) m) m
  else LIEBE_OS_PROGRAM_VIRTUAL_ADDRESS.
Definition entry_byte (m : mem) (process a : Z) : Prop :=
  let file := ld32 m (process + proc_elf_file) in
  a = process + proc_filetype \/
  rd m (process + proc_filetype) = PROCESS_FILETYPE_ELF /\
    (process + proc_elf_file <= a < process + proc_elf_file + 4 \/
     file + ef_elf_memory <= a < file + ef_elf_memory + 4 \/
     elf_header file m + e_entry <= a < elf_header file m + e_entry + 4).

Lemma entry_frame m m' process :
  (forall a, entry_byte m process a -> rd m' a = rd m a) -> entry_of m' process = entry_of m process.
Proof.
  intros Hf. unfold entry_byte in Hf. cbv zeta in Hf. unfold entry_of. rewrite Hf by (by left).
  destruct (Z.eqb_spec (rd m (process + proc_filetype)) PROCESS_FILETYPE_ELF) as [Ee|]; [|done].
  assert (E1 : ld32 m' (process + proc_elf_file) = ld32 m (process + proc_elf_file))
    by (apply ld32_ext; intros i Hi; apply Hf; lia).
  rewrite E1. set (file := ld32 m (process + proc_elf_file)) in *.
  assert (E2 : elf_header file m' = elf_header file m)
    by (unfold elf_header; apply ld32_ext; intros i Hi; apply Hf; lia).
  unfold elf_get_entry. rewrite E2.
  rewrite (ld32_ext m m' (elf_header file m + e_entry) (elf_header file m + e_entry)); [done|].
  intros i Hi. apply Hf. lia.
Qed.

(** The fields of a fresh task. *)
Record task_fields (m : mem) (t process entry : Z) : Prop := {
  tf_ip : ld32 m (t + task_registers + reg_ip) = entry;
  tf_ss : ld32 m (t + task_registers + reg_ss) = USER_DATA_SEGMENT;
  tf_cs : ld32 m (t + task_registers + reg_cs) = USER_CODE_SEGMENT;
  tf_esp : ld32 m (t + task_registers + reg_esp) = LIEBE_OS_PROGRAM_VIRTUAL_STACK_ADDRESS_START;
  tf_process : ld32 m (t + task_process) = u32 process }.

(** The stores of [task_init] after the directory is made. *)
Definition init_stores (t process : Z) (elf : bool) (entry directory : Z) (m : mem) : mem :=
  let m := st32 m (t + task_page_directory) directory in
  let m := st32 m (t + task_registers + reg_ip) LIEBE_OS_PROGRAM_VIRTUAL_ADDRESS in
  let m := if elf then st32 m (t + task_registers + reg_ip) entry else m in
  let m := st32 m (t + task_registers + reg_ss) USER_DATA_SEGMENT in
  let m := st32 m (t + task_registers + reg_cs) USER_CODE_SEGMENT in
  let m := st32 m (t + task_registers + reg_esp) LIEBE_OS_PROGRAM_VIRTUAL_STACK_ADDRESS_START in
  st32 m (t + task_process) process.

Ltac offsets := unfold task_page_directory, task_registers, task_process, task_next_link,
  task_prev_link, sizeof_task, reg_ip, reg_ss, reg_cs, reg_esp in *.

Lemma init_stores_spec t process (elf : bool) entry directory m :
  0 <= entry < 4294967296 -> elf = true \/ entry = LIEBE_OS_PROGRAM_VIRTUAL_ADDRESS ->
  let m' := init_stores t process elf entry directory m in
  task_fields m' t process entry /\ ld32 m' (t + task_page_directory) = u32 directory /\
  ld32 m' (t + task_next_link) = ld32 m (t + task_next_link) /\
  ld32 m' (t + task_prev_link) = ld32 m (t + task_prev_link) /\
  (forall a, a < t \/ t + 56 <= a -> rd m' a = rd m a).
Proof.
  intros He Helf m'. unfold m', init_stores. offsets. rewrite !Z.add_0_r.
  destruct elf; [|destruct Helf as [?|Helf]; [done|]].
  all: split; [split; offsets; autorewrite with mem; rewrite ?u32_id by done; done|].
  all: split; [autorewrite with mem; done|]; split; [by autorewrite with mem|].
  all: split; [by autorewrite with mem|]; intros a Ha; by rewrite !rd_st32_ne by lia.
Qed.

Section creation.
Context `{KAllocator} (k : kernel) (t process : Z) (n : nat).
Let m := kmem k.
Context (Hok : heap_ok m) (Hroom : room m (1026 + n)) (Hl : live m t 4096) (Ht : page t)
  (Hentry : forall a, entry_byte m process a -> owned m a /\ (a < t \/ t + 4096 <= a)).

Lemma entry_range m' : 0 <= entry_of m' process < 4294967296.
Proof. unfold entry_of. case_match; [apply ld32_range|done]. Qed.

Lemma task_init_run m2 chunk : let m1 := memset t 0 sizeof_task m in
  create_new_page_directory (Z.lor PAGING_IS_PRESENT PAGING_ACCESS_FROM_ALL) m1 = (chunk, m2) ->
  chunk <> 0 -> (forall a, entry_byte m process a -> rd m2 a = rd m a) ->
  exists elf, (elf = true \/ entry_of m process = LIEBE_OS_PROGRAM_VIRTUAL_ADDRESS) /\
    task_init t process k =
      Ret 0 (with_kmem (init_stores t process elf (entry_of m process) chunk m2) k).
Proof.
  intros m1 E Hc Hm2. exists (rd m (process + proc_filetype) =? PROCESS_FILETYPE_ELF).
  split; [unfold entry_of; case_match; by auto|].
  set (m3 := st32 m2 (t + task_page_directory) chunk).
  set (m4 := st32 m3 (t + task_registers + reg_ip) LIEBE_OS_PROGRAM_VIRTUAL_ADDRESS).
  assert (Hm4 : forall a, entry_byte m process a -> rd m4 a = rd m a).
  { intros a Ha. destruct (Hentry a Ha) as [_ Hd]. unfold m4, m3. offsets.
    rewrite !rd_st32_ne by lia. by apply Hm2. }
  assert (Hft : rd m4 (process + proc_filetype) = rd m (process + proc_filetype))
    by (apply Hm4; by left).
  assert (Hen : entry_of m4 process = entry_of m process) by (by apply entry_frame).
  unfold task_init.
  rewrite (bind_Ret _ _ k tt (with_kmem m1 k)) by done.
  rewrite (bind_Ret _ _ _ chunk (with_kmem m2 k)) by (unfold on_kmem; rewrite kmem_with_kmem, E; done).
  rewrite (bind_Ret _ _ _ tt (with_kmem m3 k)) by done.
  destruct (Z.eqb_spec chunk 0); [done|].
  rewrite (bind_Ret _ _ _ tt (with_kmem m4 k)) by done.
  rewrite (bind_Ret _ _ _ (rd m4 (process + proc_filetype)) (with_kmem m4 k)) by done.
  rewrite Hft. unfold init_stores. fold m3. fold m4. rewrite <- Hen. unfold entry_of. rewrite Hft.
  destruct (rd m (process + proc_filetype) =? PROCESS_FILETYPE_ELF); reflexivity.
Qed.

Lemma task_init_spec : exists m' chunk dir ts,
  task_init t process k = Ret 0 (with_kmem m' k) /\ heap_ok m' /\ room m' n /\
  task_space m' t chunk dir ts /\ (forall v, page v -> pte m' dir v = Z.lor v 5) /\
  task_fields m' t process (entry_of m process) /\
  ld32 m' (t + task_next_link) = 0 /\ ld32 m' (t + task_prev_link) = 0 /\
  (forall q s, live m' q s <-> live m q s \/ q ∈ chunk :: dir :: ts /\ s = 4096) /\
  (forall q s, live m q s -> q ∉ chunk :: dir :: ts) /\
  (forall a, owned m a -> a < t \/ t + 4096 <= a -> rd m' a = rd m a).
Proof.
  set (m1 := memset t 0 sizeof_task m).
  assert (Ho1 : forall a, a < t \/ t + 4096 <= a -> rd m1 a = rd m a)
    by (intros a Ha; apply rd_memset_out; [done|]; unfold sizeof_task; lia).
  destruct (client_frame m m1 t 4096 Hok Hl Ho1) as (Hok1 & Hlv1 & Hr1).
  destruct (create_spec m1 5 n ltac:(lia) Hok1 ltac:(by apply Hr1))
    as (chunk & m2 & dir & ts & Ec & Hd & Hok2 & Hroom2 & Hent & Hpte & Hlv2 & Hfr2 & Ho2).
  assert (Hown : forall a, owned m1 a -> rd m2 a = rd m1 a).
  { intros a Ha. apply Ho2; [apply Ha|]. intros p Hp. apply (owned_fresh m1 m2); [|by apply (do_live _ _ _ _ Hd)| |done].
    - intros q s Hq. apply Hlv2. by left.
    - intros q s Hq ->. by apply (Hfr2 p s). }
  assert (Hown1 : forall a, owned m a -> owned m1 a)
    by (intros a; apply owned_ext; intros q s; by rewrite Hlv1).
  assert (Hlt2 : live m2 t 4096) by (apply Hlv2; left; by apply Hlv1).
  destruct (task_init_run m2 chunk Ec) as (elf & Helf & Erun).
  { destruct (live_block m2 chunk 4096) as [? _]; [apply (do_live _ _ _ _ Hd); by left|lia]. }
  { intros a Ha. destruct (Hentry a Ha) as [Hoa Hda]. rewrite Hown by (by apply Hown1). by apply Ho1. }
  destruct (init_stores_spec t process elf _ chunk m2 (entry_range m) Helf)
    as (Hf & Hch & Hnx & Hpv & Ho).
  set (m3 := init_stores _ _ _ _ _ _) in *.
  assert (Ho3 : forall a, a < t \/ t + 4096 <= a -> rd m3 a = rd m2 a) by (intros a Ha; apply Ho; lia).
  destruct (client_frame m2 m3 t 4096 Hok2 Hlt2 Ho3) as (Hok3 & Hlv3 & Hroom3).
  assert (Hz : forall o, 0 <= o <= 60 -> ld32 m2 (t + o) = 0).
  { intros o Hoo. assert (E0 : forall i, 0 <= i < 4 -> rd m2 (t + o + i) = 0).
    { intros i Hi. rewrite Hown by (apply Hown1, (owned_live m t 4096); [done|lia]).
      unfold m1. rewrite rd_memset_in; [done|done|unfold sizeof_task; lia]. }
    unfold ld32. rewrite <- (Z.add_0_r (t + o)) at 1. by rewrite !E0 by lia. }
  assert (Hfresh : t ∉ chunk :: dir :: ts) by (apply (Hfr2 t 4096); by apply Hlv1).
  destruct (dir_owned_frame m2 m3 t chunk dir ts Hok2 Hd Hlt2 Hfresh Ho3) as [Hd3 Hs3].
  exists m3, chunk, dir, ts. split; [exact Erun|]. split; [done|]. split; [by apply Hroom3|]. split.
  { split; [|done|by apply Hlv3|done|done|].
    - rewrite Hch. apply u32_id.
      by destruct (do_page _ _ _ _ Hd chunk ltac:(by left)) as [? _].
    - intros i Hi. rewrite (space_entry m2 m3 dir Hs3) by done.
      assert (Hb : Z.testbit (Z.land (dir_entry m2 dir i) 4095) 0 = true) by (by rewrite Hent).
      rewrite Z.land_spec in Hb. by apply andb_true_iff in Hb as [? _]. }
  split; [intros v Hv; by rewrite (space_pte m2 m3 dir Hs3), Hpte|].
  split; [exact Hf|]. offsets. split; [by rewrite Hnx, Hz|]. split; [by rewrite Hpv, Hz|].
  split; [intros q s; by rewrite Hlv3, Hlv2, Hlv1|].
  split; [intros q s Hq; apply (Hfr2 q s); by apply Hlv1|].
  intros a Ha Hd2. rewrite Ho3, Hown by (done || by apply Hown1). by apply Ho1.
Qed.
End creation.

Lemma entry_byte_frame m m' process a :
  (forall b, entry_byte m process b -> rd m' b = rd m b) ->
  entry_byte m' process a -> entry_byte m process a.
Proof.
  intros Hf. pose proof Hf as Hg. unfold entry_byte in Hg. cbv zeta in Hg.
  intros [Ha|[Ee Ha]]; [by left|]. rewrite Hg in Ee by (by left). right. split; [done|].
  assert (E1 : ld32 m' (process + proc_elf_file) = ld32 m (process + proc_elf_file))
    by (apply ld32_ext; intros i Hi; apply Hg; lia).
  rewrite E1 in Ha. set (file := ld32 m (process + proc_elf_file)) in *.
  assert (E2 : elf_header file m' = elf_header file m)
    by (unfold elf_header; apply ld32_ext; intros i Hi; apply Hg; lia).
  by rewrite E2 in Ha.
Qed.

(** A list with a task appended: [m] with the list, [m'] after the links. *)
Lemma task_list_append m m' head tail l t :
  task_list m head tail l -> t <> 0 ->
  (forall i s, l !! i = Some s -> s + sizeof_task <= t \/ t + sizeof_task <= s) ->
  ld32 m' (t + task_next_link) = 0 -> ld32 m' (t + task_prev_link) = tail ->
  (forall i s, l !! i = Some s -> ld32 m' (s + task_prev_link) = ld32 m (s + task_prev_link) /\
     ld32 m' (s + task_next_link) =
       if decide (S i = length l) then t else ld32 m (s + task_next_link)) ->
  task_list m' (default t (l !! 0%nat)) t (l ++ [t]).
Proof.
  intros [[Hh Hc] Hp Ht Ha] Ht0 Hap Hn Hpt Hl.
  assert (Hcase : forall i s, (l ++ [t]) !! i = Some s ->
    (i < length l)%nat /\ l !! i = Some s \/ i = length l /\ s = t).
  { intros i s [Hi|[Hge Hi]]%lookup_app_Some; [left|right].
    - split; [by eapply lookup_lt_Some|done].
    - apply list_lookup_singleton_Some in Hi as [? <-]. split; [lia|done]. }
  split; [split| | |].
  - destruct l; done.
  - intros i s [[Hlt Hi]|[-> ->]]%Hcase.
    + destruct (Hl i s Hi) as [_ E]. destruct (Hc i s Hi) as [Hs0 E2]. split; [done|].
      rewrite E. case_decide as Hlast.
      * rewrite lookup_app_r by lia. by replace (S i - length l)%nat with 0%nat by lia.
      * by rewrite E2, lookup_app_l by lia.
    + split; [done|]. rewrite Hn. rewrite lookup_ge_None_2; [done|]. rewrite length_app. cbn. lia.
  - intros i s [[Hlt Hi]|[-> ->]]%Hcase.
    + destruct (Hl i s Hi) as [E _]. rewrite E, (Hp i s Hi). destruct i as [|j]; [done|].
      by rewrite lookup_app_l by lia.
    + rewrite Hpt, Ht. destruct (length l) as [|j] eqn:El.
      * apply nil_length_inv in El. by subst.
      * by rewrite lookup_app_l by (cbn; lia).
  - rewrite length_app. cbn. rewrite Nat.add_1_r. cbn. by rewrite list_lookup_middle.
  - intros i j s s' [[Hlt Hi]|[-> ->]]%Hcase [[Hlt' Hj]|[-> ->]]%Hcase Hne.
    + by eapply Ha.
    + by eapply Hap.
    + destruct (Hap j s' Hj); [by right|by left].
    + done.
Qed.

Section appending.
Context `{KAllocator} (k : kernel) (process : Z) (l : list Z) (n : nat).
Let m := kmem k.
Context (Hok : heap_ok m) (Hroom : room m (1027 + n))
  (Hlist : task_list m (task_head k) (task_tail k) l) (Hlive : forall t, t ∈ l -> live m t 4096 /\ page t)
  (Hentry : forall a, entry_byte m process a -> owned m a).

(** The state [task_new] leaves, and the links it wrote. *)
Definition appended (t : Z) (m' : mem) : kernel :=
  with_tasks (if decide (l = []) then t else current_task k) (default t (l !! 0%nat)) t
    (with_kmem m' k).
Definition link_stores (t : Z) (m2 : mem) : mem :=
  if decide (l = []) then m2
  else st32 (st32 m2 (task_tail k + task_next_link) t) (t + task_prev_link) (task_tail k).

Lemma head_zero : task_head k = 0 <-> l = [].
Proof.
  destruct (tl_chain _ _ _ _ Hlist) as [-> Hc]. destruct l as [|t l']; [done|].
  cbn. split; [|done]. intros E. by destruct (Hc 0%nat t eq_refl).
Qed.

Lemma task_new_run t m1 m2 :
  ka_alloc sizeof_task m = (t, m1) -> t <> 0 ->
  task_init t process (with_kmem m1 k) = Ret 0 (with_kmem m2 (with_kmem m1 k)) ->
  task_new process k = Ret t (appended t (link_stores t m2)).
Proof.
  intros Ea Ht E. unfold task_new.
  rewrite (bind_Ret _ _ _ _ _ (alloc_running _ k t m1 Ea)).
  destruct (Z.eqb_spec t 0); [done|]. rewrite (bind_Ret _ _ _ _ _ E).
  change (negb (0 =? OK)) with false. cbv iota.
  rewrite with_kmem_with_kmem.
  rewrite (bind_Ret _ _ _ (task_head k) (with_kmem m2 k)) by done.
  unfold appended, link_stores. destruct (Z.eqb_spec (task_head k) 0) as [E0|E0].
  - apply head_zero in E0. by rewrite decide_True, E0 by done.
  - rewrite !decide_False by (by rewrite <- head_zero).
    destruct (tl_chain _ _ _ _ Hlist) as [Hh _].
    replace (default t (l !! 0%nat)) with (task_head k); [reflexivity|].
    rewrite Hh in *. by destruct (l !! 0%nat).
Qed.

(** The links of a fresh task, behind the last element [p]. *)
Lemma linked_list t p m2 : task_tail k = p -> l !! pred (length l) = Some p -> page t -> t <> 0 ->
  (forall i s, l !! i = Some s -> s + 4096 <= t \/ t + 4096 <= s) ->
  (forall i s o, l !! i = Some s -> 0 <= o <= 60 -> ld32 m2 (s + o) = ld32 m (s + o)) ->
  ld32 m2 (t + task_next_link) = 0 ->
  task_list (st32 (st32 m2 (p + task_next_link) t) (t + task_prev_link) p)
    (default t (l !! 0%nat)) t (l ++ [t]).
Proof.
  intros Ep Hpi [Ht _] Ht0 Hap Hfield Hn. offsets.
  assert (Hp : 0 <= p < 4294967296) by (by apply (Hlive p), (list_elem_of_lookup_2 l (pred (length l)))).
  pose proof (Hap _ _ Hpi) as Hpt.
  apply (task_list_append m _ (task_head k) (task_tail k) l t Hlist Ht0); offsets.
  - intros i s Hi. destruct (Hap i s Hi); lia.
  - rewrite !ld32_st32_ne by lia. done.
  - rewrite ld32_st32_eq, u32_id by done. done.
  - intros i s Hi. pose proof (Hap i s Hi) as Hst. apply lookup_lt_Some in Hi as Hlt.
    assert (Hsp : i = pred (length l) /\ s = p \/ i <> pred (length l) /\ (s + 64 <= p \/ p + 64 <= s)).
    { destruct (decide (i = pred (length l))) as [->|Hne]; [left; split; congruence|right].
      split; [done|]. by apply (tl_apart _ _ _ _ Hlist i (pred (length l))). }
    split.
    + rewrite !ld32_st32_ne by lia. by apply (Hfield i).
    + rewrite (ld32_st32_ne _ (t + 60)) by lia. case_decide as Hl.
      * destruct Hsp as [[_ ->]|[? _]]; [|lia]. rewrite ld32_st32_eq. by apply u32_id.
      * destruct Hsp as [[? _]|[_ ?]]; [lia|]. rewrite ld32_st32_ne by lia. by apply (Hfield i).
Qed.

Lemma link_stores_spec t m2 chunk dir ts :
  heap_ok m2 -> task_space m2 t chunk dir ts -> (forall a, owned m a -> rd m2 a = rd m a) ->
  ld32 m2 (t + task_next_link) = 0 -> ld32 m2 (t + task_prev_link) = 0 ->
  (forall q s, live m q s -> live m2 q s) -> (forall q s, live m q s -> q ∉ t :: chunk :: dir :: ts) ->
  let m3 := link_stores t m2 in
  heap_ok m3 /\ (forall j, room m2 j -> room m3 j) /\ task_space m3 t chunk dir ts /\
  (forall v, page v -> pte m3 dir v = pte m2 dir v) /\
  (forall entry, task_fields m2 t process entry -> task_fields m3 t process entry) /\
  task_list m3 (default t (l !! 0%nat)) t (l ++ [t]) /\
  (forall q s, live m3 q s <-> live m2 q s) /\
  (forall a, a < t \/ t + 4096 <= a ->
     (forall p, l !! pred (length l) = Some p -> a < p + 56 \/ p + 60 <= a) -> rd m3 a = rd m2 a).
Proof.
  intros Hok2 Hsp Hown Hn Hp Hsub Hfr m3. pose proof Hsp as [_ _ Hlt Hpg Hft _].
  destruct (live_block _ _ _ Hlt) as [Ht0 _].
  assert (Hel : forall i s, l !! i = Some s -> live m s 4096 /\
    (s + 4096 <= t \/ t + 4096 <= s) /\ s ∉ chunk :: dir :: ts).
  { intros i s Hi. assert (Hs : live m s 4096) by (apply Hlive; by eapply list_elem_of_lookup_2).
    specialize (Hfr _ _ Hs). apply not_elem_of_cons in Hfr as [Hne Hfr]. split; [done|]. split; [|done].
    destruct (live_disjoint m2 s 4096 t 4096 (Hsub _ _ Hs) Hlt) as [[? _]|?]; [done|lia]. }
  assert (Hfield : forall i s o, l !! i = Some s -> 0 <= o <= 60 -> ld32 m2 (s + o) = ld32 m (s + o)).
  { intros i s o Hi Ho. apply ld32_ext. intros j Hj. apply Hown.
    apply (owned_live m s 4096); [by apply (Hel i)|lia]. }
  unfold m3, link_stores. destruct (decide (l = [])) as [E|Hne].
  { repeat (split; [done|]). split; [|by split]. rewrite E in *.
    apply (task_list_append m m2 (task_head k) (task_tail k) []);
      [done|lia|done|done| |done]. by rewrite Hp, (tl_tail _ _ _ _ Hlist). }
  apply list_nonempty_length in Hne.
  destruct (lookup_lt_is_Some_2 l (pred (length l))) as [p Hpi]; [lia|].
  assert (Ep : task_tail k = p) by (rewrite (tl_tail _ _ _ _ Hlist); by rewrite Hpi). rewrite Ep.
  destruct (Hel _ _ Hpi) as (Hlp & Hap & Hpf).
  assert (Hlist3 : task_list (st32 (st32 m2 (p + task_next_link) t) (t + task_prev_link) p)
      (default t (l !! 0%nat)) t (l ++ [t])).
  { apply linked_list; try done; [lia|]. intros i s Hi. by apply (Hel i). }
  set (ma := st32 m2 (p + task_next_link) t) in *. set (mb := st32 ma (t + task_prev_link) p) in *.
  assert (Hfa : forall a, a < p \/ p + 4096 <= a -> rd ma a = rd m2 a)
    by (intros a Ha; apply rd_st32_ne; offsets; lia).
  destruct (task_space_frame m2 ma t chunk dir ts p Hok2 Hsp (Hsub _ _ Hlp) Hpf) as [Hsa Hpa];
    [intros a Ha; apply Hfa; lia|].
  destruct (client_frame m2 ma p 4096 Hok2 (Hsub _ _ Hlp) Hfa) as (Hoka & Hlva & Hra).
  assert (Hfb : forall a, a < t \/ t + 4096 <= a \/ t <= a < t + 4 -> rd mb a = rd ma a)
    by (intros a Ha; apply rd_st32_ne; offsets; lia).
  assert (Hlta : live ma t 4096) by (by apply Hlva).
  destruct (task_space_frame ma mb t chunk dir ts t Hoka Hsa Hlta Hft Hfb) as [Hsb Hpb].
  destruct (client_frame ma mb t 4096 Hoka Hlta ltac:(intros a Ha; apply Hfb; lia)) as (Hokb & Hlvb & Hrb).
  split; [done|]. split; [intros j Hj; by apply Hrb, Hra|]. split; [done|]. split; [intros v Hv; by rewrite Hpb, Hpa|]. split; [|split; [done|split]].
  - intros entry [H1 H2 H3 H4 H5].
    split; (etrans; [|eassumption]); unfold mb, ma; offsets; rewrite !ld32_st32_ne by lia; done.
  - intros q s. by rewrite Hlvb, Hlva.
  - intros a Ha Hpx. specialize (Hpx p Hpi). rewrite Hfb by lia. apply rd_st32_ne. offsets. lia.
Qed.

Lemma task_new_spec : exists t m' chunk dir ts,
  task_new process k = Ret t (appended t m') /\
  task_list m' (default t (l !! 0%nat)) t (l ++ [t]) /\
  task_space m' t chunk dir ts /\ (forall v, page v -> pte m' dir v = Z.lor v 5) /\
  task_fields m' t process (entry_of m process) /\ heap_ok m' /\ room m' n /\
  (forall q s, live m' q s <-> live m q s \/ q ∈ t :: chunk :: dir :: ts /\ s = 4096) /\
  (forall q s, live m q s -> q ∉ t :: chunk :: dir :: ts) /\
  (forall a, owned m a ->
     (forall p, l !! pred (length l) = Some p -> a < p + 56 \/ p + 60 <= a) -> rd m' a = rd m a).
Proof.
  destruct (alloc_page m sizeof_task (1026 + n)) as (t & m1 & Ea & Ht & Hok1 & Hroom1 & Hlv1 & _ & Hfr1 & _ & Ho1 & _);
    [by apply one_block|done|done|done|].
  assert (Hlt : live m1 t 4096) by (apply Hlv1; by right).
  assert (He1 : forall a, entry_byte m process a -> rd m1 a = rd m a)
    by (intros a Ha; by apply Ho1, Hentry).
  destruct (task_init_spec (with_kmem m1 k) t process n Hok1 Hroom1 Hlt Ht)
    as (m2 & chunk & dir & ts & Einit & Hok2 & Hroom2 & Hsp & Hpte & Hf & Hn & Hp & Hlv2 & Hfr2 & Ho2).
  { intros a Ha. apply (entry_byte_frame m) in Ha; [|done].
    destruct (Ho1 a (Hentry a Ha)) as (H1 & H2 & _). by split. }
  rewrite kmem_with_kmem in *. rewrite (entry_frame m m1 process He1) in Hf.
  destruct (live_block _ _ _ Hlt) as [Ht0 _].
  exists t, (link_stores t m2), chunk, dir, ts.
  split; [eapply task_new_run; [exact Ea|lia|exact Einit]|].
  assert (Hown : forall a, owned m a -> rd m2 a = rd m a).
  { intros a Ha. destruct (Ho1 a Ha) as (H1 & H2 & H3). by rewrite Ho2. }
  assert (Hblk : forall q s, live m2 q s <-> live m q s \/ q ∈ t :: chunk :: dir :: ts /\ s = 4096).
  { intros q s. rewrite Hlv2, Hlv1, (elem_of_cons _ q t). tauto. }
  assert (Hfr : forall q s, live m q s -> q ∉ t :: chunk :: dir :: ts).
  { intros q s Hq. apply not_elem_of_cons. split; [by eapply Hfr1|].
    apply (Hfr2 q s), Hlv1. by left. }
  destruct (link_stores_spec t m2 chunk dir ts Hok2 Hsp Hown) as (Hok3 & Hroom3 & Hsp3 & Hpte3 & Hf3 & Hl3 & Hlv3 & Ho3);
    try done.
  { intros q s Hq. apply Hblk. by left. }
  split; [exact Hl3|]. split; [exact Hsp3|]. split; [intros v Hv; by rewrite Hpte3, Hpte|].
  split; [by apply Hf3|]. split; [done|]. split; [by apply Hroom3|].
  split; [intros q s; by rewrite Hlv3, Hblk|].
  split; [exact Hfr|]. intros a Ha Hp'. destruct (Ho1 a Ha) as (H1 & _).
  rewrite Ho3; [by apply Hown|lia|done].
Qed.
End appending.

(** Removing a task from a well-formed list: the links from the head then
    spell the list without it, the tail is its last element, the current
    task moves on (to the successor, or around to the head) if it was the
    one removed, and only the predecessor's [next] is written.  When the
    removed task was the last one the whole structure is again well formed. *)
Lemma task_list_remove_unlinks k l1 t l2 :
  task_list (kmem k) (task_head k) (task_tail k) (l1 ++ t :: l2) ->
  exists k', task_list_remove t k = Ret tt k' /\
    chain (kmem k') (task_head k') (l1 ++ l2) /\
    task_tail k' = default 0 ((l1 ++ l2) !! pred (length (l1 ++ l2))) /\
    current_task k' =
      (if current_task k =? t then default (default 0 ((l1 ++ l2) !! 0%nat)) (l2 !! 0%nat)
       else current_task k) /\
    (l2 = [] -> task_list (kmem k') (task_head k') (task_tail k') l1) /\
    (forall a, (forall p, l1 !! pred (length l1) = Some p -> a < p + 56 \/ p + 60 <= a) ->
       rd (kmem k') a = rd (kmem k) a).
Proof.
  intros Hl. exists (unlinked t k). split; [apply task_list_remove_eq|].
  set (m := kmem k) in *. pose proof (unlinked_chain m _ _ l1 t l2 Hl) as Hc.
  pose proof (unlinked_tail m _ _ l1 t l2 Hl) as Ht.
  pose proof (unlinked_next_t m _ _ l1 t l2 Hl) as Hn.
  change (kmem (unlinked t k)) with (unlinked_mem m t).
  split; [exact Hc|]. split; [exact Ht|]. split; [|split].
  - unfold unlinked. ksimpl. fold m. fold (unlinked_mem m t). rewrite Z.eqb_sym.
    destruct (Z.eqb_spec (current_task k) t) as [E|E]; [|done].
    destruct Hc as [Hc1 Hc2]. rewrite Hc1. rewrite Hn, (tl_next_t m _ _ l1 t l2 Hl).
    destruct l2 as [|q l2]; [done|]. change (default 0 ((q :: l2) !! 0%nat)) with q.
    destruct (Z.eqb_spec q 0) as [Hq|]; [|done]. exfalso. apply (Hc2 (length l1) q); [|done]. by rewrite list_lookup_middle.
  - intros ->. rewrite app_nil_r in *. split; [exact Hc| |exact Ht|].
    + intros i s Hi. rewrite (unlinked_field m _ _ l1 t [] Hl); [|unfold task_prev_link; lia..|].
      * destruct Hl as [_ Hp _ _]. rewrite (Hp i s) by (by apply lookup_app_l_Some).
        destruct i as [|j]; [done|]. by rewrite lookup_app_l by (apply lookup_lt_Some in Hi; lia).
      * right. exists i. by rewrite app_nil_r.
    + intros i j s s' Hi Hj. apply (tl_apart _ _ _ _ Hl); by apply lookup_app_l_Some.
  - intros a Ha. apply (unlinked_outside m _ _ l1 t l2 Hl). intros i p Hi Hlen. apply Ha.
    by replace (pred (length l1)) with i by lia.
Qed.

(** [task_list] only depends on the elements' bytes. *)
Lemma task_list_frame m m' head tail l :
  (forall i s a, l !! i = Some s -> s <= a < s + sizeof_task -> rd m' a = rd m a) ->
  task_list m head tail l -> task_list m' head tail l.
Proof.
  intros Hf [Hc Hp Ht Ha]. split; [|..|done].
  - apply (chain_frame m); [|done]. intros i s Hi. apply ld32_ext. intros j Hj.
    apply (Hf i s); [done|]. unfold task_next_link, sizeof_task. lia.
  - intros i s Hi. rewrite <- (Hp i s Hi). apply ld32_ext. intros j Hj.
    apply (Hf i s); [done|]. unfold task_prev_link, sizeof_task. lia.
  - done.
Qed.

(** Freeing the task at the end of the list. *)
Lemma task_free_last `{KAllocator} k t l chunk dir ts :
  heap_ok (kmem k) -> task_space (kmem k) t chunk dir ts ->
  task_list (kmem k) (task_head k) (task_tail k) (l ++ [t]) ->
  (forall s, s ∈ l -> live (kmem k) s 4096 /\ s ∉ t :: chunk :: dir :: ts) ->
  exists k', task_free t k = Ret 0 k' /\ heap_ok (kmem k') /\
    task_list (kmem k') (task_head k') (task_tail k') l /\
    current_task k' = (if current_task k =? t then default 0 (l !! 0%nat) else current_task k) /\
    (forall q s, live (kmem k') q s <-> live (kmem k) q s /\ q ∉ t :: chunk :: dir :: ts) /\
    (forall a, ~ meta a -> (forall p, l !! pred (length l) = Some p -> a < p + 56 \/ p + 60 <= a) ->
       rd (kmem k') a = rd (kmem k) a).
Proof.
  intros Hok Hsp Hl Hel. pose proof Hsp as [Hc Hd Hlt Hpg Hfr _].
  destruct (free_4gb_spec (kmem k) chunk dir ts Hok Hd) as (Hok1 & Hlv1 & Ho1).
  set (k1 := with_kmem (paging_free_4gb chunk (kmem k)) k).
  assert (Hall : forall s, s ∈ l ++ [t] -> live (kmem k) s 4096).
  { intros s [Hs|Hs]%elem_of_app; [by apply Hel|]. by apply list_elem_of_singleton in Hs as ->. }
  assert (Hl1 : task_list (kmem k1) (task_head k1) (task_tail k1) (l ++ [t])).
  { apply (task_list_frame (kmem k)); [|done]. intros i s a Hi Ha. apply Ho1.
    destruct (live_block (kmem k) s 4096) as (_ & _ & Hm);
      [apply Hall; by eapply list_elem_of_lookup_2|]. apply Hm. unfold sizeof_task in Ha. lia. }
  destruct (task_list_remove_unlinks k1 l t [] Hl1) as (k2 & E2 & _ & _ & Hcur & Hl2 & Ho2).
  rewrite app_nil_r in *. specialize (Hl2 eq_refl).
  assert (Hmeta2 : forall a, meta a -> rd (kmem k2) a = rd (kmem k1) a).
  { intros a Ha. apply Ho2. intros p Hp. destruct (decide (p + 56 <= a < p + 60)); [|lia].
    exfalso. destruct (live_block (kmem k) p 4096) as (_ & _ & Hm); [|by apply (Hm a); [lia|]].
    apply Hel. by eapply list_elem_of_lookup_2. }
  destruct (meta_frame (kmem k1) (kmem k2) Hok1 Hmeta2) as (Hok2 & Hlv2 & _).
  destruct (ka_free_spec (kmem k2) t 4096 Hok2) as (H1 & H2 & _ & H4).
  { apply Hlv2, Hlv1. split; [done|]. by intros Hin. }
  exists (with_kmem (ka_free t (kmem k2)) k2). rewrite kmem_with_kmem.
  split; [|split; [done|split; [|split; [exact Hcur|split]]]].
  - unfold task_free.
    rewrite (bind_Ret _ _ k chunk k) by (unfold kload32, gets; by rewrite Hc).
    rewrite (bind_Ret _ _ k tt k1) by done. by rewrite (bind_Ret _ _ _ _ _ E2).
  - apply (task_list_frame (kmem k2)); [|exact Hl2]. intros i s a Hi Ha. apply H4.
    destruct (live_block (kmem k) s 4096) as (_ & _ & Hm);
      [apply Hel; by eapply list_elem_of_lookup_2|]. apply Hm. unfold sizeof_task in Ha. lia.
  - intros q s. rewrite H2, Hlv2. change (kmem k1) with (paging_free_4gb chunk (kmem k)).
    rewrite Hlv1, (not_elem_of_cons _ q t). tauto.
  - intros a Ha Hp. rewrite H4, Ho2 by done. by apply Ho1.
Qed.

(** ** Properties *)

(** [task_new] with enough free memory: a fresh page becomes the task,
    with its own identity address space, the initial registers (entry point of
    the image for an ELF process, 0x400000 otherwise; user segments; the user
    stack) and its process; it is appended to the task list, becoming also
    the current task if the list was empty; of what was owned before only the
    [next] link of the last task changes. *)
Theorem task_new_appends `{KAllocator} k process l :
  heap_ok (kmem k) -> room (kmem k) 1027 -> task_list (kmem k) (task_head k) (task_tail k) l ->
  (forall t, t ∈ l -> live (kmem k) t 4096 /\ page t) ->
  (forall a, entry_byte (kmem k) process a -> owned (kmem k) a) ->
  exists t k' chunk dir ts, task_new process k = Ret t k' /\
    task_list (kmem k') (task_head k') (task_tail k') (l ++ [t]) /\
    (l = [] -> current_task k' = t) /\ (l <> [] -> current_task k' = current_task k) /\
    task_space (kmem k') t chunk dir ts /\ (forall v, page v -> pte (kmem k') dir v = Z.lor v 5) /\
    task_fields (kmem k') t process (entry_of (kmem k) process) /\ heap_ok (kmem k') /\
    (forall q s, live (kmem k) q s -> live (kmem k') q s /\ q ∉ t :: chunk :: dir :: ts) /\
    (forall a, owned (kmem k) a ->
       (forall p, l !! pred (length l) = Some p -> a < p + 56 \/ p + 60 <= a) ->
       rd (kmem k') a = rd (kmem k) a).
Proof.
  intros Hok Hroom Hl Hel He.
  destruct (task_new_spec k process l 0 Hok Hroom Hl Hel He)
    as (t & m' & chunk & dir & ts & E & Hl' & Hsp & Hpte & Hf & Hok' & _ & Hlv & Hfr & Ho).
  exists t, (appended k l t m'), chunk, dir, ts. split; [done|]. split; [done|].
  split; [intros ->; done|]. split; [intros Hne; unfold appended; ksimpl; by rewrite decide_False|].
  repeat (split; [done|]). split; [|done].
  intros q s Hq. split; [apply Hlv; by left|by eapply Hfr].
Qed.

(** Creating a task and freeing it again gives everything back: the same
    blocks are live, the task list is the old one, the current task is the
    old one, and what was owned is unchanged (the last task's [next] link
    aside, which the list accounts for). *)
Theorem task_new_free_restores `{KAllocator} k process l :
  heap_ok (kmem k) -> room (kmem k) 1027 -> task_list (kmem k) (task_head k) (task_tail k) l ->
  (forall t, t ∈ l -> live (kmem k) t 4096 /\ page t) ->
  (forall a, entry_byte (kmem k) process a -> owned (kmem k) a) -> current_task k ∈ l ->
  exists t k1 k2, task_new process k = Ret t k1 /\ task_free t k1 = Ret 0 k2 /\
    heap_ok (kmem k2) /\ (forall q s, live (kmem k2) q s <-> live (kmem k) q s) /\
    task_list (kmem k2) (task_head k2) (task_tail k2) l /\ current_task k2 = current_task k /\
    (forall a, owned (kmem k) a ->
       (forall p, l !! pred (length l) = Some p -> a < p + 56 \/ p + 60 <= a) ->
       rd (kmem k2) a = rd (kmem k) a).
Proof.
  intros Hok Hroom Hl Hel He Hcur.
  destruct (task_new_spec k process l 0 Hok Hroom Hl Hel He)
    as (t & m' & chunk & dir & ts & E & Hl' & Hsp & _ & _ & Hok' & _ & Hlv & Hfr & Ho).
  assert (Hne : l <> []) by (intros ->; by apply not_elem_of_nil in Hcur).
  destruct (task_free_last (appended k l t m') t l chunk dir ts Hok' Hsp Hl')
    as (k2 & E2 & Hok2 & Hl2 & Hc2 & Hlv2 & Ho2).
  { intros s Hs. destruct (Hel s Hs) as [Hls _]. split; [apply Hlv; by left|by eapply Hfr]. }
  exists t, (appended k l t m'), k2. split; [done|]. split; [done|]. split; [done|].
  split; [|split; [done|split]].
  - intros q s. rewrite Hlv2. change (kmem (appended k l t m')) with m'. rewrite Hlv.
    split; [intros [[?|[? _]] ?]; done|]. intros Hq. split; [by left|by eapply Hfr].
  - rewrite Hc2. unfold appended. ksimpl. rewrite decide_False by done.
    destruct (Z.eqb_spec (current_task k) t) as [E0|]; [|done]. exfalso.
    destruct (Hel _ Hcur) as [Hlc _]. apply (Hfr _ _ Hlc). rewrite E0. by left.
  - intros a Ha Hp. rewrite Ho2 by (apply Ha || done). by apply Ho.
Qed.

(** C17. What an interrupt saves is what the task resumes with: after
    [task_save_state] from a frame, [task_switch] to the task and
    [task_return] load every general register (EBP aside), the instruction and
    stack pointers and the segments from that frame, under the task's own
    directory. *)
Theorem save_then_resume `{KAllocator} mmu k task frame chunk dir ts :
  mmu_ok mmu -> heap_ok (kmem k) -> task_space (kmem k) task chunk dir ts ->
  (forall j, 0 <= j < 64 -> maps (kmem k) dir (task + j) (task + j)) ->
  frame + 52 <= task + 4 \/ task + 52 <= frame ->
  let saved o := ld32 (kmem k) (frame + o) in
  exists k1 k2 k3, task_save_state task frame k = Ret tt k1 /\ task_switch task k1 = Ret 0 k2 /\
    task_return mmu (task + task_registers) k2 =
      Ret {| edi := saved 0; esi := saved 4; ebx := saved 16; edx := saved 20; ecx := saved 24;
             eax := saved 28; ip := saved 32; cs := saved 36; esp := saved 44; ss := saved 48 |} k3 /\
    cr3 (paging k3) = dir /\ current_task k3 = task /\ data_segment k3 = u16 (saved 48).
Proof.
  intros Hmmu Hok Hsp Hid Hd saved.
  destruct (save_registers_spec task frame saved_registers k) as (m' & E & Ho & _ & Hin).
  { intros r f Hrf. unfold saved_registers in Hrf. rewrite !elem_of_cons, elem_of_nil in Hrf.
    repeat destruct Hrf as [[= -> ->]|Hrf]; [done..|done]. }
  { by apply (bool_decide_unpack _). }
  { done. }
  pose proof Hsp as [_ Hd0 Hlt Hpg Hfr _]. pose proof (page_top _ Hpg) as Htop.
  assert (Hf : forall a, a < task \/ task + 4096 <= a \/ task <= a < task + 4 -> rd m' a = rd (kmem k) a)
    by (intros a Ha; apply Ho; lia).
  destruct (task_space_frame (kmem k) m' task chunk dir ts task Hok Hsp Hlt Hfr Hf) as [Hsp' _].
  assert (Hs : forall a, space (kmem k) dir a -> rd m' a = rd (kmem k) a).
  { intros a Ha. apply Hf. destruct (decide (task <= a < task + 4096)) as [Hin2|]; [|lia].
    exfalso. by apply (task_stable _ _ _ _ _ Hsp a Hin2). }
  pose proof (dir_owned_wf _ _ _ _ Hd0) as Hw.
  set (k2 := with_tasks task (task_head k) (task_tail k) (with_kmem m' k)).
  exists (with_kmem m' k), (running dir (data_segment k) m' k2). eexists.
  split; [done|]. split.
  { unfold task_switch. rewrite (bind_Ret _ _ _ tt k2) by done.
    rewrite (bind_Ret _ _ _ _ _ (switch_pages_eq k2 task chunk dir ts Hsp' (data_segment k2))). done. }
  split; [|split; [|split]].
  { rewrite (task_return_spec mmu Hmmu k2 m' dir (task + task_registers)).
    - assert (Hr : forall r f, In (r, f) saved_registers -> ld32 m' (task + 4 + r) = saved f)
        by (intros r f Hrf; by apply Hin, list_elem_of_In).
      unfold task_registers.
      rewrite (Hr reg_edi frame_edi), (Hr reg_esi frame_esi), (Hr reg_ebx frame_ebx),
        (Hr reg_edx frame_edx), (Hr reg_ecx frame_ecx), (Hr reg_eax frame_eax),
        (Hr reg_ip frame_ip), (Hr reg_cs frame_cs), (Hr reg_esp frame_esp),
        (Hr reg_ss frame_ss) by (cbn; tauto). reflexivity.
    - by apply (space_wf (kmem k)).
    - unfold task_registers. destruct Hpg. lia.
    - intros j Hj. destruct Hpg. unfold task_registers.
      replace (task + 4 + j) with (task + (4 + j)) by lia.
      apply (space_maps (kmem k)); [done|done|lia|apply Hid; lia]. }
  all: done.
Qed.

(** C18. [copy_string_from_task] brings a user string in: for a string of the
    task, shorter than [max], that its pages map (to bytes the kernel will not
    touch meanwhile), the destination receives the characters and the
    terminator; the temporary block is released, the task's page table is as
    it was, the kernel runs on its own pages again, and nothing else that was
    owned has changed. *)
Theorem copy_string_from_task_copies `{KAllocator} mmu k task chunk dir ts n v l physical max :
  mmu_ok mmu -> heap_ok (kmem k) -> room (kmem k) (S n) -> task_space (kmem k) task chunk dir ts ->
  (forall a, kernel_chunk k <= a < kernel_chunk k + 4 -> stable (kmem k) dir a) ->
  Z.of_nat (length l) < max < 4096 -> user_string (kmem k) dir v l ->
  (forall a, physical <= a < physical + max -> stable (kmem k) dir a) ->
  exists m', copy_string_from_task mmu task v physical max k =
      Ret 0 (running (ld32 (kmem k) (kernel_chunk k)) KERNEL_DATA_SELECTOR m' k) /\
    cstr (at_mem m' physical) l /\ heap_ok m' /\
    (forall q s, live m' q s <-> live (kmem k) q s) /\
    (forall a, owned (kmem k) a -> a < physical \/ physical + Z.of_nat (length l) < a ->
       rd m' a = rd (kmem k) a).
Proof.
  intros Hmmu Hok Hroom Hsp Hk Hmax Hstr Hphys.
  destruct (copy_string_spec mmu Hmmu k task chunk dir ts n Hok Hroom Hsp Hk v l physical max)
    as (m' & E & Hc & Hok' & Hlv & _ & Ho); [done..|]. by exists m'.
Qed.

(** Removal leaves the successor's [prev] pointing at the removed task, so
    removing that successor next goes wrong: in the list [a, b, c], after
    [b] and then [c] are removed, the head [a] still links to [c], and the
    tail is [b]; both have been freed by then. *)
Theorem task_list_remove_stale k a b c :
  task_list (kmem k) (task_head k) (task_tail k) [a; b; c] ->
  exists k1 k2, task_list_remove b k = Ret tt k1 /\ task_list_remove c k1 = Ret tt k2 /\
    task_head k2 = a /\ ld32 (kmem k2) (a + task_next_link) = c /\ task_tail k2 = b.
Proof.
  intros Hl. exists (unlinked b k), (unlinked c (unlinked b k)).
  split; [apply task_list_remove_eq|]. split; [apply task_list_remove_eq|].
  pose proof Hl as [[Hh Hn] Hp Ht Ha].
  destruct (Hn 0%nat a eq_refl) as [Ha0 Hna]. destruct (Hn 1%nat b eq_refl) as [Hb0 Hnb].
  destruct (Hn 2%nat c eq_refl) as [Hc0 Hnc].
  pose proof (Hp 1%nat b eq_refl) as Hpb. pose proof (Hp 2%nat c eq_refl) as Hpc.
  pose proof (Ha 0%nat 1%nat a b eq_refl eq_refl ltac:(lia)) as Hab.
  pose proof (Ha 0%nat 2%nat a c eq_refl eq_refl ltac:(lia)) as Hac.
  pose proof (Ha 1%nat 2%nat b c eq_refl eq_refl ltac:(lia)) as Hbc.
  cbn in Hh, Ht, Hna, Hnb, Hnc, Hpb, Hpc. unfold sizeof_task in *.
  set (m := kmem k) in *. set (m1 := st32 m (a + task_next_link) c).
  assert (Hc32 : 0 <= c < 4294967296) by (rewrite <- Hnb; apply ld32_range).
  assert (E1 : unlinked b k = with_tasks (if b =? current_task k then c else current_task k)
                                a c (with_kmem m1 k)).
  { unfold unlinked. fold m. rewrite Hpb, Hnb. destruct (Z.eqb_spec a 0); [lia|]. fold m1.
    rewrite Hh, Ht. destruct (Z.eqb_spec b a); [lia|]. destruct (Z.eqb_spec b c); [lia|].
    unfold m1. rewrite ld32_st32_ne by (unfold task_next_link; lia). rewrite Hnb.
    destruct (Z.eqb_spec c 0); [lia|done]. }
  assert (Hpc1 : ld32 m1 (c + task_prev_link) = b)
    by (unfold m1; rewrite ld32_st32_ne by (unfold task_next_link, task_prev_link; lia); done).
  rewrite E1. unfold unlinked. ksimpl. cbv zeta. rewrite Hpc1.
  destruct (Z.eqb_spec b 0); [lia|]. destruct (Z.eqb_spec c a); [lia|]. rewrite Z.eqb_refl.
  split; [done|]. split.
  - rewrite ld32_st32_ne by (unfold task_next_link; lia). unfold m1.
    rewrite ld32_st32_eq. by apply u32_id.
  - rewrite ld32_st32_ne by (unfold task_next_link, task_prev_link; lia). done.
Qed.

(** ** Witnesses *)

(** A kernel over the memory [m] with no task, or the one task [t]. *)
Definition small_kernel (m : mem) (t : Z) : kernel :=
  {| files := with_core (with_mem m (core empty_vfs)) empty_vfs;
     paging := {| cr3 := 0; current_directory := 0 |}; data_segment := 0x10;
     kernel_chunk := 0x5000; current_task := t; task_head := t; task_tail := t;
     current_process := 0; processes := replicate 12 0; keyboard_list_head := 0; keyboard_list_last := 0;
     interrupt_callbacks := replicate 512 None; isr80h_commnads := replicate 1024 None |}.

Lemma kmem_small m t : kmem (small_kernel m t) = m.
Proof. done. Qed.

Lemma low_owned m a : a < 0x7E00 \/ 0xE200 <= a < 0x1000000 -> owned m a.
Proof.
  intros Ha. split.
  - intros Hm. unfold meta, kernel_allocator, in_table in Hm. rewrite kernel_total in Hm.
    change (entries (table kernel_heap)) with 0x7E00 in Hm. lia.
  - intros Hp. unfold pool, kernel_allocator in Hp.
    change (saddr kernel_heap) with 0x1000000 in Hp. lia.
Qed.

Lemma no_tasks m : task_list m 0 0 [].
Proof. split; [by split|done|done|done]. Qed.

Lemma empty_entry a : entry_byte ∅ 0x200000 a -> owned ∅ a.
Proof.
  intros Ha. apply low_owned. revert Ha. unfold entry_byte.
  change (ld32 ∅ (0x200000 + proc_elf_file)) with 0. change (elf_header 0 ∅) with 0.
  unfold proc_filetype, proc_elf_file, ef_elf_memory, e_entry. lia.
Qed.

Lemma task_new_appends_witness :
  exists t k', task_new 0x200000 (small_kernel ∅ 0) = Ret t k' /\
    task_list (kmem k') (task_head k') (task_tail k') [t] /\ current_task k' = t.
Proof.
  destruct (task_new_appends (small_kernel ∅ 0) 0x200000 [])
    as (t & k' & _ & _ & _ & E & Hl & Hc & _).
  - exact kernel_empty_ok.
  - apply kernel_empty_room; lia.
  - apply no_tasks.
  - intros t Ht. by apply not_elem_of_nil in Ht.
  - exact empty_entry.
  - exists t, k'. split; [exact E|]. split; [exact Hl|by apply Hc].
Defined.

(** A fresh page is a one-task list. *)
Lemma one_task : exists t m, heap_ok m /\ room m 1027 /\ live m t 4096 /\ page t /\
  task_list m t t [t] /\ (forall a, entry_byte m 0x200000 a -> owned m a).
Proof.
  destruct (alloc_page ∅ 4096 1027) as (t & m & _ & Ht & Hok & Hr & Hlv & _ & _ & Hz & Ho & _);
    [by apply one_block|done|exact kernel_empty_ok|apply kernel_empty_room; lia|].
  assert (Hl : live m t 4096) by (apply Hlv; by right).
  assert (Hw : forall o, 0 <= o <= 60 -> ld32 m (t + o) = 0).
  { intros o Hoo. unfold ld32. by rewrite !Hz by lia. }
  destruct (live_block _ _ _ Hl) as [Hpos _].
  exists t, m. repeat (split; [done|]). split; [split; [split| | |]|].
  - done.
  - intros i s [-> <-]%list_lookup_singleton_Some. split; [lia|]. by apply Hw.
  - intros i s [-> <-]%list_lookup_singleton_Some. by apply Hw.
  - done.
  - by intros i j s s' [-> <-]%list_lookup_singleton_Some [-> <-]%list_lookup_singleton_Some.
  - intros a Ha. apply (entry_byte_frame ∅) in Ha; [|intros b Hb; by apply Ho, empty_entry].
    by apply Ho, empty_entry.
Qed.

Lemma task_new_free_restores_witness :
  exists k t k1 k2, task_new 0x200000 k = Ret t k1 /\ task_free t k1 = Ret 0 k2 /\
    (forall q s, live (kmem k2) q s <-> live (kmem k) q s).
Proof.
  destruct one_task as (t0 & m & Hok & Hr & Hl & Hp & Hlist & He).
  destruct (task_new_free_restores (small_kernel m t0) 0x200000 [t0])
    as (t & k1 & k2 & E1 & E2 & _ & Hlv & _).
  - exact Hok.
  - exact Hr.
  - exact Hlist.
  - intros s Hs. apply list_elem_of_singleton in Hs as ->. by split.
  - exact He.
  - by left.
  - exists (small_kernel m t0), t, k1, k2. split; [exact E1|]. split; [exact E2|exact Hlv].
Defined.

Definition three_tasks : mem :=
  let m := st32 (st32 ∅ (0x1000 + 56) 0x2000) (0x2000 + 56) 0x3000 in
  st32 (st32 m (0x2000 + 60) 0x1000) (0x3000 + 60) 0x2000.

Lemma task_list_remove_stale_witness : let k := with_tasks 0x1000 0x1000 0x3000 (small_kernel three_tasks 0) in
  exists k1 k2, task_list_remove 0x2000 k = Ret tt k1 /\ task_list_remove 0x3000 k1 = Ret tt k2 /\
    task_head k2 = 0x1000 /\ ld32 (kmem k2) (0x1000 + task_next_link) = 0x3000 /\ task_tail k2 = 0x2000.
Proof.
  apply (task_list_remove_stale
    (with_tasks 0x1000 0x1000 0x3000 (small_kernel three_tasks 0)) 0x1000 0x2000 0x3000).
  assert (Hc : forall (P : nat -> Z -> Prop), P 0%nat 0x1000 -> P 1%nat 0x2000 -> P 2%nat 0x3000 ->
    forall i t, [0x1000; 0x2000; 0x3000] !! i = Some t -> P i t).
  { intros P H0 H1 H2 [|[|[|i]]] t [= <-]; done. }
  split; [split|..].
  - done.
  - apply Hc; by vm_compute.
  - apply Hc; by vm_compute.
  - done.
  - intros i j s t Hi Hj Hne. revert i s Hi Hne.
    refine (Hc _ _ _ _); revert j t Hj; refine (Hc _ _ _ _); unfold sizeof_task; lia.
Defined.

(** With an identity address space every address maps to itself. *)
Lemma identity_maps m dir a :
  dir_wf m dir -> (forall i, 0 <= i < 1024 -> Z.testbit (dir_entry m dir i) 0 = true) ->
  (forall v, page v -> pte m dir v = Z.lor v 5) -> 0 <= a < 4294967296 -> maps m dir a a.
Proof.
  intros Hw Hp Hid Ha. destruct (lower_page a Ha) as [_ Hpg]. split; [apply Hp; dlia|].
  split.
  - rewrite Hid, Z.lor_spec by done. by rewrite orb_true_r.
  - rewrite translate_pte, Hid, land_page_lor by (done || lia). rewrite u32_id; lia.
Qed.

(** A kernel with one task in its address space, and room for more; [m0] is
    the memory before, empty except for one page. *)
Lemma task_kernel m0 : (forall a, a < 0x300000 \/ 0x304000 <= a -> rd m0 a = rd ∅ a) ->
  exists k t chunk dir ts, heap_ok (kmem k) /\ room (kmem k) (S (Z.to_nat 20000)) /\
  (forall v, page v -> pte (kmem k) dir v = Z.lor v 5) /\ task_space (kmem k) t chunk dir ts /\ (forall a, 0 <= a < 4294967296 -> maps (kmem k) dir a a) /\
  0x1000000 <= t /\ kernel_chunk k = 0x5000 /\
  (forall a, a < 0x7E00 \/ 0xE200 <= a < 0x1000000 -> stable (kmem k) dir a /\ rd (kmem k) a = rd m0 a).
Proof.
  intros Hm0.
  assert (Hmeta : forall a, meta a -> rd m0 a = rd ∅ a).
  { intros a Ha. apply Hm0. unfold meta, kernel_allocator, in_table in Ha. rewrite kernel_total in Ha.
    change (entries (table kernel_heap)) with 0x7E00 in Ha. lia. }
  destruct (@meta_frame kernel_allocator ∅ m0 kernel_empty_ok Hmeta) as (Hok0 & _ & Hr0).
  destruct (task_new_spec (small_kernel m0 0) 0x200000 [] (S (Z.to_nat 20000)))
    as (t & m & chunk & dir & ts & _ & _ & Hsp & Hpte & _ & Hok & Hroom & Hlv & _ & Ho).
  - exact Hok0.
  - apply Hr0, kernel_empty_room. lia.
  - apply no_tasks.
  - intros t Ht. by apply not_elem_of_nil in Ht.
  - intros a Ha. rewrite kmem_small in Ha. apply (owned_ext ∅);
      [intros q s; by apply (@meta_frame kernel_allocator ∅ m0 kernel_empty_ok Hmeta)|].
    apply empty_entry, (entry_byte_frame ∅ m0); [|done]. intros b Hb. apply Hm0. revert Hb.
    unfold entry_byte. change (ld32 ∅ (0x200000 + proc_elf_file)) with 0.
    change (elf_header 0 ∅) with 0. unfold proc_filetype, proc_elf_file, ef_elf_memory, e_entry. lia.
  - pose proof (dir_owned_wf _ _ _ _ (sp_owned _ _ _ _ _ Hsp)) as Hw.
    assert (Hlow : forall a, a < 0x7E00 \/ 0xE200 <= a < 0x1000000 -> stable m dir a).
    { intros a Ha. split; [by apply low_owned|]. intros Hs.
      destruct (dir_owned_space _ _ _ _ _ (sp_owned _ _ _ _ _ Hsp) Hs) as (p & Hp & _ & Hr).
      pose proof (live_pool m p 4096 a (do_live _ _ _ _ (sp_owned _ _ _ _ _ Hsp) p Hp) Hr) as Hpool.
      unfold pool, kernel_allocator in Hpool. change (saddr kernel_heap) with 0x1000000 in Hpool. lia. }
    exists (with_kmem m (small_kernel m0 0)), t, chunk, dir, ts. rewrite kmem_with_kmem.
    split; [done|]. split; [done|]. split; [done|]. split; [done|]. split; [|split; [|split; [done|]]].
    + intros a Ha. apply identity_maps; [done|apply Hsp|done|done].
    + pose proof (live_pool m t 4096 t (sp_live _ _ _ _ _ Hsp) ltac:(lia)) as Hpool.
      exact Hpool.
    + intros a Ha. split; [by apply Hlow|]. apply Ho; [by apply low_owned|].
      intros p Hp. discriminate.
Qed.

Lemma save_then_resume_witness : exists k task k1 k2 k3 regs,
  task_save_state task 0x100000 k = Ret tt k1 /\ task_switch task k1 = Ret 0 k2 /\
  task_return walk (task + task_registers) k2 = Ret regs k3 /\
  ip regs = ld32 (kmem k) (0x100000 + 32).
Proof.
  destruct (task_kernel ∅ ltac:(done)) as (k & t & chunk & dir & ts & Hok & _ & _ & Hsp & Hid & Ht & _ & _).
  pose proof (page_top _ (sp_page _ _ _ _ _ Hsp)) as Htop.
  destruct (save_then_resume walk k t 0x100000 chunk dir ts walk_ok Hok Hsp)
    as (k1 & k2 & k3 & E1 & E2 & E3 & _).
  - intros j Hj. apply Hid. lia.
  - lia.
  - exists k, t, k1, k2, k3. eexists. split; [exact E1|]. split; [exact E2|]. split; [exact E3|done].
Defined.

(** The string [Hi] at 0x300000. *)
Definition greeting : mem := store_bytes ∅ 0x300000 [72; 105; 0].

Lemma copy_string_from_task_copies_witness : exists k task m',
  copy_string_from_task walk task 0x300000 0x400000 16 k =
    Ret 0 (running (ld32 (kmem k) (kernel_chunk k)) KERNEL_DATA_SELECTOR m' k) /\
  cstr (at_mem m' 0x400000) [72; 105].
Proof.
  assert (Hm0 : forall a, a < 0x300000 \/ 0x304000 <= a -> rd greeting a = rd ∅ a).
  { intros a Ha. unfold greeting. apply rd_store_bytes_out. cbn. lia. }
  destruct (task_kernel greeting Hm0) as (k & t & chunk & dir & ts & Hok & Hr & _ & Hsp & Hid & Ht & Hk & Hst).
  destruct (copy_string_from_task_copies walk k t chunk dir ts (Z.to_nat 20000) 0x300000 [72; 105] 0x400000 16
    walk_ok Hok Hr Hsp) as (m' & E & Hc & _).
  - intros a Ha. rewrite Hk in Ha. apply Hst. lia.
  - cbn. lia.
  - split; [repeat (constructor; [unfold char_ok; lia|]); constructor|]. split; [lia|].
    split; [cbn; lia|]. intros j Hj. cbn in Hj. split; [apply low_owned; lia|].
    exists (0x300000 + Z.of_nat j). split; [apply Hid; lia|]. split; [|apply Hst; lia].
    rewrite (proj2 (Hst (0x300000 + Z.of_nat j) ltac:(lia))). destruct j as [|[|[|j]]]; [by vm_compute..|lia].
  - intros a Ha. apply Hst. lia.
  - exists k, t, m'. split; [exact E|exact Hc].
Defined.
