(* ===== verification/Schedule.v ===== *)
(** * Scheduling: [task_next] over the task list

    [task_next] (of [src/task/task.c]) leaves the running task for the next
    one of the list, and at the end for the first.  It is how the kernel goes
    on after a program exits or faults.  The abstract schedule is a position
    that advances around the list. *)
From S2P Require Import Prelude Config Memory CString Heap KHeap Paging Terminal PathParser Disk Fat16 File Elf Kernel Task.

(** ** The abstract view *)

(** The registers a task was left with. *)
Definition saved_state (m : mem) (t : Z) : registers :=
  let reg o := ld32 m (t + task_registers + o) in
  {| edi := reg reg_edi; esi := reg reg_esi; ebx := reg reg_ebx; edx := reg reg_edx;
     ecx := reg reg_ecx; eax := reg reg_eax; ip := reg reg_ip; cs := reg reg_cs;
     esp := reg reg_esp; ss := reg reg_ss |}.

(** The task [t] has an address space in which its own object, whose
    registers [task_return] reads there, is at its address. *)
Definition resumable `{KAllocator} (m : mem) (t dir : Z) : Prop :=
  exists chunk ts, task_space m t chunk dir ts /\ forall j, 0 <= j < 64 -> maps m dir (t + j) (t + j).

(** [t] runs: its pages, its selector, the rest of the kernel as it was. *)
Definition resumed (t dir : Z) (k : kernel) : kernel :=
  with_cpu (page_switch dir (paging k)) (u16 (ld32 (kmem k) (t + task_registers + reg_ss)))
    (with_tasks t (task_head k) (task_tail k) k).

(** [n] turns in a row, with the registers each of them resumes. *)
Fixpoint turns (mmu : mmu_type) (n : nat) : M kernel (list registers) :=
  match n with
  | O => ret []
  | S n' => let! r := task_next mmu in let! rs := turns mmu n' in ret (r :: rs)
  end.

(** The task [n] turns after the one at position [i]. *)
Definition in_turn (l : list Z) (i n : nat) : Z := default 0 (l !! ((i + n) mod length l)%nat).

(** ** Lemmas *)

Section schedule.
Context `{KAllocator} (mmu : mmu_type) (Hmmu : mmu_ok mmu).

Lemma kmem_resumed t dir k : kmem (resumed t dir k) = kmem k.
Proof. done. Qed.

(** Switching to a task and loading its registers. *)
Lemma switch_return t dir k : resumable (kmem k) t dir ->
  (task_switch t ;;; task_return mmu (t + task_registers)) k =
    Ret (saved_state (kmem k) t) (resumed t dir k).
Proof.
  intros (chunk & ts & Hsp & Hid). set (k1 := with_tasks t (task_head k) (task_tail k) k).
  pose proof (sp_page _ _ _ _ _ Hsp) as Hpg. pose proof (page_top _ Hpg) as Htop. destruct Hpg as [Hpg _].
  rewrite (bind_Ret _ _ _ 0 (running dir (data_segment k) (kmem k) k1)).
  2:{ unfold task_switch. rewrite (bind_Ret _ _ _ tt k1) by done.
      by rewrite (bind_Ret _ _ _ _ _ (switch_pages_eq k1 t chunk dir ts Hsp (data_segment k1))). }
  rewrite (task_return_spec mmu Hmmu k1 (kmem k) dir (t + task_registers)).
  - unfold saved_state, resumed, running, k1. f_equal.
    change (kmem k) with (kmem k1). by rewrite with_kmem_id.
  - exact (dir_owned_wf _ _ _ _ (sp_owned _ _ _ _ _ Hsp)).
  - unfold task_registers. lia.
  - intros j Hj. unfold task_registers. rewrite <- Z.add_assoc. apply Hid. lia.
Qed.

(** The successor in the list, around its end. *)
Lemma get_next_turn k head l i : chain (kmem k) head l -> head = task_head k ->
  l !! i = Some (current_task k) -> task_get_next k = Ret (in_turn l i 1) k.
Proof.
  intros [Hh Hc] -> Hi. destruct (Hc i _ Hi) as [_ Hn]. apply lookup_lt_Some in Hi as Hlt.
  rewrite task_get_next_eq, Hn. f_equal. unfold in_turn.
  destruct (decide (S i < length l)%nat) as [Hs|Hs].
  - rewrite Nat.mod_small by lia. rewrite Nat.add_1_r.
    destruct (lookup_lt_is_Some_2 l (S i) Hs) as [q Hq]. rewrite Hq. cbn [default id].
    destruct (Hc (S i) q Hq) as [Hne _]. by rewrite (proj2 (Z.eqb_neq q 0)).
  - rewrite (lookup_ge_None_2 l (S i)) by lia. cbn [default].
    replace (i + 1)%nat with (length l) by lia. rewrite Nat.Div0.mod_same. by rewrite Z.eqb_refl.
Qed.

Lemma in_turn_lookup l i n : (0 < length l)%nat ->
  l !! ((i + n) mod length l)%nat = Some (in_turn l i n).
Proof.
  intros Hl. unfold in_turn. destruct (lookup_lt_is_Some_2 l ((i + n) mod length l)%nat) as [q E].
  - apply Nat.mod_upper_bound. lia.
  - by rewrite E.
Qed.

Lemma task_next_spec k l i dir : chain (kmem k) (task_head k) l -> l !! i = Some (current_task k) ->
  resumable (kmem k) (in_turn l i 1) dir ->
  task_next mmu k = Ret (saved_state (kmem k) (in_turn l i 1)) (resumed (in_turn l i 1) dir k).
Proof.
  intros Hc Hi Hr. unfold task_next. rewrite (bind_Ret _ _ _ _ _ (get_next_turn k _ l i Hc eq_refl Hi)).
  pose proof (in_turn_lookup l i 1 ltac:(by apply lookup_lt_Some in Hi; lia)) as Hin.
  destruct Hc as [_ Hc]. destruct (Hc _ _ Hin) as [Hne _].
  rewrite (proj2 (Z.eqb_neq _ 0)) by done. by apply switch_return.
Qed.

Lemma turns_spec l : forall n k i, chain (kmem k) (task_head k) l -> l !! i = Some (current_task k) ->
  (forall t, t ∈ l -> exists dir, resumable (kmem k) t dir) ->
  exists k', turns mmu n k = Ret ((fun j => saved_state (kmem k) (in_turn l i j)) <$> seq 1 n) k' /\
    kmem k' = kmem k /\ task_head k' = task_head k /\ l !! ((i + n) mod length l)%nat = Some (current_task k') /\
    (n <> O -> resumable (kmem k) (current_task k') (cr3 (paging k'))).
Proof.
  induction n as [|n IH]; intros k i Hc Hi Hr; apply lookup_lt_Some in Hi as Hlt; cbn [turns].
  - exists k. rewrite Nat.add_0_r, Nat.mod_small by done. done.
  - pose proof (in_turn_lookup l i 1 ltac:(lia)) as Hin.
    destruct (Hr (in_turn l i 1)) as [dir Hdir]; [by eapply list_elem_of_lookup_2|].
    rewrite (bind_Ret _ _ _ _ _ (task_next_spec k l i dir Hc Hi Hdir)).
    set (k1 := resumed (in_turn l i 1) dir k).
    destruct (IH k1 ((i + 1) mod length l)%nat Hc Hin Hr) as (k' & E & Hm & Hh & Hcur & Hrun).
    assert (Emod : forall j, (((i + 1) mod length l + j) mod length l = (i + S j) mod length l)%nat).
    { intros j. rewrite Nat.Div0.add_mod_idemp_l. f_equal. lia. }
    exists k'. rewrite (bind_Ret _ _ _ _ _ E). split; [|split; [done|split; [done|split]]].
    + unfold ret. f_equal. cbn [seq fmap list_fmap]. f_equal. change (list_fmap nat registers) with (@fmap list _ nat registers).
      rewrite <- (fmap_S_seq 1 n), <- list_fmap_compose.
      apply list_fmap_ext. intros j x _. cbn. unfold in_turn. by rewrite Emod.
    + rewrite <- Hcur. by rewrite Emod.
    + intros _. destruct n as [|n]; [|by apply Hrun]. cbn in E. injection E as <-. exact Hdir.
Qed.

(** What keeps a task resumable: its blocks, its directory's address and the
    page tables; the links to its neighbours may change. *)
Lemma task_space_kept m m' t chunk dir ts :
  task_space m t chunk dir ts ->
  (forall q, q ∈ t :: chunk :: dir :: ts -> live m' q 4096) ->
  (forall q a, q ∈ chunk :: dir :: ts -> q <= a < q + 4096 -> rd m' a = rd m a) ->
  (forall a, t <= a < t + 4 -> rd m' a = rd m a) ->
  task_space m' t chunk dir ts /\
  (forall v p, 0 <= v < 4294967296 -> maps m dir v p -> maps m' dir v p).
Proof.
  intros [Hc Hd Hl Hp Hf Hpr] Hlv Hb Ht. pose proof Hd as [H1 H2 H3 H4 H5 H6].
  assert (Hs : forall a, space m dir a -> rd m' a = rd m a).
  { intros a Ha. destruct (dir_owned_space _ _ _ _ _ Hd Ha) as (q & Hq & _ & Hr). by apply (Hb q). }
  pose proof (dir_owned_wf _ _ _ _ Hd) as Hw.
  split; [|intros v p Hv; by apply (space_maps m m' dir Hs)].
  split; [| |apply Hlv; by left|done|done|].
  - rewrite <- Hc. apply ld32_ext. intros i Hi. apply Ht. unfold task_page_directory. lia.
  - split; [done|done|intros q Hq; apply Hlv; by right|done| |].
    + rewrite <- H5. apply ld32_ext. intros i Hi. apply (Hb chunk); [by left|lia].
    + intros i q Hq. rewrite (space_table m m' dir Hs); [by apply H6|]. apply lookup_lt_Some in Hq. lia.
  - intros i Hi. rewrite (space_entry m m' dir Hs) by done. by apply Hpr.
Qed.

End schedule.

(** ** Properties *)

(** C11. Nobody waits for ever: from any task of the list, after as many calls of
    [task_next] as there are tasks every task has had its turn - in list
    order, starting again at the end - each resumed with exactly the
    registers it was left with and under its own directory; memory is
    untouched. *)
Theorem task_next_round_robin `{KAllocator} mmu k l i t :
  mmu_ok mmu -> chain (kmem k) (task_head k) l -> l !! i = Some (current_task k) ->
  (forall s, s ∈ l -> exists dir, resumable (kmem k) s dir) -> t ∈ l ->
  exists n k' dir, (0 < n <= length l)%nat /\
    turns mmu n k = Ret ((fun j => saved_state (kmem k) (in_turn l i j)) <$> seq 1 n) k' /\
    in_turn l i n = t /\ current_task k' = t /\ resumable (kmem k) t dir /\ cr3 (paging k') = dir /\
    kmem k' = kmem k.
Proof.
  intros Hmmu Hc Hi Hr Ht. apply list_elem_of_lookup in Ht as [j Hj].
  apply lookup_lt_Some in Hi as Hi2. apply lookup_lt_Some in Hj as Hj2.
  set (n := if decide (i < j)%nat then (j - i)%nat else (length l + j - i)%nat).
  assert (Hn : (0 < n <= length l)%nat /\ ((i + n) mod length l = j)%nat).
  { unfold n. case_decide.
    - split; [lia|]. replace (i + (j - i))%nat with j by lia. by apply Nat.mod_small.
    - split; [lia|]. replace (i + (length l + j - i))%nat with (j + 1 * length l)%nat by lia.
      rewrite Nat.Div0.mod_add. by apply Nat.mod_small. }
  destruct Hn as [Hn Emod].
  destruct (turns_spec mmu Hmmu l n k i Hc Hi Hr) as (k' & E & Hm & _ & Hcur & Hrun).
  rewrite Emod, Hj in Hcur. injection Hcur as Hcur. exists n, k', (cr3 (paging k')).
  split; [done|]. split; [done|]. split; [unfold in_turn; by rewrite Emod, Hj|]. split; [done|].
  split; [|done]. rewrite Hcur. apply Hrun. lia.
Qed.

(** ** Witnesses *)

(** Two tasks made one after the other from nothing. *)
Lemma two_tasks : exists k t1 t2 d1 d2,
  chain (kmem k) (task_head k) [t1; t2] /\ current_task k = t1 /\
  resumable (kmem k) t1 d1 /\ resumable (kmem k) t2 d2 /\ t1 <> t2.
Proof.
  set (k0 := small_kernel ∅ 0).
  destruct (task_new_spec k0 0x200000 [] 1027) as (t1 & m1 & c1 & d1 & ts1 & _ & Hl1 & Hsp1 & Hid1 & _ & Hok1 & Hr1 & Hlv1 & _ & Ho1);
    [exact kernel_empty_ok|apply kernel_empty_room; lia|apply no_tasks|intros t Ht; by apply not_elem_of_nil in Ht|exact empty_entry|].
  set (k1 := with_kmem m1 (small_kernel ∅ t1)).
  assert (Hown1 : forall a, owned ∅ a -> rd m1 a = rd ∅ a) by (intros a Ha; apply Ho1; [exact Ha|intros p Hp; discriminate]).
  destruct (task_new_spec k1 0x200000 [t1] 0) as (t2 & m2 & c2 & d2 & ts2 & _ & Hl2 & Hsp2 & Hid2 & _ & Hok2 & _ & Hlv2 & Hfr2 & Ho2);
    [exact Hok1|exact Hr1|exact Hl1| | |].
  { intros t ->%list_elem_of_singleton. split; [exact (sp_live _ _ _ _ _ Hsp1)|exact (sp_page _ _ _ _ _ Hsp1)]. }
  { intros a Ha. apply (entry_byte_frame ∅) in Ha; [|intros b Hb; by apply Hown1, empty_entry].
    apply (owned_ext ∅); [intros q s Hq; apply Hlv1; by left|by apply empty_entry]. }
  assert (Hm : forall m t c d ts, task_space m t c d ts -> (forall v, page v -> pte m d v = Z.lor v 5) ->
    forall j, 0 <= j < 64 -> maps m d (t + j) (t + j)).
  { intros m t c d ts Hsp Hid j Hj. pose proof (page_top _ (sp_page _ _ _ _ _ Hsp)). destruct (sp_page _ _ _ _ _ Hsp).
    apply identity_maps; [exact (dir_owned_wf _ _ _ _ (sp_owned _ _ _ _ _ Hsp))|exact (sp_present _ _ _ _ _ Hsp)|exact Hid|lia]. }
  assert (Hlive : forall q, q ∈ t1 :: c1 :: d1 :: ts1 -> live m1 q 4096).
  { intros q [->|Hq]%elem_of_cons; [exact (sp_live _ _ _ _ _ Hsp1)|by apply (do_live _ _ _ _ (sp_owned _ _ _ _ _ Hsp1))]. }
  assert (Hrd : forall q a, q ∈ t1 :: c1 :: d1 :: ts1 -> q <= a < q + 4096 -> a < t1 + 56 \/ t1 + 60 <= a -> rd m2 a = rd m1 a).
  { intros q a Hq Ha Ht. apply Ho2; [apply (owned_live m1 q 4096); [by apply Hlive|done]|]. intros p [= <-]. exact Ht. }
  destruct (task_space_kept m1 m2 t1 c1 d1 ts1 Hsp1) as [Hsp1' Hid1'].
  - intros q Hq. apply Hlv2. left. by apply Hlive.
  - intros q a Hq Ha. apply (Hrd q); [by right|done|].
    destruct (live_disjoint m1 q 4096 t1 4096) as [[-> _]|?]; [apply Hlive; by right|apply Hlive; by left|by destruct (sp_fresh _ _ _ _ _ Hsp1)|lia].
  - intros a Ha. apply (Hrd t1); [by left|lia|lia].
  - exists (with_tasks t1 t1 t2 (with_kmem m2 k0)), t1, t2, d1, d2.
    split; [exact (tl_chain _ _ _ _ Hl2)|]. split; [done|].
    split; [exists c1, ts1; split; [done|]|].
    { intros j Hj. apply Hid1'; [|by apply (Hm _ _ _ _ _ Hsp1 Hid1)].
      pose proof (page_top _ (sp_page _ _ _ _ _ Hsp1)). destruct (sp_page _ _ _ _ _ Hsp1). lia. }
    split; [exists c2, ts2; split; [done|by apply (Hm _ _ c2 _ ts2)]|].
    intros ->. apply (Hfr2 t2 4096); [apply Hlive; by left|by left].
Qed.

(** Two turns, and the first task is back. *)
Lemma task_next_round_robin_witness : exists k k' n,
  (0 < n <= 2)%nat /\ current_task k' = current_task k /\ exists rs, turns walk n k = Ret rs k'.
Proof.
  destruct two_tasks as (k & t1 & t2 & d1 & d2 & Hc & Hcur & Hr1 & Hr2 & _).
  destruct (task_next_round_robin walk k [t1; t2] 0 t1 walk_ok Hc) as (n & k' & dir & Hn & E & _ & Ec & _).
  - by rewrite Hcur.
  - intros s [->|[->|Hs]%elem_of_cons]%elem_of_cons; [by exists d1|by exists d2|by apply not_elem_of_nil in Hs].
  - by left.
  - exists k, k', n. split; [exact Hn|]. split; [by rewrite Ec, Hcur|]. eexists. exact E.
Defined.
