(* ===== verification/Process.v ===== *)
(** * Processes: [src/task/process.c]

    A process is a heap object of 9364 bytes: its name, task, table of 1024
    allocations, program image, stack, keyboard buffer and arguments.  Every
    function of the file is a definition over the kernel's state.
    [allocations] is the abstract view of the allocation table. *)
From S2P Require Import Prelude Config Memory CString Heap KHeap Paging Terminal PathParser Disk Fat16 File Elf Kernel Task.

(** ** Layout *)

(** [struct process]; [proc_filetype] and the union are in [Task]. *)
Definition proc_id : Z := 0.
Definition proc_filename : Z := 2.
Definition proc_task : Z := 112.
Definition proc_allocations : Z := 116.
Definition proc_ptr : Z := 8312.
Definition proc_stack : Z := 8316.
Definition proc_size : Z := 8320.
Definition proc_buffer : Z := 8324.
Definition proc_head : Z := 9348.
Definition proc_tail : Z := 9352.
Definition proc_argc : Z := 9356.
Definition proc_argv : Z := 9360.
Definition sizeof_process : Z := 9364.

(** [struct process_allocation]: pointer and size. *)
Definition alloc_ptr (process i : Z) : Z := process + proc_allocations + 8 * i.
Definition alloc_size (process i : Z) : Z := process + proc_allocations + 8 * i + 4.

(** [struct command_argument]. *)
Definition arg_next : Z := 512.
Definition sizeof_argument : Z := 512.

(** ** Operations *)

Section operations.
Context `{KAllocator} (ops : Z -> option filesystem_ops) (disk_obj : Z).
(** The addresses of the local [struct file_stat]s, what the stack held in
    the uninitialised [_process], and a bound on the length of paths. *)
Context (stat stack_process : Z) (fuel : nat).

Definition process_init (process : Z) : M kernel unit :=
  edit_kmem (memset process 0 sizeof_process).

Definition process_current : M kernel Z := gets current_process.

Definition process_get (process_id : Z) (k : kernel) : Z :=
  if (process_id <? 0) || (LIEBE_OS_MAX_PROCESSES <=? process_id) then u32 (- EINVARG)
  else default 0 (processes k !! Z.to_nat process_id).

Definition process_get_free_slot (k : kernel) : Z :=
  match first_null (processes k) 0 with Some i => i | None => - EISTKN end.

(** *** Loading the program *)

Definition process_load_binary (fileName process : Z) : M kernel Z :=
  let! fd := on_files (fopen ops disk_obj fuel fileName (at_list [114; 0])) in
  let! res :=
    (if fd =? 0 then ret (- EIO)
     else
       let! res := on_files (fstat ops fd stat) in
       if negb (res =? OK) then ret res
       else
         let! filesize := kload32 (stat + stat_filesize) in
         let! program_data_ptr := kalloc filesize in
         if program_data_ptr =? 0 then ret (- ENOMEM)
         else
           let! n := on_files (fread ops program_data_ptr filesize 1 fd) in
           if negb (n =? 1) then ret (res - EIO)
           else
             kstore8 (process + proc_filetype) PROCESS_FILETYPE_BINARY ;;;
             kstore32 (process + proc_ptr) program_data_ptr ;;;
             kstore32 (process + proc_size) filesize ;;;
             ret res) in
  on_files (fclose ops fd) ;;; ret res.

Definition process_load_elf (filename process : Z) : M kernel Z :=
  let! r := on_files (elf_load ops disk_obj fuel stat filename) in
  let '(res, elf_file) := r in
  if ISERR res then ret res
  else
    kstore8 (process + proc_filetype) PROCESS_FILETYPE_ELF ;;;
    kstore32 (process + proc_elf_file) elf_file ;;;
    ret res.

Definition process_load_data (fileName process : Z) : M kernel Z :=
  let! res := process_load_elf fileName process in
  if res =? - EINFORMAT then process_load_binary fileName process else ret res.

(** *** Mapping it *)

(** The directory found through the process each time it is used. *)
Definition process_directory (process : Z) : M kernel Z :=
  let! task := kload32 (process + proc_task) in task_directory task.

Definition phdr_flags (m : mem) (phdr : Z) : Z :=
  let flags := Z.lor PAGING_IS_PRESENT PAGING_ACCESS_FROM_ALL in
  if negb (Z.land (ld32 m (phdr + p_flags)) PF_W =? 0)
  then Z.lor flags PAGING_IS_WRITEABLE else flags.

(** [n] bounds the turns; [header->e_phnum] is read in each. *)
Fixpoint map_elf_loop (n : nat) (process elf_file header phdrs i res : Z) : M kernel Z :=
  match n with
  | O => ret res
  | S n' =>
    let! m := gets kmem in
    if i <? ld16 m (header + e_phnum) then
      let phdr := u32 (phdrs + i * sizeof_phdr) in
      let phdr_phys_address := elf_phdr_phys_address elf_file phdr m in
      let! directory := process_directory process in
      let! res := on_kmem (paging_map_to directory
        (paging_align_to_lower_page (ld32 m (phdr + p_vaddr)))
        (paging_align_to_lower_page phdr_phys_address)
        (paging_align_address (u32 (phdr_phys_address + ld32 m (phdr + p_memsz))))
        (phdr_flags m phdr)) in
      if ISERR res then ret res
      else map_elf_loop n' process elf_file header phdrs (i + 1) res
    else ret res
  end.
Definition process_map_elf (process : Z) : M kernel Z :=
  let! elf_file := kload32 (process + proc_elf_file) in
  let! header := gets (fun k => elf_header elf_file (kmem k)) in
  let! phdrs := gets (fun k => elf_pheader header (kmem k)) in
  map_elf_loop (Z.to_nat 65536) process elf_file header phdrs 0 0.

Definition process_map_binary (process : Z) : M kernel Z :=
  let! directory := process_directory process in
  let! ptr := kload32 (process + proc_ptr) in
  let! size := kload32 (process + proc_size) in
  on_kmem (paging_map_to directory LIEBE_OS_PROGRAM_VIRTUAL_ADDRESS ptr
    (paging_align_address (u32 (ptr + size))) TASK_PAGE_FLAGS).

(** The result of mapping the stack is dropped. *)
Definition process_map_memory (process : Z) : M kernel Z :=
  let! filetype := kload8 (process + proc_filetype) in
  let! res :=
    (if filetype =? PROCESS_FILETYPE_ELF then process_map_elf process
     else if filetype =? PROCESS_FILETYPE_BINARY then process_map_binary process
     else kpanic (codes "process_map_memory: Invalid filetype" ++ [10])) in
  if res <? 0 then ret res
  else
    let! directory := process_directory process in
    let! stack := kload32 (process + proc_stack) in
    on_kmem (paging_map_to directory LIEBE_OS_PROGRAM_VIRTUAL_STACK_ADDRESS_END stack
      (paging_align_address (u32 (stack + LIEBE_OS_USER_PROGRAM_STACK_SIZE))) TASK_PAGE_FLAGS) ;;;
    ret res.

(** *** Creating the process *)

(** [process] is the address of the caller's pointer: it is what the source
    tests after the allocation, instead of the new object.  The result is the
    status and what [_process] holds. *)
Definition load_for_slot_body (fileName process process_slot : Z) : M kernel (Z * Z) :=
  let! existing := gets (process_get process_slot) in
  if negb (existing =? 0) then ret (- EISTKN, stack_process)
  else
    let! _process := kalloc sizeof_process in
    if process =? 0 then ret (- ENOMEM, _process)
    else
      process_init _process ;;;
      let! res := process_load_data fileName _process in
      if res <? 0 then ret (res, _process)
      else
        let! program_stack_ptr := kalloc LIEBE_OS_USER_PROGRAM_STACK_SIZE in
        if program_stack_ptr =? 0 then ret (- ENOMEM, _process)
        else
          edit_kmem (strncpy (_process + proc_filename) fileName LIEBE_OS_MAX_PATH_LEN) ;;;
          kstore32 (_process + proc_stack) program_stack_ptr ;;;
          edit_kmem (fun m => st16 m (_process + proc_id) process_slot) ;;;
          let! task := task_new _process in
          if ERROR_I task =? 0 then ret (ERROR_I task, _process)
          else
            kstore32 (_process + proc_task) task ;;;
            let! res := process_map_memory _process in
            if res <? 0 then ret (res, _process)
            else
              kstore32 process _process ;;;
              modify (fun k => with_processes (current_process k)
                                 (<[Z.to_nat process_slot := _process]> (processes k)) k) ;;;
              ret (res, _process).

Definition process_load_for_slot (fileName process process_slot : Z) : M kernel Z :=
  let! r := load_for_slot_body fileName process process_slot in
  let '(res, _process) := r in
  (if ISERR res && negb (_process =? 0) then
     let! task := kload32 (_process + proc_task) in
     if negb (task =? 0) then task_free task ;;; ret tt else ret tt
   else ret tt) ;;;
  ret res.

Definition process_load (filename process : Z) : M kernel Z :=
  let! process_slot := gets process_get_free_slot in
  if process_slot <? 0 then ret (- EISTKN)
  else process_load_for_slot filename process process_slot.

Definition process_switch (process : Z) : M kernel Z :=
  modify (fun k => with_processes process (processes k) k) ;;; ret 0.

Definition process_load_switch (filename process : Z) : M kernel Z :=
  let! res := process_load filename process in
  (if res =? 0 then let! p := kload32 process in process_switch p ;;; ret tt else ret tt) ;;;
  ret res.

(** *** Allocations *)

(** The first index below [LIEBE_OS_MAX_PROGRAM_ALLOCATIONS] whose pointer is
    [ptr]; [n] entries are left, from [i]. *)
Fixpoint find_allocation (n : nat) (m : mem) (process ptr i : Z) : option Z :=
  match n with
  | O => None
  | S n' =>
    if ld32 m (alloc_ptr process i) =? ptr then Some i
    else find_allocation n' m process ptr (i + 1)
  end.
Definition process_find_free_allocation_index (process : Z) (m : mem) : Z :=
  match find_allocation (Z.to_nat LIEBE_OS_MAX_PROGRAM_ALLOCATIONS) m process 0 0 with
  | Some i => i
  | None => - ENOMEM
  end.
Definition is_current_process_ptr (process ptr : Z) (m : mem) : Z :=
  match find_allocation (Z.to_nat LIEBE_OS_MAX_PROGRAM_ALLOCATIONS) m process ptr 0 with
  | Some i => i
  | None => -1
  end.

Definition process_malloc (process size : Z) : M kernel Z :=
  let! ptr := kalloc size in
  if ptr =? 0 then ret 0
  else
    let! index := gets (fun k => process_find_free_allocation_index process (kmem k)) in
    if index <? 0 then kdealloc ptr ;;; ret 0
    else
      let! directory := process_directory process in
      let! res := on_kmem (paging_map_to directory ptr ptr
        (paging_align_address (u32 (ptr + size))) TASK_PAGE_FLAGS) in
      if res <? 0 then kdealloc ptr ;;; ret 0
      else
        kstore32 (alloc_ptr process index) ptr ;;;
        kstore32 (alloc_size process index) size ;;;
        ret ptr.

Definition process_free (process ptr : Z) : M kernel unit :=
  let! allocation_idx := gets (fun k => is_current_process_ptr process ptr (kmem k)) in
  if allocation_idx <? 0 then ret tt
  else
    let! directory := process_directory process in
    let! p := kload32 (alloc_ptr process allocation_idx) in
    let! size := kload32 (alloc_size process allocation_idx) in
    let! res := on_kmem (paging_map_to directory p p
      (paging_align_address (u32 (p + size))) 0x00) in
    if res <? 0 then ret tt
    else
      kstore32 (alloc_ptr process allocation_idx) 0x00 ;;;
      kstore32 (alloc_size process allocation_idx) 0 ;;;
      kdealloc ptr.

(** *** Arguments *)

(** [argc] and [argv] are the addresses of the caller's variables. *)
Definition process_get_arguments (process argc argv : Z) : M kernel unit :=
  let! c := kload32 (process + proc_argc) in
  kstore32 argc c ;;;
  let! v := kload32 (process + proc_argv) in
  kstore32 argv v.

Fixpoint count_arguments (n : nat) (m : mem) (current count : Z) : option Z :=
  match n with
  | O => None
  | S n' =>
    if current =? 0 then Some count
    else count_arguments n' m (ld32 m (current + arg_next)) (count + 1)
  end.
Definition process_count_commnad_arguments (n : nat) (root_argument : Z) : M kernel Z :=
  let! m := gets kmem in
  match count_arguments n m root_argument 0 with Some c => ret c | None => nofuel end.

(** The status after the loop. *)
Fixpoint inject_loop (n : nat) (process current argv i : Z) : M kernel Z :=
  match n with
  | O => nofuel
  | S n' =>
    if current =? 0 then ret 0
    else
      let! argument_str := process_malloc process sizeof_argument in
      if argument_str =? 0 then ret (- ENOMEM)
      else
        edit_kmem (strncpy argument_str current sizeof_argument) ;;;
        kstore32 (u32 (argv + 4 * i)) argument_str ;;;
        let! next := kload32 (current + arg_next) in
        inject_loop n' process next argv (i + 1)
  end.
(** [n] bounds the number of arguments. *)
Definition process_inject_arguments (n : nat) (process root_argument : Z) : M kernel Z :=
  let! argc := process_count_commnad_arguments n root_argument in
  if argc =? 0 then ret (- EIO)
  else
    let! argv := process_malloc process (u32 (4 * argc)) in
    if argv =? 0 then ret (- ENOMEM)
    else
      let! res := inject_loop n process root_argument argv 0 in
      if res <? 0 then ret res
      else
        kstore32 (process + proc_argc) argc ;;;
        kstore32 (process + proc_argv) argv ;;;
        ret res.

(** *** The end *)

Fixpoint terminate_loop (n : nat) (process i : Z) : M kernel unit :=
  match n with
  | O => ret tt
  | S n' =>
    let! p := kload32 (alloc_ptr process i) in
    kdealloc p ;;; terminate_loop n' process (i + 1)
  end.
Definition process_terminate_allocations (process : Z) : M kernel Z :=
  terminate_loop (Z.to_nat LIEBE_OS_MAX_PROGRAM_ALLOCATIONS) process 0 ;;; ret 0.

Definition process_free_binary_data (process : Z) : M kernel Z :=
  let! p := kload32 (process + proc_ptr) in kdealloc p ;;; ret 0.
Definition process_free_elf_data (process : Z) : M kernel Z :=
  let! p := kload32 (process + proc_elf_file) in edit_kmem (elf_close p) ;;; ret 0.
Definition process_free_program_data (process : Z) : M kernel Z :=
  let! filetype := kload8 (process + proc_filetype) in
  if filetype =? PROCESS_FILETYPE_BINARY then process_free_binary_data process
  else if filetype =? PROCESS_FILETYPE_ELF then process_free_elf_data process
  else ret (- EINVARG).

Fixpoint switch_to_first (l : list Z) : M kernel unit :=
  match l with
  | [] => kpanic (codes "No process to switch too " ++ [10])
  | p :: l' => if negb (p =? 0) then process_switch p ;;; ret tt else switch_to_first l'
  end.
Definition process_switch_to_any : M kernel unit :=
  let! l := gets processes in switch_to_first l.

Definition process_unlink (process : Z) : M kernel unit :=
  let! id := gets (fun k => ld16 (kmem k) (process + proc_id)) in
  modify (fun k => with_processes (current_process k) (<[Z.to_nat id := 0]> (processes k)) k) ;;;
  let! current := gets current_process in
  if current =? process then process_switch_to_any else ret tt.

(** The process object itself is never released. *)
Definition process_terminate (process : Z) : M kernel Z :=
  process_terminate_allocations process ;;;
  let! res := process_free_program_data process in
  if res <? 0 then ret res
  else
    let! stack := kload32 (process + proc_stack) in
    kdealloc stack ;;;
    let! task := kload32 (process + proc_task) in
    task_free task ;;;
    process_unlink process ;;;
    ret res.

End operations.
