(* ===== verification/ProcessMem.v ===== *)
(** * The memory of a process: [process_malloc], [process_free] and arguments

    [process_ok] says what the allocation table of a process means: every
    entry that is not null is a live block of the heap, apart from the others,
    mapped to itself for user writes in the process's address space.  The
    theorems say that allocation and release keep it and what they change. *)
From S2P Require Import Prelude Config Memory CString Heap KHeap Paging Terminal PathParser Disk Fat16 File Elf Kernel Task Process.

(** ** The abstract view *)

Definition allocation (m : mem) (process i : Z) : Z * Z :=
  (ld32 m (alloc_ptr process i), ld32 m (alloc_size process i)).

(** The blocks the process object takes. *)
Definition process_span : Z := 12288.

(** The object, its task and its task's address space. *)
Record process_space `{KAllocator} (m : mem) (process task chunk dir : Z) (ts : list Z) : Prop := {
  pr_live : live m process process_span;
  pr_task : ld32 m (process + proc_task) = task;
  pr_space : task_space m task chunk dir ts }.

(** One entry [(p, s)] of the table. *)
Record entry_ok `{KAllocator} (m : mem) (process task chunk dir : Z) (ts : list Z) (p s : Z) : Prop := {
  en_size : 0 < s <= 0xFFFFF000;
  en_page : page p;
  en_end : p + span s < 4294967296;
  en_live : live m p (span s);
  en_apart : p ∉ process :: task :: chunk :: dir :: ts;
  en_mapped : forall v, page v -> p <= v < p + span s -> pte m dir v = Z.lor v 7 }.

Record process_ok `{KAllocator} (m : mem) (process task chunk dir : Z) (ts : list Z) : Prop := {
  po_heap : heap_ok m;
  po_space : process_space m process task chunk dir ts;
  po_entry : forall i, 0 <= i < 1024 -> (allocation m process i).1 <> 0 ->
    entry_ok m process task chunk dir ts (allocation m process i).1 (allocation m process i).2;
  po_distinct : forall i j, 0 <= i < 1024 -> 0 <= j < 1024 -> i <> j ->
    (allocation m process i).1 <> 0 -> (allocation m process i).1 <> (allocation m process j).1 }.

(** ** Lemmas: the search *)

Lemma find_allocation_Some n m process ptr : forall i j,
  find_allocation n m process ptr i = Some j <->
  i <= j < i + Z.of_nat n /\ ld32 m (alloc_ptr process j) = ptr /\
  forall l, i <= l < j -> ld32 m (alloc_ptr process l) <> ptr.
Proof.
  induction n as [|n IH]; intros i j; cbn [find_allocation].
  - split; [done|lia].
  - case_bool.
    + split; [intros [= <-]; repeat split; (done || lia)|].
      intros (Hj & Ej & Hb). destruct (decide (i = j)) as [->|]; [done|].
      exfalso. apply (Hb i); [lia|done].
    + rewrite IH. split; intros (Hj & Ej & Hb); repeat split; try done; try lia.
      * intros l Hl. destruct (decide (l = i)) as [->|]; [done|]. apply Hb; lia.
      * destruct (decide (i = j)) as [->|]; [done|lia].
      * intros l Hl. apply Hb; lia.
Qed.

Lemma find_allocation_None n m process ptr : forall i,
  find_allocation n m process ptr i = None <->
  forall l, i <= l < i + Z.of_nat n -> ld32 m (alloc_ptr process l) <> ptr.
Proof.
  induction n as [|n IH]; intros i; cbn [find_allocation].
  - split; [intros _ l Hl; lia|done].
  - case_bool.
    + split; [done|]. intros Hb. exfalso. by apply (Hb i); [lia|].
    + rewrite IH. split; intros Hb l Hl.
      * destruct (decide (l = i)) as [->|]; [done|]. apply Hb; lia.
      * apply Hb; lia.
Qed.

Lemma find_allocation_ext n m m' process ptr : forall i, 0 <= i -> i + Z.of_nat n <= 1024 ->
  (forall a, process <= a < process + process_span -> rd m' a = rd m a) ->
  find_allocation n m' process ptr i = find_allocation n m process ptr i.
Proof.
  induction n as [|n IH]; intros i H0 Hi Hf; cbn [find_allocation]; [done|].
  rewrite (ld32_ext m m' (alloc_ptr process i)), IH; try done; try lia.
  intros o Ho. apply Hf. unfold alloc_ptr, proc_allocations, process_span. lia.
Qed.

(** ** Lemmas: memory *)

Section mem.
Context `{KAllocator}.

(** The end of the mapping of a block. *)
Lemma align_end p s : page p -> 0 < s <= 0xFFFFF000 -> p + span s < 4294967296 ->
  paging_align_address (u32 (p + s)) = p + span s /\ page (p + span s).
Proof.
  intros [Hp Ha] Hs He. destruct (span_blocks s Hs) as (H1 & H2 & H3).
  rewrite u32_id by lia. split; [|split; dlia].
  unfold paging_align_address, PAGE_SIZE, u32. zcases; dlia.
Qed.

Lemma task_space_mono m m' task chunk dir ts :
  task_space m task chunk dir ts ->
  (forall q, q ∈ task :: chunk :: dir :: ts -> live m q 4096 -> live m' q 4096) ->
  (forall i, 0 <= i < 1024 -> dir_entry m' dir i = dir_entry m dir i) ->
  (forall a, task <= a < task + 4096 \/ chunk <= a < chunk + 4096 -> rd m' a = rd m a) ->
  task_space m' task chunk dir ts.
Proof.
  intros [Hc [H1 H2 H3 H4 H5 H6] Hl Hp Hf Hpr] Hlv He Hr. split; try done; [..|by apply Hlv; [left|]|].
  - rewrite <- Hc. apply ld32_ext. intros i Hi. apply Hr. unfold task_page_directory. lia.
  - split; try done; [intros p Hin; apply Hlv; [by right|by apply H3]| |].
    + rewrite <- H5. apply ld32_ext. intros i Hi. apply Hr. lia.
    + intros i t Hi. unfold dir_table. rewrite He; [by apply H6|].
      apply lookup_lt_Some in Hi. lia.
  - intros i Hi. rewrite He by done. by apply Hpr.
Qed.

(** Changing page-table entries of a task. *)
Lemma map_in_space m task chunk dir ts virt phys phys_end flags :
  heap_ok m -> task_space m task chunk dir ts ->
  page virt -> page phys -> page phys_end -> phys <= phys_end ->
  virt + (phys_end - phys) <= 4294967296 ->
  exists m', paging_map_to dir virt phys phys_end flags m = (0, m') /\
    heap_ok m' /\ task_space m' task chunk dir ts /\
    (forall q s, live m' q s <-> live m q s) /\ (forall n, room m n -> room m' n) /\
    (forall w, page w -> pte m' dir w = mapped m dir virt phys ((phys_end - phys) / 4096) flags w) /\
    (forall a, ~ space m dir a -> rd m' a = rd m a).
Proof.
  intros Hok Hts Hv Hp Hpe Hle Hend. pose proof (dir_owned_wf _ _ _ _ (sp_owned _ _ _ _ _ Hts)) as Hw.
  destruct (paging_map_to_pages m dir virt phys phys_end flags Hw Hv Hp Hpe Hle Hend)
    as (m' & E & _ & He & Hm & Ho).
  assert (Hns : forall a, ~ space m dir a -> rd m' a = rd m a).
  { intros a Ha. apply Ho. intros i Hi. destruct (decide (dir_table m dir i <= a < dir_table m dir i + 4096)).
    - exfalso. apply Ha. right. by exists i.
    - lia. }
  destruct (meta_frame m m' Hok) as (Hok' & Hlv & Hr).
  { intros a Ha. apply Hns. intros Hs.
    apply (dir_owned_owned _ _ _ _ _ (sp_owned _ _ _ _ _ Hts)) in Hs. by apply Hs. }
  exists m'. repeat (split; [done|]). split; [|done].
  apply (task_space_mono m); [done|intros q _; by apply Hlv|done|].
  intros a [Ha|Ha]; apply Hns; [apply (task_stable _ _ _ _ _ Hts)|apply (chunk_stable _ _ _ _ _ Hts)]; done.
Qed.

Section object.
Context (m : mem) (process task chunk dir : Z) (ts : list Z)
  (Hps : process_space m process task chunk dir ts).

(** The object is apart from the pages of the address space. *)
Lemma process_apart p : live m p 4096 -> p + 4096 <= process \/ process + process_span <= p.
Proof.
  intros Hl. destruct (live_disjoint _ _ _ _ _ Hl (pr_live _ _ _ _ _ _ Hps)) as [[_ E]|Hd]; [done|].
  unfold process_span in *. lia.
Qed.

Lemma process_stable a : process <= a < process + process_span -> stable m dir a.
Proof.
  intros Ha. split; [by eapply owned_live, Ha; apply (pr_live _ _ _ _ _ _ Hps)|].
  pose proof (sp_owned _ _ _ _ _ (pr_space _ _ _ _ _ _ Hps)) as Hd. intros Hs.
  destruct (dir_owned_space _ _ _ _ _ Hd Hs) as (p & Hp & _ & Hr).
  destruct (process_apart p); [by apply (do_live _ _ _ _ Hd)|lia|lia].
Qed.

Lemma process_directory_eq m' k :
  kmem k = m' -> (forall a, stable m dir a -> rd m' a = rd m a) ->
  process_directory process k = Ret dir k.
Proof.
  intros E Hst. unfold process_directory. rewrite (bind_Ret _ _ _ task k).
  - by apply (task_directory_eq m task chunk dir ts (pr_space _ _ _ _ _ _ Hps) m').
  - unfold kload32, gets. f_equal. rewrite E, <- (pr_task _ _ _ _ _ _ Hps).
    apply ld32_ext. intros i Hi. apply Hst, process_stable. unfold proc_task, process_span. lia.
Qed.

(** Stores into the object. *)
Lemma process_write m' : heap_ok m ->
  (forall a, a < process \/ process + process_span <= a -> rd m' a = rd m a) ->
  ld32 m' (process + proc_task) = task ->
  heap_ok m' /\ process_space m' process task chunk dir ts /\
  (forall q s, live m' q s <-> live m q s) /\ (forall n, room m n -> room m' n) /\
  (forall w, page w -> pte m' dir w = pte m dir w).
Proof.
  intros Hok Hf Ht. pose proof (pr_space _ _ _ _ _ _ Hps) as Hts.
  destruct (client_frame m m' process process_span Hok (pr_live _ _ _ _ _ _ Hps) Hf)
    as (Hok' & Hlv & Hr).
  assert (Hs : forall a, space m dir a -> rd m' a = rd m a).
  { intros a Ha. apply Hf. destruct (decide (process <= a < process + process_span)) as [Hin|]; [|lia].
    exfalso. by apply (process_stable a Hin). }
  repeat (split; [done|]). split; [split; [by apply Hlv, (pr_live _ _ _ _ _ _ Hps)|done|]|].
  - apply (task_space_mono m); [done|intros q _; by apply Hlv| |].
    + intros i Hi. by apply (space_entry m m' dir Hs).
    + intros a Ha. apply Hf. pose proof (process_apart task (sp_live _ _ _ _ _ Hts)).
      assert (Hc : live m chunk 4096) by (apply (do_live _ _ _ _ (sp_owned _ _ _ _ _ Hts)); by left).
      pose proof (process_apart chunk Hc). lia.
  - split; [done|]. split; [done|]. intros w Hw. by apply (space_pte m m' dir Hs).
Qed.
End object.
End mem.

(** ** Lemmas: allocation *)

Section malloc.
Context `{KAllocator}.

(** What every byte that was owned keeps, keeps the process. *)
Lemma process_space_owned m m1 process task chunk dir ts :
  process_space m process task chunk dir ts ->
  (forall q s, live m q s -> live m1 q s) -> (forall a, owned m a -> rd m1 a = rd m a) ->
  process_space m1 process task chunk dir ts /\ (forall w, page w -> pte m1 dir w = pte m dir w) /\
  (forall a, space m1 dir a <-> space m dir a) /\
  (forall i, 0 <= i < 1024 -> allocation m1 process i = allocation m process i).
Proof.
  intros Hps Hlv Hf. pose proof (pr_space _ _ _ _ _ _ Hps) as Hts.
  assert (Hso : forall a, space m dir a -> rd m1 a = rd m a)
    by (intros a Ha; by eapply Hf, dir_owned_owned, Ha; apply (sp_owned _ _ _ _ _ Hts)).
  assert (Hpr : forall a, process <= a < process + process_span -> rd m1 a = rd m a)
    by (intros a Ha; apply Hf; by apply (process_stable _ _ _ _ _ _ Hps)).
  split; [split|split; [|split]].
  - by apply Hlv, (pr_live _ _ _ _ _ _ Hps).
  - rewrite <- (pr_task _ _ _ _ _ _ Hps). apply ld32_ext. intros i Hi. apply Hpr.
    unfold proc_task, process_span. lia.
  - apply (task_space_mono m); [done|intros q _; apply Hlv| |].
    + intros i Hi. by apply (space_entry m m1 dir Hso).
    + intros a [Ha|Ha]; apply Hf;
        [apply (task_stable _ _ _ _ _ Hts)|apply (chunk_stable _ _ _ _ _ Hts)]; done.
  - intros w Hw. by apply (space_pte m m1 dir Hso).
  - intros a. by apply space_same.
  - intros i Hi. unfold allocation. f_equal; apply ld32_ext; intros o Ho; apply Hpr;
      unfold alloc_ptr, alloc_size, proc_allocations, process_span; lia.
Qed.

(** Recording an allocation in entry [i]. *)
Definition record_entry (m : mem) (process i p s : Z) : mem :=
  st32 (st32 m (alloc_ptr process i) p) (alloc_size process i) s.

Lemma record_entry_spec m process i p s :
  0 <= i < 1024 -> 0 <= p < 4294967296 -> 0 <= s < 4294967296 ->
  allocation (record_entry m process i p s) process i = (p, s) /\
  (forall j, 0 <= j < 1024 -> j <> i ->
     allocation (record_entry m process i p s) process j = allocation m process j) /\
  (forall a, a < alloc_ptr process i \/ alloc_ptr process i + 8 <= a ->
     rd (record_entry m process i p s) a = rd m a).
Proof.
  intros Hi Hp Hs. unfold record_entry, allocation, alloc_ptr, alloc_size. split; [|split].
  - rewrite ld32_st32_ne, !ld32_st32_eq, !u32_id by lia. done.
  - intros j Hj Hne. rewrite !ld32_st32_ne by lia. done.
  - intros a Ha. rewrite !rd_st32_ne by lia. done.
Qed.

Lemma record_entry_frame m process task chunk dir ts i p s :
  heap_ok m -> process_space m process task chunk dir ts -> 0 <= i < 1024 ->
  let m' := record_entry m process i p s in
  heap_ok m' /\ process_space m' process task chunk dir ts /\
  (forall q s, live m' q s <-> live m q s) /\ (forall n, room m n -> room m' n) /\
  (forall w, page w -> pte m' dir w = pte m dir w).
Proof.
  intros Hok Hps Hi m'.
  assert (Hf : forall a, a < alloc_ptr process i \/ alloc_ptr process i + 8 <= a -> rd m' a = rd m a).
  { intros a Ha. unfold m', record_entry. rewrite !rd_st32_ne; unfold alloc_size, alloc_ptr in *; (done || lia). }
  apply (process_write m process task chunk dir ts Hps); [done| |].
  - intros a Ha. apply Hf. unfold alloc_ptr, proc_allocations, process_span in *. lia.
  - rewrite <- (pr_task _ _ _ _ _ _ Hps). apply ld32_ext. intros o Ho. apply Hf.
    unfold alloc_ptr, proc_allocations, proc_task. lia.
Qed.

Context (k : kernel) (process task chunk dir : Z) (ts : list Z).
Let m := kmem k.
Context (Hok : process_ok m process task chunk dir ts).

(** The code, step by step. *)
Lemma process_malloc_eq size p m1 m2 i :
  ka_alloc size m = (p, m1) -> p <> 0 -> (forall a, owned m a -> rd m1 a = rd m a) ->
  process_find_free_allocation_index process m = i -> 0 <= i ->
  paging_map_to dir p p (paging_align_address (u32 (p + size))) TASK_PAGE_FLAGS m1 = (0, m2) ->
  process_malloc process size k = Ret p (with_kmem (record_entry m2 process i p size) k).
Proof.
  intros E1 Hp Hf Ei Hi E2. pose proof (po_space _ _ _ _ _ _ Hok) as Hps. unfold process_malloc.
  rewrite (bind_Ret _ _ _ p (with_kmem m1 k)) by (by apply alloc_running).
  rewrite (proj2 (Z.eqb_neq p 0)) by done.
  rewrite (bind_Ret _ _ _ i (with_kmem m1 k)).
  2:{ unfold gets. f_equal. rewrite kmem_with_kmem, <- Ei.
      unfold process_find_free_allocation_index. rewrite (find_allocation_ext _ m); [done|lia|reflexivity|].
      intros a Ha. apply Hf. by apply (process_stable _ _ _ _ _ _ Hps). }
  rewrite (proj2 (Z.ltb_ge i 0)) by done.
  rewrite (bind_Ret _ _ _ dir (with_kmem m1 k)).
  2:{ apply (process_directory_eq m process task chunk dir ts Hps m1); [done|].
      intros a Ha. apply Hf, Ha. }
  rewrite (bind_Ret _ _ _ 0 (with_kmem m2 k)); [done|].
  unfold on_kmem. rewrite kmem_with_kmem, E2. done.
Qed.
End malloc.

(** What an allocation of [s] bytes at [p], recorded in entry [i], changes. *)
Record allocated `{KAllocator} (m m' : mem) (process dir i p s : Z) : Prop := {
  as_size : 0 < s <= 0xFFFFF000;
  as_page : page p;
  as_pos : 0 < p;
  as_end : p + span s < 4294967296;
  as_fresh : forall q t, live m q t -> q + t <= p \/ p + span s <= q;
  as_live : forall q t, live m' q t <-> live m q t \/ q = p /\ t = span s;
  as_entry : allocation m' process i = (p, s);
  as_others : forall j, 0 <= j < 1024 -> j <> i ->
    allocation m' process j = allocation m process j;
  as_zero : forall a, p <= a < p + s -> rd m' a = 0;
  as_pte : forall w, page w ->
    pte m' dir w = if (p <=? w) && (w <? p + span s) then Z.lor w 7 else pte m dir w;
  as_stable : forall a, stable m dir a ->
    ~ (alloc_ptr process i <= a < alloc_ptr process i + 8) -> rd m' a = rd m a }.

Section effects.
Context `{KAllocator} (process task chunk dir : Z) (ts : list Z).

(** From the allocator's memory [m1] and the mapped [m2] to the recorded one. *)
Lemma allocated_intro m m1 m2 p s i :
  process_space m process task chunk dir ts -> heap_ok m2 -> 0 <= i < 1024 -> 0 < s <= 0xFFFFF000 ->
  0 < p -> page p -> p + span s < 4294967296 ->
  (forall q t, live m1 q t <-> live m q t \/ q = p /\ t = span s) ->
  (forall q t, live m q t -> q + t <= p \/ p + span s <= q) ->
  (forall a, p <= a < p + s -> rd m1 a = 0) ->
  (forall a, owned m a -> (a < p \/ p + span s <= a) /\ rd m1 a = rd m a) ->
  process_space m2 process task chunk dir ts -> (forall q t, live m2 q t <-> live m1 q t) ->
  (forall w, page w -> pte m2 dir w = mapped m1 dir p p ((p + span s - p) / 4096) TASK_PAGE_FLAGS w) ->
  (forall a, ~ space m1 dir a -> rd m2 a = rd m1 a) ->
  allocated m (record_entry m2 process i p s) process dir i p s.
Proof.
  intros Hps Hok2 Hi Hs Hp0 Hp He Hlv1 Hfr Hz Ho Hps2 Hlv2 Hpte Hns.
  destruct (process_space_owned m m1 _ _ _ _ _ Hps) as (Hps1 & Hpt1 & Hsp1 & Hal1);
    [intros; apply Hlv1; by left|intros a Ha; by apply Ho|].
  destruct (record_entry_frame m2 process task chunk dir ts i p s Hok2 Hps2 Hi)
    as (_ & _ & Hlv3 & _ & Hpt3).
  destruct (record_entry_spec m2 process i p s Hi) as (He1 & He2 & He3);
    [destruct Hp; lia|lia|]. pose proof (process_stable _ _ _ _ _ _ Hps) as Hst.
  destruct (span_blocks s Hs) as (Hs1 & Hs2 & _).
  assert (Hin : forall j a, 0 <= j < 1024 -> alloc_ptr process j <= a < alloc_ptr process j + 8 ->
    process <= a < process + process_span).
  { intros j a Hj Ha. unfold alloc_ptr, proc_allocations, process_span in *. lia. }
  assert (Hm2 : forall a, stable m dir a -> rd m2 a = rd m a).
  { intros a [Ha1 Ha2]. rewrite Hns by (by rewrite Hsp1). by apply Ho. }
  split; try done.
  - intros q t. by rewrite Hlv3, Hlv2, Hlv1.
  - intros j Hj Hne. rewrite He2 by done. unfold allocation.
    f_equal; apply ld32_ext; intros o Hoo; apply Hm2, Hst; apply (Hin j); try done;
      unfold alloc_size, alloc_ptr; lia.
  - intros a Ha. assert (Hna : forall b, owned m b -> a <> b).
    { intros b Hb ->. apply Ho in Hb as [Hb _]. lia. }
    rewrite He3, Hns; [by apply Hz| |].
    + rewrite Hsp1. intros Hsa. apply (Hna a); [|done].
      by apply (dir_owned_owned m chunk dir ts); [apply (sp_owned _ _ _ _ _ (pr_space _ _ _ _ _ _ Hps))|].
    + destruct (decide (alloc_ptr process i <= a < alloc_ptr process i + 8)) as [Hb|]; [|lia].
      exfalso. apply (Hna a); [|done]. by apply Hst, (Hin i).
  - intros w Hw. rewrite Hpt3, Hpte by done. unfold mapped.
    replace ((p + span s - p) / 4096 * 4096) with (span s) by dlia. rewrite Hpt1 by done.
    destruct ((p <=? w) && (w <? p + span s)); [|done]. replace (p + (w - p)) with w by lia.
    apply u32_id, page_bits; [done|]. unfold TASK_PAGE_FLAGS. cbv. split; congruence.
  - intros a Ha Hna. rewrite He3 by lia. by apply Hm2.
Qed.

(** The invariant after it. *)
Lemma process_ok_allocated m m' p s i :
  process_ok m process task chunk dir ts -> 0 <= i < 1024 ->
  heap_ok m' -> process_space m' process task chunk dir ts ->
  allocated m m' process dir i p s -> process_ok m' process task chunk dir ts.
Proof.
  intros [Hh Hps He Hd] Hi Hh' Hps' Ha. pose proof (as_live _ _ _ _ _ _ _ Ha) as Hlv.
  pose proof (as_fresh _ _ _ _ _ _ _ Ha) as Hfr. destruct (span_blocks s (as_size _ _ _ _ _ _ _ Ha)) as (Hs1 & _ & _).
  pose proof (as_size _ _ _ _ _ _ _ Ha) as Hs.
  assert (Hne : forall q t, live m q t -> q <> p).
  { intros q t Hq ->. pose proof (live_block _ _ _ Hq). specialize (Hfr _ _ Hq). lia. }
  assert (Hold : forall j, 0 <= j < 1024 -> (allocation m process j).1 <> 0 -> (allocation m process j).1 <> p).
  { intros j Hj Hn. eapply Hne. apply (en_live _ _ _ _ _ _ _ _ (He j Hj Hn)). }
  split; [done|done| |].
  - intros j Hj. destruct (decide (j = i)) as [->|Hji].
    + rewrite (as_entry _ _ _ _ _ _ _ Ha). cbn [fst snd]. intros _.
      destruct Ha as [Ha1 Ha2 Ha3 Ha4 Ha5 Ha6 Ha7 Ha8 Ha9 Ha10 Ha11]. split; try done.
      * apply Hlv. by right.
      * pose proof (sp_owned _ _ _ _ _ (pr_space _ _ _ _ _ _ Hps)) as Ho.
        rewrite !elem_of_cons. intros [E|[E|Hin]].
        -- by apply (Hne _ _ (pr_live _ _ _ _ _ _ Hps)).
        -- by apply (Hne _ _ (sp_live _ _ _ _ _ (pr_space _ _ _ _ _ _ Hps))).
        -- apply (Hne p 4096); [|done]. apply (do_live _ _ _ _ Ho). by rewrite !elem_of_cons.
      * intros v Hv Hr. rewrite Ha10 by done.
        rewrite (proj2 (Z.leb_le _ _)), (proj2 (Z.ltb_lt _ _)) by lia. done.
    + rewrite (as_others _ _ _ _ _ _ _ Ha) by done. intros Hn. pose proof (He j Hj Hn) as Hj'.
      destruct Hj' as [H1 H2 H3 H4 H5 H6]. split; try done; [apply Hlv; by left|].
      intros v Hv Hr. rewrite (as_pte _ _ _ _ _ _ _ Ha) by done.
      destruct (Hfr _ _ H4); [rewrite (proj2 (Z.leb_gt p v)) by lia|
        rewrite (proj2 (Z.ltb_ge v (p + span s))) by lia]; cbn [andb]; try rewrite andb_false_r; by apply H6.
  - intros j l Hj Hl Hjl. destruct (decide (j = i)) as [->|Hji];
      [|destruct (decide (l = i)) as [->|Hli]].
    + rewrite (as_entry _ _ _ _ _ _ _ Ha), (as_others _ _ _ _ _ _ _ Ha) by done. cbn [fst]. intros _ E.
      apply (Hold l Hl); [|by rewrite E]. rewrite <- E. pose proof (as_pos _ _ _ _ _ _ _ Ha). lia.
    + rewrite (as_entry _ _ _ _ _ _ _ Ha), (as_others _ _ _ _ _ _ _ Ha) by done. by apply Hold.
    + rewrite !(as_others _ _ _ _ _ _ _ Ha) by done. by apply Hd.
Qed.

Lemma process_malloc_spec k size n i : let m := kmem k in
  process_ok m process task chunk dir ts -> 0 < size <= 0xFFFFF000 -> room m n ->
  blocks_for size <= Z.of_nat n -> process_find_free_allocation_index process m = i -> 0 <= i ->
  exists p m', process_malloc process size k = Ret p (with_kmem m' k) /\
    process_ok m' process task chunk dir ts /\ room m' (n - Z.to_nat (blocks_for size)) /\
    allocated m m' process dir i p size.
Proof.
  intros m Hok Hs Hr Hb Ei Hi. pose proof (po_space _ _ _ _ _ _ Hok) as Hps.
  destruct (alloc_span m size n (po_heap _ _ _ _ _ _ Hok) Hs Hr Hb)
    as (p & m1 & E & Hp0 & Hp & He & Hok1 & Hr1 & Hlv1 & Hfr & Hz & Ho).
  destruct (process_space_owned m m1 _ _ _ _ _ Hps) as (Hps1 & Hpt1 & Hsp1 & _);
    [intros; apply Hlv1; by left|intros a Ha; by apply Ho|].
  destruct (span_blocks size Hs) as (Hs1 & Hs2 & _).
  destruct (align_end p size Hp Hs He) as [Ea Hpe].
  destruct (map_in_space m1 task chunk dir ts p p (p + span size) TASK_PAGE_FLAGS Hok1
    (pr_space _ _ _ _ _ _ Hps1) Hp Hp Hpe) as (m2 & E2 & Hok2 & Hts2 & Hlv2 & Hr2 & Hpt2 & Hns2); [lia|lia|].
  rewrite <- Ea in E2.
  assert (Hi' : 0 <= i < 1024).
  { unfold process_find_free_allocation_index in Ei. destruct (find_allocation _ m process 0 0) eqn:Ef.
    - apply find_allocation_Some in Ef as (Hx & _). unfold LIEBE_OS_MAX_PROGRAM_ALLOCATIONS in Hx. lia.
    - unfold ENOMEM in Ei. lia. }
  assert (Hps2 : process_space m2 process task chunk dir ts).
  { split; [by apply Hlv2, (pr_live _ _ _ _ _ _ Hps1)| |done].
    rewrite <- (pr_task _ _ _ _ _ _ Hps1). apply ld32_ext. intros o Ho'. apply Hns2.
    apply (process_stable _ _ _ _ _ _ Hps1). unfold proc_task, process_span. lia. }
  assert (Ha : allocated m (record_entry m2 process i p size) process dir i p size)
    by (by apply (allocated_intro m m1 m2)).
  destruct (record_entry_frame m2 process task chunk dir ts i p size Hok2 Hps2 Hi')
    as (Hok3 & Hps3 & _ & Hr3 & _).
  exists p, (record_entry m2 process i p size). split; [|split; [|split; [by apply Hr3, Hr2|done]]].
  - apply (process_malloc_eq k process task chunk dir ts Hok size p m1 m2 i);
      try done; [lia|intros a Ha'; by apply Ho].
  - by apply (process_ok_allocated m _ p size i).
Qed.
End effects.

(** What releasing the allocation [(p, s)] of entry [i] changes. *)
Record released `{KAllocator} (m m' : mem) (process dir i p s : Z) : Prop := {
  rl_live : forall q t, live m' q t <-> live m q t /\ q <> p;
  rl_entry : allocation m' process i = (0, 0);
  rl_others : forall j, 0 <= j < 1024 -> j <> i ->
    allocation m' process j = allocation m process j;
  rl_pte : forall w, page w ->
    pte m' dir w = if (p <=? w) && (w <? p + span s) then w else pte m dir w;
  rl_stable : forall a, stable m dir a ->
    ~ (alloc_ptr process i <= a < alloc_ptr process i + 8) -> rd m' a = rd m a }.

Section release.
Context `{KAllocator} (process task chunk dir : Z) (ts : list Z).

(** An entry is found at its index. *)
Lemma find_entry m i : process_ok m process task chunk dir ts -> 0 <= i < 1024 ->
  (allocation m process i).1 <> 0 ->
  is_current_process_ptr process (allocation m process i).1 m = i.
Proof.
  intros Hok Hi Hn. unfold is_current_process_ptr.
  rewrite (proj2 (find_allocation_Some _ m process _ 0 i)); [done|].
  unfold LIEBE_OS_MAX_PROGRAM_ALLOCATIONS. split; [lia|]. split; [done|].
  intros l Hl E. by apply (po_distinct _ _ _ _ _ _ Hok i l); [|lia|lia| |symmetry].
Qed.

(** The code, step by step. *)
Lemma process_free_eq k i p s m1 : let m := kmem k in
  process_ok m process task chunk dir ts -> 0 <= i < 1024 -> p <> 0 -> allocation m process i = (p, s) ->
  paging_map_to dir p p (paging_align_address (u32 (p + s))) 0 m = (0, m1) ->
  process_free process p k = Ret tt (with_kmem (ka_free p (record_entry m1 process i 0 0)) k).
Proof.
  intros m Hok Hi Hp Ea E1. pose proof (po_space _ _ _ _ _ _ Hok) as Hps. unfold process_free.
  pose proof (find_entry m i Hok Hi) as Ef. rewrite Ea in Ef. specialize (Ef Hp). cbn [fst] in Ef.
  injection Ea as Ep Es.
  rewrite (bind_Ret _ _ _ i k) by (unfold gets; f_equal; exact Ef).
  rewrite (proj2 (Z.ltb_ge i 0)) by lia.
  rewrite (bind_Ret _ _ _ dir k) by (by apply (process_directory_eq m process task chunk dir ts Hps m)).
  rewrite (bind_Ret _ _ _ p k) by (unfold kload32, gets; f_equal; exact Ep).
  rewrite (bind_Ret _ _ _ s k) by (unfold kload32, gets; f_equal; exact Es).
  rewrite (bind_Ret _ _ _ 0 (with_kmem m1 k)); [done|].
  unfold on_kmem. fold m. by rewrite E1.
Qed.

(** Releasing a block that is none of the process's own. *)
Lemma process_space_free m m' p :
  process_space m process task chunk dir ts -> p ∉ process :: task :: chunk :: dir :: ts ->
  (forall q t, live m' q t <-> live m q t /\ q <> p) -> (forall a, owned m a -> rd m' a = rd m a) ->
  process_space m' process task chunk dir ts.
Proof.
  intros Hps Hp Hlv Hf. pose proof (pr_space _ _ _ _ _ _ Hps) as Hts.
  pose proof (sp_owned _ _ _ _ _ Hts) as Hd. apply not_elem_of_cons in Hp as [Hp1 Hp2].
  split; [by apply Hlv; split; [apply (pr_live _ _ _ _ _ _ Hps)|]| |].
  - rewrite <- (pr_task _ _ _ _ _ _ Hps). apply ld32_ext. intros i Hi.
    apply Hf, (process_stable _ _ _ _ _ _ Hps). unfold proc_task, process_span. lia.
  - apply (task_space_mono m); [done| | |].
    + intros q Hq Hl. apply Hlv. split; [done|]. by intros ->.
    + intros i Hi. apply (space_entry m m' dir); [|done]. intros a Ha.
      by apply Hf, (dir_owned_owned m chunk dir ts).
    + intros a [Ha|Ha]; apply Hf;
        [apply (task_stable _ _ _ _ _ Hts)|apply (chunk_stable _ _ _ _ _ Hts)]; done.
Qed.

(** From the unmapped memory [m1] to the one after the release. *)
Lemma released_intro m m1 i p s :
  process_ok m process task chunk dir ts -> 0 <= i < 1024 -> allocation m process i = (p, s) -> p <> 0 ->
  heap_ok m1 -> process_space m1 process task chunk dir ts -> (forall q t, live m1 q t <-> live m q t) ->
  (forall w, page w -> pte m1 dir w = mapped m dir p p ((p + span s - p) / 4096) 0 w) ->
  (forall a, ~ space m dir a -> rd m1 a = rd m a) ->
  let m3 := ka_free p (record_entry m1 process i 0 0) in
  released m m3 process dir i p s /\ heap_ok m3 /\ process_space m3 process task chunk dir ts /\
  (forall n, room m1 n -> room m3 n).
Proof.
  intros Hok Hi Ea Hp0 Hok1 Hps1 Hlv1 Hpte1 Hns m3. set (m2 := record_entry m1 process i 0 0) in *.
  pose proof (po_space _ _ _ _ _ _ Hok) as Hps. pose proof (po_entry _ _ _ _ _ _ Hok i Hi) as He.
  rewrite Ea in He. destruct (He Hp0) as [Hs Hp He1 Hl Hap _]. cbn [fst snd] in *.
  destruct (record_entry_frame m1 process task chunk dir ts i 0 0 Hok1 Hps1 Hi)
    as (Hok2 & Hps2 & Hlv2 & Hr2 & Hpt2). fold m2 in Hok2, Hps2, Hlv2, Hr2, Hpt2.
  destruct (record_entry_spec m1 process i 0 0 Hi) as (R1 & R2 & R3); [lia|lia|]. fold m2 in R1, R2, R3.
  destruct (ka_free_spec m2 p (span s) Hok2) as (Hok3 & Hlv3 & Hr3 & Ho3); [by apply Hlv2, Hlv1|].
  fold m3 in Hok3, Hlv3, Hr3, Ho3.
  assert (Hown : forall a, owned m2 a -> rd m3 a = rd m2 a) by (intros a [Ha _]; by apply Ho3).
  assert (Hst : forall a, process <= a < process + process_span -> rd m3 a = rd m2 a)
    by (intros a Ha; apply Hown, (process_stable _ _ _ _ _ _ Hps2), Ha).
  assert (Hal : forall j, 0 <= j < 1024 -> allocation m3 process j = allocation m2 process j).
  { intros j Hj. unfold allocation. f_equal; apply ld32_ext; intros o Hoo; apply Hst;
      unfold alloc_size, alloc_ptr, proc_allocations, process_span; lia. }
  assert (Hsp : forall a, space m2 dir a -> rd m3 a = rd m2 a).
  { intros a Ha. apply Hown. apply (dir_owned_owned m2 chunk dir ts); [|done].
    apply (sp_owned _ _ _ _ _ (pr_space _ _ _ _ _ _ Hps2)). }
  destruct (span_blocks s Hs) as (Hs1 & Hs2 & _).
  split; [split|split; [done|split; [|intros; by apply Hr3, Hr2]]].
  - intros q t. by rewrite Hlv3, Hlv2, Hlv1.
  - by rewrite Hal.
  - intros j Hj Hne. rewrite Hal, R2 by done. unfold allocation.
    f_equal; apply ld32_ext; intros o Hoo; apply Hns, (process_stable _ _ _ _ _ _ Hps);
      unfold alloc_size, alloc_ptr, proc_allocations, process_span; lia.
  - intros w Hw. rewrite (space_pte m2 m3 dir Hsp), Hpt2, Hpte1 by done. unfold mapped.
    replace ((p + span s - p) / 4096 * 4096) with (span s) by dlia.
    destruct ((p <=? w) && (w <? p + span s)); [|done]. rewrite Z.lor_0_r.
    replace (p + (w - p)) with w by lia. destruct Hw. by apply u32_id.
  - intros a [Ha1 Ha2] Hna. rewrite Ho3 by apply Ha1. rewrite R3 by lia. by apply Hns.
  - by apply (process_space_free m2 m3 p).
Qed.

(** The invariant after it. *)
Lemma process_ok_released m m' i p s :
  process_ok m process task chunk dir ts -> 0 <= i < 1024 -> allocation m process i = (p, s) -> p <> 0 ->
  heap_ok m' -> process_space m' process task chunk dir ts ->
  released m m' process dir i p s -> process_ok m' process task chunk dir ts.
Proof.
  intros Hok Hi Ea Hp0 Hh' Hps' Hr. destruct Hok as [Hh Hps He Hd].
  pose proof (He i Hi) as Hei. rewrite Ea in Hei. specialize (Hei Hp0). cbn [fst snd] in Hei.
  split; [done|done| |].
  - intros j Hj. destruct (decide (j = i)) as [->|Hji]; [by rewrite (rl_entry _ _ _ _ _ _ _ Hr)|].
    rewrite (rl_others _ _ _ _ _ _ _ Hr) by done. intros Hn. pose proof (He j Hj Hn) as Hej.
    assert (Hne : (allocation m process j).1 <> p).
    { intros E. apply (Hd j i); try done. by rewrite Ea. }
    destruct (live_disjoint _ _ _ _ _ (en_live _ _ _ _ _ _ _ _ Hei) (en_live _ _ _ _ _ _ _ _ Hej))
      as [[E _]|Hdis]; [by destruct Hne|].
    destruct Hej as [H1 H2 H3 H4 H5 H6]. split; try done; [by apply (rl_live _ _ _ _ _ _ _ Hr)|].
    intros v Hv Hrv. rewrite (rl_pte _ _ _ _ _ _ _ Hr) by done.
    destruct Hdis; [rewrite (proj2 (Z.ltb_ge v (p + span s))) by lia|
      rewrite (proj2 (Z.leb_gt p v)) by lia]; cbn [andb]; try rewrite andb_false_r; by apply H6.
  - intros j l Hj Hl Hjl. destruct (decide (j = i)) as [->|Hji];
      [by rewrite (rl_entry _ _ _ _ _ _ _ Hr)|]. rewrite (rl_others _ _ _ _ _ _ _ Hr) by done.
    destruct (decide (l = i)) as [->|Hli]; [by rewrite (rl_entry _ _ _ _ _ _ _ Hr)|].
    rewrite (rl_others _ _ _ _ _ _ _ Hr) by done. by apply Hd.
Qed.

Lemma process_free_spec k i p s : let m := kmem k in
  process_ok m process task chunk dir ts -> 0 <= i < 1024 -> allocation m process i = (p, s) -> p <> 0 ->
  exists m', process_free process p k = Ret tt (with_kmem m' k) /\
    process_ok m' process task chunk dir ts /\ (forall n, room m n -> room m' n) /\
    released m m' process dir i p s.
Proof.
  intros m Hok Hi Ea Hp0. pose proof (po_space _ _ _ _ _ _ Hok) as Hps.
  pose proof (po_entry _ _ _ _ _ _ Hok i Hi) as He. rewrite Ea in He.
  destruct (He Hp0) as [Hs Hp He1 Hl Hap _]. cbn [fst snd] in *.
  destruct (align_end p s Hp Hs He1) as [Eal Hpe]. destruct (span_blocks s Hs) as (Hs1 & _ & _).
  destruct (map_in_space m task chunk dir ts p p (p + span s) 0 (po_heap _ _ _ _ _ _ Hok)
    (pr_space _ _ _ _ _ _ Hps) Hp Hp Hpe) as (m1 & E1 & Hok1 & Hts1 & Hlv1 & Hr1 & Hpt1 & Hns1); [lia|lia|].
  rewrite <- Eal in E1.
  assert (Hps1 : process_space m1 process task chunk dir ts).
  { split; [by apply Hlv1, (pr_live _ _ _ _ _ _ Hps)| |done].
    rewrite <- (pr_task _ _ _ _ _ _ Hps). apply ld32_ext. intros o Ho'. apply Hns1.
    apply (process_stable _ _ _ _ _ _ Hps). unfold proc_task, process_span. lia. }
  destruct (released_intro m m1 i p s Hok Hi Ea Hp0 Hok1 Hps1 Hlv1 Hpt1 Hns1) as (Hrel & Hok3 & Hps3 & Hr3).
  eexists. split; [by apply (process_free_eq k i p s m1)|].
  split; [by apply (process_ok_released m _ i p s)|]. split; [|done]. intros n Hn. by apply Hr3, Hr1.
Qed.

(** A pointer that is in no entry. *)
Lemma process_free_foreign_eq k ptr :
  (forall i, 0 <= i < 1024 -> (allocation (kmem k) process i).1 <> ptr) ->
  process_free process ptr k = Ret tt k.
Proof.
  intros Hn. unfold process_free. rewrite (bind_Ret _ _ _ (-1) k); [done|].
  unfold gets, is_current_process_ptr. rewrite (proj2 (find_allocation_None _ _ _ _ 0)); [done|].
  intros l Hl. apply Hn. unfold LIEBE_OS_MAX_PROGRAM_ALLOCATIONS in Hl. lia.
Qed.

End release.

(** ** Lemmas: a full table, and what a process holds *)

(** The process holds a block of [t] bytes at [q]. *)
Definition holds (m : mem) (process q t : Z) : Prop :=
  q <> 0 /\ exists i s, 0 <= i < 1024 /\ allocation m process i = (q, s) /\ t = span s.

Section holding.
Context `{KAllocator} (process task chunk dir : Z) (ts : list Z).

Lemma free_index_cases m :
  (exists i, 0 <= i < 1024 /\ process_find_free_allocation_index process m = i /\
     (allocation m process i).1 = 0) \/
  process_find_free_allocation_index process m = - ENOMEM /\
  (forall i, 0 <= i < 1024 -> (allocation m process i).1 <> 0).
Proof.
  unfold process_find_free_allocation_index. destruct (find_allocation _ m process 0 0) as [i|] eqn:E.
  - apply find_allocation_Some in E as (Hi & Ei & _). left. exists i.
    unfold LIEBE_OS_MAX_PROGRAM_ALLOCATIONS in Hi. split; [lia|]. done.
  - right. split; [done|]. intros i Hi. apply (proj1 (find_allocation_None _ _ _ _ _) E).
    unfold LIEBE_OS_MAX_PROGRAM_ALLOCATIONS. lia.
Qed.

(** With the table full the fresh block goes back. *)
Lemma process_malloc_full_spec k size n : let m := kmem k in
  process_ok m process task chunk dir ts -> 0 < size <= 0xFFFFF000 -> room m n ->
  blocks_for size <= Z.of_nat n -> process_find_free_allocation_index process m < 0 ->
  exists m', process_malloc process size k = Ret 0 (with_kmem m' k) /\
    process_ok m' process task chunk dir ts /\ (forall q t, live m' q t <-> live m q t) /\
    (forall i, 0 <= i < 1024 -> allocation m' process i = allocation m process i) /\
    (forall a, owned m a -> rd m' a = rd m a).
Proof.
  intros m Hok Hs Hr Hb Ei. pose proof (po_space _ _ _ _ _ _ Hok) as Hps.
  destruct (alloc_span m size n (po_heap _ _ _ _ _ _ Hok) Hs Hr Hb)
    as (p & m1 & E & Hp0 & Hp & He & Hok1 & Hr1 & Hlv1 & Hfr & Hz & Ho).
  destruct (ka_free_spec m1 p (span size) Hok1) as (Hok2 & Hlv2 & _ & Ho2); [apply Hlv1; by right|].
  assert (Hf : forall a, owned m a -> rd (ka_free p m1) a = rd m a).
  { intros a Ha. rewrite Ho2 by apply Ha. by apply Ho. }
  assert (Hlv : forall q t, live (ka_free p m1) q t <-> live m q t).
  { intros q t. rewrite Hlv2, Hlv1. split; [by intros [[?|[-> _]] ?]|]. intros Hq. split; [by left|].
    pose proof (live_block _ _ _ Hq). specialize (Hfr _ _ Hq). destruct (span_blocks size Hs). lia. }
  destruct (process_space_owned m (ka_free p m1) _ _ _ _ _ Hps) as (Hps2 & Hpt2 & _ & Hal2);
    [intros; by apply Hlv|done|].
  exists (ka_free p m1). split; [|split; [|done]].
  - unfold process_malloc. rewrite (bind_Ret _ _ _ p (with_kmem m1 k)) by (by apply alloc_running).
    rewrite (proj2 (Z.eqb_neq p 0)) by lia.
    rewrite (bind_Ret _ _ _ (process_find_free_allocation_index process m) (with_kmem m1 k)).
    2:{ unfold gets. f_equal. rewrite kmem_with_kmem. unfold process_find_free_allocation_index.
        rewrite (find_allocation_ext _ m); [done|lia|reflexivity|].
        intros a Ha. apply Ho. by apply (process_stable _ _ _ _ _ _ Hps). }
    by rewrite (proj2 (Z.ltb_lt _ 0)) by done.
  - destruct Hok as [_ _ H3 H4]. split; [done|done| |].
    + intros i Hi. rewrite Hal2 by done. intros Hn. destruct (H3 i Hi Hn) as [? ? ? ? ? Hm].
      split; try done; [by apply Hlv|]. intros v Hv Hrv. rewrite Hpt2 by done. by apply Hm.
    + intros i j Hi Hj. rewrite !Hal2 by done. by apply H4.
Qed.

Lemma holds_allocated m m' i p s : 0 <= i < 1024 -> (allocation m process i).1 = 0 ->
  allocated m m' process dir i p s ->
  forall q t, holds m' process q t <-> holds m process q t \/ q = p /\ t = span s.
Proof.
  intros Hi E0 Ha q t. pose proof (as_entry _ _ _ _ _ _ _ Ha) as Ee.
  pose proof (as_others _ _ _ _ _ _ _ Ha) as Ht. pose proof (as_pos _ _ _ _ _ _ _ Ha). split.
  - intros (Hq & j & u & Hj & Ej & ->). destruct (decide (j = i)) as [->|Hne].
    + right. rewrite Ee in Ej. by injection Ej as -> ->.
    + left. split; [done|]. exists j, u. by rewrite <- Ht.
  - intros [(Hq & j & u & Hj & Ej & ->)|[-> ->]].
    + split; [done|]. exists j, u. rewrite Ht; [done|done|]. intros ->. by rewrite Ej in E0.
    + split; [lia|]. by exists i, s.
Qed.

Lemma holds_released m m' i p s : process_ok m process task chunk dir ts ->
  0 <= i < 1024 -> allocation m process i = (p, s) -> p <> 0 ->
  released m m' process dir i p s ->
  forall q t, holds m' process q t <-> holds m process q t /\ q <> p.
Proof.
  intros Hok Hi E0 Hp Ha q t. pose proof (rl_entry _ _ _ _ _ _ _ Ha) as Ee.
  pose proof (rl_others _ _ _ _ _ _ _ Ha) as Ht. split.
  - intros (Hq & j & u & Hj & Ej & ->). destruct (decide (j = i)) as [->|Hne].
    + rewrite Ee in Ej. by injection Ej as <- _.
    + rewrite Ht in Ej by done. split; [split; [done|]; by exists j, u|]. intros ->.
      by apply (po_distinct _ _ _ _ _ _ Hok i j); [| |intros ->|rewrite E0|rewrite E0, Ej].
  - intros [(Hq & j & u & Hj & Ej & ->) Hne]. split; [done|]. exists j, u.
    rewrite Ht; [done|done|]. intros ->. rewrite E0 in Ej. by injection Ej as -> _.
Qed.

(** ** Sequences of calls *)

(** One call of a program: an allocation for which there is memory, or a
    release of anything but the null pointer. *)
Inductive heap_call : kernel -> kernel -> Prop :=
| call_malloc k k' size n p : 0 < size <= 0xFFFFF000 -> room (kmem k) n -> blocks_for size <= Z.of_nat n ->
    process_malloc process size k = Ret p k' -> heap_call k k'
| call_free k k' ptr : ptr <> 0 -> process_free process ptr k = Ret tt k' -> heap_call k k'.

(** Every live block is the process's or one of [base]. *)
Definition accounted (base : Z -> Z -> Prop) (m : mem) : Prop :=
  process_ok m process task chunk dir ts /\
  (forall q t, live m q t <-> base q t \/ holds m process q t) /\
  (forall q t, base q t -> forall u, ~ holds m process q u).

Lemma holds_dec m q : (exists i s, 0 <= i < 1024 /\ allocation m process i = (q, s)) \/
  (forall i, 0 <= i < 1024 -> (allocation m process i).1 <> q).
Proof.
  destruct (find_allocation 1024 m process q 0) as [i|] eqn:E.
  - apply find_allocation_Some in E as (Hi & Ei & _). left. exists i, (allocation m process i).2.
    split; [lia|]. unfold allocation in *. cbn [snd]. by f_equal.
  - right. intros i Hi. apply (proj1 (find_allocation_None _ _ _ _ _) E). lia.
Qed.

Lemma heap_call_accounted base k k' :
  heap_call k k' -> accounted base (kmem k) -> accounted base (kmem k').
Proof.
  intros Hc (Hok & Hlv & Hb). destruct Hc as [k k' size n p Hs Hr Hn E|k k' ptr Hp E].
  - destruct (free_index_cases (kmem k)) as [(i & Hi & Ei & E0)|[Ei Hfull]].
    + destruct (process_malloc_spec process task chunk dir ts k size n i Hok Hs Hr Hn Ei)
        as (q & m' & E' & Hok' & _ & Ha); [lia|]. rewrite E in E'. injection E' as -> ->.
      pose proof (holds_allocated _ _ _ _ _ Hi E0 Ha) as Hh. split; [done|]. split.
      * intros q' t. rewrite Hh, (as_live _ _ _ _ _ _ _ Ha), Hlv. tauto.
      * intros q' t Hq u [Hu|[-> ->]]%Hh; [by apply (Hb q' t Hq u)|].
        pose proof (as_fresh _ _ _ _ _ _ _ Ha q t ltac:(apply Hlv; by left)).
        pose proof (live_block _ _ _ (proj2 (Hlv q t) (or_introl Hq))).
        destruct (span_blocks size Hs). lia.
    + destruct (process_malloc_full_spec k size n Hok Hs Hr Hn) as (m' & E' & Hok' & Hl' & Ha' & _);
        [rewrite Ei; unfold ENOMEM; lia|]. rewrite E in E'. injection E' as -> ->.
      assert (Hh : forall q t, holds m' process q t <-> holds (kmem k) process q t).
      { intros q t. split; intros (Hq & i & s & Hi & Ej & ->); split; try done; exists i, s;
          [by rewrite <- Ha'|by rewrite Ha']. }
      split; [done|]. split.
      * intros q t. by rewrite Hh, Hl', Hlv.
      * intros q t Hq u Hu%Hh. by apply (Hb q t Hq u).
  - destruct (holds_dec (kmem k) ptr) as [(i & s & Hi & Ei)|Hno].
    + destruct (process_free_spec process task chunk dir ts k i ptr s Hok Hi Ei Hp)
        as (m' & E' & Hok' & _ & Ha). rewrite E in E'. injection E' as ->.
      pose proof (holds_released _ _ _ _ _ Hok Hi Ei Hp Ha) as Hh. split; [done|]. split.
      * intros q t. rewrite Hh, (rl_live _ _ _ _ _ _ _ Ha), Hlv. split; [tauto|].
        intros [Hq|Hq]; [|tauto]. split; [by left|]. intros ->.
        apply (Hb ptr t Hq (span s)). split; [done|]. by exists i, s.
      * intros q t Hq u [Hu _]%Hh. by apply (Hb q t Hq u).
    + rewrite (process_free_foreign_eq process k ptr Hno) in E. by injection E as <-.
Qed.

End holding.

(** ** Lemmas: writing into the blocks of a process *)

Section blocks.
Context `{KAllocator} (process task chunk dir : Z) (ts : list Z).

(** Which bytes belong to the page tables is fixed by the list of tables. *)
Lemma space_tables m a : dir_owned m chunk dir ts ->
  space m dir a <-> dir <= a < dir + 4096 \/ exists t, t ∈ ts /\ t <= a < t + 4096.
Proof.
  intros [Hl _ _ _ _ Ht]. unfold space. split; intros [?|Hx]; (try by left); right.
  - destruct Hx as (i & Hi & Ha). destruct (lookup_lt_is_Some_2 ts (Z.to_nat i)) as [t E]; [lia|].
    pose proof (Ht _ _ E) as Et. rewrite Z2Nat.id in Et by lia. exists t. rewrite Et in Ha.
    split; [by apply list_elem_of_lookup_2 in E|done].
  - destruct Hx as (t & Hin & Ha). apply list_elem_of_lookup_1 in Hin as [i E].
    exists (Z.of_nat i). rewrite (Ht _ _ E). split; [apply lookup_lt_Some in E; lia|done].
Qed.

Lemma stable_mono m m' a :
  process_ok m process task chunk dir ts -> process_ok m' process task chunk dir ts ->
  (forall q t, live m q t -> live m' q t) -> stable m dir a -> stable m' dir a.
Proof.
  intros [_ Hp _ _] [_ Hp' _ _] Hlv [Ho Hs]. split; [by apply (owned_ext m)|].
  rewrite (space_tables m' a (sp_owned _ _ _ _ _ (pr_space _ _ _ _ _ _ Hp'))).
  by rewrite <- (space_tables m a (sp_owned _ _ _ _ _ (pr_space _ _ _ _ _ _ Hp))).
Qed.

Section block.
Context (m : mem) (i p s : Z) (Hok : process_ok m process task chunk dir ts)
  (Hi : 0 <= i < 1024) (Ea : allocation m process i = (p, s)) (Hp : p <> 0).

Lemma block_entry : entry_ok m process task chunk dir ts p s.
Proof. pose proof (po_entry _ _ _ _ _ _ Hok i Hi) as He. rewrite Ea in He. by apply He. Qed.

(** The block is apart from everything else of the process. *)
Lemma block_apart q t : q ∈ process :: task :: chunk :: dir :: ts -> live m q t ->
  p + span s <= q \/ q + t <= p.
Proof.
  intros Hq Hl. destruct (live_disjoint _ _ _ _ _ (en_live _ _ _ _ _ _ _ _ block_entry) Hl)
    as [[E _]|?]; [|done]. exfalso. apply (en_apart _ _ _ _ _ _ _ _ block_entry). by rewrite E.
Qed.

Lemma block_stable a : p <= a < p + span s ->
  stable m dir a /\ (a < process \/ process + process_span <= a).
Proof.
  intros Ha. pose proof (po_space _ _ _ _ _ _ Hok) as Hps.
  pose proof (sp_owned _ _ _ _ _ (pr_space _ _ _ _ _ _ Hps)) as Hd. split; [split|].
  - apply (owned_live m p (span s)); [apply (en_live _ _ _ _ _ _ _ _ block_entry)|done].
  - intros Hs. destruct (dir_owned_space _ _ _ _ _ Hd Hs) as (q & Hq & _ & Hr).
    destruct (block_apart q 4096); [by do 2 right|by apply (do_live _ _ _ _ Hd)|lia|lia].
  - destruct (block_apart process process_span); [by left|apply (pr_live _ _ _ _ _ _ Hps)|lia|lia].
Qed.

Lemma block_write m' : (forall a, a < p \/ p + span s <= a -> rd m' a = rd m a) ->
  process_ok m' process task chunk dir ts /\
  (forall j, 0 <= j < 1024 -> allocation m' process j = allocation m process j) /\
  (forall q t, live m' q t <-> live m q t) /\ (forall n, room m n -> room m' n).
Proof.
  intros Hf. pose proof (po_space _ _ _ _ _ _ Hok) as Hps.
  pose proof (pr_space _ _ _ _ _ _ Hps) as Hts. pose proof (sp_owned _ _ _ _ _ Hts) as Hd.
  destruct (client_frame m m' p (span s)) as (Hh & Hlv & Hr);
    [apply (po_heap _ _ _ _ _ _ Hok)|apply (en_live _ _ _ _ _ _ _ _ block_entry)|done|].
  assert (Hpr : forall a, process <= a < process + process_span -> rd m' a = rd m a).
  { intros a Ha. apply Hf. destruct (decide (p <= a < p + span s)) as [Hin|]; [|lia].
    apply block_stable in Hin as [_ Hin]. lia. }
  assert (Hsp : forall a, space m dir a -> rd m' a = rd m a).
  { intros a Ha. apply Hf. destruct (decide (p <= a < p + span s)) as [Hin|]; [|lia].
    by apply block_stable in Hin as [[_ Hin] _]. }
  assert (Hal : forall j, 0 <= j < 1024 -> allocation m' process j = allocation m process j).
  { intros j Hj. unfold allocation. f_equal; apply ld32_ext; intros o Hoo; apply Hpr;
      unfold alloc_size, alloc_ptr, proc_allocations, process_span; lia. }
  split; [|done]. split; [done| | |].
  - split; [by apply Hlv, (pr_live _ _ _ _ _ _ Hps)| |].
    + rewrite <- (pr_task _ _ _ _ _ _ Hps). apply ld32_ext. intros o Ho. apply Hpr.
      unfold proc_task, process_span. lia.
    + apply (task_space_mono m); [done|intros q _; by apply Hlv| |].
      * intros j Hj. by apply (space_entry m m' dir Hsp).
      * assert (Hq : forall q, q ∈ task :: chunk :: dir :: ts -> live m q 4096 ->
          forall a, q <= a < q + 4096 -> rd m' a = rd m a).
        { intros q Hq Hl a Ha. apply Hf. destruct (block_apart q 4096); [by right|done|lia|lia]. }
        intros a [Ha|Ha]; [apply (Hq task); [by left|apply (sp_live _ _ _ _ _ Hts)|done]|].
        apply (Hq chunk); [by do 2 constructor|apply (do_live _ _ _ _ Hd); by left|done].
  - intros j Hj. rewrite Hal by done. intros Hn. destruct (po_entry _ _ _ _ _ _ Hok j Hj Hn) as [? ? ? ? ? Hm].
    split; try done; [by apply Hlv|]. intros v Hv Hrv. rewrite (space_pte m m' dir Hsp) by done. by apply Hm.
  - intros j l Hj Hl. rewrite !Hal by done. by apply (po_distinct _ _ _ _ _ _ Hok).
Qed.
End block.

(** *** Free entries *)

Definition spare (m : mem) (n : nat) : Prop :=
  exists X : gset Z, (n <= size X)%nat /\ forall i, i ∈ X -> 0 <= i < 1024 /\ (allocation m process i).1 = 0.

Lemma spare_index m n : spare m (S n) ->
  exists i, 0 <= i < 1024 /\ process_find_free_allocation_index process m = i /\ (allocation m process i).1 = 0.
Proof.
  intros (X & Hn & HX). destruct (free_index_cases process m) as [Hi|[_ Hno]]; [done|].
  destruct (set_choose_L X) as [i Hi].
  - intros ->. rewrite size_empty in Hn. lia.
  - apply HX in Hi as [Hi E]. by apply Hno in Hi.
Qed.

Lemma spare_allocated m m' n i p s : spare m (S n) -> 0 <= i < 1024 ->
  allocated m m' process dir i p s -> spare m' n.
Proof.
  intros (X & Hn & HX) Hi Ha. exists (X ∖ {[i]}). split.
  - destruct (decide (i ∈ X)) as [Hin|Hout].
    + rewrite size_difference, size_singleton by (by apply singleton_subseteq_l). lia.
    + rewrite difference_disjoint_L by (by apply disjoint_singleton_r). lia.
  - intros j [Hj Hne]%elem_of_difference. apply not_elem_of_singleton in Hne.
    destruct (HX j Hj) as [Hr E]. split; [done|]. by rewrite (as_others _ _ _ _ _ _ _ Ha).
Qed.

Lemma spare_ext m m' n : (forall j, 0 <= j < 1024 -> allocation m' process j = allocation m process j) ->
  spare m n -> spare m' n.
Proof.
  intros Hal (X & Hn & HX). exists X. split; [done|]. intros i [Hi E]%HX. by rewrite Hal.
Qed.

(** Stores into the fields of the object behind the table. *)
Lemma object_write m m' : process_ok m process task chunk dir ts ->
  (forall a, a < process + proc_filetype \/ process + process_span <= a -> rd m' a = rd m a) ->
  process_ok m' process task chunk dir ts /\
  (forall i, 0 <= i < 1024 -> allocation m' process i = allocation m process i) /\
  (forall q t, live m' q t <-> live m q t).
Proof.
  intros [Hh Hps He Hd] Hf. unfold proc_filetype, process_span in Hf.
  assert (Hal : forall i, 0 <= i < 1024 -> allocation m' process i = allocation m process i).
  { intros i Hi. unfold allocation. f_equal; apply ld32_ext; intros o Ho; apply Hf;
      unfold alloc_size, alloc_ptr, proc_allocations; lia. }
  destruct (process_write m process task chunk dir ts Hps m' Hh) as (Hh' & Hps' & Hlv & _ & Hpt).
  - intros a Ha. apply Hf. unfold process_span in Ha. lia.
  - rewrite <- (pr_task _ _ _ _ _ _ Hps). apply ld32_ext. intros i Hi. apply Hf. unfold proc_task. lia.
  - split; [|done]. split; [done|done| |].
    + intros i Hi. rewrite Hal by done. intros Hn. destruct (He i Hi Hn) as [? ? ? ? ? Hm].
      split; try done; [by apply Hlv|]. intros v Hv Hr. rewrite Hpt by done. by apply Hm.
    + intros i j Hi Hj. rewrite !Hal by done. by apply Hd.
Qed.

End blocks.

(** ** Lemmas: a process to start from *)

(** A kernel with a task and a process whose table is empty, and plenty of
    free memory; [m0] is the memory before, empty except for three pages. *)
Lemma process_kernel m0 : (forall a, a < 0x300000 \/ 0x304000 <= a -> rd m0 a = rd ∅ a) ->
  exists k process task chunk dir ts, process_ok (kmem k) process task chunk dir ts /\
  room (kmem k) (Z.to_nat 19000) /\ (forall i, 0 <= i < 1024 -> allocation (kmem k) process i = (0, 0)) /\
  (forall v, page v -> pte (kmem k) dir v = Z.lor v 5) /\ 0x1000000 <= process < 4294967296 /\
  kernel_chunk k = 0x5000 /\ (forall a, 0 <= a < 4294967296 -> maps (kmem k) dir a a) /\
  (forall a, process + proc_allocations <= a < process + sizeof_process -> rd (kmem k) a = 0) /\
  (forall a, a < 0x7E00 \/ 0xE200 <= a < 0x1000000 -> stable (kmem k) dir a /\ rd (kmem k) a = rd m0 a).
Proof.
  intros Hm0. destruct (task_kernel m0 Hm0) as (k & t & chunk & dir & ts & Hok & Hr & Hpte & Hsp & Hid & _ & Hkc & Hst).
  set (m := kmem k) in *. pose proof (sp_owned _ _ _ _ _ Hsp) as Hd.
  assert (Es : blocks_for sizeof_process = 3) by reflexivity.
  destruct (alloc_span m sizeof_process _ Hok ltac:(unfold sizeof_process; lia) Hr ltac:(rewrite Es; lia))
    as (p & m1 & E & Hp0 & Hp & He & Hok1 & Hr1 & Hlv1 & Hfr & Hz & Ho).
  rewrite Es in Hr1. change (span sizeof_process) with process_span in *.
  set (m2 := st32 m1 (p + proc_task) t).
  assert (Hm2 : forall a, a < p + proc_task \/ p + proc_task + 4 <= a -> rd m2 a = rd m1 a)
    by (intros a Ha; unfold m2; by rewrite rd_st32_ne by lia).
  assert (Hin : proc_task + 4 <= process_span) by (unfold proc_task, process_span; lia).
  assert (Hpt : 0 <= proc_task) by (unfold proc_task; lia).
  assert (Hl1 : live m1 p process_span) by (apply Hlv1; by right).
  destruct (client_frame m1 m2 p process_span Hok1 Hl1) as (Hok2 & Hlv2 & Hr2);
    [intros a Ha; apply Hm2; lia|].
  assert (Hown : forall a, owned m a -> rd m2 a = rd m a).
  { intros a Ha. destruct (Ho a Ha) as [Hout Ha1]. rewrite Hm2 by lia. done. }
  assert (Hspace : forall a, space m dir a -> rd m2 a = rd m a).
  { intros a Ha. by eapply Hown, dir_owned_owned. }
  assert (Hsp2 : task_space m2 t chunk dir ts).
  { apply (task_space_mono m); [done|intros q _ Hq; apply Hlv2, Hlv1; by left| |].
    - intros i Hi. by apply (space_entry m m2 dir Hspace).
    - intros a [Ha|Ha]; apply Hown;
        [apply (task_stable _ _ _ _ _ Hsp)|apply (chunk_stable _ _ _ _ _ Hsp)]; done. }
  assert (Hal : forall i, 0 <= i < 1024 -> allocation m2 p i = (0, 0)).
  { intros i Hi. assert (Hb : forall b, p + proc_allocations <= b < p + proc_allocations + 8192 -> rd m2 b = 0).
    { intros b Hb. unfold proc_allocations in Hb. rewrite Hm2 by (unfold proc_task; lia).
      apply Hz. unfold sizeof_process. lia. }
    unfold allocation, ld32, alloc_ptr, alloc_size. rewrite !Hb by (unfold proc_allocations; lia). done. }
  assert (Hk : kmem (with_kmem m2 k) = m2) by done.
  exists (with_kmem m2 k), p, t, chunk, dir, ts. rewrite !Hk.
  split; [|split; [|split; [done|split; [|split; [|split; [exact Hkc|split; [|split]]]]]]].
  - split; [done|split; [by apply Hlv2| |done]| |].
    + unfold m2. rewrite ld32_st32_eq. destruct (sp_page _ _ _ _ _ Hsp). by apply u32_id.
    + intros i Hi. by rewrite Hal.
    + intros i j Hi Hj _. by rewrite Hal.
  - apply (kheap_room_weaken _ _ _ (Hr2 _ Hr1)). lia.
  - intros v Hv. rewrite (space_pte m m2 dir Hspace) by done. by apply Hpte.
  - pose proof (live_pool m1 p process_span p Hl1 ltac:(unfold process_span; lia)) as Hpool. split; [exact Hpool|unfold process_span in *; lia].
  - intros a Ha. apply (space_maps m); [done|by apply (dir_owned_wf m chunk dir ts)|done|by apply Hid].
  - intros a Ha. unfold proc_allocations in Ha. rewrite Hm2 by (unfold proc_task; lia). apply Hz. lia.
  - intros a Ha. destruct (Hst a Ha) as [[Hs1 Hs2] Ha1]. split; [|rewrite <- Ha1; by apply Hown].
    split; [by apply (owned_ext m); [intros q s Hq; apply Hlv2, Hlv1; left|]|].
    by rewrite (space_same m m2 dir Hspace).
Qed.

(** Over any number of calls. *)
Lemma heap_calls_accounted `{KAllocator} process task chunk dir ts base k k' :
  rtc (heap_call process) k k' -> accounted process task chunk dir ts base (kmem k) ->
  accounted process task chunk dir ts base (kmem k').
Proof.
  induction 1 as [k|k k1 k2 Hc _ IH]; [done|]. intros Hb.
  apply IH. by apply (heap_call_accounted process task chunk dir ts base k k1).
Qed.

(** The address space of a process maps a page whose entry is the page itself. *)
Lemma self_maps `{KAllocator} m process task chunk dir ts v :
  process_ok m process task chunk dir ts -> 0 <= v < 4294967296 ->
  pte m dir (v - v mod 4096) = Z.lor (v - v mod 4096) 7 -> maps m dir v v.
Proof.
  intros [_ Hps _ _] Hv E. pose proof (pr_space _ _ _ _ _ _ Hps) as Hts.
  pose proof (dir_owned_wf _ _ _ _ (sp_owned _ _ _ _ _ Hts)) as Hw.
  destruct (lower_page v Hv) as [_ Hp]. split; [apply (sp_present _ _ _ _ _ Hts); dlia|]. split.
  - rewrite E, Z.lor_spec. apply orb_true_r.
  - rewrite translate_pte, E, land_page_lor by (done || lia). replace (v - v mod 4096 + v mod 4096) with v by lia.
    by apply u32_id.
Qed.

Lemma base_accounted `{KAllocator} m process task chunk dir ts :
  process_ok m process task chunk dir ts ->
  accounted process task chunk dir ts (fun q t => live m q t /\ ~ holds m process q t) m.
Proof.
  intros Hok. assert (Hsame : forall q t u, live m q t -> holds m process q u -> t = u).
  { intros q t u Hq (Hq0 & i & s & Hi & Ei & ->). pose proof (po_entry _ _ _ _ _ _ Hok i Hi) as He.
    rewrite Ei in He. destruct (He Hq0) as [_ _ _ Hl _ _]. cbn [fst snd] in Hl.
    pose proof (live_block _ _ _ Hl). pose proof (live_block _ _ _ Hq).
    destruct (live_disjoint _ _ _ _ _ Hq Hl); lia. }
  split; [done|]. split.
  - intros q t. split.
    + intros Hq. destruct (holds_dec process m q) as [(i & s & Hi & Ei)|Hno].
      * pose proof (live_block _ _ _ Hq). assert (Hh : holds m process q (span s))
          by (split; [lia|by exists i, s]). right. by rewrite (Hsame q t _ Hq Hh).
      * left. split; [done|]. intros (_ & i & s & Hi & Ei & _). apply (Hno i Hi). by rewrite Ei.
    + intros [[Hq _]|(Hq & i & s & Hi & Ei & ->)]; [done|].
      pose proof (po_entry _ _ _ _ _ _ Hok i Hi) as He. rewrite Ei in He. by destruct (He Hq).
  - intros q t [Hq Hn] u Hu. apply Hn. by rewrite (Hsame q t u Hq Hu).
Qed.

(** What the program can do with the block. *)
Lemma allocated_access `{KAllocator} m m' process task chunk dir ts i p size v :
  process_ok m' process task chunk dir ts -> allocated m m' process dir i p size -> p <= v < p + size ->
  rd m' v = 0 /\ maps m' dir v v /\ Z.land (paging_get dir (v - v mod 4096) m') 4095 = 7.
Proof.
  intros Hok' [Hs Hp Hp0 He _ _ _ _ Hz Hpte _] Hv. destruct (span_blocks size Hs) as (Hs1 & Hs2 & _).
  assert (Hv' : 0 <= v < 4294967296) by lia. destruct (lower_page v Hv') as [_ Hpv].
  assert (Hpt : pte m' dir (v - v mod 4096) = Z.lor (v - v mod 4096) 7).
  { rewrite Hpte by done. destruct Hp as [_ Hal].
    rewrite (proj2 (Z.leb_le _ _)), (proj2 (Z.ltb_lt _ _)); [done|dlia|dlia]. }
  split; [by apply Hz|]. split; [by apply (self_maps m' process task chunk dir ts)|].
  rewrite paging_get_pte, Hpt; [|apply (dir_owned_wf m' chunk dir ts)|done].
  - rewrite lor_page by (lia || apply Hpv). change 4095 with (Z.ones 12).
    rewrite Z.land_ones by lia. change (2 ^ 12) with 4096. dlia.
  - apply (sp_owned _ _ _ _ _ (pr_space _ _ _ _ _ _ (po_space _ _ _ _ _ _ Hok'))).
Qed.

(** ** Properties *)

(** [process_malloc] with a free entry and enough memory returns a fresh,
    page-aligned block whose bytes are zero, records address and size in a
    free entry and changes no other one, and maps the block to itself for
    user reads and writes; the process stays well formed, exactly that block
    becomes live, and nothing else that was allocated changes. *)
Theorem process_malloc_allocates `{KAllocator} k process task chunk dir ts size n :
  process_ok (kmem k) process task chunk dir ts -> 0 < size <= 0xFFFFF000 -> room (kmem k) n ->
  blocks_for size <= Z.of_nat n ->
  (exists i, 0 <= i < 1024 /\ (allocation (kmem k) process i).1 = 0) ->
  exists p m' i, process_malloc process size k = Ret p (with_kmem m' k) /\
    0 < p /\ p mod 4096 = 0 /\ process_ok m' process task chunk dir ts /\
    0 <= i < 1024 /\ (allocation (kmem k) process i).1 = 0 /\ allocation m' process i = (p, size) /\
    (forall j, 0 <= j < 1024 -> j <> i -> allocation m' process j = allocation (kmem k) process j) /\
    (forall v, p <= v < p + size -> rd m' v = 0 /\ maps m' dir v v /\
       Z.land (paging_get dir (v - v mod 4096) m') 4095 = 7) /\
    (forall q t, live m' q t <-> live (kmem k) q t \/ q = p /\ t = blocks_for size * 4096) /\
    (forall a, stable (kmem k) dir a -> a < process \/ process + process_span <= a ->
       rd m' a = rd (kmem k) a).
Proof.
  intros Hok Hs Hr Hb (i0 & Hi0 & E0).
  destruct (free_index_cases process (kmem k)) as [(i & Hi & Ei & Ef)|[_ Hno]]; [|by apply Hno in Hi0].
  destruct (process_malloc_spec process task chunk dir ts k size n i Hok Hs Hr Hb Ei)
    as (p & m' & E & Hok' & _ & Ha); [lia|].
  pose proof Ha as [_ Hp Hp0 He _ Hlv Hent Hoth _ _ Hst].
  exists p, m', i. repeat (split; [done || apply Hp|]). split; [|split; [done|]].
  - intros v Hv. by apply (allocated_access (kmem k) m' process task chunk dir ts i p size).
  - intros a Ha1 Ha2. apply Hst; [done|]. unfold alloc_ptr, proc_allocations, process_span in *. lia.
Qed.

(** What a process allocates and frees again is as if it had not been:
    the same blocks are live, the table has the same pointers, and every byte
    outside the process object and its page tables is unchanged. *)
Theorem process_malloc_free_restores `{KAllocator} k process task chunk dir ts size n :
  process_ok (kmem k) process task chunk dir ts -> 0 < size <= 0xFFFFF000 -> room (kmem k) n ->
  blocks_for size <= Z.of_nat n ->
  (exists i, 0 <= i < 1024 /\ (allocation (kmem k) process i).1 = 0) ->
  exists p k1 m2, process_malloc process size k = Ret p k1 /\
    process_free process p k1 = Ret tt (with_kmem m2 k) /\
    process_ok m2 process task chunk dir ts /\ (forall q t, live m2 q t <-> live (kmem k) q t) /\
    (forall i, 0 <= i < 1024 -> (allocation m2 process i).1 = (allocation (kmem k) process i).1) /\
    (forall a, stable (kmem k) dir a -> a < process \/ process + process_span <= a ->
       rd m2 a = rd (kmem k) a).
Proof.
  intros Hok Hs Hr Hb (i0 & Hi0 & E0).
  destruct (free_index_cases process (kmem k)) as [(i & Hi & Ei & Ef)|[_ Hno]]; [|by apply Hno in Hi0].
  destruct (process_malloc_spec process task chunk dir ts k size n i Hok Hs Hr Hb Ei)
    as (p & m1 & E & Hok1 & _ & Ha); [lia|]. pose proof (as_pos _ _ _ _ _ _ _ Ha) as Hp.
  destruct (process_free_spec process task chunk dir ts (with_kmem m1 k) i p size Hok1 Hi
    (as_entry _ _ _ _ _ _ _ Ha)) as (m2 & E2 & Hok2 & _ & Hrel); [lia|].
  exists p, (with_kmem m1 k), m2. split; [done|]. split; [done|]. split; [done|]. split; [|split].
  - intros q t. rewrite (rl_live _ _ _ _ _ _ _ Hrel), kmem_with_kmem, (as_live _ _ _ _ _ _ _ Ha). split.
    + by intros [[?|[-> _]] ?].
    + intros Hq. split; [by left|]. pose proof (live_block _ _ _ Hq).
      pose proof (as_fresh _ _ _ _ _ _ _ Ha q t Hq). destruct (span_blocks size Hs). lia.
  - intros j Hj. destruct (decide (j = i)) as [->|Hne]; [by rewrite (rl_entry _ _ _ _ _ _ _ Hrel), Ef|].
    by rewrite (rl_others _ _ _ _ _ _ _ Hrel), kmem_with_kmem, (as_others _ _ _ _ _ _ _ Ha).
  - intros a Ha1 Ha2. assert (Hout : forall j, 0 <= j < 1024 -> ~ (alloc_ptr process j <= a < alloc_ptr process j + 8))
      by (intros j Hj; unfold alloc_ptr, proc_allocations, process_span in *; lia).
    rewrite (rl_stable _ _ _ _ _ _ _ Hrel), kmem_with_kmem, (as_stable _ _ _ _ _ _ _ Ha); auto.
    apply (stable_mono process task chunk dir ts (kmem k)); try done.
    intros q t Hq. apply (as_live _ _ _ _ _ _ _ Ha). by left.
Qed.

(** C5. The allocation table is an invariant: whatever calls of
    [process_malloc] (with memory available) and [process_free] (of any
    non-null pointer, the process's own or not) a process makes, its table
    stays well formed - every entry a live, user-writable block apart from the
    others and from the kernel's objects - and the live blocks are always the
    other ones of the start together with the table's. *)
Theorem process_heap_invariant `{KAllocator} k k' process task chunk dir ts :
  process_ok (kmem k) process task chunk dir ts -> rtc (heap_call process) k k' ->
  process_ok (kmem k') process task chunk dir ts /\
  (forall q t, live (kmem k') q t <->
     (live (kmem k) q t /\ ~ holds (kmem k) process q t) \/ holds (kmem k') process q t).
Proof.
  intros Hok Hr. apply base_accounted in Hok.
  by destruct (heap_calls_accounted process task chunk dir ts _ k k' Hr Hok) as (? & ? & _).
Qed.

(** With all 1024 entries in use [process_malloc] returns null and keeps
    nothing: the block it took is released, the table and every byte that was
    allocated are unchanged. *)
Theorem process_malloc_table_full `{KAllocator} k process task chunk dir ts size n :
  process_ok (kmem k) process task chunk dir ts -> 0 < size <= 0xFFFFF000 -> room (kmem k) n ->
  blocks_for size <= Z.of_nat n ->
  (forall i, 0 <= i < 1024 -> (allocation (kmem k) process i).1 <> 0) ->
  exists m', process_malloc process size k = Ret 0 (with_kmem m' k) /\
    process_ok m' process task chunk dir ts /\ (forall q t, live m' q t <-> live (kmem k) q t) /\
    (forall a, owned (kmem k) a -> rd m' a = rd (kmem k) a).
Proof.
  intros Hok Hs Hr Hb Hno. destruct (process_malloc_full_spec process task chunk dir ts k size n Hok Hs Hr Hb)
    as (m' & E & Hok' & Hlv & _ & Ho); [|by exists m'].
  destruct (free_index_cases process (kmem k)) as [(i & Hi & _ & E0)|[-> _]]; [by apply Hno in Hi|done].
Qed.

(** A process can only free what it allocated: [process_free] of an
    address that is in no entry of its table changes nothing at all. *)
Theorem process_free_foreign k process ptr :
  (forall i, 0 <= i < 1024 -> (allocation (kmem k) process i).1 <> ptr) ->
  process_free process ptr k = Ret tt k.
Proof. apply process_free_foreign_eq. Qed.

(** The null pointer counts as allocated: while an entry is free,
    [process_free(0)] takes that entry for an allocation and passes null on to
    [kfree], which clears the byte 0x6E00. *)
Theorem process_free_null k process task chunk dir ts i :
  @process_ok kernel_allocator (kmem k) process task chunk dir ts ->
  process_find_free_allocation_index process (kmem k) = i -> 0 <= i ->
  allocation (kmem k) process i = (0, 0) ->
  exists m', @process_free kernel_allocator process 0 k = Ret tt (with_kmem m' k) /\ rd m' 0x6E00 = 0.
Proof.
  intros Hok Ei Hi Ea. eexists. split; [|apply kfree_null].
  pose proof (po_space _ _ _ _ _ _ Hok) as Hps. injection Ea as Ep Es. unfold process_free.
  rewrite (bind_Ret _ _ _ i k).
  2:{ unfold gets. f_equal. rewrite <- Ei. unfold is_current_process_ptr, process_find_free_allocation_index.
      destruct (find_allocation _ _ _ 0 0) eqn:E; [done|].
      unfold process_find_free_allocation_index in Ei. rewrite E in Ei. unfold ENOMEM in Ei. lia. }
  rewrite (proj2 (Z.ltb_ge i 0)) by done.
  rewrite (bind_Ret _ _ _ dir k) by (by apply (process_directory_eq (kmem k) process task chunk dir ts Hps (kmem k))).
  rewrite (bind_Ret _ _ _ 0 k) by (unfold kload32, gets; f_equal; exact Ep).
  rewrite (bind_Ret _ _ _ 0 k) by (unfold kload32, gets; f_equal; exact Es).
  rewrite (bind_Ret _ _ _ 0 (with_kmem (kmem k) k)); [done|].
  unfold on_kmem. change (paging_align_address (u32 (0 + 0))) with 0.
  by replace (paging_map_to dir 0 0 0 0 (kmem k)) with (0, kmem k).
Qed.

(** ** Witnesses *)

Lemma process_malloc_allocates_witness : exists k process p m',
  process_malloc process 100 k = Ret p (with_kmem m' k) /\ 0 < p /\ rd m' (p + 99) = 0.
Proof.
  destruct (process_kernel ∅ ltac:(done)) as (k & process & task & chunk & dir & ts & Hok & Hr & Hal & _).
  destruct (process_malloc_allocates k process task chunk dir ts 100 _ Hok ltac:(lia) Hr)
    as (p & m' & i & E & Hp & _ & _ & _ & _ & _ & _ & Hz & _).
  - change (blocks_for 100) with 1. lia.
  - exists 0. by rewrite Hal.
  - exists k, process, p, m'. split; [exact E|]. split; [done|]. apply Hz. lia.
Defined.

Lemma process_malloc_free_restores_witness : exists k process p k1 m2,
  process_malloc process 5000 k = Ret p k1 /\ process_free process p k1 = Ret tt (with_kmem m2 k) /\
  (forall q t, live m2 q t <-> live (kmem k) q t).
Proof.
  destruct (process_kernel ∅ ltac:(done)) as (k & process & task & chunk & dir & ts & Hok & Hr & Hal & _).
  destruct (process_malloc_free_restores k process task chunk dir ts 5000 _ Hok ltac:(lia) Hr)
    as (p & k1 & m2 & E1 & E2 & _ & Hl & _).
  - change (blocks_for 5000) with 2. lia.
  - exists 0. by rewrite Hal.
  - exists k, process, p, k1, m2. by split.
Defined.

Lemma process_heap_invariant_witness : exists k k' process task chunk dir ts,
  rtc (heap_call process) k k' /\ k <> k' /\ process_ok (kmem k') process task chunk dir ts.
Proof.
  destruct (process_kernel ∅ ltac:(done)) as (k & process & task & chunk & dir & ts & Hok & Hr & Hal & _).
  destruct (process_malloc_spec process task chunk dir ts k 100 _ 0 Hok ltac:(lia) Hr)
    as (p & m' & E & _ & _ & Ha); [change (blocks_for 100) with 1; lia| |lia|].
  { unfold process_find_free_allocation_index.
    rewrite (proj2 (find_allocation_Some _ _ _ 0 0 0)); [done|]. split; [unfold LIEBE_OS_MAX_PROGRAM_ALLOCATIONS; lia|].
    split; [|lia]. by injection (Hal 0 ltac:(lia)). }
  assert (Hc : rtc (heap_call process) k (with_kmem m' k)).
  { apply rtc_once. apply (call_malloc process k _ 100 (Z.to_nat 19000) p); [lia|exact Hr|change (blocks_for 100) with 1; lia|exact E]. }
  exists k, (with_kmem m' k), process, task, chunk, dir, ts. split; [done|]. split.
  - intros E2. assert (Em : kmem k = m') by (rewrite E2; done).
    pose proof (as_entry _ _ _ _ _ _ _ Ha) as Ea. rewrite <- Em, Hal in Ea by lia. by injection Ea.
  - apply (process_heap_invariant k (with_kmem m' k) process task chunk dir ts Hok Hc).
Defined.

(** The table filled from the front. *)
Lemma fill_entries k process task chunk dir ts n :
  process_ok (kmem k) process task chunk dir ts -> room (kmem k) n ->
  (forall i, 0 <= i < 1024 -> allocation (kmem k) process i = (0, 0)) ->
  forall j, (j <= 1024)%nat -> (j <= n)%nat -> exists m', process_ok m' process task chunk dir ts /\
    room m' (n - j) /\ (forall i, 0 <= i < Z.of_nat j -> (allocation m' process i).1 <> 0) /\
    (forall i, Z.of_nat j <= i < 1024 -> (allocation m' process i).1 = 0).
Proof.
  intros Hok Hr Hal. induction j as [|j IH]; intros Hj Hn.
  - exists (kmem k). rewrite Nat.sub_0_r. split; [done|]. split; [done|]. split; [lia|]. intros i Hi. by rewrite Hal by lia.
  - destruct IH as (m & Hokm & Hrm & Hu & Hf); [lia|lia|].
    destruct (process_malloc_spec process task chunk dir ts (with_kmem m k) 1 (n - j) (Z.of_nat j))
      as (p & m' & _ & Hok' & Hr' & Ha); try done; [change (blocks_for 1) with 1; lia| |lia|].
    { unfold process_find_free_allocation_index.
      rewrite (proj2 (find_allocation_Some _ _ _ 0 0 (Z.of_nat j))); [done|].
      split; [unfold LIEBE_OS_MAX_PROGRAM_ALLOCATIONS; lia|]. split; [apply Hf; lia|].
      intros l Hl. apply Hu. lia. }
    change (blocks_for 1) with 1 in Hr'. replace (n - j - Z.to_nat 1)%nat with (n - S j)%nat in Hr' by lia.
    exists m'. split; [done|]. split; [done|].
    assert (Ht : forall i, 0 <= i < 1024 -> i <> Z.of_nat j -> allocation m' process i = allocation m process i)
      by (intros i Hi Hne; by rewrite (as_others _ _ _ _ _ _ _ Ha)).
    split; intros i Hi.
    + destruct (decide (i = Z.of_nat j)) as [->|Hne].
      * rewrite (as_entry _ _ _ _ _ _ _ Ha). cbn [fst]. pose proof (as_pos _ _ _ _ _ _ _ Ha). lia.
      * rewrite Ht by lia. apply Hu. lia.
    + rewrite Ht by lia. apply Hf. lia.
Qed.

Lemma process_malloc_table_full_witness : exists k process m',
  process_malloc process 100 k = Ret 0 (with_kmem m' k) /\
  (forall q t, live m' q t <-> live (kmem k) q t).
Proof.
  destruct (process_kernel ∅ ltac:(done)) as (k0 & process & task & chunk & dir & ts & Hok & Hr & Hal & _).
  destruct (fill_entries k0 process task chunk dir ts _ Hok Hr Hal 1024 (le_n _) ltac:(lia))
    as (m & Hokm & Hrm & Hu & _).
  destruct (process_malloc_table_full (with_kmem m k0) process task chunk dir ts 100 _ Hokm ltac:(lia) Hrm)
    as (m' & E & _ & Hl & _).
  - change (blocks_for 100) with 1. lia.
  - intros i Hi. apply Hu. lia.
  - exists (with_kmem m k0), process, m'. split; [exact E|exact Hl].
Defined.

Lemma process_free_foreign_witness : exists k process, process_free process 0x2000000 k = Ret tt k.
Proof.
  destruct (process_kernel ∅ ltac:(done)) as (k & process & task & chunk & dir & ts & _ & _ & Hal & _).
  exists k, process. apply process_free_foreign. intros i Hi. by rewrite Hal.
Defined.

Lemma process_free_null_witness : exists k process m',
  @process_free kernel_allocator process 0 k = Ret tt (with_kmem m' k) /\ rd m' 0x6E00 = 0.
Proof.
  destruct (process_kernel ∅ ltac:(done)) as (k & process & task & chunk & dir & ts & Hok & _ & Hal & _).
  destruct (process_free_null k process task chunk dir ts 0 Hok) as (m' & E & E'); [|lia|by apply Hal|].
  - unfold process_find_free_allocation_index.
    rewrite (proj2 (find_allocation_Some _ _ _ 0 0 0)); [done|]. split; [unfold LIEBE_OS_MAX_PROGRAM_ALLOCATIONS; lia|].
    split; [|lia]. by injection (Hal 0 ltac:(lia)).
  - by exists k, process, m'.
Defined.
