(* ===== verification/ProcessArgs.v ===== *)
(** * Program arguments: [process_inject_arguments]

    The kernel copies the arguments of a command, a linked list of
    512-byte strings, into blocks of the new process and points [argv] at them. *)
From S2P Require Import Prelude Config Memory CString Heap KHeap Paging Terminal PathParser Disk Fat16 File Elf Kernel Task Process ProcessMem.

(** ** The abstract view *)

(** The list of [struct command_argument] from [a]: address and string of each. *)
Fixpoint arg_chain (m : mem) (a : Z) (l : list (Z * list Z)) : Prop :=
  match l with
  | [] => a = 0
  | (b, s) :: l' =>
    a = b /\ b <> 0 /\ cstr (at_mem m b) s /\ Z.of_nat (length s) < sizeof_argument /\
    arg_chain m (ld32 m (b + arg_next)) l'
  end.

(** Bytes the process's own calls leave alone. *)
Definition beyond `{KAllocator} (m : mem) (process dir a : Z) : Prop :=
  stable m dir a /\ (a < process \/ process + process_span <= a).

(** All bytes of the list are such. *)
Definition args_beyond `{KAllocator} (m : mem) (process dir : Z) (l : list (Z * list Z)) : Prop :=
  forall b s a, (b, s) ∈ l -> b <= a < b + 516 -> beyond m process dir a.

(** [argv[j]] points at a block of the process that holds [s]. *)
Definition arg_stored (m : mem) (process argv j : Z) (s : list Z) : Prop :=
  let q := ld32 m (argv + 4 * j) in
  holds m process q 4096 /\ (q + 4096 <= argv \/ argv + 4096 <= q) /\
  cstr (at_mem m q) s /\ Z.of_nat (length s) < sizeof_argument.

(** ** Lemmas *)

Lemma arg_chain_frame m m' : forall l a,
  (forall b s x, (b, s) ∈ l -> b <= x < b + 516 -> rd m' x = rd m x) ->
  arg_chain m a l -> arg_chain m' a l.
Proof.
  induction l as [|[b s] l IH]; intros a Hf; cbn [arg_chain]; [done|].
  intros (Ha & Hb & Hc & Hs & Hl).
  assert (Hb' : forall x, b <= x < b + 516 -> rd m' x = rd m x) by (intros x; apply (Hf b s); by left).
  split; [done|]. split; [done|]. split; [|split; [done|]].
  - apply (cstr_ext (at_mem m b)); [|done]. intros i Hi. unfold at_mem. apply Hb'.
    unfold sizeof_argument in Hs. lia.
  - rewrite (ld32_ext m m' (b + arg_next)); [|intros i Hi; apply Hb'; unfold arg_next; lia].
    apply IH; [|done]. intros c t x Hc'. apply (Hf c t). by right.
Qed.

Lemma count_arguments_spec m : forall l a n c, arg_chain m a l -> (length l < n)%nat ->
  count_arguments n m a c = Some (c + Z.of_nat (length l)).
Proof.
  induction l as [|[b s] l IH]; intros a n c Hl Hn; (destruct n as [|n]; [cbn in Hn; lia|]);
    cbn [arg_chain count_arguments length] in *.
  - subst a. cbn [Z.eqb]. f_equal. lia.
  - destruct Hl as (-> & Hb & _ & _ & Hl). rewrite (proj2 (Z.eqb_neq b 0)) by done.
    rewrite (IH _ n (c + 1) Hl) by lia. f_equal. lia.
Qed.

Section inject.
Context `{KAllocator} (process task chunk dir : Z) (ts : list Z).

Lemma beyond_mono m m' a :
  process_ok m process task chunk dir ts -> process_ok m' process task chunk dir ts ->
  (forall q t, live m q t -> live m' q t) -> beyond m process dir a -> beyond m' process dir a.
Proof. intros H1 H2 Hl [Hs Ho]. split; [by apply (stable_mono process task chunk dir ts m)|done]. Qed.

Lemma beyond_allocated m m' i p s a : 0 <= i < 1024 -> allocated m m' process dir i p s ->
  beyond m process dir a -> rd m' a = rd m a.
Proof.
  intros Hi Ha [Hs Ho]. apply (as_stable _ _ _ _ _ _ _ Ha a Hs).
  unfold alloc_ptr, proc_allocations, process_span in *. lia.
Qed.

(** A byte the process may rely on is outside a block allocated after. *)
Lemma beyond_fresh m m' i p s a : allocated m m' process dir i p s ->
  owned m a -> a < p \/ p + span s <= a.
Proof.
  intros Ha Ho. pose proof (as_live _ _ _ _ _ _ _ Ha) as Hlv.
  apply (owned_fresh m m' p (span s)); [intros q t Hq; apply Hlv; by left|apply Hlv; by right| |done].
  intros q t Hq ->. pose proof (live_block _ _ _ Hq). pose proof (as_fresh _ _ _ _ _ _ _ Ha _ _ Hq).
  destruct (span_blocks s (as_size _ _ _ _ _ _ _ Ha)). lia.
Qed.

Lemma holds_ext m m' q t :
  (forall j, 0 <= j < 1024 -> allocation m' process j = allocation m process j) ->
  holds m process q t -> holds m' process q t.
Proof. intros Hal (Hq & i & s & Hi & E & ->). split; [done|]. exists i, s. by rewrite Hal. Qed.

(** The state between two arguments: [argv] is a block of the process. *)
Record injecting (m : mem) (argv : Z) (n : nat) : Prop := {
  ij_ok : process_ok m process task chunk dir ts;
  ij_argv : exists i s, 0 <= i < 1024 /\ allocation m process i = (argv, s) /\ argv <> 0 /\ span s = 4096;
  ij_spare : spare process m n;
  ij_room : room m n }.

Lemma injecting_argv m argv n a : injecting m argv n -> argv <= a < argv + 4096 -> beyond m process dir a.
Proof.
  intros [Hok (i & s & Hi & E & Hn & Hs) _ _] Ha.
  apply (block_stable process task chunk dir ts m i argv s); try done. by rewrite Hs.
Qed.

(** The copy of the string: from the block just allocated to the block filled. *)
Lemma inject_copy m m1 q b s i :
  process_ok m1 process task chunk dir ts -> 0 <= i < 1024 ->
  allocated m m1 process dir i q sizeof_argument ->
  cstr (at_mem m b) s -> Z.of_nat (length s) < sizeof_argument ->
  (forall a, b <= a < b + 516 -> beyond m process dir a) ->
  let m2 := strncpy q b sizeof_argument m1 in
  cstr (at_mem m2 q) s /\ (forall a, a < q \/ q + 4096 <= a -> rd m2 a = rd m1 a).
Proof.
  intros Hok1 Hi Ha Hc Hs Hb m2. unfold sizeof_argument in *.
  assert (Hout : forall a, b <= a < b + 516 -> a < q \/ q + 4096 <= a).
  { intros a Hin. apply (beyond_fresh m m1 i q 512 a Ha). by apply Hb. }
  assert (Hc1 : cstr (at_mem m1 b) s).
  { apply (cstr_ext (at_mem m b)); [|done]. intros x Hx. unfold at_mem.
    apply (beyond_allocated m m1 i q 512); [done|done|]. apply Hb. lia. }
  assert (Hd : q + Z.max 1 512 <= b \/ b + Z.of_nat (length s) < q).
  { pose proof (Hout b ltac:(lia)). pose proof (Hout (b + 515) ltac:(lia)).
    destruct (decide (b <= q < b + 516)) as [Hq|]; [pose proof (Hout q Hq); lia|lia]. }
  destruct (strncpy_mem s q b 512 m1 Hc1 Hd) as (_ & _ & Ho).
  pose proof (strncpy_cstr s q b 512 m1 Hc1 Hd) as Hc2. rewrite take_ge in Hc2 by lia.
  split; [done|]. intros a Hr. apply Ho. lia.
Qed.

(** One turn: a block for the string, its address into [argv[j]]. *)
Lemma inject_step k argv n b s j : let m := kmem k in
  injecting m argv (S n) -> cstr (at_mem m b) s -> Z.of_nat (length s) < sizeof_argument ->
  (forall a, b <= a < b + 516 -> beyond m process dir a) -> 0 <= j < 1024 ->
  exists q m1, process_malloc process sizeof_argument k = Ret q (with_kmem m1 k) /\ q <> 0 /\
    let m2 := st32 (strncpy q b sizeof_argument m1) (argv + 4 * j) q in
    injecting m2 argv n /\ arg_stored m2 process argv j s /\
    (forall a, beyond m process dir a -> a < argv + 4 * j \/ argv + 4 * j + 4 <= a -> rd m2 a = rd m a) /\
    (forall x t, live m x t -> live m2 x t) /\ (forall x t, holds m process x t -> holds m2 process x t).
Proof.
  intros m Hij Hc Hs Hb Hj. pose proof Hij as [Hok (ia & sa & Hia & Ea & Hn & Hsa) Hsp Hr].
  assert (Eb : blocks_for sizeof_argument = 1) by reflexivity.
  destruct (spare_index process m n Hsp) as (i & Hi & Ei & E0).
  destruct (process_malloc_spec process task chunk dir ts k sizeof_argument (S n) i Hok)
    as (q & m1 & E & Hok1 & Hr1 & Ha); [unfold sizeof_argument; lia|done|lia|done|lia|].
  fold m in Ha. change (span sizeof_argument) with 4096 in *.
  pose proof (as_pos _ _ _ _ _ _ _ Ha) as Hq. pose proof (as_entry _ _ _ _ _ _ _ Ha) as Ee.
  exists q, m1. split; [done|]. split; [lia|]. set (m1' := strncpy q b sizeof_argument m1).
  destruct (inject_copy m m1 q b s i Hok1 Hi Ha Hc Hs Hb) as [Hc1 Hf1]. fold m1' in Hc1, Hf1.
  destruct (block_write process task chunk dir ts m1 i q sizeof_argument Hok1 Hi Ee ltac:(lia) m1' Hf1)
    as (Hok2 & Hal2 & Hlv2 & Hr2).
  assert (Hne : ia <> i) by (intros ->; rewrite Ea in E0; by apply Hn).
  assert (Ea2 : allocation m1' process ia = (argv, sa))
    by (rewrite Hal2, (as_others _ _ _ _ _ _ _ Ha) by done; done).
  set (m2 := st32 m1' (argv + 4 * j) q). intros m2'. change m2' with m2. clear m2'.
  assert (Hf2 : forall a, a < argv + 4 * j \/ argv + 4 * j + 4 <= a -> rd m2 a = rd m1' a)
    by (intros a Hx; unfold m2; by rewrite rd_st32_ne).
  destruct (block_write process task chunk dir ts m1' ia argv sa Hok2 Hia Ea2 Hn m2)
    as (Hok3 & Hal3 & Hlv3 & Hr3); [intros a Hx; apply Hf2; lia|].
  assert (Hap : forall a, argv <= a < argv + 4096 -> a < q \/ q + 4096 <= a).
  { intros a Hx. apply (beyond_fresh m m1 i q sizeof_argument a Ha). by apply (injecting_argv m argv (S n)). }
  assert (Hh : forall x t, holds m1 process x t -> holds m2 process x t).
  { intros x t Hx. apply (holds_ext m1'); [done|]. by apply (holds_ext m1). }
  split; [split; [done|by exists ia, sa; rewrite Hal3| |]|split; [|split; [|split]]].
  - apply (spare_ext process m1'); [done|]. apply (spare_ext process m1); [done|].
    by apply (spare_allocated process dir m m1 n i q sizeof_argument).
  - apply Hr3, Hr2. rewrite Eb in Hr1. by replace n with (S n - Z.to_nat 1)%nat by lia.
  - unfold arg_stored. assert (Eq : ld32 m2 (argv + 4 * j) = q).
    { unfold m2. rewrite ld32_st32_eq. destruct (as_page _ _ _ _ _ _ _ Ha). by apply u32_id. }
    rewrite Eq. pose proof (Hap argv ltac:(lia)). pose proof (Hap (argv + 4095) ltac:(lia)).
    assert (Hqa : q + 4096 <= argv \/ argv + 4096 <= q).
    { destruct (decide (argv <= q < argv + 4096)) as [Hw|]; [pose proof (Hap _ Hw); lia|lia]. }
    split; [|split; [done|split; [|done]]].
    + apply Hh. apply (holds_allocated process dir m m1 i q sizeof_argument Hi E0 Ha). by right.
    + apply (cstr_ext (at_mem m1' q)); [|done]. intros x Hx. unfold at_mem. apply Hf2.
      unfold sizeof_argument in Hs. lia.
  - intros a Hx Hout. rewrite Hf2, Hf1 by (done || apply (beyond_fresh m m1 i q sizeof_argument a Ha), Hx).
    by apply (beyond_allocated m m1 i q sizeof_argument).
  - intros x t Hx. apply Hlv3, Hlv2, (as_live _ _ _ _ _ _ _ Ha). by left.
  - intros x t Hx. apply Hh, (holds_allocated process dir m m1 i q sizeof_argument Hi E0 Ha). by left.
Qed.

Lemma holds_beyond m q t a : process_ok m process task chunk dir ts ->
  holds m process q t -> q <= a < q + t -> beyond m process dir a.
Proof.
  intros Hok (Hq & i & s & Hi & E & ->) Ha.
  by apply (block_stable process task chunk dir ts m i q s).
Qed.

(** What was stored stays. *)
Lemma arg_stored_frame m m' argv n j s : injecting m argv n -> 0 <= j < 1024 ->
  arg_stored m process argv j s -> (forall x t, holds m process x t -> holds m' process x t) ->
  (forall a, beyond m process dir a -> a < argv + 4 * (j + 1) \/ argv + 4096 <= a -> rd m' a = rd m a) ->
  arg_stored m' process argv j s.
Proof.
  intros Hij Hj (Hh & Hap & Hc & Hs) Hm Hf. set (q := ld32 m (argv + 4 * j)) in *.
  assert (E : ld32 m' (argv + 4 * j) = q).
  { apply ld32_ext. intros i Hi. apply Hf; [|lia]. apply (injecting_argv m argv n); [done|lia]. }
  unfold arg_stored. rewrite E. split; [by apply Hm|]. split; [done|]. split; [|done].
  apply (cstr_ext (at_mem m q)); [|done]. intros i Hi. unfold at_mem. unfold sizeof_argument in Hs.
  apply Hf; [|lia]. apply (holds_beyond m q 4096); [apply (ij_ok _ _ _ Hij)|done|lia].
Qed.

Lemma inject_loop_spec argv : forall l fuel k a j, let m := kmem k in
  injecting m argv (length l) -> arg_chain m a l -> args_beyond m process dir l ->
  (forall b s x, (b, s) ∈ l -> b <= x < b + 516 -> x < argv \/ argv + 4096 <= x) ->
  0 <= j -> j + Z.of_nat (length l) <= 1024 -> (length l < fuel)%nat ->
  exists m', inject_loop fuel process a argv j k = Ret 0 (with_kmem m' k) /\
    process_ok m' process task chunk dir ts /\
    (forall i b s, l !! i = Some (b, s) -> arg_stored m' process argv (j + Z.of_nat i) s) /\
    (forall x, beyond m process dir x -> x < argv + 4 * j \/ argv + 4096 <= x -> rd m' x = rd m x) /\
    (forall x t, holds m process x t -> holds m' process x t).
Proof.
  induction l as [|[b s] l IH]; intros fuel k a j m Hij Hl Hby Hout Hj Hlen Hfuel;
    (destruct fuel as [|fuel]; [cbn in Hfuel; lia|]); cbn [length] in *.
  - cbn [arg_chain] in Hl. subst a. exists m. split; [by unfold m; rewrite with_kmem_id|].
    split; [apply (ij_ok _ _ _ Hij)|done].
  - cbn [arg_chain] in Hl. destruct Hl as (-> & Hb & Hc & Hs & Hl).
    assert (Hbb : forall x, b <= x < b + 516 -> beyond m process dir x) by (intros x; apply (Hby b s); by left).
    destruct (inject_step k argv (length l) b s j Hij Hc Hs Hbb) as (q & m1 & E & Hq & Hstep); [lia|].
    set (m2 := st32 (strncpy q b sizeof_argument m1) (argv + 4 * j) q) in *.
    destruct Hstep as (Hij2 & Hst & Hf2 & Hlv2 & Hh2).
    assert (Hb2 : forall x, beyond m process dir x -> beyond m2 process dir x).
    { intros x. apply beyond_mono; [apply (ij_ok _ _ _ Hij)|apply (ij_ok _ _ _ Hij2)|done]. }
    assert (Hargs : forall c t x, (c, t) ∈ (b, s) :: l -> c <= x < c + 516 -> rd m2 x = rd m x).
    { intros c t x Hin Hx. apply Hf2; [by apply (Hby c t)|]. destruct (Hout c t x Hin Hx); lia. }
    destruct (IH fuel (with_kmem m2 k) (ld32 m (b + arg_next)) (j + 1)) as (m' & E' & Hok' & Hst' & Hf' & Hh'); try done; try lia.
    + apply (arg_chain_frame m); [|done]. intros c t x Hin. apply (Hargs c t). by right.
    + intros c t x Hin Hx. apply Hb2, (Hby c t); [by right|done].
    + intros c t x Hin. apply (Hout c t). by right.
    + rewrite kmem_with_kmem in Hf', Hh'. exists m'. split; [|split; [done|split; [|split]]].
      * cbn [inject_loop]. rewrite (proj2 (Z.eqb_neq b 0)) by done.
        rewrite (bind_Ret _ _ _ q (with_kmem m1 k)) by done.
        rewrite (proj2 (Z.eqb_neq q 0)) by done.
        destruct (ij_argv _ _ _ Hij) as (ia & sa & Hia & Ea & Hn & Hsa).
        pose proof (block_entry process task chunk dir ts m ia argv sa (ij_ok _ _ _ Hij) Hia Ea Hn) as Hent.
        pose proof (en_end _ _ _ _ _ _ _ _ Hent). destruct (en_page _ _ _ _ _ _ _ _ Hent).
        rewrite Hsa in *. rewrite u32_id by lia.
        rewrite (bind_Ret _ _ _ tt (with_kmem (strncpy q b sizeof_argument m1) k)) by done.
        rewrite (bind_Ret _ _ _ tt (with_kmem m2 k)) by done.
        rewrite (bind_Ret _ _ _ (ld32 m (b + arg_next)) (with_kmem m2 k)); [done|].
        unfold kload32, gets. f_equal. rewrite kmem_with_kmem. apply ld32_ext. intros o Ho.
        apply (Hargs b s); [by left|]. unfold arg_next. lia.
      * intros [|i] c t Hi; cbn [lookup list_lookup] in Hi.
        -- injection Hi as <- <-. rewrite Z.add_0_r.
           apply (arg_stored_frame m2 m' argv (length l)); try done. lia.
        -- replace (j + Z.of_nat (S i)) with (j + 1 + Z.of_nat i) by lia. by apply (Hst' i c t).
      * intros x Hx Hr. rewrite Hf', Hf2; [done|done|lia|by apply Hb2|lia].
      * intros x t Hx. by apply Hh', Hh2.
Qed.

End inject.

Section final.
Context `{KAllocator} (process task chunk dir : Z) (ts : list Z).

Lemma inject_arguments_spec k root l n : let m := kmem k in
  process_ok m process task chunk dir ts -> spare process m (S (length l)) -> room m (S (length l)) ->
  l <> [] -> Z.of_nat (length l) < 1024 -> (length l < n)%nat ->
  arg_chain m root l -> args_beyond m process dir l ->
  exists m' argv, process_inject_arguments n process root k = Ret 0 (with_kmem m' k) /\
    process_ok m' process task chunk dir ts /\
    ld32 m' (process + proc_argc) = Z.of_nat (length l) /\ ld32 m' (process + proc_argv) = argv /\
    holds m' process argv 4096 /\
    (forall i b s, l !! i = Some (b, s) -> arg_stored m' process argv (Z.of_nat i) s) /\
    (forall a, beyond m process dir a -> rd m' a = rd m a).
Proof.
  intros m Hok Hsp Hr Hne Hlen Hn Hl Hby. set (c := Z.of_nat (length l)).
  assert (Hc : 0 < c) by (destruct l; [done|unfold c; cbn; lia]).
  destruct (spare_index process m (length l) Hsp) as (i & Hi & Ei & E0).
  assert (Eb : blocks_for (4 * c) = 1) by (apply one_block; lia).
  destruct (process_malloc_spec process task chunk dir ts k (4 * c) (S (length l)) i Hok)
    as (argv & m1 & E & Hok1 & Hr1 & Ha); [lia|done|lia|done|lia|].
  fold m in Ha. pose proof (as_pos _ _ _ _ _ _ _ Ha) as Hp.
  assert (Es : span (4 * c) = 4096) by (unfold span; by rewrite Eb).
  assert (Hij : injecting process task chunk dir ts m1 argv (length l)).
  { split; [done| | |].
    - exists i, (4 * c). split; [done|]. split; [apply (as_entry _ _ _ _ _ _ _ Ha)|]. by split; [lia|].
    - by apply (spare_allocated process dir m m1 (length l) i argv (4 * c)).
    - rewrite Eb in Hr1. by replace (length l) with (S (length l) - Z.to_nat 1)%nat by lia. }
  assert (Hf1 : forall x, beyond m process dir x -> rd m1 x = rd m x)
    by (intros x; by apply (beyond_allocated process dir m m1 i argv (4 * c))).
  assert (Hfr : forall x, beyond m process dir x -> x < argv \/ argv + 4096 <= x).
  { intros x Hx. rewrite <- Es. apply (beyond_fresh process dir m m1 i argv (4 * c) x Ha), Hx. }
  assert (Hb1 : forall x, beyond m process dir x -> beyond m1 process dir x).
  { intros x. apply (beyond_mono process task chunk dir ts); try done.
    intros q t Hq. apply (as_live _ _ _ _ _ _ _ Ha). by left. }
  destruct (inject_loop_spec process task chunk dir ts argv l n (with_kmem m1 k) root 0 Hij)
    as (m2 & E2 & Hok2 & Hst2 & Hf2 & Hh2); [| | |lia|lia|done|].
  { apply (arg_chain_frame m); [|done]. intros b s x Hin Hx. by apply Hf1, (Hby b s). }
  { intros b s x Hin Hx. by apply Hb1, (Hby b s). }
  { intros b s x Hin Hx. by apply Hfr, (Hby b s). }
  rewrite kmem_with_kmem in Hf2, Hh2.
  set (m3 := st32 (st32 m2 (process + proc_argc) c) (process + proc_argv) argv).
  assert (Hf3 : forall a, a < process + proc_argc \/ process + proc_argc + 8 <= a -> rd m3 a = rd m2 a).
  { intros a Hx. unfold m3, proc_argv, proc_argc in *. rewrite !rd_st32_ne by lia. done. }
  destruct (object_write process task chunk dir ts m2 m3 Hok2) as (Hok3 & Hal3 & _).
  { intros a Hx. apply Hf3. unfold proc_argc, proc_filetype, process_span in *. lia. }
  assert (Hob : forall a, a < process \/ process + process_span <= a -> rd m3 a = rd m2 a)
    by (intros a Hx; apply Hf3; unfold process_span, proc_argc in *; lia).
  assert (Hh1 : holds m1 process argv 4096)
    by (apply (holds_allocated process dir m m1 i argv (4 * c) Hi E0 Ha); right; by rewrite Es).
  exists m3, argv. split; [|split; [done|split; [|split; [|split; [|split]]]]].
  - unfold process_inject_arguments. rewrite (bind_Ret _ _ _ c k).
    2:{ unfold process_count_commnad_arguments. unfold gets at 1, bind. fold m.
        by rewrite (count_arguments_spec m l root n 0). }
    rewrite (proj2 (Z.eqb_neq c 0)), u32_id by lia.
    rewrite (bind_Ret _ _ _ argv (with_kmem m1 k)) by done. rewrite (proj2 (Z.eqb_neq argv 0)) by lia.
    by rewrite (bind_Ret _ _ _ 0 (with_kmem m2 k)) by done.
  - unfold m3, proc_argc, proc_argv. rewrite ld32_st32_ne, ld32_st32_eq, u32_id by lia. done.
  - unfold m3. rewrite ld32_st32_eq. destruct (as_page _ _ _ _ _ _ _ Ha). by apply u32_id.
  - apply (holds_ext process m2); [done|]. by apply Hh2.
  - intros x b s Hx. pose proof (Hst2 x b s Hx) as (Hq & Hap & Hcs & Hs). rewrite Z.add_0_l in *.
    assert (Eq : ld32 m3 (argv + 4 * Z.of_nat x) = ld32 m2 (argv + 4 * Z.of_nat x)).
    { apply ld32_ext. intros o Ho. apply Hob. apply lookup_lt_Some in Hx.
      apply (holds_beyond process task chunk dir ts m1 argv 4096 _ Hok1 Hh1). lia. }
    unfold arg_stored. rewrite Eq. split; [by apply (holds_ext process m2)|]. split; [done|]. split; [|done].
    apply (cstr_ext (at_mem m2 (ld32 m2 (argv + 4 * Z.of_nat x)))); [|done]. intros o Ho. unfold at_mem.
    unfold sizeof_argument in Hs. apply Hob.
    apply (holds_beyond process task chunk dir ts m2 _ 4096 _ Hok2 Hq). lia.
  - intros a Hx. rewrite Hob by apply Hx. rewrite Hf2, Hf1; [done|done|by apply Hb1|].
    destruct (Hfr a Hx); lia.
Qed.
End final.

(** ** Properties *)

(** C31. [process_inject_arguments] gives a process its own copy of the
    arguments: for a non-empty list of C strings (each in its 512-byte field)
    that the process's own calls do not touch, with enough free entries and
    memory, it returns 0 and leaves [argc] equal to the length, [argv] a block
    of the process whose words point, in order, at blocks of the process that
    hold the strings; the process stays well formed and the list is unchanged. *)
Theorem process_inject_arguments_copies `{KAllocator} k process task chunk dir ts root l n :
  process_ok (kmem k) process task chunk dir ts -> spare process (kmem k) (S (length l)) ->
  room (kmem k) (S (length l)) -> l <> [] -> Z.of_nat (length l) < 1024 -> (length l < n)%nat ->
  arg_chain (kmem k) root l -> args_beyond (kmem k) process dir l ->
  exists m' argv, process_inject_arguments n process root k = Ret 0 (with_kmem m' k) /\
    process_ok m' process task chunk dir ts /\
    ld32 m' (process + proc_argc) = Z.of_nat (length l) /\ ld32 m' (process + proc_argv) = argv /\
    holds m' process argv 4096 /\
    (forall i b s, l !! i = Some (b, s) -> arg_stored m' process argv (Z.of_nat i) s) /\
    arg_chain m' root l.
Proof.
  intros Hok Hsp Hr Hne Hlen Hn Hl Hby.
  destruct (inject_arguments_spec process task chunk dir ts k root l n Hok Hsp Hr Hne Hlen Hn Hl Hby)
    as (m' & argv & E & Hok' & Hc & Hv & Hh & Hs & Hf).
  exists m', argv. repeat (split; [done|]). apply (arg_chain_frame (kmem k)); [|done].
  intros b s x Hin Hx. by apply Hf, (Hby b s).
Qed.

(** ** Witnesses *)

(** Two arguments, [ls] at 0x300000 and [x] at 0x301000. *)
Definition two_arguments : mem :=
  st32 (store_bytes (store_bytes ∅ 0x300000 [108; 115; 0]) 0x301000 [120; 0]) (0x300000 + 512) 0x301000.

Lemma process_inject_arguments_copies_witness : exists k process m' argv,
  process_inject_arguments 3 process 0x300000 k = Ret 0 (with_kmem m' k) /\
  ld32 m' (process + proc_argc) = 2 /\
  cstr (at_mem m' (ld32 m' argv)) [108; 115] /\ cstr (at_mem m' (ld32 m' (argv + 4))) [120].
Proof.
  set (l := [(0x300000, [108; 115]); (0x301000, [120])]).
  assert (Hm0 : forall a, a < 0x300000 \/ 0x304000 <= a -> rd two_arguments a = rd ∅ a).
  { intros a Ha. unfold two_arguments. rewrite rd_st32_ne, !rd_store_bytes_out by (cbn; lia). done. }
  destruct (process_kernel two_arguments Hm0) as (k & process & task & chunk & dir & ts & Hok & Hr & Hal & _ & Hhi & _ & _ & _ & Hst).
  assert (Hb : args_beyond (kmem k) process dir l).
  { intros b s a Hin Ha. split; [apply Hst|left]; apply list_elem_of_In in Hin;
      repeat destruct Hin as [Hin|Hin]; try injection Hin as <- <-; try done; lia. }
  destruct (process_inject_arguments_copies k process task chunk dir ts 0x300000 l 3 Hok)
    as (m' & argv & E & _ & Hc & _ & _ & Hs & _); [| |done|cbn; lia|cbn; lia| |exact Hb|].
  - exists (list_to_set (seqZ 0 1024)). split.
    + rewrite size_list_to_set by apply NoDup_seqZ. rewrite length_seqZ. cbn. lia.
    + intros i Hi. apply elem_of_list_to_set, elem_of_seqZ in Hi. split; [lia|]. by rewrite Hal by lia.
  - apply (kheap_room_weaken _ _ _ Hr). cbn. lia.
  - apply (arg_chain_frame two_arguments).
    + intros b s x Hin Hx. apply Hst. apply list_elem_of_In in Hin.
      repeat destruct Hin as [Hin|Hin]; try injection Hin as <- <-; try done; lia.
    + cbn [arg_chain l]. repeat split; try done; try (repeat constructor; unfold char_ok; lia);
        intros i x Hi; repeat (destruct i as [|i]; [injection Hi as <-; by vm_compute|]); done.
  - exists k, process, m', argv. split; [exact E|]. split; [exact Hc|]. split.
    + destruct (Hs 0%nat _ _ eq_refl) as (_ & _ & H0 & _). by rewrite Z.add_0_r in H0.
    + destruct (Hs 1%nat _ _ eq_refl) as (_ & _ & H1 & _). exact H1.
Defined.
