(* ===== verification/ProcessLoad.v ===== *)
(** * Mapping a program: [process_map_elf], [process_map_binary], [process_map_memory]

    What a process sees at its virtual addresses once it is loaded: the bytes
    of its image where the program headers (or the fixed load address of a
    flat binary) put them, and its stack. *)
From S2P Require Import Prelude Config Memory CString Heap KHeap Paging Terminal PathParser Disk Fat16 File Elf Kernel Task Process ProcessMem.

(** ** The abstract view *)

(** Where segment [s] of the image at [h] lies in memory. *)
Definition seg_phys (h : Z) (s : segment) : Z := h + seg_offset s.
Definition page_of (a : Z) : Z := a - a mod 4096.
(** The end of the last page that holds a byte below [a]. *)
Definition page_end (a : Z) : Z := (a + 4095) / 4096 * 4096.
Definition seg_covers (s : segment) (w : Z) : bool :=
  (page_of (seg_vaddr s) <=? w) && (w <? page_end (seg_vaddr s + seg_memsz s)).
Definition seg_bits (s : segment) : Z :=
  if Z.land (seg_flags s) PF_W =? 0 then 5 else 7.
(** The entry of page [w] after the segment is mapped over an entry [e]. *)
Definition seg_entry (h : Z) (s : segment) (w e : Z) : Z :=
  if seg_covers s w
  then Z.lor (page_of (seg_phys h s) + (w - page_of (seg_vaddr s))) (seg_bits s) else e.

(** The image offset and the address agree within a page, and neither range
    comes near the end of the address space. *)
Record seg_ok (h : Z) (s : segment) : Prop := {
  so_phys : 0 <= seg_phys h s /\ seg_phys h s + seg_memsz s <= 4294963200;
  so_virt : 0 <= seg_vaddr s /\ seg_vaddr s + seg_memsz s <= 4294963200;
  so_memsz : 0 <= seg_memsz s;
  so_congruent : seg_vaddr s mod 4096 = seg_phys h s mod 4096 }.

(** The object [f] points to the image at [h], whose header and program
    headers are bytes the page tables do not share. *)
Record image_at `{KAllocator} (m : mem) (dir f h : Z) : Prop := {
  ia_file : elf_header f m = h;
  ia_table : 0 <= elf_pheader h m /\
    elf_pheader h m + ld16 m (h + e_phnum) * sizeof_phdr <= 4294967296;
  ia_stable : forall a, f + ef_elf_memory <= a < f + ef_elf_memory + 4 \/ h <= a < h + 52 \/
      elf_pheader h m <= a < elf_pheader h m + ld16 m (h + e_phnum) * sizeof_phdr -> stable m dir a;
  ia_segments : forall i, 0 <= i < ld16 m (h + e_phnum) -> seg_ok h (seg m h i) }.

(** ** Lemmas *)

Lemma page_of_page a : 0 <= a < 4294967296 -> page (page_of a).
Proof. intros Ha. unfold page, page_of. split; dlia. Qed.

Lemma page_end_page a : 0 <= a <= 4294963200 -> page (page_end a) /\ a <= page_end a < a + 4096.
Proof. intros Ha. unfold page, page_end. repeat split; dlia. Qed.

Lemma align_page_end a : 0 <= a <= 4294963200 -> paging_align_address a = page_end a.
Proof.
  intros Ha. unfold paging_align_address, page_end, PAGE_SIZE, u32. zcases; dlia.
Qed.

(** The entries stay as the last segment that covers the page left them. *)
Lemma fold_entries m h w : forall l e,
  (forall j, j ∈ l -> seg_covers (seg m h j) w = false) ->
  fold_left (fun e j => seg_entry h (seg m h j) w e) l e = e.
Proof.
  induction l as [|j l IH]; intros e Hl; cbn [fold_left]; [done|].
  rewrite IH by (intros i Hi; apply Hl; by right).
  unfold seg_entry. by rewrite (Hl j) by (by left).
Qed.

Lemma fold_entries_last m h w i n e :
  0 <= i < n -> seg_covers (seg m h i) w = true ->
  (forall j, i < j < n -> seg_covers (seg m h j) w = false) ->
  fold_left (fun e j => seg_entry h (seg m h j) w e) (seqZ 0 n) e =
    Z.lor (page_of (seg_phys h (seg m h i)) + (w - page_of (seg_vaddr (seg m h i)))) (seg_bits (seg m h i)).
Proof.
  intros Hi Hc Hlater. replace n with (i + (n - i)) by lia. rewrite seqZ_app, fold_left_app by lia.
  rewrite Z.add_0_l, seqZ_cons by lia. cbn [fold_left].
  rewrite fold_entries; [unfold seg_entry at 1; by rewrite Hc|].
  intros j Hj. apply elem_of_seqZ in Hj. apply Hlater. lia.
Qed.

Section loading.
Context `{KAllocator} (m0 : mem) (process task chunk dir : Z) (ts : list Z)
  (Hps : process_space m0 process task chunk dir ts).

(** What the page-table work keeps. *)
Record kept (m : mem) : Prop := {
  kp_heap : heap_ok m;
  kp_space : task_space m task chunk dir ts;
  kp_live : forall q t, live m q t <-> live m0 q t;
  kp_stable : forall a, stable m0 dir a -> rd m a = rd m0 a }.

Lemma kept_refl : heap_ok m0 -> kept m0.
Proof. intros Hok. split; try done. apply (pr_space _ _ _ _ _ _ Hps). Qed.

Lemma kept_load m a : kept m -> (forall i, 0 <= i < 4 -> stable m0 dir (a + i)) -> ld32 m a = ld32 m0 a.
Proof. intros Hk Ha. apply ld32_ext. intros i Hi. apply (kp_stable _ Hk). by apply Ha. Qed.

Lemma kept_process m o : kept m -> 0 <= o -> o + 4 <= process_span ->
  ld32 m (process + o) = ld32 m0 (process + o).
Proof.
  intros Hk Ho Hs. apply kept_load; [done|]. intros i Hi.
  apply (process_stable _ _ _ _ _ _ Hps). lia.
Qed.

Lemma kept_directory m k : kept m -> kmem k = m -> process_directory process k = Ret dir k.
Proof.
  intros Hk E. apply (process_directory_eq m0 process task chunk dir ts Hps m); [done|].
  apply (kp_stable _ Hk).
Qed.

(** One range of pages. *)
Lemma kept_map m virt phys phys_end flags :
  kept m -> page virt -> page phys -> page phys_end -> phys <= phys_end ->
  virt + (phys_end - phys) <= 4294967296 ->
  exists m', paging_map_to dir virt phys phys_end flags m = (0, m') /\ kept m' /\
    (forall w, page w -> pte m' dir w = mapped m dir virt phys ((phys_end - phys) / 4096) flags w).
Proof.
  intros Hk Hv Hp Hpe Hle Hend.
  destruct (map_in_space m task chunk dir ts virt phys phys_end flags (kp_heap _ Hk) (kp_space _ Hk)
    Hv Hp Hpe Hle Hend) as (m' & E & Hok' & Hts' & Hlv & _ & Hpt & Hns).
  exists m'. split; [done|]. split; [|done]. split; try done.
  - intros q t. rewrite Hlv. apply (kp_live _ Hk).
  - intros a Ha. rewrite Hns; [by apply (kp_stable _ Hk)|].
    rewrite (space_tables chunk dir ts m a (sp_owned _ _ _ _ _ (kp_space _ Hk))).
    rewrite <- (space_tables chunk dir ts m0 a (sp_owned _ _ _ _ _ (pr_space _ _ _ _ _ _ Hps))). apply Ha.
Qed.

End loading.

(** ** Lemmas: the segments of an ELF image *)

Lemma seg_range h s : seg_ok h s ->
  page (page_of (seg_vaddr s)) /\ page (page_of (seg_phys h s)) /\ page (page_end (seg_phys h s + seg_memsz s)) /\
  page_of (seg_phys h s) <= page_end (seg_phys h s + seg_memsz s) /\
  page_end (seg_phys h s + seg_memsz s) - page_of (seg_phys h s) =
    page_end (seg_vaddr s + seg_memsz s) - page_of (seg_vaddr s) /\
  page_end (seg_vaddr s + seg_memsz s) <= 4294967296.
Proof.
  intros [Hp Hv Hm Hc].
  destruct (page_end_page (seg_phys h s + seg_memsz s) ltac:(lia)) as [Hpe He].
  destruct (page_end_page (seg_vaddr s + seg_memsz s) ltac:(lia)) as [Hve Hv'].
  split; [apply page_of_page; lia|]. split; [apply page_of_page; lia|]. split; [done|].
  unfold page_of, page_end in *. repeat split; dlia.
Qed.

(** The loop's arguments, in terms of the segment. *)
Lemma seg_mapped m dir h s w : seg_ok h s -> page w ->
  mapped m dir (page_of (seg_vaddr s)) (page_of (seg_phys h s))
    ((page_end (seg_phys h s + seg_memsz s) - page_of (seg_phys h s)) / 4096) (seg_bits s) w =
  seg_entry h s w (pte m dir w).
Proof.
  intros Hs Hw. destruct (seg_range h s Hs) as (Hv & Hp & Hpe & Hle & Hd & Hmax).
  unfold mapped, seg_entry, seg_covers.
  replace (page_of (seg_vaddr s) + _) with (page_end (seg_vaddr s + seg_memsz s))
    by (destruct Hv, Hp, Hpe; dlia).
  destruct (Z.leb_spec (page_of (seg_vaddr s)) w), (Z.ltb_spec w (page_end (seg_vaddr s + seg_memsz s)));
    cbn [andb]; try done.
  apply u32_id, page_bits; [|unfold seg_bits; case_match; lia].
  destruct Hv, Hp, Hpe, Hw. split; dlia.
Qed.

Lemma phdr_flags_bits m p : phdr_flags m p = seg_bits (segment_at m p).
Proof.
  unfold phdr_flags, seg_bits. cbn [seg_flags segment_at].
  destruct (Z.land (ld32 m (p + p_flags)) PF_W =? 0); reflexivity.
Qed.

Section elf.
Context `{KAllocator} (m0 : mem) (process task chunk dir : Z) (ts : list Z)
  (Hps : process_space m0 process task chunk dir ts) (f h : Z) (Him : image_at m0 dir f h).

#[local] Abbreviation kept := (kept m0 task chunk dir ts).

(** The header fields, in every memory the loop goes through. *)
Lemma kept_header m i : kept m -> 0 <= i < ld16 m0 (h + e_phnum) ->
  segment_at m (phdr_addr m0 h i) = seg m0 h i /\ elf_phdr_phys_address f (phdr_addr m0 h i) m = u32 (seg_phys h (seg m0 h i)).
Proof.
  intros Hk Hi. destruct Him as [Hf Ht Hst _].
  assert (E : forall o, 0 <= o <= 28 -> ld32 m (phdr_addr m0 h i + o) = ld32 m0 (phdr_addr m0 h i + o)).
  { intros o Ho. apply (kept_load m0 task chunk dir ts); [done|]. intros j Hj. apply Hst.
    right; right. unfold phdr_addr, sizeof_phdr in *. lia. }
  split.
  - unfold seg, segment_at. rewrite !E; [done|..];
      unfold p_flags, p_memsz, p_filesz, p_vaddr, p_offset, p_type; lia.
  - unfold elf_phdr_phys_address, elf_memory, seg_phys, seg, segment_at. cbn [seg_offset].
    rewrite E by (unfold p_offset; lia). f_equal. f_equal. rewrite <- Hf. unfold elf_header.
    apply (kept_load m0 task chunk dir ts); [done|]. intros j Hj. apply Hst. left. lia.
Qed.

Lemma map_elf_loop_spec : forall n k i, kept (kmem k) ->
  0 <= i -> ld16 m0 (h + e_phnum) <= i + Z.of_nat n ->
  exists m', map_elf_loop n process f h (elf_pheader h m0) i 0 k = Ret 0 (with_kmem m' k) /\ kept m' /\
    forall w, page w -> pte m' dir w =
      fold_left (fun e j => seg_entry h (seg m0 h j) w e)
        (seqZ i (ld16 m0 (h + e_phnum) - i)) (pte (kmem k) dir w).
Proof.
  induction n as [|n IH]; intros k i Hk Hi Hn; cbn [map_elf_loop].
  - exists (kmem k). rewrite with_kmem_id. split; [done|]. split; [done|]. intros w Hw.
    by rewrite seqZ_nil by lia.
  - destruct Him as [Hf Ht Hst Hseg].
    assert (Enum : ld16 (kmem k) (h + e_phnum) = ld16 m0 (h + e_phnum)).
    { unfold ld16. rewrite !(kp_stable _ _ _ _ _ _ Hk); [done|..]; apply Hst; right; left; unfold e_phnum; lia. }
    rewrite (bind_Ret _ _ _ (kmem k) k) by done. rewrite Enum.
    destruct (Z.ltb_spec i (ld16 m0 (h + e_phnum))) as [Hlt|Hge].
    2:{ exists (kmem k). rewrite with_kmem_id. split; [done|]. split; [done|]. intros w Hw. by rewrite seqZ_nil by lia. }
    assert (Ep : u32 (elf_pheader h m0 + i * sizeof_phdr) = phdr_addr m0 h i)
      by (apply u32_id; unfold phdr_addr, sizeof_phdr in *; lia).
    destruct (kept_header (kmem k) i Hk ltac:(lia)) as [Es Ea]. rewrite Ep, Ea.
    set (s := seg m0 h i) in *. pose proof (Hseg i ltac:(lia)) as Hs. fold s in Hs.
    destruct (seg_range h s Hs) as (Hv & Hp & Hpe & Hle & Hd & Hmax). pose proof Hs as [Hps1 Hvs Hms _].
    rewrite (bind_Ret _ _ _ dir k) by (by apply (kept_directory m0 process task chunk dir ts Hps (kmem k))).
    rewrite phdr_flags_bits, Es.
    replace (ld32 (kmem k) (phdr_addr m0 h i + p_vaddr)) with (seg_vaddr s) by (by rewrite <- Es).
    replace (ld32 (kmem k) (phdr_addr m0 h i + p_memsz)) with (seg_memsz s) by (by rewrite <- Es).
    rewrite (u32_id (seg_phys h s)), (u32_id (seg_phys h s + seg_memsz s)) by lia.
    rewrite align_page_end by lia.
    rewrite (proj1 (lower_page (seg_vaddr s) ltac:(lia))), (proj1 (lower_page (seg_phys h s) ltac:(lia))).
    fold (page_of (seg_vaddr s)) (page_of (seg_phys h s)).
    destruct (kept_map m0 process task chunk dir ts Hps (kmem k) _ _ _ (seg_bits s) Hk Hv Hp Hpe Hle ltac:(lia)) as (m1 & E1 & Hk1 & Hpt1).
    rewrite (bind_Ret _ _ _ 0 (with_kmem m1 k)) by (unfold on_kmem; by rewrite E1).
    change (ISERR 0) with false. cbv iota.
    destruct (IH (with_kmem m1 k) (i + 1) Hk1) as (m' & E' & Hk' & Hpt'); [lia|lia|].
    exists m'. split; [done|]. split; [done|]. intros w Hw. rewrite Hpt', kmem_with_kmem, Hpt1, seg_mapped by done.
    rewrite (seqZ_cons i) by lia. cbn [fold_left]. f_equal. f_equal; lia.
Qed.

Lemma process_map_elf_spec k : kmem k = m0 -> heap_ok m0 -> ld32 m0 (process + proc_elf_file) = f ->
  exists m', process_map_elf process k = Ret 0 (with_kmem m' k) /\ kept m' /\
    forall w, page w -> pte m' dir w =
      fold_left (fun e j => seg_entry h (seg m0 h j) w e) (seqZ 0 (ld16 m0 (h + e_phnum))) (pte m0 dir w).
Proof.
  intros Ek Hok Ef. pose proof (ld16_range m0 (h + e_phnum)).
  assert (Hk : kept (kmem k)) by (rewrite Ek; by apply (kept_refl m0 process)).
  destruct (map_elf_loop_spec (Z.to_nat 65536) k 0 Hk) as (m' & E & Hk' & Hpt); [lia|lia|].
  exists m'. split; [|split; [done|by rewrite Z.sub_0_r, Ek in Hpt]].
  unfold process_map_elf. rewrite (bind_Ret _ _ _ f k) by (unfold kload32, gets; by rewrite Ek, Ef).
  rewrite (bind_Ret _ _ _ h k) by (unfold gets; f_equal; rewrite Ek; apply (ia_file _ _ _ _ Him)).
  rewrite (bind_Ret _ _ _ (elf_pheader h m0) k) by (unfold gets; by rewrite Ek). done.
Qed.
End elf.

(** ** Lemmas: the flat image, the stack, and both together *)

(** [v] leads to [p], with the flags [bits]. *)
Definition user_maps (m : mem) (dir v p bits : Z) : Prop :=
  maps m dir v p /\ Z.land (paging_get dir (page_of v) m) 4095 = bits.

(** The page range of the stack. *)
Definition in_stack (w : Z) : bool :=
  (LIEBE_OS_PROGRAM_VIRTUAL_STACK_ADDRESS_END <=? w) &&
  (w <? LIEBE_OS_PROGRAM_VIRTUAL_STACK_ADDRESS_START).

Section memory.
Context `{KAllocator} (m0 : mem) (process task chunk dir : Z) (ts : list Z)
  (Hps : process_space m0 process task chunk dir ts).

#[local] Abbreviation kept := (kept m0 task chunk dir ts).

Lemma kept_user_maps m v p bits : kept m -> 0 <= v < 4294967296 -> 0 <= p < 4294967296 ->
  v mod 4096 = p mod 4096 -> bits = 5 \/ bits = 7 ->
  pte m dir (page_of v) = Z.lor (page_of p) bits -> user_maps m dir v p bits.
Proof.
  intros Hk Hv Hp Hc Hb E. pose proof (kp_space _ _ _ _ _ _ Hk) as Hts.
  pose proof (dir_owned_wf _ _ _ _ (sp_owned _ _ _ _ _ Hts)) as Hw.
  pose proof (page_of_page v Hv) as Hpv. pose proof (page_of_page p Hp) as Hpp.
  assert (Hb' : 0 <= bits < 256) by lia. unfold user_maps, page_of in *. split; [split; [|split]|].
  - apply (sp_present _ _ _ _ _ Hts). dlia.
  - rewrite E, Z.lor_spec. destruct Hb as [-> | ->]; apply orb_true_r.
  - rewrite translate_pte, E, land_page_lor by (done || lia).
    replace (p - p mod 4096 + v mod 4096) with p by lia. by apply u32_id.
  - rewrite paging_get_pte, E, lor_page by (done || lia || apply Hpp).
    change 4095 with (Z.ones 12). rewrite Z.land_ones by lia. change (2 ^ 12) with 4096. dlia.
Qed.

(** A flat binary at 0x400000. *)
Lemma process_map_binary_spec k ptr size : kmem k = m0 -> heap_ok m0 ->
  ld32 m0 (process + proc_ptr) = ptr -> ld32 m0 (process + proc_size) = size ->
  page ptr -> ptr + size <= 4290768896 ->
  exists m', process_map_binary process k = Ret 0 (with_kmem m' k) /\ kept m' /\
    forall w, page w -> pte m' dir w =
      if (LIEBE_OS_PROGRAM_VIRTUAL_ADDRESS <=? w) &&
         (w <? LIEBE_OS_PROGRAM_VIRTUAL_ADDRESS + (page_end (ptr + size) - ptr))
      then Z.lor (ptr + (w - LIEBE_OS_PROGRAM_VIRTUAL_ADDRESS)) 7 else pte m0 dir w.
Proof.
  intros Ek Hok Ep Es Hp Hend. pose proof (ld32_range m0 (process + proc_size)) as Hsz. rewrite Es in Hsz.
  assert (Hk : kept (kmem k)) by (rewrite Ek; by apply (kept_refl m0 process)).
  destruct (page_end_page (ptr + size)) as [Hpe He]; [destruct Hp; lia|].
  assert (Hv : page LIEBE_OS_PROGRAM_VIRTUAL_ADDRESS) by (split; [unfold LIEBE_OS_PROGRAM_VIRTUAL_ADDRESS; lia|done]).
  destruct (kept_map m0 process task chunk dir ts Hps (kmem k) _ _ _ TASK_PAGE_FLAGS Hk Hv Hp Hpe)
    as (m1 & E1 & Hk1 & Hpt1); [lia|unfold LIEBE_OS_PROGRAM_VIRTUAL_ADDRESS; destruct Hp; lia|].
  exists m1. split; [|split; [done|]].
  - unfold process_map_binary.
    rewrite (bind_Ret _ _ _ dir k) by (by apply (kept_directory m0 process task chunk dir ts Hps (kmem k))).
    rewrite (bind_Ret _ _ _ ptr k) by (unfold kload32, gets; by rewrite Ek, Ep).
    rewrite (bind_Ret _ _ _ size k) by (unfold kload32, gets; by rewrite Ek, Es).
    rewrite u32_id, align_page_end by (destruct Hp; lia). unfold on_kmem. by rewrite E1.
  - intros w Hw. rewrite Hpt1, Ek by done. unfold mapped.
    replace ((page_end (ptr + size) - ptr) / 4096 * 4096) with (page_end (ptr + size) - ptr)
      by (destruct Hp, Hpe; dlia).
    destruct (Z.leb_spec LIEBE_OS_PROGRAM_VIRTUAL_ADDRESS w),
      (Z.ltb_spec w (LIEBE_OS_PROGRAM_VIRTUAL_ADDRESS + (page_end (ptr + size) - ptr))); cbn [andb]; try done.
    apply u32_id, page_bits; [|by vm_compute].
    unfold LIEBE_OS_PROGRAM_VIRTUAL_ADDRESS in *. destruct Hp, Hpe, Hw. split; dlia.
Qed.

(** The image, by either routine, then the stack. *)
Lemma process_map_memory_spec k m1 stack : kmem k = m0 -> kept m1 ->
  (rd m0 (process + proc_filetype) = PROCESS_FILETYPE_ELF /\ process_map_elf process k = Ret 0 (with_kmem m1 k) \/
   rd m0 (process + proc_filetype) = PROCESS_FILETYPE_BINARY /\ process_map_binary process k = Ret 0 (with_kmem m1 k)) ->
  ld32 m0 (process + proc_stack) = stack -> page stack -> stack + 16384 < 4294967296 ->
  exists m2, process_map_memory process k = Ret 0 (with_kmem m2 k) /\ kept m2 /\
    forall w, page w -> pte m2 dir w =
      if in_stack w then Z.lor (stack + (w - LIEBE_OS_PROGRAM_VIRTUAL_STACK_ADDRESS_END)) 7 else pte m1 dir w.
Proof.
  intros Ek Hk1 Hft Es Hs Hend.
  assert (Hpe : page (stack + 16384)) by (destruct Hs; split; dlia).
  assert (Hv : page LIEBE_OS_PROGRAM_VIRTUAL_STACK_ADDRESS_END) by (split; [by vm_compute|done]).
  destruct (kept_map m0 process task chunk dir ts Hps m1 _ _ _ TASK_PAGE_FLAGS Hk1 Hv Hs Hpe)
    as (m2 & E2 & Hk2 & Hpt2); [lia|change LIEBE_OS_PROGRAM_VIRTUAL_STACK_ADDRESS_END with 4173824; lia|].
  exists m2. split; [|split; [done|]].
  - unfold process_map_memory.
    rewrite (bind_Ret _ _ _ (rd m0 (process + proc_filetype)) k) by (unfold kload8, gets; by rewrite Ek).
    rewrite (bind_Ret _ _ _ 0 (with_kmem m1 k)) by (by destruct Hft as [[-> E]|[-> E]]).
    change (0 <? 0) with false. cbv iota.
    rewrite (bind_Ret _ _ _ dir (with_kmem m1 k)) by (by apply (kept_directory m0 process task chunk dir ts Hps m1)).
    rewrite (bind_Ret _ _ _ stack (with_kmem m1 k)).
    2:{ unfold kload32, gets. f_equal. rewrite kmem_with_kmem, <- Es.
        apply (kept_process m0 process task chunk dir ts Hps); [done| |]; unfold proc_stack, process_span; lia. }
    rewrite (u32_id (stack + LIEBE_OS_USER_PROGRAM_STACK_SIZE)) by (unfold LIEBE_OS_USER_PROGRAM_STACK_SIZE; destruct Hs; lia).
    change (stack + LIEBE_OS_USER_PROGRAM_STACK_SIZE) with (stack + 16384).
    rewrite (bind_Ret _ _ _ 0 (with_kmem m2 k)); [done|]. unfold on_kmem. rewrite kmem_with_kmem.
    replace (paging_align_address (stack + 16384)) with (stack + 16384); [by rewrite E2|].
    unfold paging_align_address. by rewrite (page_mod _ Hpe).
  - intros w Hw. rewrite Hpt2 by done. unfold mapped, in_stack.
    replace ((stack + 16384 - stack) / 4096 * 4096) with 16384 by dlia.
    change (LIEBE_OS_PROGRAM_VIRTUAL_STACK_ADDRESS_END + 16384) with LIEBE_OS_PROGRAM_VIRTUAL_STACK_ADDRESS_START.
    destruct (Z.leb_spec LIEBE_OS_PROGRAM_VIRTUAL_STACK_ADDRESS_END w),
      (Z.ltb_spec w LIEBE_OS_PROGRAM_VIRTUAL_STACK_ADDRESS_START); cbn [andb]; try done.
    apply u32_id, page_bits; [|by vm_compute].
    change LIEBE_OS_PROGRAM_VIRTUAL_STACK_ADDRESS_END with 4173824 in *.
    change LIEBE_OS_PROGRAM_VIRTUAL_STACK_ADDRESS_START with 4190208 in *.
    destruct Hs, Hw. split; dlia.
Qed.

Lemma kept_process_space m : kept m -> process_space m process task chunk dir ts.
Proof.
  intros Hk. split; [apply (kp_live _ _ _ _ _ _ Hk), (pr_live _ _ _ _ _ _ Hps)| |apply (kp_space _ _ _ _ _ _ Hk)].
  rewrite <- (pr_task _ _ _ _ _ _ Hps).
  apply (kept_process m0 process task chunk dir ts Hps); [done| |]; unfold proc_task, process_span; lia.
Qed.

(** The stack's translation. *)
Lemma stack_maps m2 stack d (e : Z -> Z) : kept m2 -> page stack -> stack + 16384 < 4294967296 ->
  (forall w, page w -> pte m2 dir w =
     if in_stack w then Z.lor (stack + (w - LIEBE_OS_PROGRAM_VIRTUAL_STACK_ADDRESS_END)) 7 else e w) ->
  0 <= d < LIEBE_OS_USER_PROGRAM_STACK_SIZE ->
  user_maps m2 dir (LIEBE_OS_PROGRAM_VIRTUAL_STACK_ADDRESS_END + d) (stack + d) 7.
Proof.
  intros Hk Hs Hend Hpt Hd. unfold LIEBE_OS_USER_PROGRAM_STACK_SIZE in Hd.
  change LIEBE_OS_PROGRAM_VIRTUAL_STACK_ADDRESS_END with 4173824 in *. destruct Hs as [Hs1 Hs2].
  apply kept_user_maps; [done|lia|lia|dlia|by right|].
  rewrite Hpt by (apply page_of_page; lia). unfold in_stack.
  change LIEBE_OS_PROGRAM_VIRTUAL_STACK_ADDRESS_END with 4173824.
  change LIEBE_OS_PROGRAM_VIRTUAL_STACK_ADDRESS_START with 4190208. unfold page_of.
  rewrite (proj2 (Z.leb_le _ _)), (proj2 (Z.ltb_lt _ _)) by dlia. cbn [andb]. f_equal. dlia.
Qed.
End memory.

(** *** The whole mapping *)

Lemma map_memory_elf_spec `{KAllocator} k process task chunk dir ts f h stack :
  let m := kmem k in
  heap_ok m -> process_space m process task chunk dir ts ->
  rd m (process + proc_filetype) = PROCESS_FILETYPE_ELF -> ld32 m (process + proc_elf_file) = f ->
  image_at m dir f h -> ld32 m (process + proc_stack) = stack -> page stack -> stack + 16384 < 4294967296 ->
  exists m', process_map_memory process k = Ret 0 (with_kmem m' k) /\
    kept m task chunk dir ts m' /\
    (forall i d, 0 <= i < ld16 m (h + e_phnum) -> 0 <= d < seg_memsz (seg m h i) ->
       let v := seg_vaddr (seg m h i) + d in in_stack v = false ->
       (forall j, i < j < ld16 m (h + e_phnum) -> seg_covers (seg m h j) (page_of v) = false) ->
       user_maps m' dir v (h + seg_offset (seg m h i) + d) (seg_bits (seg m h i))) /\
    (forall d, 0 <= d < LIEBE_OS_USER_PROGRAM_STACK_SIZE ->
       user_maps m' dir (LIEBE_OS_PROGRAM_VIRTUAL_STACK_ADDRESS_END + d) (stack + d) 7) /\
    (forall w, page w -> in_stack w = false ->
       (forall i, 0 <= i < ld16 m (h + e_phnum) -> seg_covers (seg m h i) w = false) -> pte m' dir w = pte m dir w).
Proof.
  intros m Hok Hps Hft Ef Him Es Hs Hend.
  destruct (process_map_elf_spec m process task chunk dir ts Hps f h Him k eq_refl Hok Ef) as (m1 & E1 & Hk1 & Hpt1).
  destruct (process_map_memory_spec m process task chunk dir ts Hps k m1 stack eq_refl Hk1) as (m2 & E2 & Hk2 & Hpt2);
    [by left|done|done|done|].
  exists m2. split; [done|]. split; [done|].
  split; [|split; [intros d; by apply (stack_maps m task chunk dir ts m2 stack d (pte m1 dir))|]].
  2:{ intros w Hw Hst Hcov. rewrite Hpt2, Hst, Hpt1 by done. apply fold_entries.
      intros i Hi. apply Hcov. apply elem_of_seqZ in Hi. lia. }
  intros i d Hi Hd v Hst Hlater. set (s := seg m h i) in *.
  pose proof (ia_segments _ _ _ _ Him i Hi) as Hso. fold s in Hso. pose proof Hso as [Hp1 Hv1 Hm1 Hc1].
  destruct (seg_range h s Hso) as (Hpv & Hpp & _ & _ & _ & _). fold (seg_phys h s).
  assert (Hv : 0 <= v < 4294967296) by (unfold v; lia).
  apply (kept_user_maps m task chunk dir ts); [done|done|lia|unfold v; dlia|unfold seg_bits; case_match; lia|].
  assert (Hns : in_stack (page_of v) = false).
  { unfold in_stack in *. change LIEBE_OS_PROGRAM_VIRTUAL_STACK_ADDRESS_END with 4173824 in *.
    change LIEBE_OS_PROGRAM_VIRTUAL_STACK_ADDRESS_START with 4190208 in *.
    apply andb_false_iff in Hst. apply andb_false_iff. rewrite Z.leb_gt, Z.ltb_ge in *. unfold page_of. dlia. }
  assert (Hcov : seg_covers (seg m h i) (page_of v) = true).
  { fold s. unfold seg_covers, page_of, page_end, v.
    rewrite (proj2 (Z.leb_le _ _)), (proj2 (Z.ltb_lt _ _)) by dlia. done. }
  pose proof (page_of_page v Hv) as Hpw.
  rewrite Hpt2, Hns, Hpt1, (fold_entries_last m h (page_of v) i) by done.
  fold s. f_equal. unfold page_of, v. dlia.
Qed.

Lemma map_memory_binary_spec `{KAllocator} k process task chunk dir ts ptr size stack :
  let m := kmem k in
  heap_ok m -> process_space m process task chunk dir ts ->
  rd m (process + proc_filetype) = PROCESS_FILETYPE_BINARY ->
  ld32 m (process + proc_ptr) = ptr -> ld32 m (process + proc_size) = size ->
  page ptr -> ptr + size <= 4290768896 ->
  ld32 m (process + proc_stack) = stack -> page stack -> stack + 16384 < 4294967296 ->
  exists m', process_map_memory process k = Ret 0 (with_kmem m' k) /\
    kept m task chunk dir ts m' /\
    (forall d, 0 <= d < size -> user_maps m' dir (LIEBE_OS_PROGRAM_VIRTUAL_ADDRESS + d) (ptr + d) 7) /\
    (forall d, 0 <= d < LIEBE_OS_USER_PROGRAM_STACK_SIZE ->
       user_maps m' dir (LIEBE_OS_PROGRAM_VIRTUAL_STACK_ADDRESS_END + d) (stack + d) 7) /\
    (forall w, page w -> in_stack w = false ->
       ~ LIEBE_OS_PROGRAM_VIRTUAL_ADDRESS <= w < LIEBE_OS_PROGRAM_VIRTUAL_ADDRESS + (page_end (ptr + size) - ptr) ->
       pte m' dir w = pte m dir w).
Proof.
  intros m Hok Hps Hft Ep Esz Hp Hpe Es Hs Hend.
  destruct (process_map_binary_spec m process task chunk dir ts Hps k ptr size eq_refl Hok Ep Esz Hp Hpe)
    as (m1 & E1 & Hk1 & Hpt1).
  destruct (process_map_memory_spec m process task chunk dir ts Hps k m1 stack eq_refl Hk1) as (m2 & E2 & Hk2 & Hpt2);
    [by right|done|done|done|].
  exists m2. split; [done|]. split; [done|].
  split; [|split; [intros d; by apply (stack_maps m task chunk dir ts m2 stack d (pte m1 dir))|]].
  2:{ intros w Hw Hst Hcov. rewrite Hpt2, Hst, Hpt1 by done.
      destruct (_ && _) eqn:Hin; [|done]. apply andb_prop in Hin as [?%Z.leb_le ?%Z.ltb_lt]. lia. }
  intros d Hd. unfold LIEBE_OS_PROGRAM_VIRTUAL_ADDRESS in *. destruct Hp as [Hp1 Hp2].
  destruct (page_end_page (ptr + size) ltac:(lia)) as [[_ Hpa] Hpb].
  apply (kept_user_maps m task chunk dir ts); [done|lia|lia|dlia|by right|].
  rewrite Hpt2, Hpt1 by (apply page_of_page; lia). unfold in_stack.
  change LIEBE_OS_PROGRAM_VIRTUAL_STACK_ADDRESS_START with 4190208.
  rewrite (proj2 (Z.ltb_ge _ _)), andb_false_r by (unfold page_of; dlia).
  unfold page_of. rewrite (proj2 (Z.leb_le _ _)), (proj2 (Z.ltb_lt _ _)) by dlia. cbn [andb]. f_equal. dlia.
Qed.

(** ** Properties *)

(** C16. [process_map_memory] puts an ELF program where its headers say: for
    an image whose segments are congruent to their file offsets modulo the
    page size, every byte [d] of a segment is seen at [p_vaddr + d] (unless a
    later header or the stack takes its page), writable exactly if the header
    has [PF_W]; the 16 KB stack is seen below 0x3FF000; the process stays as
    it was and no byte outside the page tables changes. *)
Theorem process_map_memory_elf `{KAllocator} k process task chunk dir ts f h stack :
  let m := kmem k in
  heap_ok m -> process_space m process task chunk dir ts ->
  rd m (process + proc_filetype) = PROCESS_FILETYPE_ELF -> ld32 m (process + proc_elf_file) = f ->
  image_at m dir f h -> ld32 m (process + proc_stack) = stack -> page stack -> stack + 16384 < 4294967296 ->
  exists m', process_map_memory process k = Ret 0 (with_kmem m' k) /\
    heap_ok m' /\ process_space m' process task chunk dir ts /\
    (forall i d, 0 <= i < ld16 m (h + e_phnum) -> 0 <= d < seg_memsz (seg m h i) ->
       let v := seg_vaddr (seg m h i) + d in in_stack v = false ->
       (forall j, i < j < ld16 m (h + e_phnum) -> seg_covers (seg m h j) (page_of v) = false) ->
       user_maps m' dir v (h + seg_offset (seg m h i) + d) (seg_bits (seg m h i))) /\
    (forall d, 0 <= d < LIEBE_OS_USER_PROGRAM_STACK_SIZE ->
       user_maps m' dir (LIEBE_OS_PROGRAM_VIRTUAL_STACK_ADDRESS_END + d) (stack + d) 7) /\
    (forall a, stable m dir a -> rd m' a = rd m a).
Proof.
  intros m Hok Hps Hft Ef Him Es Hs Hend.
  destruct (map_memory_elf_spec k process task chunk dir ts f h stack Hok Hps Hft Ef Him Es Hs Hend) as (m' & E & Hk & Hseg & Hst & _).
  exists m'. split; [done|]. split; [apply Hk|]. split; [by apply (kept_process_space m)|]. split; [done|]. split; [done|]. apply Hk.
Qed.

(** ... and a flat binary at 0x400000: byte [d] of the file is seen at
    [0x400000 + d], readable and writable, with the stack below. *)
Theorem process_map_memory_binary `{KAllocator} k process task chunk dir ts ptr size stack :
  let m := kmem k in
  heap_ok m -> process_space m process task chunk dir ts ->
  rd m (process + proc_filetype) = PROCESS_FILETYPE_BINARY ->
  ld32 m (process + proc_ptr) = ptr -> ld32 m (process + proc_size) = size ->
  page ptr -> ptr + size <= 4290768896 ->
  ld32 m (process + proc_stack) = stack -> page stack -> stack + 16384 < 4294967296 ->
  exists m', process_map_memory process k = Ret 0 (with_kmem m' k) /\
    heap_ok m' /\ process_space m' process task chunk dir ts /\
    (forall d, 0 <= d < size -> user_maps m' dir (LIEBE_OS_PROGRAM_VIRTUAL_ADDRESS + d) (ptr + d) 7) /\
    (forall d, 0 <= d < LIEBE_OS_USER_PROGRAM_STACK_SIZE ->
       user_maps m' dir (LIEBE_OS_PROGRAM_VIRTUAL_STACK_ADDRESS_END + d) (stack + d) 7) /\
    (forall a, stable m dir a -> rd m' a = rd m a).
Proof.
  intros m Hok Hps Hft Ep Esz Hp Hpe Es Hs Hend.
  destruct (map_memory_binary_spec k process task chunk dir ts ptr size stack Hok Hps Hft Ep Esz Hp Hpe Es Hs Hend) as (m' & E & Hk & Hb & Hst & _).
  exists m'. split; [done|]. split; [apply Hk|]. split; [by apply (kept_process_space m)|]. split; [done|]. split; [done|]. apply Hk.
Qed.

(** ** Witnesses *)

(** An image at 0x300000 with one segment: 0x800 bytes at offset 0x1000, for
    address 0x400000; the loader's object is at 0x303000. *)
Definition small_image : mem :=
  let m := st16 (st32 ∅ (0x300000 + e_phoff) 52) (0x300000 + e_phnum) 1 in
  let p := 0x300000 + 52 in
  let m := st32 (st32 (st32 m (p + p_type) 1) (p + p_offset) 0x1000) (p + p_vaddr) 0x400000 in
  let m := st32 (st32 (st32 m (p + p_filesz) 0x800) (p + p_memsz) 0x800) (p + p_flags) 7 in
  st32 m (0x303000 + ef_elf_memory) 0x300000.

Definition small_segment : segment := {| seg_type := 1; seg_offset := 0x1000; seg_vaddr := 0x400000;
  seg_filesz := 0x800; seg_memsz := 0x800; seg_flags := 7 |}.
Lemma small_image_segment : segment_at small_image 0x300034 = small_segment.
Proof. by vm_compute. Qed.
Lemma small_segment_ok : seg_ok 0x300000 small_segment.
Proof. split; by vm_compute. Qed.

(** A process over the memory [m0] whose fields behind the table are set. *)
Lemma process_with (m0 : mem) (set_fields : Z -> mem -> mem) :
  (forall a, a < 0x300000 \/ 0x304000 <= a -> rd m0 a = rd ∅ a) ->
  (forall p m a, a < p + proc_filetype \/ p + process_span <= a -> rd (set_fields p m) a = rd m a) ->
  exists k m process task chunk dir ts, kmem k = set_fields process m /\
    process_ok (kmem k) process task chunk dir ts /\
    (forall a, 0xE200 <= a < 0x1000000 -> stable (kmem k) dir a /\ rd (kmem k) a = rd m0 a).
Proof.
  intros Hm0 Hf. destruct (process_kernel m0 Hm0) as (k & p & task & chunk & dir & ts & Hok & _ & _ & _ & Hp & _ & _ & _ & Hst).
  destruct (object_write p task chunk dir ts (kmem k) (set_fields p (kmem k)) Hok) as (Hok' & _ & Hlv); [apply Hf|].
  exists (with_kmem (set_fields p (kmem k)) k), (kmem k), p, task, chunk, dir, ts.
  rewrite kmem_with_kmem. split; [done|]. split; [done|]. intros a Ha.
  destruct (Hst a ltac:(lia)) as [Hsa Hra]. split.
  - apply (stable_mono p task chunk dir ts (kmem k)); try done. intros q t. apply Hlv.
  - rewrite <- Hra. apply Hf. unfold proc_filetype. lia.
Qed.

Lemma process_map_memory_elf_witness : exists k process dir m',
  process_map_memory process k = Ret 0 (with_kmem m' k) /\
  user_maps m' dir 0x4007FF 0x3017FF 7 /\ rd m' 0x300000 = rd (kmem k) 0x300000.
Proof.
  set (fields p m := st32 (st32 (wr m (p + proc_filetype) PROCESS_FILETYPE_ELF)
    (p + proc_elf_file) 0x303000) (p + proc_stack) 0x302000).
  destruct (process_with small_image fields) as (k & m & process & task & chunk & dir & ts & Ek & Hok & Hst).
  { intros a Ha. unfold small_image. cbv zeta.
    rewrite !rd_st32_ne, rd_st16_ne, rd_st32_ne by (unfold e_phnum, e_phoff, p_type, p_offset, p_vaddr,
      p_filesz, p_memsz, p_flags, ef_elf_memory; lia). done. }
  { intros p m a Ha. unfold fields, proc_filetype, proc_elf_file, proc_stack, process_span in *.
    rewrite !rd_st32_ne, rd_wr_ne by lia. done. }
  assert (Hw : forall a, 0xE200 <= a < 0xFFFFF0 -> ld32 (kmem k) a = ld32 small_image a)
    by (intros a Ha; apply ld32_ext; intros i Hi; apply Hst; lia).
  assert (Eph : elf_pheader 0x300000 (kmem k) = 0x300034)
    by (unfold elf_pheader; rewrite Hw by (unfold e_phoff; lia); reflexivity).
  assert (En : ld16 (kmem k) (0x300000 + e_phnum) = 1).
  { assert (Hb : forall a, 0xE200 <= a < 0x1000000 -> rd (kmem k) a = rd small_image a) by (intros a Ha; by apply Hst).
    unfold ld16. rewrite !Hb by (unfold e_phnum; lia). reflexivity. }
  assert (Es : seg (kmem k) 0x300000 0 = small_segment).
  { unfold seg, phdr_addr. rewrite Eph. change (0x300034 + 0 * sizeof_phdr) with 0x300034.
    rewrite <- small_image_segment. unfold segment_at. rewrite !Hw; [done|..]; unfold p_type, p_offset, p_vaddr, p_filesz, p_memsz, p_flags; lia. }
  assert (Him : image_at (kmem k) dir 0x303000 0x300000).
  { split.
    - unfold elf_header. rewrite Hw by (unfold ef_elf_memory; lia). reflexivity.
    - rewrite Eph, En. unfold sizeof_phdr. lia.
    - rewrite Eph, En. unfold sizeof_phdr, ef_elf_memory. intros a Ha. apply Hst. lia.
    - rewrite En. intros i Hi. replace i with 0 by lia. rewrite Es. exact small_segment_ok. }
  assert (Hrd : ld32 (kmem k) (process + proc_stack) = 0x302000) by (rewrite Ek; unfold fields; rewrite ld32_st32_eq; reflexivity).
  destruct (process_map_memory_elf k process task chunk dir ts 0x303000 0x300000 0x302000
    (po_heap _ _ _ _ _ _ Hok) (po_space _ _ _ _ _ _ Hok)) as (m' & E & _ & _ & Hseg & _ & Hsame);
    [| |exact Him|exact Hrd|split; [lia|reflexivity]|lia|].
  - rewrite Ek. unfold fields, proc_elf_file, proc_stack, proc_filetype. rewrite !rd_st32_ne, rd_wr_eq by lia. reflexivity.
  - rewrite Ek. unfold fields, proc_elf_file, proc_stack. rewrite ld32_st32_ne, ld32_st32_eq by lia. reflexivity.
  - exists k, process, dir, m'. split; [exact E|]. split; [|apply Hsame, Hst; lia].
    specialize (Hseg 0 0x7FF). rewrite En, Es in Hseg. apply Hseg; [lia|cbn; lia|reflexivity|lia].
Defined.

Lemma process_map_memory_binary_witness : exists k process dir m',
  process_map_memory process k = Ret 0 (with_kmem m' k) /\
  user_maps m' dir 0x401233 0x301233 7 /\ user_maps m' dir 0x3FB000 0x302000 7.
Proof.
  set (fields p m := st32 (st32 (st32 (wr m (p + proc_filetype) PROCESS_FILETYPE_BINARY)
    (p + proc_ptr) 0x300000) (p + proc_stack) 0x302000) (p + proc_size) 0x1234).
  destruct (process_with ∅ fields) as (k & m & process & task & chunk & dir & ts & Ek & Hok & _); [done| |].
  { intros p m a Ha. unfold fields, proc_filetype, proc_ptr, proc_size, proc_stack, process_span in *.
    rewrite !rd_st32_ne, rd_wr_ne by lia. done. }
  destruct (process_map_memory_binary k process task chunk dir ts 0x300000 0x1234 0x302000
    (po_heap _ _ _ _ _ _ Hok) (po_space _ _ _ _ _ _ Hok)) as (m' & E & _ & _ & Hd & Hs & _); try done.
  1-4: rewrite Ek; unfold fields, proc_filetype, proc_ptr, proc_size, proc_stack;
    autorewrite with mem; try rewrite !rd_st32_ne, rd_wr_eq by lia; reflexivity.
  exists k, process, dir, m'. split; [exact E|]. split.
  - apply (Hd 0x1233). lia.
  - apply (Hs 0). unfold LIEBE_OS_USER_PROGRAM_STACK_SIZE. lia.
Defined.
