(* ===== verification/Spawn.v ===== *)
(** * Starting a program: [process_load]

    [process_load] of [src/task/process.c] from the path to a process that can
    run: the file is read ([Load]), the object, the stack and the task are
    made, the address space is laid out.  What the program finds at its
    addresses is described by the bytes of its file alone. *)
From S2P Require Import Prelude Config Memory CString Heap KHeap Paging Terminal PathParser Disk Fat16 File Fat16Facts Lookup Open Elf Load Kernel Task Schedule Process ProcessMem ProcessLoad.

(** ** The program in the file *)

(** Program header [i] of the file [l]. *)
Definition file_segment (l : list Z) (i : Z) : segment :=
  let p := file_word l e_phoff + i * sizeof_phdr in
  {| seg_type := file_word l (p + p_type); seg_offset := i32 (file_word l (p + p_offset));
     seg_vaddr := file_word l (p + p_vaddr); seg_filesz := file_word l (p + p_filesz);
     seg_memsz := file_word l (p + p_memsz); seg_flags := file_word l (p + p_flags) |}.
Definition file_segments (l : list Z) : Z := half_at l e_phnum.

(** A segment the loader maps as its header says. *)
Record segment_ok (l : list Z) (s : segment) : Prop := {
  sg_offset : 0 <= seg_offset s;
  sg_file : seg_filesz s <= seg_memsz s /\ seg_offset s + seg_filesz s <= Z.of_nat (length l);
  sg_end : seg_offset s + seg_memsz s <= 2147479552;
  sg_virtual : seg_vaddr s + seg_memsz s <= 4294963200;
  sg_congruent : seg_vaddr s mod 4096 = seg_offset s mod 4096 }.
Definition elf_ok (l : list Z) : Prop :=
  file_word l e_phoff + file_segments l * sizeof_phdr <= Z.of_nat (length l) /\
  forall i, 0 <= i < file_segments l -> segment_ok l (file_segment l i).

Definition entry_point (l : list Z) : Z :=
  if is_elf l then file_word l e_entry else LIEBE_OS_PROGRAM_VIRTUAL_ADDRESS.

(** ** The program in memory *)

(** Under the directory [dir] the byte at [v] is [b], with the page bits
    [bits]. *)
Definition user_byte (m : mem) (dir v b bits : Z) : Prop :=
  exists a, user_maps m dir v a bits /\ rd m a = b.

(** Every byte of a segment that the file holds is at its address (unless a
    later header or the stack takes its page); a flat file is at 0x400000. *)
Definition program_seen (l : list Z) (m : mem) (dir : Z) : Prop :=
  if is_elf l then
    forall i d, 0 <= i < file_segments l -> 0 <= d < seg_filesz (file_segment l i) ->
      let s := file_segment l i in let v := seg_vaddr s + d in in_stack v = false ->
      (forall j, i < j < file_segments l -> seg_covers (file_segment l j) (page_of v) = false) ->
      user_byte m dir v (item_byte l (seg_offset s + d)) (seg_bits s)
  else
    forall d, 0 <= d < Z.of_nat (length l) ->
      user_byte m dir (LIEBE_OS_PROGRAM_VIRTUAL_ADDRESS + d) (item_byte l d) 7.

(** The pages the program takes. *)
Definition program_covers (l : list Z) (w : Z) : Prop :=
  if is_elf l then exists i, 0 <= i < file_segments l /\ seg_covers (file_segment l i) w = true
  else LIEBE_OS_PROGRAM_VIRTUAL_ADDRESS <= w < LIEBE_OS_PROGRAM_VIRTUAL_ADDRESS + page_end (Z.of_nat (length l)).

(** The process object [p] holds the file [l], at [h]; [im] are the blocks. *)
Record loaded `{KAllocator} (m : mem) (p h : Z) (l im : list Z) : Prop := {
  ld_live : live m h (span (Z.of_nat (length l)));
  ld_page : page h;
  ld_bytes : bytes m h (length l) = l;
  ld_kind : if is_elf l
    then exists f, im = [h; f] /\ f <> h /\ page f /\ live m f 4096 /\ ld32 m (f + ef_elf_memory) = h /\
      rd m (p + proc_filetype) = PROCESS_FILETYPE_ELF /\ ld32 m (p + proc_elf_file) = f
    else im = [h] /\ rd m (p + proc_filetype) = PROCESS_FILETYPE_BINARY /\
      ld32 m (p + proc_ptr) = h /\ ld32 m (p + proc_size) = Z.of_nat (length l) }.

(** The link [task_new] writes in the last task. *)
Definition last_link (tasks : list Z) (a : Z) : Prop :=
  exists q, tasks !! pred (length tasks) = Some q /\ q + task_next_link <= a < q + task_next_link + 4.

(** The kernel [k'] has, in addition to what [k] had, the process [p] of the
    program [l] in [slot]: its task [t] last in the list, its address space
    [dir] (with the tables [ts] and the chunk [chunk]), its stack [st], the
    blocks [im] of its image. *)
Set Implicit Arguments.
Record started `{KAllocator} (W : Z -> Prop) (k k' : kernel) (slot pp : Z) (name l tasks : list Z)
    (p t chunk dir h st : Z) (ts im : list Z) : Prop := {
  sd_process : process_ok (kmem k') p t chunk dir ts;
  sd_empty : forall i, 0 <= i < 1024 -> allocation (kmem k') p i = (0, 0);
  sd_program : program_seen l (kmem k') dir;
  sd_stack : forall d, 0 <= d < LIEBE_OS_USER_PROGRAM_STACK_SIZE ->
    user_byte (kmem k') dir (LIEBE_OS_PROGRAM_VIRTUAL_STACK_ADDRESS_END + d) 0 7;
  sd_stack_block : live (kmem k') st LIEBE_OS_USER_PROGRAM_STACK_SIZE;
  (* every other page is mapped to itself, for reading *)
  sd_identity : forall w, page w -> in_stack w = false -> ~ program_covers l w -> pte (kmem k') dir w = Z.lor w 5;
  sd_task : task_fields (kmem k') t p (entry_point l);
  sd_list : task_list (kmem k') (task_head k') (task_tail k') (tasks ++ [t]);
  sd_image : loaded (kmem k') p h l im;
  sd_object : ld32 (kmem k') (p + proc_stack) = st /\ ld16 (kmem k') (p + proc_id) = slot /\
    cstr (at_mem (kmem k') (p + proc_filename)) (take 107 name) /\
    forall a, p + proc_buffer <= a < p + sizeof_process -> rd (kmem k') a = 0;
  sd_pointer : ld32 (kmem k') pp = p;
  sd_nodup : NoDup (im ++ st :: p :: t :: chunk :: dir :: ts);
  sd_new : forall q b n, b ∈ im ++ st :: p :: t :: chunk :: dir :: ts -> live (kmem k) q n -> q <> b;
  sd_kernel : k' = with_processes (current_process k) (<[Z.to_nat slot := p]> (processes k))
    (with_tasks (if decide (tasks = []) then t else current_task k) (default t (tasks !! 0%nat)) t (with_files (files k') k));
  sd_since : since (fun a => W a \/ last_link tasks a) (core (files k)) (core (files k'));
  sd_descs : file_descriptors (files k') = file_descriptors (files k) }.
Unset Implicit Arguments.

(** Blocks the loaders need to read the file, with [n] left over: at most two
    attempts, each of which opens the path and takes a block for the bytes. *)
Definition load_room (root parts : list (list Z)) (size : Z) (n : nat) : nat :=
  let once n := open_room root parts (Z.to_nat (blocks_for size) + n) in S (once (once n)).

(** What the caller of [process_load] has on its stack: the [struct file_stat]
    and the pointer the new process goes to. *)
Definition load_locals (stat pp a : Z) : Prop := stat <= a < stat + 8 \/ pp <= a < pp + 4.

(** The kernel can start the program: its file is on the volume, a slot of the
    process table and [load_room] blocks are free. *)
Set Implicit Arguments.
Record startable `{KAllocator} (fat16_fs : Z) (image : Z -> Z) (pfuel rfuel pf : nat) (root : list (list Z)) (k : kernel)
    (filename : Z) (name rest e : list Z) (size i stat pp slot : Z) (tasks : list Z) : Prop := {
  sr_load : load_ready fat16_fs image pfuel rfuel pf (load_locals stat pp) root (files k) filename name rest e size i stat;
  sr_program : is_elf (program_bytes image (files k) e) = true -> elf_ok (program_bytes image (files k) e);
  sr_apart : forall a, load_locals stat pp a -> ~ pool a;
  sr_pointer : pp <> 0 /\ region_owned (kmem k) pp 4;
  sr_tasks : task_list (kmem k) (task_head k) (task_tail k) tasks;
  sr_blocks : forall t, t ∈ tasks -> live (kmem k) t 4096 /\ page t;
  sr_table : length (processes k) = 12%nat;
  sr_free : first_null (processes k) 0 = Some slot;
  sr_room : room (kmem k) (3 + load_room root (split_path rest) size (4 + 1027)) }.
Unset Implicit Arguments.

(** ** Lemmas: what is loaded stays *)

Section image.
Context `{KAllocator}.

Lemma loaded_blocks m p h l im q : loaded m p h l im -> q ∈ im -> exists t, live m q t.
Proof.
  intros [Hl _ _ Hk] Hq. destruct (is_elf l).
  - destruct Hk as (f & -> & _ & _ & Hf & _). rewrite elem_of_cons, list_elem_of_singleton in Hq.
    destruct Hq as [->| ->]; eauto.
  - destruct Hk as (-> & _). apply list_elem_of_singleton in Hq as ->. eauto.
Qed.

Lemma loaded_frame m m' p h l im : loaded m p h l im -> 0 < Z.of_nat (length l) <= 0xFFFFF000 ->
  (forall q t, q ∈ im -> live m q t -> live m' q t /\ forall a, q <= a < q + t -> rd m' a = rd m a) ->
  (forall a, p + proc_filetype <= a < p + proc_stack \/ p + proc_size <= a < p + proc_size + 4 -> rd m' a = rd m a) ->
  loaded m' p h l im.
Proof.
  intros [Hl Hp Hb Hk] Hlen Hf Ho. destruct (span_blocks _ Hlen) as (Hsp & _ & _).
  unfold proc_filetype, proc_stack, proc_size in Ho.
  assert (Hh : h ∈ im).
  { destruct (is_elf l); [destruct Hk as (f & -> & _); by left|destruct Hk as (-> & _); by left]. }
  destruct (Hf h _ Hh Hl) as [Hl' Hb']. split; [done|done| |].
  - rewrite <- Hb at 2. apply bytes_ext. intros j Hj. apply Hb'. lia.
  - destruct (is_elf l).
    + destruct Hk as (f & -> & Hne & Hpf & Hlf & E1 & E2 & E3).
      destruct (Hf f 4096) as [Hlf' Hbf]; [right; by left|done|].
      exists f. split; [done|]. split; [done|]. split; [done|]. split; [done|].
      split; [|split]; [rewrite <- E1|rewrite <- E2|rewrite <- E3].
      * apply ld32_ext. intros j Hj. apply Hbf. unfold ef_elf_memory. lia.
      * apply Ho. unfold proc_filetype. lia.
      * apply ld32_ext. intros j Hj. apply Ho. unfold proc_elf_file. lia.
    + destruct Hk as (-> & E1 & E2 & E3). split; [done|]. split; [|split]; [rewrite <- E1|rewrite <- E2|rewrite <- E3].
      * apply Ho. unfold proc_filetype. lia.
      * apply ld32_ext. intros j Hj. apply Ho. unfold proc_ptr. lia.
      * apply ld32_ext. intros j Hj. apply Ho. unfold proc_size. lia.
Qed.

End image.

(** ** Lemmas: [process_load_data] *)

(** What may be written: [W], and the process object. *)
Definition or_object (W : Z -> Prop) (p : Z) (a : Z) : Prop := W a \/ p <= a < p + process_span.

(** What it leaves. *)
Record data_loaded `{KAllocator} (W : Z -> Prop) (k k' : kernel) (p h : Z) (l im : list Z) : Prop := {
  dl_same : k' = with_files (files k') k;
  dl_since : since (or_object W p) (core (files k)) (core (files k'));
  dl_descs : file_descriptors (files k') = file_descriptors (files k);
  dl_loaded : loaded (kmem k') p h l im;
  dl_new : forall q b t, b ∈ im -> live (kmem k) q t -> q <> b;
  dl_nodup : NoDup im;
  dl_object : forall a, p <= a < p + process_span ->
    a < p + proc_filetype \/ p + proc_stack <= a < p + proc_size \/ p + proc_size + 4 <= a ->
    rd (kmem k') a = rd (kmem k) a }.

Section data.
Context `{KAllocator} (ops : Z -> option filesystem_ops) (fat16_fs disk_obj : Z).
Context (dev : ata_device) (poll_fuel : nat) (image : Z -> Z) (stack_item : list Z).
Context (pfuel fuel rfuel pf : nat).
Hypothesis Hdrive : drive_ok dev poll_fuel image.
Hypothesis Hfuel : (16 < fuel)%nat.
Hypothesis Hrfuel : (0 < rfuel)%nat.
Hypothesis Hops : ops fat16_fs = Some (fat16_ops dev poll_fuel fat16_fs stack_item pfuel fuel rfuel).
Hypothesis Hfs : 0 < fat16_fs < 4294967296.
Context (W : Z -> Prop) (root : list (list Z)) (filename : Z) (name rest e : list Z) (size i stat p : Z).

#[local] Abbreviation ready W v := (load_ready fat16_fs image pfuel rfuel pf W root v filename name rest e size i stat).

Lemma ready_elf v N : ready W v ->
  room (fmem (core v)) (S (open_room root (split_path rest) (Z.to_nat (blocks_for size) + N))) ->
  exists v' f h, elf_load ops disk_obj pf stat filename v =
      Ret (if is_elf (program_bytes image v e) then (0, f) else (- EINFORMAT, 0)) v' /\
    since W (core v) (core v') /\ file_descriptors v' = file_descriptors v /\
    file_in_memory (core v) (core v') f h (program_bytes image v e) /\ room (fmem (core v')) N.
Proof.
  intros [H1 H2 H3 H4 H5 H6 H7 H8 H9 H10 H11] Hr.
  exact (elf_load_spec ops fat16_fs dev poll_fuel image stack_item pfuel fuel rfuel Hdrive Hfuel Hrfuel Hops Hfs
    W root v i e H1 H8 H3 (pg_file H2) disk_obj pf stat filename name rest size H4 H2 H5 H6 H7 H10 H11 N Hr).
Qed.

Lemma ready_length v : ready W v -> Z.of_nat (length (program_bytes image v e)) = size /\ 52 <= size < 2147483648.
Proof.
  intros Hrd. pose proof (lr_file Hrd) as [_ _ _ _ Hz Hsz _].
  unfold program_bytes. rewrite length_file_bytes. lia.
Qed.

(** The object, which [W] leaves alone, is apart from what is added. *)
Context (k : kernel).
Hypothesis Hrd : ready W (files k).
Hypothesis Hlp : live (kmem k) p process_span.
Hypothesis Hpw : forall a, p <= a < p + process_span -> ~ W a.

Lemma object_since s a : since W (core (files k)) s -> p <= a < p + process_span -> rd (fmem s) a = rd (kmem k) a.
Proof. intros Hs Ha. apply (si_bytes _ _ _ Hs); [by apply (owned_live (kmem k) p process_span)|by apply Hpw]. Qed.

Lemma object_apart s q t : since W (core (files k)) s -> live (fmem s) q t ->
  (forall r n, live (kmem k) r n -> r <> q) -> p + process_span <= q \/ q + t <= p.
Proof.
  intros Hs Hq Hn. apply (block_distinct (fmem s)); [by apply Hs|done|]. by apply (Hn p process_span).
Qed.

(** Stores into the object. *)
Lemma object_edit s m2 : since W (core (files k)) s ->
  (forall a, a < p \/ p + process_span <= a -> rd m2 a = rd (fmem s) a) ->
  since (or_object W p) (core (files k)) (with_mem m2 s) /\
  (forall q t, live m2 q t <-> live (fmem s) q t) /\ (forall n, room (fmem s) n -> room m2 n).
Proof.
  intros Hs Ho. apply (since_edit (or_object W p) (core (files k)) s (with_mem m2 s)); try done.
  - apply (since_more W); [by left|done].
  - intros a Ha. apply Ho. destruct (decide (p <= a < p + process_span)) as [Hin|]; [|lia].
    by apply (live_block _ _ _ Hlp) in Hin.
  - intros a _ Hna. apply Ho. destruct (decide (p <= a < p + process_span)) as [Hin|]; [|lia].
    destruct Hna. by right.
Qed.

Lemma load_elf_run N : is_elf (program_bytes image (files k) e) = true ->
  room (kmem k) (S (open_room root (split_path rest) (Z.to_nat (blocks_for size) + N))) ->
  exists k' h im, process_load_elf ops disk_obj stat pf filename p k = Ret 0 k' /\
    data_loaded W k k' p h (program_bytes image (files k) e) im /\ room (kmem k') N.
Proof.
  intros He Hr. destruct (ready_elf (files k) N Hrd Hr) as (v1 & f & h & E & Hs & Ed & Hfm & Hr1).
  destruct (ready_length _ Hrd) as [Hlen Hsz]. set (l := program_bytes image (files k) e) in *. rewrite He in E.
  destruct Hfm as [[F1 F2] [I1 I2] Hd [Hpf Hph] Hpt Hby].
  pose proof (object_apart _ _ _ Hs F1 F2) as Hfp. pose proof (object_apart _ _ _ Hs I1 I2) as Hhp.
  destruct (span_blocks size ltac:(lia)) as (Hsp & _ & _). rewrite Hlen in *.
  set (m2 := st32 (wr (fmem (core v1)) (p + proc_filetype) PROCESS_FILETYPE_ELF) (p + proc_elf_file) f).
  assert (Hm2 : forall a, a < p + proc_filetype \/ p + proc_stack <= a -> rd m2 a = rd (fmem (core v1)) a).
  { intros a Ha. unfold m2, proc_filetype, proc_elf_file, proc_stack in *. rewrite rd_st32_ne by lia. apply rd_wr_ne. lia. }
  unfold proc_filetype, proc_stack, process_span in *.
  destruct (object_edit (core v1) m2 Hs) as (Hs2 & Hlv & Hrm); [intros a Ha; apply Hm2; unfold process_span in Ha; lia|].
  exists (with_files (with_core (with_mem m2 (core v1)) v1) k), h, [h; f].
  split; [|split; [|apply Hrm; exact Hr1]].
  - unfold process_load_elf. rewrite (bind_Ret _ _ _ (0, f) (with_files v1 k)) by (unfold on_files; by rewrite E).
    change (ISERR 0) with false. cbv iota. unfold bind, kstore8, kstore32, edit_kmem, modify, ret. reflexivity.
  - split; try done.
    + split; [rewrite Hlen; by apply Hlv|done| |rewrite He; exists f].
      * rewrite <- Hby at 2. apply bytes_ext. intros j Hj. apply Hm2. lia.
      * split; [done|]. split; [done|]. split; [done|]. split; [by apply Hlv|]. split; [|split].
        -- rewrite <- Hpt. apply ld32_ext. intros j Hj. apply Hm2. unfold ef_elf_memory. lia.
        -- change (rd m2 (p + 8308) = PROCESS_FILETYPE_ELF). unfold m2, proc_elf_file.
           rewrite rd_st32_ne by (unfold Task.proc_filetype; lia). by rewrite rd_wr_eq.
        -- change (ld32 m2 (p + proc_elf_file) = f). unfold m2. rewrite ld32_st32_eq. apply u32_id, Hpf.
    + intros q b t Hb Hq. apply elem_of_cons in Hb as [->|Hb]; [by apply (I2 q t)|].
      apply list_elem_of_singleton in Hb as ->. by apply (F2 q t).
    + by apply nodup_two.
    + intros a Ha Hout. unfold proc_filetype, proc_stack, proc_size, process_span in *. change (rd m2 a = rd (kmem k) a).
      rewrite Hm2 by lia. by apply object_since.
Qed.

(** The flat loader. *)
Hypothesis Hrd2 : ready (or_object W p) (files k).

Definition flat_stores (h : Z) (m : mem) : mem :=
  st32 (st32 (wr m (p + proc_filetype) PROCESS_FILETYPE_BINARY) (p + proc_ptr) h) (p + proc_size) size.

Lemma flat_stores_spec h m : 0 <= h < 4294967296 -> 0 <= size < 4294967296 ->
  rd (flat_stores h m) (p + proc_filetype) = PROCESS_FILETYPE_BINARY /\
  ld32 (flat_stores h m) (p + proc_ptr) = h /\ ld32 (flat_stores h m) (p + proc_size) = size /\
  (forall a, a < p + proc_filetype \/ p + proc_stack <= a < p + proc_size \/ p + proc_size + 4 <= a ->
     rd (flat_stores h m) a = rd m a).
Proof.
  intros Hh Hs. unfold flat_stores, proc_filetype, proc_ptr, proc_size, proc_stack.
  split; [rewrite !rd_st32_ne by lia; by rewrite rd_wr_eq|].
  split; [rewrite ld32_st32_ne, ld32_st32_eq by lia; by apply u32_id|].
  split; [rewrite ld32_st32_eq; by apply u32_id|]. intros a Ha. rewrite !rd_st32_ne by lia. apply rd_wr_ne. lia.
Qed.

Lemma load_flat_run N : is_elf (program_bytes image (files k) e) = false ->
  room (kmem k) (open_room root (split_path rest) (Z.to_nat (blocks_for size) + N)) ->
  exists k' h im, process_load_binary ops disk_obj stat pf filename p k = Ret 0 k' /\
    data_loaded W k k' p h (program_bytes image (files k) e) im /\ room (kmem k') N.
Proof.
  intros He Hr. destruct (ready_length _ Hrd) as [Hlen Hsz]. destruct Hrd as [H1 H2 H3 H4 H5 H6 H7 H8 H9 H10 H11].
  destruct (flat_open_spec ops fat16_fs dev poll_fuel image stack_item pfuel fuel rfuel Hdrive Hfuel Hrfuel Hops Hfs
    W root (files k) i e H1 H8 H3 (pg_file H2) disk_obj pf stat filename name rest size H4 H2 H5 H6 H7 H10 H11 N Hr)
    as (v2 & v3 & m4 & v5 & h & desc & pvt & bs & E2 & Hi0 & E3 & Esz & E4 & E5 & Hse & Hh & Hph & Hh0 & Hhn & Hby & Hr5).
  fold (program_bytes image (files k) e) in Hby. set (l := program_bytes image (files k) e) in *.
  pose proof (se_since Hse) as Hs5.
  pose proof (object_apart _ _ _ Hs5 (nb_live _ _ _ _ Hh) (nb_new _ _ _ _ Hh)) as Hhp.
  destruct (span_blocks size ltac:(lia)) as (Hsp & _ & _).
  destruct (flat_stores_spec h (fmem (core v5)) (proj1 Hph) ltac:(lia)) as (F1 & F2 & F3 & F4).
  set (m6 := flat_stores h (fmem (core v5))) in *.
  assert (Hm6 : forall a, a < p \/ p + process_span <= a -> rd m6 a = rd (fmem (core v5)) a)
    by (intros a Ha; apply F4; unfold proc_filetype, proc_stack, proc_size, process_span in *; lia).
  destruct (object_close ops fat16_fs dev poll_fuel image stack_item pfuel fuel rfuel Hfuel Hrfuel Hops Hfs (or_object W p) root
    (files k) i e H1 (lr_clear Hrd2) H3 pf rest size H5 H6 H7 v5 desc pvt bs p process_span m6)
    as (v7 & E7 & Hs7 & Ed7 & Hlv7 & Ho7 & Hr7);
    [by apply (session_more _ _ W); [left|]|by unfold process_span|by intros a Ha; apply (owned_live (kmem k) p process_span)|by right|done|].
  assert (Hlh : live (fmem (core v7)) h (span size)) by (apply Hlv7; split; [apply Hh|done]).
  assert (Hob : forall a, p <= a < p + process_span -> rd (fmem (core v7)) a = rd m6 a)
    by (intros a Ha; apply Ho7; by apply (live_block _ _ _ Hlp)).
  assert (Hin : proc_size + 4 <= process_span /\ 0 <= proc_filetype /\ proc_filetype < proc_ptr < proc_size)
    by (unfold proc_size, proc_filetype, proc_ptr, process_span; lia).
  exists (with_files v7 k), h, [h]. split; [|split; [|apply Hr7; exact Hr5]].
  - unfold process_load_binary.
    rewrite (bind_Ret _ _ _ (i + 1) (with_files v2 k)) by (unfold on_files; by rewrite E2).
    destruct (Z.eqb_spec (i + 1) 0); [lia|].
    rewrite (bind_Ret _ _ _ 0 (with_kmem m6 (with_files v5 k))).
    + rewrite (bind_Ret _ _ _ 0 (with_files v7 k)); [done|]. unfold on_files.
      change (files (with_kmem m6 (with_files v5 k))) with (with_core (with_mem m6 (core v5)) v5). by rewrite E7.
    + rewrite (bind_Ret _ _ _ 0 (with_files v3 k)) by (unfold on_files; change (files (with_files v2 k)) with v2; by rewrite E3).
      change (negb (0 =? OK)) with false. cbv iota.
      rewrite (bind_Ret _ _ _ size (with_files v3 k))
        by (unfold kload32, gets; change (kmem (with_files v3 k)) with (fmem (core v3)); by rewrite Esz).
      rewrite (bind_Ret _ _ _ h (with_kmem m4 (with_files v3 k)))
        by (unfold kalloc, on_kmem; change (kmem (with_files v3 k)) with (fmem (core v3)); by rewrite E4).
      destruct (Z.eqb_spec h 0); [done|].
      rewrite (bind_Ret _ _ _ 1 (with_files v5 k))
        by (unfold on_files; change (files (with_kmem m4 (with_files v3 k))) with (with_core (with_mem m4 (core v3)) v3); by rewrite E5).
      change (negb (1 =? 1)) with false. cbv iota. reflexivity.
  - split; try done.
    + split; [by rewrite Hlen|done| |rewrite He].
      * rewrite <- Hby at 2. apply bytes_ext. intros j Hj. change (rd (fmem (core v7)) (h + j) = rd (fmem (core v5)) (h + j)).
        rewrite Ho7 by (apply (live_block _ _ _ Hlh); lia). apply Hm6. lia.
      * split; [done|]. change (kmem (with_files v7 k)) with (fmem (core v7)). split; [|split]; [rewrite <- F1|rewrite <- F2|rewrite Hlen, <- F3].
        -- apply Hob. lia.
        -- apply ld32_ext. intros j Hj. apply Hob. lia.
        -- apply ld32_ext. intros j Hj. apply Hob. lia.
    + intros q b t Hb Hq. apply list_elem_of_singleton in Hb as ->. by apply (nb_new _ _ _ _ Hh q t).
    + apply NoDup_singleton.
    + intros a Ha Hout. change (kmem (with_files v7 k)) with (fmem (core v7)). rewrite Hob by done. rewrite F4 by done.
      by apply object_since.
Qed.

End data.

(** ** Lemmas: the process before it has a task *)

Lemma open_room_more root parts n : (n <= open_room root parts n)%nat.
Proof. unfold open_room. lia. Qed.

(** Writes that touch only what was added since, in what is said of the base. *)
Lemma since_narrow `{KAllocator} (W W' : Z -> Prop) s0 s1 s2 : since W s0 s1 -> since W' s1 s2 ->
  (forall a, W' a -> ~ W a -> ~ owned (fmem s0) a) -> since W s0 s2.
Proof.
  intros H1 H2 Hw. split; [by apply H2| | | |].
  - intros q t Hq. by apply H2, H1.
  - intros a Ha Hna. rewrite (si_bytes _ _ _ H2); [by apply H1|by apply (since_owned W s0)|].
    intros Hw'. by apply (Hw a).
  - rewrite (si_disk _ _ _ H2). apply H1.
  - intros p Hp. by apply H2, H1.
Qed.

Section data_spec.
Context `{KAllocator} (ops : Z -> option filesystem_ops) (fat16_fs disk_obj : Z).
Context (dev : ata_device) (poll_fuel : nat) (image : Z -> Z) (stack_item : list Z).
Context (pfuel fuel rfuel pf : nat).
Hypothesis Hdrive : drive_ok dev poll_fuel image.
Hypothesis Hfuel : (16 < fuel)%nat.
Hypothesis Hrfuel : (0 < rfuel)%nat.
Hypothesis Hops : ops fat16_fs = Some (fat16_ops dev poll_fuel fat16_fs stack_item pfuel fuel rfuel).
Hypothesis Hfs : 0 < fat16_fs < 4294967296.
Context (W : Z -> Prop) (root : list (list Z)) (filename : Z) (name rest e : list Z) (size i stat p : Z).

#[local] Abbreviation ready W v := (load_ready fat16_fs image pfuel rfuel pf W root v filename name rest e size i stat).

Lemma load_data_run k N : ready W (files k) -> ready (or_object W p) (files k) ->
  live (kmem k) p process_span -> (forall a, p <= a < p + process_span -> ~ W a) ->
  room (kmem k) (load_room root (split_path rest) size N) ->
  exists k' h im, process_load_data ops disk_obj stat pf filename p k = Ret 0 k' /\
    data_loaded W k k' p h (program_bytes image (files k) e) im /\ room (kmem k') N.
Proof.
  intros Hrd Hrd2 Hlp Hpw Hr. unfold load_room in Hr. set (l := program_bytes image (files k) e).
  destruct (is_elf l) eqn:He.
  - destruct (load_elf_run ops fat16_fs disk_obj dev poll_fuel image stack_item pfuel fuel rfuel pf Hdrive Hfuel Hrfuel Hops Hfs
      W root filename name rest e size i stat p k Hrd Hlp Hpw _ He Hr) as (k' & h & im & E & Hdl & Hr').
    exists k', h, im. split; [|split; [done|]].
    + unfold process_load_data. by rewrite (bind_Ret _ _ _ _ _ E).
    + eapply room_weaken; [exact Hr'|]. etrans; [|apply open_room_more]. lia.
  - destruct (ready_elf ops fat16_fs disk_obj dev poll_fuel image stack_item pfuel fuel rfuel pf Hdrive Hfuel Hrfuel Hops Hfs
      W root filename name rest e size i stat (files k) _ Hrd Hr) as (v1 & f & h1 & E & Hs & Ed & _ & Hr1).
    fold l in E. rewrite He in E. set (k1 := with_files v1 k).
    destruct (load_ready_since fat16_fs image pfuel rfuel pf W root (files k) filename name rest e size i stat Hrd v1 Hs Ed)
      as [Hrd1 El]. fold l in El.
    assert (Hs2 : since (or_object W p) (core (files k)) (core v1)) by (apply (since_more W); [by left|done]).
    destruct (load_ready_since fat16_fs image pfuel rfuel pf _ root (files k) filename name rest e size i stat Hrd2 v1 Hs2 Ed)
      as [Hrd3 _].
    assert (Hlp1 : live (kmem k1) p process_span) by (by apply Hs).
    destruct (load_flat_run ops fat16_fs disk_obj dev poll_fuel image stack_item pfuel fuel rfuel pf Hdrive Hfuel Hrfuel Hops Hfs
      W root filename name rest e size i stat p k1 Hrd1 Hlp1 Hpw Hrd3 N) as (k' & h & im & E' & [D1 D2 D3 D4 D5 D6 D7] & Hr').
    { change (files k1) with v1. by rewrite El. }
    { exact Hr1. }
    change (files k1) with v1 in *. rewrite El in *.
    exists k', h, im. split; [|split; [|done]].
    + unfold process_load_data. rewrite (bind_Ret _ _ _ (- EINFORMAT) k1).
      * by rewrite Z.eqb_refl.
      * unfold process_load_elf. rewrite (bind_Ret _ _ _ (- EINFORMAT, 0) k1); [reflexivity|].
        unfold on_files. by rewrite E.
    + split; [by rewrite D1|by apply (since_trans _ _ (core v1))|by rewrite D3|done| |done|].
      * intros q b t Hb Hq. apply (D5 q b t Hb). by apply Hs.
      * intros a Ha Hout. rewrite D7 by done.
        by apply (object_since W p k Hlp Hpw).
Qed.

End data_spec.

(** A process object with its image and its stack, before it has a task:
    everything the kernel had is as it was, [W] aside. *)
Set Implicit Arguments.
Record prepared `{KAllocator} (W : Z -> Prop) (k k' : kernel) (slot p h st : Z) (name l im : list Z) : Prop := {
  pp_same : k' = with_files (files k') k;
  pp_since : since W (core (files k)) (core (files k'));
  pp_descs : file_descriptors (files k') = file_descriptors (files k);
  pp_loaded : loaded (kmem k') p h l im;
  pp_live : live (kmem k') p process_span /\ live (kmem k') st LIEBE_OS_USER_PROGRAM_STACK_SIZE;
  pp_page : page p /\ page st;
  pp_new : forall q b t, b ∈ im ++ [st; p] -> live (kmem k) q t -> q <> b;
  pp_nodup : NoDup (im ++ [st; p]);
  pp_stack : ld32 (kmem k') (p + proc_stack) = st /\
    forall a, st <= a < st + LIEBE_OS_USER_PROGRAM_STACK_SIZE -> rd (kmem k') a = 0;
  pp_id : ld16 (kmem k') (p + proc_id) = slot;
  pp_name : cstr (at_mem (kmem k') (p + proc_filename)) (take 107 name);
  pp_zero : forall a, p + proc_task <= a < p + proc_filetype \/ p + proc_buffer <= a < p + sizeof_process ->
    rd (kmem k') a = 0 }.
Unset Implicit Arguments.

Ltac fields := unfold proc_id, proc_filename, proc_task, proc_allocations, proc_filetype, proc_elf_file, proc_ptr,
  proc_stack, proc_size, proc_buffer, sizeof_process, process_span in *.

(** The stores between the stack's allocation and the task's. *)
Definition identity_stores (p st filename slot : Z) (m : mem) : mem :=
  st16 (st32 (strncpy (p + proc_filename) filename LIEBE_OS_MAX_PATH_LEN m) (p + proc_stack) st) (p + proc_id) slot.

Lemma identity_stores_spec p st filename slot name m : 0 <= st < 4294967296 -> 0 <= slot < 65536 ->
  cstr (at_mem m filename) name -> filename + Z.of_nat (length name) + 1 <= p \/ p + process_span <= filename ->
  let m' := identity_stores p st filename slot m in
  ld32 m' (p + proc_stack) = st /\ ld16 m' (p + proc_id) = slot /\
  cstr (at_mem m' (p + proc_filename)) (take 107 name) /\
  (forall a, a < p \/ p + proc_task <= a < p + proc_stack \/ p + proc_stack + 4 <= a -> rd m' a = rd m a).
Proof.
  intros Hst Hsl Hc Hap m'. unfold LIEBE_OS_MAX_PATH_LEN in *.
  assert (Hd : p + proc_filename + Z.max 1 108 <= filename \/ filename + Z.of_nat (length name) < p + proc_filename)
    by (fields; lia).
  destruct (strncpy_mem name (p + proc_filename) filename 108 m Hc Hd) as (_ & _ & Ho).
  pose proof (strncpy_cstr name (p + proc_filename) filename 108 m Hc Hd) as Hn. change (Z.to_nat (108 - 1)) with 107%nat in Hn.
  set (m1 := strncpy (p + proc_filename) filename 108 m) in *.
  unfold m', identity_stores, LIEBE_OS_MAX_PATH_LEN. fold m1. fields.
  split; [|split; [|split]].
  - transitivity (ld32 (st32 m1 (p + 8316) st) (p + 8316)); [|rewrite ld32_st32_eq; by apply u32_id].
    apply ld32_ext. intros j Hj. by rewrite rd_st16_ne by lia.
  - rewrite ld16_st16_eq. by apply u16_id.
  - eapply cstr_ext; [|exact Hn]. intros j Hj. rewrite length_take in Hj. unfold at_mem.
    rewrite rd_st16_ne, rd_st32_ne by lia. done.
  - intros a Ha. rewrite rd_st16_ne, rd_st32_ne by lia. apply Ho. lia.
Qed.

Section prepare.
Context `{KAllocator} (ops : Z -> option filesystem_ops) (fat16_fs disk_obj : Z).
Context (dev : ata_device) (poll_fuel : nat) (image : Z -> Z) (stack_item : list Z).
Context (pfuel fuel rfuel pf : nat).
Hypothesis Hdrive : drive_ok dev poll_fuel image.
Hypothesis Hfuel : (16 < fuel)%nat.
Hypothesis Hrfuel : (0 < rfuel)%nat.
Hypothesis Hops : ops fat16_fs = Some (fat16_ops dev poll_fuel fat16_fs stack_item pfuel fuel rfuel).
Hypothesis Hfs : 0 < fat16_fs < 4294967296.
Context (W : Z -> Prop) (root : list (list Z)) (filename : Z) (name rest e : list Z) (size i stat : Z).
Context (stack_process pp slot : Z) (k : kernel).
Hypothesis Hrd : load_ready fat16_fs image pfuel rfuel pf W root (files k) filename name rest e size i stat.
(** What may be written is not the heap's. *)
Hypothesis Hlow : forall a, W a -> ~ pool a.

(** An equation no tactic computes with. *)
Inductive sealed (P : Prop) : Prop := seal : P -> sealed P.

(** The object. *)
Lemma object_made n : room (kmem k) (3 + n) ->
  exists p m1 m2, ka_alloc sizeof_process (kmem k) = (p, m1) /\ sealed (memset p 0 sizeof_process m1 = m2) /\
    let s2 := with_mem m2 (core (files k)) in p <> 0 /\ page p /\ since W (core (files k)) s2 /\ new_block (core (files k)) s2 p process_span /\
    (forall a, p <= a < p + sizeof_process -> rd m2 a = 0) /\ room m2 n.
Proof.
  intros Hr. assert (Hsz : 0 < sizeof_process <= 0xFFFFF000) by (unfold sizeof_process; lia).
  assert (Eb : blocks_for sizeof_process = 3) by reflexivity.
  destruct (alloc_span (kmem k) sizeof_process (3 + n) (vo_heap _ (so_volume _ _ _ (lr_system Hrd))) Hsz Hr ltac:(lia))
    as (p & m1 & E & Hp0 & Hp & He & Hok & Hr1 & Hlv & Hd & _ & Ho).
  rewrite Eb in Hr1. change (span sizeof_process) with process_span in *.
  assert (Hm2 : exists m2, sealed (memset p 0 sizeof_process m1 = m2) /\
    (forall a, a < p \/ p + process_span <= a -> rd m2 a = rd m1 a) /\ forall a, p <= a < p + sizeof_process -> rd m2 a = 0).
  { exists (memset p 0 sizeof_process m1). split; [apply seal; reflexivity|]. split; intros a Ha; [apply rd_memset_out|apply rd_memset_in]; unfold sizeof_process, process_span in *; lia. }
  destruct Hm2 as (m2 & Em & Hm2 & Hz).
  assert (Hl1 : live m1 p process_span) by (apply Hlv; by right).
  destruct (client_frame m1 m2 p process_span Hok Hl1 Hm2) as (Hok2 & Hlv2 & Hr2).
  exists p, m1, m2. split; [done|]. split; [done|]. cbv zeta. split; [lia|]. split; [done|]. split; [|split; [|split; [done|]]].
  - split; cbn [fmem with_mem the_disk]; [done| | |done|done].
    + intros q t Hq. apply Hlv2, Hlv. by left.
    + intros a Ha _. destruct (Ho a Ha) as [Hout Hb]. rewrite Hm2 by done. exact Hb.
  - split; [by apply Hlv2|]. intros q t Hq ->. specialize (Hd _ _ Hq). pose proof (live_block _ _ _ Hq). unfold process_span in Hd. lia.
  - apply Hr2. replace n with (3 + n - Z.to_nat 3)%nat by lia. done.
Qed.

(** A block the allocator had not given out is not [W]'s. *)
Lemma not_written m p n a : live m p n -> p <= a < p + n -> ~ W a.
Proof. intros Hl Ha Hw. by apply (Hlow a Hw), (live_pool m p n). Qed.

(** The rest of [process_load_for_slot], for the object [p]. *)
Definition finish_process (p : Z) : M kernel (Z * Z) :=
  let! task := task_new p in
  if ERROR_I task =? 0 then ret (ERROR_I task, p)
  else
    kstore32 (p + proc_task) task ;;;
    let! res := process_map_memory p in
    if res <? 0 then ret (res, p)
    else
      kstore32 pp p ;;;
      modify (fun k => with_processes (current_process k) (<[Z.to_nat slot := p]> (processes k)) k) ;;;
      ret (res, p).

Lemma name_apart s p n : since W (core (files k)) s -> new_block (core (files k)) s p n -> 0 < n ->
  filename + Z.of_nat (length name) + 1 <= p \/ p + n <= filename.
Proof.
  intros Hs Hp Hn. pose proof (ps_owned _ _ _ _ (pg_path (lr_file Hrd))) as Hown.
  assert (Hap : forall a, filename <= a < filename + (Z.of_nat (length name) + 1) -> a < p \/ p + n <= a).
  { intros a Ha. destruct (decide (p <= a < p + n)) as [Hin|]; [|lia].
    by destruct (new_unowned W _ s p n a Hs Hp Hin) as [_ []]; apply Hown. }
  pose proof (Hap filename ltac:(lia)). destruct (decide (filename < p)); [|lia].
  destruct (decide (filename + Z.of_nat (length name) + 1 <= p)); [by left|]. pose proof (Hap p ltac:(lia)). lia.
Qed.

Lemma prepare_run N : process_get slot k = 0 -> pp <> 0 -> 0 <= slot < 65536 ->
  room (kmem k) (3 + load_room root (split_path rest) size (4 + N)) ->
  exists k5 p h st im, load_for_slot_body ops disk_obj stat stack_process pf filename pp slot k = finish_process p k5 /\
    prepared W k k5 slot p h st name (program_bytes image (files k) e) im /\ room (kmem k5) N.
Proof.
  intros Hget Hpp Hslot Hroom.
  destruct (object_made _ Hroom) as (p & m1 & m2 & E1 & Em2 & Hp0 & Hp & Hs2 & Hnb & Hz & Hr2). set (k2 := with_kmem m2 k).
  destruct (load_ready_since fat16_fs image pfuel rfuel pf W root (files k) filename name rest e size i stat Hrd (files k2) Hs2 eq_refl)
    as [Hrd2 El].
  pose proof (load_ready_block fat16_fs image pfuel rfuel pf W root (files k) filename name rest e size i stat Hrd (files k2) p process_span
    Hs2 eq_refl Hnb) as Hrd3.
  destruct (load_data_run ops fat16_fs disk_obj dev poll_fuel image stack_item pfuel fuel rfuel pf Hdrive Hfuel Hrfuel Hops Hfs
    W root filename name rest e size i stat p k2 (4 + N) Hrd2 Hrd3 (nb_live _ _ _ _ Hnb)
    ltac:(intros a Ha; by apply (not_written m2 p process_span a (nb_live _ _ _ _ Hnb))) Hr2)
    as (k3 & h & im & E3 & [D1 D2 D3 D4 D5 D6 D7] & Hr3). rewrite El in D4.
  set (l := program_bytes image (files k) e) in *.
  assert (Hlen : 0 < Z.of_nat (length l) <= 0xFFFFF000).
  { pose proof (ready_length fat16_fs image pfuel fuel rfuel pf Hfuel Hrfuel W root filename name rest e size i stat (files k) Hrd) as Hx.
    fold l in Hx. lia. }
  assert (exists v3, k3 = with_files v3 k2) as [v3 ->] by eauto. change (files (with_files v3 k2)) with v3 in *.
  change (kmem (with_files v3 k2)) with (fmem (core v3)) in *.
  assert (Hs3 : since W (core (files k)) (core v3)).
  { apply (since_narrow W (or_object W p) _ (core (files k2))); [done|done|]. intros a [Hw|Hin] Hna; [by destruct Hna|].
    by apply (new_unowned W _ _ p process_span a Hs2 Hnb Hin). }
  assert (Hlp3 : live (fmem (core v3)) p process_span) by (apply D2, Hnb).
  assert (Eb : blocks_for 16384 = 4) by reflexivity.
  destruct (alloc_span (fmem (core v3)) 16384 (4 + N) (si_ok _ _ _ Hs3) ltac:(lia) Hr3 ltac:(lia))
    as (st & m4 & E4 & Hst0 & Hst & _ & Hok4 & Hr4 & Hlv4 & Hd4 & Hz4 & Ho4).
  rewrite Eb in Hr4. change (span 16384) with 16384 in *. replace (4 + N - Z.to_nat 4)%nat with N in Hr4 by lia.
  assert (Hs4 : since W (core (files k)) (with_mem m4 (core v3))).
  { apply (since_trans W _ (core v3)); [done|]. split; cbn [fmem with_mem the_disk]; try done.
    - intros q t Hq. apply Hlv4. by left.
    - intros a Ha _. by apply Ho4. }
  assert (Hk4 : forall q t, live (fmem (core v3)) q t -> live m4 q t /\ forall a, q <= a < q + t -> rd m4 a = rd (fmem (core v3)) a).
  { intros q t Hq. split; [apply Hlv4; by left|]. intros a Ha. apply Ho4. by apply (owned_live _ q t). }
  assert (Hp4 : new_block (core (files k)) (with_mem m4 (core v3)) p process_span) by (split; [by apply Hk4|apply Hnb]).
  destruct (identity_stores_spec p st filename slot name m4 (proj1 Hst) Hslot
    (ps_string _ _ _ _ (since_path W _ _ _ _ _ Hs4 (pg_path (lr_file Hrd))
       (lr_name Hrd)))
    (name_apart _ p process_span Hs4 Hp4 ltac:(by unfold process_span))) as (I1 & I2 & I3 & I4).
  assert (exists m5, sealed (identity_stores p st filename slot m4 = m5) /\ m5 = identity_stores p st filename slot m4)
    as (m5 & Em5 & Hm5); [by eexists; split; [apply seal|]|]. rewrite <- Hm5 in I1, I2, I3, I4. clear Hm5.
  assert (Hm5 : forall a, a < p \/ p + process_span <= a -> rd m5 a = rd m4 a) by (intros a Ha; apply I4; fields; lia).
  destruct (since_edit W _ _ (with_mem m5 (with_mem m4 (core v3))) Hs4) as (Hs5 & Hlv5 & Hrm5); try done.
  { intros a Ha. apply Hm5. destruct (decide (p <= a < p + process_span)) as [Hin|]; [|lia].
    by destruct (new_unowned W _ _ p process_span a Hs4 Hp4 Hin). }
  { intros a Ha _. apply Hm5. destruct (decide (p <= a < p + process_span)) as [Hin|]; [|lia].
    by destruct (new_unowned W _ _ p process_span a Hs4 Hp4 Hin). }
  assert (Him : forall q, q ∈ im -> q <> p /\ q <> st /\ exists t, live (fmem (core v3)) q t).
  { intros q Hq. destruct (loaded_blocks _ _ _ _ _ q D4 Hq) as [t Ht]. split; [|split; [|eauto]].
    - intros ->. by apply (D5 p p process_span Hq); [apply Hnb|].
    - intros ->. specialize (Hd4 _ _ Ht). pose proof (live_block _ _ _ Ht). lia. }
  assert (Hsp : st + 16384 <= p \/ p + process_span <= st) by (specialize (Hd4 _ _ Hlp3); lia).
  exists (with_kmem m5 (with_kmem m4 (with_files v3 k2))), p, h, st, im. split; [|split; [|apply Hrm5; exact Hr4]].
  - unfold load_for_slot_body. rewrite (bind_Ret _ _ _ 0 k) by (unfold gets; by rewrite Hget).
    change (negb (0 =? 0)) with false. cbv iota.
    rewrite (bind_Ret _ _ _ _ _ (alloc_running _ k p m1 E1)). destruct (Z.eqb_spec pp 0); [done|].
    rewrite (bind_Ret _ _ _ tt k2) by (unfold process_init, edit_kmem, modify; destruct Em2 as [Em2]; rewrite kmem_with_kmem, Em2; reflexivity).
    rewrite (bind_Ret _ _ _ _ _ E3). change (0 <? 0) with false. cbv iota.
    change LIEBE_OS_USER_PROGRAM_STACK_SIZE with 16384.
    rewrite (bind_Ret _ _ _ _ _ (alloc_running 16384 (with_files v3 k2) st m4 E4)). destruct (Z.eqb_spec st 0); [lia|].
    destruct Em5 as [Em5]. rewrite <- Em5. reflexivity.
  - split; try done.
    + apply (loaded_frame m4); [apply (loaded_frame (fmem (core v3)))| | |]; try done.
      * intros q t _ Hq. by apply Hk4.
      * intros a Ha. apply (Hk4 p process_span Hlp3). fields. lia.
      * intros q t Hq Hl. destruct (Him q Hq) as (Hqp & _ & _). split; [by apply Hlv5|].
        intros a Ha. apply Hm5. destruct (block_distinct m4 q t p process_span Hl (nb_live _ _ _ _ Hp4) Hqp); lia.
      * intros a Ha. apply I4. fields. lia.
    + split; [apply Hlv5, (nb_live _ _ _ _ Hp4)|]. apply Hlv5, Hlv4. by right.
    + intros q b t Hb Hq. rewrite elem_of_app, elem_of_cons, list_elem_of_singleton in Hb. destruct Hb as [Hb|[->| ->]].
      * apply (D5 q b t Hb). by apply Hs2.
      * intros ->. specialize (Hd4 st t ltac:(by apply Hs3)). pose proof (live_block _ _ _ Hq). lia.
      * by apply (nb_new _ _ _ _ Hnb q t).
    + apply list.NoDup_app. split; [done|]. split.
      * intros q Hq Hin. destruct (Him q Hq) as (? & ? & _). rewrite elem_of_cons, list_elem_of_singleton in Hin. by destruct Hin.
      * apply nodup_two. unfold process_span in Hsp. lia.
    + split; [done|]. intros a Ha. change LIEBE_OS_USER_PROGRAM_STACK_SIZE with 16384 in Ha.
      change (rd m5 a = 0). rewrite Hm5 by lia. by apply Hz4.
    + intros a Ha. change (rd m5 a = 0). rewrite I4 by (fields; lia).
      destruct (Hk4 p process_span Hlp3) as [_ Hb]. rewrite Hb by (fields; lia). rewrite D7 by (fields; lia). apply Hz. fields. lia.
Qed.

End prepare.

(** ** Lemmas: the headers of a loaded image *)

Section headers.
Context (m : mem) (h : Z) (l : list Z).
Hypothesis Hh : page h.
Hypothesis Hh0 : 0 < h.
Hypothesis Hb : bytes m h (length l) = l.
Hypothesis Hlen : 52 <= Z.of_nat (length l).
Hypothesis Hend : h + Z.of_nat (length l) <= 2147483648.
Hypothesis Helf : is_elf l = true.
Hypothesis Hok : elf_ok l.

Lemma header_count : ld16 m (h + e_phnum) = file_segments l.
Proof. unfold file_segments. apply (bytes_half m h (length l)); [done|unfold e_phnum; lia..]. Qed.

Lemma header_table : elf_pheader h m = h + file_word l e_phoff /\ 0 < file_word l e_phoff.
Proof.
  pose proof header_count as Hn. pose proof (ld16_range m (h + e_phnum)) as Hr. destruct Hok as [Ht _]. unfold sizeof_phdr in Ht.
  assert (E : ld32 m (h + e_phoff) = file_word l e_phoff) by (apply (bytes_word m h (length l)); [done|unfold e_phoff; lia..]).
  pose proof (ld32_range m (h + e_phoff)) as Hr2. unfold is_elf in Helf.
  apply andb_prop in Helf as [_ Hne]. apply negb_true_iff, Z.eqb_neq in Hne.
  destruct Hh as [Hh1 _]. unfold elf_pheader. rewrite E, i32_id by lia. destruct (Z.eqb_spec (file_word l e_phoff) 0); [done|].
  rewrite u32_id by lia. split; [done|lia].
Qed.

Lemma header_segment i : 0 <= i < file_segments l -> seg m h i = file_segment l i.
Proof.
  intros Hi. destruct header_table as [Et Hpos]. destruct Hok as [Ht _]. unfold sizeof_phdr in Ht.
  unfold seg, segment_at, file_segment, phdr_addr. rewrite Et. unfold sizeof_phdr.
  assert (E : forall o, 0 <= o <= 28 ->
    ld32 m (h + file_word l e_phoff + i * 32 + o) = file_word l (file_word l e_phoff + i * 32 + o)).
  { intros o Ho. rewrite <- (bytes_word m h (length l) l (file_word l e_phoff + i * 32 + o)) by (done || lia). f_equal. lia. }
  rewrite !E; [done|..]; unfold p_flags, p_memsz, p_filesz, p_vaddr, p_offset, p_type; lia.
Qed.

Lemma header_seg_ok i : 0 <= i < file_segments l -> seg_ok h (seg m h i).
Proof.
  intros Hi. rewrite (header_segment i Hi). destruct Hok as [_ Hs]. destruct (Hs i Hi) as [H1 [H2 H3] H4 H5 H6].
  assert (Hr : 0 <= seg_memsz (file_segment l i) /\ 0 <= seg_vaddr (file_segment l i)).
  { rewrite <- (header_segment i Hi). split; apply ld32_range. }
  destruct Hh as [Hh1 Hh2]. unfold seg_phys. split; unfold seg_phys; try lia. rewrite H6. dlia.
Qed.

End headers.

(** ** Lemmas: blocks and address spaces *)

Section blocks.
Context `{KAllocator}.

Lemma live_stable m chunk dir ts q n a : dir_owned m chunk dir ts -> live m q n -> (q ∉ chunk :: dir :: ts) ->
  q <= a < q + n -> stable m dir a.
Proof.
  intros Hd Hl Hq Ha. split; [by apply (owned_live m q n)|]. intros Hs.
  destruct (dir_owned_space _ _ _ _ _ Hd Hs) as (r & Hr & _ & Har).
  destruct (block_distinct m q n r 4096 Hl (Paging.do_live _ _ _ _ Hd r Hr)); [by intros ->|lia|lia].
Qed.

(** What an address space shows is decided by its pages. *)
Lemma user_maps_kept m m' chunk dir ts v a bits : dir_owned m chunk dir ts ->
  (forall q b, q ∈ dir :: ts -> q <= b < q + 4096 -> rd m' b = rd m b) ->
  0 <= v < 4294967296 -> user_maps m dir v a bits -> user_maps m' dir v a bits.
Proof.
  intros Hd Hb Hv [Hm Hbits]. pose proof (dir_owned_wf _ _ _ _ Hd) as Hw.
  assert (Hs : forall b, space m dir b -> rd m' b = rd m b).
  { intros b Hsp. destruct (dir_owned_space _ _ _ _ _ Hd Hsp) as (q & Hq & Hne & Hr). apply (Hb q); [|done].
    by apply elem_of_cons in Hq as [->|Hq]. }
  assert (Hw' : dir_wf m' dir).
  { destruct Hw as [W1 W2 W3 W4]. split; [done|done| |]; intros i; [|intros j]; intros Hi; [|intros Hj];
      rewrite !(space_table m m' dir Hs) by done; auto. }
  split; [by apply (space_maps m m' dir Hs)|]. rewrite <- Hbits. f_equal.
  rewrite !paging_get_pte by (done || by apply page_of_page). by apply (space_pte m m' dir Hs), page_of_page.
Qed.

End blocks.

(** ** Lemmas: the task *)

Lemma loaded_entry `{KAllocator} m p h l im : loaded m p h l im -> 52 <= Z.of_nat (length l) < 2147483648 ->
  entry_of m p = entry_point l /\ forall a, entry_byte m p a ->
    a = p + proc_filetype \/ p + proc_elf_file <= a < p + proc_elf_file + 4 \/
    exists q n, q ∈ im /\ live m q n /\ q <= a < q + n.
Proof.
  intros [Hl Hp Hb Hk] Hlen. destruct (span_blocks (Z.of_nat (length l)) ltac:(lia)) as (Hsp & _ & _).
  unfold entry_of, entry_point, entry_byte. cbv zeta. destruct (is_elf l).
  - destruct Hk as (f & -> & _ & _ & Hlf & Eh & Et & Ef). rewrite Et, Z.eqb_refl, Ef. unfold elf_header. rewrite Eh. split.
    + unfold elf_get_entry. apply (bytes_word m h (length l)); [done|unfold e_entry; lia..].
    + intros a [->|[_ [Ha|[Ha|Ha]]]]; [by left|right; by left| |]; right; right.
      * exists f, 4096. split; [right; by left|]. split; [done|]. unfold ef_elf_memory in Ha. lia.
      * exists h, (span (Z.of_nat (length l))). split; [by left|]. split; [done|]. unfold e_entry in Ha. lia.
  - destruct Hk as (-> & Et & _). rewrite Et. change (PROCESS_FILETYPE_BINARY =? PROCESS_FILETYPE_ELF) with false.
    split; [done|]. intros a [->|[? _]]; [by left|done].
Qed.

Section task.
Context `{KAllocator} (W : Z -> Prop) (k k5 : kernel) (slot p h st : Z) (name l im tasks : list Z) (N : nat).
Hypothesis Hlow : forall a, W a -> ~ pool a.
Hypothesis Hpr : prepared W k k5 slot p h st name l im.
Hypothesis Hlen : 52 <= Z.of_nat (length l) < 2147483648.
Hypothesis Htl : task_list (kmem k) (task_head k) (task_tail k) tasks.
Hypothesis Htasks : forall t, t ∈ tasks -> live (kmem k) t 4096 /\ page t.
Hypothesis Hroom : room (kmem k5) (1027 + N).
#[local] Abbreviation m5 := (kmem k5).

Lemma old_byte q n a : live (kmem k) q n -> q <= a < q + n -> rd m5 a = rd (kmem k) a.
Proof.
  intros Hq Ha. apply (si_bytes _ _ _ (pp_since Hpr)).
  - by apply (owned_live (kmem k) q n).
  - intros Hw. by apply (Hlow a Hw), (live_pool (kmem k) q n).
Qed.

Lemma task_live t : t ∈ tasks -> live m5 t 4096.
Proof. intros Ht. apply (si_live _ _ _ (pp_since Hpr)). by apply Htasks. Qed.

(** The new blocks are none of the tasks'. *)
Lemma new_apart b n t : b ∈ im ++ [st; p] -> live m5 b n -> t ∈ tasks -> b + n <= t \/ t + 4096 <= b.
Proof.
  intros Hb Hl Ht. apply (block_distinct m5 b n t 4096); [done|by apply task_live|].
  intros ->. by apply (pp_new Hpr _ Hb (proj1 (Htasks t Ht))).
Qed.

Lemma new_no_link b n a : b ∈ im ++ [st; p] -> live m5 b n -> b <= a < b + n ->
  forall q, tasks !! pred (length tasks) = Some q -> a < q + 56 \/ q + 60 <= a.
Proof.
  intros Hb Hl Ha q Hq. destruct (new_apart b n q Hb Hl); [by eapply list_elem_of_lookup_2|lia|lia].
Qed.

Lemma block_in_im q : q ∈ im -> q ∈ im ++ [st; p].
Proof. intros Hq. apply elem_of_app. by left. Qed.
Lemma p_in_blocks : p ∈ im ++ [st; p].
Proof. apply elem_of_app. right. right. by left. Qed.
Lemma st_in_blocks : st ∈ im ++ [st; p].
Proof. apply elem_of_app. right. by left. Qed.

(** The memory once the process has its task [t]. *)
Set Implicit Arguments.
Record tasked (t chunk dir : Z) (ts : list Z) (m : mem) : Prop := {
  tk_heap : heap_ok m;
  tk_space : process_space m p t chunk dir ts;
  tk_pages : forall v, page v -> pte m dir v = Z.lor v 5;
  tk_fields : task_fields m t p (entry_point l);
  tk_list : task_list m (default t (tasks !! 0%nat)) t (tasks ++ [t]);
  tk_live : forall q s, live m q s <-> live m5 q s \/ q ∈ t :: chunk :: dir :: ts /\ s = 4096;
  tk_new : forall q s, live m5 q s -> q ∉ t :: chunk :: dir :: ts;
  tk_bytes : forall a, owned m5 a -> ~ last_link tasks a -> a < p + proc_task \/ p + proc_task + 4 <= a ->
    rd m a = rd m5 a;
  tk_room : room m N }.
Unset Implicit Arguments.

Lemma task_made : exists t m6 chunk dir ts, task_new p k5 = Ret t (appended k5 tasks t m6) /\ page t /\ t <> 0 /\
  tasked t chunk dir ts (st32 m6 (p + proc_task) t).
Proof.
  pose proof Hpr as [P1 P2 P3 P4 [P5 P5'] [P6 P6'] P7 P8 P9 P10 P11 P12].
  destruct (loaded_entry _ _ _ _ _ P4 Hlen) as [Een Heb].
  assert (Hhd : task_head k5 = task_head k /\ task_tail k5 = task_tail k) by (rewrite P1; done). destruct Hhd as [Ehd Etl].
  assert (Htl5 : task_list m5 (task_head k5) (task_tail k5) tasks).
  { rewrite Ehd, Etl. apply (task_list_frame (kmem k)); [|done]. intros i s a Hi Ha.
    apply (old_byte s 4096); [by apply Htasks, (list_elem_of_lookup_2 _ i)|unfold sizeof_task in Ha; lia]. }
  destruct (task_new_spec k5 p tasks N (si_ok _ _ _ P2) Hroom Htl5) as
    (t & m6 & chunk & dir & ts & E & Hl6 & Hsp6 & Hpte6 & Hf6 & Hok6 & Hr6 & Hlv6 & Hfr6 & Ho6).
  { intros t Ht. split; [by apply task_live|by apply Htasks]. }
  { intros a Ha. destruct (Heb a Ha) as [->|[Hin|(q & n & Hq & Hlq & Hin)]].
    - apply (owned_live m5 p process_span); [done|fields; lia].
    - apply (owned_live m5 p process_span); [done|fields; lia].
    - by apply (owned_live m5 q n). }
  rewrite Een in Hf6. pose proof (sp_live _ _ _ _ _ Hsp6) as Hlt. pose proof (sp_page _ _ _ _ _ Hsp6) as Hpt.
  set (m7 := st32 m6 (p + proc_task) t).
  assert (Hm7 : forall a, a < p + proc_task \/ p + proc_task + 4 <= a -> rd m7 a = rd m6 a) by (intros a Ha; by apply rd_st32_ne).
  assert (Hlp6 : live m6 p process_span) by (apply Hlv6; by left).
  destruct (client_frame m6 m7 p process_span Hok6 Hlp6) as (Hok7 & Hlv7 & Hr7); [intros a Ha; apply Hm7; fields; lia|].
  assert (Hpap : forall q, q ∈ t :: chunk :: dir :: ts -> live m6 q 4096 /\ forall a, q <= a < q + 4096 -> rd m7 a = rd m6 a).
  { intros q Hq. assert (Hl : live m6 q 4096) by (apply Hlv6; by right). split; [done|]. intros a Ha. apply Hm7.
    destruct (block_distinct m6 p process_span q 4096 Hlp6 Hl); [|fields; lia|fields; lia].
    intros ->. by apply (Hfr6 q process_span). }
  assert (Hsp7 : task_space m7 t chunk dir ts).
  { apply (task_space_kept m6); [done|intros q Hq; apply Hlv7; by apply Hpap| |].
    - intros q a Hq. apply Hpap. by right.
    - intros a Ha. apply (Hpap t); [by left|lia]. }
  assert (Hw : forall o, 0 <= o <= 4092 -> ld32 m7 (t + o) = ld32 m6 (t + o)).
  { intros o Ho. apply ld32_ext. intros j Hj. apply (Hpap t); [by left|lia]. }
  assert (Hs7 : forall a, space m6 dir a -> rd m7 a = rd m6 a).
  { intros a Ha. destruct (dir_owned_space _ _ _ _ _ (sp_owned _ _ _ _ _ Hsp6) Ha) as (q & Hq & _ & Hin).
    apply (Hpap q); [by right|done]. }
  exists t, m6, chunk, dir, ts. split; [done|]. split; [done|].
  split; [pose proof (live_block _ _ _ Hlt); lia|]. split.
  - exact Hok7.
  - split; [by apply Hlv7|unfold m7; rewrite ld32_st32_eq; by apply u32_id, Hpt|exact Hsp7].
  - intros v Hv. transitivity (pte m6 dir v); [by apply (space_pte m6 m7 dir Hs7)|by apply Hpte6].
  - destruct Hf6 as [F1 F2 F3 F4 F5]. split; rewrite <- ?Z.add_assoc in *;
      rewrite Hw by (unfold task_registers, reg_ip, reg_ss, reg_cs, reg_esp, task_process; lia); done.
  - apply (task_list_frame m6); [|done]. intros i s a Hi Ha. unfold sizeof_task in Ha.
    apply list_elem_of_lookup_2 in Hi. apply elem_of_app in Hi as [Hi|Hi].
    + apply Hm7. destruct (new_apart p process_span s p_in_blocks P5 Hi); fields; lia.
    + apply list_elem_of_singleton in Hi as ->. apply (Hpap t); [by left|lia].
  - intros q s. transitivity (live m6 q s); [apply Hlv7|apply Hlv6].
  - exact Hfr6.
  - intros a Ha Hll Hout. transitivity (rd m6 a); [by apply Hm7|]. apply Ho6; [done|]. intros q Hq.
    destruct (decide (a < q + 56)); [by left|]. destruct (decide (q + 60 <= a)); [by right|].
    destruct Hll. exists q. split; [done|]. unfold task_next_link. lia.
  - by apply Hr7.
Qed.

(** *** The address space *)

Context (t chunk dir : Z) (ts : list Z) (m7 : mem).
Hypothesis Htk : tasked t chunk dir ts m7.

Lemma new_byte q n a : q ∈ im ++ [st; p] -> live m5 q n -> q <= a < q + n ->
  a < p + proc_task \/ p + proc_task + 4 <= a -> rd m7 a = rd m5 a.
Proof.
  intros Hq Hl Ha Hout. apply (tk_bytes Htk); [by apply (owned_live m5 q n)| |done].
  intros (b & Hb & Hin). destruct (new_no_link q n a Hq Hl Ha b Hb); unfold task_next_link in Hin; lia.
Qed.

Lemma image_apart q n : q ∈ im ++ [st] -> live m5 q n -> p + process_span <= q \/ q + n <= p.
Proof.
  intros Hq Hl. apply (block_distinct m5); [apply (pp_live Hpr)|done|]. intros <-.
  pose proof (pp_nodup Hpr) as Hnd.
  change [st; p] with ([st] ++ [p]) in Hnd. rewrite app_assoc in Hnd.
  apply list.NoDup_app in Hnd as (_ & Hnd & _). apply (Hnd p Hq). by left.
Qed.

Lemma tasked_loaded : loaded m7 p h l im.
Proof.
  pose proof (pp_live Hpr) as [Hlp _].
  apply (loaded_frame m5); [apply Hpr|lia| |].
  - intros q n Hq Hl. split; [apply (tk_live Htk); by left|]. intros a Ha.
    apply (new_byte q n); [by apply block_in_im|done|done|].
    destruct (image_apart q n); [apply elem_of_app; by left|done|fields; lia|fields; lia].
  - intros a Ha. apply (new_byte p process_span); [apply p_in_blocks|done|fields; lia|fields; lia].
Qed.

Lemma tasked_stable q n a : live m5 q n -> q <= a < q + n -> stable m7 dir a.
Proof.
  intros Hl Ha. apply (live_stable m7 chunk dir ts q n); [| | |done].
  - apply (sp_owned _ _ _ _ _ (pr_space _ _ _ _ _ _ (tk_space Htk))).
  - apply (tk_live Htk). by left.
  - intros Hin. apply (tk_new Htk _ Hl). by right.
Qed.

Lemma image_end : h + Z.of_nat (length l) <= 2147483648.
Proof.
  destruct (span_blocks (Z.of_nat (length l)) ltac:(lia)) as (Hsp & _ & _).
  pose proof (live_low _ _ _ (ld_live _ _ _ _ _ (pp_loaded Hpr))). lia.
Qed.

Lemma image_headers : is_elf l = true -> elf_ok l ->
  ld16 m7 (h + e_phnum) = file_segments l /\ elf_pheader h m7 = h + file_word l e_phoff /\ 0 < file_word l e_phoff /\
  forall i, 0 <= i < file_segments l -> seg m7 h i = file_segment l i /\ seg_ok h (seg m7 h i).
Proof.
  intros He Hok. destruct tasked_loaded as [Hl Hp Hb _]. pose proof (live_block _ _ _ Hl) as [H0 _].
  pose proof image_end as Hend. split; [apply (header_count m7 h l); try done; lia|].
  destruct (header_table m7 h l Hp H0 Hb ltac:(lia) Hend He Hok) as [Et Hpos].
  split; [done|]. split; [done|]. intros i Hi.
  split; [apply (header_segment m7 h l)|apply (header_seg_ok m7 h l)]; try done; lia.
Qed.

Lemma image_stable a : h <= a < h + Z.of_nat (length l) -> stable m7 dir a.
Proof.
  intros Ha. destruct (span_blocks (Z.of_nat (length l)) ltac:(lia)) as (Hsp & _ & _).
  apply (tasked_stable h (span (Z.of_nat (length l)))); [|lia]. apply (pp_loaded Hpr).
Qed.

Lemma image_placed f : is_elf l = true -> elf_ok l -> live m5 f 4096 -> ld32 m7 (f + ef_elf_memory) = h -> image_at m7 dir f h.
Proof.
  intros He Hok Hlf Ef. destruct (image_headers He Hok) as (En & Et & Hpos & Hseg). pose proof image_end as Hend.
  pose proof Hok as [Ht _]. pose proof (ld16_range m7 (h + e_phnum)) as Hn. rewrite En in Hn.
  destruct tasked_loaded as [_ [Hh _] _ _].
  split; rewrite ?En, ?Et.
  - exact Ef.
  - unfold sizeof_phdr in *. lia.
  - intros a [Ha|Ha]; [apply (tasked_stable f 4096); [done|unfold ef_elf_memory in Ha; lia]|].
    apply image_stable. unfold sizeof_phdr in *. lia.
  - intros i Hi. by apply Hseg.
Qed.

(** *** What the program finds *)

Context (k7 : kernel) (Hk7 : kmem k7 = m7).

(** [m'] agrees with [m] on the blocks. *)
Definition same_blocks (m m' : mem) : Prop :=
  forall q n a, live m7 q n -> q <= a < q + n -> rd m' a = rd m a.

(** What [process_map_memory] leaves, whatever is stored elsewhere. *)
Set Implicit Arguments.
Record mapped_program (m8 : mem) : Prop := {
  mp_kept : ProcessLoad.kept m7 t chunk dir ts m8;
  mp_seen : forall m', same_blocks m8 m' -> program_seen l m' dir;
  mp_stack : forall m' d, same_blocks m8 m' -> 0 <= d < LIEBE_OS_USER_PROGRAM_STACK_SIZE ->
    user_byte m' dir (LIEBE_OS_PROGRAM_VIRTUAL_STACK_ADDRESS_END + d) 0 7;
  mp_rest : forall m' w, same_blocks m8 m' -> page w -> in_stack w = false -> ~ program_covers l w ->
    pte m' dir w = Z.lor w 5 }.
Unset Implicit Arguments.

Lemma same_space m8 m' a : ProcessLoad.kept m7 t chunk dir ts m8 -> same_blocks m8 m' -> space m8 dir a -> rd m' a = rd m8 a.
Proof.
  intros Hk Hs Ha. pose proof (sp_owned _ _ _ _ _ (kp_space _ _ _ _ _ _ Hk)) as Hd.
  destruct (dir_owned_space _ _ _ _ _ Hd Ha) as (q & Hq & _ & Hin).
  apply (Hs q 4096); [|done]. apply (kp_live _ _ _ _ _ _ Hk). by apply (Paging.do_live _ _ _ _ Hd).
Qed.

Lemma rest_seen m8 m' w : ProcessLoad.kept m7 t chunk dir ts m8 -> same_blocks m8 m' -> page w ->
  pte m8 dir w = pte m7 dir w -> pte m' dir w = Z.lor w 5.
Proof.
  intros Hk Hs Hw E. rewrite (space_pte m8 m' dir) by (done || (intros a; by apply same_space)).
  rewrite E. by apply (tk_pages Htk).
Qed.

Lemma block_seen m8 m' v q n a bits : ProcessLoad.kept m7 t chunk dir ts m8 -> same_blocks m8 m' ->
  user_maps m8 dir v a bits -> 0 <= v < 4294967296 -> live m5 q n -> q <= a < q + n ->
  user_byte m' dir v (rd m7 a) bits.
Proof.
  intros Hk Hs Hm Hv Hl Ha. exists a. pose proof (sp_owned _ _ _ _ _ (kp_space _ _ _ _ _ _ Hk)) as Hd.
  assert (Hb : forall r b, r ∈ chunk :: dir :: ts -> r <= b < r + 4096 -> rd m' b = rd m8 b).
  { intros r b Hr Hb. apply (Hs r 4096); [|done]. apply (kp_live _ _ _ _ _ _ Hk). by apply (Paging.do_live _ _ _ _ Hd). }
  split.
  - apply (user_maps_kept m8 m' chunk dir ts); try done. intros r b Hr. apply Hb. by right.
  - rewrite (Hs q n); [|apply (tk_live Htk); by left|done].
    apply (kp_stable _ _ _ _ _ _ Hk). by apply (tasked_stable q n).
Qed.

Lemma image_seen m8 m' v j bits : ProcessLoad.kept m7 t chunk dir ts m8 -> same_blocks m8 m' ->
  user_maps m8 dir v (h + j) bits -> 0 <= v < 4294967296 -> 0 <= j < Z.of_nat (length l) -> user_byte m' dir v (item_byte l j) bits.
Proof.
  intros Hk Hs Hm Hv Hj. rewrite <- (bytes_item m7 h (length l)); [|apply tasked_loaded|lia].
  destruct (span_blocks (Z.of_nat (length l)) ltac:(lia)) as (Hsp & _ & _).
  apply (block_seen m8 m' v h (span (Z.of_nat (length l))) (h + j)); try done; [|lia].
  apply (pp_loaded Hpr).
Qed.

Lemma stack_seen m8 m' d : ProcessLoad.kept m7 t chunk dir ts m8 -> same_blocks m8 m' ->
  (forall d, 0 <= d < LIEBE_OS_USER_PROGRAM_STACK_SIZE ->
     user_maps m8 dir (LIEBE_OS_PROGRAM_VIRTUAL_STACK_ADDRESS_END + d) (st + d) 7) ->
  0 <= d < LIEBE_OS_USER_PROGRAM_STACK_SIZE ->
  user_byte m' dir (LIEBE_OS_PROGRAM_VIRTUAL_STACK_ADDRESS_END + d) 0 7.
Proof.
  intros Hk Hs Hm Hd. pose proof (pp_live Hpr) as [_ Hls].
  assert (E0 : rd m7 (st + d) = 0).
  { destruct (image_apart st _ ltac:(apply elem_of_app; right; by left) Hls) as [Hap|Hap];
      (rewrite (new_byte st _ _ st_in_blocks Hls); [|lia|fields; lia]; apply (proj2 (pp_stack Hpr)); lia). }
  rewrite <- E0. apply (block_seen m8 m' _ st LIEBE_OS_USER_PROGRAM_STACK_SIZE (st + d)); try done; [by apply Hm| |lia].
  change LIEBE_OS_USER_PROGRAM_STACK_SIZE with 16384 in Hd. change LIEBE_OS_PROGRAM_VIRTUAL_STACK_ADDRESS_END with 4173824. lia.
Qed.

Lemma memory_mapped : (is_elf l = true -> elf_ok l) ->
  exists m8, process_map_memory p k7 = Ret 0 (with_kmem m8 k7) /\ mapped_program m8.
Proof.
  intros Hok. pose proof tasked_loaded as [Hl Hp Hb Hki].
  pose proof (pp_live Hpr) as [Hlp Hls].
  assert (Est : ld32 m7 (p + proc_stack) = st).
  { rewrite <- (proj1 (pp_stack Hpr)). apply ld32_ext. intros j Hj.
    apply (new_byte p process_span); [apply p_in_blocks|done|fields; lia|fields; lia]. }
  pose proof (live_low _ _ _ Hls) as Hlow'. change LIEBE_OS_USER_PROGRAM_STACK_SIZE with 16384 in Hlow'.
  pose proof (proj2 (pp_page Hpr)) as Hpst. pose proof image_end as Hend.
  destruct (is_elf l) eqn:He.
  - destruct Hki as (f & Eim & Hne & Hpf & Hlf & Ef & Eft & Eff).
    assert (Hlf5 : live m5 f 4096).
    { destruct (pp_loaded Hpr) as [_ _ _ Hki5]. rewrite He in Hki5.
      destruct Hki5 as (f' & Eim' & _ & _ & Hlf' & _). rewrite Eim in Eim'. by injection Eim' as <-. }
    destruct (image_headers He (Hok eq_refl)) as (En & _ & _ & Hseg).
    destruct (map_memory_elf_spec k7 p t chunk dir ts f h st) as (m8 & E & Hk & Hs & Hst & Hrest);
      rewrite ?Hk7; [apply (tk_heap Htk)|apply (tk_space Htk)|done|done|apply image_placed; by auto|done|done|lia|].
    rewrite Hk7 in *. exists m8. split; [done|]. split; [done| |by intros m' d ? ?; apply (stack_seen m8)|].
    2:{ unfold program_covers. rewrite He. intros m' w Hm' Hw Hst' Hcov. apply (rest_seen m8); [done|done|done|].
        apply Hrest; [done|done|]. intros i Hi. rewrite En in Hi. destruct (Hseg i Hi) as [-> _].
        destruct (seg_covers (file_segment l i) w) eqn:Hc; [|done]. by destruct Hcov; exists i. }
    intros m' Hm'.
    unfold program_seen. rewrite He. intros i d Hi Hd Hv Hlater. destruct (Hseg i Hi) as [Es [_ Hsv _ _]]. rewrite Es in Hsv.
    destruct (Hok eq_refl) as [_ Hs']. destruct (Hs' i Hi) as [S1 [S2 S3] _ _ _].
    apply (image_seen m8); [done|done| |lia|lia]. rewrite Z.add_assoc. rewrite <- Es in *.
    apply Hs; [by rewrite En|lia|done|]. intros j Hj. rewrite En in Hj.
    destruct (Hseg j ltac:(lia)) as [-> _]. by apply Hlater.
  - destruct Hki as (Eim & Eft & Eptr & Esz).
    destruct (map_memory_binary_spec k7 p t chunk dir ts h (Z.of_nat (length l)) st) as (m8 & E & Hk & Hs & Hst & Hrest);
      rewrite ?Hk7; [apply (tk_heap Htk)|apply (tk_space Htk)|done|done|done|done|lia|done|done|lia|].
    rewrite Hk7 in *. exists m8. split; [done|]. split; [done| |by intros m' d ? ?; apply (stack_seen m8)|].
    2:{ unfold program_covers. rewrite He. intros m' w Hm' Hw Hst' Hcov. apply (rest_seen m8); [done|done|done|].
        apply Hrest; [done|done|]. replace (page_end (h + Z.of_nat (length l)) - h) with (page_end (Z.of_nat (length l))); [done|].
        destruct Hp as [_ Hp2]. unfold page_end. dlia. }
    intros m' Hm'.
    unfold program_seen. rewrite He. intros d Hd. apply (image_seen m8); [done|done|by apply Hs|unfold LIEBE_OS_PROGRAM_VIRTUAL_ADDRESS; lia|done].
Qed.

(** *** The last store *)

Context (m8 : mem) (pp : Z).
Hypothesis Hm8 : mapped_program m8.
Hypothesis HppW : forall a, pp <= a < pp + 4 -> W a.
Hypothesis Hppo : region_owned (kmem k) pp 4.
#[local] Abbreviation m9 := (st32 m8 pp p).

Lemma pp_apart q n a m : live m q n -> q <= a < q + n -> a < pp \/ pp + 4 <= a.
Proof.
  intros Hl Ha. destruct (decide (pp <= a < pp + 4)) as [Hin|]; [|lia].
  by destruct (not_written W Hlow m q n a Hl Ha); apply HppW.
Qed.

Lemma m9_block q n a : live m7 q n -> q <= a < q + n -> rd m9 a = rd m8 a.
Proof. intros Hl Ha. apply rd_st32_ne. by apply (pp_apart q n a m7). Qed.

Lemma m9_edit : heap_ok m9 /\ (forall q n, live m9 q n <-> live m7 q n).
Proof.
  destruct (meta_frame m8 m9 (kp_heap _ _ _ _ _ _ (mp_kept Hm8))) as (Hok & Hlv & _).
  - intros a Ha. apply rd_st32_ne. destruct (decide (pp <= a < pp + 4)) as [Hin|]; [|lia].
    by destruct (Hppo a ltac:(lia)).
  - split; [done|]. intros q n. rewrite Hlv. apply (kp_live _ _ _ _ _ _ (mp_kept Hm8)).
Qed.

Lemma m9_stable q n a : live m7 q n -> q <= a < q + n -> (q ∉ chunk :: dir :: ts) -> rd m9 a = rd m7 a.
Proof.
  intros Hl Ha Hq. rewrite (m9_block q n) by done. apply (kp_stable _ _ _ _ _ _ (mp_kept Hm8)).
  apply (live_stable m7 chunk dir ts q n); try done.
  apply (sp_owned _ _ _ _ _ (pr_space _ _ _ _ _ _ (tk_space Htk))).
Qed.

Lemma m9_old q n a : live m5 q n -> q <= a < q + n -> rd m9 a = rd m7 a.
Proof.
  intros Hl Ha. apply (m9_stable q n); [apply (tk_live Htk); by left|done|].
  intros Hin. apply (tk_new Htk _ Hl). by right.
Qed.

Lemma m9_task a : t <= a < t + 4096 -> rd m9 a = rd m7 a.
Proof.
  intros Ha. pose proof (pr_space _ _ _ _ _ _ (tk_space Htk)) as Hsp.
  apply (m9_stable t 4096); [apply (sp_live _ _ _ _ _ Hsp)|done|apply (sp_fresh _ _ _ _ _ Hsp)].
Qed.

Lemma m9_object a : p <= a < p + process_span -> rd m9 a = rd m7 a.
Proof. apply m9_old. apply (pp_live Hpr). Qed.

Lemma m9_space : task_space m9 t chunk dir ts.
Proof.
  destruct m9_edit as [_ Hlv]. pose proof (kp_space _ _ _ _ _ _ (mp_kept Hm8)) as Hsp.
  assert (Hl : forall q, q ∈ t :: chunk :: dir :: ts -> live m7 q 4096) by (intros q Hq; apply (tk_live Htk); by right).
  apply (task_space_kept m8); [done|intros q Hq; by apply Hlv, Hl| |].
  - intros q a Hq Ha. apply (m9_block q 4096); [apply Hl; by right|done].
  - intros a Ha. apply (m9_block t 4096); [apply Hl; by left|lia].
Qed.

Lemma m9_empty a : p + proc_allocations <= a < p + proc_filetype \/ p + proc_buffer <= a < p + sizeof_process -> rd m9 a = 0.
Proof.
  intros Ha. rewrite m9_object by (fields; lia).
  rewrite (new_byte p process_span a p_in_blocks) by (apply (pp_live Hpr) || (fields; lia)).
  apply (pp_zero Hpr). fields. lia.
Qed.

Lemma m9_allocation i : 0 <= i < 1024 -> allocation m9 p i = (0, 0).
Proof.
  intros Hi. unfold allocation, ld32, alloc_ptr, alloc_size.
  rewrite !m9_empty by (left; unfold proc_allocations, proc_filetype; lia). done.
Qed.

Lemma m9_process : process_ok m9 p t chunk dir ts.
Proof.
  destruct m9_edit as [Hok Hlv]. pose proof (tk_space Htk) as [Hl Ht _].
  split; [done| | |].
  - split; [by apply Hlv| |apply m9_space]. rewrite <- Ht. apply ld32_ext. intros j Hj. apply m9_object. fields. lia.
  - intros i Hi Hne. by rewrite (m9_allocation i Hi) in Hne.
  - intros i j Hi _ _ Hne. by rewrite (m9_allocation i Hi) in Hne.
Qed.

Lemma m9_fields : task_fields m9 t p (entry_point l).
Proof.
  destruct (tk_fields Htk) as [F1 F2 F3 F4 F5].
  assert (Hw : forall o, 0 <= o <= 4092 -> ld32 m9 (t + o) = ld32 m7 (t + o))
    by (intros o Ho; apply ld32_ext; intros j Hj; apply m9_task; lia).
  split; rewrite <- ?Z.add_assoc in *;
    rewrite Hw by (unfold task_registers, reg_ip, reg_ss, reg_cs, reg_esp, task_process; lia); done.
Qed.

Lemma m9_list : task_list m9 (default t (tasks !! 0%nat)) t (tasks ++ [t]).
Proof.
  apply (task_list_frame m7); [|apply Htk]. intros i s a Hi Ha. unfold sizeof_task in Ha.
  apply list_elem_of_lookup_2 in Hi. apply elem_of_app in Hi as [Hi|Hi].
  - apply (m9_old s 4096); [by apply task_live|lia].
  - apply list_elem_of_singleton in Hi as ->. apply m9_task. lia.
Qed.

Lemma m9_loaded : loaded m9 p h l im.
Proof.
  apply (loaded_frame m7); [apply tasked_loaded|lia| |].
  - intros q n Hq Hl. split; [by apply m9_edit|]. intros a Ha.
    destruct (loaded_blocks _ _ _ _ _ q (pp_loaded Hpr) Hq) as [n5 Hn5].
    apply (m9_stable q n); [done|done|]. intros Hin. apply (tk_new Htk _ Hn5). by right.
  - intros a Ha. apply m9_object. fields. lia.
Qed.

Lemma m9_object5 a : p <= a < p + process_span -> a < p + proc_task \/ p + proc_task + 4 <= a -> rd m9 a = rd m5 a.
Proof.
  intros Ha Hout. rewrite m9_object by done. apply (new_byte p process_span); [apply p_in_blocks| |done|done].
  apply (pp_live Hpr).
Qed.

Lemma m9_since : since (fun a => W a \/ last_link tasks a) (core (files k)) (with_mem m9 (core (files k5))).
Proof.
  pose proof (pp_since Hpr) as [S1 S2 S3 S4 S5]. destruct m9_edit as [Hok Hlv].
  split; cbn [fmem with_mem the_disk]; [done| | |done|done].
  - intros q n Hq. apply Hlv, (tk_live Htk). left. by apply S2.
  - intros a Ha Hn. assert (Ha5 : owned m5 a) by (by apply (owned_ext (kmem k))).
    assert (Hob : a < p \/ p + process_span <= a).
    { apply (owned_fresh (kmem k) m5); [apply S2|apply (pp_live Hpr)| |done].
      intros q n Hq. exact (pp_new Hpr _ p_in_blocks Hq). }
    transitivity (rd m8 a); [apply rd_st32_ne; destruct (decide (pp <= a < pp + 4)) as [Hin|]; [|lia]; destruct Hn; left; by apply HppW|].
    transitivity (rd m7 a).
    { apply (kp_stable _ _ _ _ _ _ (mp_kept Hm8)). split.
      - apply (owned_ext m5); [|done]. intros q n Hq. apply (tk_live Htk). by left.
      - intros Hs. pose proof (sp_owned _ _ _ _ _ (pr_space _ _ _ _ _ _ (tk_space Htk))) as Hd.
        destruct (dir_owned_space _ _ _ _ _ Hd Hs) as (q & Hq & _ & Hin).
        destruct (owned_fresh m5 m7 q 4096 a); [|by apply (Paging.do_live _ _ _ _ Hd)| |done|lia|lia].
        + intros r n Hr. apply (tk_live Htk). by left.
        + intros r n Hr ->. apply (tk_new Htk _ Hr). by right. }
    rewrite (tk_bytes Htk); [|done|by intros ?; apply Hn; right|fields; lia].
    apply S3; [done|]. intros ?. apply Hn. by left.
Qed.

Lemma blocks_nodup : NoDup (im ++ st :: p :: t :: chunk :: dir :: ts).
Proof.
  change (st :: p :: t :: chunk :: dir :: ts) with ([st; p] ++ t :: chunk :: dir :: ts). rewrite app_assoc.
  pose proof (pr_space _ _ _ _ _ _ (tk_space Htk)) as Hsp.
  apply list.NoDup_app. split; [apply (pp_nodup Hpr)|]. split.
  - intros q Hq. assert (exists n, live m5 q n) as [n Hn]; [|by apply (tk_new Htk _ Hn)].
    rewrite elem_of_app, elem_of_cons, list_elem_of_singleton in Hq. pose proof (pp_live Hpr) as [? ?].
    destruct Hq as [Hq|[->| ->]]; [|by eauto..]. by apply (loaded_blocks m5 p h l im q); [apply (pp_loaded Hpr)|].
  - apply list.NoDup_cons. split; [apply (sp_fresh _ _ _ _ _ Hsp)|apply (do_nodup _ _ _ _ (sp_owned _ _ _ _ _ Hsp))].
Qed.

Lemma blocks_new q b n : b ∈ im ++ st :: p :: t :: chunk :: dir :: ts -> live (kmem k) q n -> q <> b.
Proof.
  change (st :: p :: t :: chunk :: dir :: ts) with ([st; p] ++ t :: chunk :: dir :: ts). rewrite app_assoc, elem_of_app.
  intros [Hb|Hb] Hq; [exact (pp_new Hpr _ Hb Hq)|]. intros ->.
  by apply (tk_new Htk _ (si_live _ _ _ (pp_since Hpr) _ _ Hq)).
Qed.

End task.


Lemma finish_run `{KAllocator} W k k5 slot p h st name l im tasks N pp :
  (forall a, W a -> ~ pool a) -> prepared W k k5 slot p h st name l im ->
  52 <= Z.of_nat (length l) < 2147483648 -> (is_elf l = true -> elf_ok l) ->
  task_list (kmem k) (task_head k) (task_tail k) tasks ->
  (forall t, t ∈ tasks -> live (kmem k) t 4096 /\ page t) ->
  (forall a, pp <= a < pp + 4 -> W a) -> region_owned (kmem k) pp 4 -> room (kmem k5) (1027 + N) ->
  exists k' t chunk dir ts, finish_process pp slot p k5 = Ret (0, p) k' /\
    started W k k' slot pp name l tasks p t chunk dir h st ts im.
Proof.
  intros Hlow Hpr Hlen Hok Htl Hts HppW Hppo Hroom.
  destruct (task_made W k k5 slot p h st name l im tasks N Hlow Hpr Hlen Htl Hts Hroom)
    as (t & m6 & chunk & dir & ts & E & Hpt & Ht0 & Htk).
  set (k7 := with_kmem (st32 m6 (p + proc_task) t) (appended k5 tasks t m6)).
  destruct (memory_mapped W k k5 slot p h st name l im tasks N Hpr Hlen Hts t chunk dir ts _ Htk k7 eq_refl Hok)
    as (m8 & E8 & Hm8).
  assert (exists v5, k5 = with_files v5 k) as [v5 ->] by (eexists; apply Hpr). set (k5 := with_files v5 k) in *. pose proof (pp_page Hpr) as [[Hp0 _] _].
  set (k' := with_processes (current_process k) (<[Z.to_nat slot := p]> (processes k)) (with_kmem (st32 m8 pp p) k7)).
  assert (Ek' : kmem k' = st32 m8 pp p) by reflexivity.
  exists k', t, chunk, dir, ts. split.
  - unfold finish_process. rewrite (bind_Ret _ _ _ _ _ E). unfold ERROR_I. rewrite u32_id by apply Hpt.
    destruct (Z.eqb_spec t 0); [done|].
    rewrite (bind_Ret _ _ _ tt k7) by reflexivity. rewrite (bind_Ret _ _ _ _ _ E8). change (0 <? 0) with false. cbv iota.
    unfold bind, kstore32, edit_kmem, modify, ret. reflexivity.
  - pose proof (m9_since W k k5 slot p h st name l im tasks N Hpr t chunk dir ts _ Htk m8 pp Hm8 HppW Hppo) as Hsi.
    split; rewrite ?Ek'.
    + by apply (m9_process W k k5 slot p h st name l im tasks N Hlow Hpr Hts t chunk dir ts _ Htk).
    + by apply (m9_allocation W k k5 slot p h st name l im tasks N Hlow Hpr Hts t chunk dir ts _ Htk).
    + apply (mp_seen Hm8). intros q n a. by eapply m9_block.
    + intros d. apply (mp_stack Hm8). intros q n a. by eapply m9_block.
    + destruct (m9_edit k p l t chunk dir ts _ m8 pp Hm8 Hppo) as [_ Hlv]. apply Hlv. apply (tk_live Htk). left.
      apply (pp_live Hpr).
    + intros w. apply (mp_rest Hm8). intros q n a. by eapply m9_block.
    + by apply (m9_fields W k5 p l tasks N Hlow t chunk dir ts _ Htk).
    + by apply (m9_list W k k5 slot p h st name l im tasks N Hlow Hpr Hts t chunk dir ts _ Htk).
    + by apply (m9_loaded W k k5 slot p h st name l im tasks N Hlow Hpr Hlen Hts t chunk dir ts _ Htk).
    + assert (Hob : forall a, p <= a < p + process_span -> a < p + proc_task \/ p + proc_task + 4 <= a -> rd (st32 m8 pp p) a = rd (kmem k5) a)
        by (by apply (m9_object5 W k k5 slot p h st name l im tasks N Hlow Hpr Hts t chunk dir ts _ Htk)).
      pose proof Hpr as [_ _ _ _ _ _ _ _ [P1 _] P2 P3 P4].
      split; [rewrite <- P1; apply ld32_ext; intros j Hj; apply Hob; fields; lia|].
      split; [rewrite <- P2; unfold ld16; rewrite !Hob by (fields; lia); done|].
      split; [eapply cstr_ext; [|exact P3]; intros j Hj; rewrite length_take in Hj; apply Hob; fields; lia|].
      intros a Ha. rewrite Hob by (fields; lia). apply P4. by right.
    + rewrite ld32_st32_eq. by apply u32_id.
    + by apply (blocks_nodup W k k5 slot p h st name l im tasks N Hpr t chunk dir ts _ Htk).
    + by apply (blocks_new W k k5 slot p h st name l im tasks N Hpr t chunk dir ts _ Htk).
    + reflexivity.
    + exact Hsi.
    + apply (pp_descs Hpr).
Qed.

Section start.
Context `{KAllocator} (ops : Z -> option filesystem_ops) (fat16_fs disk_obj : Z).
Context (dev : ata_device) (poll_fuel : nat) (image : Z -> Z) (stack_item : list Z).
Context (pfuel fuel rfuel pf : nat).
Hypothesis Hdrive : drive_ok dev poll_fuel image.
Hypothesis Hfuel : (16 < fuel)%nat.
Hypothesis Hrfuel : (0 < rfuel)%nat.
Hypothesis Hops : ops fat16_fs = Some (fat16_ops dev poll_fuel fat16_fs stack_item pfuel fuel rfuel).
Hypothesis Hfs : 0 < fat16_fs < 4294967296.
Context (root : list (list Z)) (filename : Z) (name rest e : list Z) (size i stat stack_process pp slot : Z).
Context (k : kernel) (tasks : list Z).
Hypothesis Hready : startable fat16_fs image pfuel rfuel pf root k filename name rest e size i stat pp slot tasks.
#[local] Abbreviation l := (program_bytes image (files k) e).

Lemma free_slot : 0 <= slot < 12 /\ process_get slot k = 0 /\ process_get_free_slot k = slot.
Proof.
  pose proof (sr_free Hready) as Hf. pose proof (sr_table Hready) as Hlen.
  pose proof (first_null_spec (processes k) 0) as Hs. rewrite Hf in Hs. destruct Hs as (H0 & Hz & _). rewrite Z.sub_0_r in Hz.
  pose proof (lookup_lt_Some _ _ _ Hz). split; [lia|]. split; [|unfold process_get_free_slot; by rewrite Hf].
  unfold process_get. change LIEBE_OS_MAX_PROCESSES with 12. zcases; cbn [orb]; try lia. by rewrite Hz.
Qed.

Lemma process_load_run : exists k' p t chunk dir h st ts im,
  process_load ops disk_obj stat stack_process pf filename pp k = Ret 0 k' /\
  started (load_locals stat pp) k k' slot pp name l tasks p t chunk dir h st ts im /\ process_get slot k' = p.
Proof.
  destruct free_slot as (Hslot & Hget & Hfree). destruct Hready as [R1 R2 R3 [R4 R5] R6 R7 R8 R9 R10].
  destruct (prepare_run ops fat16_fs disk_obj dev poll_fuel image stack_item pfuel fuel rfuel pf Hdrive Hfuel Hrfuel Hops Hfs
    (load_locals stat pp) root filename name rest e size i stat stack_process pp slot k R1 R3 1027 Hget R4 ltac:(lia) R10)
    as (k5 & p & h & st & im & E & Hpr & Hr).
  pose proof (ready_length fat16_fs image pfuel fuel rfuel pf Hfuel Hrfuel _ root filename name rest e size i stat (files k) R1) as [Hl Hsz].
  destruct (finish_run (load_locals stat pp) k k5 slot p h st name l im tasks 0 pp R3 Hpr ltac:(lia) R2 R6 R7
    ltac:(intros a Ha; by right) R5 Hr) as (k' & t & chunk & dir & ts & E' & Hst).
  exists k', p, t, chunk, dir, h, st, ts, im. split; [|split; [done|]].
  - unfold process_load. rewrite (bind_Ret _ _ _ slot k) by (unfold gets; by rewrite Hfree).
    destruct (Z.ltb_spec slot 0); [lia|]. unfold process_load_for_slot.
    rewrite (bind_Ret _ _ _ (0, p) k') by (by rewrite E). reflexivity.
  - rewrite (sd_kernel Hst). unfold process_get. change LIEBE_OS_MAX_PROCESSES with 12.
    cbn [processes with_processes]. rewrite list_lookup_insert_eq by lia. zcases; cbn [orb]; lia || done.
Qed.

End start.

(** *** Running it *)

(** The pages of the program and its stack are none of the kernel's heap. *)
Definition program_apart `{KAllocator} (l : list Z) : Prop :=
  forall w, in_stack w = true \/ program_covers l w -> ~ pool w.

Lemma started_resumable `{KAllocator} W k k' slot pp name l tasks p t chunk dir h st ts im :
  started W k k' slot pp name l tasks p t chunk dir h st ts im -> program_apart l -> resumable (kmem k') t dir.
Proof.
  intros Hst Hap. pose proof (sd_process Hst) as [Hok Hps _ _].
  pose proof (pr_space _ _ _ _ _ _ Hps) as Hsp. pose proof (sp_page _ _ _ _ _ Hsp) as Hpg.
  pose proof (sp_live _ _ _ _ _ Hsp) as Hl. pose proof (page_top _ Hpg) as Htop.
  assert (Hpool : pool t) by (apply (live_pool (kmem k') t 4096); [done|lia]).
  exists chunk, ts. split; [done|]. intros j Hj. destruct Hpg as [Hpg1 Hpg2].
  assert (Ep : page_of (t + j) = t) by (unfold page_of; dlia).
  apply (kept_user_maps (kmem k') t chunk dir ts (kmem k') (t + j) (t + j) 5);
    [by apply (kept_refl (kmem k') p)|lia|lia|done|by left|]. rewrite Ep.
  apply (sd_identity Hst); [done| |].
  - destruct (in_stack t) eqn:Hs; [|done]. destruct (Hap t (or_introl Hs) Hpool).
  - intros Hc. by apply (Hap t); [right|].
Qed.

(** The caller may store into its pointer first. *)
Lemma startable_pointer `{KAllocator} fat16_fs image pfuel rfuel pf root k filename name rest e size i stat pp slot tasks x :
  startable fat16_fs image pfuel rfuel pf root k filename name rest e size i stat pp slot tasks ->
  let k0 := with_kmem (st32 (kmem k) pp x) k in
  startable fat16_fs image pfuel rfuel pf root k0 filename name rest e size i stat pp slot tasks /\
  program_bytes image (files k0) e = program_bytes image (files k) e.
Proof.
  intros [R1 R2 R3 [R4 R5] R6 R7 R8 R9 R10] k0.
  assert (Hok : heap_ok (kmem k)) by apply (vo_heap _ (so_volume _ _ _ (lr_system R1))).
  assert (Hout : forall a, ~ (pp <= a < pp + 4) -> rd (kmem k0) a = rd (kmem k) a) by (intros a Ha; apply rd_st32_ne; lia).
  destruct (since_edit (load_locals stat pp) _ _ (core (files k0)) (since_refl (load_locals stat pp) (core (files k)) Hok))
    as (Hs & Hlv & Hr); [| |done|done|].
  - intros a Ha. apply Hout. intros Hin. by destruct (R5 a Hin).
  - intros a _ Hna. apply Hout. intros Hin. apply Hna. by right.
  - destruct (load_ready_since fat16_fs image pfuel rfuel pf _ root (files k) filename name rest e size i stat R1 (files k0) Hs eq_refl)
      as [R1' El]. split; [|done].
    split; rewrite ?El; try done.
    + split; [done|]. intros a Ha. apply (owned_ext (kmem k)); [|by apply R5]. intros q t. apply Hlv.
    + apply (task_list_frame (kmem k)); [|done]. intros j s a Hj Ha. apply Hout. intros Hin.
      destruct (R7 s) as [Hl _]; [by eapply list_elem_of_lookup_2|]. apply (R3 a); [by right|].
      apply (live_pool (kmem k) s 4096); [done|unfold sizeof_task in Ha; lia].
    + intros t Ht. destruct (R7 t Ht). split; [by apply Hlv|done].
    + by apply Hr.
Qed.

(** ** Properties *)

(** C1. [process_load] makes a program run from its file.  The conditions are
    those of [startable]: the volume is mounted and the path names a file of at
    least 52 bytes on it, any file whose ELF headers, if it has them, are
    [elf_ok]; the directories on the path end within their first sector
    ([path_good]); the file's links are usable, and its clusters and those of
    the directories lie below 2 GB ([chain_ok]); a descriptor, a slot of the
    process table and enough blocks are free; the task list is in order; and
    the caller's locals are apart from the heap and from what the file system
    keeps.  Then it returns 0 with a new process whose address space shows the
    bytes of the file where the program headers (or the flat load address) put
    them, a zeroed stack, and itself everywhere else; with a task, last in the
    list, that starts at the entry point of the file; in the first free slot;
    and with all the blocks it took its own.  Nothing else the kernel had
    changes, except the caller's locals and the link of the last task, and no
    file stays open. *)
Theorem process_load_starts `{KAllocator} ops fat16_fs disk_obj dev poll_fuel image stack_item pfuel fuel rfuel pf
    root filename name rest e size i stat stack_process pp slot k tasks :
  drive_ok dev poll_fuel image -> (16 < fuel)%nat -> (0 < rfuel)%nat ->
  ops fat16_fs = Some (fat16_ops dev poll_fuel fat16_fs stack_item pfuel fuel rfuel) -> 0 < fat16_fs < 4294967296 ->
  startable fat16_fs image pfuel rfuel pf root k filename name rest e size i stat pp slot tasks ->
  exists k' p t chunk dir h st ts im,
    process_load ops disk_obj stat stack_process pf filename pp k = Ret 0 k' /\
    started (load_locals stat pp) k k' slot pp name (program_bytes image (files k) e) tasks p t chunk dir h st ts im /\
    process_get slot k' = p.
Proof.
  intros Hdrive Hfuel Hrfuel Hops Hfs Hready.
  exact (process_load_run ops fat16_fs disk_obj dev poll_fuel image stack_item pfuel fuel rfuel pf Hdrive Hfuel Hrfuel Hops Hfs
    root filename name rest e size i stat stack_process pp slot k tasks Hready).
Qed.

(** ** Witnesses *)

(** The flat program 0:/dir/b.txt of 700 bytes on the volume of [Open]. *)
Definition tree_kernel : kernel := with_files tree_vfs (small_kernel ∅ 0).

Lemma tree_room n : (n <= 2000)%nat -> room tree_mem (3 + load_room [subdir_entry; hello_file] (split_path tree_rest) 700 n).
Proof.
  intros Hn. apply (proj2 tree_heap). unfold load_room, open_room.
  change (length (split_path tree_rest)) with 2%nat. change (length [subdir_entry; hello_file]) with 2%nat.
  change (Z.to_nat (blocks_for 700)) with 1%nat. lia.
Qed.

Lemma tree_system_byte a : system_byte [subdir_entry; hello_file] tree_vfs a -> a < 0x10000.
Proof.
  intros [Ha|[Ha|(p & Hp & Hp0 & _)]].
  - change (priv (core tree_vfs)) with 0x3000 in Ha. unfold sizeof_fat_private in Ha. lia.
  - cbv zeta in Ha. change (ld32 (fmem (core tree_vfs)) (priv (core tree_vfs) + fp_root_directory + dir_item)) with 0x4000 in Ha.
    cbn [length] in Ha. lia.
  - cbn [tree_vfs file_descriptors] in Hp. by apply elem_of_replicate in Hp as [-> _].
Qed.

Lemma tree_program_file : program_file tree_image [subdir_entry; hello_file] tree_vfs 0x5200 tree_name tree_rest b_file 700.
Proof.
  split; [exact tree_path_string|exact tree_path_good|vm_compute; exact eq_refl|vm_compute; exact eq_refl|vm_compute; exact eq_refl|lia|].
  exact tree_chain.
Qed.

Lemma tree_startable : startable 1 tree_image 2 2 10 [subdir_entry; hello_file] tree_kernel 0x5200 tree_name tree_rest
  b_file 700 0 0x10000 0x10010 0 [].
Proof.
  split.
  - split; [exact tree_system|exact tree_program_file|vm_compute; exact eq_refl|lia|vm_compute; lia|vm_compute; lia|vm_compute; lia| | | |].
    + intros a Ha%tree_system_byte. unfold load_locals. lia.
    + intros a Ha. change (Z.of_nat (length tree_name)) with 12 in Ha. unfold load_locals. lia.
    + intros a Ha. by left.
    + apply tree_high_owned; lia.
  - assert (E : is_elf (program_bytes tree_image (files tree_kernel) b_file) = false) by (vm_compute; exact eq_refl).
    intros He. by rewrite E in He.
  - intros a Ha Hp. change (saddr kernel_heap <= a) in Hp. change (saddr kernel_heap) with 0x01000000 in Hp. unfold load_locals in Ha. lia.
  - split; [lia|]. apply tree_high_owned; lia.
  - apply no_tasks.
  - intros t Ht. by apply not_elem_of_nil in Ht.
  - reflexivity.
  - vm_compute. exact eq_refl.
  - apply (tree_room (4 + 1027)). lia.
Qed.

(** The same volume with an ELF file in place of the flat one: one segment,
    the whole file at 0x400000, and the entry point behind the headers.  Cluster 2
    is at byte 526336. *)
Definition elf_headers : list Z :=
  [127; 69; 76; 70; 1; 1; 1; 0; 0; 0; 0; 0; 0; 0; 0; 0] ++ [2; 0; 3; 0; 1; 0; 0; 0] ++
  [84; 0; 64; 0] ++ [52; 0; 0; 0] ++ replicate 8 0 ++ [52; 0; 32; 0; 1; 0; 0; 0; 0; 0; 0; 0] ++
  [1; 0; 0; 0; 0; 0; 0; 0] ++ [0; 0; 64; 0] ++ [0; 0; 64; 0] ++ [188; 2; 0; 0] ++ [188; 2; 0; 0] ++ [5; 0; 0; 0; 0; 16; 0; 0].
Definition elf_image (a : Z) : Z :=
  if (526336 <=? a) && (a <? 526336 + 84) then default 0 (elf_headers !! Z.to_nat (a - 526336)) else tree_image a.
Definition elf_drive : ata_device :=
  {| ata_status := fun _ _ _ => 0x58;
     ata_word := fun cmd b i =>
       elf_image (512 * (lba_of cmd + b) + 2 * i) + 256 * elf_image (512 * (lba_of cmd + b) + 2 * i + 1) |}.
Definition elf_ops (a : Z) : option filesystem_ops :=
  if a =? 1 then Some (fat16_ops elf_drive 1 1 [] 2 17 2) else None.
#[local] Abbreviation elf_program := (program_bytes elf_image tree_vfs b_file).

Lemma elf_drive_ok : drive_ok elf_drive 1 elf_image.
Proof.
  assert (Hb : Forall (fun x => 0 <= x < 256) elf_headers)
    by (vm_compute; repeat constructor; discriminate || done).
  split; [|intros; exists 0; split; [lia|done]|done].
  intros a. unfold elf_image. destruct (_ && _); [|apply (drive_byte _ _ _ tree_drive_ok)].
  destruct (elf_headers !! Z.to_nat (a - 526336)) as [x|] eqn:E; [|cbn; lia].
  by apply (Forall_lookup_1 _ _ _ _ Hb E).
Qed.

Lemma elf_path_good : path_good elf_image tree [subdir_entry; hello_file] (split_path tree_rest).
Proof.
  assert (Hdir : disk_dir elf_image tree 5 = [b_file]) by (vm_compute; reflexivity).
  change (split_path tree_rest) with (map snd tree_path). cbn [map snd tree_path path_good]. split.
  - split; intros e [->|[->|He%not_elem_of_nil]%elem_of_cons]%elem_of_cons; [exact I|exact I|destruct He| | |destruct He].
    + intros _ _. split; [split; vm_compute; [split; [discriminate|]|]|..]; vm_compute; reflexivity.
    + intros _ Hd. exact (False_ind _ Hd).
  - change (search_entry [100; 105; 114] [subdir_entry; hello_file]) with (Some subdir_entry).
    cbn [descend_good]. intros _. change (entry_cluster subdir_entry) with 5. rewrite Hdir. split; [|exact I].
    split; intros e [->|He%not_elem_of_nil]%elem_of_cons; [exact I|destruct He| |destruct He].
    intros _ Hd. exact (False_ind _ Hd).
Qed.

Lemma elf_program_file : program_file elf_image [subdir_entry; hello_file] tree_vfs 0x5200 tree_name tree_rest b_file 700.
Proof.
  split; [exact tree_path_string|exact elf_path_good|vm_compute; exact eq_refl|vm_compute; exact eq_refl|vm_compute; exact eq_refl|lia|].
  change (chain_ok elf_image tree 2 0). split; [intros i Hi; lia|].
  intros [|i] Hi; [|lia]. split; vm_compute; [split; [discriminate|]|]; reflexivity.
Qed.

Lemma elf_program_ok : is_elf elf_program = true /\ file_segments elf_program = 1 /\ elf_ok elf_program.
Proof.
  assert (En : file_segments elf_program = 1) by (vm_compute; exact eq_refl).
  split; [vm_compute; exact eq_refl|]. split; [exact En|]. split; [vm_compute; discriminate|].
  rewrite En. intros i Hi. replace i with 0 by lia. clear.
  assert (E : file_segment elf_program 0 = {| seg_type := 1; seg_offset := 0; seg_vaddr := 0x400000; seg_filesz := 700;
    seg_memsz := 700; seg_flags := 5 |}) by (vm_compute; exact eq_refl).
  assert (El : Z.of_nat (length elf_program) = 700) by (vm_compute; exact eq_refl).
  rewrite E. split; rewrite ?El; cbn; lia || done.
Qed.

Lemma elf_startable : startable 1 elf_image 2 2 10 [subdir_entry; hello_file] tree_kernel 0x5200 tree_name tree_rest
  b_file 700 0 0x10000 0x10010 0 [].
Proof.
  destruct tree_startable as [[L1 _ L3 L4 L5 L6 L7 L8 L9 L10 L11] _ R3 R4 R5 R6 R7 R8 R9].
  split; [|intros _; exact (proj2 (proj2 elf_program_ok))|exact R3|exact R4|exact R5|exact R6|exact R7|exact R8|exact R9].
  split; [exact L1|exact elf_program_file|exact L3|exact L4|exact L5|exact L6|exact L7|exact L8|exact L9|exact L10|exact L11].
Qed.

Lemma process_load_starts_witness : exists k' p t chunk dir h st ts im,
  process_load elf_ops 0x2000 0x10000 0 10 0x5200 0x10010 tree_kernel = Ret 0 k' /\
  started (load_locals 0x10000 0x10010) tree_kernel k' 0 0x10010 tree_name elf_program [] p t chunk dir h st ts im /\
  process_get 0 k' = p.
Proof.
  exact (process_load_starts elf_ops 1 0x2000 elf_drive 1 elf_image [] 2 17 2 10 [subdir_entry; hello_file] 0x5200
    tree_name tree_rest b_file 700 0 0x10000 0 0x10010 0 tree_kernel [] elf_drive_ok ltac:(lia) ltac:(lia) eq_refl ltac:(lia)
    elf_startable).
Defined.
