(* ===== verification/ProcessEnd.v ===== *)
(** * The process table and the end of a process

    The slots of [processes], switching, unlinking, and what
    [process_terminate] gives back.  The source calls [kfree] on every entry of
    the allocation table, used or not, so its effect depends on what the
    kernel's allocator does with the null pointer; the theorem about it is
    stated for [kernel_allocator]. *)
From S2P Require Import Prelude Config Memory CString Heap KHeap Paging Terminal PathParser Disk Fat16 File Elf Kernel Task Process ProcessMem.

(** ** Lemmas: releasing the table *)

Section allocations.
Context (process task chunk dir : Z) (ts : list Z) (m0 : mem).
Context (Hok : @process_ok kernel_allocator m0 process task chunk dir ts).
(** The byte that [kfree(0)] clears does not make it go on. *)
Context (Hbit : Z.land (rd m0 0x6E00) HEAP_BLOCK_HAS_NEXT = 0).

(** After the entries below [i]. *)
Record terminated (i : Z) (m : mem) : Prop := {
  tm_heap : heap_ok m;
  tm_live : forall q t, live m q t <-> live m0 q t /\
    forall j, 0 <= j < i -> (allocation m0 process j).1 <> q;
  tm_bytes : forall a, ~ meta a -> a <> 0x6E00 -> rd m a = rd m0 a;
  tm_byte : Z.land (rd m 0x6E00) HEAP_BLOCK_HAS_NEXT = 0 }.

Lemma not_meta_low : ~ @meta kernel_allocator 0x6E00.
Proof. intros Hm. unfold meta, kernel_allocator, in_table in Hm. change (entries (table kernel_heap)) with 0x7E00 in Hm. lia. Qed.

Lemma kernel_process_high : 0x1000000 <= process.
Proof.
  pose proof (pr_live _ _ _ _ _ _ (po_space _ _ _ _ _ _ Hok)) as Hl.
  exact (@live_pool kernel_allocator m0 process process_span process Hl ltac:(unfold process_span; lia)).
Qed.

Lemma terminated_entry i j m : terminated i m -> 0 <= j < 1024 ->
  ld32 m (alloc_ptr process j) = (allocation m0 process j).1.
Proof.
  intros Ht Hj. apply ld32_ext. intros o Ho. pose proof kernel_process_high.
  assert (Hin : process <= alloc_ptr process j + o < process + process_span)
    by (unfold alloc_ptr, proc_allocations, process_span; lia).
  apply (tm_bytes _ _ Ht); [|lia].
  apply (live_block _ _ _ (pr_live _ _ _ _ _ _ (po_space _ _ _ _ _ _ Hok))), Hin.
Qed.

(** A null entry: [kfree(0)] clears the byte. *)
Lemma terminated_null i m : terminated i m -> 0 <= i -> (allocation m0 process i).1 = 0 ->
  terminated (i + 1) (kfree 0 m).
Proof.
  intros Ht Hi E0. destruct (kfree_null m) as (Hz & _ & Hf). specialize (Hf (tm_byte _ _ Ht)).
  destruct (@meta_frame kernel_allocator m (kfree 0 m)) as (Hh & Hlv & _); [apply (tm_heap _ _ Ht)| |].
  { intros a Ha. apply Hf. intros ->. by apply not_meta_low. }
  split; [done| | |by rewrite Hz].
  - intros q t. rewrite Hlv, (tm_live _ _ Ht). split; intros [Hq Hn]; (split; [done|]); intros j Hj.
    + destruct (decide (j = i)) as [->|]; [rewrite E0|apply Hn; lia].
      pose proof (live_block _ _ _ Hq). lia.
    + apply Hn. lia.
  - intros a Ha Hne. rewrite Hf by done. by apply (tm_bytes _ _ Ht).
Qed.

(** An entry in use: its block goes. *)
Lemma terminated_block i m p s : terminated i m -> 0 <= i < 1024 ->
  allocation m0 process i = (p, s) -> p <> 0 -> terminated (i + 1) (kfree p m).
Proof.
  intros Ht Hi Ea Hp. pose proof (po_entry _ _ _ _ _ _ Hok i Hi) as He. rewrite Ea in He.
  destruct (He Hp) as [_ _ _ Hl _ _]. cbn [fst snd] in Hl.
  assert (Hlm : live m p (span s)).
  { apply (tm_live _ _ Ht). split; [done|]. intros j Hj E.
    apply (po_distinct _ _ _ _ _ _ Hok i j); [lia|lia|lia|by rewrite Ea|by rewrite Ea, E]. }
  destruct (@ka_free_spec kernel_allocator m p (span s) (tm_heap _ _ Ht) Hlm) as (Hh & Hlv & _ & Ho).
  split; [done| | |].
  - intros q t. rewrite (Hlv q t), (tm_live _ _ Ht). split.
    + intros [[Hq Hn] Hne]. split; [done|]. intros j Hj.
      destruct (decide (j = i)) as [->|]; [rewrite Ea; by apply not_eq_sym|apply Hn; lia].
    + intros [Hq Hn]. split; [split; [done|]|]; [intros j Hj; apply Hn; lia|].
      intros ->. apply (Hn i); [lia|by rewrite Ea].
  - intros a Ha Hne. transitivity (rd m a); [exact (Ho a Ha)|by apply (tm_bytes _ _ Ht)].
  - rewrite <- (tm_byte _ _ Ht). f_equal. exact (Ho _ not_meta_low).
Qed.

Lemma terminate_loop_spec : forall n k i, terminated i (kmem k) -> 0 <= i -> i + Z.of_nat n = 1024 ->
  exists m', @terminate_loop kernel_allocator n process i k = Ret tt (with_kmem m' k) /\ terminated 1024 m'.
Proof.
  induction n as [|n IH]; intros k i Ht Hi Hn; cbn [terminate_loop].
  - exists (kmem k). rewrite with_kmem_id. split; [done|]. by replace 1024 with i by lia.
  - destruct (allocation m0 process i) as [p s] eqn:Ea.
    rewrite (bind_Ret _ _ _ p k).
    2:{ unfold kload32, gets. f_equal. rewrite (terminated_entry i i) by (done || lia). by rewrite Ea. }
    assert (Ht' : terminated (i + 1) (kfree p (kmem k))).
    { destruct (decide (p = 0)) as [->|Hp]; [apply terminated_null; [done|done|by rewrite Ea]|].
      apply (terminated_block i (kmem k) p s); [done|lia|done|done]. }
    rewrite (bind_Ret _ _ _ tt (with_kmem (kfree p (kmem k)) k)) by done.
    destruct (IH (with_kmem (kfree p (kmem k)) k) (i + 1) Ht') as (m' & E & Hm'); [lia|lia|].
    exists m'. split; [|done]. by rewrite E, with_kmem_with_kmem.
Qed.
End allocations.

(** ** Lemmas: the table of processes *)

(** The process that is switched to: the first in the table. *)
Definition first_process (l : list Z) : option Z := head (filter (fun p => p <> 0) l).

Lemma kpanic_hangs {A} msg k : strlen 60 (at_list msg) <> None ->
  exists k', kpanic (A := A) msg k = Hang k'.
Proof.
  intros Hl. unfold kpanic, on_files, on_terminal, panic, print, bind, hang. cbn [memory].
  unfold lit. destruct (strlen 60 (at_list msg)); [by eexists|done].
Qed.

Lemma switch_to_first_spec k : forall l,
  match first_process l with
  | Some p => switch_to_first l k = Ret tt (with_processes p (processes k) k)
  | None => exists k', switch_to_first l k = Hang k'
  end.
Proof.
  induction l as [|x l IH]; cbn [switch_to_first].
  - by apply kpanic_hangs.
  - unfold first_process. rewrite filter_cons. destruct (Z.eqb_spec x 0) as [->|Hx]; cbn [negb].
    + by rewrite decide_False by (intros Hn; by apply Hn).
    + by rewrite decide_True by done.
Qed.

Lemma process_unlink_spec k process :
  let slot := Z.to_nat (ld16 (kmem k) (process + proc_id)) in
  let rest := <[slot := 0]> (processes k) in
  if decide (current_process k = process) then
    match first_process rest with
    | Some p => process_unlink process k = Ret tt (with_processes p rest k)
    | None => exists k', process_unlink process k = Hang k'
    end
  else process_unlink process k = Ret tt (with_processes (current_process k) rest k).
Proof.
  intros slot rest. set (k1 := with_processes (current_process k) rest k).
  assert (E : process_unlink process k =
    (if current_process k =? process then process_switch_to_any else ret tt) k1) by done.
  rewrite E. destruct (decide (current_process k = process)) as [<-|Hne].
  - rewrite Z.eqb_refl. pose proof (switch_to_first_spec k1 rest) as Hs.
    change (process_switch_to_any k1) with (switch_to_first rest k1). by destruct (first_process rest).
  - by rewrite (proj2 (Z.eqb_neq _ _)).
Qed.

(** ** Properties *)

(** Terminating a process gives all its allocations back:
    [process_terminate_allocations] leaves exactly the live blocks that are
    not in the process's table, and changes no client byte except 0x6E00,
    which [kfree(0)] clears for the unused entries (provided bit 6 of that
    byte is not set beforehand). *)
Theorem process_terminate_allocations_releases k process task chunk dir ts :
  @process_ok kernel_allocator (kmem k) process task chunk dir ts ->
  Z.land (rd (kmem k) 0x6E00) HEAP_BLOCK_HAS_NEXT = 0 ->
  exists m', @process_terminate_allocations kernel_allocator process k = Ret 0 (with_kmem m' k) /\
    kheap_ok m' /\
    (forall q t, kheap_live m' q t <-> kheap_live (kmem k) q t /\ ~ holds (kmem k) process q t) /\
    (forall a, ~ in_table kernel_heap a -> a <> 0x6E00 -> rd m' a = rd (kmem k) a).
Proof.
  set (m := kmem k). intros Hok Hbit.
  destruct (terminate_loop_spec process task chunk dir ts m Hok (Z.to_nat 1024) k 0)
    as (m' & E & [Hh Hlv Hb _]); [|lia|lia|].
  { split; [apply (po_heap _ _ _ _ _ _ Hok)| |done|done]. intros q t. split; [|tauto]. intros Hq. split; [done|lia]. }
  exists m'. split; [unfold process_terminate_allocations; by rewrite (bind_Ret _ _ _ _ _ E)|].
  split; [done|]. split; [|done]. intros q t. rewrite (Hlv q t). split; intros [Hq Hn]; (split; [done|]).
  - intros (_ & i & s & Hi & Ea & _). apply (Hn i Hi). by rewrite Ea.
  - intros j Hj E0. apply Hn. assert (Hq0 : q <> 0) by (pose proof (@live_block kernel_allocator _ _ _ Hq); lia).
    split; [done|]. exists j, (allocation m process j).2. split; [done|]. split; [by destruct (allocation m process j); cbn in *; subst|].
    pose proof (po_entry _ _ _ _ _ _ Hok j Hj ltac:(by rewrite E0)) as He. rewrite E0 in He.
    pose proof (en_live _ _ _ _ _ _ _ _ He) as Hl.
    destruct (@live_disjoint kernel_allocator _ _ _ _ _ Hq Hl) as [[_ ->]|Hd]; [done|].
    pose proof (@live_block kernel_allocator _ _ _ Hq). pose proof (live_block _ _ _ Hl). lia.
Qed.

(** Unlinking empties the process's slot; if it was the running one, the
    first remaining process takes over, and with none left the kernel panics. *)
Theorem process_unlink_switches k process :
  let slot := Z.to_nat (ld16 (kmem k) (process + proc_id)) in
  let rest := <[slot := 0]> (processes k) in
  if decide (current_process k = process) then
    match first_process rest with
    | Some p => process_unlink process k = Ret tt (with_processes p rest k)
    | None => exists k', process_unlink process k = Hang k'
    end
  else process_unlink process k = Ret tt (with_processes (current_process k) rest k).
Proof. apply process_unlink_spec. Qed.

(** A new process goes into the first empty slot, and when the 12 slots are
    taken [process_load] refuses before it touches anything. *)
Theorem process_load_slots `{KAllocator} ops disk_obj stat stack_process fuel filename process k :
  process_load ops disk_obj stat stack_process fuel filename process k =
  match list_find (fun p => p = 0) (processes k) with
  | Some (i, _) =>
    process_load_for_slot ops disk_obj stat stack_process fuel filename process (Z.of_nat i) k
  | None => Ret (- EISTKN) k
  end.
Proof.
  unfold process_load, process_get_free_slot, bind, gets.
  pose proof (first_null_spec (processes k) 0) as Hf.
  destruct (list_find (fun p => p = 0) (processes k)) as [[i p]|] eqn:E.
  - apply list_find_Some in E as (Hi & -> & Hb).
    rewrite (first_null_at (processes k) i Hi) by (intros j q Hj Hq ->; by apply (Hb j 0)).
    by rewrite (proj2 (Z.ltb_ge _ 0)) by lia.
  - apply list_find_None in E. destruct (first_null (processes k) 0) as [i|]; [|done].
    destruct Hf as (_ & Hi & _). exfalso. rewrite list.Forall_forall in E.
    by apply (E 0 (list_elem_of_lookup_2 _ _ _ Hi)).
Qed.

(** ** Witnesses *)

Lemma process_terminate_allocations_releases_witness : exists k process m',
  @process_terminate_allocations kernel_allocator process k = Ret 0 (with_kmem m' k) /\
  (forall q t, kheap_live m' q t <-> kheap_live (kmem k) q t /\ ~ holds (kmem k) process q t).
Proof.
  destruct (process_kernel ∅ ltac:(done)) as (k & process & task & chunk & dir & ts & Hok & _ & _ & _ & _ & _ & _ & _ & Hst).
  destruct (process_terminate_allocations_releases k process task chunk dir ts Hok) as (m' & E & _ & Hl & _).
  - rewrite (proj2 (Hst 0x6E00 ltac:(lia))). reflexivity.
  - exists k, process, m'. split; [exact E|exact Hl].
Defined.
