(* ===== verification/Idt.v ===== *)
(** * The interrupt tables: [src/idt/idt.c], [src/idt/idt.h]

    The gates are bytes of memory; the callback and command tables are lists
    of function names, where C has function pointers.  A handler either comes
    back to its caller or leaves for user land through [task_return].  The
    functions that dispatch take the functions behind the names as arguments;
    [Isr80h] supplies them. *)
From S2P Require Import Prelude Config Memory CString Heap KHeap Paging Terminal PathParser Disk Fat16 File Elf Kernel Task Process.

(** ** Layout *)

(** [struct idt_desc]. *)
Definition offset_1 : Z := 0.
Definition selector : Z := 2.
Definition zero : Z := 4.
Definition type_attr : Z := 5.
Definition offset_2 : Z := 6.
Definition sizeof_idt_desc : Z := 8.

(** [struct idtr_des]. *)
Definition idtr_limit : Z := 0.
Definition idtr_base : Z := 2.

(** How a call that may not return ends. *)
Inductive departure (A : Type) : Type :=
| back (a : A)
| gone (r : registers).
Arguments back {A} a.
Arguments gone {A} r.

(** ** Operations *)

Section operations.
Context `{KAllocator} (mmu : mmu_type).
(** The addresses of [idt_descriptors] and [idtr_descriptor]. *)
Context (idt_descriptors idtr_descriptor : Z).

Definition idt_set (interrupt_no address : Z) (m : mem) : mem :=
  let descriptor := idt_descriptors + interrupt_no * sizeof_idt_desc in
  let m := st16 m (descriptor + offset_1) (Z.land address 0x0000ffff) in
  let m := st16 m (descriptor + selector) KERNEL_CODE_SELECTOR in
  let m := wr m (descriptor + zero) 0x00 in
  let m := wr m (descriptor + type_attr) 0xEE in
  st16 m (descriptor + offset_2) (Z.shiftr address 16).

Definition idt_register_interrupt_callback (interrupt : Z) (interrupt_callback : callback)
  : M kernel Z :=
  if (interrupt <? 0) || (LIEBE_OS_TOTAL_INTERRUPTS <=? interrupt) then ret (- EINVARG)
  else
    modify (fun k => with_tables
      (<[Z.to_nat interrupt := Some interrupt_callback]> (interrupt_callbacks k))
      (isr80h_commnads k) k) ;;;
    ret 0.

(** The loop over the exceptions; its results are dropped. *)
Fixpoint register_exceptions (n : nat) (i : Z) : M kernel unit :=
  match n with
  | O => ret tt
  | S n' => idt_register_interrupt_callback i cb_exception ;;; register_exceptions n' (i + 1)
  end.

(** [interrupt_pointer_table] and the two other entry points are assembly
    labels; loading the register is assembly. *)
Definition idt_init (interrupt_pointer_table : Z -> Z) (int_0_handler isr80h_wrapper : Z)
  : M kernel unit :=
  let sizeof_descriptors := LIEBE_OS_TOTAL_INTERRUPTS * sizeof_idt_desc in
  edit_kmem (memset idt_descriptors 0 sizeof_descriptors) ;;;
  edit_kmem (fun m => st16 m (idtr_descriptor + idtr_limit) (sizeof_descriptors - 1)) ;;;
  kstore32 (idtr_descriptor + idtr_base) idt_descriptors ;;;
  edit_kmem (for_loop (Z.to_nat LIEBE_OS_TOTAL_INTERRUPTS) 0
    (fun i => idt_set i (interrupt_pointer_table i))) ;;;
  edit_kmem (idt_set 0 int_0_handler) ;;;
  edit_kmem (idt_set 0x80 isr80h_wrapper) ;;;
  register_exceptions (Z.to_nat 0x20) 0 ;;;
  idt_register_interrupt_callback 0x20 cb_clock ;;; ret tt.

(** [task_current()->process] *)
Definition current_task_process : M kernel Z :=
  let! task := gets current_task in kload32 (task + task_process).

Definition idt_handle_exception : M kernel registers :=
  let! process := current_task_process in
  process_terminate process ;;; task_next mmu.

Definition idt_clock : M kernel unit := ret tt.

(** The port writes that acknowledge the interrupt leave the state alone. *)
Definition int_null_fn : M kernel unit := ret tt.
Definition int_0_fn : M kernel unit :=
  on_files (on_terminal (print 30 (lit ([10] ++ codes "Divide by zero found" ++ [10])))).

Definition isr80h_register_command (command_id : Z) (c : command) : M kernel unit :=
  (if (command_id <? 0) || (LIEBE_OS_ISR80H_MAX_COMMANDS <=? command_id)
   then kpanic (codes "!Command out of bounds") else ret tt) ;;;
  let! existing := gets (fun k => isr80h_commnads k !! Z.to_nat command_id) in
  match existing with
  | Some (Some _) => kpanic (codes "!Trying to set on exisitng command")
  | _ =>
    modify (fun k => with_tables (interrupt_callbacks k)
      (<[Z.to_nat command_id := Some c]> (isr80h_commnads k)) k)
  end.

(** *** Dispatch *)

Section dispatch.
(** The functions behind the names; the frame is passed on. *)
Context (run_callback : callback -> Z -> M kernel (departure unit))
        (run_command : command -> Z -> M kernel (departure Z)).

(** [interrupt] is the number the entry point pushes, an index of the table. *)
Definition interrupt_handler (interrupt frame : Z) : M kernel (departure unit) :=
  kernel_page ;;;
  let! cb := gets (fun k => interrupt_callbacks k !! Z.to_nat interrupt) in
  let! r :=
    match cb with
    | Some (Some c) => task_current_save_state frame ;;; run_callback c frame
    | _ => ret (back tt)
    end in
  match r with
  | gone regs => ret (gone regs)
  | back _ => task_page ;;; ret (back tt)
  end.

Definition isr80h_handle_command (command_id frame : Z) : M kernel (departure Z) :=
  if (command_id <? 0) || (LIEBE_OS_ISR80H_MAX_COMMANDS <=? command_id) then ret (back 0)
  else
    let! fn_ptr := gets (fun k => isr80h_commnads k !! Z.to_nat command_id) in
    match fn_ptr with
    | Some (Some c) => run_command c frame
    | _ => ret (back 0)
    end.

Definition isr80h_handler (command_id frame : Z) : M kernel (departure Z) :=
  kernel_page ;;;
  task_current_save_state frame ;;;
  let! res := isr80h_handle_command command_id frame in
  match res with
  | gone regs => ret (gone regs)
  | back v => task_page ;;; ret (back v)
  end.
End dispatch.

End operations.

(** ** The abstract view *)

(** A gate as the processor reads it: the entry point, its selector and type. *)
Definition gate (m : mem) (idt n : Z) : Z * Z * Z :=
  let d := idt + n * sizeof_idt_desc in
  (ld16 m (d + offset_1) + 65536 * ld16 m (d + offset_2), ld16 m (d + selector), rd m (d + type_attr)).

(** ** Lemmas *)

Lemma idt_set_gate idt n address m : 0 <= address < 4294967296 ->
  gate (idt_set idt n address m) idt n = (address, KERNEL_CODE_SELECTOR, 0xEE) /\
  (forall a, a < idt + n * 8 \/ idt + n * 8 + 8 <= a -> rd (idt_set idt n address m) a = rd m a).
Proof.
  intros Ha. unfold gate, idt_set, sizeof_idt_desc, offset_1, selector, zero, type_attr, offset_2.
  change 0x0000ffff with (Z.ones 16). rewrite Z.land_ones, Z.shiftr_div_pow2 by lia.
  change (2 ^ 16) with 65536. set (d := idt + n * 8). split.
  - rewrite ld16_st16_eq. rewrite (ld16_st16_ne _ (d + 6) _ (d + 0)), (ld16_st16_ne _ (d + 6) _ (d + 2)),
      (rd_st16_ne _ (d + 6)) by lia.
    assert (E : forall m' v w o, o + 2 <= 4 -> ld16 (wr (wr m' (d + 4) v) (d + 5) w) (d + o) = ld16 m' (d + o)).
    { intros m' v w o Ho. unfold ld16. rewrite !rd_wr_ne by lia. done. }
    rewrite !E, rd_wr_eq by lia. rewrite ld16_st16_eq, (ld16_st16_ne _ (d + 2)), ld16_st16_eq by lia.
    unfold u16. apply f_equal2; [apply f_equal2; [dlia|reflexivity]|reflexivity].
  - intros a Hr. rewrite !rd_st16_ne, !rd_wr_ne, !rd_st16_ne by lia. done.
Qed.

Lemma gate_ext m m' idt n :
  (forall a, idt + n * 8 <= a < idt + n * 8 + 8 -> rd m' a = rd m a) -> gate m' idt n = gate m idt n.
Proof.
  intros Hf. unfold gate, ld16, sizeof_idt_desc, offset_1, offset_2, selector, type_attr.
  by rewrite !Hf by lia.
Qed.

(** The loop over all gates. *)
Lemma set_gates_spec idt (f : Z -> Z) m : (forall i, 0 <= i < 512 -> 0 <= f i < 4294967296) ->
  let m' := for_loop (Z.to_nat 512) 0 (fun i => idt_set idt i (f i)) m in
  (forall i, 0 <= i < 512 -> gate m' idt i = (f i, KERNEL_CODE_SELECTOR, 0xEE)) /\
  (forall a, a < idt \/ idt + 4096 <= a -> rd m' a = rd m a).
Proof.
  intros Hf m'.
  assert (Hinv : (forall i, 0 <= i < 0 + Z.of_nat (Z.to_nat 512) -> gate m' idt i = (f i, KERNEL_CODE_SELECTOR, 0xEE)) /\
    (forall a, a < idt \/ idt + 4096 <= a -> rd m' a = rd m a)).
  { apply (for_loop_ind (fun j t => (forall i, 0 <= i < j -> gate t idt i = (f i, KERNEL_CODE_SELECTOR, 0xEE)) /\
      (forall a, a < idt \/ idt + 4096 <= a -> rd t a = rd m a))); [split; [lia|done]|].
    intros j t Hj [Hg Ho]. destruct (idt_set_gate idt j (f j) t) as [Hg' Ho']; [apply Hf; lia|].
    split; [|intros a Ha; rewrite Ho' by lia; by apply Ho].
    intros i Hi. destruct (decide (i = j)) as [->|Hne]; [done|].
    rewrite (gate_ext t) by (intros a Ha; apply Ho'; lia). apply Hg. lia. }
  destruct Hinv as [H1 H2]. split; [|done]. intros i Hi. apply H1. lia.
Qed.

Definition with_callbacks (l : list (option callback)) (k : kernel) : kernel :=
  with_tables l (isr80h_commnads k) k.

Lemma register_callback_eq n c k : 0 <= n < 512 ->
  idt_register_interrupt_callback n c k =
    Ret 0 (with_callbacks (<[Z.to_nat n := Some c]> (interrupt_callbacks k)) k).
Proof.
  intros Hn. unfold idt_register_interrupt_callback, LIEBE_OS_TOTAL_INTERRUPTS.
  by rewrite (proj2 (Z.ltb_ge n 0)), (proj2 (Z.leb_gt 512 n)) by lia.
Qed.

Lemma register_exceptions_spec : forall n i k, 0 <= i -> i + Z.of_nat n <= 512 ->
  length (interrupt_callbacks k) = 512%nat ->
  exists l, register_exceptions n i k = Ret tt (with_callbacks l k) /\ length l = 512%nat /\
    forall j, 0 <= j < 512 -> l !! Z.to_nat j =
      if decide (i <= j < i + Z.of_nat n) then Some (Some cb_exception) else interrupt_callbacks k !! Z.to_nat j.
Proof.
  induction n as [|n IH]; intros i k Hi Hn Hlen; cbn [register_exceptions].
  - exists (interrupt_callbacks k). split; [by destruct k|]. split; [done|]. intros j Hj.
    by rewrite decide_False by lia.
  - rewrite (bind_Ret _ _ _ _ _ (register_callback_eq i cb_exception k ltac:(lia))).
    destruct (IH (i + 1) (with_callbacks (<[Z.to_nat i := Some cb_exception]> (interrupt_callbacks k)) k))
      as (l & E & Hll & Hl); [lia|lia|cbn [interrupt_callbacks with_callbacks with_tables]; by rewrite length_insert|].
    exists l. split; [exact E|]. split; [done|]. intros j Hj. rewrite (Hl j Hj).
    cbn [interrupt_callbacks with_callbacks with_tables].
    destruct (decide (j = i)) as [->|Hne].
    + rewrite decide_False, (decide_True _ _) by lia. apply list_lookup_insert_eq. lia.
    + rewrite list_lookup_insert_ne by lia. repeat case_decide; (done || lia).
Qed.

#[local] Strategy 1000 [for_loop memset].

(** The memory [idt_init] leaves. *)
Definition idt_memory (idt idtr : Z) (table : Z -> Z) (h0 h80 : Z) (m : mem) : mem :=
  idt_set idt 0x80 h80 (idt_set idt 0 h0
    (for_loop (Z.to_nat 512) 0 (fun i => idt_set idt i (table i))
      (st32 (st16 (memset idt 0 4096 m) (idtr + idtr_limit) 4095) (idtr + idtr_base) idt))).

Lemma idt_init_run idt idtr table h0 h80 k :
  idt_init idt idtr table h0 h80 k =
  (register_exceptions (Z.to_nat 0x20) 0 ;;; idt_register_interrupt_callback 0x20 cb_clock ;;; ret tt)
    (with_kmem (idt_memory idt idtr table h0 h80 (kmem k)) k).
Proof.
  unfold idt_init, idt_memory. change (LIEBE_OS_TOTAL_INTERRUPTS * sizeof_idt_desc) with 4096.
  change LIEBE_OS_TOTAL_INTERRUPTS with 512. change (4096 - 1) with 4095.
  set (loop := for_loop (Z.to_nat 512) 0 (fun i => idt_set idt i (table i))). clearbody loop.
  set (clear := memset idt 0 4096). clearbody clear. reflexivity.
Qed.

Lemma idt_memory_spec idt idtr table h0 h80 m0 :
  (forall i, 0 <= i < 512 -> 0 <= table i < 4294967296) -> 0 <= h0 < 4294967296 -> 0 <= h80 < 4294967296 ->
  0 <= idt < 4294967296 -> idtr + 6 <= idt \/ idt + 4096 <= idtr ->
  let m := idt_memory idt idtr table h0 h80 m0 in
  (forall n, 0 <= n < 512 -> gate m idt n =
     (if n =? 0 then h0 else if n =? 0x80 then h80 else table n, KERNEL_CODE_SELECTOR, 0xEE)) /\
  ld16 m (idtr + idtr_limit) = 4095 /\ ld32 m (idtr + idtr_base) = idt /\
  (forall a, a < idtr \/ idtr + 6 <= a -> a < idt \/ idt + 4096 <= a -> rd m a = rd m0 a).
Proof.
  intros Ht H0 H80 Hidt Hap. unfold idt_memory.
  set (m1 := st32 (st16 (memset idt 0 4096 m0) (idtr + idtr_limit) 4095) (idtr + idtr_base) idt).
  destruct (set_gates_spec idt table m1 Ht) as [Hg2 Ho2]. set (m2 := for_loop _ _ _ m1) in *. clearbody m2.
  destruct (idt_set_gate idt 0 h0 m2 H0) as [Hg3 Ho3]. set (m3 := idt_set idt 0 h0 m2) in *. clearbody m3.
  destruct (idt_set_gate idt 0x80 h80 m3 H80) as [Hg4 Ho4]. set (m4 := idt_set idt 0x80 h80 m3) in *. clearbody m4.
  assert (Hidtr : forall a, idtr <= a < idtr + 6 -> rd m4 a = rd m1 a)
    by (intros a Ha; rewrite Ho4, Ho3, Ho2; (done || lia)).
  cbv zeta. split; [|split; [|split]].
  - intros n Hn. destruct (Z.eqb_spec n 0) as [->|Hn0]; [|destruct (Z.eqb_spec n 0x80) as [->|Hn8]].
    + rewrite (gate_ext m3) by (intros a Ha; apply Ho4; lia). exact Hg3.
    + exact Hg4.
    + rewrite (gate_ext m3), (gate_ext m2) by (intros a Ha; (apply Ho4 || apply Ho3); lia). by apply Hg2.
  - transitivity (ld16 m1 (idtr + idtr_limit)).
    + unfold ld16, idtr_limit. rewrite !Hidtr by lia. done.
    + unfold m1, idtr_limit, idtr_base, ld16. rewrite !rd_st32_ne by lia. apply ld16_st16_eq.
  - rewrite (ld32_ext m1 m4 (idtr + idtr_base)) by (intros i Hi; apply Hidtr; unfold idtr_base; lia).
    unfold m1. rewrite ld32_st32_eq. by apply u32_id.
  - intros a Ha1 Ha2. rewrite Ho4, Ho3, Ho2 by lia. unfold m1, idtr_limit, idtr_base.
    rewrite rd_st32_ne, rd_st16_ne by lia. apply rd_memset_out; lia.
Qed.

Lemma idt_init_spec idt idtr table h0 h80 k :
  (forall i, 0 <= i < 512 -> 0 <= table i < 4294967296) -> 0 <= h0 < 4294967296 -> 0 <= h80 < 4294967296 ->
  0 <= idt < 4294967296 -> idtr + 6 <= idt \/ idt + 4096 <= idtr ->
  length (interrupt_callbacks k) = 512%nat ->
  exists m l, idt_init idt idtr table h0 h80 k = Ret tt (with_callbacks l (with_kmem m k)) /\
    (forall n, 0 <= n < 512 -> gate m idt n =
       (if n =? 0 then h0 else if n =? 0x80 then h80 else table n, KERNEL_CODE_SELECTOR, 0xEE)) /\
    ld16 m (idtr + idtr_limit) = 4095 /\ ld32 m (idtr + idtr_base) = idt /\
    (forall n, 0 <= n < 512 -> l !! Z.to_nat n =
       if n <? 0x20 then Some (Some cb_exception)
       else if n =? 0x20 then Some (Some cb_clock) else interrupt_callbacks k !! Z.to_nat n) /\
    (forall a, a < idtr \/ idtr + 6 <= a -> a < idt \/ idt + 4096 <= a -> rd m a = rd (kmem k) a).
Proof.
  intros Ht H0 H80 Hidt Hap Hlen.
  destruct (idt_memory_spec idt idtr table h0 h80 (kmem k) Ht H0 H80 Hidt Hap) as (Hg & Hli & Hba & Ho).
  rewrite idt_init_run. set (m := idt_memory idt idtr table h0 h80 (kmem k)) in *. clearbody m.
  destruct (register_exceptions_spec (Z.to_nat 0x20) 0 (with_kmem m k)) as (l & E & Hll & Hl); [lia|lia|done|].
  exists m, (<[Z.to_nat 0x20 := Some cb_clock]> l). split; [|split; [done|split; [done|split; [done|split; [|done]]]]].
  - rewrite (bind_Ret _ _ _ _ _ E).
    by rewrite (bind_Ret _ _ _ _ _ (register_callback_eq 0x20 cb_clock _ ltac:(lia))).
  - intros n Hn. specialize (Hl n Hn). destruct (decide (n = 0x20)) as [->|Hne].
    + apply list_lookup_insert_eq. rewrite Hll. lia.
    + rewrite list_lookup_insert_ne, Hl by lia. rewrite (proj2 (Z.eqb_neq n 0x20)) by done.
      destruct (Z.ltb_spec n 0x20); case_decide; (done || lia).
Qed.

(** ** Properties *)

(** [idt_init] fills the interrupt table: each of the 512 gates is an
    interrupt gate of privilege 3 in the kernel's code segment to its entry
    point (0 and 0x80 to their own), the table register describes exactly the
    4096 bytes, the 32 exceptions and the clock get their callbacks, and no
    other callback and no memory outside the two structures changes. *)
Theorem idt_init_gates idt idtr table h0 h80 k :
  (forall i, 0 <= i < 512 -> 0 <= table i < 4294967296) -> 0 <= h0 < 4294967296 -> 0 <= h80 < 4294967296 ->
  0 <= idt < 4294967296 -> idtr + 6 <= idt \/ idt + 4096 <= idtr ->
  length (interrupt_callbacks k) = 512%nat ->
  exists m l, idt_init idt idtr table h0 h80 k = Ret tt (with_callbacks l (with_kmem m k)) /\
    (forall n, 0 <= n < 512 -> gate m idt n =
       (if n =? 0 then h0 else if n =? 0x80 then h80 else table n, KERNEL_CODE_SELECTOR, 0xEE)) /\
    ld16 m (idtr + idtr_limit) = 4095 /\ ld32 m (idtr + idtr_base) = idt /\
    (forall n, 0 <= n < 512 -> l !! Z.to_nat n =
       if n <? 0x20 then Some (Some cb_exception)
       else if n =? 0x20 then Some (Some cb_clock) else interrupt_callbacks k !! Z.to_nat n) /\
    (forall a, a < idtr \/ idtr + 6 <= a -> a < idt \/ idt + 4096 <= a -> rd m a = rd (kmem k) a).
Proof. apply idt_init_spec. Qed.

(** ** Witnesses *)

Lemma idt_init_gates_witness : exists m l,
  idt_init 0x50000 0x60000 (fun i => 0x100000 + 16 * i) 0x200000 0x200100 (small_kernel ∅ 0) =
    Ret tt (with_callbacks l (with_kmem m (small_kernel ∅ 0))) /\
  gate m 0x50000 33 = (0x100210, KERNEL_CODE_SELECTOR, 0xEE).
Proof.
  destruct (idt_init_gates 0x50000 0x60000 (fun i => 0x100000 + 16 * i) 0x200000 0x200100 (small_kernel ∅ 0))
    as (m & l & E & Hg & _); try lia.
  - apply length_replicate.
  - exists m, l. split; [exact E|]. by rewrite Hg by lia.
Defined.
