(* ===== verification/Keyboard.v ===== *)
(** * The keyboard: [src/keyboard/keyboard.c], [src/keyboard/classic.c]

    Each process has a ring buffer of 1024 characters in its object, between
    two counters that only grow; interrupts push into the current process's,
    and the running task's process pops from its own. *)
From S2P Require Import Prelude Config Memory CString Heap KHeap Paging Terminal PathParser Disk Fat16 File Elf Kernel Task Process Idt.

(** ** Layout and constants *)

(** [struct keyboard]. *)
Definition kb_init : Z := 0.
Definition kb_next : Z := 24.
Definition kb_capslock_state : Z := 28.
Definition KEYBOARD_CAPS_LOCK_ON : Z := 1.
Definition KEYBOARD_CAPS_LOCK_OFF : Z := 0.

Definition CLASSIC_KEYBOARD_KEY_RELEASED : Z := 0x80.
Definition ISR_KEYBOARD_INTERRUPT : Z := 0x21.
Definition CLASSIC_KEYBOARD_CAPSLOCK : Z := 0x3A.

Definition keyboard_scan_set_one : list Z :=
  [0x00; 0x1B] ++ codes "1234567890-=" ++ [0x08; 9] ++ codes "QWERTYUIOP[]" ++ [0x0d; 0x00] ++
  codes "ASDFGHJKL;'`" ++ [0x00] ++ codes "\ZXCVBNM,./" ++ [0x00] ++ codes "*" ++ [0x00; 0x20] ++
  replicate 11 0x00 ++ codes "789-456+1230.".

(** ** Operations *)

Section operations.
Context `{KAllocator}.
(** The address of the global [classic_keyboard]. *)
Context (classic_keyboard : Z).

(** [init] is the function behind the pointer in the structure. *)
Definition keyboard_insert (init : M kernel Z) (keyboard : Z) : M kernel Z :=
  let! fn := kload32 (keyboard + kb_init) in
  if fn =? 0 then ret (- EINVARG)
  else
    let! last := gets keyboard_list_last in
    (if negb (last =? 0) then
       kstore32 (last + kb_next) keyboard ;;;
       modify (fun k => with_keyboards (keyboard_list_head k) keyboard k)
     else modify (with_keyboards keyboard keyboard)) ;;;
    init.

(** [tail % sizeof(buffer)]: the counter is converted to [size_t]. *)
Definition keyboard_get_tail_index (process : Z) (m : mem) : Z :=
  ld32 m (process + proc_tail) mod LIEBE_OS_KEYBOARD_BUFFER_SIZE.

(** [c] is the byte of the [char]. *)
Definition keyboard_push (c : Z) : M kernel unit :=
  let! process_obj := process_current in
  if process_obj =? 0 then ret tt
  else if c =? 0 then ret tt
  else
    let! real_index := gets (fun k => keyboard_get_tail_index process_obj (kmem k)) in
    kstore8 (process_obj + proc_buffer + real_index) c ;;;
    let! tail := kload32 (process_obj + proc_tail) in
    kstore32 (process_obj + proc_tail) (tail + 1).

Definition keyboard_backspace (process_obj : Z) : M kernel unit :=
  let! tail := kload32 (process_obj + proc_tail) in
  kstore32 (process_obj + proc_tail) (tail - 1) ;;;
  let! real_index := gets (fun k => keyboard_get_tail_index process_obj (kmem k)) in
  kstore8 (process_obj + proc_buffer + real_index) 0x00.

Definition keyboard_pop : M kernel Z :=
  let! task := gets current_task in
  if task =? 0 then ret 0
  else
    let! process := kload32 (task + task_process) in
    let! head := kload32 (process + proc_head) in
    let real_index := head mod LIEBE_OS_KEYBOARD_BUFFER_SIZE in
    let! c := kload8 (process + proc_buffer + real_index) in
    if c =? 0x00 then ret 0
    else
      kstore8 (process + proc_buffer + real_index) 0 ;;;
      let! head := kload32 (process + proc_head) in
      kstore32 (process + proc_head) (head + 1) ;;;
      ret c.

Definition keyboard_set_capslock (keyboard state : Z) : M kernel unit :=
  kstore32 (keyboard + kb_capslock_state) state.
Definition keyboard_get_capslock (keyboard : Z) (m : mem) : Z :=
  i32 (ld32 m (keyboard + kb_capslock_state)).

(** The port write that enables the device leaves the state alone. *)
Definition classic_keyboard_init : M kernel Z :=
  idt_register_interrupt_callback ISR_KEYBOARD_INTERRUPT cb_keyboard ;;;
  keyboard_set_capslock classic_keyboard KEYBOARD_CAPS_LOCK_OFF ;;;
  ret 0.

(** The bound lets through the index just past the table; that access is
    undefined. *)
Definition classic_keyboard_scancode_to_char (scancode : Z) : M kernel Z :=
  if Z.of_nat (length keyboard_scan_set_one) <? scancode then ret 0
  else
    let! c := opt (keyboard_scan_set_one !! Z.to_nat scancode) in
    let! state := gets (fun k => keyboard_get_capslock classic_keyboard (kmem k)) in
    if (state =? KEYBOARD_CAPS_LOCK_OFF) && (65 <=? i8 c) && (i8 c <=? 90)
    then ret (u8 (c + 32)) else ret c.

(** [scancode] is what the first port read yields; the second is dropped. *)
Definition classic_keyboard_handle_interrupt (scancode : Z) : M kernel unit :=
  kernel_page ;;;
  if negb (Z.land scancode CLASSIC_KEYBOARD_KEY_RELEASED =? 0) then ret tt
  else if scancode =? CLASSIC_KEYBOARD_CAPSLOCK then
    let! old_state := gets (fun k => keyboard_get_capslock classic_keyboard (kmem k)) in
    keyboard_set_capslock classic_keyboard
      (if old_state =? KEYBOARD_CAPS_LOCK_ON then KEYBOARD_CAPS_LOCK_OFF
       else KEYBOARD_CAPS_LOCK_ON)
  else
    let! c := classic_keyboard_scancode_to_char scancode in
    (if negb (c =? 0) then keyboard_push c else ret tt) ;;;
    task_page ;;; ret tt.

Definition classic_init : Z := classic_keyboard.
Definition keyboard_init : M kernel Z := keyboard_insert classic_keyboard_init classic_init.

End operations.

Example scan_set_size : length keyboard_scan_set_one = 82%nat.
Proof. reflexivity. Qed.

(** ** The abstract view *)

(** The buffer of the process object [p] holds [q]: [h] and [t] characters
    were popped and pushed since the start. *)
Record ring (m : mem) (p h t : Z) (q : list Z) : Prop := {
  rb_head : ld32 m (p + proc_head) = u32 h;
  rb_tail : ld32 m (p + proc_tail) = u32 t;
  rb_len : t = h + Z.of_nat (length q);
  rb_cap : Z.of_nat (length q) <= LIEBE_OS_KEYBOARD_BUFFER_SIZE;
  rb_chars : forall i c, q !! i = Some c ->
    rd m (p + proc_buffer + (h + Z.of_nat i) mod LIEBE_OS_KEYBOARD_BUFFER_SIZE) = c;
  rb_ok : Forall char_ok q;
  rb_free : forall j, t <= j < h + LIEBE_OS_KEYBOARD_BUFFER_SIZE ->
    rd m (p + proc_buffer + j mod LIEBE_OS_KEYBOARD_BUFFER_SIZE) = 0 }.

(** A key that arrives, a read by the program. *)
Inductive key_event : Type := pressed (c : Z) | read.

(** What a queue of keys does: the keys pending and what the read yields. *)
Definition queue_step (q : list Z) (e : key_event) : list Z * list Z :=
  match e with
  | pressed c => (if c =? 0 then q else q ++ [c], [])
  | read => match q with [] => ([], [0]) | c :: q' => (q', [c]) end
  end.
Fixpoint queue_run (q : list Z) (l : list key_event) : list Z :=
  match l with
  | [] => []
  | e :: l' => (queue_step q e).2 ++ queue_run (queue_step q e).1 l'
  end.
(** Never more than a buffer full. *)
Fixpoint never_full (q : list Z) (l : list key_event) : Prop :=
  Z.of_nat (length q) <= LIEBE_OS_KEYBOARD_BUFFER_SIZE /\
  match l with [] => True | e :: l' => never_full (queue_step q e).1 l' end.

(** The kernel's functions on the same events. *)
Fixpoint keys_run (l : list key_event) : M kernel (list Z) :=
  match l with
  | [] => ret []
  | pressed c :: l' => keyboard_push c ;;; keys_run l'
  | read :: l' => let! c := keyboard_pop in let! cs := keys_run l' in ret (c :: cs)
  end.

(** The task that runs belongs to the process that gets the keys, and its
    link to it is not in the buffer. *)
Definition focused (k : kernel) (p : Z) : Prop :=
  current_process k = p /\ p <> 0 /\ current_task k <> 0 /\
  ld32 (kmem k) (current_task k + task_process) = p /\
  (current_task k + task_process + 4 <= p + proc_buffer \/ p + proc_argc <= current_task k + task_process).

(** ** Lemmas *)

Lemma buffer_index a : u32 a mod LIEBE_OS_KEYBOARD_BUFFER_SIZE = a mod LIEBE_OS_KEYBOARD_BUFFER_SIZE.
Proof. unfold u32, LIEBE_OS_KEYBOARD_BUFFER_SIZE. dlia. Qed.

Lemma index_range a : 0 <= a mod LIEBE_OS_KEYBOARD_BUFFER_SIZE < LIEBE_OS_KEYBOARD_BUFFER_SIZE.
Proof. unfold LIEBE_OS_KEYBOARD_BUFFER_SIZE. dlia. Qed.

(** Two of 1024 consecutive positions share a cell only if equal. *)
Lemma index_inj a b h : h <= a < h + LIEBE_OS_KEYBOARD_BUFFER_SIZE -> h <= b < h + LIEBE_OS_KEYBOARD_BUFFER_SIZE ->
  a mod LIEBE_OS_KEYBOARD_BUFFER_SIZE = b mod LIEBE_OS_KEYBOARD_BUFFER_SIZE -> a = b.
Proof. unfold LIEBE_OS_KEYBOARD_BUFFER_SIZE. dlia. Qed.

(** One cell and one counter written. *)
Definition cell_write (m : mem) (p i v o w : Z) : mem :=
  st32 (wr m (p + proc_buffer + i mod LIEBE_OS_KEYBOARD_BUFFER_SIZE) v) (p + o) w.

Lemma cell_write_spec m p i v o w : (o = proc_head \/ o = proc_tail) -> 0 <= v < 256 ->
  let m' := cell_write m p i v o w in
  ld32 m' (p + o) = u32 w /\
  (forall o', o' = proc_head \/ o' = proc_tail -> o' <> o -> ld32 m' (p + o') = ld32 m (p + o')) /\
  (forall j, rd m' (p + proc_buffer + j mod LIEBE_OS_KEYBOARD_BUFFER_SIZE) =
     if j mod LIEBE_OS_KEYBOARD_BUFFER_SIZE =? i mod LIEBE_OS_KEYBOARD_BUFFER_SIZE then v
     else rd m (p + proc_buffer + j mod LIEBE_OS_KEYBOARD_BUFFER_SIZE)) /\
  (forall a, a < p + proc_buffer \/ p + proc_argc <= a -> rd m' a = rd m a).
Proof.
  intros Ho Hv m'. unfold m', cell_write.
  assert (Hr : forall j, 0 <= j mod LIEBE_OS_KEYBOARD_BUFFER_SIZE < 1024) by apply index_range.
  pose proof (Hr i). assert (Hoff : p + proc_buffer + 1024 <= p + o <= p + proc_argc - 4)
    by (unfold proc_buffer, proc_head, proc_tail, proc_argc in *; lia).
  split; [by rewrite ld32_st32_eq|]. split; [|split].
  - intros o' Ho' Hne.
    assert (Ho'' : p + proc_buffer + 1024 <= p + o') by (unfold proc_buffer, proc_head, proc_tail in *; lia).
    rewrite ld32_st32_ne by (unfold proc_head, proc_tail in *; lia).
    apply ld32_ext. intros x Hx. apply rd_wr_ne. lia.
  - intros j. pose proof (Hr j). rewrite rd_st32_ne by lia.
    destruct (Z.eqb_spec (j mod LIEBE_OS_KEYBOARD_BUFFER_SIZE) (i mod LIEBE_OS_KEYBOARD_BUFFER_SIZE)) as [->|Hne].
    + rewrite rd_wr_eq. by apply u8_id.
    + apply rd_wr_ne. lia.
  - intros a Ha. rewrite rd_st32_ne, rd_wr_ne; [done|lia|lia].
Qed.

Lemma ring_push m p h t q c : ring m p h t q -> Z.of_nat (length q) < LIEBE_OS_KEYBOARD_BUFFER_SIZE ->
  0 < c < 256 -> ring (cell_write m p t c proc_tail (t + 1)) p h (t + 1) (q ++ [c]).
Proof.
  intros [Hh Ht Hl _ Hc Hok Hf] Hlen Hr.
  destruct (cell_write_spec m p t c proc_tail (t + 1)) as (W1 & W2 & W3 & _); [by right|lia|].
  split.
  - rewrite W2; [done|by left|done].
  - done.
  - rewrite length_app. cbn. lia.
  - rewrite length_app. cbn. lia.
  - intros i x Hi. rewrite W3. apply lookup_app_Some in Hi as [Hi|[Hi E]].
    + pose proof (lookup_lt_Some _ _ _ Hi). case_bool; [|by apply Hc].
      assert (h + Z.of_nat i = t) by (apply (index_inj _ _ h); (done || lia)). lia.
    + apply list_lookup_singleton_Some in E as [Ei <-].
      replace (h + Z.of_nat i) with t by lia. by rewrite Z.eqb_refl.
  - apply Forall_app. split; [done|]. constructor; [done|constructor].
  - intros j Hj. rewrite W3. case_bool; [|apply Hf; lia].
    assert (j = t) by (apply (index_inj _ _ h); (done || lia)). lia.
Qed.

Lemma ring_pop m p h t c q : ring m p h t (c :: q) ->
  ring (cell_write m p h 0 proc_head (h + 1)) p (h + 1) t q.
Proof.
  intros [Hh Ht Hl Hcap Hc Hok Hf]. cbn [length] in *.
  destruct (cell_write_spec m p h 0 proc_head (h + 1)) as (W1 & W2 & W3 & _); [by left|lia|].
  apply list.Forall_cons in Hok as [_ Hok]. split; try done; try lia.
  - rewrite W2; [done|by right|done].
  - intros i x Hi. rewrite W3. pose proof (lookup_lt_Some _ _ _ Hi). case_bool.
    + assert (h + 1 + Z.of_nat i = h) by (apply (index_inj _ _ h); (done || lia)). lia.
    + rewrite <- (Hc (S i) x Hi). do 3 f_equal. lia.
  - intros j Hj. rewrite W3. case_bool; [done|]. apply Hf.
    destruct (decide (j = h + LIEBE_OS_KEYBOARD_BUFFER_SIZE)) as [->|]; [|lia].
    exfalso. unfold LIEBE_OS_KEYBOARD_BUFFER_SIZE in *. dlia.
Qed.

(** A store only depends on the value modulo 2^32. *)
Lemma st32_cong m a v w : u32 v = u32 w -> st32 m a v = st32 m a w.
Proof.
  intros E. assert (Hw : forall m a x y, x mod 256 = y mod 256 -> wr m a x = wr m a y)
    by (intros m' b x y Exy; unfold wr, u8; by rewrite Exy).
  unfold st32. unfold u32 in E.
  rewrite (Hw m a v w), (Hw _ _ (v / 256) (w / 256)), (Hw _ _ (v / 65536) (w / 65536)),
    (Hw _ _ (v / 16777216) (w / 16777216)) by dlia. done.
Qed.

(** The two functions on a focused process. *)
Lemma keyboard_push_eq k p h t q c : focused k p -> ring (kmem k) p h t q -> c <> 0 ->
  keyboard_push c k = Ret tt (with_kmem (cell_write (kmem k) p t c proc_tail (t + 1)) k).
Proof.
  intros (Hp & Hp0 & _) Hr Hc. unfold keyboard_push, process_current.
  rewrite (bind_Ret _ _ _ p k) by (unfold gets; by rewrite Hp).
  rewrite (proj2 (Z.eqb_neq p 0)), (proj2 (Z.eqb_neq c 0)) by done.
  unfold bind, gets, kstore8, kstore32, kload32, gets, edit_kmem, modify, keyboard_get_tail_index.
  rewrite !kmem_with_kmem, with_kmem_with_kmem. do 2 f_equal.
  rewrite (rb_tail _ _ _ _ _ Hr), buffer_index. unfold cell_write.
  assert (E : ld32 (wr (kmem k) (p + proc_buffer + t mod LIEBE_OS_KEYBOARD_BUFFER_SIZE) c) (p + proc_tail) = u32 t).
  { rewrite <- (rb_tail _ _ _ _ _ Hr). pose proof (index_range t) as Hi. unfold LIEBE_OS_KEYBOARD_BUFFER_SIZE in Hi.
    apply ld32_ext. intros i Hx. apply rd_wr_ne. unfold proc_tail, proc_buffer, LIEBE_OS_KEYBOARD_BUFFER_SIZE. lia. }
  rewrite E. apply st32_cong. unfold u32. dlia.
Qed.

Lemma keyboard_pop_eq k p h t q : focused k p -> ring (kmem k) p h t q ->
  keyboard_pop k =
  match q with
  | [] => Ret 0 k
  | c :: _ => Ret c (with_kmem (cell_write (kmem k) p h 0 proc_head (h + 1)) k)
  end.
Proof.
  intros (_ & _ & Ht0 & Htp & _) Hr. unfold keyboard_pop.
  rewrite (bind_Ret _ _ _ (current_task k) k) by done. rewrite (proj2 (Z.eqb_neq _ 0)) by done.
  rewrite (bind_Ret _ _ _ p k) by (unfold kload32, gets; by rewrite Htp).
  rewrite (bind_Ret _ _ _ (u32 h) k) by (unfold kload32, gets; by rewrite (rb_head _ _ _ _ _ Hr)).
  rewrite buffer_index. set (a := p + proc_buffer + h mod LIEBE_OS_KEYBOARD_BUFFER_SIZE).
  rewrite (bind_Ret _ _ _ (rd (kmem k) a) k) by done.
  assert (Ea : rd (kmem k) a = default 0 (q !! 0%nat)).
  { destruct q as [|c q]; cbn.
    - apply (rb_free _ _ _ _ _ Hr). rewrite (rb_len _ _ _ _ _ Hr). cbn. unfold LIEBE_OS_KEYBOARD_BUFFER_SIZE. lia.
    - rewrite <- (rb_chars _ _ _ _ _ Hr 0 c eq_refl). by rewrite Z.add_0_r. }
  destruct q as [|c q]; [by rewrite Ea|]. change (rd (kmem k) a = c) in Ea. rewrite Ea.
  pose proof (rb_ok _ _ _ _ _ Hr) as Hok. apply list.Forall_cons in Hok as [Hc _]. unfold char_ok in Hc.
  rewrite (proj2 (Z.eqb_neq c 0)) by lia.
  unfold bind, gets, kstore8, kstore32, kload32, gets, edit_kmem, modify, ret.
  rewrite !kmem_with_kmem, with_kmem_with_kmem. do 2 f_equal.
  unfold cell_write. fold a.
  assert (E : ld32 (wr (kmem k) a 0) (p + proc_head) = u32 h).
  { rewrite <- (rb_head _ _ _ _ _ Hr). pose proof (index_range h) as Hi. unfold LIEBE_OS_KEYBOARD_BUFFER_SIZE in Hi.
    apply ld32_ext. intros i Hx. apply rd_wr_ne. unfold a, proc_head, proc_buffer, LIEBE_OS_KEYBOARD_BUFFER_SIZE. lia. }
  rewrite E. apply st32_cong. unfold u32. dlia.
Qed.

(** Writing the buffer does not change who owns it. *)
Lemma focused_write k p i v o w : focused k p -> (o = proc_head \/ o = proc_tail) -> 0 <= v < 256 ->
  focused (with_kmem (cell_write (kmem k) p i v o w) k) p.
Proof.
  intros (H1 & H2 & H3 & H4 & H5) Ho Hv.
  destruct (cell_write_spec (kmem k) p i v o w Ho Hv) as (_ & _ & _ & Hf).
  unfold focused. rewrite kmem_with_kmem. repeat (split; [done|]). split; [|done].
  change (current_task (with_kmem (cell_write (kmem k) p i v o w) k)) with (current_task k).
  transitivity (ld32 (kmem k) (current_task k + task_process)); [|done].
  apply ld32_ext. intros j Hj. apply Hf. lia.
Qed.

(** What no key press touches. *)
Definition buffer_only (m m' : mem) (p : Z) : Prop :=
  forall a, a < p + proc_buffer \/ p + proc_argc <= a -> rd m' a = rd m a.

Lemma keys_run_spec p : forall l k h t q, focused k p -> ring (kmem k) p h t q ->
  (forall c, pressed c ∈ l -> 0 <= c < 256) -> never_full q l ->
  exists m' h' t' q', keys_run l k = Ret (queue_run q l) (with_kmem m' k) /\
    ring m' p h' t' q' /\ focused (with_kmem m' k) p /\ buffer_only (kmem k) m' p.
Proof.
  induction l as [|e l IH]; intros k h t q Hf Hr Hl Hn.
  { exists (kmem k), h, t, q. rewrite with_kmem_id. done. }
  assert (Hl' : forall c, pressed c ∈ l -> 0 <= c < 256) by (intros c Hc; apply Hl; by right).
  cbn [never_full] in Hn. destruct Hn as [Hn Hn']. cbn [keys_run queue_run].
  assert (Hstep : forall i v o w h1 t1 q1, (o = proc_head \/ o = proc_tail) -> 0 <= v < 256 ->
    ring (cell_write (kmem k) p i v o w) p h1 t1 q1 -> never_full q1 l ->
    exists m' h' t' q', keys_run l (with_kmem (cell_write (kmem k) p i v o w) k) =
        Ret (queue_run q1 l) (with_kmem m' k) /\
      ring m' p h' t' q' /\ focused (with_kmem m' k) p /\ buffer_only (kmem k) m' p).
  { intros i v o w h1 t1 q1 Ho Hv Hr1 Hn1. pose proof (focused_write k p i v o w Hf Ho Hv) as Hf1.
    destruct (IH _ h1 t1 q1 Hf1 Hr1 Hl' Hn1) as (m' & h' & t' & q' & E & Hr' & Hf' & Hb').
    exists m', h', t', q'. split; [exact E|]. split; [done|]. split; [exact Hf'|].
    intros a Ha. rewrite Hb', kmem_with_kmem by done.
    by apply (cell_write_spec (kmem k) p i v o w Ho Hv). }
  destruct e as [c|]; cbn [queue_step fst snd] in *.
  - pose proof (Hl c ltac:(by left)) as Hc. destruct (Z.eqb_spec c 0) as [->|Hc0].
    + rewrite (bind_Ret _ _ _ tt k).
      * by apply (IH k h t q).
      * unfold keyboard_push, process_current, bind, gets.
        by destruct (current_process k =? 0).
    + rewrite (bind_Ret _ _ _ tt _ (keyboard_push_eq k p h t q c Hf Hr Hc0)).
      assert (Hlt : Z.of_nat (length q) < LIEBE_OS_KEYBOARD_BUFFER_SIZE).
      { destruct l; cbn [never_full] in Hn'; destruct Hn' as [Hn' _]; rewrite length_app in Hn'; cbn in Hn'; lia. }
      apply (Hstep _ _ _ _ h (t + 1)); [by right|done| |done]. apply ring_push; [done|done|lia].
  - pose proof (keyboard_pop_eq k p h t q Hf Hr) as Ep. destruct q as [|c q].
    + rewrite (bind_Ret _ _ _ _ _ Ep). destruct (IH k h t [] Hf Hr Hl' Hn') as (m' & h' & t' & q' & E & Hrest).
      exists m', h', t', q'. by rewrite (bind_Ret _ _ _ _ _ E).
    + rewrite (bind_Ret _ _ _ _ _ Ep).
      destruct (Hstep h 0 proc_head (h + 1) (h + 1) t q) as (m' & h' & t' & q' & E & Hrest);
        [by left|lia|by apply (ring_pop _ _ _ _ c)|done|].
      exists m', h', t', q'. by rewrite (bind_Ret _ _ _ _ _ E).
Qed.

(** What a key stands for. *)
Definition key_char (lower : bool) (scancode : Z) : Z :=
  let c := default 0 (keyboard_scan_set_one !! Z.to_nat scancode) in
  if lower && (65 <=? c) && (c <=? 90) then c + 32 else c.

Lemma key_char_range lower scancode : 0 <= key_char lower scancode < 128.
Proof.
  unfold key_char. destruct (keyboard_scan_set_one !! Z.to_nat scancode) as [x|] eqn:E.
  - change (default 0 (Some x)) with x. assert (Hx : 0 <= x < 128).
    { assert (Hall : Forall (fun y => 0 <= y < 128) keyboard_scan_set_one)
        by (repeat (constructor; [by vm_compute|]); constructor).
      rewrite Forall_lookup in Hall. by apply (Hall (Z.to_nat scancode)). }
    destruct lower, (Z.leb_spec 65 x), (Z.leb_spec x 90); cbn [andb]; lia.
  - change (default 0 None) with 0. destruct lower; cbn; lia.
Qed.

Lemma scancode_in_table classic_keyboard k scancode : 0 <= scancode < 82 ->
  classic_keyboard_scancode_to_char classic_keyboard scancode k =
  Ret (key_char (keyboard_get_capslock classic_keyboard (kmem k) =? KEYBOARD_CAPS_LOCK_OFF) scancode) k.
Proof.
  intros Hs. unfold classic_keyboard_scancode_to_char. rewrite scan_set_size.
  rewrite (proj2 (Z.ltb_ge _ _)) by lia.
  assert (Hlt : (Z.to_nat scancode < length keyboard_scan_set_one)%nat) by (rewrite scan_set_size; lia).
  destruct (lookup_lt_is_Some_2 _ _ Hlt) as [x E].
  pose proof (key_char_range false scancode) as Hx. unfold key_char in *. rewrite E in *.
  change (default 0 (Some x)) with x in *. cbn [andb] in Hx.
  assert (E8 : i8 x = x) by (unfold i8; case_bools; dlia).
  unfold opt, bind, ret, gets. rewrite E8.
  destruct (keyboard_get_capslock _ _ =? _); cbn [andb]; [|done].
  destruct (Z.leb_spec 65 x), (Z.leb_spec x 90); cbn [andb]; try done. by rewrite u8_id by lia.
Qed.

(** ** Properties *)

(** C25. The keyboard buffer is a queue: for any sequence of key presses and
    reads on a process whose task is running, during which never more than
    1024 keys are pending, the reads yield what a first-in first-out queue
    yields (0 when it is empty), whatever the counters have reached, and
    nothing but the process's buffer changes. *)
Theorem keyboard_fifo l k p h t q :
  focused k p -> ring (kmem k) p h t q -> (forall c, pressed c ∈ l -> 0 <= c < 256) -> never_full q l ->
  exists m', keys_run l k = Ret (queue_run q l) (with_kmem m' k) /\ buffer_only (kmem k) m' p.
Proof.
  intros Hf Hr Hl Hn. destruct (keys_run_spec p l k h t q Hf Hr Hl Hn) as (m' & _ & _ & _ & E & _ & _ & Hb).
  by exists m'.
Qed.

(** Nothing checks for a full buffer: with 1024 keys pending the next one
    overwrites the oldest, and the next read yields the newest key instead. *)
Theorem keyboard_overrun k p h t q c :
  focused k p -> ring (kmem k) p h t q -> Z.of_nat (length q) = LIEBE_OS_KEYBOARD_BUFFER_SIZE ->
  0 < c < 256 ->
  exists k1 k2, keyboard_push c k = Ret tt k1 /\ keyboard_pop k1 = Ret c k2.
Proof.
  intros Hf Hr Hlen Hc. pose proof (rb_len _ _ _ _ _ Hr) as Ht. rewrite Hlen in Ht.
  eexists. pose proof (focused_write k p t c proc_tail (t + 1) Hf ltac:(by right) ltac:(lia)) as Hf1.
  set (k1 := with_kmem (cell_write (kmem k) p t c proc_tail (t + 1)) k) in *.
  assert (Ehead : ld32 (kmem k1) (p + proc_head) = u32 h).
  { unfold k1. rewrite kmem_with_kmem.
    destruct (cell_write_spec (kmem k) p t c proc_tail (t + 1)) as (_ & W2 & _); [by right|lia|].
    rewrite W2; [apply (rb_head _ _ _ _ _ Hr)|by left|done]. }
  assert (Ecell : rd (kmem k1) (p + proc_buffer + h mod LIEBE_OS_KEYBOARD_BUFFER_SIZE) = c).
  { unfold k1. rewrite kmem_with_kmem.
    destruct (cell_write_spec (kmem k) p t c proc_tail (t + 1)) as (_ & _ & W3 & _); [by right|lia|].
    rewrite W3. unfold LIEBE_OS_KEYBOARD_BUFFER_SIZE in *. case_bool; [done|]. dlia. }
  destruct Hf1 as (_ & _ & Ht0 & Htp & _). eexists.
  split; [by apply (keyboard_push_eq k p h t q); [|done|lia]|]. fold k1.
  unfold keyboard_pop. rewrite (bind_Ret _ _ _ (current_task k1) k1) by done.
  rewrite (proj2 (Z.eqb_neq _ 0)) by done.
  rewrite (bind_Ret _ _ _ p k1) by (unfold kload32, gets; by rewrite Htp).
  rewrite (bind_Ret _ _ _ (u32 h) k1) by (unfold kload32, gets; by rewrite Ehead).
  rewrite buffer_index, (bind_Ret _ _ _ c k1) by (unfold kload8, gets; by rewrite Ecell).
  by rewrite (proj2 (Z.eqb_neq c 0)) by lia.
Qed.

(** The scancode table, for every key-press code (bit 7 clear): up to 0x51 the
    character of the table, letters in lower case exactly while caps lock is
    off; 0x52, one past the table, is let through by the bound and read
    outside it; above that 0. *)
Theorem scancode_translation classic_keyboard k scancode : 0 <= scancode < 128 ->
  let lower := keyboard_get_capslock classic_keyboard (kmem k) =? KEYBOARD_CAPS_LOCK_OFF in
  classic_keyboard_scancode_to_char classic_keyboard scancode k =
  if scancode <? 82 then Ret (key_char lower scancode) k
  else if scancode =? 82 then Fault
  else Ret 0 k.
Proof.
  intros Hs lower. destruct (Z.ltb_spec scancode 82).
  { apply scancode_in_table. lia. }
  unfold classic_keyboard_scancode_to_char. rewrite scan_set_size.
  destruct (Z.ltb_spec (Z.of_nat 82) scancode).
  - by rewrite (proj2 (Z.eqb_neq scancode 82)) by lia.
  - replace scancode with 82 by lia. rewrite Z.eqb_refl.
    by rewrite (lookup_ge_None_2 keyboard_scan_set_one (Z.to_nat 82)) by (rewrite scan_set_size; lia).
Qed.

(** ** Witnesses *)

(** A task at 0x10000 of the process at 0x20000, whose buffer holds [q]. *)
Definition keyboard_memory (q : list Z) : mem :=
  st32 (store_bytes (st32 ∅ (0x10000 + task_process) 0x20000) (0x20000 + proc_buffer) q)
    (0x20000 + proc_tail) (Z.of_nat (length q)).
Definition keyboard_kernel (q : list Z) : kernel :=
  with_processes 0x20000 (replicate 12 0) (small_kernel (keyboard_memory q) 0x10000).

Lemma rd_store_bytes_in m a l i x : l !! i = Some x -> rd (store_bytes m a l) (a + Z.of_nat i) = u8 x.
Proof.
  revert m a i. induction l as [|y l IH]; intros m a i Hi; [done|]. cbn [store_bytes].
  destruct i as [|i]; cbn [lookup list_lookup] in Hi.
  - injection Hi as ->. rewrite rd_store_bytes_out, Z.add_0_r by lia. apply rd_wr_eq.
  - rewrite <- (IH (wr m a y) (a + 1) i Hi). f_equal. lia.
Qed.

Lemma keyboard_kernel_ok q : Forall char_ok q -> Z.of_nat (length q) <= LIEBE_OS_KEYBOARD_BUFFER_SIZE ->
  focused (keyboard_kernel q) 0x20000 /\ ring (kmem (keyboard_kernel q)) 0x20000 0 (Z.of_nat (length q)) q.
Proof.
  intros Hq Hlen. change (kmem (keyboard_kernel q)) with (keyboard_memory q).
  unfold LIEBE_OS_KEYBOARD_BUFFER_SIZE in Hlen.
  assert (Hb : forall a, a < 0x20000 + proc_buffer \/ 0x20000 + proc_head <= a < 0x20000 + proc_tail ->
    rd (keyboard_memory q) a = rd (st32 ∅ (0x10000 + task_process) 0x20000) a).
  { intros a Ha. unfold keyboard_memory, proc_buffer, proc_head, proc_tail in *.
    rewrite rd_st32_ne, rd_store_bytes_out by lia. done. }
  split; [split; [done|split; [done|split; [done|split; [|left]]]]|split].
  - change (current_task (keyboard_kernel q)) with 0x10000.
    change (kmem (keyboard_kernel q)) with (keyboard_memory q).
    rewrite (ld32_ext (st32 ∅ (0x10000 + task_process) 0x20000) _ (0x10000 + task_process)); [by vm_compute|].
    intros i Hi. apply Hb. unfold task_process, proc_buffer. lia.
  - change (current_task (keyboard_kernel q)) with 0x10000. by vm_compute.
  - rewrite (ld32_ext (st32 ∅ (0x10000 + task_process) 0x20000) _ (0x20000 + proc_head)); [by vm_compute|].
    intros i Hi. apply Hb. unfold proc_head, proc_tail. lia.
  - unfold keyboard_memory. by rewrite ld32_st32_eq.
  - lia.
  - done.
  - intros i c Hi. pose proof (lookup_lt_Some _ _ _ Hi). rewrite Forall_lookup in Hq.
    specialize (Hq i c Hi). unfold char_ok in Hq. unfold keyboard_memory, LIEBE_OS_KEYBOARD_BUFFER_SIZE.
    replace ((0 + Z.of_nat i) mod 1024) with (Z.of_nat i) by dlia.
    rewrite rd_st32_ne by (unfold proc_buffer, proc_tail; lia).
    rewrite (rd_store_bytes_in _ _ _ i c Hi). by apply u8_id; lia.
  - done.
  - intros j Hj. unfold keyboard_memory, LIEBE_OS_KEYBOARD_BUFFER_SIZE in *.
    replace (j mod 1024) with j by dlia.
    rewrite rd_st32_ne, rd_store_bytes_out by (unfold proc_buffer, proc_tail; lia).
    apply rd_st32_ne. unfold task_process, proc_buffer. lia.
Qed.

Lemma keyboard_fifo_witness : exists m',
  keys_run [pressed 104; pressed 105; read; read; read] (keyboard_kernel []) =
    Ret [104; 105; 0] (with_kmem m' (keyboard_kernel [])).
Proof.
  destruct (keyboard_kernel_ok []) as [Hf Hr]; [constructor|done|].
  destruct (keyboard_fifo [pressed 104; pressed 105; read; read; read] _ _ _ _ _ Hf Hr) as (m' & E & _).
  - intros c Hc. apply list_elem_of_In in Hc.
    repeat destruct Hc as [Hc|Hc]; try injection Hc as <-; try done; lia.
  - cbn. unfold LIEBE_OS_KEYBOARD_BUFFER_SIZE. lia.
  - by exists m'.
Defined.

Lemma keyboard_overrun_witness : exists k1 k2,
  keyboard_push 98 (keyboard_kernel (replicate (Z.to_nat 1024) 97)) = Ret tt k1 /\ keyboard_pop k1 = Ret 98 k2.
Proof.
  destruct (keyboard_kernel_ok (replicate (Z.to_nat 1024) 97)) as [Hf Hr].
  - apply Forall_replicate. unfold char_ok. lia.
  - rewrite length_replicate. unfold LIEBE_OS_KEYBOARD_BUFFER_SIZE. lia.
  - apply (keyboard_overrun _ _ _ _ _ 98 Hf Hr); [|lia].
    rewrite length_replicate. unfold LIEBE_OS_KEYBOARD_BUFFER_SIZE. lia.
Defined.

Lemma scancode_translation_witness :
  classic_keyboard_scancode_to_char 0x4000 0x1E (keyboard_kernel []) = Ret 97 (keyboard_kernel []).
Proof. rewrite (scancode_translation 0x4000 (keyboard_kernel []) 0x1E ltac:(lia)). by vm_compute. Defined.
