(* ===== verification/Isr80h.v ===== *)
(** * The system calls: [src/isr80h]

    The ten commands, their registration and the two dispatchers of
    [Idt] applied to them.  The local buffers of the commands are addresses
    on the kernel's stack. *)
From S2P Require Import Prelude Config Memory CString Heap KHeap Paging Terminal PathParser Disk Fat16 File Elf Kernel Task Process Idt Keyboard.

(** ** Commands *)

(** [enum SystemCommands]. *)
Definition SYSTEM_COMMAND0_SUM : Z := 0.
Definition SYSTEM_COMMAND1_PRINT : Z := 1.
Definition SYSTEM_COMMAND2_GETKEY : Z := 2.
Definition SYSTEM_COMMAND3_PUTCHAR : Z := 3.
Definition SYSTEM_COMMAND4_MALLOC : Z := 4.
Definition SYSTEM_COMMAND5_FREE : Z := 5.
Definition SYSTEM_COMMAND6_PROCESS_LOAD_START : Z := 6.
Definition SYSTEM_COMMAND7_INVOKE_SYSTEM_COMMAND : Z := 7.
Definition SYSTEM_COMMAND8_GET_PROGRAM_ARGUMENTS : Z := 8.
Definition SYSTEM_COMMAND9_EXIT : Z := 9.

Section commands.
Context `{KAllocator} (mmu : mmu_type) (ops : Z -> option filesystem_ops) (disk_obj : Z).
(** As in [Process]: a local structure, a stack word, a bound on strings. *)
Context (stat stack_process : Z) (fuel : nat).
(** The locals of the commands: [buf] of command 1, [filename] and [path] of
    6 and 7, the variable [process]. *)
Context (buf filename path process_var : Z).
(** The address of [classic_keyboard], and what the keyboard's port yields. *)
Context (classic_keyboard scancode : Z).

(** [task_get_stack_item(task_current(), index)] *)
Definition stack_item (index : Z) : M kernel Z :=
  let! task := gets current_task in task_get_stack_item mmu task index.

Definition isr80h_command0_sum : M kernel Z :=
  let! v2 := stack_item 1 in
  let! v1 := stack_item 0 in
  ret (u32 (i32 v1 + i32 v2)).

Definition isr80h_command1_print : M kernel Z :=
  let! user_space_msg_buff := stack_item 0 in
  let! task := gets current_task in
  copy_string_from_task mmu task user_space_msg_buff buf 1024 ;;;
  on_files (on_terminal (print fuel (ptr buf))) ;;;
  ret 0.

Definition isr80h_command2_getkey : M kernel Z :=
  let! c := keyboard_pop in ret (u32 (i8 c)).

Definition isr80h_commad3_putchar : M kernel Z :=
  let! item := stack_item 0 in
  on_files (on_terminal (modify (terminal_writechar (i8 item) 15))) ;;;
  ret 0.

Definition isr80h_command4_malloc : M kernel Z :=
  let! size := stack_item 0 in
  let! process := current_task_process in
  process_malloc process (u32 (i32 size)).

Definition isr80h_command5_free : M kernel Z :=
  let! ptr_to_free := stack_item 0 in
  let! process := current_task_process in
  process_free process ptr_to_free ;;; ret 0.

(** [strcpy(path, "0:/")]: three bytes, without the terminator. *)
Definition copy_drive : M kernel unit :=
  edit_kmem (fun m => store_bytes m path (codes "0:/")).

(** [task_switch(process->task); task_return(&process->task->registers);] *)
Definition start_process : M kernel registers :=
  let! process := kload32 process_var in
  let! task := kload32 (process + proc_task) in
  task_switch task ;;;
  let! process := kload32 process_var in
  let! task := kload32 (process + proc_task) in
  task_return mmu (task + task_registers).

Definition kstrcpy (dest src : Z) : M kernel unit :=
  let! m := gets kmem in
  match strcpy fuel dest src m with
  | Some m' => edit_kmem (fun _ => m')
  | None => nofuel
  end.

Definition isr80h_command6_process_load_start : M kernel (departure Z) :=
  let! filename_user_ptr := stack_item 0 in
  let! task := gets current_task in
  let! res := copy_string_from_task mmu task filename_user_ptr filename LIEBE_OS_MAX_PATH_LEN in
  if res <? 0 then ret (back 0)
  else
    copy_drive ;;;
    kstrcpy (path + 3) filename ;;;
    kstore32 process_var 0 ;;;
    let! res := process_load_switch ops disk_obj stat stack_process fuel path process_var in
    if res <? 0 then ret (back 0)
    else let! regs := start_process in ret (gone regs).

(** The length of the string at [p]. *)
Definition kstrlen (p : Z) : M kernel Z :=
  let! m := gets kmem in
  match strlen fuel (at_mem m p) with Some n => ret n | None => nofuel end.

(** [sizeof(path)] although the destination is [path + 3]. *)
Definition isr80h_command7_invoke_system_command : M kernel (departure Z) :=
  let! task := gets current_task in
  let! item := stack_item 0 in
  let! arguments := task_virtual_address_to_physical task item in
  let! invalid := (if arguments =? 0 then ret true
                   else let! n := kstrlen arguments in ret (n =? 0)) in
  if (invalid : bool) then ret (back (ERROR (- EINVARG)))
  else
    copy_drive ;;;
    edit_kmem (strncpy (path + 3) arguments LIEBE_OS_MAX_PATH_LEN) ;;;
    kstore32 process_var 0 ;;;
    let! res := process_load_switch ops disk_obj stat stack_process fuel path process_var in
    if res <? 0 then ret (back (ERROR res))
    else
      let! process := kload32 process_var in
      let! res := process_inject_arguments fuel process arguments in
      if res <? 0 then ret (back (ERROR res))
      else let! regs := start_process in ret (gone regs).

(** [struct process_arguments]: [argc], then [argv]. *)
Definition isr80h_command8_get_program_arguments : M kernel Z :=
  let! process := current_task_process in
  let! task := gets current_task in
  let! item := stack_item 0 in
  let! arguments := task_virtual_address_to_physical task item in
  process_get_arguments process arguments (arguments + 4) ;;;
  ret 0.

Definition isr80h_command9_exit : M kernel registers :=
  let! process := current_task_process in
  process_terminate process ;;; task_next mmu.

(** The function behind a name. *)
Definition run_command (c : command) (frame : Z) : M kernel (departure Z) :=
  let returns (f : M kernel Z) := let! v := f in ret (back v) in
  match c with
  | command0_sum => returns isr80h_command0_sum
  | command1_print => returns isr80h_command1_print
  | command2_getkey => returns isr80h_command2_getkey
  | command3_putchar => returns isr80h_commad3_putchar
  | command4_malloc => returns isr80h_command4_malloc
  | command5_free => returns isr80h_command5_free
  | command6_process_load_start => isr80h_command6_process_load_start
  | command7_invoke_system_command => isr80h_command7_invoke_system_command
  | command8_get_program_arguments => returns isr80h_command8_get_program_arguments
  | command9_exit => let! regs := isr80h_command9_exit in ret (gone regs)
  end.

Definition run_callback (c : callback) (frame : Z) : M kernel (departure unit) :=
  match c with
  | cb_exception => let! regs := idt_handle_exception mmu in ret (gone regs)
  | cb_clock => idt_clock ;;; ret (back tt)
  | cb_keyboard => classic_keyboard_handle_interrupt classic_keyboard scancode ;;; ret (back tt)
  end.

(** ** Registration and dispatch *)

Definition isr80h_register_commands : M kernel unit :=
  isr80h_register_command SYSTEM_COMMAND0_SUM command0_sum ;;;
  isr80h_register_command SYSTEM_COMMAND1_PRINT command1_print ;;;
  isr80h_register_command SYSTEM_COMMAND2_GETKEY command2_getkey ;;;
  isr80h_register_command SYSTEM_COMMAND3_PUTCHAR command3_putchar ;;;
  isr80h_register_command SYSTEM_COMMAND4_MALLOC command4_malloc ;;;
  isr80h_register_command SYSTEM_COMMAND5_FREE command5_free ;;;
  isr80h_register_command SYSTEM_COMMAND6_PROCESS_LOAD_START command6_process_load_start ;;;
  isr80h_register_command SYSTEM_COMMAND7_INVOKE_SYSTEM_COMMAND command7_invoke_system_command ;;;
  isr80h_register_command SYSTEM_COMMAND8_GET_PROGRAM_ARGUMENTS command8_get_program_arguments ;;;
  isr80h_register_command SYSTEM_COMMAND9_EXIT command9_exit.

Definition handle_interrupt : Z -> Z -> M kernel (departure unit) :=
  interrupt_handler run_callback.
Definition handle_command : Z -> Z -> M kernel (departure Z) := isr80h_handler run_command.

End commands.
