(* ===== verification/Exit.v ===== *)
(** * The end of a process: [process_terminate], the exit call, faults

    What [process_terminate] of [src/task/process.c] gives back as a whole -
    the allocations, the program's image, the stack, the task with its address
    space, the slot - and what runs next when a program calls exit
    ([src/isr80h/process.c]) or faults ([src/idt/idt.c]).  The source calls
    [kfree] on unused entries of the allocation table, so the theorems are
    stated for [kernel_allocator] (see [ProcessEnd]). *)
From S2P Require Import Prelude Config Memory CString Heap KHeap Paging Terminal PathParser Disk Fat16 File Elf Kernel Task Schedule Process ProcessMem ProcessEnd Idt Keyboard Isr80h.

(** ** What a process owns *)

(** The blocks of the program's image. *)
Inductive image (m : mem) (process : Z) : list Z -> Prop :=
| image_binary : rd m (process + proc_filetype) = PROCESS_FILETYPE_BINARY ->
    image m process [ld32 m (process + proc_ptr)]
| image_elf : rd m (process + proc_filetype) = PROCESS_FILETYPE_ELF ->
    ld32 m (process + proc_elf_file) <> 0 ->
    image m process [ld32 m (ld32 m (process + proc_elf_file) + ef_elf_memory); ld32 m (process + proc_elf_file)].

(** The start of one of the blocks of the table. *)
Definition tabled (m : mem) (process q : Z) : Prop :=
  exists i, 0 <= i < 1024 /\ (allocation m process i).1 = q.

(** A process with its image, its stack and its task: all of them blocks of
    their own. *)
Record complete (m : mem) (process task chunk dir : Z) (ts im : list Z) : Prop := {
  cp_ok : process_ok m process task chunk dir ts;
  cp_image : image m process im;
  cp_live : forall q, q ∈ ld32 m (process + proc_stack) :: im -> exists s, live m q s;
  cp_nodup : NoDup (im ++ ld32 m (process + proc_stack) :: process :: task :: chunk :: dir :: ts);
  cp_table : forall q, q ∈ im ++ [ld32 m (process + proc_stack)] -> ~ tabled m process q }.

(** What goes with it; the process object stays. *)
Definition gone (m : mem) (process task chunk dir : Z) (ts im : list Z) (q : Z) : Prop :=
  tabled m process q \/ q ∈ im ++ ld32 m (process + proc_stack) :: task :: chunk :: dir :: ts.

(** ** Lemmas: giving blocks back *)

(** From [m0], exactly the blocks in [g] were released. *)
Record freed (m0 : mem) (g : Z -> Prop) (m : mem) : Prop := {
  fd_heap : heap_ok m;
  fd_live : forall q t, live m q t <-> live m0 q t /\ ~ g q;
  fd_bytes : forall a, ~ meta a -> a <> 0x6E00 -> rd m a = rd m0 a }.

Lemma freed_ext m0 (g g' : Z -> Prop) m : (forall q, g q <-> g' q) -> freed m0 g m -> freed m0 g' m.
Proof. intros He [H1 H2 H3]. split; [done| |done]. intros q t. by rewrite H2, He. Qed.

Lemma freed_block m0 g m p s : freed m0 g m -> live m0 p s -> ~ g p ->
  freed m0 (fun q => g q \/ q = p) (ka_free p m).
Proof.
  intros [H1 H2 H3] Hl Hg. destruct (ka_free_spec m p s H1) as (Hh & Hlv & _ & Ho); [by apply H2|].
  split; [done| |].
  - intros q t. rewrite (Hlv q t), H2. tauto.
  - intros a Ha Hne. rewrite <- (H3 a Ha Hne). exact (Ho a Ha).
Qed.

Lemma live_above p s a m : live m p s -> p <= a < p + s -> ~ meta a /\ a <> 0x6E00.
Proof.
  intros Hl Ha. split; [by apply (live_block _ _ _ Hl)|]. intros ->.
  pose proof (live_pool m p s _ Hl Ha) as Hp. unfold pool, kernel_allocator in Hp.
  change (saddr kernel_heap) with 0x1000000 in Hp. lia.
Qed.

Lemma freed_byte m0 g m p s a : freed m0 g m -> live m0 p s -> p <= a < p + s -> rd m a = rd m0 a.
Proof. intros Hf Hl Ha. destruct (live_above p s a m0 Hl Ha). by apply (fd_bytes _ _ _ Hf). Qed.

Lemma freed_word m0 g m p s a : freed m0 g m -> live m0 p s -> p <= a -> a + 4 <= p + s ->
  ld32 m a = ld32 m0 a.
Proof. intros Hf Hl H1 H2. apply ld32_ext. intros i Hi. apply (freed_byte m0 g m p s); [done|done|lia]. Qed.

(** Freeing a directory. *)
Lemma freed_directory m0 g m chunk dir ts : freed m0 g m -> dir_owned m chunk dir ts ->
  (forall q, q ∈ chunk :: dir :: ts -> live m0 q 4096) ->
  freed m0 (fun q => g q \/ q ∈ chunk :: dir :: ts) (paging_free_4gb chunk m).
Proof.
  intros [H1 H2 H3] Hd Hl. destruct (free_4gb_spec m chunk dir ts H1 Hd) as (Hh & Hlv & Ho).
  split; [done| |].
  - intros q t. rewrite (Hlv q t), H2. tauto.
  - intros a Ha Hne. rewrite <- (H3 a Ha Hne). by apply Ho.
Qed.

(** ** Lemmas: a task leaves the list *)

(** Only the link of the task before changes. *)
Definition beside (l1 : list Z) (a : Z) : Prop :=
  forall p, l1 !! pred (length l1) = Some p -> a < p + 56 \/ p + 60 <= a.

Lemma task_list_remove_with k l1 t l2 :
  task_list (kmem k) (task_head k) (task_tail k) (l1 ++ t :: l2) ->
  exists m c h e, task_list_remove t k = Ret tt (with_tasks c h e (with_kmem m k)) /\
    chain m h (l1 ++ l2) /\
    c = (if current_task k =? t then default (default 0 ((l1 ++ l2) !! 0%nat)) (l2 !! 0%nat) else current_task k) /\
    (forall a, beside l1 a -> rd m a = rd (kmem k) a).
Proof.
  intros Hl. destruct (task_list_remove_unlinks k l1 t l2 Hl) as (k' & E & Hc & _ & Hcur & _ & Ho).
  pose proof E as E'. rewrite task_list_remove_eq in E'. injection E' as E'.
  exists (kmem k'), (current_task k'), (task_head k'), (task_tail k').
  split; [|split; [exact Hc|split; [exact Hcur|exact Ho]]]. rewrite E. f_equal. rewrite <- E'. reflexivity.
Qed.

(** The task's blocks and the list around it, after part of the rest went. *)
Lemma freed_task m0 g m t chunk dir ts : freed m0 g m -> task_space m0 t chunk dir ts ->
  (forall q, q ∈ t :: chunk :: dir :: ts -> ~ g q) ->
  task_space m t chunk dir ts /\ (forall v p, 0 <= v < 4294967296 -> maps m0 dir v p -> maps m dir v p).
Proof.
  intros Hf Hsp Hg.
  assert (Hl : forall q, q ∈ t :: chunk :: dir :: ts -> live m0 q 4096).
  { intros q [->|Hq]%elem_of_cons; [apply (sp_live _ _ _ _ _ Hsp)|by apply (do_live _ _ _ _ (sp_owned _ _ _ _ _ Hsp))]. }
  apply (task_space_kept m0); [done| | |].
  - intros q Hq. apply (fd_live _ _ _ Hf). split; [by apply Hl|by apply Hg].
  - intros q a Hq Ha. apply (freed_byte m0 g m q 4096); [done|apply Hl; by right|done].
  - intros a Ha. apply (freed_byte m0 g m t 4096); [done|apply Hl; by left|lia].
Qed.

Lemma freed_list m0 g m head tail l : freed m0 g m -> (forall s, s ∈ l -> live m0 s 4096) ->
  task_list m0 head tail l -> task_list m head tail l.
Proof.
  intros Hf Hl. apply task_list_frame. intros i s a Hi Ha.
  apply (freed_byte m0 g m s 4096); [done|apply Hl; by eapply list_elem_of_lookup_2|unfold sizeof_task in Ha; lia].
Qed.

(** Memory as [freed] leaves it, the links between the tasks aside. *)
Record left_with (m0 : mem) (g : Z -> Prop) (l1 : list Z) (m : mem) : Prop := {
  lw_heap : heap_ok m;
  lw_live : forall q t, live m q t <-> live m0 q t /\ ~ g q;
  lw_bytes : forall a, ~ meta a -> a <> 0x6E00 -> beside l1 a -> rd m a = rd m0 a }.

Lemma task_free_spec m0 g k t l1 l2 chunk dir ts :
  freed m0 g (kmem k) -> task_space m0 t chunk dir ts -> (forall q, q ∈ t :: chunk :: dir :: ts -> ~ g q) ->
  task_list m0 (task_head k) (task_tail k) (l1 ++ t :: l2) ->
  (forall s, s ∈ l1 ++ l2 -> live m0 s 4096 /\ s ∉ t :: chunk :: dir :: ts) ->
  exists m c h e, task_free t k = Ret 0 (with_tasks c h e (with_kmem m k)) /\
    left_with m0 (fun q => g q \/ q ∈ t :: chunk :: dir :: ts) l1 m /\ chain m h (l1 ++ l2) /\
    c = (if current_task k =? t then default (default 0 ((l1 ++ l2) !! 0%nat)) (l2 !! 0%nat) else current_task k).
Proof.
  intros Hf Hsp Hg Hl Hel. destruct (freed_task _ _ _ _ _ _ _ Hf Hsp Hg) as [Hspk _].
  pose proof Hspk as [Hc Hd _ _ Hfr _]. pose proof (sp_live _ _ _ _ _ Hsp) as Hlt.
  set (k1 := with_kmem (paging_free_4gb chunk (kmem k)) k).
  assert (Hf1 : freed m0 (fun q => g q \/ q ∈ chunk :: dir :: ts) (kmem k1)).
  { apply freed_directory; [done|done|]. apply (do_live _ _ _ _ (sp_owned _ _ _ _ _ Hsp)). }
  assert (Hall : forall s, s ∈ l1 ++ t :: l2 -> live m0 s 4096).
  { intros s Hs. rewrite elem_of_app, elem_of_cons in Hs. destruct Hs as [Hs|[->|Hs]]; [|done|];
      apply Hel, elem_of_app; tauto. }
  destruct (task_list_remove_with k1 l1 t l2 (freed_list _ _ _ _ _ _ Hf1 Hall Hl))
    as (m2 & c & h & e & E2 & Hch & Hcur & Ho2).
  destruct (meta_frame (kmem k1) m2 (fd_heap _ _ _ Hf1)) as (Hok2 & Hlv2 & _).
  { intros a Ha. apply Ho2. intros p Hp. destruct (decide (p + 56 <= a < p + 60)); [|lia]. exfalso.
    destruct (live_block m0 p 4096) as (_ & _ & Hm); [|by apply (Hm a); [lia|]].
    apply Hall, elem_of_app. left. by eapply list_elem_of_lookup_2. }
  destruct (ka_free_spec m2 t 4096 Hok2) as (H1 & H2 & _ & H4).
  { apply Hlv2, (fd_live _ _ _ Hf1). split; [done|]. intros [Hx|Hx]; [|done]. by apply (Hg t); [left|]. }
  exists (ka_free t m2), c, h, e. split; [|split; [split; [done| |]|split; [|exact Hcur]]].
  - unfold task_free. rewrite (bind_Ret _ _ k chunk k) by (unfold kload32, gets; by rewrite Hc).
    rewrite (bind_Ret _ _ k tt k1) by done. by rewrite (bind_Ret _ _ _ _ _ E2).
  - intros q u. rewrite (H2 q u), Hlv2, (fd_live _ _ _ Hf1), (elem_of_cons _ q t). tauto.
  - intros a Ha Hne Hb. rewrite <- (fd_bytes _ _ _ Hf1 a Ha Hne), <- (Ho2 a Hb). exact (H4 a Ha).
  - apply (chain_frame m2); [|done]. intros i s Hi. apply ld32_ext. intros j Hj. apply H4.
    destruct (live_block m0 s 4096) as (_ & _ & Hm); [apply Hel; by eapply list_elem_of_lookup_2|].
    apply Hm. unfold task_next_link. lia.
Qed.

(** ** Lemmas: the parts of [process_terminate] *)

Section terminate.
Context (m0 : mem) (process task chunk dir : Z) (ts im : list Z)
  (Hcp : complete m0 process task chunk dir ts im).

Lemma complete_live : live m0 process process_span.
Proof. exact (pr_live _ _ _ _ _ _ (po_space _ _ _ _ _ _ (cp_ok _ _ _ _ _ _ _ Hcp))). Qed.
Lemma complete_task : task_space m0 task chunk dir ts.
Proof. exact (pr_space _ _ _ _ _ _ (po_space _ _ _ _ _ _ (cp_ok _ _ _ _ _ _ _ Hcp))). Qed.

(** The fields stay readable throughout. *)
Lemma object_word g m o : freed m0 g m -> 0 <= o -> o + 4 <= process_span ->
  ld32 m (process + o) = ld32 m0 (process + o).
Proof. intros Hf H1 H2. apply (freed_word m0 g m process process_span); [done|exact complete_live|lia|lia]. Qed.

Lemma allocations_freed k : kmem k = m0 -> Z.land (rd m0 0x6E00) HEAP_BLOCK_HAS_NEXT = 0 ->
  exists m, process_terminate_allocations process k = Ret 0 (with_kmem m k) /\
    freed m0 (tabled m0 process) m.
Proof.
  intros Hk Hbit.
  destruct (terminate_loop_spec process task chunk dir ts m0 (cp_ok _ _ _ _ _ _ _ Hcp) (Z.to_nat 1024) k 0)
    as (m & E & [Hh Hlv Hb _]); [|lia|lia|].
  { rewrite Hk. split; [apply (po_heap _ _ _ _ _ _ (cp_ok _ _ _ _ _ _ _ Hcp))| |done|done]. intros q t. split; [|tauto]. intros Hq. split; [done|lia]. }
  exists m. split; [unfold process_terminate_allocations; by rewrite (bind_Ret _ _ _ _ _ E)|].
  split; [done| |done]. intros q t. rewrite (Hlv q t). split; intros [Hq Hn]; (split; [done|]).
  - intros (i & Hi & Ei). by apply (Hn i).
  - intros j Hj Ej. apply Hn. exists j. split; [exact Hj|exact Ej].
Qed.

Lemma program_data_freed g k : freed m0 g (kmem k) -> (forall q, q ∈ im -> ~ g q) ->
  exists m, process_free_program_data process k = Ret 0 (with_kmem m k) /\
    freed m0 (fun q => g q \/ q ∈ im) m.
Proof.
  intros Hf Hg. pose proof (cp_nodup _ _ _ _ _ _ _ Hcp) as Hnd. apply list.NoDup_app in Hnd as (Hnd & _ & _).
  assert (Eft : rd (kmem k) (process + proc_filetype) = rd m0 (process + proc_filetype))
    by (apply (freed_byte m0 g _ process process_span); [done|exact complete_live|unfold proc_filetype, process_span; lia]).
  assert (Hl : forall q, q ∈ im -> exists s, live m0 q s) by (intros q Hq; apply (cp_live _ _ _ _ _ _ _ Hcp); by right).
  assert (Hw : forall o, 0 <= o -> o + 4 <= process_span -> ld32 (kmem k) (process + o) = ld32 m0 (process + o))
    by (intros; by apply (object_word g)).
  unfold process_free_program_data.
  rewrite (bind_Ret _ _ k (rd m0 (process + proc_filetype)) k) by (unfold kload8, gets; by rewrite Eft).
  destruct (cp_image _ _ _ _ _ _ _ Hcp) as [Et|Et Hne]; rewrite Et.
  - change (PROCESS_FILETYPE_BINARY =? PROCESS_FILETYPE_BINARY) with true. cbn [Z.eqb].
    set (p := ld32 m0 (process + proc_ptr)) in *. destruct (Hl p) as [s Hs]; [by left|].
    exists (ka_free p (kmem k)). split.
    + unfold process_free_binary_data. rewrite (bind_Ret _ _ k p k); [done|].
      unfold kload32, gets. by rewrite Hw by (unfold proc_ptr, process_span; lia).
    + apply (freed_ext m0 (fun q => g q \/ q = p)); [intros q; by rewrite list_elem_of_singleton|].
      apply (freed_block m0 g _ p s); [done|done|apply Hg; by left].
  - change (PROCESS_FILETYPE_ELF =? PROCESS_FILETYPE_BINARY) with false.
    change (PROCESS_FILETYPE_ELF =? PROCESS_FILETYPE_ELF) with true.
    set (f := ld32 m0 (process + proc_elf_file)) in *. set (e := ld32 m0 (f + ef_elf_memory)) in *.
    destruct (Hl f) as [s Hs]; [by right; left|]. destruct (Hl e) as [s' Hs']; [by left|].
    apply list.NoDup_cons in Hnd as [Hef _].
    assert (Ee : ld32 (kmem k) (f + ef_elf_memory) = e).
    { apply (freed_word m0 g _ f s); [done|done|unfold ef_elf_memory; lia|].
      pose proof (live_block _ _ _ Hs). unfold ef_elf_memory. lia. }
    exists (ka_free f (ka_free e (kmem k))). split.
    + unfold process_free_elf_data. rewrite (bind_Ret _ _ k f k).
      * unfold edit_kmem, modify. unfold elf_close. rewrite (proj2 (Z.eqb_neq f 0)) by done.
        unfold bind, ret. by rewrite Ee.
      * unfold kload32, gets. by rewrite Hw by (unfold proc_elf_file, process_span; lia).
    + apply (freed_ext m0 (fun q => (g q \/ q = e) \/ q = f)).
      { intros q. rewrite !elem_of_cons, elem_of_nil. tauto. }
      apply (freed_block m0 _ _ f s); [|done|].
      * apply (freed_block m0 g _ e s'); [done|done|apply Hg; by left].
      * intros [Hgf|Heq]; [by apply (Hg f); [by right; left|]|]. apply Hef. rewrite <- Heq. by left.
Qed.
End terminate.

(** ** Lemmas: the whole of it *)

Section whole.
Context (process task chunk dir : Z) (ts im l1 l2 : list Z) (k : kernel)
  (Hcp : complete (kmem k) process task chunk dir ts im)
  (Hbit : Z.land (rd (kmem k) 0x6E00) HEAP_BLOCK_HAS_NEXT = 0)
  (Hl : task_list (kmem k) (task_head k) (task_tail k) (l1 ++ task :: l2))
  (Hel : forall s, s ∈ l1 ++ l2 -> live (kmem k) s 4096 /\ ~ gone (kmem k) process task chunk dir ts im s).
Let m0 : mem := kmem k.
Let stack : Z := ld32 m0 (process + proc_stack).

Lemma complete_apart : (forall q, q ∈ im -> q <> stack) /\
  (forall q, q ∈ im ++ [stack] -> q ∉ task :: chunk :: dir :: ts).
Proof.
  pose proof (cp_nodup _ _ _ _ _ _ _ Hcp) as Hnd. fold m0 in Hnd. fold stack in Hnd.
  apply list.NoDup_app in Hnd as (_ & Hi & Hnd). apply list.NoDup_cons in Hnd as [Hs _]. split.
  - intros q Hq ->. apply (Hi _ Hq). by left.
  - intros q [Hq| ->%list_elem_of_singleton]%elem_of_app Hin; [apply (Hi q Hq); by do 2 right|apply Hs; by right].
Qed.

(** The table's blocks are none of the task's. *)
Lemma task_untabled q : q ∈ task :: chunk :: dir :: ts -> ~ tabled m0 process q.
Proof.
  intros Hq (i & Hi & Ei). assert (Hl4 : live m0 q 4096).
  { pose proof (complete_task _ _ _ _ _ _ _ Hcp) as Hsp. apply elem_of_cons in Hq as [->|Hq];
      [apply (sp_live _ _ _ _ _ Hsp)|by apply (do_live _ _ _ _ (sp_owned _ _ _ _ _ Hsp))]. }
  assert (Hq0 : q <> 0) by (pose proof (live_block _ _ _ Hl4); lia).
  destruct (po_entry _ _ _ _ _ _ (cp_ok _ _ _ _ _ _ _ Hcp) i Hi) as [_ _ _ _ Hap _];
    [fold m0; by rewrite Ei|]. apply Hap. fold m0. rewrite Ei. by right.
Qed.

Lemma process_terminate_run :
  exists m c h e, let k1 := with_tasks c h e (with_kmem m k) in
    process_terminate process k = (process_unlink process ;;; ret 0) k1 /\
    left_with m0 (gone m0 process task chunk dir ts im) l1 m /\ chain m h (l1 ++ l2) /\
    c = (if current_task k =? task then default (default 0 ((l1 ++ l2) !! 0%nat)) (l2 !! 0%nat) else current_task k).
Proof.
  destruct complete_apart as [His Hap].
  destruct (allocations_freed m0 process task chunk dir ts im Hcp k eq_refl Hbit) as (m1 & E1 & Hf1).
  destruct (program_data_freed m0 process task chunk dir ts im Hcp _ (with_kmem m1 k) Hf1) as (m2 & E2 & Hf2).
  { intros q Hq. apply (cp_table _ _ _ _ _ _ _ Hcp), elem_of_app. by left. }
  destruct (cp_live _ _ _ _ _ _ _ Hcp stack ltac:(by left)) as [s Hs]. fold m0 in Hs.
  assert (Hf3 : freed m0 (fun q => (tabled m0 process q \/ q ∈ im) \/ q = stack) (ka_free stack m2)).
  { apply (freed_block m0 _ m2 stack s Hf2 Hs). intros [Ht|Hi].
    - revert Ht. apply (cp_table _ _ _ _ _ _ _ Hcp), elem_of_app. right. by left.
    - exact (His _ Hi eq_refl). }
  set (k3 := with_kmem (ka_free stack m2) k).
  destruct (task_free_spec m0 _ k3 task l1 l2 chunk dir ts Hf3 (complete_task _ _ _ _ _ _ _ Hcp))
    as (m4 & c & h & e & E4 & Hw & Hch & Hc); [|exact Hl| |].
  { intros q Hq [[Ht|Hi]|Hst]; [exact (task_untabled q Hq Ht)|apply (Hap q); [apply elem_of_app; by left|exact Hq]|].
    apply (Hap q); [rewrite Hst; apply elem_of_app; right; by left|exact Hq]. }
  { intros x Hx. destruct (Hel x Hx) as [Hx1 Hx2]. split; [exact Hx1|]. intros Hin. apply Hx2. right.
    apply elem_of_app. right. by right. }
  exists m4, c, h, e. split; [|split; [|split; [exact Hch|exact Hc]]].
  - unfold process_terminate. rewrite (bind_Ret _ _ _ _ _ E1), (bind_Ret _ _ _ _ _ E2). cbn [Z.ltb Z.compare].
    rewrite (bind_Ret _ _ _ stack (with_kmem m2 k)).
    2:{ unfold kload32, gets. f_equal. exact (object_word m0 process task chunk dir ts im Hcp _ m2 proc_stack Hf2 ltac:(unfold proc_stack; lia) ltac:(unfold proc_stack, process_span; lia)). }
    rewrite (bind_Ret _ _ _ tt k3) by done.
    rewrite (bind_Ret _ _ _ task k3).
    2:{ unfold kload32, gets. f_equal. rewrite (object_word m0 process task chunk dir ts im Hcp _ (kmem k3) proc_task Hf3 ltac:(unfold proc_task; lia) ltac:(unfold proc_task, process_span; lia)).
        exact (pr_task _ _ _ _ _ _ (po_space _ _ _ _ _ _ (cp_ok _ _ _ _ _ _ _ Hcp))). }
    by rewrite (bind_Ret _ _ _ _ _ E4).
  - destruct Hw as [W1 W2 W3]. split; [exact W1| |exact W3]. intros q t. rewrite W2. unfold gone.
    rewrite elem_of_app. fold stack. rewrite (elem_of_cons (task :: chunk :: dir :: ts) q stack). tauto.
Qed.

(** A byte of a live block that is no task of the list. *)
Lemma left_byte m p s a : left_with m0 (gone m0 process task chunk dir ts im) l1 m -> live m0 p s -> p <= a < p + s ->
  (forall q, q ∈ l1 -> q = p -> a < p + 56 \/ p + 60 <= a) -> rd m a = rd m0 a.
Proof.
  intros Hw Hlp Ha Hq. destruct (live_above p s a m0 Hlp Ha) as [H1 H2].
  apply (lw_bytes _ _ _ _ Hw a H1 H2). intros q Hlast. apply list_elem_of_lookup_2 in Hlast.
  destruct (Hel q) as [Hlq _]; [apply elem_of_app; by left|].
  destruct (live_disjoint m0 q 4096 p s Hlq Hlp) as [[-> _]|?]; [by apply (Hq p)|lia].
Qed.

Lemma process_unlisted : process ∉ l1 ++ l2.
Proof.
  intros Hin. destruct (Hel _ Hin) as [Hlp _]. pose proof (complete_live _ _ _ _ _ _ _ Hcp) as Hl2.
  unfold process_span in Hl2. destruct (live_disjoint _ _ _ _ _ Hlp Hl2); lia.
Qed.

Lemma left_id m : left_with m0 (gone m0 process task chunk dir ts im) l1 m ->
  ld16 m (process + proc_id) = ld16 m0 (process + proc_id).
Proof.
  intros Hw. unfold ld16, proc_id.
  assert (E : forall a, process <= a < process + 12 -> rd m a = rd m0 a).
  { intros a Ha. apply (left_byte m process process_span); [exact Hw|exact (complete_live _ _ _ _ _ _ _ Hcp)|unfold process_span; lia|].
    intros q Hq ->. exfalso. apply process_unlisted, elem_of_app. by left. }
  rewrite !E by lia. reflexivity.
Qed.
End whole.

(** ** The state after *)

(** The kernel after [process] ended: its blocks, and only they, are free;
    the tasks that remain are linked in order; its slot is empty and [next]
    is the process in charge; the process object is still there. *)
Record ended (k k' : kernel) (process task chunk dir : Z) (ts im l1 l2 : list Z) (next : Z) : Prop := {
  ex_heap : kheap_ok (kmem k');
  ex_live : forall q t, kheap_live (kmem k') q t <-> kheap_live (kmem k) q t /\ ~ gone (kmem k) process task chunk dir ts im q;
  ex_leak : kheap_live (kmem k') process process_span;
  ex_bytes : forall a, ~ in_table kernel_heap a -> a <> 0x6E00 -> beside l1 a -> rd (kmem k') a = rd (kmem k) a;
  ex_chain : chain (kmem k') (task_head k') (l1 ++ l2);
  ex_processes : processes k' = <[Z.to_nat (ld16 (kmem k) (process + proc_id)) := 0]> (processes k);
  ex_next : current_process k' = next }.

(** The task [s] goes on: it has its own blocks, none of which is released or
    is another task of the list. *)
Definition bystander (m : mem) (g : Z -> Prop) (l : list Z) (s : Z) : Prop :=
  exists c d ts, task_space m s c d ts /\ (forall j, 0 <= j < 64 -> maps m d (s + j) (s + j)) /\
    (forall q, q ∈ s :: c :: d :: ts -> ~ g q) /\ (forall q, q ∈ c :: d :: ts -> q ∉ l).

Section ends.
Context (process task chunk dir : Z) (ts im l1 l2 : list Z) (k : kernel)
  (Hcp : complete (kmem k) process task chunk dir ts im)
  (Hbit : Z.land (rd (kmem k) 0x6E00) HEAP_BLOCK_HAS_NEXT = 0)
  (Hl : task_list (kmem k) (task_head k) (task_tail k) (l1 ++ task :: l2)).
Let g : Z -> Prop := gone (kmem k) process task chunk dir ts im.

Lemma process_kept : ~ g process.
Proof.
  pose proof (complete_live _ _ _ _ _ _ _ Hcp) as Hlive.
  assert (Hp0 : process <> 0) by (pose proof (live_block _ _ _ Hlive); lia).
  pose proof (cp_nodup _ _ _ _ _ _ _ Hcp) as Hnd.
  apply list.NoDup_app in Hnd as (_ & Hi & Hnd). apply list.NoDup_cons in Hnd as [Hs Hnd].
  apply list.NoDup_cons in Hnd as [Hp _]. intros [(i & Hi' & Ei)|Hin].
  - destruct (po_entry _ _ _ _ _ _ (cp_ok _ _ _ _ _ _ _ Hcp) i Hi') as [_ _ _ _ Hap _]; [by rewrite Ei|].
    apply Hap. rewrite Ei. by left.
  - apply elem_of_app in Hin as [Hin|Hin]; [apply (Hi _ Hin); right; by left|].
    apply elem_of_cons in Hin as [Heq|Hin]; [apply Hs; rewrite <- Heq; by left|done].
Qed.

Lemma process_terminate_cases : (forall s, s ∈ l1 ++ l2 -> live (kmem k) s 4096 /\ ~ g s) ->
  let rest := <[Z.to_nat (ld16 (kmem k) (process + proc_id)) := 0]> (processes k) in
  match (if decide (current_process k = process) then first_process rest else Some (current_process k)) with
  | Some next => exists k', process_terminate process k = Ret 0 k' /\
      ended k k' process task chunk dir ts im l1 l2 next /\
      current_task k' = (if current_task k =? task then default (default 0 ((l1 ++ l2) !! 0%nat)) (l2 !! 0%nat) else current_task k)
  | None => exists k', process_terminate process k = Hang k'
  end.
Proof.
  intros Hel rest.
  destruct (process_terminate_run process task chunk dir ts im l1 l2 k Hcp Hbit Hl Hel) as (m & c & h & e & Er & Hw & Hch & Hc).
  set (k1 := with_tasks c h e (with_kmem m k)) in *.
  pose proof (process_unlink_spec k1 process) as Hu. cbv zeta in Hu.
  change (kmem k1) with m in Hu. change (processes k1) with (processes k) in Hu. change (current_process k1) with (current_process k) in Hu.
  rewrite (left_id process task chunk dir ts im l1 l2 k Hcp Hel m Hw) in Hu. fold rest in Hu.
  assert (Hend : forall next, ended k (with_processes next rest k1) process task chunk dir ts im l1 l2 next).
  { intros next. split; [exact (lw_heap _ _ _ _ Hw)|exact (lw_live _ _ _ _ Hw)| |exact (lw_bytes _ _ _ _ Hw)|exact Hch|reflexivity|reflexivity].
    apply (lw_live _ _ _ _ Hw). split; [exact (complete_live _ _ _ _ _ _ _ Hcp)|exact process_kept]. }
  rewrite Er. destruct (decide (current_process k = process)) as [Hcur|Hcur].
  - destruct (first_process rest) as [next|].
    + eexists. split; [by rewrite (bind_Ret _ _ _ _ _ Hu)|]. split; [apply Hend|exact Hc].
    + destruct Hu as [k' Hu]. exists k'. unfold bind. by rewrite Hu.
  - eexists. split; [by rewrite (bind_Ret _ _ _ _ _ Hu)|]. split; [apply Hend|exact Hc].
Qed.

(** What the others need is still there. *)
Lemma bystander_ended k' next s : ended k k' process task chunk dir ts im l1 l2 next ->
  (forall s, s ∈ l1 ++ l2 -> bystander (kmem k) g (l1 ++ l2) s) -> s ∈ l1 ++ l2 ->
  (exists d, resumable (kmem k') s d) /\ saved_state (kmem k') s = saved_state (kmem k) s.
Proof.
  intros He Hby Hs. destruct (Hby s Hs) as (c & d & ts' & Hsp & Hid & Hg & Hnl).
  assert (Hlive : forall q, q ∈ s :: c :: d :: ts' -> live (kmem k) q 4096).
  { intros q [->|Hq]%elem_of_cons; [apply (sp_live _ _ _ _ _ Hsp)|by apply (do_live _ _ _ _ (sp_owned _ _ _ _ _ Hsp))]. }
  assert (Hbytes : forall q a, q ∈ s :: c :: d :: ts' -> q <= a < q + 4096 -> (q = s -> a < s + 56) -> rd (kmem k') a = rd (kmem k) a).
  { intros q a Hq Ha Hlow. destruct (live_above q 4096 a (kmem k) (Hlive q Hq) Ha) as [H1 H2].
    apply (ex_bytes _ _ _ _ _ _ _ _ _ _ _ He a H1 H2). intros p Hp. apply list_elem_of_lookup_2 in Hp.
    assert (Hp' : p ∈ l1 ++ l2) by (apply elem_of_app; by left).
    destruct (Hby p Hp') as (c2 & d2 & ts2 & Hsp2 & _).
    destruct (live_disjoint (kmem k) q 4096 p 4096 (Hlive q Hq) (sp_live _ _ _ _ _ Hsp2)) as [[-> _]|?]; [|lia].
    apply elem_of_cons in Hq as [->|Hq]; [left; by apply Hlow|by destruct (Hnl p Hq)]. }
  destruct (task_space_kept (kmem k) (kmem k') s c d ts' Hsp) as [Hsp' Hmaps].
  - intros q Hq. apply (ex_live _ _ _ _ _ _ _ _ _ _ _ He). split; [by apply Hlive|by apply Hg].
  - intros q a Hq Ha. apply (Hbytes q); [by right|exact Ha|intros ->; by destruct (sp_fresh _ _ _ _ _ Hsp)].
  - intros a Ha. apply (Hbytes s); [by left|lia|lia].
  - split.
    + exists d, c, ts'. split; [exact Hsp'|]. intros j Hj. apply Hmaps; [|by apply Hid].
      pose proof (page_top _ (sp_page _ _ _ _ _ Hsp)). destruct (sp_page _ _ _ _ _ Hsp). lia.
    + unfold saved_state. f_equal; apply ld32_ext; intros i Hi; apply (Hbytes s); try (by left);
        unfold task_registers, reg_edi, reg_esi, reg_ebx, reg_edx, reg_ecx, reg_eax, reg_ip, reg_cs, reg_esp, reg_ss; lia.
Qed.

End ends.

(** A fault ends the program as the call does. *)
Lemma fault_exits mmu k : idt_handle_exception mmu k = isr80h_command9_exit mmu k.
Proof. unfold idt_handle_exception, isr80h_command9_exit. reflexivity. Qed.

(** ** Properties *)

(** C9. [process_terminate] gives back what a process owned: with another
    process left in the table (or the ended one not in charge) it returns 0,
    and then exactly the blocks of its allocations, image, stack, task and
    address space are free, its slot is empty, the other tasks stay linked
    in order and a process that was in charge has handed over to the first
    one left; the process object itself stays allocated.  With none left the
    kernel panics. *)
Theorem process_terminate_releases k process task chunk dir ts im l1 l2 :
  complete (kmem k) process task chunk dir ts im ->
  Z.land (rd (kmem k) 0x6E00) HEAP_BLOCK_HAS_NEXT = 0 ->
  task_list (kmem k) (task_head k) (task_tail k) (l1 ++ task :: l2) ->
  (forall s, s ∈ l1 ++ l2 -> kheap_live (kmem k) s 4096 /\ ~ gone (kmem k) process task chunk dir ts im s) ->
  let rest := <[Z.to_nat (ld16 (kmem k) (process + proc_id)) := 0]> (processes k) in
  match (if decide (current_process k = process) then first_process rest else Some (current_process k)) with
  | Some next => exists k', process_terminate process k = Ret 0 k' /\
      ended k k' process task chunk dir ts im l1 l2 next
  | None => exists k', process_terminate process k = Hang k'
  end.
Proof.
  intros Hcp Hbit Hl Hel rest.
  pose proof (process_terminate_cases process task chunk dir ts im l1 l2 k Hcp Hbit Hl Hel) as Hc. cbv zeta in Hc. fold rest in Hc.
  destruct (if decide _ then _ else _) as [next|]; [|exact Hc].
  destruct Hc as (k' & E & He & _). exists k'. split; [exact E|exact He].
Qed.

(** C10. The exit call and a fault end the running program and go on with
    another: everything of [process_terminate_releases], and the task
    resumed - with the registers it was left with, under its own pages - is
    the one after the ended task's successor (the successor itself is passed
    over: the list already moved to it when the task was unlinked). *)
Theorem exit_resumes_another mmu k process task chunk dir ts im l1 l2 next :
  mmu_ok mmu -> complete (kmem k) process task chunk dir ts im ->
  Z.land (rd (kmem k) 0x6E00) HEAP_BLOCK_HAS_NEXT = 0 ->
  task_list (kmem k) (task_head k) (task_tail k) (l1 ++ task :: l2) -> l1 ++ l2 <> [] ->
  (forall s, s ∈ l1 ++ l2 -> bystander (kmem k) (gone (kmem k) process task chunk dir ts im) (l1 ++ l2) s) ->
  current_task k = task -> ld32 (kmem k) (task + task_process) = process -> current_process k = process ->
  first_process (<[Z.to_nat (ld16 (kmem k) (process + proc_id)) := 0]> (processes k)) = Some next ->
  let t := in_turn (l1 ++ l2) (length l1) 1 in
  exists k1 d, isr80h_command9_exit mmu k = Ret (saved_state (kmem k) t) (resumed t d k1) /\
    idt_handle_exception mmu k = isr80h_command9_exit mmu k /\
    ended k k1 process task chunk dir ts im l1 l2 next /\ resumable (kmem k1) t d.
Proof.
  intros Hmmu Hcp Hbit Hl Hne Hby Hcur Hproc Hcp2 Hfirst t.
  assert (Hel : forall s, s ∈ l1 ++ l2 -> live (kmem k) s 4096 /\ ~ gone (kmem k) process task chunk dir ts im s).
  { intros s Hs. destruct (Hby s Hs) as (c & d & ts' & Hsp & _ & Hg & _). split; [apply (sp_live _ _ _ _ _ Hsp)|apply Hg; by left]. }
  pose proof (process_terminate_cases process task chunk dir ts im l1 l2 k Hcp Hbit Hl Hel) as Hc. cbv zeta in Hc.
  destruct (decide (current_process k = process)) as [_|Hx]; [|destruct (Hx Hcp2)].
  rewrite Hfirst, Hcur, Z.eqb_refl in Hc. destruct Hc as (k1 & E & He & Hct).
  pose proof (list_nonempty_length _ Hne) as Hlen.
  assert (Hi : (l1 ++ l2) !! (length l1 mod length (l1 ++ l2))%nat = Some (current_task k1)).
  { rewrite Hct. destruct l2 as [|q l2'].
    - clear -Hne. rewrite app_nil_r in *. rewrite Nat.Div0.mod_same. by destruct l1.
    - rewrite length_app. cbn [length]. rewrite Nat.mod_small by lia. by apply list_lookup_middle. }
  assert (Et : in_turn (l1 ++ l2) (length l1 mod length (l1 ++ l2)) 1 = t)
    by (unfold t, in_turn; by rewrite Nat.Div0.add_mod_idemp_l).
  pose proof (in_turn_lookup (l1 ++ l2) (length l1) 1 Hlen) as Hin. fold t in Hin. apply list_elem_of_lookup_2 in Hin.
  destruct (bystander_ended process task chunk dir ts im l1 l2 k k1 next t He Hby Hin) as [[d Hd] Hsaved].
  exists k1, d. split; [|split; [apply fault_exits|split; [exact He|exact Hd]]].
  unfold isr80h_command9_exit, current_task_process.
  rewrite (bind_Ret _ _ k process k) by (rewrite (bind_Ret _ _ k task k) by (unfold gets; by rewrite Hcur); unfold kload32, gets; by rewrite Hproc).
  rewrite (bind_Ret _ _ _ _ _ E), <- Hsaved, <- Et.
  apply (task_next_spec mmu Hmmu k1 (l1 ++ l2) _ d); [exact (ex_chain _ _ _ _ _ _ _ _ _ _ _ He)|exact Hi|by rewrite Et].
Qed.

(** ** Witnesses *)

(** Steps that keep what is owned, the bytes in [e] aside. *)
Definition keeps (e : Z -> Prop) (m m' : mem) : Prop :=
  (forall q s, live m q s -> live m' q s) /\ (forall a, owned m a -> ~ e a -> rd m' a = rd m a).

Lemma keeps_trans e m1 m2 m3 : keeps e m1 m2 -> keeps e m2 m3 -> keeps e m1 m3.
Proof.
  intros [L1 B1] [L2 B2]. split; [by intros q s Hq; apply L2, L1|].
  intros a Ha He. rewrite B2; [by apply B1|by apply (owned_ext m1)|done].
Qed.

Lemma keeps_space e m m' t c d ts : task_space m t c d ts -> keeps e m m' ->
  (forall q a, q ∈ c :: d :: ts -> q <= a < q + 4096 -> ~ e a) -> (forall a, t <= a < t + 4 -> ~ e a) ->
  task_space m' t c d ts /\ (forall v p, 0 <= v < 4294967296 -> maps m d v p -> maps m' d v p).
Proof.
  intros Hsp [HL HB] He Het.
  assert (Hl : forall q, q ∈ t :: c :: d :: ts -> live m q 4096).
  { intros q [->|Hq]%elem_of_cons; [apply (sp_live _ _ _ _ _ Hsp)|by apply (do_live _ _ _ _ (sp_owned _ _ _ _ _ Hsp))]. }
  apply (task_space_kept m); [done|intros q Hq; by apply HL, Hl| |].
  - intros q a Hq Ha. apply HB; [apply (owned_live m q 4096); [apply Hl; by right|done]|by apply (He q)].
  - intros a Ha. apply HB; [apply (owned_live m t 4096); [apply Hl; by left|lia]|by apply Het].
Qed.

Lemma space_identity m t c d ts : task_space m t c d ts -> (forall v, page v -> pte m d v = Z.lor v 5) ->
  forall j, 0 <= j < 64 -> maps m d (t + j) (t + j).
Proof.
  intros Hsp Hid j Hj. pose proof (page_top _ (sp_page _ _ _ _ _ Hsp)). destruct (sp_page _ _ _ _ _ Hsp).
  apply identity_maps; [exact (dir_owned_wf _ _ _ _ (sp_owned _ _ _ _ _ Hsp))|exact (sp_present _ _ _ _ _ Hsp)|exact Hid|lia].
Qed.

(** An object for the process, between two tasks; the second is its own. *)
Lemma staged : exists m p t1 c1 d1 ts1 t2 c2 d2 ts2,
  heap_ok m /\ room m 100 /\ task_list m t1 t2 [t1; t2] /\
  task_space m t1 c1 d1 ts1 /\ (forall j, 0 <= j < 64 -> maps m d1 (t1 + j) (t1 + j)) /\
  task_space m t2 c2 d2 ts2 /\ live m p process_span /\ 0 < p < 4294967296 /\ ld32 m (t2 + task_process) = p /\
  (forall q, q ∈ t1 :: c1 :: d1 :: ts1 -> q ∉ t2 :: c2 :: d2 :: ts2) /\
  (forall a, p <= a < p + sizeof_process -> rd m a = 0) /\ rd m 0x6E00 = 0.
Proof.
  set (k0 := small_kernel ∅ 0).
  destruct (task_new_spec k0 0x200000 [] 1150) as (t1 & m1 & c1 & d1 & ts1 & _ & Hl1 & Hsp1 & Hid1 & _ & Hok1 & Hr1 & Hlv1 & _ & Ho1);
    [exact kernel_empty_ok|apply kernel_empty_room; lia|apply no_tasks|intros t Ht; by apply not_elem_of_nil in Ht|exact empty_entry|].
  assert (Es : blocks_for sizeof_process = 3) by reflexivity.
  destruct (alloc_span m1 sizeof_process 1150 Hok1 ltac:(unfold sizeof_process; lia) Hr1 ltac:(rewrite Es; lia))
    as (p & m2 & _ & Hp0 & Hp & He & Hok2 & Hr2 & Hlv2 & Hd2 & Hz & Ho2).
  rewrite Es in Hr2. change (span sizeof_process) with process_span in *.
  assert (Hlp : live m2 p process_span) by (apply Hlv2; by right).
  assert (K12 : keeps (fun _ => False) m1 m2) by (split; [intros q s Hq; apply Hlv2; by left|intros a Ha _; by apply Ho2]).
  assert (Hlow1 : forall a, a < 0x7E00 -> rd m2 a = rd ∅ a).
  { intros a Ha. rewrite (proj2 (Ho2 a ltac:(apply low_owned; lia))). apply Ho1; [apply low_owned; lia|intros q Hq; discriminate]. }
  destruct (keeps_space _ m1 m2 t1 c1 d1 ts1 Hsp1 K12) as [Hsp1b Hid1b]; [by intros; intros []|by intros; intros []|].
  destruct (task_new_spec (with_kmem m2 (small_kernel ∅ t1)) p [t1] 100)
    as (t2 & m3 & c2 & d2 & ts2 & _ & Hl3 & Hsp3 & _ & Hf3 & Hok3 & Hr3 & Hlv3 & Hfr3 & Ho3);
    [exact Hok2|apply (kheap_room_weaken _ _ _ Hr2); lia| | | |].
  { apply (task_list_frame m1); [|exact Hl1]. intros i s a [-> <-]%list_lookup_singleton_Some Ha.
    apply (proj2 K12); [|by intros []]. apply (owned_live m1 t1 4096); [exact (sp_live _ _ _ _ _ Hsp1)|unfold sizeof_task in Ha; lia]. }
  { intros t ->%list_elem_of_singleton. split; [exact (sp_live _ _ _ _ _ Hsp1b)|exact (sp_page _ _ _ _ _ Hsp1b)]. }
  { intros a Ha. rewrite kmem_with_kmem in *. unfold entry_byte in Ha. cbv zeta in Ha.
    assert (E0 : ld32 m2 (p + proc_elf_file) = 0) by (unfold ld32, proc_elf_file; rewrite !Hz by (unfold sizeof_process; lia); done).
    rewrite E0 in Ha. assert (E1 : elf_header 0 m2 = 0) by (unfold elf_header, ld32, ef_elf_memory; rewrite !Hlow1 by lia; done).
    rewrite E1 in Ha. unfold proc_filetype, proc_elf_file, ef_elf_memory, e_entry in Ha.
    destruct (decide (a < 0x7E00)); [apply low_owned; lia|]. apply (owned_live m2 p process_span); [done|unfold process_span; lia]. }
  assert (K23 : keeps (fun a => t1 + 56 <= a < t1 + 60) m2 m3).
  { split; [intros q s Hq; apply Hlv3; by left|]. intros a Ha Hne. apply Ho3; [exact Ha|]. intros q [= <-]. lia. }
  assert (Hl1b : forall q, q ∈ t1 :: c1 :: d1 :: ts1 -> live m2 q 4096).
  { intros q [->|Hq]%elem_of_cons; [exact (sp_live _ _ _ _ _ Hsp1b)|by apply (do_live _ _ _ _ (sp_owned _ _ _ _ _ Hsp1b))]. }
  destruct (keeps_space _ m2 m3 t1 c1 d1 ts1 Hsp1b K23) as [Hsp1c Hid1c].
  { intros q a Hq Ha. destruct (live_disjoint m2 q 4096 t1 4096) as [[-> _]|?];
      [apply Hl1b; by right|apply Hl1b; by left|by destruct (sp_fresh _ _ _ _ _ Hsp1b)|lia]. }
  { intros a Ha. lia. }
  assert (Hpt : p + process_span <= t1 \/ t1 + 4096 <= p).
  { destruct (Hd2 t1 4096 (sp_live _ _ _ _ _ Hsp1)); lia. }
  exists m3, p, t1, c1, d1, ts1, t2, c2, d2, ts2. split; [done|]. split; [done|]. split; [exact Hl3|]. split; [exact Hsp1c|]. split.
  { intros j Hj. pose proof (page_top _ (sp_page _ _ _ _ _ Hsp1)). destruct (sp_page _ _ _ _ _ Hsp1).
    apply Hid1c; [lia|]. apply Hid1b; [lia|]. by apply (space_identity m1 t1 c1 d1 ts1). }
  split; [exact Hsp3|]. split; [apply Hlv3; by left|]. split; [unfold process_span in He; lia|]. split.
  { rewrite (tf_process _ _ _ _ Hf3). apply u32_id. unfold process_span in He. lia. }
  split; [intros q Hq; by apply (Hfr3 q 4096), Hl1b|]. split.
  - intros a Ha. rewrite <- (Hz a Ha). apply Ho3; [apply (owned_live m2 p process_span); [done|unfold sizeof_process, process_span in *; lia]|].
    intros q [= <-]. unfold sizeof_process, process_span in *. lia.
  - assert (E : rd m3 0x6E00 = rd ∅ 0x6E00); [|exact E]. rewrite <- Hlow1 by lia. apply (Ho3 0x6E00); [apply low_owned; lia|].
    intros q [= <-]. pose proof (live_pool m1 t1 4096 t1 (sp_live _ _ _ _ _ Hsp1) ltac:(lia)) as Hpool.
    unfold pool, kernel_allocator in Hpool. change (saddr kernel_heap) with 0x1000000 in Hpool. lia.
Qed.

Definition image_fields (p task im st : Z) (m : mem) : mem :=
  st32 (st32 (wr (st32 m (p + proc_task) task) (p + proc_filetype) PROCESS_FILETYPE_BINARY) (p + proc_ptr) im) (p + proc_stack) st.

Lemma image_fields_spec p task im st m : page task -> page im -> page st -> let m' := image_fields p task im st m in
  ld32 m' (p + proc_task) = task /\
  rd m' (p + proc_filetype) = PROCESS_FILETYPE_BINARY /\ ld32 m' (p + proc_ptr) = im /\ ld32 m' (p + proc_stack) = st /\
  (forall a, a < p + 112 \/ p + 116 <= a < p + 8308 \/ p + 8320 <= a -> rd m' a = rd m a).
Proof.
  intros [Ht _] [Hi _] [Hs _] m'. unfold m', image_fields, proc_task, proc_filetype, proc_ptr, proc_stack.
  split; [|split; [|split; [|split]]].
  - rewrite !ld32_st32_ne by lia. transitivity (ld32 (st32 m (p + 112) task) (p + 112)); [|rewrite ld32_st32_eq; by apply u32_id].
    apply ld32_ext. intros i Hj. by rewrite rd_wr_ne by lia.
  - rewrite !rd_st32_ne by lia. by rewrite rd_wr_eq.
  - rewrite ld32_st32_ne by lia. rewrite ld32_st32_eq. by apply u32_id.
  - rewrite ld32_st32_eq. by apply u32_id.
  - intros a Ha. rewrite !rd_st32_ne by lia. rewrite rd_wr_ne by lia. by rewrite rd_st32_ne by lia.
Qed.

(** The process with an image and a stack. *)
Lemma program_loaded : exists m p t1 c1 d1 ts1 t2 c2 d2 ts2 im st,
  heap_ok m /\ task_list m t1 t2 [t1; t2] /\ task_space m t1 c1 d1 ts1 /\ (forall j, 0 <= j < 64 -> maps m d1 (t1 + j) (t1 + j)) /\
  task_space m t2 c2 d2 ts2 /\ live m p process_span /\ ld32 m (p + proc_task) = t2 /\ ld32 m (t2 + task_process) = p /\
  (forall q, q ∈ t1 :: c1 :: d1 :: ts1 -> q ∉ t2 :: c2 :: d2 :: ts2) /\
  rd m (p + proc_filetype) = PROCESS_FILETYPE_BINARY /\ ld32 m (p + proc_ptr) = im /\ ld32 m (p + proc_stack) = st /\
  (forall i, 0 <= i < 1024 -> allocation m p i = (0, 0)) /\ live m im 4096 /\ live m st 16384 /\
  (im ∉ p :: (t1 :: c1 :: d1 :: ts1) ++ t2 :: c2 :: d2 :: ts2) /\ (st ∉ im :: p :: (t1 :: c1 :: d1 :: ts1) ++ t2 :: c2 :: d2 :: ts2) /\
  rd m 0x6E00 = 0 /\ ld16 m (p + proc_id) = 0.
Proof.
  destruct staged as (m3 & p & t1 & c1 & d1 & ts1 & t2 & c2 & d2 & ts2 & Hok3 & Hr3 & Hl3 & Hsp1 & Hid1 & Hsp2 & Hlp & Hp0 & Hpr & Hdis & Hz & Hlow).
  destruct (alloc_span m3 4096 100 Hok3 ltac:(lia) Hr3 ltac:(rewrite one_block; lia))
    as (im & m4 & _ & _ & Him & _ & Hok4 & Hr4 & Hlv4 & Hd4 & _ & Ho4).
  rewrite one_block in Hr4 by lia. assert (Es4 : span 4096 = 4096) by reflexivity. rewrite Es4 in *.
  destruct (alloc_span m4 16384 _ Hok4 ltac:(lia) Hr4 ltac:(change (blocks_for 16384) with 4; lia))
    as (st & m5 & _ & _ & Hst & _ & Hok5 & _ & Hlv5 & Hd5 & _ & Ho5).
  assert (Es5 : span 16384 = 16384) by reflexivity. rewrite Es5 in *.
  set (m6 := image_fields p t2 im st m5).
  destruct (image_fields_spec p t2 im st m5 (sp_page _ _ _ _ _ Hsp2) Him Hst) as (Hpt & F1 & F2 & F3 & Fo). fold m6 in Hpt, F1, F2, F3, Fo.
  assert (Hlp5 : live m5 p process_span) by (apply Hlv5; left; apply Hlv4; by left).
  clearbody m6.
  destruct (client_frame m5 m6 p process_span Hok5 Hlp5) as (Hok6 & Hlv6 & _);
    [intros a Ha; apply Fo; unfold process_span in Ha; lia|].
  assert (K : keeps (fun a => p <= a < p + process_span) m3 m6).
  { split; [intros q s Hq; apply Hlv6, Hlv5; left; apply Hlv4; by left|]. intros a Ha Hne. unfold process_span in Hne. rewrite Fo by lia.
    rewrite (proj2 (Ho5 a ltac:(apply (owned_ext m3); [intros q s Hq; apply Hlv4; by left|done]))). by apply Ho4. }
  assert (Hapart : forall q, live m3 q 4096 -> q + 4096 <= p \/ p + process_span <= q).
  { intros q Hq. destruct (live_disjoint m3 q 4096 p process_span Hq Hlp) as [[_ E]|?]; [unfold process_span in E; lia|lia]. }
  assert (Hb1 : forall q, q ∈ t1 :: c1 :: d1 :: ts1 -> live m3 q 4096).
  { intros q [->|Hq]%elem_of_cons; [exact (sp_live _ _ _ _ _ Hsp1)|by apply (do_live _ _ _ _ (sp_owned _ _ _ _ _ Hsp1))]. }
  assert (Hb2 : forall q, q ∈ t2 :: c2 :: d2 :: ts2 -> live m3 q 4096).
  { intros q [->|Hq]%elem_of_cons; [exact (sp_live _ _ _ _ _ Hsp2)|by apply (do_live _ _ _ _ (sp_owned _ _ _ _ _ Hsp2))]. }
  assert (He : forall q a, live m3 q 4096 -> q <= a < q + 4096 -> ~ (p <= a < p + process_span))
    by (intros q a Hq Ha; specialize (Hapart q Hq); lia).
  destruct (keeps_space _ m3 m6 t1 c1 d1 ts1 Hsp1 K) as [Hsp1' Hm1];
    [intros q a Hq; apply He, Hb1; by right|intros a Ha; apply (He t1); [apply Hb1; by left|lia]|].
  destruct (keeps_space _ m3 m6 t2 c2 d2 ts2 Hsp2 K) as [Hsp2' _];
    [intros q a Hq; apply He, Hb2; by right|intros a Ha; apply (He t2); [apply Hb2; by left|lia]|].
  assert (Hobj : forall a, p <= a < p + 112 \/ p + 116 <= a < p + 8308 -> rd m6 a = rd m3 a).
  { intros a Ha. rewrite Fo by lia. assert (Hown : owned m3 a) by (apply (owned_live m3 p process_span); [done|unfold process_span; lia]).
    rewrite (proj2 (Ho5 a ltac:(apply (owned_ext m3); [intros q s Hq; apply Hlv4; by left|done]))). by apply Ho4. }
  assert (Hfresh : forall q s, q ∈ p :: (t1 :: c1 :: d1 :: ts1) ++ t2 :: c2 :: d2 :: ts2 -> s = im \/ s = st -> q <> s).
  { assert (Hlq : forall q, q ∈ p :: (t1 :: c1 :: d1 :: ts1) ++ t2 :: c2 :: d2 :: ts2 -> exists n, live m3 q n).
    { intros q [->|[Hq|Hq]%elem_of_app]%elem_of_cons; [by exists process_span|exists 4096; by apply Hb1|exists 4096; by apply Hb2]. }
    intros q s Hq Hs ->. destruct (Hlq s Hq) as [n Hn]. pose proof (live_block _ _ _ Hn). destruct Hs as [->| ->].
    - specialize (Hd4 im n Hn). lia.
    - specialize (Hd5 st n ltac:(apply Hlv4; by left)). lia. }
  exists m6, p, t1, c1, d1, ts1, t2, c2, d2, ts2, im, st.
  split; [exact Hok6|]. split.
  { apply (task_list_frame m3); [|exact Hl3]. intros i s a Hi Ha. unfold sizeof_task in Ha.
    assert (Hs : live m3 s 4096) by (destruct i as [|[|i]]; [injection Hi as <-; apply Hb1; by left|injection Hi as <-; apply Hb2; by left|discriminate]).
    apply (proj2 K); [apply (owned_live m3 s 4096); [done|lia]|apply (He s); [done|lia]]. }
  split; [exact Hsp1'|]. split.
  { intros j Hj. pose proof (page_top _ (sp_page _ _ _ _ _ Hsp1)). destruct (sp_page _ _ _ _ _ Hsp1). apply Hm1; [lia|by apply Hid1]. }
  split; [exact Hsp2'|]. split; [by apply Hlv6|]. split.
  { exact Hpt. }
  split.
  { rewrite <- Hpr. apply ld32_ext. intros i Hi. apply (proj2 K); [apply (owned_live m3 t2 4096); [apply Hb2; by left|unfold task_process; lia]|].
    apply (He t2); [apply Hb2; by left|unfold task_process; lia]. }
  split; [exact Hdis|]. split; [exact F1|]. split; [exact F2|]. split; [exact F3|]. split.
  { intros i Hi. unfold allocation, ld32, alloc_ptr, alloc_size, proc_allocations. unfold sizeof_process in Hz.
    rewrite !Hobj, !Hz by (unfold proc_task; lia). done. }
  split; [apply Hlv6, Hlv5; left; apply Hlv4; by right|]. split; [apply Hlv6, Hlv5; by right|].
  split; [intros Hin; by apply (Hfresh im im Hin); [left|]|]. split.
  { intros [Heq|Hin]%elem_of_cons; [|by apply (Hfresh st st Hin); [right|]].
    specialize (Hd5 im 4096 ltac:(apply Hlv4; by right)). lia. }
  split; [rewrite <- Hlow; apply (proj2 K); [apply low_owned; lia|]|].
  { pose proof (live_pool m3 p process_span p Hlp ltac:(unfold process_span; lia)) as Hpool.
    unfold pool, kernel_allocator in Hpool. change (saddr kernel_heap) with 0x1000000 in Hpool. lia. }
  unfold ld16, proc_id. unfold sizeof_process in Hz. rewrite !Hobj, !Hz by lia. done.
Qed.

(** Two programs in memory, the second of them complete and in charge. *)
Definition two_programs (m : mem) (p t1 t2 : Z) : kernel :=
  with_processes p (p :: 0x200000 :: replicate 10 0) (with_tasks t2 t1 t2 (with_kmem m (small_kernel ∅ 0))).

Lemma two_programs_ready : exists m p t1 t2 c d ts im,
  complete m p t2 c d ts im /\ rd m 0x6E00 = 0 /\ task_list m t1 t2 ([t1] ++ t2 :: []) /\
  bystander m (gone m p t2 c d ts im) [t1] t1 /\ ld32 m (t2 + task_process) = p /\ ld16 m (p + proc_id) = 0.
Proof.
  destruct program_loaded as (m & p & t1 & c1 & d1 & ts1 & t2 & c2 & d2 & ts2 & im & st & Hok & Hl & Hsp1 & Hm1 & Hsp2 & Hlp & Hpt & Hpr &
    Hdis & F1 & F2 & F3 & Hal & Hli & Hls & Hfi & Hfs & Hlow & Hid).
  assert (Hno : forall q, live m q 4096 \/ live m q 16384 -> ~ tabled m p q).
  { intros q Hq (i & Hi & Ei). rewrite Hal in Ei by done. cbn in Ei. subst q. destruct Hq as [Hq|Hq]; pose proof (live_block _ _ _ Hq); lia. }
  assert (Hb1 : forall q, q ∈ t1 :: c1 :: d1 :: ts1 -> live m q 4096).
  { intros q [->|Hq]%elem_of_cons; [exact (sp_live _ _ _ _ _ Hsp1)|by apply (do_live _ _ _ _ (sp_owned _ _ _ _ _ Hsp1))]. }
  assert (Hb2 : forall q, q ∈ t2 :: c2 :: d2 :: ts2 -> live m q 4096).
  { intros q [->|Hq]%elem_of_cons; [exact (sp_live _ _ _ _ _ Hsp2)|by apply (do_live _ _ _ _ (sp_owned _ _ _ _ _ Hsp2))]. }
  assert (Hp2 : p ∉ t2 :: c2 :: d2 :: ts2).
  { intros Hin. pose proof (Hb2 p Hin) as Hp4. pose proof (live_block _ _ _ Hp4).
    destruct (live_disjoint _ _ _ _ _ Hp4 Hlp) as [[_ E]|?]; unfold process_span in *; lia. }
  exists m, p, t1, t2, c2, d2, ts2, [im]. split; [|split; [exact Hlow|split; [exact Hl|split; [|split; [exact Hpr|exact Hid]]]]].
  - split; [|rewrite <- F2; by apply image_binary| | |]; rewrite ?F3.
    + split; [exact Hok|split; [exact Hlp|exact Hpt|exact Hsp2]| |].
      * intros i Hi. by rewrite Hal.
      * intros i j Hi Hj _. by rewrite Hal.
    + intros q Hq. rewrite elem_of_cons, list_elem_of_singleton in Hq. destruct Hq as [->| ->]; [by exists 16384|by exists 4096].
    + cbn [app]. apply list.NoDup_cons. split.
      { clear -Hfi Hfs. apply not_elem_of_cons. split; [intros E; apply Hfs; rewrite <- E; by left|].
        apply not_elem_of_cons. split; [intros E; apply Hfi; rewrite <- E; by left|].
        intros Hin. apply Hfi. right. apply elem_of_app. by right. }
      apply list.NoDup_cons. split.
      { clear -Hfs. apply not_elem_of_cons. split; [intros E; apply Hfs; rewrite E; right; by left|].
        intros Hin. apply Hfs. right. right. apply elem_of_app. by right. }
      apply list.NoDup_cons. split; [exact Hp2|]. apply list.NoDup_cons.
      split; [exact (sp_fresh _ _ _ _ _ Hsp2)|exact (do_nodup _ _ _ _ (sp_owned _ _ _ _ _ Hsp2))].
    + intros q [->|[-> |Hq]%elem_of_cons]%elem_of_cons; [apply Hno; by left|apply Hno; by right|by apply not_elem_of_nil in Hq].
  - exists c1, d1, ts1. split; [exact Hsp1|]. split; [exact Hm1|]. split.
    + intros q Hq [Ht|Hin]; [by apply (Hno q); [left; by apply Hb1|]|]. rewrite F3 in Hin. cbn [app] in Hin.
      clear -Hin Hfi Hfs Hdis Hq. apply elem_of_cons in Hin as [E|Hin].
      { apply Hfi. rewrite <- E. right. apply elem_of_app. by left. }
      apply elem_of_cons in Hin as [E|Hin]; [|exact (Hdis q Hq Hin)].
      apply Hfs. rewrite <- E. right. right. apply elem_of_app. by left.
    + intros q Hq ->%list_elem_of_singleton. exact (sp_fresh _ _ _ _ _ Hsp1 Hq).
Qed.

Lemma process_terminate_releases_witness : exists k process k',
  process_terminate process k = Ret 0 k' /\ kheap_live (kmem k') process process_span /\
  processes k = process :: 0x200000 :: replicate 10 0 /\ processes k' = 0 :: 0x200000 :: replicate 10 0.
Proof.
  destruct two_programs_ready as (m & p & t1 & t2 & c & d & ts & im & Hcp & Hlow & Hl & Hby & Hpr & Hid).
  pose proof (process_terminate_releases (two_programs m p t1 t2) p t2 c d ts im [t1] [] Hcp) as Hx. cbv zeta in Hx.
  change (kmem (two_programs m p t1 t2)) with m in Hx. rewrite Hid in Hx.
  change (current_process (two_programs m p t1 t2)) with p in Hx.
  destruct (decide (p = p)) as [_|Hn]; [|by destruct Hn].
  change (first_process _) with (Some 0x200000) in Hx.
  destruct Hx as (k' & E & He).
  - rewrite Hlow. reflexivity.
  - exact Hl.
  - intros s ->%list_elem_of_singleton. destruct Hby as (c1 & d1 & ts1 & Hsp & _ & Hg & _).
    split; [exact (sp_live _ _ _ _ _ Hsp)|apply Hg; by left].
  - exists (two_programs m p t1 t2), p, k'. split; [exact E|]. split; [exact (ex_leak _ _ _ _ _ _ _ _ _ _ _ He)|].
    split; [reflexivity|]. rewrite (ex_processes _ _ _ _ _ _ _ _ _ _ _ He). change (kmem (two_programs m p t1 t2)) with m. by rewrite Hid.
Defined.

Lemma exit_resumes_another_witness : exists k k1 t d,
  isr80h_command9_exit walk k = Ret (saved_state (kmem k) t) (resumed t d k1) /\ t <> current_task k.
Proof.
  destruct two_programs_ready as (m & p & t1 & t2 & c & d & ts & im & Hcp & Hlow & Hl & Hby & Hpr & Hid).
  destruct (exit_resumes_another walk (two_programs m p t1 t2) p t2 c d ts im [t1] [] 0x200000 walk_ok Hcp)
    as (k1 & d' & E & _ & _ & _).
  - change (kmem (two_programs m p t1 t2)) with m. rewrite Hlow. reflexivity.
  - exact Hl.
  - discriminate.
  - intros s ->%list_elem_of_singleton. exact Hby.
  - reflexivity.
  - exact Hpr.
  - reflexivity.
  - change (kmem (two_programs m p t1 t2)) with m. rewrite Hid. reflexivity.
  - exists (two_programs m p t1 t2), k1, t1, d'. split; [exact E|]. change (t1 <> t2). intros ->.
    destruct Hby as (c1 & d1 & ts1 & _ & _ & Hg & _). apply (Hg t2); [by left|]. right.
    apply elem_of_app. right. right. by left.
Defined.
