(* ===== verification/Lifecycle.v ===== *)
(** * The life of a process: [process_load], then [process_terminate]

    A process that [process_load] made is what [process_terminate] expects
    ([complete] of [Exit]), and ending it puts the kernel's tables back. *)
From S2P Require Import Prelude Config Memory CString Heap KHeap Paging Terminal PathParser Disk Fat16 File Fat16Facts Lookup Open Elf Load Kernel Task Schedule Process ProcessMem ProcessLoad Spawn ProcessEnd Idt Keyboard Isr80h Exit.

(** The kernel [k'] has the tables of [k] and all its blocks, with their bytes;
    [W] and the link of the last of [tasks] may differ. *)
Record tables_restored (W : Z -> Prop) (k k' : kernel) (tasks : list Z) : Prop := {
  tr_processes : processes k' = processes k;
  tr_current : current_process k' = current_process k;
  tr_tasks : chain (kmem k') (task_head k') tasks;
  tr_heap : heap_ok (kmem k');
  tr_live : forall q s, live (kmem k) q s -> live (kmem k') q s;
  tr_bytes : forall a, owned (kmem k) a -> ~ W a -> ~ last_link tasks a -> a <> 0x6E00 -> rd (kmem k') a = rd (kmem k) a }.

Section lifecycle.
Context (W : Z -> Prop) (k k1 : kernel) (slot pp : Z) (name l tasks : list Z).
Context (p t chunk dir h st : Z) (ts im : list Z).
Hypothesis Hst : started W k k1 slot pp name l tasks p t chunk dir h st ts im.

Lemma started_live q : q ∈ im ++ [st] -> exists n, live (kmem k1) q n.
Proof.
  rewrite elem_of_app, list_elem_of_singleton. intros [Hq| ->].
  - by apply (loaded_blocks (kmem k1) p h l im q); [apply (sd_image Hst)|].
  - exists LIEBE_OS_USER_PROGRAM_STACK_SIZE. apply (sd_stack_block Hst).
Qed.

Lemma started_complete : complete (kmem k1) p t chunk dir ts im.
Proof.
  pose proof (sd_image Hst) as Him.
  pose proof (sd_object Hst) as [Est _].
  split; rewrite ?Est.
  - apply (sd_process Hst).
  - destruct Him as [_ _ _ Hk]. destruct (is_elf l).
    + destruct Hk as (f & -> & _ & _ & Hf & <- & Et & <-). constructor; [done|]. pose proof (live_block _ _ _ Hf). lia.
    + destruct Hk as (-> & Et & <- & _). by constructor.
  - intros q Hq. apply started_live. rewrite elem_of_app. apply elem_of_cons in Hq as [->|Hq]; [right; by left|by left].
  - apply (sd_nodup Hst).
  - intros q Hq (i & Hi & Eq). rewrite (sd_empty Hst Hi) in Eq. cbn in Eq. subst q.
    destruct (started_live 0 Hq) as [n Hn]. pose proof (live_block _ _ _ Hn). lia.
Qed.

Lemma started_gone q : gone (kmem k1) p t chunk dir ts im q -> q = 0 \/ q ∈ im ++ st :: p :: t :: chunk :: dir :: ts.
Proof.
  pose proof (sd_object Hst) as [Est _]. intros [(i & Hi & Eq)|Hq].
  - rewrite (sd_empty Hst Hi) in Eq. by left.
  - right. rewrite Est in Hq. rewrite elem_of_app, elem_of_cons in Hq. rewrite elem_of_app, !elem_of_cons in *. tauto.
Qed.

Lemma started_keeps q n : live (kmem k) q n -> live (kmem k1) q n /\ ~ gone (kmem k1) p t chunk dir ts im q.
Proof.
  intros Hq. split; [by apply (sd_since Hst)|].
  intros [->|Hin]%started_gone; [pose proof (live_block _ _ _ Hq); lia|].
  by apply (sd_new Hst n Hin Hq).
Qed.

End lifecycle.

(** ** Property *)

(** C3. Starting a program and ending it puts the kernel back.  The conditions:
    the program can be started ([startable], the conditions of C1: a file of at
    least 52 bytes on the mounted volume, directories that end within their
    first sector, usable links, clusters below 2 GB, a free descriptor, slot
    and blocks); the process in charge is an object the kernel had before (its
    address is not in a free block of the heap); and the [HAS_NEXT] bit of the
    byte 0x6E00, which releasing an unused table entry reads and clears
    ([ProcessEnd]), is not set, that byte not being one of the caller's locals.  Then [process_load] makes a process, [process_terminate] of it
    returns 0, and the process table, the process in charge and the task list
    are those before the load; every block that was allocated still is, with
    its bytes (the caller's locals, the link of the last task and the byte
    0x6E00 aside).  The process object stays allocated. *)
Theorem load_terminate_roundtrip ops fat16_fs disk_obj dev poll_fuel image stack_item pfuel fuel rfuel pf
    root filename name rest e size i stat stack_process pp slot k tasks :
  drive_ok dev poll_fuel image -> (16 < fuel)%nat -> (0 < rfuel)%nat ->
  ops fat16_fs = Some (fat16_ops dev poll_fuel fat16_fs stack_item pfuel fuel rfuel) -> 0 < fat16_fs < 4294967296 ->
  startable fat16_fs image pfuel rfuel pf root k filename name rest e size i stat pp slot tasks ->
  owned (kmem k) (current_process k) ->
  Z.land (rd (kmem k) 0x6E00) HEAP_BLOCK_HAS_NEXT = 0 -> ~ load_locals stat pp 0x6E00 ->
  exists k1 p k2, process_load ops disk_obj stat stack_process pf filename pp k = Ret 0 k1 /\
    process_get slot k1 = p /\ process_terminate p k1 = Ret 0 k2 /\
    tables_restored (load_locals stat pp) k k2 tasks /\ live (kmem k2) p process_span.
Proof.
  intros Hdrive Hfuel Hrfuel Hops Hfs Hready Hcur Hbit H6.
  destruct (process_load_run ops fat16_fs disk_obj dev poll_fuel image stack_item pfuel fuel rfuel pf Hdrive Hfuel Hrfuel Hops Hfs
    root filename name rest e size i stat stack_process pp slot k tasks Hready) as (k1 & p & t & chunk & dir & h & st & ts & im & E & Hst & Hget).
  set (W := load_locals stat pp) in *. pose proof (sd_since Hst) as Hs.
  pose proof (started_complete _ _ _ _ _ _ _ _ _ _ _ _ _ _ _ _ Hst) as Hcp.
  pose proof (started_keeps _ _ _ _ _ _ _ _ _ _ _ _ _ _ _ _ Hst) as Hkeep.
  pose proof (sd_kernel Hst) as Ek.
  pose proof (sd_object Hst) as (_ & Eid & _).
  assert (Ecur : current_process k1 = current_process k) by (by rewrite Ek).
  assert (Eps : processes k1 = <[Z.to_nat slot := p]> (processes k)) by (by rewrite Ek).
  assert (Hlow : ~ meta 0x6E00 /\ forall q s, live (kmem k) q s -> ~ (q <= 0x6E00 < q + s)).
  { split; [apply not_meta_low|]. intros q s Hq Ha. pose proof (live_pool _ _ _ _ Hq Ha) as Hp.
    change (0x01000000 <= 0x6E00) in Hp. lia. }
  assert (Ho6 : owned (kmem k) 0x6E00).
  { split; [exact (proj1 Hlow)|]. intros Hp. change (0x01000000 <= 0x6E00) in Hp. lia. }
  assert (Htask : forall s, s ∈ tasks -> live (kmem k) s 4096)
    by (intros s Hs'; by apply (sr_blocks Hready)).
  assert (Hbit1 : Z.land (rd (kmem k1) 0x6E00) HEAP_BLOCK_HAS_NEXT = 0).
  { rewrite <- Hbit. f_equal. apply (si_bytes _ _ _ Hs); [done|]. intros [Hw|(q & Hq & Hin)]; [done|].
    apply (proj2 Hlow q 4096); [by apply Htask; eapply list_elem_of_lookup_2|unfold task_next_link in Hin; lia]. }
  pose proof (process_terminate_cases p t chunk dir ts im tasks [] k1 Hcp Hbit1
    (sd_list Hst)) as Hc. rewrite app_nil_r in Hc.
  specialize (Hc ltac:(intros s Hs'; by apply Hkeep, Htask)). cbv zeta in Hc. rewrite Ecur in Hc.
  assert (Hne : current_process k <> p).
  { pose proof (pr_live _ _ _ _ _ _ (po_space _ _ _ _ _ _ (cp_ok _ _ _ _ _ _ _ Hcp))) as Hlp.
    destruct (owned_fresh (kmem k) (kmem k1) p process_span (current_process k)) as [Hx|Hx];
      [apply (si_live _ _ _ Hs)|exact Hlp| |exact Hcur|lia|unfold process_span in Hx; lia].
    intros q s. apply (sd_new Hst). apply elem_of_app. right. right. by left. }
  rewrite decide_False in Hc by done. destruct Hc as (k2 & E2 & [X1 X2 X3 X4 X5 X6 X7] & _).
  exists k1, p, k2. split; [exact E|]. split; [exact Hget|]. split; [exact E2|]. split; [|exact X3].
  rewrite app_nil_r in X5. split; [|exact X7|exact X5|exact X1|intros q s Hq; by apply X2, Hkeep|].
  - rewrite X6, Eid, Eps. rewrite list_insert_insert_eq. apply list_insert_id.
    pose proof (first_null_spec (processes k) 0) as Hf. rewrite (sr_free Hready) in Hf.
    destruct Hf as (_ & Hz & _). by rewrite Z.sub_0_r in Hz.
  - intros a Ha Hw Hl Hna. rewrite X4; [|exact (proj1 Ha)|exact Hna|].
    + apply (si_bytes _ _ _ Hs); [exact Ha|]. intros [Hx|Hx]; [exact (Hw Hx)|exact (Hl Hx)].
    + intros q Hq. destruct (decide (q + 56 <= a < q + 60)) as [Hin|]; [|lia]. destruct Hl. exists q. split; [exact Hq|unfold task_next_link; lia].
Qed.

(** ** Witness *)

(** The kernel of [Spawn] with a process at 0x20000 in charge. *)
Definition busy_kernel : kernel := with_processes 0x20000 (0x20000 :: replicate 11 0) tree_kernel.

Lemma busy_startable : startable 1 tree_image 2 2 10 [subdir_entry; hello_file] busy_kernel 0x5200 tree_name tree_rest
  b_file 700 0 0x10000 0x10010 1 [].
Proof.
  destruct tree_startable as [R1 R2 R3 R4 R5 R6 _ _ R9].
  split; [exact R1|exact R2|exact R3|exact R4|exact R5|exact R6|reflexivity|vm_compute; exact eq_refl|exact R9].
Qed.

Lemma load_terminate_roundtrip_witness : exists k1 p k2,
  process_load tree_ops 0x2000 0x10000 0 10 0x5200 0x10010 busy_kernel = Ret 0 k1 /\
  process_get 1 k1 = p /\ process_terminate p k1 = Ret 0 k2 /\
  tables_restored (load_locals 0x10000 0x10010) busy_kernel k2 [] /\ live (kmem k2) p process_span.
Proof.
  apply (load_terminate_roundtrip tree_ops 1 0x2000 tree_drive 1 tree_image [] 2 17 2 10 [subdir_entry; hello_file] 0x5200
    tree_name tree_rest b_file 700 0 0x10000 0 0x10010 1 busy_kernel [] tree_drive_ok ltac:(lia) ltac:(lia) eq_refl ltac:(lia)
    busy_startable).
  - exact (low_owned (kmem busy_kernel) 0x20000 ltac:(lia)).
  - vm_compute. exact eq_refl.
  - unfold load_locals. lia.
Defined.
