(* ===== verification/Syscalls.v ===== *)
(** * System calls from end to end

    A call of a program goes through [isr80h_handler]: the kernel's pages are
    loaded, the registers saved in the task, the command found by its number
    and run, and the task's pages loaded again.  The theorems put the
    components together for registration and dispatch, and for the commands
    that only compute, allocate or read the keyboard. *)
From S2P Require Import Prelude Config Memory CString Heap KHeap Paging Terminal PathParser Disk Fat16 File Elf Kernel Task Process ProcessMem ProcessEnd Idt Keyboard Isr80h.

(** ** Registration *)

(** The command of a number. *)
Definition command_of (n : Z) : option command :=
  if n =? 0 then Some command0_sum else if n =? 1 then Some command1_print
  else if n =? 2 then Some command2_getkey else if n =? 3 then Some command3_putchar
  else if n =? 4 then Some command4_malloc else if n =? 5 then Some command5_free
  else if n =? 6 then Some command6_process_load_start
  else if n =? 7 then Some command7_invoke_system_command
  else if n =? 8 then Some command8_get_program_arguments
  else if n =? 9 then Some command9_exit else None.

Definition with_commands (l : list (option command)) (k : kernel) : kernel :=
  with_tables (interrupt_callbacks k) l k.

(** The table as registration leaves it. *)
Definition all_commands : list (option command) :=
  (fun n => command_of (Z.of_nat n)) <$> seq 0 1024.

Lemma register_command_eq n c k : 0 <= n < 1024 -> isr80h_commnads k !! Z.to_nat n = Some None ->
  isr80h_register_command n c k =
    Ret tt (with_commands (<[Z.to_nat n := Some c]> (isr80h_commnads k)) k).
Proof.
  intros Hn E. unfold isr80h_register_command, LIEBE_OS_ISR80H_MAX_COMMANDS.
  rewrite (proj2 (Z.ltb_ge n 0)), (proj2 (Z.leb_gt 1024 n)) by lia. cbn [orb].
  unfold bind, ret, gets. by rewrite E.
Qed.

Lemma command_of_out n : ~ (0 <= n < 10) -> command_of n = None.
Proof. intros Hn. unfold command_of. repeat (case_bool; [lia|]). done. Qed.

Lemma all_commands_lookup n : 0 <= n < 1024 -> all_commands !! Z.to_nat n = Some (command_of n).
Proof.
  intros Hn. unfold all_commands. rewrite list_lookup_fmap, lookup_seq_lt by lia. cbn.
  by rewrite Z2Nat.id by lia.
Qed.

(** The ten entries, one after the other. *)
Lemma register_all k : isr80h_commnads k = replicate (Z.to_nat 1024) None ->
  isr80h_register_commands k = Ret tt (with_commands all_commands k).
Proof.
  intros E. destruct k as [f pg ds kc ct th tt' cp ps kh kl cb cmds]. cbn [isr80h_commnads] in E. subst cmds.
  by vm_compute.
Qed.

(** ** The path of a call *)

(** The word [w] of the user's stack, [i] words above its pointer [sp], in
    pages other than the task object's. *)
Definition user_arg (m : mem) (dir task sp i w : Z) : Prop :=
  exists p : Z -> Z, (forall j, 0 <= j < 4 -> maps m dir (u32 (sp + 4 * i + j)) (p j) /\
      (p j < task \/ task + 4096 <= p j)) /\
    w = rd m (p 0) + 256 * rd m (p 1) + 65536 * rd m (p 2) + 16777216 * rd m (p 3).

(** The bytes of a process's objects and page tables, and a byte apart from
    them that the allocator does not hold back either. *)
Definition process_byte (m : mem) (process task chunk dir a : Z) : Prop :=
  space m dir a \/ task <= a < task + 4096 \/ chunk <= a < chunk + 4096 \/
  process <= a < process + process_span.
Definition kernel_byte `{KAllocator} (m : mem) (process task chunk dir a : Z) : Prop :=
  owned m a /\ ~ process_byte m process task chunk dir a.

(** What holds when a program makes a call. *)
Record calling `{KAllocator} (k : kernel) (process task chunk dir : Z) (ts : list Z) (frame : Z) : Prop := {
  cl_current : current_task k = task;
  cl_process : ld32 (kmem k) (task + task_process) = process;
  cl_ok : process_ok (kmem k) process task chunk dir ts;
  cl_frame : forall a, frame <= a < frame + 52 -> kernel_byte (kmem k) process task chunk dir a;
  cl_kernel : forall a, kernel_chunk k <= a < kernel_chunk k + 4 -> kernel_byte (kmem k) process task chunk dir a;
  cl_commands : isr80h_commnads k = all_commands }.

(** Back in the program: on its pages and selectors, with its registers saved
    and the frame the processor returns through as it was. *)
Record returned (k k' : kernel) (task dir frame : Z) : Prop := {
  rt_cr3 : cr3 (paging k') = dir;
  rt_ds : data_segment k' = 0x23;
  rt_task : current_task k' = task;
  rt_saved : forall r f, (r, f) ∈ saved_registers -> ld32 (kmem k') (task + 4 + r) = ld32 (kmem k) (frame + f);
  rt_frame : forall a, frame <= a < frame + 52 -> rd (kmem k') a = rd (kmem k) a }.

(** What a process is made of decides whether it is well formed. *)
Lemma process_ok_keep `{KAllocator} m m' process task chunk dir ts :
  process_ok m process task chunk dir ts -> heap_ok m' -> (forall q t, live m' q t <-> live m q t) ->
  (forall a, process_byte m process task chunk dir a -> rd m' a = rd m a) ->
  process_ok m' process task chunk dir ts.
Proof.
  intros [Hh Hps He Hd] Hh' Hlv Hf.
  assert (Hsp : forall a, space m dir a -> rd m' a = rd m a) by (intros a Ha; apply Hf; by left).
  assert (Hpr : forall a, process <= a < process + process_span -> rd m' a = rd m a)
    by (intros a Ha; apply Hf; do 3 right; lia).
  assert (Hal : forall i, 0 <= i < 1024 -> allocation m' process i = allocation m process i).
  { intros i Hi. unfold allocation. f_equal; apply ld32_ext; intros o Ho; apply Hpr;
      unfold alloc_size, alloc_ptr, proc_allocations, process_span; lia. }
  split; [done|split| |].
  - by apply Hlv, (pr_live _ _ _ _ _ _ Hps).
  - rewrite <- (pr_task _ _ _ _ _ _ Hps). apply ld32_ext. intros i Hi. apply Hpr.
    unfold proc_task, process_span. lia.
  - apply (task_space_mono m); [exact (pr_space _ _ _ _ _ _ Hps)|intros q _; apply Hlv| |].
    + intros i Hi. by apply (space_entry m m' dir Hsp).
    + intros a [Ha|Ha]; apply Hf; [right; by left|right; right; by left].
  - intros i Hi. rewrite Hal by done. intros Hn. destruct (He i Hi Hn) as [? ? ? ? ? Hm].
    split; try done; [by apply Hlv|]. intros v Hv Hrv. rewrite (space_pte m m' dir Hsp) by done. by apply Hm.
  - intros i j Hi Hj. rewrite !Hal by done. by apply Hd.
Qed.

Lemma kernel_byte_out `{KAllocator} m process task chunk dir a : kernel_byte m process task chunk dir a ->
  stable m dir a /\ (a < task \/ task + 4096 <= a) /\ (a < process \/ process + process_span <= a).
Proof.
  intros [Ho Hb]. split; [split; [done|]; intros Hs; apply Hb; by left|]. split.
  - destruct (decide (task <= a < task + 4096)); [|lia]. exfalso. apply Hb. right. by left.
  - destruct (decide (process <= a < process + process_span)); [|lia]. exfalso. apply Hb. by do 3 right.
Qed.

(** The saved registers stay while the task object's bytes stay. *)
Lemma saved_stay task m1 m2 : (forall a, task <= a < task + 4096 -> rd m2 a = rd m1 a) ->
  forall r f, (r, f) ∈ saved_registers -> ld32 m2 (task + 4 + r) = ld32 m1 (task + 4 + r).
Proof.
  intros Hf r f Hrf. apply ld32_ext. intros i Hi. apply Hf. unfold saved_registers in Hrf.
  rewrite !elem_of_cons, elem_of_nil in Hrf.
  unfold reg_edi, reg_esi, reg_ebp, reg_ebx, reg_edx, reg_ecx, reg_eax, reg_ip, reg_cs, reg_flags, reg_esp, reg_ss in Hrf.
  repeat destruct Hrf as [[= -> ->]|Hrf]; (lia || done).
Qed.

(** ** Printing *)

(** What the terminal of the kernel is. *)
Definition console (k : kernel) : terminal :=
  {| video_mem := video (files k); terminal_row := row (files k); terminal_col := col (files k);
     memory := kmem k |}.

(** The text [l] is what the addresses from [v] show the task. *)
Definition user_text `{KAllocator} (m : mem) (dir task v : Z) (l : list Z) : Prop :=
  user_string m dir v l /\ Forall (fun c => 0 < c < 128) l /\
  forall j p, (j <= length l)%nat -> maps m dir (v + Z.of_nat j) p -> p < task \/ task + 4096 <= p.

(** Room on the screen for [len] characters, in video memory that is apart
    from the process. *)
Record on_screen `{KAllocator} (k : kernel) (process task chunk dir len bound : Z) : Prop := {
  os_col : 0 <= terminal_col (console k) < 80;
  os_row : 0 <= terminal_row (console k);
  os_room : cursor (shows (console k)) + 80 * len <= bound;
  os_bound : bound <= 80 * 65535;
  os_video : forall a, video (files k) <= a < video (files k) + 2 * bound ->
    kernel_byte (kmem k) process task chunk dir a }.

(** The characters [l] drawn between two states. *)
Definition drawn (k k' : kernel) (l : list Z) (bound : Z) : Prop :=
  let s := fold_left put l (shows (console k)) in
  cursor (shows (console k')) = cursor s /\
  forall p, 0 <= p < bound -> cell (shows (console k')) p = cell s p.

Section print.
Context `{KAllocator} (process task chunk dir : Z) (ts : list Z).

Lemma process_byte_owned m a : process_ok m process task chunk dir ts ->
  process_byte m process task chunk dir a -> owned m a.
Proof.
  intros Hok Hb. pose proof (po_space _ _ _ _ _ _ Hok) as Hps. pose proof (pr_space _ _ _ _ _ _ Hps) as Hts.
  destruct Hb as [Ha|[Ha|[Ha|Ha]]].
  - by eapply dir_owned_owned, Ha; apply (sp_owned _ _ _ _ _ Hts).
  - by apply (task_stable _ _ _ _ _ Hts).
  - by apply (chunk_stable _ _ _ _ _ Hts).
  - by eapply owned_live, Ha; apply (pr_live _ _ _ _ _ _ Hps).
Qed.

(** A message already in the kernel's memory. *)
Lemma kprint_spec fuel p l k bound : process_ok (kmem k) process task chunk dir ts ->
  on_screen k process task chunk dir (Z.of_nat (length l)) bound ->
  cstr (at_mem (kmem k) p) l -> Forall (fun c => 0 < c < 128) l -> (length l < fuel)%nat ->
  (forall a, video (files k) <= a < video (files k) + 2 * bound -> a < p \/ p + Z.of_nat (length l) < a) ->
  exists k', on_files (on_terminal (print fuel (ptr p))) k = Ret tt k' /\
    current_task k' = current_task k /\ process_ok (kmem k') process task chunk dir ts /\
    drawn k k' l bound /\
    (forall a, a < video (files k) \/ video (files k) + 2 * bound <= a -> rd (kmem k') a = rd (kmem k) a).
Proof.
  intros Hok [Hc Hr Hb Hb2 Hv] Hs Hl Hfu Hap.
  destruct (print_spec fuel (ptr p) l (console k) bound Hc Hr Hl Hfu Hs Hb Hb2) as (t' & E & [Hvid _ _ Hcur Hcell Hf]).
  { intros m' Hm' i Hi. unfold ptr, at_mem. apply Hm'. cbn [video_mem console].
    destruct (decide (video (files k) <= p + i < video (files k) + 2 * bound)) as [Hin|]; [|lia].
    specialize (Hap _ Hin). lia. }
  cbn [memory video_mem console] in *.
  exists (with_files {| core := with_mem (memory t') (core (files k)); filesystems := filesystems (files k);
    file_descriptors := file_descriptors (files k); video := video_mem t';
    row := terminal_row t'; col := terminal_col t' |} k).
  split; [unfold on_files, on_terminal; unfold console, kmem in E; by rewrite E|]. split; [done|].
  change (kmem (with_files _ k)) with (memory t').
  assert (Hf' : forall a, ~ kernel_byte (kmem k) process task chunk dir a -> rd (memory t') a = rd (kmem k) a).
  { intros a Ha. apply Hf. destruct (decide (video (files k) <= a < video (files k) + 2 * bound)) as [Hin|]; [|lia].
    exfalso. by apply Ha, Hv. }
  split; [|split; [|exact Hf]].
  - destruct (meta_frame (kmem k) (memory t') (po_heap _ _ _ _ _ _ Hok)) as (Hh & Hlv & _).
    { intros a Ha. apply Hf'. intros [[Hm _] _]. by apply Hm. }
    apply (process_ok_keep (kmem k)); try done. intros a Ha. apply Hf'. intros [_ Hn]. by apply Hn.
  - split; [exact (eq_sym Hcur)|]. intros q Hq. rewrite <- Hcell. cbn. by rewrite Hvid.
Qed.

End print.

Section path.
Context `{KAllocator} (mmu : mmu_type) (Hmmu : mmu_ok mmu).
Context (process task chunk dir : Z) (ts : list Z).

(** Stores into the task object behind its first word. *)
Lemma task_write m m' : process_ok m process task chunk dir ts ->
  (forall a, a < task + 4 \/ task + 4096 <= a -> rd m' a = rd m a) ->
  process_ok m' process task chunk dir ts /\ (forall q t, live m' q t <-> live m q t) /\
  (forall n, room m n -> room m' n) /\
  (forall i, 0 <= i < 1024 -> allocation m' process i = allocation m process i) /\
  (forall a, space m dir a -> rd m' a = rd m a).
Proof.
  intros [Hh Hps He Hd] Hf. pose proof (pr_space _ _ _ _ _ _ Hps) as Hts. pose proof Hts as [_ Hd0 Hl Hpg Hfr _].
  destruct (task_space_frame m m' task chunk dir ts task Hh Hts Hl Hfr) as [Hts' Hpt];
    [intros a Ha; apply Hf; lia|].
  destruct (client_frame m m' task 4096 Hh Hl) as (Hh' & Hlv & Hr); [intros a Ha; apply Hf; lia|].
  pose proof (process_apart m process task chunk dir ts Hps task Hl) as Hap.
  assert (Hpr : forall a, process <= a < process + process_span -> rd m' a = rd m a) by (intros a Ha; apply Hf; lia).
  assert (Hal : forall i, 0 <= i < 1024 -> allocation m' process i = allocation m process i).
  { intros i Hi. unfold allocation. f_equal; apply ld32_ext; intros o Ho; apply Hpr;
      unfold alloc_size, alloc_ptr, proc_allocations, process_span; lia. }
  split; [split; [done| | |]|split; [done|split; [done|split; [done|]]]].
  - split; [by apply Hlv, (pr_live _ _ _ _ _ _ Hps)| |done]. rewrite <- (pr_task _ _ _ _ _ _ Hps).
    apply ld32_ext. intros i Hi. apply Hpr. unfold proc_task, process_span. lia.
  - intros i Hi. rewrite Hal by done. intros Hn. destruct (He i Hi Hn) as [? ? ? ? ? Hm].
    split; try done; [by apply Hlv|]. intros v Hv Hrv. rewrite Hpt by done. by apply Hm.
  - intros i j Hi Hj. rewrite !Hal by done. by apply Hd.
  - intros a Ha. apply Hf. destruct (decide (task <= a < task + 4096)) as [Hin|]; [|lia].
    exfalso. by apply (task_stable _ _ _ _ _ Hts a Hin).
Qed.

Context (k : kernel) (frame : Z) (Hc : calling k process task chunk dir ts frame).

(** The kernel's directory. *)
Let kdir : Z := ld32 (kmem k) (kernel_chunk k).

(** After the prologue: on the kernel's pages, with the registers in [m1]. *)
Record prologue (m1 : mem) : Prop := {
  pg_save : task_current_save_state frame (running kdir KERNEL_DATA_SELECTOR (kmem k) k) =
    Ret tt (running kdir KERNEL_DATA_SELECTOR m1 k);
  pg_ok : process_ok m1 process task chunk dir ts;
  pg_process : ld32 m1 (task + task_process) = process;
  pg_kernel : ld32 m1 (kernel_chunk k) = kdir;
  pg_live : forall q t, live m1 q t <-> live (kmem k) q t;
  pg_room : forall n, room (kmem k) n -> room m1 n;
  pg_table : forall i, 0 <= i < 1024 -> allocation m1 process i = allocation (kmem k) process i;
  pg_saved : forall r f, (r, f) ∈ saved_registers -> ld32 m1 (task + 4 + r) = ld32 (kmem k) (frame + f);
  pg_stable : forall a, stable (kmem k) dir a -> stable m1 dir a;
  pg_frame : forall a, a < task + 4 \/ task + 52 <= a -> rd m1 a = rd (kmem k) a;
  pg_args : forall sp i w, user_arg (kmem k) dir task sp i w -> user_word m1 dir (sp + 4 * i) w }.

Lemma prologue_spec : exists m1, prologue m1.
Proof.
  destruct Hc as [Hct Hp Hok Hfr Hk _].
  destruct (save_registers_spec task frame saved_registers (running kdir KERNEL_DATA_SELECTOR (kmem k) k))
    as (m1 & E & Ho & _ & Hs);
    [| |destruct (kernel_byte_out _ _ _ _ _ _ (Hfr frame ltac:(lia))) as (_ & ? & _);
      destruct (kernel_byte_out _ _ _ _ _ _ (Hfr (frame + 51) ltac:(lia))) as (_ & ? & _); lia|].
  { intros r f Hrf. unfold saved_registers in Hrf. rewrite !elem_of_cons, elem_of_nil in Hrf.
    repeat destruct Hrf as [[= -> ->]|Hrf]; [done..|done]. }
  { by apply (bool_decide_unpack _). }
  change (kmem (running kdir KERNEL_DATA_SELECTOR (kmem k) k)) with (kmem k) in Ho, Hs.
  destruct (task_write (kmem k) m1 Hok) as (Hok1 & Hlv & Hr & Hal & Hsp); [intros a Ha; apply Ho; lia|].
  exists m1. split; try done.
  - unfold task_current_save_state.
    rewrite (bind_Ret _ _ _ task (running kdir KERNEL_DATA_SELECTOR (kmem k) k)) by (unfold gets; by rewrite <- Hct).
    rewrite (proj2 (Z.eqb_neq task 0)); [exact E|].
    pose proof (live_block _ _ _ (sp_live _ _ _ _ _ (pr_space _ _ _ _ _ _ (po_space _ _ _ _ _ _ Hok)))). lia.
  - rewrite <- Hp. apply ld32_ext. intros i Hi. apply Ho. unfold task_process. lia.
  - apply ld32_ext. intros i Hi. apply Ho. destruct (kernel_byte_out _ _ _ _ _ _ (Hk (kernel_chunk k + i) ltac:(lia))) as (_ & Ha & _). lia.
  - intros a [H1 H2]. split; [apply (owned_ext (kmem k)); [intros q t Hq; by apply Hlv|done]|]. by rewrite (space_same (kmem k) m1 dir Hsp).
  - intros sp i w (p & Hm & ->). exists p.
    pose proof (dir_owned_wf _ _ _ _ (sp_owned _ _ _ _ _ (pr_space _ _ _ _ _ _ (po_space _ _ _ _ _ _ Hok)))) as Hw.
    split.
    + intros j Hj. destruct (Hm j Hj) as [Hmap _].
      apply (space_maps (kmem k)); [done|done|apply u32_range|done].
    + rewrite !Ho; [done|..]; [destruct (Hm 3 ltac:(lia))|destruct (Hm 2 ltac:(lia))|
        destruct (Hm 1 ltac:(lia))|destruct (Hm 0 ltac:(lia))]; lia.
Qed.

Context (m1 : mem) (Hpg : prologue m1).

Let k1 : kernel := running kdir KERNEL_DATA_SELECTOR m1 k.

Lemma stack_item_eq i w : user_arg (kmem k) dir task (ld32 (kmem k) (frame + frame_esp)) i w ->
  stack_item mmu i k1 = Ret w k1.
Proof.
  intros Hw. pose proof (pr_space _ _ _ _ _ _ (po_space _ _ _ _ _ _ (pg_ok _ Hpg))) as Hts.
  unfold stack_item. rewrite (bind_Ret _ _ _ task k1) by (unfold gets; f_equal; apply (cl_current _ _ _ _ _ _ _ Hc)).
  assert (Esp : ld32 m1 (task + task_registers + reg_esp) = ld32 (kmem k) (frame + frame_esp)).
  { unfold task_registers. apply (pg_saved _ Hpg). unfold saved_registers. set_solver. }
  rewrite (task_get_stack_item_spec mmu Hmmu k1 task chunk dir ts Hts i w).
  - change (kmem k1) with m1. change (kernel_chunk k1) with (kernel_chunk k). by rewrite (pg_kernel _ Hpg).
  - change (kmem k1) with m1. rewrite Esp. by apply (pg_args _ Hpg).
Qed.

Lemma current_task_process_eq : current_task_process k1 = Ret process k1.
Proof.
  unfold current_task_process.
  rewrite (bind_Ret _ _ _ task k1) by (unfold gets; f_equal; apply (cl_current _ _ _ _ _ _ _ Hc)).
  unfold kload32, gets. f_equal. apply (pg_process _ Hpg).
Qed.

(** Back on the task's pages. *)
Definition resumed (k2 : kernel) : kernel :=
  with_tasks task (task_head k2) (task_tail k2) (running dir 0x23 (kmem k2) k2).

Lemma task_page_eq k2 : current_task k2 = task -> task_space (kmem k2) task chunk dir ts ->
  task_page k2 = Ret 0 (resumed k2).
Proof.
  intros Ht Hts. unfold task_page, user_registers.
  rewrite (bind_Ret _ _ _ tt (with_cpu (paging k2) 0x23 k2)) by done.
  rewrite (bind_Ret _ _ _ task (with_cpu (paging k2) 0x23 k2)) by (unfold gets; f_equal; exact Ht).
  set (k3 := with_tasks task (task_head k2) (task_tail k2) (with_cpu (paging k2) 0x23 k2)).
  rewrite (bind_Ret _ _ _ 0 (resumed k2)); [done|]. unfold task_switch.
  rewrite (bind_Ret _ _ _ tt k3) by done.
  rewrite (bind_Ret _ _ _ _ _ (switch_pages_eq k3 task chunk dir ts Hts 0x23)).
  unfold resumed, running. rewrite !with_kmem_id. done.
Qed.

Lemma kernel_page_eq : kernel_page k = Ret tt (running kdir KERNEL_DATA_SELECTOR (kmem k) k).
Proof.
  unfold kernel_page, kernel_registers. kstep. unfold running, switch_to, modify, directory_entry_offset, kdir.
  rewrite Z.add_0_r, with_kmem_id. done.
Qed.

(** A command that comes back, put into the handler. *)
Lemma handler_eq run n c v k2 :
  0 <= n < 1024 -> command_of n = Some c -> run c frame k1 = Ret (back v) k2 ->
  current_task k2 = task -> task_space (kmem k2) task chunk dir ts ->
  isr80h_handler run n frame k = Ret (back v) (resumed k2).
Proof.
  intros Hn Ec Er Ht Hts. unfold isr80h_handler.
  rewrite (bind_Ret _ _ _ _ _ kernel_page_eq), (bind_Ret _ _ _ _ _ (pg_save _ Hpg)). fold k1.
  rewrite (bind_Ret _ _ _ (back v) k2).
  - by rewrite (bind_Ret _ _ _ _ _ (task_page_eq k2 Ht Hts)).
  - unfold isr80h_handle_command, LIEBE_OS_ISR80H_MAX_COMMANDS.
    rewrite (proj2 (Z.ltb_ge n 0)), (proj2 (Z.leb_gt 1024 n)) by lia. cbn [orb].
    rewrite (bind_Ret _ _ _ (Some (Some c)) k1); [exact Er|]. unfold gets. f_equal.
    change (isr80h_commnads k1) with (isr80h_commnads k). rewrite (cl_commands _ _ _ _ _ _ _ Hc).
    unfold all_commands. rewrite list_lookup_fmap, lookup_seq_lt by lia. cbn [fmap option_fmap option_map].
    by rewrite Nat.add_0_l, Z2Nat.id, Ec by lia.
Qed.

(** The same for a callback. *)
Lemma interrupt_eq run n c k2 :
  0 <= n < 512 -> interrupt_callbacks k !! Z.to_nat n = Some (Some c) -> run c frame k1 = Ret (back tt) k2 ->
  current_task k2 = task -> task_space (kmem k2) task chunk dir ts ->
  interrupt_handler run n frame k = Ret (back tt) (resumed k2).
Proof.
  intros Hn Ec Er Ht Hts. unfold interrupt_handler.
  rewrite (bind_Ret _ _ _ _ _ kernel_page_eq).
  rewrite (bind_Ret _ _ _ (Some (Some c)) (running kdir KERNEL_DATA_SELECTOR (kmem k) k))
    by (unfold gets; f_equal; exact Ec).
  rewrite (bind_Ret _ _ _ (back tt) k2); [by rewrite (bind_Ret _ _ _ _ _ (task_page_eq k2 Ht Hts))|].
  rewrite (bind_Ret _ _ _ _ _ (pg_save _ Hpg)). exact Er.
Qed.

Lemma pg_space : task_space m1 task chunk dir ts.
Proof. exact (pr_space _ _ _ _ _ _ (po_space _ _ _ _ _ _ (pg_ok _ Hpg))). Qed.
Lemma k1_current : current_task k1 = task.
Proof. exact (cl_current _ _ _ _ _ _ _ Hc). Qed.

(** The common part of [returned]. *)
Lemma returned_resumed k2 : current_task k2 = task ->
  (forall r f, (r, f) ∈ saved_registers -> ld32 (kmem k2) (task + 4 + r) = ld32 m1 (task + 4 + r)) ->
  (forall a, frame <= a < frame + 52 -> rd (kmem k2) a = rd m1 a) ->
  returned k (resumed k2) task dir frame.
Proof.
  intros Ht Hs Hf. split; [done|done|done| |].
  - intros r f Hrf. rewrite <- (pg_saved _ Hpg r f Hrf). by apply (Hs r f).
  - intros a Ha. rewrite <- (pg_frame _ Hpg); [by apply Hf|].
    destruct (kernel_byte_out _ _ _ _ _ _ (cl_frame _ _ _ _ _ _ _ Hc a Ha)) as (_ & ? & _). lia.
Qed.

End path.

#[local] Arguments prologue_spec {H process task chunk dir ts k frame} Hc.
#[local] Arguments stack_item_eq {H} mmu Hmmu {process task chunk dir ts k frame} Hc {m1} Hpg.
#[local] Arguments current_task_process_eq {H process task chunk dir ts k frame} Hc {m1} Hpg.
#[local] Arguments handler_eq {H process task chunk dir ts k frame} Hc {m1} Hpg.
#[local] Arguments interrupt_eq {H process task chunk dir ts k frame m1} Hpg.
#[local] Arguments pg_space {H process task chunk dir ts k frame m1} Hpg.
#[local] Arguments k1_current {H process task chunk dir ts k frame} Hc m1.
#[local] Arguments returned_resumed {H process task chunk dir ts k frame} Hc {m1} Hpg.

(** ** Commands in a call *)

Section calls.
Context `{KAllocator} (mmu : mmu_type) (Hmmu : mmu_ok mmu).
Context (ops : Z -> option filesystem_ops) (disk_obj stat stack_process : Z) (fuel : nat).
Context (buf filename path process_var classic_keyboard scancode : Z).

#[local] Abbreviation call := (handle_command mmu ops disk_obj stat stack_process fuel buf
  filename path process_var).

Lemma sum_call_spec k process task chunk dir ts frame w0 w1 :
  calling k process task chunk dir ts frame ->
  let sp := ld32 (kmem k) (frame + frame_esp) in
  user_arg (kmem k) dir task sp 0 w0 -> user_arg (kmem k) dir task sp 1 w1 ->
  exists k', call SYSTEM_COMMAND0_SUM frame k = Ret (back (u32 (w0 + w1))) k' /\
    returned k k' task dir frame /\ process_ok (kmem k') process task chunk dir ts.
Proof.
  intros Hc sp H0 H1. destruct (prologue_spec Hc) as [m1 Hpg].
  set (k1 := running (ld32 (kmem k) (kernel_chunk k)) KERNEL_DATA_SELECTOR m1 k).
  exists (resumed task dir k1). split; [|split].
  - apply (handler_eq Hc Hpg _ 0 command0_sum); try done;
      [|by apply (k1_current Hc)|by apply (pg_space Hpg)].
    cbn [run_command]. unfold isr80h_command0_sum.
    rewrite (bind_Ret _ _ _ (u32 (w0 + w1)) k1); [done|].
    rewrite (bind_Ret _ _ _ _ _ (stack_item_eq mmu Hmmu Hc Hpg 1 w1 H1)).
    rewrite (bind_Ret _ _ _ _ _ (stack_item_eq mmu Hmmu Hc Hpg 0 w0 H0)).
    unfold ret. f_equal. unfold u32, i32. case_bools; dlia.
  - apply (returned_resumed Hc Hpg); [by apply (k1_current Hc)|done|done].
  - exact (pg_ok _ _ _ _ _ _ _ _ Hpg).
Qed.

Lemma malloc_call_spec k process task chunk dir ts frame n size :
  calling k process task chunk dir ts frame ->
  let sp := ld32 (kmem k) (frame + frame_esp) in
  user_arg (kmem k) dir task sp 0 size -> 0 < size <= 0xFFFFF000 ->
  room (kmem k) n -> blocks_for size <= Z.of_nat n ->
  (exists i, 0 <= i < 1024 /\ (allocation (kmem k) process i).1 = 0) ->
  exists p k', call SYSTEM_COMMAND4_MALLOC frame k = Ret (back p) k' /\
    returned k k' task dir frame /\ process_ok (kmem k') process task chunk dir ts /\
    0 < p /\ p mod 4096 = 0 /\
    (forall v, p <= v < p + size -> rd (kmem k') v = 0 /\ maps (kmem k') dir v v /\
       Z.land (paging_get dir (v - v mod 4096) (kmem k')) 4095 = 7) /\
    (forall q t, live (kmem k) q t -> q + t <= p \/ p + blocks_for size * 4096 <= q) /\
    (forall q t, live (kmem k') q t <-> live (kmem k) q t \/ q = p /\ t = blocks_for size * 4096).
Proof.
  intros Hc sp Hw Hs Hr Hb (i0 & Hi0 & E0). destruct (prologue_spec Hc) as [m1 Hpg].
  set (k1 := running (ld32 (kmem k) (kernel_chunk k)) KERNEL_DATA_SELECTOR m1 k).
  pose proof Hpg as [_ Hok1 _ _ Hlv1 Hr1 Hal1 _ _ _ _].
  destruct (free_index_cases process m1) as [(i & Hi & Ei & Ef)|[_ Hno]];
    [|exfalso; apply (Hno i0 Hi0); by rewrite Hal1].
  destruct (process_malloc_spec process task chunk dir ts k1 size n i Hok1 Hs (Hr1 _ Hr) Hb Ei)
    as (p & m2 & E & Hok2 & _ & Ha); [lia|].
  change (kmem k1) with m1 in Ha. set (k2 := with_kmem m2 k1).
  pose proof (po_space _ _ _ _ _ _ Hok1) as Hps. pose proof (pr_space _ _ _ _ _ _ Hps) as Hts.
  assert (Hout : forall a, stable m1 dir a -> a < process \/ process + process_span <= a -> rd m2 a = rd m1 a).
  { intros a Ha1 Ha2. apply (as_stable _ _ _ _ _ _ _ Ha); [done|].
    unfold alloc_ptr, proc_allocations, process_span in *. lia. }
  exists p, (resumed task dir k2). split; [|split; [|split; [done|split; [|split; [|split; [|split]]]]]].
  - apply (handler_eq Hc Hpg _ 4 command4_malloc); try done;
      [|by apply (k1_current Hc)|by apply (pr_space _ _ _ _ _ _ (po_space _ _ _ _ _ _ Hok2))].
    cbn [run_command]. rewrite (bind_Ret _ _ _ p k2); [done|]. unfold isr80h_command4_malloc.
    rewrite (bind_Ret _ _ _ _ _ (stack_item_eq mmu Hmmu Hc Hpg 0 size Hw)).
    rewrite (bind_Ret _ _ _ _ _ (current_task_process_eq Hc Hpg)).
    replace (u32 (i32 size)) with size; [exact E|]. unfold u32, i32. case_bools; dlia.
  - apply (returned_resumed Hc Hpg); [by apply (k1_current Hc)| |].
    + apply saved_stay. intros a Ha1. apply Hout; [by apply (task_stable _ _ _ _ _ Hts)|].
      pose proof (process_apart _ _ _ _ _ _ Hps _ (sp_live _ _ _ _ _ Hts)). lia.
    + intros a Ha1. destruct (kernel_byte_out _ _ _ _ _ _ (cl_frame _ _ _ _ _ _ _ Hc a Ha1)) as (Hst & _ & ?).
      apply Hout; [by apply (pg_stable _ _ _ _ _ _ _ _ Hpg)|done].
  - apply (as_pos _ _ _ _ _ _ _ Ha).
  - apply (as_page _ _ _ _ _ _ _ Ha).
  - intros v Hv. by apply (allocated_access m1 m2 process task chunk dir ts i p size).
  - intros q t Hq. by apply (as_fresh _ _ _ _ _ _ _ Ha), Hlv1.
  - intros q t. change (kmem (resumed task dir k2)) with m2.
    by rewrite (as_live _ _ _ _ _ _ _ Ha), Hlv1.
Qed.

(** A byte stays apart while the page tables and the live blocks stay. *)
Lemma kernel_byte_keep m m' process task chunk dir a : (forall q t, live m' q t <-> live m q t) ->
  (forall b, space m dir b -> rd m' b = rd m b) ->
  kernel_byte m process task chunk dir a -> kernel_byte m' process task chunk dir a.
Proof.
  intros Hlv Hsp [Ho Hn]. split; [apply (owned_ext m); [intros q t Hq; by apply Hlv|done]|].
  intros [Ha|Ha]; apply Hn; [left|by right]. by apply (space_same m m' dir Hsp).
Qed.

(** The message after the prologue, in the command's buffer. *)
Lemma print_copied k process task chunk dir ts frame m1 n v l :
  calling k process task chunk dir ts frame -> prologue process task chunk dir ts k frame m1 ->
  user_text (kmem k) dir task v l -> (length l < 1024)%nat -> room (kmem k) (S n) ->
  (forall a, buf <= a < buf + 1024 -> kernel_byte (kmem k) process task chunk dir a) ->
  let k1 := running (ld32 (kmem k) (kernel_chunk k)) KERNEL_DATA_SELECTOR m1 k in
  exists m2, copy_string_from_task mmu task v buf 1024 k1 = Ret 0 (with_kmem m2 k1) /\
    cstr (at_mem m2 buf) l /\ process_ok m2 process task chunk dir ts /\
    (forall a, owned m1 a -> a < buf \/ buf + 1024 <= a -> rd m2 a = rd m1 a) /\
    (forall q t, live m2 q t <-> live m1 q t).
Proof.
  intros Hc Hpg [(Hch & Hv0 & Hv & Hu) [_ Ht]] Hl Hr Hbuf k1.
  pose proof (pg_ok _ _ _ _ _ _ _ _ Hpg) as Hok1. pose proof (pg_space Hpg) as Hts1.
  pose proof (pr_space _ _ _ _ _ _ (po_space _ _ _ _ _ _ (cl_ok _ _ _ _ _ _ _ Hc))) as Hts.
  assert (Hsp : forall a, space (kmem k) dir a -> rd m1 a = rd (kmem k) a).
  { intros a Ha. apply (pg_frame _ _ _ _ _ _ _ _ Hpg).
    destruct (decide (task <= a < task + 4096)) as [Hin|]; [|lia].
    exfalso. by apply (task_stable _ _ _ _ _ Hts a Hin). }
  pose proof (dir_owned_wf _ _ _ _ (sp_owned _ _ _ _ _ Hts)) as Hw.
  assert (Hst : forall a, kernel_byte (kmem k) process task chunk dir a -> stable m1 dir a)
    by (intros a Ha; apply (pg_stable _ _ _ _ _ _ _ _ Hpg); by destruct (kernel_byte_out _ _ _ _ _ _ Ha)).
  destruct (copy_string_spec mmu Hmmu k1 task chunk dir ts n (po_heap _ _ _ _ _ _ Hok1)
    (pg_room _ _ _ _ _ _ _ _ Hpg _ Hr) Hts1) with (v := v) (l := l) (physical := buf) (max := 1024)
    as (m2 & E & Hs & Hh2 & Hlv2 & _ & Hf2).
  - intros a Ha. by apply Hst, (cl_kernel _ _ _ _ _ _ _ Hc).
  - lia.
  - split; [done|]. split; [done|]. split; [done|]. intros j Hj. destruct (Hu j Hj) as (Ho & p & Hm & Hrd & Hsb).
    split; [apply (owned_ext (kmem k)); [intros q t Hq; by apply (pg_live _ _ _ _ _ _ _ _ Hpg)|done]|].
    exists p. split; [by apply (space_maps (kmem k)); [..|lia|]|]. split; [|by apply (pg_stable _ _ _ _ _ _ _ _ Hpg)].
    change (kmem k1) with m1. rewrite (pg_frame _ _ _ _ _ _ _ _ Hpg); [done|]. specialize (Ht j p Hj Hm). lia.
  - intros a Ha. by apply Hst, Hbuf.
  - change (kmem k1) with m1 in *. exists m2. split; [|split; [done|split; [|split; [|done]]]].
    + rewrite E. change (kernel_chunk k1) with (kernel_chunk k). by rewrite (pg_kernel _ _ _ _ _ _ _ _ Hpg).
    + apply (process_ok_keep m1); try done. intros a Ha.
      pose proof (process_byte_owned process task chunk dir ts m1 a Hok1 Ha) as Ho. apply Hf2; [done|].
      destruct (decide (buf <= a < buf + 1024)) as [Hin|]; [|lia]. exfalso. apply (Hbuf a Hin).
      destruct Ha as [Ha|Ha]; [left|by right]. by apply (space_same (kmem k) m1 dir Hsp).
    + intros a Ho Ha. apply Hf2; [done|lia].
Qed.

(** Drawing only looks at the cursor and the cells. *)
Lemma drawn_from k k2 k3 l bound : cursor (shows (console k2)) = cursor (shows (console k)) ->
  (forall q, 0 <= q < bound -> cell (shows (console k2)) q = cell (shows (console k)) q) ->
  drawn k2 k3 l bound -> drawn k k3 l bound.
Proof.
  intros Hc Hq [H1 H2]. destruct (put_local l _ _ Hc) as [Hp1 Hp2]. split.
  - by rewrite H1.
  - intros p Hp. rewrite H2 by done. by apply Hp2, Hq.
Qed.

(** The bytes command 1 draws on and copies to are apart from the rest. *)
Record print_layout (k : kernel) (process task chunk dir frame len bound : Z) : Prop := {
  pl_screen : on_screen k process task chunk dir len bound;
  pl_buf : forall a, buf <= a < buf + 1024 -> kernel_byte (kmem k) process task chunk dir a /\
    (a < video (files k) \/ video (files k) + 2 * bound <= a) /\ (a < frame \/ frame + 52 <= a);
  pl_frame : frame + 52 <= video (files k) \/ video (files k) + 2 * bound <= frame }.

Section run.
Context (k : kernel) (process task chunk dir : Z) (ts : list Z) (frame : Z) (m1 : mem).
Context (n : nat) (v : Z) (l : list Z) (bound : Z).
Context (Hc : calling k process task chunk dir ts frame) (Hpg : prologue process task chunk dir ts k frame m1).
Context (Ht : user_text (kmem k) dir task v l) (Hl : (length l < 1024)%nat) (Hr : room (kmem k) (S n)).
Context (Hlay : print_layout k process task chunk dir frame (Z.of_nat (length l)) bound).

Let k1 : kernel := running (ld32 (kmem k) (kernel_chunk k)) KERNEL_DATA_SELECTOR m1 k.

Lemma copied_keeps : exists m2, copy_string_from_task mmu task v buf 1024 k1 = Ret 0 (with_kmem m2 k1) /\
  cstr (at_mem m2 buf) l /\ process_ok m2 process task chunk dir ts /\
  (forall a, process_byte (kmem k) process task chunk dir a -> rd m2 a = rd m1 a) /\
  (forall a, kernel_byte (kmem k) process task chunk dir a -> a < buf \/ buf + 1024 <= a ->
     rd m2 a = rd (kmem k) a) /\
  on_screen (with_kmem m2 k1) process task chunk dir (Z.of_nat (length l)) bound.
Proof.
  destruct Hlay as [Hos Hbuf Hfr].
  destruct (print_copied k process task chunk dir ts frame m1 n v l Hc Hpg Ht Hl Hr
    (fun a Ha => proj1 (Hbuf a Ha))) as (m2 & E2 & Hs & Hok2 & Hf2 & Hlv2).
  pose proof (cl_ok _ _ _ _ _ _ _ Hc) as Hok.
  assert (Hpb : forall a, process_byte (kmem k) process task chunk dir a -> rd m2 a = rd m1 a).
  { intros a Ha. apply Hf2.
    - apply (owned_ext (kmem k)); [intros q t Hq; by apply (pg_live _ _ _ _ _ _ _ _ Hpg)|].
      by apply (process_byte_owned process task chunk dir ts).
    - destruct (decide (buf <= a < buf + 1024)) as [Hin|]; [|lia]. by destruct (Hbuf a Hin) as [[_ Hn] _]. }
  exists m2. split; [done|]. split; [done|]. split; [done|]. split; [done|]. split.
  - intros a Ha Hb. destruct (kernel_byte_out _ _ _ _ _ _ Ha) as (Hsa & Hta & _).
    rewrite Hf2; [|by apply (pg_stable _ _ _ _ _ _ _ _ Hpg)|done]. apply (pg_frame _ _ _ _ _ _ _ _ Hpg). lia.
  - destruct Hos as [H1 H2 H3 H4 H5]. split; try done. intros a Ha. apply (kernel_byte_keep (kmem k)); [| |by apply H5].
    + intros q t. rewrite kmem_with_kmem, Hlv2. apply (pg_live _ _ _ _ _ _ _ _ Hpg).
    + intros b Hb. rewrite kmem_with_kmem, Hpb by (by left). apply (pg_frame _ _ _ _ _ _ _ _ Hpg).
      pose proof (task_stable _ _ _ _ _ (pr_space _ _ _ _ _ _ (po_space _ _ _ _ _ _ Hok))) as Hts.
      destruct (decide (task <= b < task + 4096)) as [Hin|]; [|lia]. exfalso. by apply (Hts b Hin).
Qed.

Lemma print_run : (length l < fuel)%nat -> user_arg (kmem k) dir task (ld32 (kmem k) (frame + frame_esp)) 0 v ->
  exists k3, isr80h_command1_print mmu fuel buf k1 = Ret 0 k3 /\ current_task k3 = task /\
  process_ok (kmem k3) process task chunk dir ts /\ drawn k k3 l bound /\
  (forall a, task <= a < task + 4096 \/ frame <= a < frame + 52 -> rd (kmem k3) a = rd m1 a).
Proof.
  intros Hfu Hw. destruct copied_keeps as (m2 & E2 & Hs & Hok2 & Hpb & Hkb & Hos2). destruct Hlay as [Hos Hbuf Hfr].
  set (k2 := with_kmem m2 k1) in *. change (kmem k2) with m2 in *.
  destruct (kprint_spec process task chunk dir ts fuel buf l k2 bound Hok2 Hos2 Hs)
    as (k3 & E3 & Hct & Hok3 & Hd & Hf3); [by destruct Ht as (_ & ? & _)|done| |].
  { intros a Ha. destruct (decide (buf <= a < buf + 1024)) as [Hin|]; [|lia].
    destruct (Hbuf a Hin) as (_ & Hv & _). change (video (files k2)) with (video (files k)) in Ha. lia. }
  change (video (files k2)) with (video (files k)) in Hf3. change (kmem k2) with m2 in Hf3.
  exists k3. split; [|split; [rewrite Hct; by apply (k1_current Hc)|split; [done|split]]].
  - unfold isr80h_command1_print. rewrite (bind_Ret _ _ _ _ _ (stack_item_eq mmu Hmmu Hc Hpg 0 v Hw)).
    rewrite (bind_Ret _ _ _ task k1) by (unfold gets; f_equal; apply (k1_current Hc)).
    by rewrite (bind_Ret _ _ _ _ _ E2), (bind_Ret _ _ _ _ _ E3).
  - apply (drawn_from k k2); [done| |done]. intros q Hq. cbn [cell shows console memory video_mem].
    change (video (files k2)) with (video (files k)). unfold ld16.
    assert (Hb : forall a, video (files k) <= a < video (files k) + 2 * bound -> rd (kmem k2) a = rd (kmem k) a).
    { intros a Ha. apply Hkb; [by apply (os_video _ _ _ _ _ _ _ Hos)|].
      destruct (decide (buf <= a < buf + 1024)) as [Hin|]; [|lia]. destruct (Hbuf _ Hin) as (_ & ? & _); lia. }
    by rewrite !Hb by lia.
  - intros a [Ha|Ha].
    + rewrite <- (Hpb a) by (right; by left). apply Hf3.
      destruct (decide (video (files k) <= a < video (files k) + 2 * bound)) as [Hin|]; [|lia].
      exfalso. destruct (os_video _ _ _ _ _ _ _ Hos a Hin) as [_ Hn]. apply Hn. right. by left.
    + pose proof (cl_frame _ _ _ _ _ _ _ Hc a Ha) as Hkf. rewrite Hf3 by lia.
      rewrite Hkb; [|done|destruct (decide (buf <= a < buf + 1024)) as [Hin|]; [destruct (Hbuf a Hin) as (_ & _ & ?); lia|lia]].
      symmetry. apply (pg_frame _ _ _ _ _ _ _ _ Hpg). destruct (kernel_byte_out _ _ _ _ _ _ Hkf) as (_ & ? & _). lia.
Qed.
End run.

Lemma print_call_spec k process task chunk dir ts frame n v l bound :
  calling k process task chunk dir ts frame ->
  user_arg (kmem k) dir task (ld32 (kmem k) (frame + frame_esp)) 0 v ->
  user_text (kmem k) dir task v l -> (length l < 1024)%nat -> (length l < fuel)%nat -> room (kmem k) (S n) ->
  print_layout k process task chunk dir frame (Z.of_nat (length l)) bound ->
  exists k', call SYSTEM_COMMAND1_PRINT frame k = Ret (back 0) k' /\
    returned k k' task dir frame /\ process_ok (kmem k') process task chunk dir ts /\ drawn k k' l bound.
Proof.
  intros Hc Hw Ht Hl Hfu Hr Hlay. destruct (prologue_spec Hc) as [m1 Hpg].
  destruct (print_run k process task chunk dir ts frame m1 n v l bound Hc Hpg Ht Hl Hr Hlay Hfu Hw)
    as (k3 & E & Hct & Hok3 & Hd & Hf).
  exists (resumed task dir k3). split; [|split; [|by split]].
  - apply (handler_eq Hc Hpg _ 1 command1_print); try done; [|by apply (pr_space _ _ _ _ _ _ (po_space _ _ _ _ _ _ Hok3))].
    cbn [run_command]. by rewrite (bind_Ret _ _ _ _ _ E).
  - apply (returned_resumed Hc Hpg); [done| |].
    + apply saved_stay. intros a Ha. apply Hf. by left.
    + intros a Ha. apply Hf. by right.
Qed.

#[local] Abbreviation interrupt := (handle_interrupt mmu classic_keyboard scancode).

(** The buffer's content is in the process object. *)
Lemma ring_ext m m' p h t q : (forall a, p + proc_buffer <= a < p + proc_argc -> rd m' a = rd m a) ->
  ring m p h t q -> ring m' p h t q.
Proof.
  intros Hf [H1 H2 H3 H4 H5 H6 H7].
  assert (Hb : forall j, rd m' (p + proc_buffer + j mod LIEBE_OS_KEYBOARD_BUFFER_SIZE) =
    rd m (p + proc_buffer + j mod LIEBE_OS_KEYBOARD_BUFFER_SIZE)).
  { intros j. apply Hf. pose proof (index_range j). unfold LIEBE_OS_KEYBOARD_BUFFER_SIZE, proc_buffer, proc_argc in *. lia. }
  split; try done.
  - rewrite <- H1. apply ld32_ext. intros i Hi. apply Hf. unfold proc_head, proc_buffer, proc_argc. lia.
  - rewrite <- H2. apply ld32_ext. intros i Hi. apply Hf. unfold proc_tail, proc_buffer, proc_argc. lia.
  - intros i c Hi. rewrite Hb. by apply H5.
  - intros j Hj. rewrite Hb. by apply H7.
Qed.

Section state.
Context (k : kernel) (process task chunk dir : Z) (ts : list Z) (frame : Z) (m1 : mem).
Context (Hc : calling k process task chunk dir ts frame) (Hpg : prologue process task chunk dir ts k frame m1).
Context (Hcp : current_process k = process).

Let k1 : kernel := running (ld32 (kmem k) (kernel_chunk k)) KERNEL_DATA_SELECTOR m1 k.

Lemma task_away : task + 4096 <= process \/ process + process_span <= task.
Proof.
  pose proof (po_space _ _ _ _ _ _ (cl_ok _ _ _ _ _ _ _ Hc)) as Hps.
  apply (process_apart _ _ _ _ _ _ Hps), (sp_live _ _ _ _ _ (pr_space _ _ _ _ _ _ Hps)).
Qed.

Lemma focused_k1 : focused k1 process.
Proof.
  pose proof (cl_ok _ _ _ _ _ _ _ Hc) as Hok. pose proof (po_space _ _ _ _ _ _ Hok) as Hps.
  pose proof (live_block _ _ _ (pr_live _ _ _ _ _ _ Hps)) as [Hp _].
  pose proof (live_block _ _ _ (sp_live _ _ _ _ _ (pr_space _ _ _ _ _ _ Hps))) as [Ht _].
  pose proof task_away. pose proof (cl_current _ _ _ _ _ _ _ Hc) as Ec.
  unfold focused. change (current_task k1) with (current_task k). change (current_process k1) with (current_process k).
  change (kmem k1) with m1. rewrite Ec. split; [done|]. split; [lia|]. split; [lia|].
  split; [apply (pg_process _ _ _ _ _ _ _ _ Hpg)|].
  unfold task_process, proc_buffer, proc_argc, process_span in *. lia.
Qed.

Lemma ring_k1 h t q : ring (kmem k) process h t q -> ring (kmem k1) process h t q.
Proof.
  apply ring_ext. intros a Ha. change (kmem k1) with m1. apply (pg_frame _ _ _ _ _ _ _ _ Hpg).
  pose proof task_away. unfold proc_buffer, proc_argc, process_span in *. lia.
Qed.

(** A store into the buffer on the kernel's pages, and the way back. *)
Lemma buffer_store i v o w : (o = proc_head \/ o = proc_tail) -> 0 <= v < 256 ->
  let k2 := with_kmem (cell_write m1 process i v o w) k1 in
  current_task k2 = task /\ process_ok (kmem k2) process task chunk dir ts /\
  (forall a, a < process \/ process + process_span <= a -> rd (kmem k2) a = rd m1 a).
Proof.
  intros Ho Hv k2. destruct (cell_write_spec m1 process i v o w Ho Hv) as (_ & _ & _ & Hf).
  split; [by apply (k1_current Hc)|]. change (kmem k2) with (cell_write m1 process i v o w). split.
  - apply (object_write process task chunk dir ts m1); [apply (pg_ok _ _ _ _ _ _ _ _ Hpg)|].
    intros a Ha. apply Hf. unfold proc_filetype, process_span, proc_buffer, proc_argc in *. lia.
  - intros a Ha. apply Hf. unfold process_span, proc_buffer, proc_argc in *. lia.
Qed.

Lemma returned_buffer k2 : current_task k2 = task ->
  (forall a, a < process \/ process + process_span <= a -> rd (kmem k2) a = rd m1 a) ->
  returned k (resumed task dir k2) task dir frame.
Proof.
  intros Ht Hf. apply (returned_resumed Hc Hpg); [done| |].
  - apply saved_stay. intros a Ha. apply Hf. pose proof task_away. unfold process_span in *. lia.
  - intros a Ha. apply Hf. by destruct (kernel_byte_out _ _ _ _ _ _ (cl_frame _ _ _ _ _ _ _ Hc a Ha)) as (_ & _ & ?).
Qed.
End state.

Lemma getkey_call_spec k process task chunk dir ts frame h t q :
  calling k process task chunk dir ts frame -> current_process k = process -> ring (kmem k) process h t q ->
  exists k', call SYSTEM_COMMAND2_GETKEY frame k = Ret (back (u32 (i8 (default 0 (head q))))) k' /\
    returned k k' task dir frame /\ process_ok (kmem k') process task chunk dir ts /\
    exists h', ring (kmem k') process h' t (tail q).
Proof.
  intros Hc Hcp Hr. destruct (prologue_spec Hc) as [m1 Hpg].
  set (k1 := running (ld32 (kmem k) (kernel_chunk k)) KERNEL_DATA_SELECTOR m1 k).
  pose proof (focused_k1 k process task chunk dir ts frame m1 Hc Hpg Hcp) as Hf.
  pose proof (ring_k1 k process task chunk dir ts frame m1 Hc Hpg h t q Hr) as Hr1.
  pose proof (keyboard_pop_eq k1 process h t q Hf Hr1) as Ep.
  assert (Hback : forall c k2 h', keyboard_pop k1 = Ret c k2 -> c = default 0 (head q) -> current_task k2 = task ->
    process_ok (kmem k2) process task chunk dir ts -> ring (kmem k2) process h' t (tail q) ->
    (forall a, a < process \/ process + process_span <= a -> rd (kmem k2) a = rd m1 a) ->
    exists k', call SYSTEM_COMMAND2_GETKEY frame k = Ret (back (u32 (i8 (default 0 (head q))))) k' /\
      returned k k' task dir frame /\ process_ok (kmem k') process task chunk dir ts /\
      exists h', ring (kmem k') process h' t (tail q)).
  { intros c k2 h' E -> Ht Hok2 Hr2 Ho. exists (resumed task dir k2). split; [|split; [|split; [done|by exists h']]].
    - apply (handler_eq Hc Hpg _ 2 command2_getkey); try done; [|by apply (pr_space _ _ _ _ _ _ (po_space _ _ _ _ _ _ Hok2))].
      cbn [run_command]. unfold isr80h_command2_getkey.
      rewrite (bind_Ret _ _ _ (u32 (i8 (default 0 (head q)))) k2); [done|]. by rewrite (bind_Ret _ _ _ _ _ E).
    - by apply (returned_buffer k process task chunk dir ts frame m1). }
  destruct q as [|c q].
  - apply (Hback 0 k1 h); try done; [by apply (k1_current Hc)|apply (pg_ok _ _ _ _ _ _ _ _ Hpg)].
  - destruct (buffer_store k process task chunk dir ts frame m1 Hc Hpg h 0 proc_head (h + 1))
      as (Ht & Hok2 & Ho); [by left|lia|].
    apply (Hback _ _ (h + 1) Ep); try done. change (kmem k1) with m1. rewrite kmem_with_kmem.
    by apply (ring_pop _ _ _ _ c).
Qed.

(** What a key press does on the kernel's pages. *)
Lemma key_handler_eq task chunk dir ts k1 k2 : kernel_page k1 = Ret tt k1 ->
  0 <= scancode < 82 -> scancode <> CLASSIC_KEYBOARD_CAPSLOCK ->
  let c := key_char (keyboard_get_capslock classic_keyboard (kmem k1) =? KEYBOARD_CAPS_LOCK_OFF) scancode in
  (if negb (c =? 0) then keyboard_push c else ret tt) k1 = Ret tt k2 ->
  current_task k2 = task -> task_space (kmem k2) task chunk dir ts ->
  classic_keyboard_handle_interrupt classic_keyboard scancode k1 = Ret tt (resumed task dir k2).
Proof.
  intros Hkp Hs Hncap c E Ht Hts. unfold classic_keyboard_handle_interrupt, CLASSIC_KEYBOARD_KEY_RELEASED.
  assert (El : Z.land scancode 0x80 = 0).
  { apply Z.bits_inj'. intros b Hb. rewrite Z.land_spec, Z.bits_0. change 0x80 with (2 ^ 7).
    rewrite Z.pow2_bits_eqb by lia. destruct (Z.eqb_spec 7 b) as [<-|]; [|apply andb_false_r].
    rewrite (proj2 (Z.testbit_false scancode 7 ltac:(lia))); [done|]. change (2 ^ 7) with 128. dlia. }
  rewrite (bind_Ret _ _ _ _ _ Hkp), El. cbn [Z.eqb negb]. rewrite (proj2 (Z.eqb_neq _ _) Hncap).
  rewrite (bind_Ret _ _ _ _ _ (scancode_in_table classic_keyboard k1 scancode Hs)). fold c.
  by rewrite (bind_Ret _ _ _ _ _ E), (bind_Ret _ _ _ _ _ (task_page_eq task chunk dir ts k2 Ht Hts)).
Qed.

Lemma key_press_spec k process task chunk dir ts frame h t q :
  calling k process task chunk dir ts frame -> current_process k = process -> ring (kmem k) process h t q ->
  Z.of_nat (length q) < LIEBE_OS_KEYBOARD_BUFFER_SIZE ->
  interrupt_callbacks k !! Z.to_nat ISR_KEYBOARD_INTERRUPT = Some (Some cb_keyboard) ->
  0 <= scancode < 82 -> scancode <> CLASSIC_KEYBOARD_CAPSLOCK ->
  (forall a, classic_keyboard + kb_capslock_state <= a < classic_keyboard + kb_capslock_state + 4 ->
     kernel_byte (kmem k) process task chunk dir a) ->
  let c := key_char (keyboard_get_capslock classic_keyboard (kmem k) =? KEYBOARD_CAPS_LOCK_OFF) scancode in
  exists k', interrupt ISR_KEYBOARD_INTERRUPT frame k = Ret (back tt) k' /\
    returned k k' task dir frame /\ process_ok (kmem k') process task chunk dir ts /\
    exists t', ring (kmem k') process h t' (if c =? 0 then q else q ++ [c]).
Proof.
  intros Hc Hcp Hr Hlen Hcb Hs Hncap Hkb c. destruct (prologue_spec Hc) as [m1 Hpg].
  set (k1 := running (ld32 (kmem k) (kernel_chunk k)) KERNEL_DATA_SELECTOR m1 k).
  assert (Ec : keyboard_get_capslock classic_keyboard (kmem k1) = keyboard_get_capslock classic_keyboard (kmem k)).
  { unfold keyboard_get_capslock. f_equal. apply ld32_ext. intros i Hi. apply (pg_frame _ _ _ _ _ _ _ _ Hpg).
    destruct (kernel_byte_out _ _ _ _ _ _ (Hkb (classic_keyboard + kb_capslock_state + i) ltac:(lia))) as (_ & ? & _). lia. }
  assert (Hback : forall k2 t', (if negb (c =? 0) then keyboard_push c else ret tt) k1 = Ret tt k2 ->
    current_task k2 = task -> process_ok (kmem k2) process task chunk dir ts ->
    ring (kmem k2) process h t' (if c =? 0 then q else q ++ [c]) ->
    (forall a, a < process \/ process + process_span <= a -> rd (kmem k2) a = rd m1 a) ->
    exists k', interrupt ISR_KEYBOARD_INTERRUPT frame k = Ret (back tt) k' /\
      returned k k' task dir frame /\ process_ok (kmem k') process task chunk dir ts /\
      exists t', ring (kmem k') process h t' (if c =? 0 then q else q ++ [c])).
  { intros k2 t' E Ht Hok2 Hr2 Ho. pose proof (pr_space _ _ _ _ _ _ (po_space _ _ _ _ _ _ Hok2)) as Hts2.
    set (k3 := resumed task dir k2). exists (resumed task dir k3).
    split; [|split; [|split; [done|by exists t']]].
    - apply (interrupt_eq Hpg _ 0x21 cb_keyboard); try done. cbn [run_callback].
      rewrite (bind_Ret _ _ _ tt k3); [done|]. apply (key_handler_eq task chunk dir ts k1 k2); try done.
      + rewrite kernel_page_eq. change (kmem k1) with m1. change (kernel_chunk k1) with (kernel_chunk k).
        by rewrite (pg_kernel _ _ _ _ _ _ _ _ Hpg).
      + by rewrite Ec.
    - by apply (returned_buffer k process task chunk dir ts frame m1). }
  pose proof (ring_k1 k process task chunk dir ts frame m1 Hc Hpg h t q Hr) as Hr1.
  destruct (Z.eqb_spec c 0) as [E0|Hc0].
  { apply (Hback k1 t); try done; [by apply (k1_current Hc)|apply (pg_ok _ _ _ _ _ _ _ _ Hpg)]. }
  pose proof (key_char_range (keyboard_get_capslock classic_keyboard (kmem k) =? KEYBOARD_CAPS_LOCK_OFF) scancode) as Hcr.
  fold c in Hcr.
  destruct (buffer_store k process task chunk dir ts frame m1 Hc Hpg t c proc_tail (t + 1))
    as (Ht & Hok2 & Ho); [by right|lia|].
  eapply Hback; [|exact Ht|exact Hok2| |exact Ho].
  - apply (keyboard_push_eq k1 process h t q c); [by apply (focused_k1 k process task chunk dir ts frame m1)|done|done].
  - apply ring_push; [done|done|lia].
Qed.

End calls.

(** ** Properties *)

(** Registration fills the command table: starting from an empty table the
    ten registrations succeed, and afterwards every number, of any size, is
    dispatched to the command of that number or, outside 0 to 9, answered
    with 0 without touching the state; registering one of the ten again
    panics. *)
Theorem register_commands_dispatch k : isr80h_commnads k = replicate (Z.to_nat 1024) None ->
  exists k', isr80h_register_commands k = Ret tt k' /\ k' = with_commands all_commands k /\
    (forall run n frame, isr80h_handle_command run n frame k' =
       match command_of n with Some c => run c frame k' | None => Ret (back 0) k' end) /\
    (forall n c, command_of n <> None -> exists k'', isr80h_register_command n c k' = Hang k'').
Proof.
  intros E. exists (with_commands all_commands k). split; [by apply register_all|]. split; [done|]. split.
  - intros run n frame. unfold isr80h_handle_command, LIEBE_OS_ISR80H_MAX_COMMANDS.
    destruct (Z.ltb_spec n 0); [by rewrite command_of_out by lia|].
    destruct (Z.leb_spec 1024 n); [by rewrite command_of_out by lia|]. cbn [orb].
    rewrite (bind_Ret _ _ _ (Some (command_of n)) (with_commands all_commands k)).
    + by destruct (command_of n).
    + unfold gets. f_equal. by apply all_commands_lookup.
  - intros n c Hn. assert (0 <= n < 10) by (destruct (decide (0 <= n < 10)); [done|by rewrite command_of_out in Hn]).
    unfold isr80h_register_command, LIEBE_OS_ISR80H_MAX_COMMANDS.
    rewrite (proj2 (Z.ltb_ge n 0)), (proj2 (Z.leb_gt 1024 n)) by lia. cbn [orb].
    rewrite (bind_Ret _ _ _ tt (with_commands all_commands k)) by done.
    rewrite (bind_Ret _ _ _ (Some (command_of n)) (with_commands all_commands k))
      by (unfold gets; f_equal; apply all_commands_lookup; lia).
    destruct (command_of n); [|done]. by apply kpanic_hangs.
Qed.

(** The sum call end to end: a program that traps with two words on its
    stack gets their sum modulo 2^32 back; on the way the kernel switched to
    its own pages and back, its registers are saved in the task, and the frame
    they return through is as it was. *)
Theorem sum_call `{KAllocator} mmu ops disk_obj stat stack_process fuel buf filename path process_var
    k process task chunk dir ts frame w0 w1 :
  mmu_ok mmu -> calling k process task chunk dir ts frame ->
  user_arg (kmem k) dir task (ld32 (kmem k) (frame + frame_esp)) 0 w0 ->
  user_arg (kmem k) dir task (ld32 (kmem k) (frame + frame_esp)) 1 w1 ->
  exists k', handle_command mmu ops disk_obj stat stack_process fuel buf filename path process_var
      SYSTEM_COMMAND0_SUM frame k = Ret (back (u32 (w0 + w1))) k' /\
    returned k k' task dir frame /\ process_ok (kmem k') process task chunk dir ts.
Proof. intros. by apply sum_call_spec. Qed.

(** C7. The allocation call end to end: with a free table entry and enough
    memory the program gets a page-aligned block of the size on its stack that
    overlaps no block live before the call, zeroed and mapped for its reads and
    writes in its own address space, and resumes as after any call; exactly
    that block becomes live. *)
Theorem malloc_call `{KAllocator} mmu ops disk_obj stat stack_process fuel buf filename path process_var
    k process task chunk dir ts frame n size :
  mmu_ok mmu -> calling k process task chunk dir ts frame ->
  user_arg (kmem k) dir task (ld32 (kmem k) (frame + frame_esp)) 0 size -> 0 < size <= 0xFFFFF000 ->
  room (kmem k) n -> blocks_for size <= Z.of_nat n ->
  (exists i, 0 <= i < 1024 /\ (allocation (kmem k) process i).1 = 0) ->
  exists p k', handle_command mmu ops disk_obj stat stack_process fuel buf filename path process_var
      SYSTEM_COMMAND4_MALLOC frame k = Ret (back p) k' /\
    returned k k' task dir frame /\ process_ok (kmem k') process task chunk dir ts /\
    0 < p /\ p mod 4096 = 0 /\
    (forall v, p <= v < p + size -> rd (kmem k') v = 0 /\ maps (kmem k') dir v v /\
       Z.land (paging_get dir (v - v mod 4096) (kmem k')) 4095 = 7) /\
    (forall q t, live (kmem k) q t -> q + t <= p \/ p + blocks_for size * 4096 <= q) /\
    (forall q t, live (kmem k') q t <-> live (kmem k) q t \/ q = p /\ t = blocks_for size * 4096).
Proof. intros. by eapply malloc_call_spec. Qed.

(** C6. The print call end to end: an ASCII string in the program's memory,
    shorter than 1024 characters, is brought over page by page translation
    into the kernel's buffer and drawn at the cursor exactly as the abstract
    screen draws it; the program resumes as after any call. *)
Theorem print_call `{KAllocator} mmu ops disk_obj stat stack_process fuel buf filename path process_var
    k process task chunk dir ts frame n v l bound :
  mmu_ok mmu -> calling k process task chunk dir ts frame ->
  user_arg (kmem k) dir task (ld32 (kmem k) (frame + frame_esp)) 0 v ->
  user_text (kmem k) dir task v l -> (length l < 1024)%nat -> (length l < fuel)%nat -> room (kmem k) (S n) ->
  print_layout buf k process task chunk dir frame (Z.of_nat (length l)) bound ->
  exists k', handle_command mmu ops disk_obj stat stack_process fuel buf filename path process_var
      SYSTEM_COMMAND1_PRINT frame k = Ret (back 0) k' /\
    returned k k' task dir frame /\ process_ok (kmem k') process task chunk dir ts /\ drawn k k' l bound.
Proof. intros. by eapply print_call_spec. Qed.

(** C8. A key travels from the interrupt to the program, while the current
    process is the running task's and fewer than 1024 keys are pending in its
    queue: an interrupt of a key in the table (not caps lock) appends its
    character, if it has one, to that queue and the task resumes; and a call
    for a key takes the oldest one from the queue, 0 when there is none.  (A
    key more than 1024 overwrites the queue; after an exit the current process
    and the running task can belong to different processes.) *)
Theorem key_press_and_getkey `{KAllocator} mmu ops disk_obj stat stack_process fuel buf filename path process_var
    classic_keyboard scancode k process task chunk dir ts frame h t q :
  mmu_ok mmu -> calling k process task chunk dir ts frame -> current_process k = process ->
  ring (kmem k) process h t q -> Z.of_nat (length q) < LIEBE_OS_KEYBOARD_BUFFER_SIZE ->
  interrupt_callbacks k !! Z.to_nat ISR_KEYBOARD_INTERRUPT = Some (Some cb_keyboard) ->
  0 <= scancode < 82 -> scancode <> CLASSIC_KEYBOARD_CAPSLOCK ->
  (forall a, classic_keyboard + kb_capslock_state <= a < classic_keyboard + kb_capslock_state + 4 ->
     kernel_byte (kmem k) process task chunk dir a) ->
  let c := key_char (keyboard_get_capslock classic_keyboard (kmem k) =? KEYBOARD_CAPS_LOCK_OFF) scancode in
  (exists k' t', handle_interrupt mmu classic_keyboard scancode ISR_KEYBOARD_INTERRUPT frame k = Ret (back tt) k' /\
     returned k k' task dir frame /\ process_ok (kmem k') process task chunk dir ts /\
     ring (kmem k') process h t' (if c =? 0 then q else q ++ [c])) /\
  (exists k' h', handle_command mmu ops disk_obj stat stack_process fuel buf filename path process_var
      SYSTEM_COMMAND2_GETKEY frame k = Ret (back (u32 (i8 (default 0 (head q))))) k' /\
     returned k k' task dir frame /\ process_ok (kmem k') process task chunk dir ts /\
     ring (kmem k') process h' t (tail q)).
Proof.
  intros Hmmu Hc Hcp Hr Hl Hcb Hs Hn Hk c. split.
  - destruct (key_press_spec mmu ops classic_keyboard scancode k process task chunk dir ts frame h t q)
      as (k' & E & ? & ? & t' & ?); try done. by exists k', t'.
  - destruct (getkey_call_spec mmu ops disk_obj stat stack_process fuel buf filename path process_var
      k process task chunk dir ts frame h t q) as (k' & E & ? & ? & h' & ?); try done. by exists k', h'.
Qed.

(** ** Witnesses *)

(** A program's stack at 0x301000 and its text at 0x302000; the registers were
    pushed at 0x300000. *)
Definition trapped (words text : list Z) : mem :=
  store_bytes (store_bytes (st32 ∅ (0x300000 + frame_esp) 0x301000) 0x301000 words) 0x302000 text.

Lemma trapped_outside words text a : (length words <= 4096)%nat -> (length text <= 4096)%nat ->
  a < 0x300000 \/ 0x304000 <= a -> rd (trapped words text) a = rd ∅ a.
Proof.
  intros Hw Ht Ha. unfold trapped, frame_esp.
  rewrite !rd_store_bytes_out, rd_st32_ne by lia. done.
Qed.

(** The kernel in a call, with every low address free of the process. *)
Lemma calling_kernel m0 : (forall a, a < 0x300000 \/ 0x304000 <= a -> rd m0 a = rd ∅ a) ->
  exists k process task chunk dir ts, calling k process task chunk dir ts 0x300000 /\
    current_process k = process /\ ring (kmem k) process 0 0 [] /\ room (kmem k) (Z.to_nat 19000) /\
    (forall i, 0 <= i < 1024 -> allocation (kmem k) process i = (0, 0)) /\
    interrupt_callbacks k !! Z.to_nat ISR_KEYBOARD_INTERRUPT = Some (Some cb_keyboard) /\
    video (files k) = 0xB8000 /\ row (files k) = 0 /\ col (files k) = 0 /\ 0x1000000 <= task /\
    (forall a, 0 <= a < 4294967296 -> maps (kmem k) dir a a) /\
    (forall a, a < 0x7E00 \/ 0xE200 <= a < 0x1000000 ->
       kernel_byte (kmem k) process task chunk dir a /\ rd (kmem k) a = rd m0 a).
Proof.
  intros Hm0. destruct (process_kernel m0 Hm0)
    as (k & p & task & chunk & dir & ts & Hok & Hr & Hal & _ & Hp & Hkc & Hid & Hz & Hst).
  pose proof (po_space _ _ _ _ _ _ Hok) as Hps. pose proof (pr_space _ _ _ _ _ _ Hps) as Hts.
  set (m := st32 (kmem k) (task + task_process) p).
  destruct (task_write p task chunk dir ts (kmem k) m Hok) as (Hok' & Hlv & Hr' & Hal' & Hsp).
  { intros a Ha. unfold m, task_process. rewrite rd_st32_ne by lia. done. }
  set (v := {| core := with_mem m (core (files k)); filesystems := filesystems (files k);
    file_descriptors := file_descriptors (files k); video := 0xB8000; row := 0; col := 0 |}).
  set (cbs := <[Z.to_nat ISR_KEYBOARD_INTERRUPT := Some cb_keyboard]> (replicate 512 (@None callback))).
  set (k' := with_processes p (processes k) (with_tables cbs all_commands
    (with_tasks task (task_head k) (task_tail k) (with_files v k)))).
  assert (Em : kmem k' = m) by done.
  assert (Hbyte : forall a, a < 0x7E00 \/ 0xE200 <= a < 0x1000000 ->
    kernel_byte m p task chunk dir a /\ rd m a = rd m0 a).
  { intros a Ha. destruct (Hst a Ha) as [Hsa Hra].
    assert (Hpool : forall q, live (kmem k) q 4096 -> 0x1000000 <= q).
    { intros q Hq. pose proof (live_pool _ q 4096 q Hq ltac:(lia)) as Hpl. exact Hpl. }
    pose proof (Hpool task (sp_live _ _ _ _ _ Hts)) as H1.
    pose proof (Hpool chunk (do_live _ _ _ _ (sp_owned _ _ _ _ _ Hts) chunk ltac:(by left))) as H2.
    split; [|rewrite <- Hra; unfold m; apply rd_st32_ne; unfold task_process; lia].
    apply (kernel_byte_keep (kmem k)); [done|done|]. split; [by destruct Hsa|].
    intros [Hs|[?|[?|?]]]; [by destruct Hsa|lia..]. }
  exists k', p, task, chunk, dir, ts. rewrite Em. split; [split; rewrite ?Em; try done|].
  - unfold m. rewrite ld32_st32_eq. apply u32_id.
    lia.
  - intros a Ha. apply Hbyte. lia.
  - intros a Ha. change (kernel_chunk k') with (kernel_chunk k) in Ha. apply Hbyte. lia.
  - pose proof (live_pool _ task 4096 task (sp_live _ _ _ _ _ Hts) ltac:(lia)) as Htp.
    pose proof (process_apart _ _ _ _ _ _ Hps task (sp_live _ _ _ _ _ Hts)) as Hap.
    split; [done|]. split.
    { assert (Hb : forall a, p + proc_buffer <= a < p + sizeof_process -> rd m a = 0).
      { intros a Ha. unfold m. unfold proc_buffer, sizeof_process, process_span in *. rewrite rd_st32_ne by (unfold task_process; lia).
        apply Hz. unfold proc_allocations, sizeof_process. lia. }
      assert (Hw : forall o, proc_buffer <= o -> o + 4 <= sizeof_process -> ld32 m (p + o) = 0)
        by (intros o H1 H2; unfold ld32; by rewrite !Hb by lia).
      split; try done; [by apply Hw; unfold proc_head, proc_buffer, sizeof_process|
        by apply Hw; unfold proc_tail, proc_buffer, sizeof_process|].
      intros j _. apply Hb. pose proof (index_range j). unfold LIEBE_OS_KEYBOARD_BUFFER_SIZE, proc_buffer, sizeof_process in *. lia. }
    split; [by apply Hr'|]. split; [intros i Hi; by rewrite Hal', Hal|].
    split; [by vm_compute|]. split; [done|]. split; [done|]. split; [done|]. split; [exact Htp|].
    split; [|done]. intros a Ha. apply (space_maps (kmem k)); [done| |done|by apply Hid].
    by apply (dir_owned_wf (kmem k) chunk dir ts), (sp_owned _ _ _ _ _ Hts).
Qed.

Lemma register_commands_dispatch_witness : exists k',
  isr80h_register_commands (small_kernel ∅ 0) = Ret tt k' /\
  isr80h_handle_command (fun c _ => ret (back (if decide (c = command9_exit) then 1 else 2))) 9 0 k' = Ret (back 1) k'.
Proof.
  destruct (register_commands_dispatch (small_kernel ∅ 0) eq_refl) as (k' & E & _ & Hd & _).
  exists k'. split; [done|]. by rewrite Hd.
Defined.

(** The words and the text are at low addresses, which the page tables map to
    themselves. *)
Lemma trapped_arg `{KAllocator} m dir task words text i w : 0x1000000 <= task ->
  (forall a, 0 <= a < 4294967296 -> maps m dir a a) ->
  (forall a, 0x300000 <= a < 0x304000 -> rd m a = rd (trapped words text) a) ->
  0 <= i < 1000 ->
  w = ld32 (trapped words text) (0x301000 + 4 * i) -> user_arg m dir task 0x301000 i w.
Proof.
  intros Ht Hm Hf Hi ->. exists (fun j => 0x301000 + 4 * i + j). split.
  - intros j Hj. rewrite u32_id by lia. split; [apply Hm; lia|lia].
  - rewrite !Hf by lia. unfold ld32. by rewrite Z.add_0_r.
Qed.

Lemma trapped_esp m words text : (forall a, 0x300000 <= a < 0x304000 -> rd m a = rd (trapped words text) a) ->
  (length words <= 4096)%nat -> ld32 m (0x300000 + frame_esp) = 0x301000.
Proof.
  intros Hf Hw. rewrite (ld32_ext (trapped words text) m (0x300000 + frame_esp)) by (intros i Hi; apply Hf; unfold frame_esp; lia).
  unfold trapped. rewrite (ld32_ext (st32 ∅ (0x300000 + frame_esp) 0x301000) _ (0x300000 + frame_esp)); [by vm_compute|].
  intros i Hi. rewrite !rd_store_bytes_out by (unfold frame_esp; lia). done.
Qed.

(** Two words: 7 and 2^32 - 2. *)
Definition two_words : list Z := [7; 0; 0; 0; 254; 255; 255; 255].

Lemma sum_call_witness : exists k k',
  handle_command walk (fun _ => None) 0 0 0 0 0 0 0 0 SYSTEM_COMMAND0_SUM 0x300000 k = Ret (back 5) k'.
Proof.
  destruct (calling_kernel (trapped two_words [])) as (k & p & task & chunk & dir & ts & Hc & _ & _ & _ & _ & _ & _ & _ & _ & Ht & Hid & Hst).
  { intros a. by apply trapped_outside; cbn; lia. }
  assert (Hf : forall a, 0x300000 <= a < 0x304000 -> rd (kmem k) a = rd (trapped two_words []) a) by (intros a Ha; apply Hst; lia).
  pose proof (trapped_esp (kmem k) two_words [] Hf ltac:(cbn; lia)) as Esp.
  destruct (sum_call walk (fun _ => None) 0 0 0 0 0 0 0 0 k p task chunk dir ts 0x300000 7 4294967294 walk_ok Hc) as (k' & E & _).
  - rewrite Esp. by apply (trapped_arg _ _ _ two_words []); [..|lia|vm_compute].
  - rewrite Esp. by apply (trapped_arg _ _ _ two_words []); [..|lia|vm_compute].
  - exists k, k'. exact E.
Defined.

Lemma malloc_call_witness : exists k k' p,
  handle_command walk (fun _ => None) 0 0 0 0 0 0 0 0 SYSTEM_COMMAND4_MALLOC 0x300000 k = Ret (back p) k' /\
  0 < p /\ p mod 4096 = 0 /\ (forall q t, live (kmem k) q t -> q <> p).
Proof.
  destruct (calling_kernel (trapped two_words [])) as (k & p & task & chunk & dir & ts & Hc & _ & _ & Hr & Hal & _ & _ & _ & _ & Ht & Hid & Hst).
  { intros a. by apply trapped_outside; cbn; lia. }
  assert (Hf : forall a, 0x300000 <= a < 0x304000 -> rd (kmem k) a = rd (trapped two_words []) a) by (intros a Ha; apply Hst; lia).
  pose proof (trapped_esp (kmem k) two_words [] Hf ltac:(cbn; lia)) as Esp.
  destruct (malloc_call walk (fun _ => None) 0 0 0 0 0 0 0 0 k p task chunk dir ts 0x300000 (Z.to_nat 19000) 7 walk_ok Hc)
    as (q & k' & E & _ & _ & Hq & Ha & _ & Hf' & _).
  - rewrite Esp. by apply (trapped_arg _ _ _ two_words []); [..|lia|vm_compute].
  - lia.
  - exact Hr.
  - change (blocks_for 7) with 1. lia.
  - exists 0. by rewrite Hal.
  - exists k, k', q. split; [exact E|]. split; [exact Hq|]. split; [exact Ha|].
    intros r t Hr' ->. pose proof (live_block _ _ _ Hr'). destruct (Hf' _ _ Hr'); change (blocks_for 7) with 1 in *; lia.
Defined.

(** The pointer 0x302000, and the text it points to. *)
Definition one_pointer : list Z := [0; 32; 48; 0].
Definition hello : list Z := [72; 101; 108; 108; 111; 33].

Lemma print_call_witness : exists k k', handle_command walk (fun _ => None) 0 0 0 100 0x200000 0 0 0
    SYSTEM_COMMAND1_PRINT 0x300000 k = Ret (back 0) k' /\
  cursor (shows (console k')) = 6 /\ cell (shows (console k')) 0 = 0x0F48.
Proof.
  destruct (calling_kernel (trapped one_pointer (hello ++ [0]))) as (k & p & task & chunk & dir & ts & Hc & _ & _ & Hr & _ & _ & Hvi & Hro & Hco & Ht & Hid & Hst).
  { intros a. by apply trapped_outside; cbn; lia. }
  assert (Hf : forall a, 0x300000 <= a < 0x304000 -> rd (kmem k) a = rd (trapped one_pointer (hello ++ [0])) a) by (intros a Ha; apply Hst; lia).
  pose proof (trapped_esp (kmem k) _ _ Hf ltac:(cbn; lia)) as Esp.
  assert (Hcur : cursor (shows (console k)) = 0) by (cbn; by rewrite Hro, Hco).
  assert (Hph : forall j q, (j <= 6)%nat -> maps (kmem k) dir (0x302000 + Z.of_nat j) q -> q = 0x302000 + Z.of_nat j).
  { intros j q Hj (_ & _ & <-). by destruct (Hid (0x302000 + Z.of_nat j) ltac:(lia)) as (_ & _ & ->). }
  destruct (print_call walk (fun _ => None) 0 0 0 100 0x200000 0 0 0 k p task chunk dir ts 0x300000 (Z.to_nat 18999)
    0x302000 hello 2000 walk_ok Hc) as (k' & E & _ & _ & Hd).
  - rewrite Esp. by apply (trapped_arg _ _ _ one_pointer (hello ++ [0])); [..|lia|vm_compute].
  - split; [split; [repeat (constructor; [unfold char_ok; lia|]); constructor|split; [lia|split; [cbn; lia|]]]|split].
    + intros j Hj. cbn in Hj. split; [apply Hst; lia|]. exists (0x302000 + Z.of_nat j). split; [apply Hid; lia|].
      split; [|apply (kernel_byte_out _ p task chunk), Hst; lia]. rewrite Hf by lia.
      destruct j as [|[|[|[|[|[|[|j]]]]]]]; [by vm_compute..|lia].
    + repeat (constructor; [lia|]); constructor.
    + intros j q Hj Hm. cbn in Hj. rewrite (Hph j q Hj Hm). lia.
  - cbn. lia.
  - cbn. lia.
  - apply (kheap_room_weaken _ _ _ Hr). lia.
  - split; [split|..].
    + cbn. rewrite Hco. lia.
    + cbn. rewrite Hro. lia.
    + rewrite Hcur. cbn. lia.
    + lia.
    + intros a Ha. rewrite Hvi in Ha. apply Hst. lia.
    + intros a Ha. rewrite Hvi. split; [apply Hst; lia|lia].
    + rewrite Hvi. lia.
  - exists k, k'. split; [exact E|]. destruct Hd as [Hd1 Hd2]. rewrite Hd1, Hd2 by lia.
    destruct (put_local hello {| cursor := 0; cell := cell (shows (console k)) |} (shows (console k)) Hcur) as [-> Hcl].
    rewrite Hcl by done. split; [by vm_compute|by vm_compute].
Defined.

Lemma key_press_and_getkey_witness : exists k k' t' process,
  handle_interrupt walk 0x4000 0x1E ISR_KEYBOARD_INTERRUPT 0x300000 k = Ret (back tt) k' /\
  ring (kmem k') process 0 t' [97].
Proof.
  destruct (calling_kernel ∅ ltac:(done)) as (k & p & task & chunk & dir & ts & Hc & Hcp & Hri & _ & _ & Hcb & _ & _ & _ & Ht & Hid & Hst).
  destruct (key_press_and_getkey walk (fun _ => None) 0 0 0 0 0 0 0 0 0x4000 0x1E k p task chunk dir ts 0x300000 0 0 []
    walk_ok Hc Hcp Hri) as [(k' & t' & E & _ & _ & Hr) _]; try done.
  - intros a Ha. apply Hst. unfold kb_capslock_state in Ha. lia.
  - exists k, k', t', p. split; [exact E|].
    assert (Ek : keyboard_get_capslock 0x4000 (kmem k) = 0).
    { unfold keyboard_get_capslock. rewrite (ld32_ext ∅ _ (0x4000 + kb_capslock_state)); [by vm_compute|]. intros i Hi. apply Hst.
      unfold kb_capslock_state. lia. }
    by rewrite Ek in Hr.
Defined.
