(* ===== verification/Main.v ===== *)
(** * Booting: [kernel_main] of [src/kernel/kernel.c]

    The start-up sequence puts the components together: terminal, segments,
    heap, file systems, disk, interrupts, paging, system calls, keyboard, and
    then the shell.  Loading the descriptor registers and turning paging on is
    assembly without effect on the modelled state. *)
From S2P Require Import Prelude Config Memory CString Heap KHeap Paging Terminal Gdt PathParser Disk Fat16 File Fat16Facts Lookup Open Elf Load Kernel Task Schedule Process ProcessMem ProcessEnd ProcessLoad Spawn Idt Keyboard Isr80h Syscalls.

(** [struct tss]: the two fields that are set. *)
Definition tss_esp0 : Z := 4.
Definition tss_ss0 : Z := 8.

Definition with_chunk (chunk : Z) (k : kernel) : kernel :=
  {| files := files k; paging := paging k; data_segment := data_segment k;
     kernel_chunk := chunk; current_task := current_task k; task_head := task_head k;
     task_tail := task_tail k; current_process := current_process k; processes := processes k;
     keyboard_list_head := keyboard_list_head k;
     keyboard_list_last := keyboard_list_last k; interrupt_callbacks := interrupt_callbacks k;
     isr80h_commnads := isr80h_commnads k |}.

Section main.
Context `{KAllocator} (mmu : mmu_type) (ops : Z -> option filesystem_ops).
(** The addresses of the globals [tss], [gdt_real], [idt_descriptors],
    [idtr_descriptor], [classic_keyboard], [fat16_fs], the disk object and the path
    literal; the local [process]; the kernel-stack words of the callees. *)
Context (tss gdt_real idt_descriptors idtr_descriptor classic_keyboard fat16_fs disk_obj shell_path : Z).
Context (process stat stack_process : Z) (fuel : nat).
(** The interrupt entry points. *)
Context (interrupt_pointer_table : Z -> Z) (int_0_handler isr80h_wrapper : Z).

(** [kheap_init] with its message; [heap0] is the static, all zero. *)
Definition init_heap : M kernel unit :=
  let! failed := on_kmem (fun m => let '(failed, _, m') := kheap_init {| table := {| entries := 0; total := 0 |}; saddr := 0 |} m in
                                   (failed, m')) in
  if (failed : bool) then on_files (on_terminal (print 30 (lit (codes "Failed to create heap" ++ [10])))) else ret tt.

(** Up to the file systems. *)
Definition init_early : M kernel unit :=
  on_files (on_terminal (modify terminal_initialize)) ;;;
  edit_kmem (memset gdt_real 0x00 (LIEBE_OS_TOTAL_GDT_SEGMENTS * sizeof_gdt)) ;;;
  on_files (on_terminal (gdt_structured_to_gdt gdt_real (kernel_segments tss))) ;;;
  init_heap ;;;
  on_files (fs_init fat16_fs).

(** From the interrupts to the keyboard. *)
Definition init_late : M kernel unit :=
  idt_init idt_descriptors idtr_descriptor interrupt_pointer_table int_0_handler isr80h_wrapper ;;;
  edit_kmem (memset tss 0x00 tss_size) ;;;
  kstore32 (tss + tss_esp0) 0x600000 ;;;
  kstore32 (tss + tss_ss0) KERNEL_DATA_SELECTOR ;;;
  let! chunk := on_kmem (create_new_page_directory
    (Z.lor (Z.lor PAGING_IS_WRITEABLE PAGING_IS_PRESENT) PAGING_ACCESS_FROM_ALL)) in
  modify (with_chunk chunk) ;;;
  let! directory := gets (fun k => get_page_directory_entry chunk (kmem k)) in
  switch_to directory ;;;
  isr80h_register_commands ;;;
  keyboard_init classic_keyboard ;;; ret tt.

Definition start_shell : M kernel registers :=
  kstore32 process 0 ;;;
  let! res := process_load_switch ops disk_obj stat stack_process fuel shell_path process in
  if negb (res =? 0) then kpanic (codes "Failed to load the shell! Panic")
  else task_run_first_ever_task mmu.

Definition kernel_main : M kernel registers :=
  init_early ;;;
  on_files (disk_search_and_init ops) ;;;
  init_late ;;;
  start_shell.

End main.

#[local] Strategy 1000 [for_loop memset terminal_initialize kheap_init idt_memory].

(** ** Lemmas *)

Definition kterm (k : kernel) : terminal :=
  {| video_mem := video (files k); terminal_row := row (files k); terminal_col := col (files k);
     memory := kmem k |}.
Definition with_term (t : terminal) (k : kernel) : kernel :=
  with_files {| core := with_mem (memory t) (core (files k)); filesystems := filesystems (files k);
    file_descriptors := file_descriptors (files k); video := video_mem t;
    row := terminal_row t; col := terminal_col t |} k.

Lemma on_term_Ret {A} (c : M terminal A) k a t :
  c (kterm k) = Ret a t -> on_files (on_terminal c) k = Ret a (with_term t k).
Proof. intros E. unfold on_files, on_terminal. fold (kmem k). fold (kterm k). by rewrite E. Qed.

(** The tables of the file layer. *)
Definition with_tables0 (fss fds : list Z) (k : kernel) : kernel :=
  with_files (with_filesystems fss (with_descriptors fds (files k))) k.

Lemma kmem_with_tables0 fss fds m k : kmem (with_tables0 fss fds (with_kmem m k)) = m.
Proof. reflexivity. Qed.

Lemma init_heap_eq k :
  exists m, init_heap k = Ret tt (with_kmem m k) /\
    heap_repr kernel_heap m (run_of_free (Z.to_nat 25600)) /\
    (forall a, ~ in_table kernel_heap a -> rd m a = rd (kmem k) a).
Proof.
  pose proof (kheap_init_ok {| table := {| entries := 0; total := 0 |}; saddr := 0 |} (kmem k)) as H.
  unfold init_heap, on_kmem, bind at 1. destruct (kheap_init _ (kmem k)) as [[failed h] m].
  destruct H as (-> & _ & Hr & Ho). by exists m.
Qed.

Lemma fs_init_eq fat16_fs k :
  on_files (fs_init fat16_fs) k =
    Ret tt (with_tables0 (fat16_fs :: replicate 11 0) (replicate 512 0)
      (with_kmem (store_bytes (kmem k) (fat16_fs + filesystem_name) (codes "FAT16")) k)).
Proof. reflexivity. Qed.

(** All of [init_early], step by step. *)
Lemma init_early_run tss gdt_real fat16_fs k : 0 <= tss < 4294967296 ->
  let t1 := terminal_initialize (kterm k) in
  let m1 := memset gdt_real 0 48 (memory t1) in
  exists m2 m3,
    init_early tss gdt_real fat16_fs k =
      Ret tt (with_tables0 (fat16_fs :: replicate 11 0) (replicate 512 0)
        (with_kmem (store_bytes m3 (fat16_fs + filesystem_name) (codes "FAT16")) (with_term t1 k))) /\
    (forall i e, kernel_segments tss !! i = Some e -> describes m2 (gdt_real + 8 * Z.of_nat i) e) /\
    (forall b, b < gdt_real \/ gdt_real + 48 <= b -> rd m2 b = rd m1 b) /\
    heap_repr kernel_heap m3 (run_of_free (Z.to_nat 25600)) /\
    (forall a, ~ in_table kernel_heap a -> rd m3 a = rd m2 a).
Proof.
  intros Htss t1 m1. unfold init_early.
  rewrite (bind_Ret _ _ _ tt (with_term t1 k)) by (apply on_term_Ret; reflexivity).
  rewrite (bind_Ret _ _ _ tt (with_kmem m1 (with_term t1 k))) by reflexivity.
  destruct (gdt_loop_spec (kernel_segments tss) gdt_real (kterm (with_kmem m1 (with_term t1 k))))
    as (m2 & E & Hd & Ho2).
  { unfold kernel_segments, tss_size. repeat constructor; cbn; try lia; discriminate. }
  rewrite (bind_Ret _ _ _ tt _ (on_term_Ret _ _ _ _ E)).
  set (k2 := with_term _ _). destruct (init_heap_eq k2) as (m3 & E3 & Hr & Ho3).
  rewrite (bind_Ret _ _ _ _ _ E3), fs_init_eq. exists m2, m3.
  split; [reflexivity|]. split; [exact Hd|]. split; [exact Ho2|]. split; [exact Hr|exact Ho3].
Qed.

(** *** The second stage *)

Definition apart (a n b m : Z) : Prop := a + n <= b \/ b + m <= a.

Section late.
Context `{KAllocator}.

(** Writes to the kernel's image concern neither the heap nor what it holds. *)
Lemma dir_owned_static m m' obj dir ts :
  heap_ok m -> dir_owned m obj dir ts -> (forall a, meta a \/ pool a -> rd m' a = rd m a) ->
  dir_owned m' obj dir ts /\ (forall a, space m dir a -> rd m' a = rd m a).
Proof.
  intros Hok Hd Hf. destruct (meta_frame m m' Hok) as (_ & Hlv & _); [intros a Ha; apply Hf; by left|].
  assert (Hb : forall p a, p ∈ obj :: dir :: ts -> p <= a < p + 4096 -> rd m' a = rd m a).
  { intros p a Hp Ha. apply Hf. right. apply (live_pool m p 4096); [by apply (Paging.do_live _ _ _ _ Hd)|done]. }
  assert (Hs : forall a, space m dir a -> rd m' a = rd m a).
  { intros a Ha. destruct (dir_owned_space _ _ _ _ _ Hd Ha) as (p & Hp & _ & Hr). by apply (Hb p). }
  split; [|done]. split; [apply Hd|apply Hd| |apply Hd| |].
  - intros p Hp. apply Hlv. by apply (Paging.do_live _ _ _ _ Hd).
  - rewrite <- (do_obj _ _ _ _ Hd). apply ld32_ext. intros i Hi. apply (Hb obj); [by left|lia].
  - intros i t Hi. rewrite (space_table m m' dir Hs); [by apply (do_tables _ _ _ _ Hd)|].
    apply lookup_lt_Some in Hi. rewrite (do_len _ _ _ _ Hd) in Hi. lia.
Qed.

(** The kernel's own address space is the identity. *)
Lemma create_identity_maps m n :
  heap_ok m -> room m (1026 + n) ->
  exists obj m' dir ts, create_new_page_directory 7 m = (obj, m') /\
    dir_owned m' obj dir ts /\ heap_ok m' /\ room m' n /\
    (forall v, 0 <= v < 4294967296 -> maps m' dir v v) /\
    (forall a, ~ meta a -> ~ pool a -> rd m' a = rd m a).
Proof.
  intros Hok Hr. destruct (create_spec m 7 n ltac:(lia) Hok Hr)
    as (obj & m' & dir & ts & E & Hd & Hok' & Hr' & Hlow & Hpte & _ & _ & Ho).
  exists obj, m', dir, ts. repeat (split; [done|]). split.
  - intros v Hv. destruct (lower_page v Hv) as [_ Hp]. pose proof (dir_owned_wf _ _ _ _ Hd) as Hw.
    pose proof (fun i => Z.land_spec i 4095 0) as Hl. split; [|split].
    + specialize (Hlow (v / 4194304) ltac:(dlia)). specialize (Hl (dir_entry m' dir (v / 4194304))).
      rewrite Hlow in Hl. change (Z.testbit (Z.lor 7 2) 0) with true in Hl.
      symmetry in Hl. by apply andb_true_iff in Hl as [? _].
    + rewrite Hpte by done. rewrite Z.lor_spec. apply orb_true_r.
    + rewrite translate_pte, Hpte, land_page_lor by (done || lia). rewrite u32_id by lia. lia.
  - intros a Ha Hna. apply Ho; [done|]. intros p Hp. destruct (decide (p <= a < p + 4096)); [|lia].
    exfalso. apply Hna. apply (live_pool m' p 4096); [by apply (Paging.do_live _ _ _ _ Hd)|done].
Qed.

(** The first keyboard. *)
Lemma keyboard_init_run ck k : ld32 (kmem k) (ck + kb_init) <> 0 -> keyboard_list_last k = 0 ->
  keyboard_init ck k = Ret 0 (with_kmem (st32 (kmem k) (ck + kb_capslock_state) KEYBOARD_CAPS_LOCK_OFF)
    (with_callbacks (<[Z.to_nat 0x21 := Some cb_keyboard]> (interrupt_callbacks k))
      (with_keyboards ck ck k))).
Proof.
  intros Hi Hl. unfold keyboard_init, keyboard_insert, classic_init.
  rewrite (bind_Ret _ _ _ (ld32 (kmem k) (ck + kb_init)) k) by reflexivity.
  rewrite (proj2 (Z.eqb_neq _ 0)) by done.
  rewrite (bind_Ret _ _ _ 0 k) by (unfold gets; by rewrite Hl). cbn [Z.eqb negb].
  rewrite (bind_Ret _ _ _ tt (with_keyboards ck ck k)) by reflexivity.
  unfold classic_keyboard_init. by rewrite (bind_Ret _ _ _ _ _ (register_callback_eq 0x21 cb_keyboard _ ltac:(lia))).
Qed.

(** The table of callbacks when booting is over. *)
Definition booted_callbacks (old l : list (option callback)) : Prop :=
  forall n, 0 <= n < 512 -> l !! Z.to_nat n =
    if n <? 0x20 then Some (Some cb_exception) else if n =? 0x20 then Some (Some cb_clock)
    else if n =? 0x21 then Some (Some cb_keyboard) else old !! Z.to_nat n.

(** The fields of the task-state segment. *)
Definition tss_memory (tss : Z) (m : mem) : mem :=
  st32 (st32 (memset tss 0 tss_size m) (tss + tss_esp0) 0x600000) (tss + tss_ss0) KERNEL_DATA_SELECTOR.

Lemma tss_steps {A} tss (c : M kernel A) k :
  (edit_kmem (memset tss 0x00 tss_size) ;;; kstore32 (tss + tss_esp0) 0x600000 ;;;
   kstore32 (tss + tss_ss0) KERNEL_DATA_SELECTOR ;;; c) k = c (with_kmem (tss_memory tss (kmem k)) k).
Proof. unfold tss_memory. set (clear := memset tss 0 tss_size). clearbody clear. reflexivity. Qed.

Lemma booted_tables old l : length l = 512%nat ->
  (forall j, 0 <= j < 512 -> l !! Z.to_nat j =
     if decide (0 <= j < 0 + Z.of_nat (Z.to_nat 0x20)) then Some (Some cb_exception) else old !! Z.to_nat j) ->
  booted_callbacks old (<[Z.to_nat 0x21 := Some cb_keyboard]> (<[Z.to_nat 0x20 := Some cb_clock]> l)).
Proof.
  intros Hll Hl j Hj. specialize (Hl j Hj). destruct (decide (j = 0x21)) as [->|Hne].
  { apply list_lookup_insert_eq. rewrite length_insert, Hll. lia. }
  rewrite list_lookup_insert_ne by lia. destruct (decide (j = 0x20)) as [->|Hne'].
  { apply list_lookup_insert_eq. rewrite Hll. lia. }
  rewrite list_lookup_insert_ne, Hl by lia. rewrite (proj2 (Z.eqb_neq j 0x20)), (proj2 (Z.eqb_neq j 0x21)) by done.
  destruct (Z.ltb_spec j 0x20); case_decide; (done || lia).
Qed.

(** All of [init_late]; [m1] is the memory when the page tables are made. *)
Lemma init_late_run tss idt idtr ck table h0 h80 k n :
  length (interrupt_callbacks k) = 512%nat -> isr80h_commnads k = replicate (Z.to_nat 1024) None ->
  keyboard_list_last k = 0 ->
  let m1 := tss_memory tss (idt_memory idt idtr table h0 h80 (kmem k)) in
  heap_ok m1 -> room m1 (1026 + n) ->
  ld32 m1 (ck + kb_init) <> 0 ->
  (forall a, ck + kb_init <= a < ck + kb_init + 4 -> ~ meta a /\ ~ pool a) ->
  exists m2 dir ts l k', init_late tss idt idtr ck table h0 h80 k = Ret tt k' /\
    kmem k' = st32 m2 (ck + kb_capslock_state) KEYBOARD_CAPS_LOCK_OFF /\
    dir_owned m2 (kernel_chunk k') dir ts /\ cr3 (paging k') = dir /\ heap_ok m2 /\ room m2 n /\
    (forall v, 0 <= v < 4294967296 -> maps m2 dir v v) /\
    (forall a, ~ meta a -> ~ pool a -> rd m2 a = rd m1 a) /\
    interrupt_callbacks k' = l /\ booted_callbacks (interrupt_callbacks k) l /\
    isr80h_commnads k' = all_commands /\ keyboard_list_head k' = ck /\ keyboard_list_last k' = ck.
Proof.
  intros Hlen Hcmd Hlast m1 Hok Hroom Hinit Hst. unfold init_late.
  set (m0 := idt_memory idt idtr table h0 h80 (kmem k)) in *.
  destruct (register_exceptions_spec (Z.to_nat 0x20) 0 (with_kmem m0 k)) as (l & E & Hll & Hl); [lia|lia|done|].
  set (l' := <[Z.to_nat 0x20 := Some cb_clock]> l).
  rewrite (bind_Ret _ _ _ tt (with_callbacks l' (with_kmem m0 k))).
  2:{ rewrite idt_init_run. fold m0. rewrite (bind_Ret _ _ _ _ _ E).
      by rewrite (bind_Ret _ _ _ _ _ (register_callback_eq 0x20 cb_clock _ ltac:(lia))). }
  rewrite tss_steps. change (kmem (with_callbacks l' (with_kmem m0 k))) with m0. fold m1.
  clearbody m1. set (k1 := with_kmem m1 (with_callbacks l' (with_kmem m0 k))).
  destruct (create_identity_maps m1 n Hok Hroom) as (obj & m2 & dir & ts & Ec & Hd & Hok2 & Hr2 & Hmaps & Ho).
  change (Z.lor (Z.lor _ _) _) with 7.
  rewrite (bind_Ret _ _ _ obj (with_kmem m2 k1)) by (unfold on_kmem; change (kmem k1) with m1; by rewrite Ec).
  rewrite (bind_Ret _ _ _ tt (with_chunk obj (with_kmem m2 k1))) by reflexivity.
  rewrite (bind_Ret _ _ _ dir (with_chunk obj (with_kmem m2 k1))).
  2:{ unfold gets. f_equal. change (kmem (with_chunk obj (with_kmem m2 k1))) with m2.
      unfold get_page_directory_entry, directory_entry_offset. rewrite Z.add_0_r. apply (do_obj _ _ _ _ Hd). }
  set (k2 := with_cpu (page_switch dir (paging k1)) (data_segment k1) (with_chunk obj (with_kmem m2 k1))).
  rewrite (bind_Ret _ _ _ tt k2) by reflexivity.
  rewrite (bind_Ret _ _ _ tt (with_commands all_commands k2)) by (apply register_all; exact Hcmd).
  rewrite (bind_Ret _ _ _ _ _ (keyboard_init_run ck (with_commands all_commands k2)
    ltac:(change (kmem _) with m2; rewrite (ld32_ext m1 m2 (ck + kb_init)); [exact Hinit|intros i Hi; apply Ho; apply Hst; lia])
    Hlast)).
  assert (Hbooted : booted_callbacks (interrupt_callbacks k) (<[Z.to_nat 0x21 := Some cb_keyboard]> l'))
    by (by apply booted_tables).
  exists m2, dir, ts. do 2 eexists. split; [reflexivity|]. split; [reflexivity|]. split; [exact Hd|].
  split; [reflexivity|]. split; [exact Hok2|]. split; [exact Hr2|]. split; [exact Hmaps|]. split; [exact Ho|].
  split; [reflexivity|]. split; [exact Hbooted|]. split; [reflexivity|]. split; reflexivity.
Qed.

End late.

Lemma tss_memory_spec tss m :
  ld32 (tss_memory tss m) (tss + tss_esp0) = 0x600000 /\
  ld32 (tss_memory tss m) (tss + tss_ss0) = KERNEL_DATA_SELECTOR /\
  (forall a, a < tss \/ tss + 104 <= a -> rd (tss_memory tss m) a = rd m a).
Proof.
  unfold tss_memory, tss_esp0, tss_ss0. set (m0 := memset tss 0 tss_size m).
  assert (Ho : forall a, a < tss \/ tss + 104 <= a -> rd m0 a = rd m a) by (intros; by apply rd_memset_out).
  clearbody m0. split; [|split].
  - rewrite ld32_st32_ne, ld32_st32_eq by lia. reflexivity.
  - rewrite ld32_st32_eq. reflexivity.
  - intros a Ha. rewrite !rd_st32_ne by lia. by apply Ho.
Qed.

(** The globals the second stage fills. *)
Definition boot_globals (idt idtr tss ck a : Z) : Prop :=
  idt <= a < idt + 4096 \/ idtr <= a < idtr + 6 \/ tss <= a < tss + 104 \/
  ck <= a < ck + kb_capslock_state + 4.

(** Both structures, before the page tables are made. *)
Lemma boot_tables_spec tss idt idtr table h0 h80 m :
  (forall i, 0 <= i < 512 -> 0 <= table i < 4294967296) -> 0 <= h0 < 4294967296 -> 0 <= h80 < 4294967296 ->
  0 <= idt < 4294967296 -> apart idtr 6 idt 4096 -> apart tss 104 idt 4096 -> apart tss 104 idtr 6 ->
  let m1 := tss_memory tss (idt_memory idt idtr table h0 h80 m) in
  (forall i, 0 <= i < 512 -> gate m1 idt i =
     (if i =? 0 then h0 else if i =? 0x80 then h80 else table i, KERNEL_CODE_SELECTOR, 0xEE)) /\
  ld16 m1 (idtr + idtr_limit) = 4095 /\ ld32 m1 (idtr + idtr_base) = idt /\
  ld32 m1 (tss + tss_esp0) = 0x600000 /\ ld32 m1 (tss + tss_ss0) = KERNEL_DATA_SELECTOR /\
  (forall a, ~ (idt <= a < idt + 4096 \/ idtr <= a < idtr + 6 \/ tss <= a < tss + 104) -> rd m1 a = rd m a).
Proof.
  unfold apart. intros Ht H0 H80 Hidt A1 A2 A3.
  destruct (idt_memory_spec idt idtr table h0 h80 m Ht H0 H80 Hidt A1) as (Hg & Hli & Hba & Ho0).
  destruct (tss_memory_spec tss (idt_memory idt idtr table h0 h80 m)) as (He & Hs & Ho1).
  set (m0 := idt_memory idt idtr table h0 h80 m) in *. clearbody m0. cbv zeta.
  split; [|split; [|split; [|split; [exact He|split; [exact Hs|]]]]].
  - intros i Hi. rewrite <- (Hg i Hi). apply gate_ext. intros a Ha. apply Ho1. lia.
  - rewrite <- Hli. unfold ld16, idtr_limit. rewrite !Ho1 by lia. reflexivity.
  - rewrite <- Hba. apply ld32_ext. unfold idtr_base. intros i Hi. apply Ho1. lia.
  - intros a Ha. rewrite Ho1, Ho0 by lia. reflexivity.
Qed.

(** ** Properties *)

(** C21. The first stage of booting, from any state of the machine: the screen
    is blank with the cursor at home, the six segment descriptors say what
    [kernel.c] lists, the heap is well formed, empty and in one piece of 25600
    blocks, FAT16 is the one file system and no file is open; nothing else in
    memory changes.  The globals lie in the kernel's image, above 1 MB. *)
Theorem init_early_ready tss gdt_real fat16_fs k :
  0 <= tss < 4294967296 -> 0x100000 <= gdt_real -> 0x100000 <= fat16_fs ->
  gdt_real + 48 <= fat16_fs + filesystem_name \/ fat16_fs + filesystem_name + 5 <= gdt_real ->
  exists k', init_early tss gdt_real fat16_fs k = Ret tt k' /\
    video (files k') = 0xB8000 /\ cursor (shows (kterm k')) = 0 /\
    (forall p, 0 <= p < 1600 -> cell (shows (kterm k')) p = 0x20) /\
    (forall i e, kernel_segments tss !! i = Some e -> describes (kmem k') (gdt_real + 8 * Z.of_nat i) e) /\
    heap_ok (kmem k') /\ room (kmem k') (Z.to_nat 25600) /\ (forall p s, ~ live (kmem k') p s) /\
    filesystems (files k') = fat16_fs :: replicate 11 0 /\ file_descriptors (files k') = replicate 512 0 /\
    bytes (kmem k') (fat16_fs + filesystem_name) 5 = codes "FAT16" /\
    (forall a, a < 0xB8000 \/ 0xB8C80 <= a -> ~ meta a -> a < gdt_real \/ gdt_real + 48 <= a ->
       a < fat16_fs + filesystem_name \/ fat16_fs + filesystem_name + 5 <= a -> rd (kmem k') a = rd (kmem k) a).
Proof.
  intros Htss Hg Hfs Hap. destruct (init_early_run tss gdt_real fat16_fs k Htss) as (m2 & m3 & E & Hd & Ho2 & Hr & Ho3).
  eexists. split; [exact E|]. clear E. rewrite kmem_with_tables0.
  set (name := fat16_fs + filesystem_name) in *. assert (Hname : 0x100000 <= name) by (unfold name, filesystem_name; lia).
  pose proof (terminal_initialize_clears (kterm k)) as Hc. cbn zeta in Hc.
  set (t1 := terminal_initialize (kterm k)) in *. clearbody t1.
  destruct Hc as (Hcur & Hvid & Hcell & Hot). set (m1 := memset gdt_real 0 48 (memory t1)) in *.
  assert (Ho1 : forall a, a < gdt_real \/ gdt_real + 48 <= a -> rd m1 a = rd (memory t1) a)
    by (intros; by apply rd_memset_out). clearbody m1.
  set (m4 := store_bytes m3 name (codes "FAT16")).
  assert (Ho4 : forall a, a < name \/ name + 5 <= a -> rd m4 a = rd m3 a)
    by (intros; by apply rd_store_bytes_out).
  assert (Hnt : forall a, in_table kernel_heap a -> 0x7E00 <= a < 0xE200) by (intros a Ha; exact Ha).
  assert (Hnt' : forall a, a < 0x7E00 \/ 0xE200 <= a -> ~ in_table kernel_heap a) by (intros a Ha Hin; apply Hnt in Hin; lia).
  assert (Hr4 : heap_repr kernel_heap m4 (run_of_free (Z.to_nat 25600)))
    by (apply (heap_repr_frame _ m3); [done|]; intros a Ha%Hnt; apply Ho4; lia).
  split; [exact Hvid|]. split; [exact Hcur|]. split.
  { intros p Hp. specialize (Hcell p). rewrite (proj2 (Z.leb_le 0 p)), (proj2 (Z.ltb_lt p 1600)) in Hcell by lia.
    etransitivity; [|exact Hcell]. cbn [shows cell]. change (video_mem (kterm _)) with (video_mem t1).
    rewrite Hvid. unfold ld16, kterm. cbn [memory]. rewrite kmem_with_tables0. fold m4.
    rewrite !Ho4, !Ho3, !Ho2, !Ho1 by (lia || apply Hnt'; lia). reflexivity. }
  split; [|split; [|split; [|split; [|split; [|split; [|split]]]]]].
  - intros i e Hi. apply (describes_frame m2); [|by apply Hd]. apply lookup_lt_Some in Hi. cbn [kernel_segments length] in Hi.
    intros b Hb. rewrite Ho4 by lia. apply Ho3, Hnt'. lia.
  - by eexists.
  - exists [], []. by rewrite app_nil_r.
  - intros p s (cs & n & Hr' & Hin & _). rewrite <- (heap_repr_inj _ _ _ _ Hr4 Hr') in Hin.
    destruct (live_of_split _ _ _ _ Hin) as (pre & j & post & Hs & _).
    assert (Hx : CUsed j ∈ run_of_free (Z.to_nat 25600)) by (rewrite Hs; apply elem_of_app; right; by left).
    by apply elem_of_replicate in Hx as [? _].
  - reflexivity.
  - reflexivity.
  - apply bytes_store_bytes. repeat constructor; lia.
  - intros a Ha1 Ha2 Ha3 Ha4. rewrite Ho4, Ho3, Ho2, Ho1, Hot by (done || lia). reflexivity.
Qed.

(** C20. The second stage of booting: with room for the page tables and the
    globals in the kernel's image, apart from each other and from the heap,
    it returns with every interrupt gate set, the kernel's stack in the
    task-state segment, the processor on a directory that maps each of the
    2^32 addresses to itself, the callbacks of the exceptions, clock and
    keyboard and all ten system calls registered, and the keyboard in the list with
    caps lock off; the heap stays well formed, and outside the heap only those
    globals change. *)
Theorem init_late_ready `{KAllocator} tss idt idtr ck table h0 h80 k n :
  length (interrupt_callbacks k) = 512%nat -> isr80h_commnads k = replicate (Z.to_nat 1024) None ->
  keyboard_list_last k = 0 -> heap_ok (kmem k) -> room (kmem k) (1026 + n) ->
  (forall i, 0 <= i < 512 -> 0 <= table i < 4294967296) -> 0 <= h0 < 4294967296 -> 0 <= h80 < 4294967296 ->
  0 <= idt < 4294967296 ->
  apart idtr 6 idt 4096 -> apart tss 104 idt 4096 -> apart tss 104 idtr 6 ->
  apart ck 32 idt 4096 -> apart ck 32 idtr 6 -> apart ck 32 tss 104 ->
  (forall a, boot_globals idt idtr tss ck a -> ~ meta a /\ ~ pool a) ->
  ld32 (kmem k) (ck + kb_init) <> 0 ->
  exists k' dir ts, init_late tss idt idtr ck table h0 h80 k = Ret tt k' /\
    (forall i, 0 <= i < 512 -> gate (kmem k') idt i =
       (if i =? 0 then h0 else if i =? 0x80 then h80 else table i, KERNEL_CODE_SELECTOR, 0xEE)) /\
    ld16 (kmem k') (idtr + idtr_limit) = 4095 /\ ld32 (kmem k') (idtr + idtr_base) = idt /\
    ld32 (kmem k') (tss + tss_esp0) = 0x600000 /\ ld32 (kmem k') (tss + tss_ss0) = KERNEL_DATA_SELECTOR /\
    dir_owned (kmem k') (kernel_chunk k') dir ts /\ cr3 (paging k') = dir /\
    (forall v, 0 <= v < 4294967296 -> maps (kmem k') dir v v) /\
    booted_callbacks (interrupt_callbacks k) (interrupt_callbacks k') /\ isr80h_commnads k' = all_commands /\
    keyboard_list_head k' = ck /\ keyboard_list_last k' = ck /\
    keyboard_get_capslock ck (kmem k') = KEYBOARD_CAPS_LOCK_OFF /\
    heap_ok (kmem k') /\ room (kmem k') n /\
    (forall a, ~ meta a -> ~ pool a -> ~ boot_globals idt idtr tss ck a -> rd (kmem k') a = rd (kmem k) a).
Proof.
  unfold apart, boot_globals, kb_init, kb_capslock_state.
  intros Hlen Hcmd Hlast Hok Hroom Ht H0 H80 Hidt A1 A2 A3 A4 A5 A6 Hst Hinit.
  destruct (boot_tables_spec tss idt idtr table h0 h80 (kmem k) Ht H0 H80 Hidt A1 A2 A3)
    as (Hg & Hli & Hba & He & Hs & Hrd1).
  assert (Hst3 : forall a, idt <= a < idt + 4096 \/ idtr <= a < idtr + 6 \/ tss <= a < tss + 104 -> ~ meta a /\ ~ pool a)
    by (intros a Ha; apply Hst; clear -Ha; tauto).
  pose proof (init_late_run tss idt idtr ck table h0 h80 k n Hlen Hcmd Hlast) as Hrun. cbv zeta in Hrun.
  set (m1 := tss_memory tss _) in *. clearbody m1.
  destruct (meta_frame (kmem k) m1 Hok) as (Hok1 & _ & Hr1).
  { intros a Ha. apply Hrd1. intros Hin. by destruct (Hst3 a Hin). }
  destruct Hrun as (m2 & dir & ts & l & k' & E & Ek & Hd & Hcr & Hok2 & Hr2 & Hmaps & Ho2 & Hcb & Hbooted & Hcom & Hh & Hla).
  { exact Hok1. } { by apply Hr1. }
  { unfold kb_init. rewrite (ld32_ext (kmem k) m1 (ck + 0)); [exact Hinit|]. intros i Hi. apply Hrd1. lia. }
  { unfold kb_init. intros a Ha. apply Hst. lia. }
  unfold kb_capslock_state in *. set (m3 := st32 m2 (ck + 28) KEYBOARD_CAPS_LOCK_OFF) in *.
  assert (Ho3 : forall a, ~ (ck + 28 <= a < ck + 32) -> rd m3 a = rd m2 a)
    by (intros a Ha; apply rd_st32_ne; lia).
  assert (Hcaps : keyboard_get_capslock ck m3 = KEYBOARD_CAPS_LOCK_OFF)
    by (unfold keyboard_get_capslock, m3, kb_capslock_state; by rewrite ld32_st32_eq).
  clearbody m3.
  assert (Hheap : forall a, meta a \/ pool a -> rd m3 a = rd m2 a).
  { intros a Ha. apply Ho3. intros Hin. destruct (Hst a) as [? ?]; [clear -Hin; lia|by destruct Ha]. }
  destruct (meta_frame m2 m3 Hok2) as (Hok3 & _ & Hr3); [intros a Ha; apply Hheap; by left|].
  destruct (dir_owned_static m2 m3 _ dir ts Hok2 Hd Hheap) as [Hd3 Hs3].
  assert (Hkeep : forall a, idt <= a < idt + 4096 \/ idtr <= a < idtr + 6 \/ tss <= a < tss + 104 -> rd m3 a = rd m1 a).
  { intros a Ha. rewrite Ho3 by lia. destruct (Hst3 a Ha). by apply Ho2. }
  exists k', dir, ts. split; [exact E|]. rewrite Ek. clear E.
  split; [|split; [|split; [|split; [|split]]]].
  - intros i Hi. rewrite <- (Hg i Hi). apply gate_ext. intros a Ha. apply Hkeep. lia.
  - rewrite <- Hli. unfold ld16, idtr_limit. rewrite !Hkeep by lia. reflexivity.
  - rewrite <- Hba. apply ld32_ext. unfold idtr_base. intros i Hi. apply Hkeep. lia.
  - rewrite <- He. apply ld32_ext. unfold tss_esp0. intros i Hi. apply Hkeep. lia.
  - rewrite <- Hs. apply ld32_ext. unfold tss_ss0. intros i Hi. apply Hkeep. lia.
  - split; [exact Hd3|]. split; [exact Hcr|]. split.
    { intros v Hv. apply (space_maps m2 m3 dir Hs3); [by apply (dir_owned_wf m2 (kernel_chunk k') dir ts)|exact Hv|by apply Hmaps]. }
    rewrite Hcb. split; [exact Hbooted|]. split; [exact Hcom|]. split; [exact Hh|]. split; [exact Hla|].
    split; [exact Hcaps|]. split; [exact Hok3|]. split; [by apply Hr3|].
    intros a Ha1 Ha2 Ha3. rewrite Ho3, Ho2, Hrd1 by (assumption || lia). reflexivity.
Qed.

(** When the shell cannot be loaded the kernel panics. *)
Theorem start_shell_panics `{KAllocator} mmu ops disk_obj shell_path process stat stack_process fuel k res k1 :
  process_load_switch ops disk_obj stat stack_process fuel shell_path process
    (with_kmem (st32 (kmem k) process 0) k) = Ret res k1 -> res <> 0 ->
  exists k2, start_shell mmu ops disk_obj shell_path process stat stack_process fuel k = Hang k2.
Proof.
  intros E Hr. unfold start_shell.
  rewrite (bind_Ret _ _ _ tt (with_kmem (st32 (kmem k) process 0) k)) by reflexivity.
  rewrite (bind_Ret _ _ _ _ _ E), (proj2 (Z.eqb_neq res 0)) by done. by apply kpanic_hangs.
Qed.

(** C2. Booting ends in the shell: when the kernel has no task yet, the program
    at [shell_path] can be started ([startable], the conditions of C1: a file
    of at least 52 bytes on the mounted volume, directories that end within
    their first sector, usable links, clusters below 2 GB, a free descriptor,
    slot and blocks) and its pages and stack are apart from the kernel's heap,
    [start_shell] leaves for user mode at the entry point of that file, with
    the user's segments and the top of the stack, in the address space that
    shows the program's bytes, and the program is the current process and the
    current task. *)
Theorem start_shell_runs `{KAllocator} mmu ops fat16_fs disk_obj dev poll_fuel image stack_item pfuel fuel rfuel pf
    root shell_path name rest e size i stat stack_process process slot k :
  mmu_ok mmu -> drive_ok dev poll_fuel image -> (16 < fuel)%nat -> (0 < rfuel)%nat ->
  ops fat16_fs = Some (fat16_ops dev poll_fuel fat16_fs stack_item pfuel fuel rfuel) -> 0 < fat16_fs < 4294967296 ->
  startable fat16_fs image pfuel rfuel pf root k shell_path name rest e size i stat process slot [] ->
  let l := program_bytes image (files k) e in program_apart l ->
  exists r k1 p t chunk dir h st ts im,
    start_shell mmu ops disk_obj shell_path process stat stack_process pf k =
      Ret r (Schedule.resumed t dir (with_processes p (processes k1) k1)) /\
    ip r = entry_point l /\ esp r = LIEBE_OS_PROGRAM_VIRTUAL_STACK_ADDRESS_START /\
    cs r = USER_CODE_SEGMENT /\ ss r = USER_DATA_SEGMENT /\
    started (load_locals stat process) (with_kmem (st32 (kmem k) process 0) k) k1 slot process name l [] p t chunk dir h st ts im.
Proof.
  intros Hmmu Hdrive Hfuel Hrfuel Hops Hfs Hready l Hap.
  destruct (startable_pointer fat16_fs image pfuel rfuel pf root k shell_path name rest e size i stat process slot [] 0 Hready)
    as [Hready' El]. set (k0 := with_kmem (st32 (kmem k) process 0) k) in *.
  destruct (process_load_run ops fat16_fs disk_obj dev poll_fuel image stack_item pfuel fuel rfuel pf Hdrive Hfuel Hrfuel Hops Hfs
    root shell_path name rest e size i stat stack_process process slot k0 [] Hready') as (k1 & p & t & chunk & dir & h & st & ts & im & E & Hst & _).
  rewrite El in Hst. fold l in Hst. pose proof (started_resumable _ _ _ _ _ _ _ _ _ _ _ _ _ _ _ _ Hst Hap) as Hres.
  set (k2 := with_processes p (processes k1) k1).
  assert (Ecur : current_task k1 = t /\ task_head k1 = t) by (rewrite (sd_kernel Hst); done).
  destruct Ecur as [Ecur Ehd]. pose proof (sd_task Hst) as [T1 T2 T3 T4 _].
  exists (saved_state (kmem k1) t), k1, p, t, chunk, dir, h, st, ts, im. split; [|by split; [|split; [|split; [|split]]]].
  unfold start_shell. rewrite (bind_Ret _ _ _ tt k0) by reflexivity.
  rewrite (bind_Ret _ _ _ 0 k2).
  2:{ unfold process_load_switch. rewrite (bind_Ret _ _ _ _ _ E). change (0 =? 0) with true. cbv iota.
      unfold bind, kload32, gets, process_switch, modify, ret. by rewrite (sd_pointer Hst). }
  change (negb (0 =? 0)) with false. cbv iota. unfold task_run_first_ever_task.
  rewrite (bind_Ret _ _ _ t k2) by (unfold gets; by rewrite <- Ecur).
  assert (Ht : t <> 0).
  { destruct Hres as (c & x & Hsp & _). pose proof (live_block _ _ _ (sp_live _ _ _ _ _ Hsp)). lia. }
  destruct (Z.eqb_spec t 0); [done|]. rewrite (bind_Ret _ _ _ t k2) by (unfold gets; by rewrite <- Ehd).
  by apply (switch_return mmu Hmmu t dir k2).
Qed.

(** ** Witnesses *)

Lemma init_early_ready_witness : exists k',
  init_early 0x110000 0x111000 0x112000 (small_kernel ∅ 0) = Ret tt k' /\
  seg_access (kmem k') (0x111000 + 8 * Z.of_nat 3) = 0xf8 /\ room (kmem k') (Z.to_nat 25600).
Proof.
  destruct (init_early_ready 0x110000 0x111000 0x112000 (small_kernel ∅ 0))
    as (k' & E & _ & _ & _ & Hd & _ & Hr & _); [lia|lia|lia|unfold filesystem_name; lia|].
  exists k'. split; [exact E|]. split; [|exact Hr].
  by destruct (Hd 3%nat {| base := 0; limit := 0xffffffff; type := 0xf8 |} eq_refl) as (_ & _ & ? & _).
Defined.

(** The kernel's image below the heap; the keyboard's constructor is set. *)
Lemma init_late_ready_witness : exists k' dir ts,
  init_late 0x110000 0x111000 0x112000 0x113000 (fun i => 0x100000 + 16 * i) 0x105000 0x105100
    (small_kernel (st32 ∅ 0x113000 0x106000) 0) = Ret tt k' /\
  dir_owned (kmem k') (kernel_chunk k') dir ts /\ maps (kmem k') dir 0xFFFFFFFF 0xFFFFFFFF.
Proof.
  set (m := st32 ∅ 0x113000 0x106000).
  destruct (kheap_frame ∅ m) as (Hok & _ & Hroom); [|exact kernel_empty_ok|].
  { intros a Ha. apply kernel_meta_pool in Ha as Ha'. change (saddr kernel_heap) with 0x1000000 in Ha'.
    unfold m. apply rd_st32_ne. change (0x7E00 <= a < 0x7E00 + 25600) in Ha. lia. }
  destruct (init_late_ready 0x110000 0x111000 0x112000 0x113000 (fun i => 0x100000 + 16 * i) 0x105000 0x105100
    (small_kernel m 0) 0) as (k' & dir & ts & E & _ & _ & _ & _ & _ & Hd & _ & Hm & _);
    try (unfold apart; lia); try reflexivity.
  - exact Hok.
  - apply Hroom, kernel_empty_room. lia.
  - intros a Ha. unfold boot_globals, kb_capslock_state in Ha. split; intros Hin.
    + change (0x7E00 <= a < 0x7E00 + 25600) in Hin. lia.
    + change (0x1000000 <= a) in Hin. lia.
  - rewrite kmem_small. unfold m, kb_init. rewrite ld32_st32_eq. discriminate.
  - exists k', dir, ts. split; [exact E|]. split; [exact Hd|]. apply Hm. lia.
Defined.

Lemma flat_apart l : is_elf l = false -> page_end (Z.of_nat (length l)) = 4096 -> program_apart l.
Proof.
  intros E Ep w Hw Hp. unfold program_covers in Hw. rewrite E, Ep in Hw.
  change (saddr kernel_heap <= w) in Hp. change (saddr kernel_heap) with 0x01000000 in Hp. destruct Hw as [Hw|Hw].
  - unfold in_stack in Hw. apply andb_prop in Hw as [_ Hw%Z.ltb_lt].
    change LIEBE_OS_PROGRAM_VIRTUAL_STACK_ADDRESS_START with 4190208 in Hw. lia.
  - unfold LIEBE_OS_PROGRAM_VIRTUAL_ADDRESS in Hw. lia.
Qed.

Lemma tree_apart : program_apart (program_bytes tree_image (files tree_kernel) b_file).
Proof. apply flat_apart; vm_compute; exact eq_refl. Qed.

Lemma start_shell_runs_witness : exists r k1 p t chunk dir h st ts im,
  start_shell walk tree_ops 0x2000 0x5200 0x10010 0x10000 0 10 tree_kernel =
    Ret r (Schedule.resumed t dir (with_processes p (processes k1) k1)) /\
  ip r = entry_point (program_bytes tree_image (files tree_kernel) b_file) /\ esp r = LIEBE_OS_PROGRAM_VIRTUAL_STACK_ADDRESS_START /\
  cs r = USER_CODE_SEGMENT /\ ss r = USER_DATA_SEGMENT /\
  started (load_locals 0x10000 0x10010) (with_kmem (st32 (kmem tree_kernel) 0x10010 0) tree_kernel) k1 0 0x10010 tree_name
    (program_bytes tree_image (files tree_kernel) b_file) [] p t chunk dir h st ts im.
Proof.
  exact (start_shell_runs walk tree_ops 1 0x2000 tree_drive 1 tree_image [] 2 17 2 10 [subdir_entry; hello_file] 0x5200
    tree_name tree_rest b_file 700 0 0x10000 0 0x10010 0 tree_kernel walk_ok tree_drive_ok ltac:(lia) ltac:(lia) eq_refl ltac:(lia)
    tree_startable tree_apart).
Defined.
