(* ===== verification/UserLib.v ===== *)
(** * The user library: [src/programs/stdlib/src], and the programs over it

    The C library the programs link with: [itoa], [printf], [strtok], the
    line editor, the command parser and [system_run]; and the programs
    [shell], [echo] and [blank].  They run in user land: their memory is the
    program's own, and they reach the kernel only by system calls, whose stubs
    ([liebeos.asm]) are the operations of the class [SysCalls].  The class
    states what a call promises to its caller; the programs' theorems use
    nothing else about the kernel. *)
From S2P Require Import Prelude Memory CString.

(** ** The system calls *)

(** The kernel as a program sees it: [K] is the rest of the machine.  [shown]
    is what was written to the screen, [arrivals] what successive calls for a
    key will return, [mine] the addresses the program may use. *)
Class SysCalls (K : Type) : Type := {
  sys_print : Z -> mem -> K -> K;
  sys_getkey : K -> Z * K;
  sys_putchar : Z -> K -> K;
  sys_malloc : Z -> mem -> K -> Z * mem * K;
  sys_free : Z -> mem -> K -> mem * K;
  sys_system : Z -> mem -> K -> Z * mem * K;
  sys_get_arguments : Z -> mem -> K -> mem * K;
  shown : K -> list Z;
  arrivals : K -> list Z;
  mine : K -> Z -> Prop;
  print_shows p l m k : cstr (at_mem m p) l -> (length l < 1024)%nat ->
    shown (sys_print p m k) = shown k ++ l;
  print_keeps p m k : arrivals (sys_print p m k) = arrivals k /\
    (forall a, mine (sys_print p m k) a <-> mine k a);
  putchar_shows c k : shown (sys_putchar c k) = shown k ++ [c];
  putchar_keeps c k : arrivals (sys_putchar c k) = arrivals k /\
    (forall a, mine (sys_putchar c k) a <-> mine k a);
  getkey_takes k : (sys_getkey k).1 = default 0 (head (arrivals k)) /\
    arrivals (sys_getkey k).2 = tail (arrivals k) /\ shown (sys_getkey k).2 = shown k /\
    (forall a, mine (sys_getkey k).2 a <-> mine k a);
  malloc_fresh size m k p m' k' : 0 < size -> sys_malloc size m k = (p, m', k') ->
    (p = 0 \/ 0 < p /\ p + size <= 4294967296 /\ forall a, p <= a < p + size -> ~ mine k a /\ mine k' a) /\
    (forall a, mine k a -> mine k' a /\ rd m' a = rd m a) /\
    shown k' = shown k /\ arrivals k' = arrivals k }.

(** ** The state of a program *)

(** Its memory, [strtok]'s globals and the rest of the machine. *)
Record user (K : Type) : Type := {
  umem : mem;
  strtok_sp : Z;
  single_quote_started : bool;
  double_quote_started : bool;
  sys : K }.
Arguments umem {K} u.
Arguments strtok_sp {K} u.
Arguments single_quote_started {K} u.
Arguments double_quote_started {K} u.
Arguments sys {K} u.

Definition with_umem {K} (m : mem) (u : user K) : user K :=
  {| umem := m; strtok_sp := strtok_sp u; single_quote_started := single_quote_started u;
     double_quote_started := double_quote_started u; sys := sys u |}.
Definition with_sys {K} (k : K) (u : user K) : user K :=
  {| umem := umem u; strtok_sp := strtok_sp u; single_quote_started := single_quote_started u;
     double_quote_started := double_quote_started u; sys := k |}.
Definition with_strtok {K} (sp : Z) (sq dq : bool) (u : user K) : user K :=
  {| umem := umem u; strtok_sp := sp; single_quote_started := sq; double_quote_started := dq;
     sys := sys u |}.

(** [struct command_argument] and [struct process_arguments]. *)
Definition ca_next : Z := 512.
Definition sizeof_command_argument : Z := 516.
Definition pa_argc : Z := 0.
Definition pa_argv : Z := 4.

(** ** [stdlib.c] *)

(** [while (i)]: at most ten digits; the characters fill [text] from its end. *)
Fixpoint itoa_loop (n : nat) (text loc i : Z) (m : mem) : option (Z * mem) :=
  if i =? 0 then Some (loc, m)
  else
    match n with
    | O => None
    | S n' => itoa_loop n' text (loc - 1) (cdiv i 10) (wr m (text + (loc - 1)) (48 - cmod i 10))
    end.
Definition itoa (text i : Z) (m : mem) : option (Z * mem) :=
  let m := wr m (text + 11) 0 in
  let neg := if 0 <=? i then false else true in
  let i := if 0 <=? i then - i else i in
  match itoa_loop 10 text 11 i m with
  | None => None
  | Some (loc, m) =>
    let '(loc, m) := if loc =? 11 then (loc - 1, wr m (text + (loc - 1)) 48) else (loc, m) in
    let '(loc, m) := if neg : bool then (loc - 1, wr m (text + (loc - 1)) 45) else (loc, m) in
    Some (text + loc, m)
  end.

(** ** [string.c]: [strtok] *)

(** The index of [c] in the delimiters, their number when it is none. *)
Fixpoint delimiter_index (c : Z) (delimiters : list Z) (i : Z) : Z :=
  match delimiters with
  | [] => i
  | d :: ds => if c =? d then i else delimiter_index c ds (i + 1)
  end.

(** The first loop: where the token starts. *)
Fixpoint skip_delimiters (n : nat) (p_start : Z) (delimiters : list Z) (m : mem) : option Z :=
  match n with
  | O => None
  | S n' =>
    if delimiter_index (rd m p_start) delimiters 0 =? Z.of_nat (length delimiters)
    then Some p_start else skip_delimiters n' (p_start + 1) delimiters m
  end.

(** The second loop: its [sp], [i], the two flags and memory. *)
Fixpoint token_end (n : nat) (sp i : Z) (delimiters : list Z) (sq dq : bool) (m : mem)
  : option (Z * bool * bool * mem) :=
  match n with
  | O => None
  | S n' =>
    let c := rd m sp in
    if c =? 0 then Some (sp, sq, dq, m)
    else
      let sq := if c =? 39 then negb sq else sq in
      let dq := if c =? 34 then negb dq else dq in
      let i := if sq || dq then delimiter_index c delimiters 0 else i in
      let m := if (sq || dq) && (i <? Z.of_nat (length delimiters)) then wr m sp 0 else m in
      if i <? Z.of_nat (length delimiters) then Some (sp + 1, sq, dq, m)
      else token_end n' (sp + 1) i delimiters sq dq m
  end.

Section library.
Context {K : Type} `{SysCalls K}.

(** A store of the program, and a call. *)
Definition ustore8 (a v : Z) : M (user K) unit := modify (fun u => with_umem (wr (umem u) a v) u).
Definition ustore32 (a v : Z) : M (user K) unit := modify (fun u => with_umem (st32 (umem u) a v) u).
Definition uload32 (a : Z) : M (user K) Z := gets (fun u => ld32 (umem u) a).
Definition ustrncpy (dest src count : Z) : M (user K) unit :=
  modify (fun u => with_umem (strncpy dest src count (umem u)) u).

(** *** [liebeos.asm] *)

Definition liebeos_print (p : Z) : M (user K) unit :=
  modify (fun u => with_sys (sys_print p (umem u) (sys u)) u).
Definition liebeos_getkey : M (user K) Z :=
  fun u => let '(c, k) := sys_getkey (sys u) in Ret c (with_sys k u).
Definition liebeos_putchar (c : Z) : M (user K) unit :=
  modify (fun u => with_sys (sys_putchar c (sys u)) u).
Definition liebeos_malloc (size : Z) : M (user K) Z :=
  fun u => let '(p, m, k) := sys_malloc size (umem u) (sys u) in Ret p (with_sys k (with_umem m u)).
Definition liebeos_free (p : Z) : M (user K) unit :=
  fun u => let '(m, k) := sys_free p (umem u) (sys u) in Ret tt (with_sys k (with_umem m u)).
Definition liebeos_system (arguments : Z) : M (user K) Z :=
  fun u => let '(r, m, k) := sys_system arguments (umem u) (sys u) in
    Ret r (with_sys k (with_umem m u)).
Definition liebeos_process_get_arguments (arguments : Z) : M (user K) unit :=
  fun u => let '(m, k) := sys_get_arguments arguments (umem u) (sys u) in
    Ret tt (with_sys k (with_umem m u)).

Definition malloc (size : Z) : M (user K) Z := liebeos_malloc size.
Definition free (p : Z) : M (user K) unit := liebeos_free p.

(** *** [strtok] *)

(** [n] bounds the scans; a null [str] continues after the last token. *)
Definition strtok (n : nat) (str : Z) (delimiters : list Z) : M (user K) Z :=
  let! sp := gets strtok_sp in
  if (str =? 0) && (sp =? 0) then ret 0
  else
    let p_start := if negb (str =? 0) && (sp =? 0) then str else sp in
    let! m := gets umem in
    match skip_delimiters n p_start delimiters m with
    | None => nofuel
    | Some p_start =>
      let! sq := gets single_quote_started in
      let! dq := gets double_quote_started in
      if rd m p_start =? 0 then modify (with_strtok 0 sq dq) ;;; ret 0
      else
        match token_end n p_start (Z.of_nat (length delimiters)) delimiters sq dq m with
        | None => nofuel
        | Some (sp, sq, dq, m) =>
          modify (fun u => with_strtok sp sq dq (with_umem m u)) ;;; ret p_start
        end
    end.

(** *** [stdio.c] *)

Definition putchar (c : Z) : M (user K) Z := liebeos_putchar (i8 c) ;;; ret 0.

(** The variable arguments are the words after [fmt]; reading past them is
    undefined.  [text] is [itoa]'s static buffer. *)
Fixpoint printf_loop (n : nat) (text p : Z) (args : list Z) : M (user K) Z :=
  match n with
  | O => nofuel
  | S n' =>
    let! c := gets (fun u => rd (umem u) p) in
    if c =? 0 then ret 0
    else if negb (c =? 37) then putchar c ;;; printf_loop n' text (p + 1) args
    else
      let! c := gets (fun u => rd (umem u) (p + 1)) in
      if c =? 100 then
        let! ival := opt (head args) in
        let! m := gets umem in
        match itoa text (i32 ival) m with
        | None => nofuel
        | Some (s, m') =>
          modify (with_umem m') ;;; liebeos_print s ;;; printf_loop n' text (p + 2) (tail args)
        end
      else if c =? 115 then
        let! sval := opt (head args) in
        liebeos_print sval ;;; printf_loop n' text (p + 2) (tail args)
      else putchar c ;;; printf_loop n' text (p + 2) args
  end.
Definition printf (n : nat) (text fmt : Z) (args : list Z) : M (user K) Z :=
  printf_loop n text fmt args.

(** *** [liebeos.c] *)

(** [n] bounds how often the keyboard is asked. *)
Fixpoint liebeos_getkey_block (n : nat) : M (user K) Z :=
  match n with
  | O => nofuel
  | S n' => let! val := liebeos_getkey in
            if val =? 0 then liebeos_getkey_block n' else ret val
  end.

(** The loop returns its final [i]; [fuel] bounds the waiting for one key. *)
Fixpoint readline_loop (n fuel : nat) (out max : Z) (output_while_typing : bool) (i : Z)
  : M (user K) Z :=
  match n with
  | O => nofuel
  | S n' =>
    if i <? max - 1 then
      let! key := liebeos_getkey_block fuel in
      let key := i8 key in
      if key =? 13 then ret i
      else
        (if output_while_typing then liebeos_putchar key else ret tt) ;;;
        if (key =? 8) && (1 <=? i) then
          ustore8 (out + (i - 1)) 0 ;;;
          readline_loop n' fuel out max output_while_typing (i - 2 + 1)
        else ustore8 (out + i) key ;;; readline_loop n' fuel out max output_while_typing (i + 1)
    else ret i
  end.
Definition liebeos_terminal_readline (n fuel : nat) (out max : Z) (output_while_typing : bool)
  : M (user K) unit :=
  let! i := readline_loop n fuel out max output_while_typing 0 in ustore8 (out + i) 0.

(** The loop over the arguments after the first. *)
Fixpoint parse_loop (n fuel : nat) (current token : Z) : M (user K) unit :=
  match n with
  | O => nofuel
  | S n' =>
    if token =? 0 then ret tt
    else
      let! new_command := liebeos_malloc sizeof_command_argument in
      if new_command =? 0 then ret tt
      else
        ustrncpy new_command token 512 ;;;
        ustore32 (new_command + ca_next) 0 ;;;
        ustore32 (current + ca_next) new_command ;;;
        let! token := strtok fuel 0 [32] in
        parse_loop n' fuel new_command token
  end.

(** [scommand] is the local buffer of 1025 bytes. *)
Definition liebeos_parse_command (n fuel : nat) (scommand command max : Z) : M (user K) Z :=
  if 1025 <=? max then ret 0
  else
    ustrncpy scommand command 1025 ;;;
    let! token := strtok fuel scommand [32] in
    if token =? 0 then ret 0
    else
      let! root_command := liebeos_malloc sizeof_command_argument in
      if root_command =? 0 then ret 0
      else
        ustrncpy root_command token 512 ;;;
        ustore32 (root_command + ca_next) 0 ;;;
        let! token := strtok fuel 0 [32] in
        parse_loop n fuel root_command token ;;;
        ret root_command.

(** [buf] is the local buffer of 1024 bytes. *)
Definition liebeos_system_run (n fuel : nat) (buf scommand command : Z) : M (user K) Z :=
  ustrncpy buf command 1024 ;;;
  let! root_command_argument := liebeos_parse_command n fuel scommand buf 1024 in
  if root_command_argument =? 0 then ret (-1) else liebeos_system root_command_argument.

(** *** [start.c] *)

Definition main_wrapper (arguments : Z) (main : Z -> Z -> M (user K) Z) : M (user K) unit :=
  liebeos_process_get_arguments arguments ;;;
  let! argc := uload32 (arguments + pa_argc) in
  let! argv := uload32 (arguments + pa_argv) in
  main (i32 argc) argv ;;; ret tt.

(** *** Programs *)

(** One round of the shell's endless loop: prompt, line, command.  The
    literals are at [prompt] and [newline]. *)
Definition shell_round (n fuel : nat) (prompt newline buf run_buf scommand : Z) : M (user K) unit :=
  liebeos_print prompt ;;;
  liebeos_terminal_readline n fuel buf 1024 true ;;;
  liebeos_print newline ;;;
  liebeos_system_run n fuel run_buf scommand buf ;;; ret tt.

(** The loop does not end: [rounds] of it. *)
Fixpoint shell_loop (rounds n fuel : nat) (prompt newline buf run_buf scommand : Z) : M (user K) Z :=
  match rounds with
  | O => nofuel
  | S r => shell_round n fuel prompt newline buf run_buf scommand ;;;
           shell_loop r n fuel prompt newline buf run_buf scommand
  end.
Definition shell_main (rounds n fuel : nat) (banner prompt newline buf run_buf scommand : Z) : M (user K) Z :=
  liebeos_print banner ;;; shell_loop rounds n fuel prompt newline buf run_buf scommand.

(** [echo]: the loop over the arguments. *)
Fixpoint echo_loop (n : nat) (space i argc argv : Z) : M (user K) unit :=
  match n with
  | O => ret tt
  | S n' =>
    if i <? argc then
      let! arg := uload32 (argv + 4 * i) in
      liebeos_print arg ;;;
      (if i + 1 <? argc then liebeos_print space else ret tt) ;;;
      echo_loop n' space (i + 1) argc argv
    else ret tt
  end.
Definition echo_main (newline space argc argv : Z) : M (user K) Z :=
  if argc =? 1 then ret 0
  else
    liebeos_print newline ;;;
    echo_loop (Z.to_nat (argc - 1)) space 1 argc argv ;;;
    liebeos_print newline ;;;
    ret 0.

(** [blank]: a formatted message and a plain one. *)
Definition blank_main (n : nat) (text loaded name : Z) : M (user K) Z :=
  printf n text loaded [] ;;; liebeos_print name ;;; ret 0.

End library.

(** ** A concrete machine *)

(** Keys that arrive, text on the screen, and an allocator that never frees:
    [c_brk] is the next free address. *)
Record console_machine : Type := { c_keys : list Z; c_shown : list Z; c_brk : Z }.

(** The string at [p], at most 1023 characters. *)
Fixpoint string_at (n : nat) (m : mem) (p : Z) : list Z :=
  match n with
  | O => []
  | S n' => if rd m p =? 0 then [] else rd m p :: string_at n' m (p + 1)
  end.

Lemma string_at_cstr m : forall l p n, cstr (at_mem m p) l -> (length l < n)%nat -> string_at n m p = l.
Proof.
  induction l as [|c l IH]; intros p n Hs Hn; (destruct n as [|n]; [cbn in Hn; lia|]); cbn [string_at].
  - pose proof (cstr_nul _ _ Hs) as H0. unfold at_mem in H0. cbn in H0. rewrite Z.add_0_r in H0. by rewrite H0.
  - destruct (cstr_lookup _ _ 0 c Hs eq_refl) as [E Hc]. unfold at_mem in E. cbn in E. rewrite Z.add_0_r in E.
    rewrite E, (proj2 (Z.eqb_neq c 0)) by lia. f_equal. apply IH; [|cbn in Hn; lia].
    apply (cstr_ext (fun j => at_mem m p (Z.of_nat 1 + j))); [|apply (cstr_drop _ (c :: l) 1 Hs); cbn; lia].
    intros i Hi. unfold at_mem. f_equal. lia.
Qed.

#[export] Program Instance console_calls : SysCalls console_machine := {|
  sys_print p m k := {| c_keys := c_keys k; c_shown := c_shown k ++ string_at 1024 m p; c_brk := c_brk k |};
  sys_getkey k := (default 0 (head (c_keys k)),
    {| c_keys := tail (c_keys k); c_shown := c_shown k; c_brk := c_brk k |});
  sys_putchar c k := {| c_keys := c_keys k; c_shown := c_shown k ++ [c]; c_brk := c_brk k |};
  sys_malloc size m k := if (0 <? c_brk k) && (c_brk k + size <=? 4294967296)
    then (c_brk k, m, {| c_keys := c_keys k; c_shown := c_shown k; c_brk := c_brk k + size |})
    else (0, m, k);
  sys_free p m k := (m, k);
  sys_system p m k := (0, m, k);
  sys_get_arguments p m k := (m, k);
  shown := c_shown;
  arrivals := c_keys;
  mine k a := a < c_brk k |}.
Next Obligation. intros p l m k Hs Hl. cbv beta iota. by rewrite (string_at_cstr m l p 1024 Hs Hl). Qed.
Next Obligation. done. Qed.
Next Obligation. done. Qed.
Next Obligation. done. Qed.
Next Obligation. done. Qed.
Next Obligation.
  intros size m k p m' k' Hs E. cbn in E.
  destruct (Z.ltb_spec 0 (c_brk k)), (Z.leb_spec (c_brk k + size) 4294967296); cbn [andb] in E;
    injection E as <- <- <-; cbn [c_brk c_shown c_keys].
  all: split; [|split; [intros a Ha; split; [lia|done]|done]]; try by left.
  right. split; [done|]. split; [done|]. intros a Ha. lia.
Qed.

(** ** [itoa] *)

(** The decimal digits of [x], at most [n]. *)
Fixpoint digits (n : nat) (x : Z) : list Z :=
  match n with
  | O => []
  | S n' => if x =? 0 then [] else digits n' (x / 10) ++ [48 + x mod 10]
  end.
Definition decimal (i : Z) : list Z :=
  (if i <? 0 then [45] else []) ++ (if i =? 0 then [48] else digits 10 (Z.abs i)).

(** Reading a number: an optional sign, then digits. *)
Definition digits_value (l : list Z) : Z := fold_left (fun a c => 10 * a + (c - 48)) l 0.
Definition number_of (l : list Z) : Z :=
  match l with
  | c :: l' => if c =? 45 then - digits_value l' else digits_value l
  | [] => 0
  end.

Lemma digits_value_snoc l d : digits_value (l ++ [d]) = 10 * digits_value l + (d - 48).
Proof. unfold digits_value. by rewrite fold_left_app. Qed.

Lemma digits_spec n : forall x, 0 <= x < 10 ^ Z.of_nat n ->
  digits_value (digits n x) = x /\ (length (digits n x) <= n)%nat /\
  Forall (fun c => 48 <= c <= 57) (digits n x) /\ (0 < x -> exists c l, digits n x = c :: l /\ c <> 48).
Proof.
  induction n as [|n IH]; intros x Hx.
  { cbn in *. split; [lia|]. split; [lia|]. split; [constructor|lia]. }
  cbn [digits]. destruct (Z.eqb_spec x 0) as [->|Hne].
  { split; [done|]. split; [cbn; lia|]. split; [constructor|lia]. }
  rewrite Nat2Z.inj_succ, Z.pow_succ_r in Hx by lia.
  destruct (IH (x / 10)) as (E & Hl & Hf & Hh); [dlia|].
  rewrite digits_value_snoc, E, length_app. split; [dlia|]. split; [cbn; lia|]. split.
  - apply Forall_app. split; [done|]. constructor; [dlia|constructor].
  - intros _. destruct (decide (0 < x / 10)) as [Hp|Hz].
    + destruct (Hh Hp) as (c & l & -> & Hc). by exists c, (l ++ [48 + x mod 10]).
    + replace (x / 10) with 0 by dlia. exists (48 + x mod 10), [].
      split; [by destruct n|dlia].
Qed.

Lemma decimal_spec i : -2147483648 <= i < 2147483648 ->
  number_of (decimal i) = i /\ (length (decimal i) <= 11)%nat /\ Forall char_ok (decimal i).
Proof.
  intros Hi. unfold decimal. destruct (Z.eqb_spec i 0) as [->|Hne].
  { split; [done|]. split; [cbn; lia|]. cbn. repeat (constructor; [unfold char_ok; lia|]). constructor. }
  destruct (digits_spec 10 (Z.abs i)) as (E & Hl & Hf & Hh); [change (10 ^ Z.of_nat 10) with 10000000000; lia|].
  destruct (Hh ltac:(lia)) as (c & l & El & _).
  assert (Hok : Forall char_ok (digits 10 (Z.abs i)))
    by (revert Hf; apply List.Forall_impl; intros x Hx; unfold char_ok; lia).
  destruct (Z.ltb_spec i 0); cbn [app]; (split; [|split; [|by repeat constructor]]).
  - unfold number_of. cbn [Z.eqb Pos.eqb]. rewrite E. lia.
  - cbn [length]. lia.
  - rewrite El in *. unfold number_of. apply list.Forall_cons in Hf as [Hc _].
    rewrite (proj2 (Z.eqb_neq c 45)) by lia. rewrite E. lia.
  - lia.
Qed.

(** The loop fills the bytes below [loc] with the digits. *)
Lemma itoa_loop_spec text n : forall loc i m, - 10 ^ Z.of_nat n < i <= 0 ->
  let l := digits n (- i) in let p := loc - Z.of_nat (length l) in
  exists m', itoa_loop n text loc i m = Some (p, m') /\
    (forall j x, l !! j = Some x -> rd m' (text + p + Z.of_nat j) = x) /\
    (forall a, a < text + p \/ text + loc <= a -> rd m' a = rd m a).
Proof.
  induction n as [|n IH]; intros loc i m Hi; cbv zeta.
  { cbn in *. replace i with 0 by lia. exists m. cbn. rewrite Z.sub_0_r. done. }
  cbn [itoa_loop digits]. destruct (Z.eqb_spec i 0) as [->|Hne].
  { exists m. cbn. rewrite Z.sub_0_r. done. }
  rewrite (proj2 (Z.eqb_neq (- i) 0)) by lia.
  rewrite Nat2Z.inj_succ, Z.pow_succ_r in Hi by lia.
  destruct (IH (loc - 1) (cdiv i 10) (wr m (text + (loc - 1)) (48 - cmod i 10))) as (m' & E & Hin & Ho);
    [unfold cdiv; dlia|].
  replace (- cdiv i 10) with (- i / 10) in * by (unfold cdiv; dlia).
  set (l := digits n (- i / 10)) in *. rewrite length_app. cbn [length].
  exists m'. split; [rewrite E; f_equal; f_equal; lia|]. split.
  - intros j x Hj. apply lookup_app_Some in Hj as [Hj|[Hj Hx]].
    + rewrite <- (Hin j x Hj). f_equal. lia.
    + apply list_lookup_singleton_Some in Hx as [Hj' <-].
      rewrite Ho by lia. replace (text + _ + Z.of_nat j) with (text + (loc - 1)) by lia.
      rewrite rd_wr_eq. unfold cmod. rewrite u8_id by dlia. dlia.
  - intros a Ha. rewrite Ho by lia. rewrite rd_wr_ne by lia. done.
Qed.

(** A string whose characters and terminator are in place. *)
Lemma cstr_intro m p l : Forall char_ok l -> rd m (p + Z.of_nat (length l)) = 0 ->
  (forall j x, l !! j = Some x -> rd m (p + Z.of_nat j) = x) -> cstr (at_mem m p) l.
Proof. intros Hok H0 Hl. by split. Qed.

Lemma itoa_spec text i m : -2147483648 <= i < 2147483648 ->
  let p := text + 11 - Z.of_nat (length (decimal i)) in
  exists m', itoa text i m = Some (p, m') /\ cstr (at_mem m' p) (decimal i) /\
    (forall a, a < text \/ text + 12 <= a -> rd m' a = rd m a).
Proof.
  intros Hi. pose proof (decimal_spec i Hi) as (_ & Hlen & Hok). unfold itoa.
  set (m0 := wr m (text + 11) 0).
  assert (Ei : (if 0 <=? i then - i else i) = - Z.abs i) by (case_bool; lia).
  rewrite Ei. clear Ei.
  destruct (itoa_loop_spec text 10 11 (- Z.abs i) m0) as (m1 & E & Hin & Ho);
    [change (10 ^ Z.of_nat 10) with 10000000000; lia|].
  rewrite Z.opp_involutive in *. rewrite E. clear E. unfold decimal in *.
  destruct (Z.eqb_spec i 0) as [->|Hne].
  { change (if 0 <? 0 then [45] else []) with (@nil Z) in *. change (Z.abs 0) with 0 in *.
    change (length (digits 10 0)) with 0%nat in *. cbn [app length] in *.
    exists (wr m1 (text + 10) 48). split; [cbn; do 2 f_equal; lia|]. split.
    - apply cstr_intro; [done| |]; cbn [length].
      + rewrite rd_wr_ne, Ho by lia. unfold m0. replace (_ + Z.of_nat 1) with (text + 11) by lia. apply rd_wr_eq.
      + intros [|j] x Hj; [|done]. injection Hj as <-.
        replace (_ + Z.of_nat 0) with (text + 10) by lia. apply rd_wr_eq.
    - intros a Ha. rewrite rd_wr_ne, Ho by lia. unfold m0. apply rd_wr_ne. lia. }
  destruct (digits_spec 10 (Z.abs i)) as (_ & Hl10 & _ & Hh); [change (10 ^ Z.of_nat 10) with 10000000000; lia|].
  destruct (Hh ltac:(lia)) as (c & l0 & El & _).
  set (D := digits 10 (Z.abs i)) in *. assert (HL : 0 < Z.of_nat (length D)) by (rewrite El; cbn; lia).
  rewrite (proj2 (Z.eqb_neq _ 11)) by lia.
  assert (Hnul : rd m1 (text + 11) = 0) by (rewrite Ho by lia; apply rd_wr_eq).
  assert (Hout : forall a, a < text \/ text + 12 <= a -> rd m1 a = rd m a)
    by (intros a Ha; rewrite Ho by lia; apply rd_wr_ne; lia).
  destruct (Z.leb_spec 0 i), (Z.ltb_spec i 0); try lia; cbn [app] in *.
  - exists m1. split; [do 2 f_equal; lia|]. split; [|done]. apply cstr_intro; [done| |].
    + rewrite <- Hnul. f_equal. lia.
    + intros j x Hj. rewrite <- (Hin j x Hj). f_equal. lia.
  - cbn [length] in *. exists (wr m1 (text + (11 - Z.of_nat (length D) - 1)) 45). split; [do 2 f_equal; lia|].
    split; [apply cstr_intro; [done| |]|].
    + cbn [length]. rewrite rd_wr_ne by lia. rewrite <- Hnul. f_equal. lia.
    + intros [|j] x Hj; cbn in Hj.
      * injection Hj as <-. replace (text + 11 - _ + Z.of_nat 0) with (text + (11 - Z.of_nat (length D) - 1)) by lia.
        apply rd_wr_eq.
      * rewrite rd_wr_ne by lia. rewrite <- (Hin j x Hj). f_equal. lia.
    + intros a Ha. rewrite rd_wr_ne by lia. by apply Hout.
Qed.

(** ** The line editor *)

(** A key on the line typed so far: a backspace takes the last character
    away, on an empty line it is a character like any other. *)
Definition edit (l : list Z) (c : Z) : list Z :=
  if (c =? 8) && negb (bool_decide (l = [])) then removelast l else l ++ [c].

(** The line, and what was echoed, when [ks] arrive on the line [l] of at most
    [max - 1] characters; [None] when more keys are needed. *)
Fixpoint line_of (max : Z) (l ks : list Z) : option (list Z * list Z) :=
  if Z.of_nat (length l) <? max - 1 then
    match ks with
    | [] => None
    | c :: ks' =>
      if c =? 13 then Some (l, [])
      else match line_of max (edit l c) ks' with
           | Some (r, e) => Some (r, c :: e)
           | None => None
           end
    end
  else Some (l, []).

(** How the keys arrive: after some empty answers each. *)
Definition waits (evs : list (nat * Z)) : list Z :=
  flat_map (fun '(w, c) => replicate w 0 ++ [c]) evs.

Section editor.
Context {K : Type} `{SysCalls K}.

(** Between two states nothing but the keys taken. *)
Definition same_program (u u' : user K) : Prop :=
  umem u' = umem u /\ strtok_sp u' = strtok_sp u /\
  single_quote_started u' = single_quote_started u /\
  double_quote_started u' = double_quote_started u /\
  (forall a, mine (sys u') a <-> mine (sys u) a).

Lemma getkey_block_spec fuel : forall w c r u, c <> 0 -> (w < fuel)%nat ->
  arrivals (sys u) = (replicate w 0 ++ [c]) ++ r ->
  exists u', liebeos_getkey_block fuel u = Ret c u' /\ arrivals (sys u') = r /\
    shown (sys u') = shown (sys u) /\ same_program u u'.
Proof.
  induction fuel as [|fuel IH]; intros w c r u Hc Hw Ha; [lia|]. cbn [liebeos_getkey_block].
  unfold liebeos_getkey, bind. destruct (getkey_takes (sys u)) as (E1 & E2 & E3 & E4).
  destruct (sys_getkey (sys u)) as [v k'] eqn:E. cbn [fst snd] in *. rewrite Ha in E1, E2.
  destruct w as [|w].
  - cbn in E1, E2. subst v. rewrite (proj2 (Z.eqb_neq c 0)) by done.
    exists (with_sys k' u). done.
  - cbn in E1, E2. subst v. cbn [Z.eqb].
    destruct (IH w c r (with_sys k' u) Hc ltac:(lia)) as (u' & Eu & Hr & Hs & Hm); [cbn; by rewrite E2|].
    exists u'. split; [exact Eu|]. split; [done|]. split; [by rewrite Hs|].
    destruct Hm as (? & ? & ? & ? & Hi). split; [done|]. do 3 (split; [done|]).
    intros a. rewrite Hi. apply E4.
Qed.

(** The buffer shows the line so far. *)
Definition line_at (m m0 : mem) (out max : Z) (l : list Z) : Prop :=
  (forall j x, l !! j = Some x -> rd m (out + Z.of_nat j) = x) /\
  (forall a, a < out \/ out + Z.max 1 max <= a -> rd m a = rd m0 a).

Lemma removelast_snoc {A} (l : list A) x : removelast (l ++ [x]) = l.
Proof. rewrite removelast_app by done. apply app_nil_r. Qed.

(** One key on the line. *)
Lemma edit_step m m0 out max l c : 0 < c < 128 -> Forall (fun c => 0 < c < 128) l ->
  Z.of_nat (length l) < max - 1 -> line_at m m0 out max l ->
  let i := Z.of_nat (length l) in
  let m' := if (c =? 8) && (1 <=? i) then wr m (out + (i - 1)) 0 else wr m (out + i) c in
  line_at m' m0 out max (edit l c) /\ Forall (fun c => 0 < c < 128) (edit l c) /\
  Z.of_nat (length (edit l c)) = (if (c =? 8) && (1 <=? i) then i - 2 + 1 else i + 1).
Proof.
  intros Hc Hl Hlen [H1 H2] i m'.
  assert (Eb : (c =? 8) && negb (bool_decide (l = [])) = (c =? 8) && (1 <=? i)).
  { f_equal. destruct l as [|x l]; [done|]. rewrite bool_decide_false by done. unfold i. cbn.
    symmetry. apply Z.leb_le. lia. }
  unfold edit, m'. rewrite Eb. clear Eb. destruct ((c =? 8) && (1 <=? i)) eqn:Eb.
  - apply andb_prop in Eb as [_ Hi]. apply Z.leb_le in Hi.
    destruct (exists_last (l := l)) as (l' & x & ->); [intros ->; cbn in i; lia|].
    rewrite removelast_snoc. unfold i in *. rewrite length_app in *. cbn [length] in *. split; [split|split; [|lia]].
    + intros j y Hj. pose proof (lookup_lt_Some _ _ _ Hj). rewrite rd_wr_ne by lia.
      apply H1. rewrite lookup_app_l by lia. done.
    + intros a Ha. rewrite rd_wr_ne by lia. by apply H2.
    + by apply Forall_app in Hl as [Hl _].
  - unfold i in *. split; [split|split].
    + intros j y Hj. apply lookup_app_Some in Hj as [Hj|[Hj Ey]].
      * pose proof (lookup_lt_Some _ _ _ Hj). rewrite rd_wr_ne by lia. by apply H1.
      * apply list_lookup_singleton_Some in Ey as [Ej <-]. replace (Z.of_nat j) with (Z.of_nat (length l)) by lia.
        rewrite rd_wr_eq. apply u8_id. lia.
    + intros a Ha. rewrite rd_wr_ne by lia. by apply H2.
    + apply Forall_app. split; [done|]. by constructor.
    + rewrite length_app. cbn. lia.
Qed.

Lemma readline_loop_spec fuel out max echo m0 : forall evs n l u r line e,
  Forall (fun '(w, c) => (w < fuel)%nat /\ 0 < c < 128) evs -> (length evs < n)%nat ->
  Forall (fun c => 0 < c < 128) l -> line_at (umem u) m0 out max l ->
  arrivals (sys u) = waits evs ++ r -> line_of max l (snd <$> evs) = Some (line, e) ->
  exists u', readline_loop n fuel out max echo (Z.of_nat (length l)) u = Ret (Z.of_nat (length line)) u' /\
    line_at (umem u') m0 out max line /\ Forall (fun c => 0 < c < 128) line /\
    (Z.of_nat (length line) <= Z.max (max - 1) (Z.of_nat (length l))) /\
    shown (sys u') = shown (sys u) ++ (if echo then e else []) /\ strtok_sp u' = strtok_sp u /\
    (forall a, mine (sys u') a <-> mine (sys u) a).
Proof.
  induction evs as [|[w c] evs IH]; intros n l u r line e Hev Hn Hl Hm Ha El;
    (destruct n as [|n]; [cbn in Hn; lia|]); cbn [readline_loop]; cbn [fmap list_fmap line_of] in El.
  { destruct (Z.ltb_spec (Z.of_nat (length l)) (max - 1)); [done|]. injection El as <- <-.
    exists u. split; [done|]. split; [done|]. split; [done|]. split; [lia|].
    split; [by destruct echo; rewrite app_nil_r|done]. }
  destruct (Z.ltb_spec (Z.of_nat (length l)) (max - 1)) as [Hlt|Hge].
  2:{ injection El as <- <-. exists u. split; [done|]. split; [done|]. split; [done|]. split; [lia|].
      split; [by destruct echo; rewrite app_nil_r|done]. }
  apply list.Forall_cons in Hev as [[Hw Hc] Hev]. cbn [waits flat_map snd] in *. rewrite <- app_assoc in Ha.
  destruct (getkey_block_spec fuel w c _ u ltac:(lia) Hw Ha) as (u1 & E1 & Ha1 & Hs1 & Hu1 & Hsp1 & _ & _ & Hmi1).
  rewrite (bind_Ret _ _ _ _ _ E1). replace (i8 c) with c by (unfold i8; case_bools; dlia).
  destruct (Z.eqb_spec c 13) as [->|Hc13].
  { injection El as <- <-. exists u1. split; [done|]. rewrite Hu1. split; [done|]. split; [done|]. split; [lia|].
    split; [rewrite Hs1; by destruct echo; rewrite app_nil_r|done]. }
  destruct (line_of max (edit l c) (snd <$> evs)) as [[line' e']|] eqn:El'; [|done]. injection El as <- <-.
  rewrite <- Hu1 in Hm. destruct (edit_step (umem u1) m0 out max l c Hc Hl Hlt Hm) as (Hm' & Hl' & Hlen').
  set (u2 := if echo then with_sys (sys_putchar c (sys u1)) u1 else u1).
  assert (Hu2 : shown (sys u2) = shown (sys u1) ++ (if echo then [c] else []) /\ arrivals (sys u2) = arrivals (sys u1) /\
    (forall a, mine (sys u2) a <-> mine (sys u1) a) /\ umem u2 = umem u1 /\ strtok_sp u2 = strtok_sp u1).
  { unfold u2. destruct echo; [|by rewrite app_nil_r]. cbn [sys with_sys].
    split; [apply putchar_shows|]. split; [apply putchar_keeps|]. split; [apply putchar_keeps|done]. }
  destruct Hu2 as (Hs2 & Ha2 & Hmi2 & Hum2 & Hsp2).
  rewrite (bind_Ret _ _ _ tt u2) by (by destruct echo).
  set (m' := if (c =? 8) && (1 <=? Z.of_nat (length l)) then wr (umem u1) (out + (Z.of_nat (length l) - 1)) 0
             else wr (umem u1) (out + Z.of_nat (length l)) c) in *.
  destruct (IH n (edit l c) (with_umem m' u2) r line' e' Hev ltac:(cbn in Hn; lia) Hl' Hm')
    as (u' & E' & Hm2 & Hl2 & Hmax & Hs' & Hsp' & Hmi'); [cbn [sys with_umem]; by rewrite Ha2, Ha1|exact El'|].
  assert (Hedit : Z.of_nat (length (edit l c)) <= max - 1) by (rewrite Hlen'; destruct ((c =? 8) && _); lia).
  exists u'. split.
  { unfold m' in E'. destruct ((c =? 8) && (1 <=? Z.of_nat (length l))); rewrite Hlen' in E'; rewrite <- Hum2 in E'; exact E'. }
  split; [done|]. split; [done|]. split; [lia|]. split.
  - rewrite Hs'. cbn [sys with_umem]. rewrite Hs2, Hs1, <- app_assoc. by destruct echo.
  - split; [rewrite Hsp'; cbn; by rewrite Hsp2|]. intros a. rewrite Hmi'. cbn [sys with_umem]. by rewrite Hmi2, Hmi1.
Qed.

Lemma readline_spec n fuel out max echo u evs r line e : 1 <= max ->
  Forall (fun '(w, c) => (w < fuel)%nat /\ 0 < c < 128) evs -> (length evs < n)%nat ->
  arrivals (sys u) = waits evs ++ r -> line_of max [] (snd <$> evs) = Some (line, e) ->
  exists u', liebeos_terminal_readline n fuel out max echo u = Ret tt u' /\
    cstr (at_mem (umem u') out) line /\ Z.of_nat (length line) < max /\
    (forall a, a < out \/ out + max <= a -> rd (umem u') a = rd (umem u) a) /\
    shown (sys u') = shown (sys u) ++ (if echo then e else []) /\ strtok_sp u' = strtok_sp u /\
    (forall a, mine (sys u') a <-> mine (sys u) a).
Proof.
  intros Hmax Hev Hn Ha El.
  destruct (readline_loop_spec fuel out max echo (umem u) evs n [] u r line e Hev Hn) as (u1 & E & [H1 H2] & Hl & Hlen & Hs & Hsp & Hmi);
    [constructor|done|done|done|]. cbn [length] in Hlen.
  exists (with_umem (wr (umem u1) (out + Z.of_nat (length line)) 0) u1).
  split; [unfold liebeos_terminal_readline; by rewrite (bind_Ret _ _ _ _ _ E)|]. cbn [umem with_umem].
  split; [|split; [lia|split; [|done]]].
  - apply cstr_intro.
    + revert Hl. apply List.Forall_impl. intros x Hx. unfold char_ok. lia.
    + apply rd_wr_eq.
    + intros j x Hj. pose proof (lookup_lt_Some _ _ _ Hj). rewrite rd_wr_ne by lia. by apply H1.
  - intros a Ha'. rewrite rd_wr_ne by lia. apply H2. lia.
Qed.
End editor.

(** ** [printf] *)

(** The parts of a format string with the arguments they take. *)
Inductive piece : Type :=
| plain (c : Z)
| escaped (c : Z)
| number (i : Z)
| text_at (p : Z) (l : list Z).

Definition piece_code (x : piece) : list Z :=
  match x with plain c => [c] | escaped c => [37; c] | number _ => [37; 100] | text_at _ _ => [37; 115] end.
Definition piece_args (x : piece) : list Z :=
  match x with number i => [u32 i] | text_at p _ => [p] | _ => [] end.
Definition piece_shown (x : piece) : list Z :=
  match x with plain c | escaped c => [c] | number i => decimal i | text_at _ l => l end.
(** What each part needs; the strings are apart from [itoa]'s buffer. *)
Definition piece_ok (m : mem) (text : Z) (x : piece) : Prop :=
  match x with
  | plain c => 0 < c < 128 /\ c <> 37
  | escaped c => 0 < c < 128 /\ c <> 100 /\ c <> 115
  | number i => -2147483648 <= i < 2147483648
  | text_at p l => cstr (at_mem m p) l /\ (length l < 1024)%nat /\
      (p + Z.of_nat (length l) < text \/ text + 12 <= p)
  end.

Section printf.
Context {K : Type} `{SysCalls K}.

Lemma putchar_eq c u : 0 < c < 128 -> putchar c u = Ret 0 (with_sys (sys_putchar c (sys u)) u).
Proof. intros Hc. unfold putchar. replace (i8 c) with c by (unfold i8; case_bools; dlia). done. Qed.

(** One part of the format string. *)
Lemma printf_plain n text p args u c : rd (umem u) p = c -> 0 < c < 128 -> c <> 37 ->
  printf_loop (S n) text p args u = printf_loop n text (p + 1) args (with_sys (sys_putchar c (sys u)) u).
Proof.
  intros E Hc H37. cbn [printf_loop]. rewrite (bind_Ret _ _ _ c u) by (unfold gets; by rewrite E).
  rewrite (proj2 (Z.eqb_neq c 0)), (proj2 (Z.eqb_neq c 37)) by lia. cbn [negb].
  by rewrite (bind_Ret _ _ _ _ _ (putchar_eq c u Hc)).
Qed.

Section percent.
Context (n : nat) (text p : Z) (args : list Z) (u : user K) (E0 : rd (umem u) p = 37).

Lemma printf_escaped c : rd (umem u) (p + 1) = c -> 0 < c < 128 -> c <> 100 -> c <> 115 ->
  printf_loop (S n) text p args u = printf_loop n text (p + 2) args (with_sys (sys_putchar c (sys u)) u).
Proof.
  intros E1 Hc Hd Hs. cbn [printf_loop]. rewrite (bind_Ret _ _ _ 37 u) by (unfold gets; by rewrite E0).
  cbn [Z.eqb Pos.eqb negb]. rewrite (bind_Ret _ _ _ c u) by (unfold gets; by rewrite E1).
  rewrite (proj2 (Z.eqb_neq c 100)), (proj2 (Z.eqb_neq c 115)) by done.
  by rewrite (bind_Ret _ _ _ _ _ (putchar_eq c u Hc)).
Qed.

Lemma printf_number i : rd (umem u) (p + 1) = 100 -> -2147483648 <= i < 2147483648 ->
  let q := text + 11 - Z.of_nat (length (decimal i)) in
  exists m', cstr (at_mem m' q) (decimal i) /\
    (forall a, a < text \/ text + 12 <= a -> rd m' a = rd (umem u) a) /\
    printf_loop (S n) text p (u32 i :: args) u =
      printf_loop n text (p + 2) args (with_sys (sys_print q m' (sys u)) (with_umem m' u)).
Proof.
  intros E1 Hi q. destruct (itoa_spec text i (umem u) Hi) as (m' & Ei & Hc & Ho).
  exists m'. split; [done|]. split; [done|]. cbn [printf_loop].
  rewrite (bind_Ret _ _ _ 37 u) by (unfold gets; by rewrite E0).
  cbn [Z.eqb Pos.eqb negb]. rewrite (bind_Ret _ _ _ 100 u) by (unfold gets; by rewrite E1).
  cbn [Z.eqb Pos.eqb head tail]. rewrite (bind_Ret _ _ _ (u32 i) u) by done.
  rewrite (bind_Ret _ _ _ (umem u) u) by done. by rewrite i32_u32, i32_id, Ei by lia.
Qed.

Lemma printf_text q : rd (umem u) (p + 1) = 115 ->
  printf_loop (S n) text p (q :: args) u =
  printf_loop n text (p + 2) args (with_sys (sys_print q (umem u) (sys u)) u).
Proof.
  intros E1. cbn [printf_loop]. rewrite (bind_Ret _ _ _ 37 u) by (unfold gets; by rewrite E0).
  cbn [Z.eqb Pos.eqb negb]. rewrite (bind_Ret _ _ _ 115 u) by (unfold gets; by rewrite E1).
  cbn [Z.eqb Pos.eqb head tail]. by rewrite (bind_Ret _ _ _ q u) by done.
Qed.
End percent.

(** The rest of the format string, in memory that only changed in the buffer. *)
Lemma printf_loop_spec m0 text : forall l n p u,
  Forall (piece_ok m0 text) l -> (length l < n)%nat ->
  cstr (at_mem m0 p) (flat_map piece_code l) ->
  p + Z.of_nat (length (flat_map piece_code l)) < text \/ text + 12 <= p ->
  (forall a, a < text \/ text + 12 <= a -> rd (umem u) a = rd m0 a) ->
  exists u', printf_loop n text p (flat_map piece_args l) u = Ret 0 u' /\
    shown (sys u') = shown (sys u) ++ flat_map piece_shown l /\ arrivals (sys u') = arrivals (sys u) /\
    (forall a, a < text \/ text + 12 <= a -> rd (umem u') a = rd m0 a).
Proof.
  induction l as [|x l IH]; intros n p u Hl Hn Hs Hp Hm; (destruct n as [|n]; [cbn in Hn; lia|]);
    cbn [flat_map] in *.
  { cbn [printf_loop]. assert (E0 : rd (umem u) p = 0).
    { rewrite Hm by (cbn in Hp; lia). pose proof (cstr_nul _ _ Hs) as E. unfold at_mem in E. cbn in E. by rewrite Z.add_0_r in E. }
    rewrite (bind_Ret _ _ _ 0 u) by (unfold gets; by rewrite E0). cbn [Z.eqb].
    exists u. rewrite app_nil_r. done. }
  apply list.Forall_cons in Hl as [Hx Hl]. rewrite length_app in Hp.
  assert (Hch : forall j c, piece_code x !! j = Some c -> rd (umem u) (p + Z.of_nat j) = c).
  { intros j c Hj. pose proof (lookup_lt_Some _ _ _ Hj). rewrite Hm by lia.
    apply (cstr_chars _ _ Hs). by rewrite lookup_app_l by lia. }
  assert (Hrest : forall k, k = length (piece_code x) -> cstr (at_mem m0 (p + Z.of_nat k)) (flat_map piece_code l)).
  { intros k ->. pose proof (cstr_drop _ _ (length (piece_code x)) Hs ltac:(rewrite length_app; lia)) as Hd.
    rewrite drop_app_length in Hd. eapply cstr_ext; [|exact Hd]. intros i Hi. unfold at_mem. f_equal. lia. }
  (* one step of output, then the rest *)
  assert (Hgo : forall k u1, k = length (piece_code x) -> shown (sys u1) = shown (sys u) ++ piece_shown x ->
    arrivals (sys u1) = arrivals (sys u) -> (forall a, a < text \/ text + 12 <= a -> rd (umem u1) a = rd m0 a) ->
    exists u', printf_loop n text (p + Z.of_nat k) (flat_map piece_args l) u1 = Ret 0 u' /\
      shown (sys u') = shown (sys u) ++ piece_shown x ++ flat_map piece_shown l /\
      arrivals (sys u') = arrivals (sys u) /\ (forall a, a < text \/ text + 12 <= a -> rd (umem u') a = rd m0 a)).
  { intros k u1 Ek Hs1 Ha1 Hm1. destruct (IH n (p + Z.of_nat k) u1 Hl ltac:(cbn in Hn; lia) (Hrest k Ek)) as (u' & E & Hs' & Ha' & Hm');
      [lia|done|]. exists u'. rewrite E, Hs', Hs1, Ha', Ha1, <- app_assoc. done. }
  destruct x as [c|c|i|q t]; cbn [piece_ok piece_code piece_args piece_shown length app] in *;
    pose proof (Hch 0%nat _ eq_refl) as E0; rewrite Z.add_0_r in E0.
  - destruct Hx as [Hc H37]. rewrite (printf_plain n text p _ u c E0 Hc H37).
    apply (Hgo 1%nat); [done|apply putchar_shows|apply putchar_keeps|exact Hm].
  - destruct Hx as (Hc & Hd & Hns). rewrite (printf_escaped n text p _ u E0 c (Hch 1%nat c eq_refl) Hc Hd Hns).
    apply (Hgo 2%nat); [done|apply putchar_shows|apply putchar_keeps|exact Hm].
  - destruct (printf_number n text p (flat_map piece_args l) u E0 i (Hch 1%nat 100 eq_refl) Hx) as (m' & Hc & Ho & ->).
    pose proof (decimal_spec i Hx) as (_ & Hlen & _).
    apply (Hgo 2%nat); [done|apply print_shows; [done|lia]|apply print_keeps|].
    intros a Ha. cbn [umem with_sys with_umem]. rewrite Ho by done. by apply Hm.
  - destruct Hx as (Hc & Hlen & Hap). rewrite (printf_text n text p (flat_map piece_args l) u E0 q (Hch 1%nat 115 eq_refl)).
    apply (Hgo 2%nat); [done| |apply print_keeps|exact Hm].
    apply print_shows; [|done]. apply (cstr_ext (at_mem m0 q)); [|done].
    intros j Hj. unfold at_mem. apply Hm. lia.
Qed.
End printf.

(** ** Properties *)

(** C32. [itoa] writes the decimal numeral of any [int], the smallest one
    included: the returned pointer shows [decimal i], which reads back as
    [i], and nothing outside the twelve bytes of the buffer changes. *)
Theorem itoa_decimal text i m : -2147483648 <= i < 2147483648 ->
  exists p m', itoa text i m = Some (p, m') /\ text <= p <= text + 10 /\
    cstr (at_mem m' p) (decimal i) /\ number_of (decimal i) = i /\
    (forall a, a < text \/ text + 12 <= a -> rd m' a = rd m a).
Proof.
  intros Hi. destruct (itoa_spec text i m Hi) as (m' & E & Hs & Ho).
  destruct (decimal_spec i Hi) as (Hn & Hl & _).
  assert (Hpos : decimal i <> []) by (intros Hd; rewrite Hd in Hn; cbn in Hn; subst i; by vm_compute in Hd).
  eexists _, m'. split; [exact E|]. split; [|done].
  destruct (decimal i); [done|]. cbn [length] in *. lia.
Qed.

(** C27. The line editor: whatever keys arrive, after whatever waiting, the
    buffer ends up as the string the editing rules give (a backspace takes
    the last character away), shorter than [max], with every key echoed in
    order if asked, and no byte outside the [max] bytes of the buffer is
    written. *)
Theorem readline_edits {K} `{SysCalls K} n fuel out max echo (u : user K) evs r line e :
  1 <= max -> Forall (fun '(w, c) => (w < fuel)%nat /\ 0 < c < 128) evs -> (length evs < n)%nat ->
  arrivals (sys u) = waits evs ++ r -> line_of max [] (snd <$> evs) = Some (line, e) ->
  exists u', liebeos_terminal_readline n fuel out max echo u = Ret tt u' /\
    cstr (at_mem (umem u') out) line /\ Z.of_nat (length line) < max /\
    (forall a, a < out \/ out + max <= a -> rd (umem u') a = rd (umem u) a) /\
    shown (sys u') = shown (sys u) ++ (if echo then e else []).
Proof.
  intros Hmax Hev Hn Ha El.
  destruct (readline_spec n fuel out max echo u evs r line e Hmax Hev Hn Ha El)
    as (u' & E & Hs & Hl & Ho & Hsh & _). by exists u'.
Qed.

(** C33. [printf] shows exactly the rendering of its format: literal
    characters, [%d] as the decimal numeral of the next argument, [%s] as the
    string it points to, any other escaped character as itself; it writes
    only [itoa]'s buffer and comes back with 0. *)
Theorem printf_renders {K} `{SysCalls K} text fmt l n (u : user K) :
  Forall (piece_ok (umem u) text) l -> (length l < n)%nat ->
  cstr (at_mem (umem u) fmt) (flat_map piece_code l) ->
  fmt + Z.of_nat (length (flat_map piece_code l)) < text \/ text + 12 <= fmt ->
  exists u', printf n text fmt (flat_map piece_args l) u = Ret 0 u' /\
    shown (sys u') = shown (sys u) ++ flat_map piece_shown l /\ arrivals (sys u') = arrivals (sys u) /\
    (forall a, a < text \/ text + 12 <= a -> rd (umem u') a = rd (umem u) a).
Proof. intros Hl Hn Hs Hp. by apply (printf_loop_spec (umem u) text l n fmt u). Qed.

(** ** Witnesses *)

Definition machine (keys : list Z) (m : mem) : user console_machine :=
  {| umem := m; strtok_sp := 0; single_quote_started := false; double_quote_started := false;
     sys := {| c_keys := keys; c_shown := []; c_brk := 0x500000 |} |}.

Lemma itoa_decimal_witness : exists p m',
  itoa 0x1000 (-2147483648) ∅ = Some (p, m') /\
  cstr (at_mem m' p) [45; 50; 49; 52; 55; 52; 56; 51; 54; 52; 56].
Proof.
  destruct (itoa_decimal 0x1000 (-2147483648) ∅ ltac:(lia)) as (p & m' & E & _ & Hs & _).
  exists p, m'. split; [exact E|]. exact Hs.
Defined.

(** The keys a, b, backspace, c and enter, with one wait. *)
Lemma readline_edits_witness : exists u',
  liebeos_terminal_readline 9 9 0x1000 16 true (machine [97; 0; 98; 8; 99; 13] ∅) = Ret tt u' /\
  cstr (at_mem (umem u') 0x1000) [97; 99] /\ shown (sys u') = [97; 98; 8; 99].
Proof.
  destruct (readline_edits 9 9 0x1000 16 true (machine [97; 0; 98; 8; 99; 13] ∅)
    [(0%nat, 97); (1%nat, 98); (0%nat, 8); (0%nat, 99); (0%nat, 13)] [] [97; 99] [97; 98; 8; 99])
    as (u' & E & Hs & _ & _ & Hsh).
  - lia.
  - repeat (constructor; [lia|]). constructor.
  - cbn. lia.
  - reflexivity.
  - reflexivity.
  - exists u'. split; [exact E|]. split; [exact Hs|exact Hsh].
Defined.

(** The format [n=%d%%] with the argument 42. *)
Lemma printf_renders_witness : exists u',
  printf 9 0x2000 0x1000 [42] (machine [] (store_bytes ∅ 0x1000 [110; 61; 37; 100; 37; 37; 0])) = Ret 0 u' /\
  shown (sys u') = [110; 61; 52; 50; 37].
Proof.
  destruct (printf_renders 0x2000 0x1000 [plain 110; plain 61; number 42; escaped 37] 9
    (machine [] (store_bytes ∅ 0x1000 [110; 61; 37; 100; 37; 37; 0]))) as (u' & E & Hs & _).
  - repeat (constructor; [cbn; lia|]). constructor.
  - cbn. lia.
  - apply (store_bytes_cstr ∅ 0x1000 [110; 61; 37; 100; 37; 37]).
    repeat (constructor; [unfold char_ok; lia|]). constructor.
  - cbn. lia.
  - exists u'. split; [exact E|exact Hs].
Defined.
