(* ===== verification/UserParse.v ===== *)
(** * The command line: [strtok], [liebeos_parse_command], [liebeos_system_run]

    How the user library takes a command line apart, and that the list it
    builds is the one the kernel's [process_inject_arguments] reads
    ([ProcessArgs.arg_chain]). *)
From S2P Require Import Prelude Memory CString Process ProcessArgs UserLib.


(** ** The abstract view *)

Fixpoint skip_spaces (l : list Z) : list Z :=
  match l with
  | c :: l' => if c =? 32 then skip_spaces l' else l
  | [] => []
  end.

(** What the token is cut from: the token, the text behind the space that ends
    it if a space does, and the quote flags then.  A space only ends a token
    while a quote is open. *)
Fixpoint cut (sq dq : bool) (l : list Z) : list Z * option (list Z) * bool * bool :=
  match l with
  | [] => ([], None, sq, dq)
  | c :: l' =>
    let sq := if c =? 39 then negb sq else sq in
    let dq := if c =? 34 then negb dq else dq in
    if (sq || dq) && (c =? 32) then ([], Some l', sq, dq)
    else let '(t, r, sq', dq') := cut sq dq l' in (c :: t, r, sq', dq')
  end.

(** All tokens of a text. *)
Fixpoint tokens (n : nat) (sq dq : bool) (l : list Z) : list (list Z) :=
  match n with
  | O => []
  | S n' =>
    match skip_spaces l with
    | [] => []
    | l' => let '(t, r, sq, dq) := cut sq dq l' in t :: tokens n' sq dq (default [] r)
    end
  end.

(** ** Lemmas on texts *)

Lemma skip_spaces_drop l : exists k, (k <= length l)%nat /\ skip_spaces l = drop k l /\
  Forall (fun c => c = 32) (take k l).
Proof.
  induction l as [|c l IH]; [by exists 0%nat|]. cbn [skip_spaces]. destruct (Z.eqb_spec c 32) as [->|Hc].
  - destruct IH as (k & Hk & -> & Hf). exists (S k). cbn. split; [lia|]. split; [done|]. by constructor.
  - exists 0%nat. cbn. split; [lia|]. split; [done|constructor].
Qed.

Lemma skip_spaces_head l c l' : skip_spaces l = c :: l' -> c <> 32.
Proof.
  induction l as [|d l IH]; cbn [skip_spaces]; [done|]. destruct (Z.eqb_spec d 32) as [->|Hd]; [done|].
  by intros [= -> ->].
Qed.

(** The token and the rest put together again. *)
Lemma cut_split : forall l sq dq t r sq' dq', cut sq dq l = (t, r, sq', dq') ->
  l = t ++ match r with Some l' => 32 :: l' | None => [] end.
Proof.
  induction l as [|c l IH]; intros sq dq t r sq' dq'; cbn [cut]; [by intros [= <- <- _ _]|].
  destruct (((if c =? 39 then negb sq else sq) || (if c =? 34 then negb dq else dq)) && (c =? 32)) eqn:E.
  - intros [= <- <- _ _]. apply andb_prop in E as [_ E]. apply Z.eqb_eq in E as ->. done.
  - destruct (cut _ _ l) as [[[t' r'] s'] d'] eqn:Ec. intros [= <- <- _ _]. cbn.
    f_equal. by eapply IH.
Qed.

(** Without quotes nothing is cut. *)
Lemma cut_unquoted : forall l, Forall (fun c => c <> 39 /\ c <> 34) l -> cut false false l = (l, None, false, false).
Proof.
  induction 1 as [|c l [H1 H2] _ IH]; [done|]. cbn [cut].
  rewrite (proj2 (Z.eqb_neq c 39)), (proj2 (Z.eqb_neq c 34)) by done. cbn [orb andb]. by rewrite IH.
Qed.

Lemma tokens_unquoted n l : Forall (fun c => c <> 39 /\ c <> 34) l -> (1 < n)%nat ->
  tokens n false false l = match skip_spaces l with [] => [] | l' => [l'] end.
Proof.
  intros Hl Hn. destruct n as [|[|n]]; [lia|lia|]. cbn [tokens].
  destruct (skip_spaces l) as [|c l'] eqn:E; [done|].
  destruct (skip_spaces_drop l) as (k & _ & Ek & _). rewrite E in Ek.
  rewrite cut_unquoted; [by destruct n|]. rewrite Ek. by apply Forall_drop.
Qed.

(** ** Lemmas on memory *)

Lemma delimiter_space c : delimiter_index c [32] 0 = if c =? 32 then 0 else 1.
Proof. cbn. by destruct (c =? 32). Qed.

Lemma cstr_tail m p c l : cstr (at_mem m p) (c :: l) -> cstr (at_mem m (p + 1)) l.
Proof.
  intros Hs. pose proof (cstr_drop _ _ 1 Hs ltac:(cbn; lia)) as Hd. cbn [drop] in Hd.
  eapply cstr_ext; [|exact Hd]. intros i Hi. unfold at_mem. f_equal. lia.
Qed.

Lemma cstr_first m p c l : cstr (at_mem m p) (c :: l) -> rd m p = c /\ 0 < c < 256.
Proof.
  intros Hs. destruct (cstr_lookup _ _ 0 c Hs eq_refl) as [E Hc]. unfold at_mem in E. cbn in E.
  rewrite Z.add_0_r in E. done.
Qed.

Lemma cstr_end m p : cstr (at_mem m p) [] -> rd m p = 0.
Proof. intros Hs. pose proof (cstr_nul _ _ Hs) as E. unfold at_mem in E. cbn in E. by rewrite Z.add_0_r in E. Qed.

(** The first loop. *)
Lemma skip_spec m : forall l p n, cstr (at_mem m p) l -> (length l < n)%nat ->
  skip_delimiters n p [32] m = Some (p + Z.of_nat (length l - length (skip_spaces l))) /\
  cstr (at_mem m (p + Z.of_nat (length l - length (skip_spaces l)))) (skip_spaces l) /\
  (length (skip_spaces l) <= length l)%nat.
Proof.
  induction l as [|c l IH]; intros p n Hs Hn; (destruct n as [|n]; [cbn in Hn; lia|]);
    cbn [skip_delimiters skip_spaces]; rewrite delimiter_space.
  - rewrite (cstr_end m p Hs). cbn. rewrite Z.add_0_r. done.
  - destruct (cstr_first m p c l Hs) as [-> Hc]. destruct (Z.eqb_spec c 32) as [->|Hne].
    + cbn [length Z.of_nat Z.eqb]. destruct (IH (p + 1) n (cstr_tail _ _ _ _ Hs) ltac:(cbn in Hn; lia)) as (E & Hs' & Hl).
      cbn [length] in *. replace (p + Z.of_nat (S (length l) - length (skip_spaces l)))
        with (p + 1 + Z.of_nat (length l - length (skip_spaces l))) by lia.
      split; [exact E|]. split; [done|lia].
    + cbn [length Z.of_nat]. rewrite Nat.sub_diag, Z.add_0_r. done.
Qed.

(** The second loop. *)
Lemma token_end_spec m : forall l p n sq dq t r sq' dq', cstr (at_mem m p) l -> (length l < n)%nat ->
  cut sq dq l = (t, r, sq', dq') ->
  token_end n p 1 [32] sq dq m =
    Some (match r with
          | Some _ => (p + Z.of_nat (length t) + 1, sq', dq', wr m (p + Z.of_nat (length t)) 0)
          | None => (p + Z.of_nat (length t), sq', dq', m)
          end).
Proof.
  induction l as [|c l IH]; intros p n sq dq t r sq' dq' Hs Hn; (destruct n as [|n]; [cbn in Hn; lia|]);
    cbn [cut token_end].
  - intros [= <- <- <- <-]. rewrite (cstr_end m p Hs). cbn. by rewrite Z.add_0_r.
  - destruct (cstr_first m p c l Hs) as [-> Hc]. rewrite (proj2 (Z.eqb_neq c 0)) by lia.
    rewrite delimiter_space. set (s := if c =? 39 then negb sq else sq). set (d := if c =? 34 then negb dq else dq).
    change (Z.of_nat (length [32])) with 1.
    destruct (s || d); cbn [andb]; [destruct (Z.eqb_spec c 32) as [->|Hne]|].
    1:{ intros [= <- <- <- <-]. cbn. by rewrite !Z.add_0_r. }
    all: rewrite ?Z.ltb_irrefl; destruct (cut s d l) as [[[t' r'] s'] d'] eqn:Ec; intros [= <- <- <- <-];
      rewrite (IH (p + 1) n s d t' r' s' d' (cstr_tail _ _ _ _ Hs) ltac:(cbn in Hn; lia) Ec);
      cbn [length]; replace (p + 1 + Z.of_nat (length t')) with (p + Z.of_nat (S (length t'))) by lia;
      by destruct r'.
Qed.

(** ** [strtok] in a buffer *)

(** The token and the rest after the space between them was cleared. *)
Lemma cut_memory m q t r :
  cstr (at_mem m q) (t ++ match r with Some l' => 32 :: l' | None => [] end) ->
  let m' := match r with Some _ => wr m (q + Z.of_nat (length t)) 0 | None => m end in
  let sp' := q + Z.of_nat (length t) + match r with Some _ => 1 | None => 0 end in
  cstr (at_mem m' q) t /\ cstr (at_mem m' sp') (default [] r) /\
  (forall a, a <> q + Z.of_nat (length t) -> rd m' a = rd m a).
Proof.
  intros Hs. pose proof (cstr_ok _ _ Hs) as Hok. apply Forall_app in Hok as [Hok _].
  pose proof (cstr_drop _ _ (length t) Hs ltac:(rewrite length_app; lia)) as Hd. rewrite drop_app_length in Hd.
  destruct r as [l'|]; cbv zeta; cbn [default].
  - split; [|split].
    + apply cstr_intro; [done|apply rd_wr_eq|]. intros j x Hj. pose proof (lookup_lt_Some _ _ _ Hj).
      rewrite rd_wr_ne by lia. apply (cstr_chars _ _ Hs). by rewrite lookup_app_l.
    + pose proof (cstr_drop _ _ 1 Hd ltac:(cbn; lia)) as Hd1. cbn [drop] in Hd1.
      eapply cstr_ext; [|exact Hd1]. intros i Hi. unfold at_mem. rewrite rd_wr_ne by lia. f_equal. lia.
    + intros a Ha. by apply rd_wr_ne.
  - rewrite app_nil_r in Hs. split; [done|]. split; [|done].
    eapply cstr_ext; [|exact Hd]. intros i Hi. unfold at_mem. f_equal. lia.
Qed.

Section parse.
Context {K : Type} `{SysCalls K}.

(** The text left to scan is [l] from [p] on, in the buffer [tb, te). *)
Record scanning (u : user K) (tb te p : Z) (l : list Z) : Prop := {
  sn_text : cstr (at_mem (umem u) p) l;
  sn_range : 0 < tb <= p /\ p + Z.of_nat (length l) < te;
  sn_mine : forall a, tb <= a < te -> mine (sys u) a }.

(** What a call of [strtok] returned: the next of the tokens [ts], or null. *)
Definition pending (u : user K) (tb te token : Z) (ts : list (list Z)) : Prop :=
  (token = 0 /\ ts = [] /\ strtok_sp u = 0) \/
  (token <> 0 /\ strtok_sp u <> 0 /\ exists t l k, (length l < k)%nat /\
     ts = t :: tokens k (single_quote_started u) (double_quote_started u) l /\
     cstr (at_mem (umem u) token) t /\ tb <= token /\ token + Z.of_nat (length t) < te /\
     scanning u tb te (strtok_sp u) l).

Lemma strtok_spec n k str u tb te p l :
  scanning u tb te p l -> (length l < n)%nat -> (length l < k)%nat ->
  str <> 0 /\ strtok_sp u = 0 /\ p = str \/ strtok_sp u <> 0 /\ p = strtok_sp u ->
  exists token u', strtok n str [32] u = Ret token u' /\
    pending u' tb te token (tokens k (single_quote_started u) (double_quote_started u) l) /\
    sys u' = sys u /\ (forall a, a < tb \/ te <= a -> rd (umem u') a = rd (umem u) a).
Proof.
  intros [Hs Hr Hmi] Hn Hk Hp. unfold strtok.
  rewrite (bind_Ret _ _ _ (strtok_sp u) u) by done.
  assert (E0 : (str =? 0) && (strtok_sp u =? 0) = false).
  { destruct Hp as [(H0 & _)|[H0 _]]; [by rewrite (proj2 (Z.eqb_neq str 0))|].
    rewrite (proj2 (Z.eqb_neq (strtok_sp u) 0)) by done. apply andb_false_r. }
  assert (Ep : (if negb (str =? 0) && (strtok_sp u =? 0) then str else strtok_sp u) = p).
  { destruct Hp as [(H0 & -> & ->)|[H0 ->]]; [by rewrite (proj2 (Z.eqb_neq str 0))|].
    rewrite (proj2 (Z.eqb_neq (strtok_sp u) 0)) by done. by rewrite andb_false_r. }
  rewrite E0, Ep. rewrite (bind_Ret _ _ _ (umem u) u) by done.
  destruct (skip_spec (umem u) l p n Hs Hn) as (-> & Hs' & Hl').
  set (q := p + Z.of_nat (length l - length (skip_spaces l))) in *.
  rewrite (bind_Ret _ _ _ (single_quote_started u) u) by done.
  rewrite (bind_Ret _ _ _ (double_quote_started u) u) by done.
  destruct k as [|k]; [lia|]. cbn [tokens].
  destruct (skip_spaces l) as [|c l'] eqn:El.
  { rewrite (cstr_end _ _ Hs'). cbn [Z.eqb]. eexists _, _. split; [reflexivity|].
    split; [by left|]. split; [done|]. intros a _. done. }
  destruct (cstr_first _ _ _ _ Hs') as [E Hc]. rewrite E, (proj2 (Z.eqb_neq c 0)) by lia.
  destruct (cut (single_quote_started u) (double_quote_started u) (c :: l')) as [[[t r] sq'] dq'] eqn:Ec.
  change (Z.of_nat (length [32])) with 1.
  rewrite (token_end_spec (umem u) (c :: l') q n _ _ t r sq' dq' Hs' ltac:(lia) Ec).
  pose proof (cut_split _ _ _ _ _ _ _ Ec) as Esplit.
  destruct (cut_memory (umem u) q t r) as (Ht & Hr' & Ho); [by rewrite <- Esplit|].
  set (m' := match r with Some _ => wr (umem u) (q + Z.of_nat (length t)) 0 | None => umem u end) in *.
  set (sp' := q + Z.of_nat (length t) + match r with Some _ => 1 | None => 0 end) in *.
  assert (Hlen : Z.of_nat (length (c :: l')) = Z.of_nat (length t) + match r with Some x => 1 + Z.of_nat (length x) | None => 0 end)
    by (rewrite Esplit, length_app; destruct r; cbn [length]; lia).
  exists q, (with_strtok sp' sq' dq' (with_umem m' u)). split.
  { unfold sp', m'. destruct r; [done|]. rewrite Z.add_0_r. done. }
  split; [right|split; [done|]].
  - split; [lia|]. split; [cbn; destruct r; lia|]. exists t, (default [] r), k.
    cbn [strtok_sp single_quote_started double_quote_started umem with_strtok with_umem].
    assert (Hd : Z.of_nat (length (default [] r)) = match r with Some x => Z.of_nat (length x) | None => 0 end) by (by destruct r).
    split; [destruct r; cbn [default] in *; cbn [length] in *; lia|]. split; [done|]. split; [done|]. split; [lia|].
    split; [destruct r; lia|]. split; [done|destruct r; unfold sp' in *; lia|done].
  - intros a Ha. apply Ho. destruct r; lia.
Qed.
End parse.

(** ** Building the list *)

Lemma intervals_apart (P : Z -> Prop) x n y k : 0 < n -> 0 < k ->
  (forall a, x <= a < x + n -> ~ P a) -> (forall a, y <= a < y + k -> P a) -> x + n <= y \/ y + k <= x.
Proof.
  intros Hn Hk H1 H2. destruct (decide (x + n <= y \/ y + k <= x)) as [|Hno]; [done|].
  exfalso. apply (H1 (Z.max x y)); [lia|]. apply H2. lia.
Qed.

Section build.
Context {K : Type} `{SysCalls K}.

(** The last node of the list: the program's own, apart from the text. *)
Record last_node (u : user K) (tb te cur : Z) : Prop := {
  ln_mine : forall a, cur <= a < cur + 516 -> mine (sys u) a;
  ln_apart : cur + 516 <= tb \/ te <= cur;
  ln_next : ld32 (umem u) (cur + ca_next) = 0 }.

(** A node filled with the string [t] in the fresh block [nb]. *)
Definition new_node (m : mem) (nb token : Z) : mem := st32 (strncpy nb token 512 m) (nb + ca_next) 0.

Lemma new_node_spec m nb token t : 0 < nb -> cstr (at_mem m token) t ->
  nb + 516 <= token \/ token + Z.of_nat (length t) < nb ->
  cstr (at_mem (new_node m nb token) nb) (take 511 t) /\ ld32 (new_node m nb token) (nb + ca_next) = 0 /\
  (forall a, a < nb \/ nb + 516 <= a -> rd (new_node m nb token) a = rd m a).
Proof.
  intros Hp Ht Hap. unfold new_node, ca_next.
  pose proof (strncpy_cstr t nb token 512 m Ht ltac:(lia)) as Hs. change (Z.to_nat (512 - 1)) with 511%nat in Hs.
  destruct (strncpy_mem t nb token 512 m Ht ltac:(lia)) as (_ & _ & Ho).
  split; [|split].
  - eapply cstr_ext; [|exact Hs]. intros i Hi. unfold at_mem. rewrite length_take in Hi. apply rd_st32_ne. lia.
  - by rewrite ld32_st32_eq.
  - intros a Ha. rewrite rd_st32_ne by lia. apply Ho. lia.
Qed.

(** One more node: the state after it was filled, and linked. *)
Definition planted (u : user K) (m : mem) (k : K) (nb token : Z) : user K :=
  with_umem (new_node m nb token) (with_sys k (with_umem m u)).
Definition linked (u : user K) (m : mem) (k : K) (cur nb token : Z) : user K :=
  with_umem (st32 (new_node m nb token) (cur + ca_next) nb) (with_sys k (with_umem m u)).

Lemma parse_loop_step n fuel cur token u m k nb : token <> 0 -> nb <> 0 ->
  sys_malloc sizeof_command_argument (umem u) (sys u) = (nb, m, k) ->
  parse_loop (S n) fuel cur token u =
    (let! token := strtok fuel 0 [32] in parse_loop n fuel nb token) (linked u m k cur nb token).
Proof.
  intros Ht Hn E. cbn [parse_loop]. rewrite (proj2 (Z.eqb_neq token 0)) by done.
  unfold bind at 1. unfold liebeos_malloc. rewrite E. by rewrite (proj2 (Z.eqb_neq nb 0)).
Qed.

Lemma parse_loop_full n fuel cur token u m k : token <> 0 ->
  sys_malloc sizeof_command_argument (umem u) (sys u) = (0, m, k) ->
  parse_loop (S n) fuel cur token u = Ret tt (with_sys k (with_umem m u)).
Proof.
  intros Ht E. cbn [parse_loop]. rewrite (proj2 (Z.eqb_neq token 0)) by done.
  unfold bind at 1. unfold liebeos_malloc. by rewrite E.
Qed.

(** The memory after a node was filled. *)
Lemma planted_spec u m k tb te nb token t :
  (forall a, tb <= a < te -> mine (sys u) a) ->
  sys_malloc sizeof_command_argument (umem u) (sys u) = (nb, m, k) -> nb <> 0 ->
  cstr (at_mem (umem u) token) t -> tb <= token -> token + Z.of_nat (length t) < te ->
  let u' := planted u m k nb token in
  0 < nb /\ nb + 516 <= 4294967296 /\ (forall a, nb <= a < nb + 516 -> ~ mine (sys u) a) /\ last_node u' tb te nb /\
  cstr (at_mem (umem u') nb) (take 511 t) /\
  (forall a, mine (sys u) a -> mine (sys u') a /\ rd (umem u') a = rd (umem u) a).
Proof.
  intros Htm E Hnb Ht Htb Hte u'. assert (Hsz : 0 < sizeof_command_argument) by done.
  destruct (malloc_fresh _ _ _ _ _ _ Hsz E) as ([?|(Hp & Htop & Hfr)] & Hkeep & _ & _); [done|].
  unfold sizeof_command_argument in *.
  assert (Hf : forall a, nb <= a < nb + 516 -> ~ mine (sys u) a) by (intros a Ha; by apply Hfr).
  assert (A1 : nb + 516 <= tb \/ te <= nb)
    by (pose proof (intervals_apart _ nb 516 tb (te - tb) ltac:(lia) ltac:(lia) Hf (fun a Ha => Htm a ltac:(lia))); lia).
  assert (Hm : forall a, mine (sys u) a -> rd m a = rd (umem u) a) by (intros a Ha; by apply Hkeep).
  destruct (new_node_spec m nb token t Hp) as (N1 & N2 & N3); [|lia|].
  { eapply cstr_ext; [|exact Ht]. intros i Hi. unfold at_mem. apply Hm, Htm. lia. }
  split; [done|]. split; [done|]. split; [done|]. split; [split; [intros a Ha; by apply Hfr|done|exact N2]|].
  split; [exact N1|]. intros a Ha. split; [by apply Hkeep|]. cbn [umem planted with_umem].
  rewrite <- Hm by done. apply N3. destruct (decide (nb <= a < nb + 516)) as [Hin|]; [|lia].
  exfalso. by apply (Hf a Hin).
Qed.

(** And linked to the last one. *)
Lemma linked_spec u m k tb te cur nb token t :
  last_node u tb te cur -> (forall a, tb <= a < te -> mine (sys u) a) ->
  sys_malloc sizeof_command_argument (umem u) (sys u) = (nb, m, k) -> nb <> 0 ->
  cstr (at_mem (umem u) token) t -> tb <= token -> token + Z.of_nat (length t) < te ->
  let u' := linked u m k cur nb token in
  0 < nb /\ (forall a, nb <= a < nb + 516 -> ~ mine (sys u) a) /\ last_node u' tb te nb /\
  cstr (at_mem (umem u') nb) (take 511 t) /\ ld32 (umem u') (cur + ca_next) = nb /\
  (forall a, mine (sys u) a -> mine (sys u') a) /\
  (forall a, mine (sys u) a -> a < cur + ca_next \/ cur + 516 <= a -> rd (umem u') a = rd (umem u) a).
Proof.
  intros [Hcm Hca _] Htm E Hnb Ht Htb Hte u'.
  destruct (planted_spec u m k tb te nb token t Htm E Hnb Ht Htb Hte) as (Hp & Htop & Hf & [L1 L2 L3] & Hnode & Hkeep).
  assert (A2 : nb + 516 <= cur \/ cur + 516 <= nb) by (apply (intervals_apart (mine (sys u))); (done || lia)).
  unfold u', linked. cbn [umem sys planted with_umem with_sys] in *. unfold ca_next in *.
  split; [done|]. split; [done|]. split; [split|split; [|split; [|split]]]; cbn [umem sys with_umem with_sys].
  - done.
  - done.
  - unfold ca_next. by rewrite ld32_st32_ne by lia.
  - eapply cstr_ext; [|exact Hnode]. intros i Hi. unfold at_mem. rewrite length_take in Hi. apply rd_st32_ne. lia.
  - rewrite ld32_st32_eq. apply u32_id. lia.
  - intros a Ha. by apply Hkeep.
  - intros a Ha Hout. rewrite rd_st32_ne by lia. by apply Hkeep.
Qed.
End build.

Section list.
Context {K : Type} `{SysCalls K}.

(** A run of allocations of list nodes: the machine before, the addresses
    answered, the machine after. *)
Inductive allocs : K -> list Z -> K -> Prop :=
| allocs_nil k : allocs k [] k
| allocs_cons m k p m1 k1 ps k' :
    sys_malloc sizeof_command_argument m k = (p, m1, k1) -> allocs k1 ps k' -> allocs k (p :: ps) k'.

(** The machine did one allocation for each node of the list, in order; and
    either there is a node for every token, or the next allocation was
    answered with 0, and that was the end. *)
Definition built (u u' : user K) (ts : list (list Z)) (nodes : list (Z * list Z)) : Prop :=
  (length nodes = length ts /\ allocs (sys u) (fst <$> nodes) (sys u')) \/
  ((length nodes < length ts)%nat /\ exists m k, allocs (sys u) (fst <$> nodes) k /\
     sys_malloc sizeof_command_argument m k = (0, umem u', sys u')).

Lemma built_none u u' : sys u' = sys u -> built u u' [] [].
Proof. intros E. left. rewrite E. by split; [|constructor]. Qed.

Lemma built_failed u u' ts : ts <> [] ->
  sys_malloc sizeof_command_argument (umem u) (sys u) = (0, umem u', sys u') -> built u u' ts [].
Proof.
  intros Hts E. right. split; [by destruct ts; cbn; [|lia]|]. exists (umem u), (sys u).
  by split; [constructor|].
Qed.

Lemma built_cons u u2 u' m m1 nb t s ts nodes :
  sys_malloc sizeof_command_argument m (sys u) = (nb, m1, sys u2) -> built u2 u' ts nodes ->
  built u u' (t :: ts) ((nb, s) :: nodes).
Proof.
  intros E [[Hl Ha]|(Hl & m2 & k & Ha & E2)]; [left|right]; cbn [length fmap list_fmap fst].
  - split; [lia|]. by eapply allocs_cons.
  - split; [lia|]. exists m2, k. split; [by eapply allocs_cons|done].
Qed.

(** What the loop leaves: a chain of nodes from [a] that holds a part of the
    tokens [ts], all of them exactly when [strtok] ran to the end. *)
Record parsed (u u' : user K) (a : Z) (ts : list (list Z)) (nodes : list (Z * list Z)) : Prop := {
  pa_chain : arg_chain (umem u') a nodes;
  pa_strings : snd <$> nodes = take 511 <$> take (length nodes) ts;
  pa_all : strtok_sp u' = 0 <-> length nodes = length ts;
  pa_built : built u u' ts nodes;
  pa_fresh : forall b s x, (b, s) ∈ nodes -> b <= x < b + 516 -> ~ mine (sys u) x }.

Lemma parsed_none u u' ts : (strtok_sp u' = 0 <-> ts = []) -> built u u' ts [] -> parsed u u' 0 ts [].
Proof.
  intros Hsp Hbu. split; try done.
  - rewrite Hsp. destruct ts; cbn; split; done.
  - intros b s x Hb. by apply not_elem_of_nil in Hb.
Qed.

Lemma parse_loop_nomem n fuel tb te cur token ts u m k : token <> 0 -> strtok_sp u <> 0 -> ts <> [] ->
  sys_malloc sizeof_command_argument (umem u) (sys u) = (0, m, k) -> last_node u tb te cur ->
  exists u' nodes, parse_loop (S n) fuel cur token u = Ret tt u' /\
    parsed u u' (ld32 (umem u') (cur + ca_next)) ts nodes /\
    (forall a, mine (sys u) a -> mine (sys u') a) /\
    (forall a, mine (sys u) a -> a < tb \/ te <= a -> a < cur + ca_next \/ cur + 516 <= a ->
       rd (umem u') a = rd (umem u) a).
Proof.
  intros Ht Hsp Hts E Hln. rewrite (parse_loop_full _ _ _ _ _ _ _ Ht E).
  assert (Hsz : 0 < sizeof_command_argument) by done.
  destruct (malloc_fresh _ _ _ _ _ _ Hsz E) as (_ & Hkeep & _ & _).
  eexists _, []. split; [reflexivity|]. cbn [umem sys with_sys with_umem].
  rewrite (ld32_ext (umem u) m (cur + ca_next)), (ln_next _ _ _ _ Hln).
  - split; [apply parsed_none; [by cbn|by apply built_failed]|].
    split; [intros a Ha|intros a Ha _ _]; by apply Hkeep.
  - intros i Hi. apply Hkeep, (ln_mine _ _ _ _ Hln). unfold ca_next. lia.
Qed.

Lemma linked_scanning u m k tb te cur nb token l : let u1 := linked u m k cur nb token in
  last_node u tb te cur -> scanning u tb te (strtok_sp u) l ->
  (forall a, mine (sys u) a -> mine (sys u1) a) ->
  (forall a, mine (sys u) a -> a < cur + ca_next \/ cur + 516 <= a -> rd (umem u1) a = rd (umem u) a) ->
  scanning u1 tb te (strtok_sp u) l.
Proof.
  intros u1 Hln [S1 S2 S3] Hmono Hkeep. split; [|done|intros a Ha; by apply Hmono, S3].
  eapply cstr_ext; [|exact S1]. intros i Hi. unfold at_mem. apply Hkeep; [apply S3; lia|].
  pose proof (ln_apart _ _ _ _ Hln). unfold ca_next. lia.
Qed.

(** A node in front of the list the rest left. *)
Lemma parsed_command_cons u u1 u2 u' m tb te nb t ts nodes :
  sys_malloc sizeof_command_argument (umem u) (sys u) = (nb, m, sys u1) ->
  0 < nb -> sys u2 = sys u1 -> (forall a, mine (sys u) a -> mine (sys u1) a) ->
  (forall a, nb <= a < nb + 516 -> ~ mine (sys u) a) -> last_node u2 tb te nb ->
  cstr (at_mem (umem u1) nb) (take 511 t) -> (forall a, a < tb \/ te <= a -> rd (umem u2) a = rd (umem u1) a) ->
  (forall a, mine (sys u2) a -> a < tb \/ te <= a -> a < nb + ca_next \/ nb + 516 <= a ->
     rd (umem u') a = rd (umem u2) a) ->
  parsed u2 u' (ld32 (umem u') (nb + ca_next)) ts nodes ->
  parsed u u' nb (t :: ts) ((nb, take 511 t) :: nodes).
Proof.
  intros Em Hp Hs2 Hmono Hfresh [L1 L2 _] Hnode Ho2 Hkeep [P1 P2 P3 Pb P4]. split.
  - cbn [arg_chain]. split; [done|]. split; [lia|]. split; [|split; [rewrite length_take; unfold sizeof_argument; lia|exact P1]].
    eapply cstr_ext; [|exact Hnode]. intros i Hi. rewrite length_take in Hi. unfold at_mem.
    rewrite <- Ho2 by lia. apply Hkeep; [apply L1; lia|lia|unfold ca_next; lia].
  - cbn [fmap list_fmap snd length take]. by rewrite P2.
  - cbn [length]. rewrite P3. lia.
  - rewrite <- Hs2 in Em. by eapply built_cons.
  - intros b s x Hb Hx. apply elem_of_cons in Hb as [[= -> ->]|Hb]; [by apply Hfresh|].
    intros Hm. apply (P4 b s x Hb Hx). rewrite Hs2. by apply Hmono.
Qed.

Lemma parse_loop_spec fuel tb te : forall n ts u cur token,
  pending u tb te token ts -> (length ts < n)%nat -> te - tb <= Z.of_nat fuel ->
  last_node u tb te cur -> (forall a, tb <= a < te -> mine (sys u) a) ->
  exists u' nodes, parse_loop n fuel cur token u = Ret tt u' /\
    parsed u u' (ld32 (umem u') (cur + ca_next)) ts nodes /\
    (forall a, mine (sys u) a -> mine (sys u') a) /\
    (forall a, mine (sys u) a -> a < tb \/ te <= a -> a < cur + ca_next \/ cur + 516 <= a ->
       rd (umem u') a = rd (umem u) a).
Proof.
  induction n as [|n IH]; intros ts u cur token Hp Hn Hf Hln Htm; [lia|].
  destruct Hp as [(-> & -> & Hsp)|(Ht & Hsp & t & l & k & Hk & -> & Hs & Htb & Hte & Hsc)].
  { exists u, []. split; [done|]. rewrite (ln_next _ _ _ _ Hln).
    split; [by apply parsed_none; [|apply built_none]|]. done. }
  destruct (sys_malloc sizeof_command_argument (umem u) (sys u)) as [[nb m] k'] eqn:E.
  destruct (decide (nb = 0)) as [->|Hnb]; [by eapply parse_loop_nomem|].
  rewrite (parse_loop_step n fuel cur token u m k' nb Ht Hnb E).
  destruct (linked_spec u m k' tb te cur nb token t Hln Htm E Hnb Hs Htb Hte)
    as (Hp0 & Hfresh & Hln1 & Hnode & Hnext & Hmono & Hkeep).
  set (u1 := linked u m k' cur nb token) in *.
  assert (Hout : forall a, mine (sys u) a -> a < nb \/ nb + 516 <= a).
  { intros a Ha. destruct (decide (nb <= a < nb + 516)) as [Hin|]; [|lia]. exfalso. by apply (Hfresh a Hin). }
  pose proof (linked_scanning u m k' tb te cur nb token l Hln Hsc Hmono Hkeep) as Hsc1. fold u1 in Hsc1.
  pose proof (sn_range _ _ _ _ _ Hsc1) as Hrange.
  destruct (strtok_spec fuel k 0 u1 tb te (strtok_sp u) l Hsc1 ltac:(lia) Hk)
    as (token' & u2 & E2 & Hp2 & Hs2 & Ho2); [by right|].
  rewrite (bind_Ret _ _ _ _ _ E2).
  assert (Hln2 : last_node u2 tb te nb).
  { destruct Hln1 as [L1 L2 L3]. split; [by rewrite Hs2|done|]. rewrite <- L3. apply ld32_ext.
    intros i Hi. apply Ho2. unfold ca_next. lia. }
  destruct (IH (tokens k (single_quote_started u) (double_quote_started u) l) u2 nb token' Hp2 ltac:(cbn in Hn; lia) Hf Hln2)
    as (u' & nodes & E' & Hpd & Hmono' & Hkeep'); [intros a Ha; rewrite Hs2; by apply Hmono, Htm|].
  assert (Hword : forall a, mine (sys u) a -> a < tb \/ te <= a -> rd (umem u') a = rd (umem u1) a).
  { intros a Ha Hta. specialize (Hout a Ha). rewrite <- Ho2 by done.
    apply Hkeep'; [rewrite Hs2; by apply Hmono|done|unfold ca_next; lia]. }
  assert (Enb : ld32 (umem u') (cur + ca_next) = nb).
  { rewrite <- Hnext. apply ld32_ext. intros i Hi. pose proof (ln_apart _ _ _ _ Hln). unfold ca_next in *.
    apply Hword; [apply (ln_mine _ _ _ _ Hln); lia|lia]. }
  exists u', ((nb, take 511 t) :: nodes). split; [exact E'|]. rewrite Enb.
  split; [by apply (parsed_command_cons u u1 u2 u' m tb te)|split].
  - intros a Ha. apply Hmono'. rewrite Hs2. by apply Hmono.
  - intros a Ha Hta Hca. rewrite Hword by done. by apply Hkeep.
Qed.
End list.

(** ** The whole command *)

Lemma tokens_length n : forall sq dq l, (length (tokens n sq dq l) <= length l)%nat.
Proof.
  induction n as [|n IH]; intros sq dq l; cbn [tokens]; [cbn; lia|].
  destruct (skip_spaces_drop l) as (k & Hk & E & _).
  destruct (skip_spaces l) as [|c l'] eqn:El; [cbn; lia|].
  destruct (cut sq dq (c :: l')) as [[[t r] sq'] dq'] eqn:Ec. pose proof (cut_split _ _ _ _ _ _ _ Ec) as Es.
  assert (Hl : (length (c :: l') <= length l)%nat) by (rewrite E, length_drop; lia).
  assert (Ht : (length (default [] r) < length (c :: l'))%nat).
  { destruct r as [r|]; [|cbn; lia]. rewrite Es, length_app. cbn. lia. }
  specialize (IH sq' dq' (default [] r)). cbn [length] in *. lia.
Qed.

Section command.
Context {K : Type} `{SysCalls K}.

(** The result of parsing: the list, the memory around it. *)
Record command_list (u u' : user K) (scommand root : Z) (ts : list (list Z)) (nodes : list (Z * list Z)) : Prop := {
  cm_parsed : parsed u u' root ts nodes;
  cm_mine : forall a, mine (sys u) a -> mine (sys u') a;
  cm_frame : forall a, mine (sys u) a -> a < scommand \/ scommand + 1025 <= a -> rd (umem u') a = rd (umem u) a }.

(** The first token is there: the root node and the loop. *)
Lemma parse_root_spec n fuel scommand u token ts : let te := scommand + 1025 in
  pending u scommand te token ts -> token <> 0 -> (length ts <= n)%nat -> (1025 <= fuel)%nat ->
  (forall a, scommand <= a < te -> mine (sys u) a) ->
  exists r u' nodes,
    (let! root_command := liebeos_malloc sizeof_command_argument in
     if root_command =? 0 then ret 0
     else
       ustrncpy root_command token 512 ;;;
       ustore32 (root_command + ca_next) 0 ;;;
       let! token := strtok fuel 0 [32] in
       parse_loop n fuel root_command token ;;;
       ret root_command) u = Ret r u' /\ command_list u u' scommand r ts nodes.
Proof.
  intros te Hp Ht Hn Hf Htm. destruct Hp as [(? & _)|(_ & Hsp & t & l & k & Hk & -> & Hs & Htb & Hte & Hsc)]; [done|].
  destruct (sys_malloc sizeof_command_argument (umem u) (sys u)) as [[nb m] k'] eqn:E.
  unfold bind at 1. unfold liebeos_malloc. rewrite E. assert (Hsz : 0 < sizeof_command_argument) by done.
  destruct (Z.eqb_spec nb 0) as [->|Hnb].
  { destruct (malloc_fresh _ _ _ _ _ _ Hsz E) as (_ & Hkeep & _ & _). eexists _, _, []. split; [reflexivity|].
    split; [apply parsed_none; [by cbn|by apply built_failed]| |]; intros a Ha; [by apply Hkeep|intros _; by apply Hkeep]. }
  destruct (planted_spec u m k' scommand te nb token t Htm E Hnb Hs Htb Hte) as (Hp0 & Htop & Hfresh & Hln & Hnode & Hkeep).
  set (u1 := planted u m k' nb token) in *.
  assert (Hsc1 : scanning u1 scommand te (strtok_sp u) l).
  { destruct Hsc as [S1 S2 S3]. split; [|done|intros a Ha; by apply Hkeep, S3].
    eapply cstr_ext; [|exact S1]. intros i Hi. unfold at_mem. apply Hkeep, S3. lia. }
  pose proof (sn_range _ _ _ _ _ Hsc1) as Hrange.
  destruct (strtok_spec fuel k 0 u1 scommand te (strtok_sp u) l Hsc1 ltac:(lia) Hk)
    as (token' & u2 & E2 & Hp2 & Hs2 & Ho2); [by right|].
  assert (Hln2 : last_node u2 scommand te nb).
  { destruct Hln as [L1 L2 L3]. split; [by rewrite Hs2|done|]. rewrite <- L3. apply ld32_ext.
    intros i Hi. apply Ho2. unfold ca_next. lia. }
  destruct (parse_loop_spec fuel scommand te n _ u2 nb token' Hp2 ltac:(cbn in Hn |- *; lia) ltac:(lia) Hln2)
    as (u' & nodes & E' & Hparsed & Hmono' & Hkeep'); [intros a Ha; rewrite Hs2; by apply Hkeep, Htm|].
  exists nb, u', ((nb, take 511 t) :: nodes). split.
  - change (ustrncpy nb token 512 ;;; _) with (ustrncpy nb token 512 ;;; ustore32 (nb + ca_next) 0 ;;;
      let! token := strtok fuel 0 [32] in parse_loop n fuel nb token ;;; ret nb).
    rewrite (bind_Ret _ _ _ tt (with_umem (strncpy nb token 512 m) (with_sys k' (with_umem m u)))) by done.
    rewrite (bind_Ret _ _ _ tt u1) by done. rewrite (bind_Ret _ _ _ _ _ E2).
    by rewrite (bind_Ret _ _ _ _ _ E').
  - split.
    + apply (parsed_command_cons u u1 u2 u' m scommand te); try done. intros a Ha. by apply Hkeep.
    + intros a Ha. apply Hmono'. rewrite Hs2. by apply Hkeep.
    + intros a Ha Hta. destruct (decide (nb <= a < nb + 516)) as [Hin|]; [exfalso; by apply (Hfresh a Hin)|].
      rewrite Hkeep', Ho2; [by apply Hkeep|lia|rewrite Hs2; by apply Hkeep|lia|unfold ca_next; lia].
Qed.

Lemma parse_command_spec n fuel scommand command max u l : max < 1025 -> strtok_sp u = 0 -> 0 < scommand ->
  cstr (at_mem (umem u) command) l ->
  command + Z.of_nat (length l) < scommand \/ scommand + 1025 <= command ->
  (forall a, scommand <= a < scommand + 1025 -> mine (sys u) a) -> (1024 <= n)%nat -> (1025 <= fuel)%nat ->
  exists r u' nodes, liebeos_parse_command n fuel scommand command max u = Ret r u' /\
    command_list u u' scommand r
      (tokens 1025 (single_quote_started u) (double_quote_started u) (take 1024 l)) nodes.
Proof.
  intros Hmax Hsp Hp Hs Hap Hmi Hn Hf. unfold liebeos_parse_command.
  rewrite (proj2 (Z.leb_gt 1025 max)) by lia.
  set (u1 := with_umem (strncpy scommand command 1025 (umem u)) u).
  rewrite (bind_Ret _ _ _ tt u1) by done.
  pose proof (strncpy_cstr l scommand command 1025 (umem u) Hs ltac:(lia)) as Hc.
  change (Z.to_nat (1025 - 1)) with 1024%nat in Hc.
  destruct (strncpy_mem l scommand command 1025 (umem u) Hs ltac:(lia)) as (_ & _ & Ho).
  set (l' := take 1024 l) in *. assert (Hl' : (length l' <= 1024)%nat) by (unfold l'; rewrite length_take; lia).
  destruct (strtok_spec fuel 1025 scommand u1 scommand (scommand + 1025) scommand l')
    as (token & u2 & E2 & Hp2 & Hs2 & Ho2); [split; [exact Hc|lia|exact Hmi]|lia|lia|left; split; [lia|by split]|].
  rewrite (bind_Ret _ _ _ _ _ E2).
  change (single_quote_started u1) with (single_quote_started u) in Hp2.
  change (double_quote_started u1) with (double_quote_started u) in Hp2.
  assert (Hkeep : forall a, mine (sys u) a -> a < scommand \/ scommand + 1025 <= a -> rd (umem u2) a = rd (umem u) a)
    by (intros a _ Ha; rewrite Ho2 by done; apply Ho; lia).
  change (sys u1) with (sys u) in Hs2.
  destruct (Z.eqb_spec token 0) as [->|Ht].
  - destruct Hp2 as [(_ & Ets & Hsp2)|[? _]]; [|done]. rewrite Ets. exists 0, u2, []. split; [done|].
    split; [by apply parsed_none; [|apply built_none]|by rewrite Hs2|done].
  - destruct (parse_root_spec n fuel scommand u2 token _ Hp2 Ht) as (r & u' & nodes & E & [Q1 Q2 Q3]).
    + etransitivity; [apply tokens_length|lia].
    + lia.
    + intros a Ha. rewrite Hs2. by apply Hmi.
    + exists r, u', nodes. split; [exact E|]. rewrite Hs2 in *. split.
      * destruct Q1 as [P1 P2 P3 Pb P4]. split; try done; [|by rewrite Hs2 in P4].
        unfold built in *. by rewrite Hs2 in Pb.
      * done.
      * intros a Ha Hta. rewrite Q3 by done. by apply Hkeep.
Qed.
End command.

(** ** Properties *)

(** C26. The command parser: with [strtok] at rest, [liebeos_parse_command]
    copies the command (its first 1024 characters) and builds the list of
    arguments the kernel expects, holding the tokens of the text in order,
    each cut to 511 characters, in fresh blocks.  It allocates once for each
    node, in order, and stops short of the last token exactly when the next
    allocation is answered with 0; the list is then the prefix built so far
    (null when it is empty), and then, and only then, [strtok] is left in the
    middle of the text.  The program's other memory is unchanged.  (The length
    limit given is at most 1024.) *)
Theorem parse_command_tokens {K} `{SysCalls K} n fuel scommand command max (u : user K) l :
  max < 1025 -> strtok_sp u = 0 -> 0 < scommand -> cstr (at_mem (umem u) command) l ->
  command + Z.of_nat (length l) < scommand \/ scommand + 1025 <= command ->
  (forall a, scommand <= a < scommand + 1025 -> mine (sys u) a) -> (1024 <= n)%nat -> (1025 <= fuel)%nat ->
  exists r u' nodes, liebeos_parse_command n fuel scommand command max u = Ret r u' /\
    let ts := tokens 1025 (single_quote_started u) (double_quote_started u) (take 1024 l) in
    arg_chain (umem u') r nodes /\ snd <$> nodes = take 511 <$> take (length nodes) ts /\
    built u u' ts nodes /\
    (strtok_sp u' = 0 <-> length nodes = length ts) /\
    (forall b s x, (b, s) ∈ nodes -> b <= x < b + 516 -> ~ mine (sys u) x) /\
    (forall a, mine (sys u) a -> a < scommand \/ scommand + 1025 <= a -> rd (umem u') a = rd (umem u) a).
Proof.
  intros Hmax Hsp Hp Hs Hap Hmi Hn Hf.
  destruct (parse_command_spec n fuel scommand command max u l) as (r & u' & nodes & E & [[P1 P2 P3 Pb P4] _ Ho]);
    try done. exists r, u', nodes. by repeat (split; [done|]).
Qed.

(** C34. Spaces only separate inside quotes: a command without quotes, like
    [echo hello], becomes one argument that holds the whole line (without its
    leading spaces, and cut to 511 characters), unless its one allocation is
    answered with 0: then the result is null.  For a blank line the result is
    null and nothing is allocated. *)
Theorem unquoted_command_unsplit {K} `{SysCalls K} n fuel scommand command max (u : user K) l :
  max < 1025 -> strtok_sp u = 0 -> 0 < scommand -> cstr (at_mem (umem u) command) l ->
  command + Z.of_nat (length l) < scommand \/ scommand + 1025 <= command ->
  (forall a, scommand <= a < scommand + 1025 -> mine (sys u) a) -> (1024 <= n)%nat -> (1025 <= fuel)%nat ->
  single_quote_started u = false -> double_quote_started u = false ->
  Forall (fun c => c <> 39 /\ c <> 34) l ->
  exists r u', liebeos_parse_command n fuel scommand command max u = Ret r u' /\
    match skip_spaces (take 1024 l) with
    | [] => r = 0 /\ sys u' = sys u
    | line => r <> 0 /\ arg_chain (umem u') r [(r, take 511 line)] /\ allocs (sys u) [r] (sys u') \/
        r = 0 /\ exists m, sys_malloc sizeof_command_argument m (sys u) = (0, umem u', sys u')
    end.
Proof.
  intros Hmax Hsp Hp Hs Hap Hmi Hn Hf Hsq Hdq Hq.
  destruct (parse_command_spec n fuel scommand command max u l) as (r & u' & nodes & E & [[P1 P2 _ Pb _] _ _]); try done.
  rewrite Hsq, Hdq, tokens_unquoted in P2, Pb by (by apply Forall_take || lia).
  exists r, u'. split; [exact E|].
  destruct (skip_spaces (take 1024 l)) as [|c l'], nodes as [|[b s] [|x nodes]]; cbn [length] in *; try done.
  - split; [exact P1|]. destruct Pb as [[_ Ha]|[? _]]; [by inversion Ha|cbn in *; lia].
  - right. split; [exact P1|]. destruct Pb as [[? _]|(_ & m & k & Ha & Em)]; [done|].
    inversion Ha; subst. by exists m.
  - injection P2 as ->. cbn [arg_chain] in *. destruct P1 as (-> & ? & ? & ? & ?). left.
    destruct Pb as [[_ Ha]|[? _]]; [|cbn in *; lia]. split; [done|]. by split.
Qed.

(** ** Witnesses *)

(** The machine with a command line at 0x1000. *)
Definition command_machine (s : list Z) : user console_machine :=
  machine [] (store_bytes ∅ 0x1000 (s ++ [0])).

(** The line [run 'a b']. *)
Lemma parse_command_tokens_witness : exists r u' b,
  liebeos_parse_command 2000 2000 0x2000 0x1000 1024 (command_machine [114; 32; 39; 97; 32; 98; 39]) = Ret r u' /\
  arg_chain (umem u') r [(r, [114; 32; 39; 97]); (b, [98; 39])].
Proof.
  destruct (parse_command_tokens 2000 2000 0x2000 0x1000 1024 (command_machine [114; 32; 39; 97; 32; 98; 39])
    [114; 32; 39; 97; 32; 98; 39]) as (r & u' & nodes & E & Hch & Hs & _ & Hall & _).
  all: try (cbn; lia).
  - apply store_bytes_cstr. repeat (constructor; [unfold char_ok; lia|]). constructor.
  - assert (Hsp : match liebeos_parse_command 2000 2000 0x2000 0x1000 1024 (command_machine [114; 32; 39; 97; 32; 98; 39])
      with Ret _ v => strtok_sp v =? 0 | _ => false end = true) by (by vm_compute).
    rewrite E in Hsp. apply Z.eqb_eq, Hall in Hsp. cbn in Hsp.
    destruct nodes as [|[b1 s1] [|[b2 s2] [|]]]; cbn [length] in Hsp; try lia. cbn in Hs. injection Hs as -> ->.
    exists r, u', b2. split; [exact E|]. clear E. cbn [arg_chain] in *.
    destruct Hch as (-> & H1 & H2 & H3 & H4). split; [reflexivity|]. split; [exact H1|]. split; [exact H2|].
    split; [exact H3|exact H4].
Defined.

(** The line [echo hi]. *)
Lemma unquoted_command_unsplit_witness : exists r u',
  liebeos_parse_command 2000 2000 0x2000 0x1000 1024 (command_machine [101; 99; 104; 111; 32; 104; 105]) = Ret r u' /\
  arg_chain (umem u') r [(r, [101; 99; 104; 111; 32; 104; 105])].
Proof.
  destruct (unquoted_command_unsplit 2000 2000 0x2000 0x1000 1024 (command_machine [101; 99; 104; 111; 32; 104; 105])
    [101; 99; 104; 111; 32; 104; 105]) as (r & u' & E & Hr).
  all: try (cbn; lia); try reflexivity.
  - apply store_bytes_cstr. repeat (constructor; [unfold char_ok; lia|]). constructor.
  - repeat (constructor; [lia|]). constructor.
  - exists r, u'. split; [exact E|]. destruct Hr as [(_ & Hc & _)|[-> _]]; [exact Hc|]. exfalso.
    assert (Hn : match liebeos_parse_command 2000 2000 0x2000 0x1000 1024 (command_machine [101; 99; 104; 111; 32; 104; 105])
      with Ret v _ => v =? 0 | _ => true end = false) by (by vm_compute).
    rewrite E in Hn. discriminate Hn.
Defined.
